(* ===== verification/_CoqProject ===== *)
-Q . S2P
Prelude.v
Machine.v
Memory.v
Vga.v
Text.v
Checksum.v
Alloc.v
Pci.v
Keyboard.v
NetDriver.v
Network.v
Rings.v
Pcnet32.v
Rtl8101.v
RefEth.v
Rtl8139.v
Ne2000.v
Drivers.v
Rtl8101Spec.v
Ne2000Spec.v
Bench.v
Pcnet32Spec.v
NetStack.v
Packets.v
Interrupt.v
Replies.v
Commands.v
Server.v
Ip.v
ArpIcmp.v
Stack.v
Poll.v
Receivers.v
NetIdle.v
PollSpec.v
Menu.v
Dialogs.v
MainLoop.v
Start.v
Boot.v
ELib.v
EndToEnd.v
SLib.v
SLibSpec.v
SerialTarget.v
Debugger.v
DebugModes.v
DebugPages.v
DebuggerSpec.v
DebugCommands.v
DebugBench.v
DebugModesSpec.v
DebugText.v
DebugLong.v
DebugLink.v
DebugStart.v
DebugSystem.v
CpuTests.v
CpuTestsSpec.v
RunTests.v
Tools.v
