(* ===== verification/Prelude.v ===== *)
(** * remote-x86: a verification development

    remote-x86 boots a PC into a small debugger that a second computer controls
    over a serial line or over Ethernet.  This library models both ends of both
    ways: the bare-metal C program of src/eth with all its network drivers, the
    serial debugger in assembly language (src/stage2-*.asm) in its five CPU modes,
    the host libraries src/comm/e_lib.c and src/comm/s_lib.c, and the programs
    built on them.  It proves what they promise each other: from power-on the
    program reaches a main loop in which a host can read, write and execute the
    target's memory with UDP datagrams through every driver, a lost or repeated
    datagram does no harm, the serial debugger does with memory what the host asks
    for, and the CPU test driver finds out about a machine over the serial line
    what is true of it.

    ** The program

    c_start (c-main.c) sets up the allocator, the VGA console, the interrupt
    table, PIC and timer, the keyboard and the PCI table, chooses a network
    driver (network.c), opens it and enters main_menu, which never returns: each
    pass looks at the keyboard and calls net_idle.  net_idle takes one frame from
    the driver (net-pcnet32.c, net-rtl8101.c, net-rtl8139.c or net-ne2000.c,
    behind struct network_driver), hands it to the ARP or IPv4 code and gives the
    buffer back.  IPv4 leads to ICMP echo or to the UDP server on port 777, whose
    commands TEST, READ, WRITE, LOW and EXEC work on the machine's memory.  On the
    host, e_lib.c prints the commands, sends them, waits, retries and checks the
    answers; s_lib.c does the same with lines over a serial port.  e_test.c and
    s_test.c try the two libraries out; tests/cpu_tests.c uploads and runs small
    programs over s_lib.c, decodes their results, and looks for memory aliases.
    At the other end of the serial line, stage2-8086.asm asks for a port, sets up
    its UART and reads lines: TEST, READ, READB, WRITE, WRITEB, EXEC and LOW work
    on memory, and the names of the modes jump to the copies of the same code for
    16-bit and 32-bit protected mode and for long mode (stage2-286.asm,
    stage2-386-16.asm, stage2-386-32.asm, stage2-x64.asm).

    ** The model

    The C program runs on one state, [Machine.machine]: a flat memory of bytes
    ([gmap Z Z], addresses modulo 2^32; receive and transmit buffers, descriptor
    rings, text screen and IDT live there), the static variables of each file as
    a record with the names of the source, and a trace of port accesses.  Code is
    a function in the monad [SM] of this file: state passing, with a sum for the
    ways in which C code does not return ([NoReturn] for a loop that ran out of
    fuel or code that does not come back, [Undefined] for undefined behaviour,
    [Aborted] for a failed assertion).
    Integers are [Z] with the wrap-around of their C type written out ([u8],
    [u16], [u32], [u64], [s8], [s32]).  These things are parameters:
    - [Machine.Env]: what port reads return, what the card has done to memory by
      the next look at a volatile descriptor, what uploaded code does, and the
      fuel of busy-wait loops;
    - [Machine.Linker]: the addresses the linker chooses;
    - [ELib.HostEnv], [ELib.SocketEnv], [SLib.SerialEnv] and [CpuTests.TestEnv]:
      sockets, serial port, files, terminal and clock of the hosts;
    - [Debugger.Board] and [Debugger.Image]: address decoding, the UART's status,
      other ports and the code that EXEC calls; where the linker has put the
      debugger's variables.
    The serial debugger has a state of its own, [Debugger.debugger]: the cells of
    memory, the bytes that are to arrive and those sent, the port writes and the
    mode.  A routine takes and returns the registers it uses, a carry flag that
    decides a jump is a [bool], and what the five files do differently is a record
    [flavour], whose laws ([FlavourLaws]) are proved for all of them.
    The protocol code is proved for any table of drivers ([NetDriver.NetDrivers])
    whose chosen entry satisfies [DriverLaws] and [ReceiverLaws]; the table of
    the program is [Drivers.eth_drivers].
    Theorems about results are total: [wp m Q s] and the equations
    [m s = inr (r, s')] say that the code returns.

    ** Files

    - Prelude: widths, the monad, total-correctness rules ([wp], [stays]) and
      their automation, arithmetic on bits.
    - Machine, Memory: the state; byte, word and block access, memcpy, memset,
      memcmp, strlen, strcpy, ioport.h; frame relations ([mem_frame], [io_only]).
    - Vga: vga.c and the console helpers of c-main.c, an abstract terminal and
      the proof that the code implements it.
    - Text: ntoh16, the scanners and hex_to_str of c-main.c.
    - Checksum: the summing loop that c-main.c repeats, and RFC 1071.
    - Alloc: alloc.c.
    - Pci: pci.c.
    - Keyboard: keyb8042.c.
    - NetDriver: network.h; the class [DriverLaws] says what the protocol code
      relies on in a driver that sends.
    - Network: the choice of a card in network.c.
    - Rings: lemmas the two drivers with descriptor rings share.
    - Pcnet32: net-pcnet32.c, the ring invariant, what the card may do
      ([CardOk]), and [pcnet32_laws], the instance of [DriverLaws].
    - Rtl8101: net-rtl8101.c in the same way; [RtlCardOk] asks only that the card
      keeps to what it owns, since every wait of this driver ends.
    - RefEth: ref/eth.c, the test program from which that driver was written.
    - Rtl8139: net-rtl8139.c, the stubs that its #if 0 leaves.
    - Ne2000: net-ne2000.c, observations on the port history (register writes by
      page, bytes of the data port), [ne2000_laws].
    - Drivers: net_drivers[] with the four drivers.
    - Rtl8101Spec, Ne2000Spec, Pcnet32Spec: the properties of the drivers.
    - Bench: one concrete machine and PCnet card, for evaluation and witnesses.
    - NetStack: the handlers of c-main.c from net_on_arp to net_idle.
    - Packets: wire formats as byte lists, independent of the code.
    - Interrupt: interrupt.c, pic-8259.c, pit-8253.c.
    - Replies, Commands: what make_udp_response and each command handler do, for
      any driver with [DriverLaws].
    - Server: the contract of the command server, [carries], [effect] and
      [answer], and the proof that [serve] implements it.
    - Ip, ArpIcmp: which packets are accepted; ARP and echo replies.
    - Stack: the receive path, packet to frame.
    - Poll: [frame_effect], the abstract behaviour for every kind of frame,
      [ReceiverLaws], and net_idle between them, once and in a loop.
    - Receivers: the instances of [ReceiverLaws] for the three drivers.
    - NetIdle: one pass of net_idle with the PCnet driver, down to descriptors.
    - PollSpec: the properties of the poll for every driver.
    - Menu: the menus, the address dialogue and c_start.
    - Dialogs: the dialogues draw on the screen only and return or go on waiting
      ([waits], [lingers]); the line editor of the address dialogue.
    - MainLoop: a pass of main_menu, keyboard and poll together, and the loop.
    - Start: [OpenLaws], what the init of a driver promises, its instances for
      the three drivers, and the way from an unused card to the main loop.
    - Boot: [KeyboardOk], a keyboard controller that answers; every step of
      c_start returns, and a machine with a card reaches main_menu.
    - ELib: comm/e_lib.c and its connections.
    - EndToEnd: host and target together, under loss and repetition.
    - SLib, SLibSpec: comm/s_lib.c, and its properties against a serial line that
      delivers its bytes in arbitrary pieces.
    - SerialTarget: the machines behind the line.  [SerialTarget] is the class of
      those that answer READB and WRITEB from a memory with its own address
      decoding, [ExecTarget] of those that also run code; [Reference] is a machine
      of that kind that runs byte by byte.
    - Debugger: the routines and commands that the five stage2 files share, over a
      [flavour].  DebugModes: the five flavours, descriptor and page tables, the
      jumps between the modes, and the start of stage2-8086.asm.
    - DebugPages: the bytes of the page tables, and the translation that a processor
      makes of them.
    - DebuggerSpec, DebugCommands: [does], total runs whatever the UART's timing;
      scanning numbers, the line editor ([typed]), the commands for any flavour
      with [FlavourLaws].  DebugBench: a concrete board and image.
    - DebugModesSpec: the instances of [FlavourLaws], EXEC and the mode commands.
    - DebugText: READ and WRITE.  DebugLong: the way to long mode.
    - DebugStart: from the question for the port to the main loop.
    - DebugLink: the debugger as the machine behind a [SerialLine], and s_lib.c
      over it ([linked]).  DebugSystem: the properties of the two together.
    - CpuTests: comm/tests/cpu_tests.c.
    - CpuTestsSpec: what the driver stores, recognises and counts when it talks
      to a [SerialTarget].
    - RunTests: contracts for the uploaded programs ([program]), and the whole of
      run_tests over an [ExecTarget].
    - Tools: comm/e_test.c and comm/s_test.c.

    ** What is shown

    - The service (C1-C8, C24-C26): a pass of net_idle performs the command of a
      datagram exactly once as the abstract server says, answers it and releases
      the descriptor; the same for every kind of frame and every driver; start-up
      returns and opening a driver leads into the main loop, which keeps serving
      whatever the operator types (probing again apart); reading and writing any
      range from the host gives and stores exactly the bytes, with up to two
      losses per block; EXEC runs code once per sequence number; both ends read
      each other's texts.
    - The filters (C9-C12): exactly the valid packets for this machine are acted
      on, all others leave it unchanged.
    - The drivers (C13-C18, C21, C22): rings and registers are set up, every kind
      of descriptor or packet header is handled, frames go out whole, ownership
      is passed correctly, no length a card reports leads out of a buffer, and
      the waits with a patience counter and the probe for ISA cards end.
    - The serial library (C19, C34): reads are exact under any fragmentation (writes:
      [rs232_write_any_pieces]), answers are bounded and end by their deadline.
    - The serial debugger (C20, C27, C35, C36, C40): the host reads and stores exactly
      the debugger's memory in all five modes, and is told of addresses out of
      range; from the first key on, uploaded code runs and its result comes
      back; what READ prints, WRITE stores; the page tables of long mode; no input
      overruns the line buffer.
    - The CPU test driver (C23, C29, C30): run_tests records exactly what the
      uploaded programs find out, the alias scans count the address lines of the
      machine, the A20 test is exact and restores memory; uploading stores what it
      says for files of one block ([upload_code_stores]), CPUID is decoded without
      loss ([cpuid_decoded]).
    - The parts below (C28, C31-C33): checksum, terminal, allocator, PCI scan;
      further theorems on card selection ([autoprobe_first_card]), lost blocks
      ([read_block_retries]), the number formats
      ([hex_print_scan], [parse_ipv4_text]), the interrupt table
      ([interrupt_init_gates]), NE2000 cards ([ne2000_probe_returns], [ne2000_init_programs]),
      the screen dump ([show_screen_cell]) and ref/eth.c
      ([ref_eth_main_one_look]).
    - Where the code departs from its intent (C37-C39, parts of C29 and C36, and
      the theorems [upload_code_stores], [udp_ones_checksum_dropped], [exec_repeats_within_second],
      [send_error_undetected], [pci_find_classified], [ne2000_first_packet_lost],
      [rs232_read_leftover_success], [rs232_write_error_aborts]): lengths that
      wrap, a legal checksum that is refused, frames that block the receiver or
      get lost, EXECs within one second, errors taken for success, a driver
      forgotten while it is open, blocks that overwrite each other, aliases that
      are not reported, 64 GB of which sixty are the first four again.

    ** Bounds and fuel

    Busy-wait loops and scanners run on [env_fuel].  The theorems about them ask
    only for what is needed: a datagram shorter than the fuel ([command_ok]), a
    card that releases a transmit descriptor or its transmitter within it
    ([CardOk], [NeCardOk]); the concrete machine has 100.  Loops with a patience
    counter ([busy_wait]) and counted loops (PCI scan, rings, blocks of 1400
    bytes) are structural and need none.  A dialogue that the operator does not
    close uses up the fuel; the theorems say so ([waits]) instead of assuming
    that he does.  The waits of keyb8042_init end within the fuel because the
    number of further looks at a busy controller is bounded ([KeyboardOk]).  The
    loops of s_lib.c run on [ser_fuel]; the theorems ask for ([passes]) one pass
    per byte and failed call, or for the calls that fit before a deadline.  The
    scans of cpu_tests.c get 32 passes or one per address line, which is proved to
    be enough.  The debugger's waits and scans run on [dbg_fuel]: [BoardOk] asks
    that the UART shows a byte that is there and a free transmitter within it, and
    that it exceeds the 256 bytes of the line buffer, so that no scan runs out of it; the two
    loops that count bytes are structural.

    ** Not modelled

    The code that #if 0 switches off (most of net-rtl8139.c), the declarations in
    multiboot.h, the loaders that bring an image into memory with BIOS, DOS or GRUB
    calls (stage1-*.asm, dosboot.asm, grubboot.S, eth/stage2eth-base.asm), the
    interrupt stubs, and the small programs that cpu_tests.c uploads: an uploaded
    program is a contract, and what calling an address does is a parameter.
    Messages to stderr, messages through the BIOS and pauses are left out.
    run_tests is proved over the class [ExecTarget], which asks for all of memory in
    every mode; the debugger gives what DebugLink states, memory outside itself
    within the range of the mode, which the programs uploaded by cpu_tests.c keep to
    and its alias scans do not.  The main functions of the tools are definitions
    without an end to end theorem: remote_rs232_configure reads until nothing is
    waiting, which [SerialLine] leaves open. *)

From stdpp Require Export base list numbers strings gmap.
From Stdlib Require Export ZArith Lia.
From Stdlib Require Import Ascii String.

Open Scope Z_scope.

(** ** Machine-width integers

    A w-bit C integer is a [Z]; the wrap-around of the C types is written out
    with these functions.  [s8] and [s32] are the two's-complement readings of
    [char] and [int]. *)

Definition u8 (z : Z) : Z := z mod 256.
Definition u16 (z : Z) : Z := z mod 65536.
Definition u32 (z : Z) : Z := z mod 4294967296.
Definition u64 (z : Z) : Z := z mod 18446744073709551616.
Definition s8 (z : Z) : Z := (z + 128) mod 256 - 128.
Definition s32 (z : Z) : Z := (z + 2147483648) mod 4294967296 - 2147483648.

(** ** Tactics *)

(** Arithmetic with the constant moduli of the width functions. *)
Ltac wrap_lia :=
  unfold u8, u16, u32, u64, s8, s32 in *;
  Z.div_mod_to_equations; lia.

(** Split the first conditional or comparison in sight. *)
Ltac case_bool :=
  match goal with
  | |- context [if ?b then _ else _] => let E := fresh "E" in destruct b eqn:E
  | H : context [if ?b then _ else _] |- _ => let E := fresh "E" in destruct b eqn:E
  end.

(** Turn boolean tests on [Z] in the hypotheses into propositions. *)
Ltac bool_to_prop :=
  repeat match goal with
  | H : (_ =? _) = true |- _ => apply Z.eqb_eq in H
  | H : (_ =? _) = false |- _ => apply Z.eqb_neq in H
  | H : (_ <? _) = true |- _ => apply Z.ltb_lt in H
  | H : (_ <? _) = false |- _ => apply Z.ltb_ge in H
  | H : (_ <=? _) = true |- _ => apply Z.leb_le in H
  | H : (_ <=? _) = false |- _ => apply Z.leb_gt in H
  | H : negb _ = true |- _ => apply negb_true_iff in H
  | H : negb _ = false |- _ => apply negb_false_iff in H
  | H : (_ && _)%bool = true |- _ => apply andb_true_iff in H as [? ?]
  | H : (_ || _)%bool = false |- _ => apply orb_false_iff in H as [? ?]
  end.

(** ** Generic lemmas on widths *)

Create HintDb widths discriminated.
Create Rewrite HintDb widths.

Lemma u8_range z : 0 <= u8 z < 256.
Proof. wrap_lia. Qed.
Lemma u16_range z : 0 <= u16 z < 65536.
Proof. wrap_lia. Qed.
Lemma u32_range z : 0 <= u32 z < 4294967296.
Proof. wrap_lia. Qed.
Lemma u8_small z : 0 <= z < 256 -> u8 z = z.
Proof. wrap_lia. Qed.
Lemma u16_small z : 0 <= z < 65536 -> u16 z = z.
Proof. wrap_lia. Qed.
Lemma u32_small z : 0 <= z < 4294967296 -> u32 z = z.
Proof. wrap_lia. Qed.
Lemma u8_u8 z : u8 (u8 z) = u8 z.
Proof. wrap_lia. Qed.
Lemma u32_u32 z : u32 (u32 z) = u32 z.
Proof. wrap_lia. Qed.
Lemma u32_add_l a b : u32 (u32 a + b) = u32 (a + b).
Proof. wrap_lia. Qed.
Lemma u32_add_r a b : u32 (a + u32 b) = u32 (a + b).
Proof. wrap_lia. Qed.

(** A value shifted by [k] and a [k]-bit value have no bit in common. *)
Lemma land_shifted k a b : 0 <= k -> 0 <= b < 2 ^ k -> Z.land (a * 2 ^ k) b = 0.
Proof.
  intros Hk Hb. apply Z.bits_inj'. intros n Hn. rewrite Z.land_spec, Z.bits_0.
  destruct (Z_lt_le_dec n k).
  - by rewrite Z.mul_pow2_bits_low by lia.
  - destruct (Z.eq_dec b 0) as [->|]; [by rewrite Z.bits_0, andb_false_r|].
    rewrite (Z.bits_above_log2 b n); [by rewrite andb_false_r|lia|].
    apply Z.log2_lt_pow2; [lia|]. assert (2 ^ k <= 2 ^ n) by (apply Z.pow_le_mono_r; lia). lia.
Qed.

Lemma lor_shifted k a b : 0 <= k -> 0 <= b < 2 ^ k -> Z.lor (a * 2 ^ k) b = a * 2 ^ k + b.
Proof.
  intros Hk Hb. pose proof (Z.add_lor_land (a * 2 ^ k) b) as E.
  rewrite land_shifted in E by done. lia.
Qed.

(** Masking off the low bits of a 32-bit value. *)
Lemma land_lnot_low a k :
  0 <= k <= 32 -> 0 <= a < 4294967296 -> Z.land a (u32 (Z.lnot (2 ^ k - 1))) = a - a mod 2 ^ k.
Proof.
  intros Hk Ha. rewrite <- (Z.land_ones a k), Z.ones_equiv, <- Z.sub_1_r by lia.
  assert (Z.ldiff a (2 ^ k - 1) = a - Z.land a (2 ^ k - 1)) as <-.
  { pose proof (Z.add_nocarry_lxor (Z.ldiff a (2 ^ k - 1)) (Z.land a (2 ^ k - 1))) as E.
    assert (Z.land (Z.ldiff a (2 ^ k - 1)) (Z.land a (2 ^ k - 1)) = 0) as E0.
    { apply Z.bits_inj'. intros n Hn. rewrite Z.land_spec, Z.ldiff_spec, Z.land_spec, Z.bits_0.
      by destruct (Z.testbit a n), (Z.testbit (2 ^ k - 1) n). }
    assert (Z.lxor (Z.ldiff a (2 ^ k - 1)) (Z.land a (2 ^ k - 1)) = a) as Ex.
    { apply Z.bits_inj'. intros n Hn. rewrite Z.lxor_spec, Z.ldiff_spec, Z.land_spec.
      by destruct (Z.testbit a n), (Z.testbit (2 ^ k - 1) n). }
    specialize (E E0). lia. }
  apply Z.bits_inj'. intros n Hn. unfold u32. change 4294967296 with (2 ^ 32).
  rewrite Z.ldiff_spec, Z.land_spec, <- Z.land_ones, Z.land_spec, Z.lnot_spec by lia.
  destruct (Z_lt_le_dec n 32) as [Hlt|Hge].
  - rewrite Z.ones_spec_low by lia. by rewrite andb_true_r.
  - assert (Z.testbit a n = false) as ->; [|done].
    destruct (Z.eq_dec a 0) as [->|]; [apply Z.bits_0|]. apply Z.bits_above_log2; [lia|].
    apply Z.log2_lt_pow2; [lia|]. assert (2 ^ 32 <= 2 ^ n) by (apply Z.pow_le_mono_r; lia). lia.
Qed.

#[export] Hint Resolve u8_range u16_range u32_range u8_small u16_small u32_small : widths.
#[export] Hint Rewrite u8_u8 u32_u32 u32_add_l u32_add_r : widths.

(** A decidable property of a small range of integers, by evaluation. *)
Lemma forallb_range (f : Z -> bool) n :
  forallb f (seqZ 0 n) = true -> forall d, 0 <= d < n -> f d = true.
Proof.
  intros Hf d Hd. rewrite forallb_forall in Hf. apply Hf, list_elem_of_In, elem_of_seqZ. lia.
Qed.

(** ** Strings of bytes *)

(** The bytes of a C string literal, without the terminating NUL. *)
Definition str (s : string) : list Z :=
  (λ c, Z.of_N (N_of_ascii c)) <$> String.list_ascii_of_string s.

(** ** The state-and-stop monad

    A C function is a computation on a state [S]: it either returns a value in
    a new state, or it stops.  [NoReturn] is a busy-wait loop that did not end
    within its fuel (or uploaded code that never came back); [Undefined] is a
    step whose result the C language leaves undefined; [Aborted] is a failed
    assertion. *)

Inductive stop : Type := NoReturn | Undefined | Aborted.

#[export] Instance stop_eq_dec : EqDecision stop.
Proof. solve_decision. Defined.

Definition SM (S A : Type) : Type := S -> stop + (A * S).

#[export] Instance SM_ret S : MRet (SM S) := λ A a s, inr (a, s).
#[export] Instance SM_bind S : MBind (SM S) := λ A B f m s,
  match m s with
  | inl e => inl e
  | inr (a, s') => f a s'
  end.

Definition get {S} : SM S S := λ s, inr (s, s).
Definition gets {S A} (f : S -> A) : SM S A := λ s, inr (f s, s).
Definition modify {S} (f : S -> S) : SM S unit := λ s, inr (tt, f s).
Definition halt {S A} (e : stop) : SM S A := λ _, inl e.
Definition skip {S} : SM S unit := mret tt.
Definition when {S} (b : bool) (m : SM S unit) : SM S unit := if b then m else skip.

(** [for (i = lo; i < lo + n; i++) body(i)] *)
Fixpoint for_range {S} (lo : Z) (n : nat) (body : Z -> SM S unit) : SM S unit :=
  match n with
  | O => skip
  | S n' => body lo ;; for_range (lo + 1) n' body
  end.

(** [while (cond) body], with fuel: [cond] may have effects. *)
Fixpoint while {S} (fuel : nat) (cond : SM S bool) (body : SM S unit) : SM S unit :=
  match fuel with
  | O => halt NoReturn
  | S f => b ← cond; if b : bool then body ;; while f cond body else skip
  end.

(** [unsigned int patience = p; while (busy()) { if (--patience == 0) break; }]:
    at most [p] tests, by recursion on the binary counter so that a patience of
    millions can be evaluated; [true] when the patience ran out.  [busy_loop]
    is the same loop with a unary counter. *)
Fixpoint busy_wait {S} (p : positive) (busy : SM S bool) : SM S bool :=
  match p with
  | xH => busy
  | xO p' => b ← busy_wait p' busy; if b : bool then busy_wait p' busy else mret false
  | xI p' =>
      b ← busy;
      if b : bool then b ← busy_wait p' busy; if b : bool then busy_wait p' busy else mret false
      else mret false
  end.

Fixpoint busy_loop {S} (patience : nat) (busy : SM S bool) : SM S bool :=
  match patience with
  | O => mret true
  | S n => b ← busy; if b : bool then busy_loop n busy else mret false
  end.

Lemma busy_loop_add {St} (busy : SM St bool) n : forall k s,
  busy_loop (n + k) busy s = (b ← busy_loop n busy; if b : bool then busy_loop k busy else mret false) s.
Proof.
  induction n as [|n IH]; intros k s; cbn [Nat.add busy_loop]; [done|].
  unfold mbind, SM_bind. destruct (busy s) as [|[[] s1]]; [done| |done]. apply IH.
Qed.

(** The two counters agree. *)
Lemma busy_wait_loop {St} (busy : SM St bool) p : forall s,
  busy_wait p busy s = busy_loop (Pos.to_nat p) busy s.
Proof.
  induction p as [p IH|p IH|]; intros s; cbn [busy_wait].
  - replace (Pos.to_nat (xI p)) with (S (Pos.to_nat p + Pos.to_nat p))%nat by lia. cbn [busy_loop].
    unfold mbind, SM_bind. destruct (busy s) as [|[[] s1]]; [done| |done].
    rewrite busy_loop_add. unfold mbind, SM_bind. rewrite <- IH.
    destruct (busy_wait p busy s1) as [|[[] s2]]; [done|apply IH|done].
  - replace (Pos.to_nat (xO p)) with (Pos.to_nat p + Pos.to_nat p)%nat by lia.
    rewrite busy_loop_add. unfold mbind, SM_bind. rewrite <- IH.
    destruct (busy_wait p busy s) as [|[[] s2]]; [done|apply IH|done].
  - change (Pos.to_nat 1) with 1%nat. cbn [busy_loop]. unfold mbind, SM_bind.
    destruct (busy s) as [|[[] s1]]; done.
Qed.

(** Total-correctness triples: [wp m Q s] says that [m] returns from [s], with
    a result that satisfies [Q]. *)
Definition wp {S A} (m : SM S A) (Q : A -> S -> Prop) (s : S) : Prop :=
  match m s with
  | inl _ => False
  | inr (a, s') => Q a s'
  end.

Section wp_rules.
Context {S A B : Type}.
Implicit Types (m : SM S A) (Q : A -> S -> Prop) (s : S).

Lemma wp_run m Q s : wp m Q s <-> exists a s', m s = inr (a, s') /\ Q a s'.
Proof.
  unfold wp; split.
  - destruct (m s) as [|[a s']]; [done|eauto].
  - by intros (a & s' & -> & HQ).
Qed.

Lemma wp_ret a Q s : Q a s -> wp (mret a) Q s.
Proof. done. Qed.

Lemma wp_bind (f : A -> SM S B) m (Q : B -> S -> Prop) s :
  wp m (λ a s', wp (f a) Q s') s -> wp (m ≫= f) Q s.
Proof.
  unfold wp, mbind, SM_bind. destruct (m s) as [|[a s']]; done.
Qed.

Lemma wp_mono m (P Q : A -> S -> Prop) s :
  wp m P s -> (forall a s', P a s' -> Q a s') -> wp m Q s.
Proof. unfold wp. destruct (m s) as [|[a s']]; eauto. Qed.

(** Two computations that run alike. *)
Lemma wp_conv m m' Q s s' : m s = m' s' -> wp m' Q s' -> wp m Q s.
Proof. unfold wp. by intros ->. Qed.
End wp_rules.

Lemma wp_run_unit {S} (m : SM S unit) (Q : S -> Prop) s :
  wp m (λ _ s', Q s') s -> exists s', m s = inr (tt, s') /\ Q s'.
Proof. intros ([] & s' & Hr)%wp_run. by exists s'. Qed.

Lemma wp_when {S} b (m : SM S unit) Q s :
  (b = true -> wp m Q s) -> (b = false -> Q tt s) -> wp (when b m) Q s.
Proof. destruct b; intros H1 H2; [by apply H1 | by apply H2]. Qed.

(** An invariant of the body of a counted loop. *)
Lemma wp_for_range {St} (I : Z -> St -> Prop) n : forall lo body (s : St),
  I lo s ->
  (forall i s, lo <= i < lo + Z.of_nat n -> I i s -> wp (body i) (λ _ s', I (i + 1) s') s) ->
  wp (for_range lo n body) (λ _ s', I (lo + Z.of_nat n) s') s.
Proof.
  induction n as [|n IH]; intros lo body s HI Hbody; cbn [for_range].
  - apply wp_ret. by replace (lo + Z.of_nat 0) with lo by lia.
  - apply wp_bind. eapply wp_mono; [apply Hbody; [lia|done]|].
    intros [] s' HI'. replace (lo + Z.of_nat (S n)) with (lo + 1 + Z.of_nat n) by lia.
    apply IH; [done|]. intros i s'' Hi. apply Hbody. lia.
Qed.

Lemma wp_gets {St A} (f : St -> A) (Q : A -> St -> Prop) s : Q (f s) s -> wp (gets f) Q s.
Proof. done. Qed.

Lemma wp_modify {St} (f : St -> St) (Q : unit -> St -> Prop) s : Q tt (f s) -> wp (modify f) Q s.
Proof. done. Qed.

(** Symbolic execution of the straight-line part of a computation. *)
Ltac wp_step :=
  lazymatch goal with
  | |- wp (mbind _ _) _ _ => apply wp_bind
  | |- wp (gets _) _ _ => apply wp_gets
  | |- wp (modify _) _ _ => apply wp_modify
  | |- wp (mret _) _ _ => apply wp_ret
  | |- wp skip _ _ => apply wp_ret
  | |- wp (when _ _) _ _ => apply wp_when; intros
  end; cbv beta.
Ltac wp_steps := repeat wp_step.

(** ** Computations that keep an invariant and stay within a relation

    [stays I R m]: from every state where [I] holds, [m] returns, in a state
    where [I] holds again and which [R] relates to the first.  For a preorder
    [R] this is closed under sequencing, conditionals and counted loops, which
    is how frame properties are proved. *)

Definition stays {St A} (I : St -> Prop) (R : relation St) (m : SM St A) : Prop :=
  forall s, I s -> wp m (λ _ s', I s' /\ R s s') s.

Create HintDb stays.

Section stays_rules.
Context {St A B : Type} (I : St -> Prop) (R : relation St) `{!PreOrder R}.

Lemma stays_ret (a : A) : stays I R (mret a).
Proof. intros s Hs. apply wp_ret. by split. Qed.

Lemma stays_skip : stays I R skip.
Proof. intros s Hs. apply wp_ret. by split. Qed.

Lemma stays_gets (f : St -> A) : stays I R (gets f).
Proof. intros s Hs. apply wp_gets. by split. Qed.

Lemma stays_bind (m : SM St A) (f : A -> SM St B) :
  stays I R m -> (forall a, stays I R (f a)) -> stays I R (m ≫= f).
Proof.
  intros Hm Hf s Hs. apply wp_bind. eapply wp_mono; [by apply Hm|].
  intros a s' [Hs' H1]. eapply wp_mono; [by apply Hf|].
  intros b s'' [Hs'' H2]. split; [done|by etransitivity].
Qed.

Lemma stays_when b (m : SM St unit) : stays I R m -> stays I R (when b m).
Proof. destruct b; [done|]. intros _. apply stays_skip. Qed.

Lemma stays_for_range n : forall lo (body : Z -> SM St unit),
  (forall i, stays I R (body i)) -> stays I R (for_range lo n body).
Proof.
  induction n as [|n IH]; intros lo body Hb; cbn [for_range]; [apply stays_skip|].
  intros s Hs. apply wp_bind. eapply wp_mono; [by apply Hb|].
  intros [] s' [Hs' H1]. eapply wp_mono; [by apply IH|].
  intros [] s'' [Hs'' H2]. split; [done|by etransitivity].
Qed.

Lemma stays_busy_wait p (busy : SM St bool) : stays I R busy -> stays I R (busy_wait p busy).
Proof.
  intros Hb. induction p as [p IH|p IH|]; intros s Hs; cbn [busy_wait]; [| |by apply Hb].
  - apply wp_bind. eapply wp_mono; [by apply Hb|]. intros [] s1 [Hs1 H1]; [|by apply wp_ret].
    apply wp_bind. eapply wp_mono; [by apply IH|]. intros [] s2 [Hs2 H2]; [|apply wp_ret; split; [done|by etransitivity]].
    eapply wp_mono; [by apply IH|]. intros b s3 [Hs3 H3]. split; [done|]. etransitivity; [exact H1|by etransitivity].
  - apply wp_bind. eapply wp_mono; [by apply IH|]. intros [] s2 [Hs2 H2]; [|by apply wp_ret].
    eapply wp_mono; [by apply IH|]. intros b s3 [Hs3 H3]. split; [done|]. by etransitivity.
Qed.

Lemma stays_wp (m : SM St A) (Q : A -> St -> Prop) s :
  stays I R m -> I s -> (forall a s', I s' -> R s s' -> Q a s') -> wp m Q s.
Proof. intros Hm Hs HQ. eapply wp_mono; [by apply Hm|]. intros a s' []. by apply HQ. Qed.
End stays_rules.

(** Closes a [stays] goal over code whose leaves are hints. *)
Ltac solve_stays := repeat (intros; lazymatch goal with
  | |- stays _ _ (mbind _ _) => apply stays_bind; [typeclasses eauto| |]
  | |- stays _ _ (mret _) => apply stays_ret; typeclasses eauto
  | |- stays _ _ skip => apply stays_skip; typeclasses eauto
  | |- stays _ _ (gets _) => apply stays_gets; typeclasses eauto
  | |- stays _ _ (when _ _) => apply stays_when; [typeclasses eauto|]
  | |- stays _ _ (for_range _ _ _) => apply stays_for_range; [typeclasses eauto|]
  | |- stays _ _ (busy_wait _ _) => apply stays_busy_wait; [typeclasses eauto|]
  | |- stays _ _ (if _ then _ else _) => case_match
  | |- stays _ _ (match _ with _ => _ end) => case_match
  | |- stays _ _ _ => solve [eauto 2 with stays]
  end).
