(* ===== verification/Machine.v ===== *)
(** * The machine: the C objects of the Ethernet build, memory and I/O

    One record holds everything a function of src/eth can change: the flat
    32-bit memory reached through pointers, the port I/O performed so far, and
    the file-scope variables of each C file, grouped by file.  Objects that the
    code only uses by name (for example [my_ipv4_address], [pci_device[]]) are
    record fields; everything reached through an address (packet buffers, the
    descriptor rings, the VGA text RAM, the IDT) is in [m_mem].

    The outside world is the class [Env]: what a port read returns and what bus
    masters do to memory, as functions of the whole I/O history, and what
    uploaded code does when EXEC calls it.  Addresses chosen by the linker are
    the class [Linker]. *)

From S2P Require Import Prelude.

(** ** I/O history *)

Inductive event : Type :=
  | EvIn (width port value : Z)     (* a port read returned [value] *)
  | EvOut (width port value : Z)    (* a port write *)
  | EvPoll (addr : Z)               (* a read of a volatile memory cell *)
  | EvExec (addr : Z)               (* a call of uploaded code *)
  | EvCli | EvSti | EvLidt (addr : Z).

#[export] Instance event_eq_dec : EqDecision event.
Proof. solve_decision. Defined.

(** The calls of uploaded code in a history, latest first. *)
Definition executed (tr : list event) : list Z :=
  omap (λ e, match e with EvExec a => Some a | _ => None end) tr.

(** ** Static data of the C files *)

(** The drivers of [net_drivers[]] in network.c. *)
Inductive driver_id : Type := pcnet32 | rtl8101 | rtl8139 | ne2000.

#[export] Instance driver_id_eq_dec : EqDecision driver_id.
Proof. solve_decision. Defined.

(** vga.c *)
Record vga_state : Type := mkVga {
  VGA_alpha : Z;  (* pointer to the text RAM *)
  VGA_alpha_rows : Z;
  VGA_alpha_columns : Z;
  VGA_alpha_x : Z;
  VGA_alpha_y : Z;
  VGA_color : Z;
  VGA_iobase : Z
}.

(** [struct pci_bar], pci.h *)
Record pci_bar : Type := mkBar {
  bar_io : Z;  (* flags.io *)
  bar_prefetchable : Z;  (* flags.prefetchable *)
  bar_type : Z;  (* flags.type, 2 bits *)
  bar_present : Z;  (* flags.present *)
  bar_start : Z;
  bar_end : Z;
  bar_mask : Z
}.

(** [struct pci_device], pci.h *)
Record pci_device : Type := mkPciDevice {
  pd_bus : Z;
  pd_device : Z;
  pd_function : Z;
  pd_device_id : Z;
  pd_vendor_id : Z;
  pd_class_code : Z;
  pd_revision_id : Z;
  pd_subsystem_id : Z;
  pd_subsystem_vendor_id : Z;
  pd_expansion_rom : Z;
  pd_BAR : list pci_bar  (* 6 entries *)
}.

(** pci.c *)
Record pci_state : Type := mkPci {
  pci_devices : list pci_device;  (* pci_device[MAX_PCI_DEVICE] *)
  pci_bus_present : Z
}.

(** network.c, and the UDP and EXEC statics of c-main.c *)
Record net_state : Type := mkNet {
  my_ipv4_address : list Z;
  my_eth_mac : list Z;
  chosen_net_dev : option Z;  (* index into pci_device[], None for NULL *)
  chosen_net_drv : option driver_id;  (* None for NULL *)
  chosen_net_drv_open : Z;
  udp_resp_hdr : Z;
  udp_resp_data : Z;
  udp_resp_len : Z;
  exec_last_seq : Z
}.

(** net-pcnet32.c (the 512-byte [pcnet32_init_data] is in memory) *)
Record pcnet32_state : Type := mkPcnet32 {
  pcnet32_io : option Z;  (* index of the BAR in use, None for NULL *)
  pcnet32_iobase : Z;
  pcnet32_mac_address : list Z;
  pcnet32_rx : Z;  (* pointer, 0 for NULL *)
  pcnet32_rx_packets : Z;
  pcnet32_tx : Z;
  pcnet32_tx_packets : Z;
  pcnet32_ring_size : Z;
  pcnet32_rx_offset : Z;
  pcnet32_tx_offset : Z
}.

(** net-rtl8101.c *)
Record rtl8101_state : Type := mkRtl8101 {
  rtl8101_io : option Z;
  rtl8101_iobase : Z;
  rtl8101_mac_address : list Z;
  rtl8101_rx : Z;
  rtl8101_rx_packets : Z;
  rtl8101_tx : Z;
  rtl8101_tx_packets : Z;
  rtl8101_ring_size : Z;
  rtl8101_rx_offset : Z;
  rtl8101_tx_offset : Z;
  rtl8101_send_sz : Z
}.

(** net-ne2000.c *)
Record ne2000_state : Type := mkNe2000 {
  ne2000_mac_address : list Z;
  ne2000_probe_base : Z;
  ne2000_last_packet : Z;
  ne2000_xmit_packet : Z;
  ne2000_last_packet_size : Z;
  ne2000_xmit_packet_size : Z
}.

(** The whole machine *)
Record machine : Type := mkMachine {
  m_mem : gmap Z Z;  (* flat 32-bit memory, one cell per byte *)
  m_trace : list event;  (* port and bus activity, latest first *)
  m_irq_function : list (option Z);  (* irq_function[MAX_IRQ] *)
  m_alloc : Z;  (* alloc: next free byte *)
  m_vga : vga_state;
  m_pci : pci_state;
  m_net : net_state;
  m_pcnet32 : pcnet32_state;
  m_rtl8101 : rtl8101_state;
  m_ne2000 : ne2000_state
}.

(** Field updates *)

Definition set_VGA_alpha (v : Z) (r : vga_state) : vga_state :=
  mkVga v (VGA_alpha_rows r) (VGA_alpha_columns r) (VGA_alpha_x r) (VGA_alpha_y r) (VGA_color r)
    (VGA_iobase r).
Definition set_VGA_alpha_rows (v : Z) (r : vga_state) : vga_state :=
  mkVga (VGA_alpha r) v (VGA_alpha_columns r) (VGA_alpha_x r) (VGA_alpha_y r) (VGA_color r)
    (VGA_iobase r).
Definition set_VGA_alpha_columns (v : Z) (r : vga_state) : vga_state :=
  mkVga (VGA_alpha r) (VGA_alpha_rows r) v (VGA_alpha_x r) (VGA_alpha_y r) (VGA_color r)
    (VGA_iobase r).
Definition set_VGA_alpha_x (v : Z) (r : vga_state) : vga_state :=
  mkVga (VGA_alpha r) (VGA_alpha_rows r) (VGA_alpha_columns r) v (VGA_alpha_y r) (VGA_color r)
    (VGA_iobase r).
Definition set_VGA_alpha_y (v : Z) (r : vga_state) : vga_state :=
  mkVga (VGA_alpha r) (VGA_alpha_rows r) (VGA_alpha_columns r) (VGA_alpha_x r) v (VGA_color r)
    (VGA_iobase r).
Definition set_VGA_color (v : Z) (r : vga_state) : vga_state :=
  mkVga (VGA_alpha r) (VGA_alpha_rows r) (VGA_alpha_columns r) (VGA_alpha_x r) (VGA_alpha_y r) v
    (VGA_iobase r).
Definition set_VGA_iobase (v : Z) (r : vga_state) : vga_state :=
  mkVga (VGA_alpha r) (VGA_alpha_rows r) (VGA_alpha_columns r) (VGA_alpha_x r) (VGA_alpha_y r)
    (VGA_color r) v.

Definition set_bar_io (v : Z) (r : pci_bar) : pci_bar :=
  mkBar v (bar_prefetchable r) (bar_type r) (bar_present r) (bar_start r) (bar_end r) (bar_mask
    r).
Definition set_bar_prefetchable (v : Z) (r : pci_bar) : pci_bar :=
  mkBar (bar_io r) v (bar_type r) (bar_present r) (bar_start r) (bar_end r) (bar_mask r).
Definition set_bar_type (v : Z) (r : pci_bar) : pci_bar :=
  mkBar (bar_io r) (bar_prefetchable r) v (bar_present r) (bar_start r) (bar_end r) (bar_mask
    r).
Definition set_bar_present (v : Z) (r : pci_bar) : pci_bar :=
  mkBar (bar_io r) (bar_prefetchable r) (bar_type r) v (bar_start r) (bar_end r) (bar_mask r).
Definition set_bar_start (v : Z) (r : pci_bar) : pci_bar :=
  mkBar (bar_io r) (bar_prefetchable r) (bar_type r) (bar_present r) v (bar_end r) (bar_mask r).
Definition set_bar_end (v : Z) (r : pci_bar) : pci_bar :=
  mkBar (bar_io r) (bar_prefetchable r) (bar_type r) (bar_present r) (bar_start r) v (bar_mask
    r).
Definition set_bar_mask (v : Z) (r : pci_bar) : pci_bar :=
  mkBar (bar_io r) (bar_prefetchable r) (bar_type r) (bar_present r) (bar_start r) (bar_end r)
    v.

Definition set_pd_bus (v : Z) (r : pci_device) : pci_device :=
  mkPciDevice v (pd_device r) (pd_function r) (pd_device_id r) (pd_vendor_id r) (pd_class_code
    r) (pd_revision_id r) (pd_subsystem_id r) (pd_subsystem_vendor_id r) (pd_expansion_rom r)
    (pd_BAR r).
Definition set_pd_device (v : Z) (r : pci_device) : pci_device :=
  mkPciDevice (pd_bus r) v (pd_function r) (pd_device_id r) (pd_vendor_id r) (pd_class_code r)
    (pd_revision_id r) (pd_subsystem_id r) (pd_subsystem_vendor_id r) (pd_expansion_rom r)
    (pd_BAR r).
Definition set_pd_function (v : Z) (r : pci_device) : pci_device :=
  mkPciDevice (pd_bus r) (pd_device r) v (pd_device_id r) (pd_vendor_id r) (pd_class_code r)
    (pd_revision_id r) (pd_subsystem_id r) (pd_subsystem_vendor_id r) (pd_expansion_rom r)
    (pd_BAR r).
Definition set_pd_device_id (v : Z) (r : pci_device) : pci_device :=
  mkPciDevice (pd_bus r) (pd_device r) (pd_function r) v (pd_vendor_id r) (pd_class_code r)
    (pd_revision_id r) (pd_subsystem_id r) (pd_subsystem_vendor_id r) (pd_expansion_rom r)
    (pd_BAR r).
Definition set_pd_vendor_id (v : Z) (r : pci_device) : pci_device :=
  mkPciDevice (pd_bus r) (pd_device r) (pd_function r) (pd_device_id r) v (pd_class_code r)
    (pd_revision_id r) (pd_subsystem_id r) (pd_subsystem_vendor_id r) (pd_expansion_rom r)
    (pd_BAR r).
Definition set_pd_class_code (v : Z) (r : pci_device) : pci_device :=
  mkPciDevice (pd_bus r) (pd_device r) (pd_function r) (pd_device_id r) (pd_vendor_id r) v
    (pd_revision_id r) (pd_subsystem_id r) (pd_subsystem_vendor_id r) (pd_expansion_rom r)
    (pd_BAR r).
Definition set_pd_revision_id (v : Z) (r : pci_device) : pci_device :=
  mkPciDevice (pd_bus r) (pd_device r) (pd_function r) (pd_device_id r) (pd_vendor_id r)
    (pd_class_code r) v (pd_subsystem_id r) (pd_subsystem_vendor_id r) (pd_expansion_rom r)
    (pd_BAR r).
Definition set_pd_subsystem_id (v : Z) (r : pci_device) : pci_device :=
  mkPciDevice (pd_bus r) (pd_device r) (pd_function r) (pd_device_id r) (pd_vendor_id r)
    (pd_class_code r) (pd_revision_id r) v (pd_subsystem_vendor_id r) (pd_expansion_rom r)
    (pd_BAR r).
Definition set_pd_subsystem_vendor_id (v : Z) (r : pci_device) : pci_device :=
  mkPciDevice (pd_bus r) (pd_device r) (pd_function r) (pd_device_id r) (pd_vendor_id r)
    (pd_class_code r) (pd_revision_id r) (pd_subsystem_id r) v (pd_expansion_rom r) (pd_BAR r).
Definition set_pd_expansion_rom (v : Z) (r : pci_device) : pci_device :=
  mkPciDevice (pd_bus r) (pd_device r) (pd_function r) (pd_device_id r) (pd_vendor_id r)
    (pd_class_code r) (pd_revision_id r) (pd_subsystem_id r) (pd_subsystem_vendor_id r) v
    (pd_BAR r).
Definition set_pd_BAR (v : list pci_bar) (r : pci_device) : pci_device :=
  mkPciDevice (pd_bus r) (pd_device r) (pd_function r) (pd_device_id r) (pd_vendor_id r)
    (pd_class_code r) (pd_revision_id r) (pd_subsystem_id r) (pd_subsystem_vendor_id r)
    (pd_expansion_rom r) v.

Definition set_pci_devices (v : list pci_device) (r : pci_state) : pci_state :=
  mkPci v (pci_bus_present r).
Definition set_pci_bus_present (v : Z) (r : pci_state) : pci_state :=
  mkPci (pci_devices r) v.

Definition set_my_ipv4_address (v : list Z) (r : net_state) : net_state :=
  mkNet v (my_eth_mac r) (chosen_net_dev r) (chosen_net_drv r) (chosen_net_drv_open r)
    (udp_resp_hdr r) (udp_resp_data r) (udp_resp_len r) (exec_last_seq r).
Definition set_my_eth_mac (v : list Z) (r : net_state) : net_state :=
  mkNet (my_ipv4_address r) v (chosen_net_dev r) (chosen_net_drv r) (chosen_net_drv_open r)
    (udp_resp_hdr r) (udp_resp_data r) (udp_resp_len r) (exec_last_seq r).
Definition set_chosen_net_dev (v : option Z) (r : net_state) : net_state :=
  mkNet (my_ipv4_address r) (my_eth_mac r) v (chosen_net_drv r) (chosen_net_drv_open r)
    (udp_resp_hdr r) (udp_resp_data r) (udp_resp_len r) (exec_last_seq r).
Definition set_chosen_net_drv (v : option driver_id) (r : net_state) : net_state :=
  mkNet (my_ipv4_address r) (my_eth_mac r) (chosen_net_dev r) v (chosen_net_drv_open r)
    (udp_resp_hdr r) (udp_resp_data r) (udp_resp_len r) (exec_last_seq r).
Definition set_chosen_net_drv_open (v : Z) (r : net_state) : net_state :=
  mkNet (my_ipv4_address r) (my_eth_mac r) (chosen_net_dev r) (chosen_net_drv r) v (udp_resp_hdr
    r) (udp_resp_data r) (udp_resp_len r) (exec_last_seq r).
Definition set_udp_resp_hdr (v : Z) (r : net_state) : net_state :=
  mkNet (my_ipv4_address r) (my_eth_mac r) (chosen_net_dev r) (chosen_net_drv r)
    (chosen_net_drv_open r) v (udp_resp_data r) (udp_resp_len r) (exec_last_seq r).
Definition set_udp_resp_data (v : Z) (r : net_state) : net_state :=
  mkNet (my_ipv4_address r) (my_eth_mac r) (chosen_net_dev r) (chosen_net_drv r)
    (chosen_net_drv_open r) (udp_resp_hdr r) v (udp_resp_len r) (exec_last_seq r).
Definition set_udp_resp_len (v : Z) (r : net_state) : net_state :=
  mkNet (my_ipv4_address r) (my_eth_mac r) (chosen_net_dev r) (chosen_net_drv r)
    (chosen_net_drv_open r) (udp_resp_hdr r) (udp_resp_data r) v (exec_last_seq r).
Definition set_exec_last_seq (v : Z) (r : net_state) : net_state :=
  mkNet (my_ipv4_address r) (my_eth_mac r) (chosen_net_dev r) (chosen_net_drv r)
    (chosen_net_drv_open r) (udp_resp_hdr r) (udp_resp_data r) (udp_resp_len r) v.

Definition set_pcnet32_io (v : option Z) (r : pcnet32_state) : pcnet32_state :=
  mkPcnet32 v (pcnet32_iobase r) (pcnet32_mac_address r) (pcnet32_rx r) (pcnet32_rx_packets r)
    (pcnet32_tx r) (pcnet32_tx_packets r) (pcnet32_ring_size r) (pcnet32_rx_offset r)
    (pcnet32_tx_offset r).
Definition set_pcnet32_iobase (v : Z) (r : pcnet32_state) : pcnet32_state :=
  mkPcnet32 (pcnet32_io r) v (pcnet32_mac_address r) (pcnet32_rx r) (pcnet32_rx_packets r)
    (pcnet32_tx r) (pcnet32_tx_packets r) (pcnet32_ring_size r) (pcnet32_rx_offset r)
    (pcnet32_tx_offset r).
Definition set_pcnet32_mac_address (v : list Z) (r : pcnet32_state) : pcnet32_state :=
  mkPcnet32 (pcnet32_io r) (pcnet32_iobase r) v (pcnet32_rx r) (pcnet32_rx_packets r)
    (pcnet32_tx r) (pcnet32_tx_packets r) (pcnet32_ring_size r) (pcnet32_rx_offset r)
    (pcnet32_tx_offset r).
Definition set_pcnet32_rx (v : Z) (r : pcnet32_state) : pcnet32_state :=
  mkPcnet32 (pcnet32_io r) (pcnet32_iobase r) (pcnet32_mac_address r) v (pcnet32_rx_packets r)
    (pcnet32_tx r) (pcnet32_tx_packets r) (pcnet32_ring_size r) (pcnet32_rx_offset r)
    (pcnet32_tx_offset r).
Definition set_pcnet32_rx_packets (v : Z) (r : pcnet32_state) : pcnet32_state :=
  mkPcnet32 (pcnet32_io r) (pcnet32_iobase r) (pcnet32_mac_address r) (pcnet32_rx r) v
    (pcnet32_tx r) (pcnet32_tx_packets r) (pcnet32_ring_size r) (pcnet32_rx_offset r)
    (pcnet32_tx_offset r).
Definition set_pcnet32_tx (v : Z) (r : pcnet32_state) : pcnet32_state :=
  mkPcnet32 (pcnet32_io r) (pcnet32_iobase r) (pcnet32_mac_address r) (pcnet32_rx r)
    (pcnet32_rx_packets r) v (pcnet32_tx_packets r) (pcnet32_ring_size r) (pcnet32_rx_offset r)
    (pcnet32_tx_offset r).
Definition set_pcnet32_tx_packets (v : Z) (r : pcnet32_state) : pcnet32_state :=
  mkPcnet32 (pcnet32_io r) (pcnet32_iobase r) (pcnet32_mac_address r) (pcnet32_rx r)
    (pcnet32_rx_packets r) (pcnet32_tx r) v (pcnet32_ring_size r) (pcnet32_rx_offset r)
    (pcnet32_tx_offset r).
Definition set_pcnet32_ring_size (v : Z) (r : pcnet32_state) : pcnet32_state :=
  mkPcnet32 (pcnet32_io r) (pcnet32_iobase r) (pcnet32_mac_address r) (pcnet32_rx r)
    (pcnet32_rx_packets r) (pcnet32_tx r) (pcnet32_tx_packets r) v (pcnet32_rx_offset r)
    (pcnet32_tx_offset r).
Definition set_pcnet32_rx_offset (v : Z) (r : pcnet32_state) : pcnet32_state :=
  mkPcnet32 (pcnet32_io r) (pcnet32_iobase r) (pcnet32_mac_address r) (pcnet32_rx r)
    (pcnet32_rx_packets r) (pcnet32_tx r) (pcnet32_tx_packets r) (pcnet32_ring_size r) v
    (pcnet32_tx_offset r).
Definition set_pcnet32_tx_offset (v : Z) (r : pcnet32_state) : pcnet32_state :=
  mkPcnet32 (pcnet32_io r) (pcnet32_iobase r) (pcnet32_mac_address r) (pcnet32_rx r)
    (pcnet32_rx_packets r) (pcnet32_tx r) (pcnet32_tx_packets r) (pcnet32_ring_size r)
    (pcnet32_rx_offset r) v.

Definition set_rtl8101_io (v : option Z) (r : rtl8101_state) : rtl8101_state :=
  mkRtl8101 v (rtl8101_iobase r) (rtl8101_mac_address r) (rtl8101_rx r) (rtl8101_rx_packets r)
    (rtl8101_tx r) (rtl8101_tx_packets r) (rtl8101_ring_size r) (rtl8101_rx_offset r)
    (rtl8101_tx_offset r) (rtl8101_send_sz r).
Definition set_rtl8101_iobase (v : Z) (r : rtl8101_state) : rtl8101_state :=
  mkRtl8101 (rtl8101_io r) v (rtl8101_mac_address r) (rtl8101_rx r) (rtl8101_rx_packets r)
    (rtl8101_tx r) (rtl8101_tx_packets r) (rtl8101_ring_size r) (rtl8101_rx_offset r)
    (rtl8101_tx_offset r) (rtl8101_send_sz r).
Definition set_rtl8101_mac_address (v : list Z) (r : rtl8101_state) : rtl8101_state :=
  mkRtl8101 (rtl8101_io r) (rtl8101_iobase r) v (rtl8101_rx r) (rtl8101_rx_packets r)
    (rtl8101_tx r) (rtl8101_tx_packets r) (rtl8101_ring_size r) (rtl8101_rx_offset r)
    (rtl8101_tx_offset r) (rtl8101_send_sz r).
Definition set_rtl8101_rx (v : Z) (r : rtl8101_state) : rtl8101_state :=
  mkRtl8101 (rtl8101_io r) (rtl8101_iobase r) (rtl8101_mac_address r) v (rtl8101_rx_packets r)
    (rtl8101_tx r) (rtl8101_tx_packets r) (rtl8101_ring_size r) (rtl8101_rx_offset r)
    (rtl8101_tx_offset r) (rtl8101_send_sz r).
Definition set_rtl8101_rx_packets (v : Z) (r : rtl8101_state) : rtl8101_state :=
  mkRtl8101 (rtl8101_io r) (rtl8101_iobase r) (rtl8101_mac_address r) (rtl8101_rx r) v
    (rtl8101_tx r) (rtl8101_tx_packets r) (rtl8101_ring_size r) (rtl8101_rx_offset r)
    (rtl8101_tx_offset r) (rtl8101_send_sz r).
Definition set_rtl8101_tx (v : Z) (r : rtl8101_state) : rtl8101_state :=
  mkRtl8101 (rtl8101_io r) (rtl8101_iobase r) (rtl8101_mac_address r) (rtl8101_rx r)
    (rtl8101_rx_packets r) v (rtl8101_tx_packets r) (rtl8101_ring_size r) (rtl8101_rx_offset r)
    (rtl8101_tx_offset r) (rtl8101_send_sz r).
Definition set_rtl8101_tx_packets (v : Z) (r : rtl8101_state) : rtl8101_state :=
  mkRtl8101 (rtl8101_io r) (rtl8101_iobase r) (rtl8101_mac_address r) (rtl8101_rx r)
    (rtl8101_rx_packets r) (rtl8101_tx r) v (rtl8101_ring_size r) (rtl8101_rx_offset r)
    (rtl8101_tx_offset r) (rtl8101_send_sz r).
Definition set_rtl8101_ring_size (v : Z) (r : rtl8101_state) : rtl8101_state :=
  mkRtl8101 (rtl8101_io r) (rtl8101_iobase r) (rtl8101_mac_address r) (rtl8101_rx r)
    (rtl8101_rx_packets r) (rtl8101_tx r) (rtl8101_tx_packets r) v (rtl8101_rx_offset r)
    (rtl8101_tx_offset r) (rtl8101_send_sz r).
Definition set_rtl8101_rx_offset (v : Z) (r : rtl8101_state) : rtl8101_state :=
  mkRtl8101 (rtl8101_io r) (rtl8101_iobase r) (rtl8101_mac_address r) (rtl8101_rx r)
    (rtl8101_rx_packets r) (rtl8101_tx r) (rtl8101_tx_packets r) (rtl8101_ring_size r) v
    (rtl8101_tx_offset r) (rtl8101_send_sz r).
Definition set_rtl8101_tx_offset (v : Z) (r : rtl8101_state) : rtl8101_state :=
  mkRtl8101 (rtl8101_io r) (rtl8101_iobase r) (rtl8101_mac_address r) (rtl8101_rx r)
    (rtl8101_rx_packets r) (rtl8101_tx r) (rtl8101_tx_packets r) (rtl8101_ring_size r)
    (rtl8101_rx_offset r) v (rtl8101_send_sz r).
Definition set_rtl8101_send_sz (v : Z) (r : rtl8101_state) : rtl8101_state :=
  mkRtl8101 (rtl8101_io r) (rtl8101_iobase r) (rtl8101_mac_address r) (rtl8101_rx r)
    (rtl8101_rx_packets r) (rtl8101_tx r) (rtl8101_tx_packets r) (rtl8101_ring_size r)
    (rtl8101_rx_offset r) (rtl8101_tx_offset r) v.

Definition set_ne2000_mac_address (v : list Z) (r : ne2000_state) : ne2000_state :=
  mkNe2000 v (ne2000_probe_base r) (ne2000_last_packet r) (ne2000_xmit_packet r)
    (ne2000_last_packet_size r) (ne2000_xmit_packet_size r).
Definition set_ne2000_probe_base (v : Z) (r : ne2000_state) : ne2000_state :=
  mkNe2000 (ne2000_mac_address r) v (ne2000_last_packet r) (ne2000_xmit_packet r)
    (ne2000_last_packet_size r) (ne2000_xmit_packet_size r).
Definition set_ne2000_last_packet (v : Z) (r : ne2000_state) : ne2000_state :=
  mkNe2000 (ne2000_mac_address r) (ne2000_probe_base r) v (ne2000_xmit_packet r)
    (ne2000_last_packet_size r) (ne2000_xmit_packet_size r).
Definition set_ne2000_xmit_packet (v : Z) (r : ne2000_state) : ne2000_state :=
  mkNe2000 (ne2000_mac_address r) (ne2000_probe_base r) (ne2000_last_packet r) v
    (ne2000_last_packet_size r) (ne2000_xmit_packet_size r).
Definition set_ne2000_last_packet_size (v : Z) (r : ne2000_state) : ne2000_state :=
  mkNe2000 (ne2000_mac_address r) (ne2000_probe_base r) (ne2000_last_packet r)
    (ne2000_xmit_packet r) v (ne2000_xmit_packet_size r).
Definition set_ne2000_xmit_packet_size (v : Z) (r : ne2000_state) : ne2000_state :=
  mkNe2000 (ne2000_mac_address r) (ne2000_probe_base r) (ne2000_last_packet r)
    (ne2000_xmit_packet r) (ne2000_last_packet_size r) v.

Definition set_m_mem (v : gmap Z Z) (r : machine) : machine :=
  mkMachine v (m_trace r) (m_irq_function r) (m_alloc r) (m_vga r) (m_pci r) (m_net r)
    (m_pcnet32 r) (m_rtl8101 r) (m_ne2000 r).
Definition set_m_trace (v : list event) (r : machine) : machine :=
  mkMachine (m_mem r) v (m_irq_function r) (m_alloc r) (m_vga r) (m_pci r) (m_net r) (m_pcnet32
    r) (m_rtl8101 r) (m_ne2000 r).
Definition set_m_irq_function (v : list (option Z)) (r : machine) : machine :=
  mkMachine (m_mem r) (m_trace r) v (m_alloc r) (m_vga r) (m_pci r) (m_net r) (m_pcnet32 r)
    (m_rtl8101 r) (m_ne2000 r).
Definition set_m_alloc (v : Z) (r : machine) : machine :=
  mkMachine (m_mem r) (m_trace r) (m_irq_function r) v (m_vga r) (m_pci r) (m_net r) (m_pcnet32
    r) (m_rtl8101 r) (m_ne2000 r).
Definition set_m_vga (v : vga_state) (r : machine) : machine :=
  mkMachine (m_mem r) (m_trace r) (m_irq_function r) (m_alloc r) v (m_pci r) (m_net r)
    (m_pcnet32 r) (m_rtl8101 r) (m_ne2000 r).
Definition set_m_pci (v : pci_state) (r : machine) : machine :=
  mkMachine (m_mem r) (m_trace r) (m_irq_function r) (m_alloc r) (m_vga r) v (m_net r)
    (m_pcnet32 r) (m_rtl8101 r) (m_ne2000 r).
Definition set_m_net (v : net_state) (r : machine) : machine :=
  mkMachine (m_mem r) (m_trace r) (m_irq_function r) (m_alloc r) (m_vga r) (m_pci r) v
    (m_pcnet32 r) (m_rtl8101 r) (m_ne2000 r).
Definition set_m_pcnet32 (v : pcnet32_state) (r : machine) : machine :=
  mkMachine (m_mem r) (m_trace r) (m_irq_function r) (m_alloc r) (m_vga r) (m_pci r) (m_net r) v
    (m_rtl8101 r) (m_ne2000 r).
Definition set_m_rtl8101 (v : rtl8101_state) (r : machine) : machine :=
  mkMachine (m_mem r) (m_trace r) (m_irq_function r) (m_alloc r) (m_vga r) (m_pci r) (m_net r)
    (m_pcnet32 r) v (m_ne2000 r).
Definition set_m_ne2000 (v : ne2000_state) (r : machine) : machine :=
  mkMachine (m_mem r) (m_trace r) (m_irq_function r) (m_alloc r) (m_vga r) (m_pci r) (m_net r)
    (m_pcnet32 r) (m_rtl8101 r) v.

Abbreviation M := (SM machine).

(** Updates of one file's variables inside the machine. *)
Definition upd_vga (f : vga_state -> vga_state) : M unit :=
  modify (λ s, set_m_vga (f (m_vga s)) s).
Definition upd_pci (f : pci_state -> pci_state) : M unit :=
  modify (λ s, set_m_pci (f (m_pci s)) s).
Definition upd_net (f : net_state -> net_state) : M unit :=
  modify (λ s, set_m_net (f (m_net s)) s).
Definition upd_pcnet32 (f : pcnet32_state -> pcnet32_state) : M unit :=
  modify (λ s, set_m_pcnet32 (f (m_pcnet32 s)) s).
Definition upd_rtl8101 (f : rtl8101_state -> rtl8101_state) : M unit :=
  modify (λ s, set_m_rtl8101 (f (m_rtl8101 s)) s).
Definition upd_ne2000 (f : ne2000_state -> ne2000_state) : M unit :=
  modify (λ s, set_m_ne2000 (f (m_ne2000 s)) s).
Definition upd_mem (f : gmap Z Z -> gmap Z Z) : M unit :=
  modify (λ s, set_m_mem (f (m_mem s)) s).

(** ** The outside world *)

Class Env : Type := {
  (** the value a port read of the given width returns *)
  env_in : list event -> Z -> Z -> Z;
  (** what bus masters have done to memory by the time of the next poll *)
  env_dma : list event -> gmap Z Z -> gmap Z Z;
  (** uploaded code called by EXEC; [None] when it never returns *)
  env_exec : Z -> machine -> option machine;
  (** iterations after which a busy-wait loop counts as not returning *)
  env_fuel : nat
}.

Class Linker : Type := {
  last_byte : Z;                (* end.asm: address of the last byte of the image *)
  pcnet32_init_data : Z;        (* net-pcnet32.c: static array of 512 bytes *)
  IDT : Z;                      (* interrupt.c: 256*8 bytes *)
  IDTR : Z;                     (* interrupt.c: 8 bytes *)
  default_int : Z;              (* interrupt.c: the bare iret *)
  default_irq_iret : Z -> Z     (* pic-8259.c: the stub of IRQ n *)
}.

(** ** A machine at rest

    A concrete machine and surroundings in which nothing happens, on which
    definitions can be evaluated. *)

Definition idle_env : Env := {|
  env_in := λ _ _ _, 0;
  env_dma := λ _ m, m;
  env_exec := λ _ s, Some s;
  env_fuel := 100
|}.

Definition flat_linker : Linker := {|
  last_byte := 131072;
  pcnet32_init_data := 98304;
  IDT := 65536;
  IDTR := 69632;
  default_int := 74565;
  default_irq_iret := λ n, 74752 + 16 * n
|}.

Definition blank : machine :=
  mkMachine ∅ [] (replicate 16 None) 1048576 (mkVga 753664 25 80 0 0 7 980) (mkPci [] 0)
    (mkNet [192; 168; 250; 254] [0; 0; 0; 0; 0; 0] None None 0 0 0 0 4294967295)
    (mkPcnet32 None 0 [0; 0; 0; 0; 0; 0] 0 0 0 0 0 0 0) (mkRtl8101 None 0 [] 0 0 0 0 0 0 0 0)
    (mkNe2000 [] 0 0 0 0 0).
