(* ===== verification/Memory.v ===== *)
(** * Memory and port I/O

    Byte, word and dword access to the flat memory, the block operations the
    code takes from GCC ([memcpy], [memset]) and those c-main.c defines itself
    ([memcmp], [strlen]), and the port primitives of ioport.h.  Addresses wrap
    at 2^32 and every access is defined, as on the bare machine: an index past
    the end of a buffer reads whatever lies there. *)

From S2P Require Import Prelude Machine.

(** ** Cells *)

Definition rd8 (m : gmap Z Z) (a : Z) : Z := u8 (default 0 (m !! u32 a)).
Definition wr8 (m : gmap Z Z) (a v : Z) : gmap Z Z := <[u32 a := u8 v]> m.

(** Little-endian words. *)
Definition rd16 (m : gmap Z Z) (a : Z) : Z := rd8 m a + 256 * rd8 m (a + 1).
Definition wr16 (m : gmap Z Z) (a v : Z) : gmap Z Z :=
  wr8 (wr8 m a v) (a + 1) (Z.shiftr v 8).
Definition rd32 (m : gmap Z Z) (a : Z) : Z := rd16 m a + 65536 * rd16 m (a + 2).
Definition wr32 (m : gmap Z Z) (a v : Z) : gmap Z Z :=
  wr16 (wr16 m a v) (a + 2) (Z.shiftr v 16).

(** ** Blocks *)

Definition rd_bytes (m : gmap Z Z) (a : Z) (n : nat) : list Z :=
  (λ i, rd8 m (a + Z.of_nat i)) <$> seq 0 n.

Fixpoint wr_bytes (m : gmap Z Z) (a : Z) (l : list Z) : gmap Z Z :=
  match l with
  | [] => m
  | v :: l' => wr_bytes (wr8 m a v) (a + 1) l'
  end.

(** GCC's builtin, as the ascending byte copy of [rep movsb]. *)
Fixpoint memcpy (m : gmap Z Z) (dst src : Z) (n : nat) : gmap Z Z :=
  match n with
  | O => m
  | S n' => memcpy (wr8 m dst (rd8 m src)) (dst + 1) (src + 1) n'
  end.

Definition memset (m : gmap Z Z) (a c : Z) (n : nat) : gmap Z Z :=
  wr_bytes m a (replicate n (u8 c)).

(** [memcmp] of c-main.c on the bytes both pointers show. *)
Fixpoint memcmp (a b : list Z) (c : nat) : Z :=
  match c, a, b with
  | S c', x :: a', y :: b' => let d := x - y in if negb (d =? 0) then d else memcmp a' b' c'
  | _, _, _ => 0
  end.

(** [strlen] of c-main.c on a NUL-terminated object. *)
Fixpoint strlen (s : list Z) : Z :=
  match s with
  | [] => 0
  | c :: s' => if negb (c =? 0) then 1 + strlen s' else 0
  end.

(** [strcpy] of c-main.c between two places in memory, [None] when no NUL comes
    within the fuel. *)
Fixpoint strcpy (fuel : nat) (m : gmap Z Z) (dst src : Z) : option (gmap Z Z) :=
  match fuel with
  | O => None
  | S f => let c := rd8 m src in
           if negb (c =? 0) then strcpy f (wr8 m dst c) (dst + 1) (src + 1) else Some (wr8 m dst 0)
  end.

(** A string literal as the object the compiler lays out. *)
Definition cstr (s : string) : list Z := str s ++ [0].

(** A message that ends in [\r\n]. *)
Definition msg (s : string) : list Z := str s ++ [13; 10; 0].

(** ** The same accesses as statements *)

Definition load8 (a : Z) : M Z := gets (λ s, rd8 (m_mem s) a).
Definition load16 (a : Z) : M Z := gets (λ s, rd16 (m_mem s) a).
Definition load32 (a : Z) : M Z := gets (λ s, rd32 (m_mem s) a).
Definition load_bytes (a : Z) (n : nat) : M (list Z) := gets (λ s, rd_bytes (m_mem s) a n).
Definition store8 (a v : Z) : M unit := upd_mem (λ m, wr8 m a v).
Definition store16 (a v : Z) : M unit := upd_mem (λ m, wr16 m a v).
Definition store32 (a v : Z) : M unit := upd_mem (λ m, wr32 m a v).
Definition store_bytes (a : Z) (l : list Z) : M unit := upd_mem (λ m, wr_bytes m a l).
Definition do_memcpy (dst src n : Z) : M unit := upd_mem (λ m, memcpy m dst src (Z.to_nat n)).
Definition do_memset (a c n : Z) : M unit := upd_mem (λ m, memset m a c (Z.to_nat n)).

Section IO.
Context `{Env}.

Definition log (e : event) : M unit := modify (λ s, set_m_trace (e :: m_trace s) s).

(** A read of a volatile cell: bus masters may have written memory since the
    last one. *)
Definition poll (a : Z) : M unit :=
  modify (λ s, set_m_trace (EvPoll a :: m_trace s)
                 (set_m_mem (env_dma (m_trace s) (m_mem s)) s)).
Definition vload16 (a : Z) : M Z := poll a ;; load16 a.
Definition vload32 (a : Z) : M Z := poll a ;; load32 a.

Definition io_out (width port v : Z) : M unit := log (EvOut width (u16 port) v).
Definition io_in (width port : Z) : M Z :=
  tr ← gets m_trace;
  let v := env_in tr width (u16 port) in
  log (EvIn width (u16 port) v) ;; mret v.

Definition io_outb (port b : Z) : M unit := io_out 8 port (u8 b).
Definition io_outw (port b : Z) : M unit := io_out 16 port (u16 b).
Definition io_outl (port b : Z) : M unit := io_out 32 port (u32 b).
Definition io_outbi (port b : Z) : M unit := io_out 8 port (u8 b).
Definition io_inb (port : Z) : M Z := v ← io_in 8 port; mret (u8 v).
Definition io_inw (port : Z) : M Z := v ← io_in 16 port; mret (u16 v).
Definition io_inl (port : Z) : M Z := v ← io_in 32 port; mret (u32 v).
Definition io_inbi (port : Z) : M Z := v ← io_in 8 port; mret (u8 v).

Definition io_delay : M unit :=
  io_inbi 128 ;; io_inbi 128 ;; io_inbi 128 ;; io_inbi 128 ;; skip.
Definition io_outb_d (port b : Z) : M unit := io_outb port b ;; io_delay.
Definition io_outbi_d (port b : Z) : M unit := io_outbi port b ;; io_delay.
Definition io_inb_d (port : Z) : M Z := r ← io_inb port; io_delay ;; mret r.
Definition io_inbi_d (port : Z) : M Z := r ← io_inbi port; io_delay ;; mret r.

Definition cli : M unit := log EvCli.
Definition sti : M unit := log EvSti.
End IO.

(** Run straight-line code on a state. *)
Ltac run :=
  cbv [mbind SM_bind mret SM_ret gets modify skip load8 load16 load32 load_bytes store8 store16
       store32 store_bytes do_memcpy do_memset upd_mem upd_vga upd_pci upd_net upd_pcnet32
       upd_rtl8101 upd_ne2000].

(** ** Reading back what was written *)

Implicit Types (m : gmap Z Z) (a b v : Z) (l : list Z) (n : nat).

Lemma rd8_range m a : 0 <= rd8 m a < 256.
Proof. apply u8_range. Qed.

Lemma rd8_cong m a b : u32 a = u32 b -> rd8 m a = rd8 m b.
Proof. unfold rd8. by intros ->. Qed.

Lemma rd8_wr8_eq m a b v : u32 a = u32 b -> rd8 (wr8 m a v) b = u8 v.
Proof. intros E. unfold rd8, wr8. rewrite E, lookup_insert_eq. apply u8_u8. Qed.

Lemma rd8_wr8_ne m a b v : u32 a <> u32 b -> rd8 (wr8 m a v) b = rd8 m b.
Proof. intros E. unfold rd8, wr8. by rewrite lookup_insert_ne. Qed.

Lemma rd8_wr8 m a b v : rd8 (wr8 m a v) b = if u32 a =? u32 b then u8 v else rd8 m b.
Proof.
  destruct (u32 a =? u32 b) eqn:E; bool_to_prop;
    [by apply rd8_wr8_eq | by apply rd8_wr8_ne].
Qed.

(** The byte at [b] after a block write at [a]: the block when [b] lies inside
    it, the old byte otherwise. *)
Lemma rd8_wr_bytes l : forall m a b,
  Z.of_nat (length l) <= 4294967296 ->
  rd8 (wr_bytes m a l) b =
    match l !! Z.to_nat (u32 (b - a)) with
    | Some v => u8 v
    | None => rd8 m b
    end.
Proof.
  induction l as [|v l IH]; intros m a b Hlen; cbn [wr_bytes length] in *; [done|].
  rewrite IH by lia. rewrite rd8_wr8.
  destruct (decide (u32 b = u32 a)) as [E|E].
  - replace (u32 (b - a)) with 0 by wrap_lia.
    rewrite lookup_ge_None_2 by wrap_lia.
    rewrite (proj2 (Z.eqb_eq _ _)) by done. done.
  - replace (Z.to_nat (u32 (b - a))) with (S (Z.to_nat (u32 (b - (a + 1))))) by wrap_lia.
    cbn [lookup list_lookup].
    rewrite (proj2 (Z.eqb_neq _ _)) by congruence. done.
Qed.

Lemma rd8_wr_bytes_out m a l b :
  Z.of_nat (length l) <= u32 (b - a) -> rd8 (wr_bytes m a l) b = rd8 m b.
Proof.
  intros Hl. pose proof (u32_range (b - a)).
  rewrite rd8_wr_bytes by lia. by rewrite lookup_ge_None_2 by lia.
Qed.

Lemma length_rd_bytes m a n : length (rd_bytes m a n) = n.
Proof. unfold rd_bytes. by rewrite length_fmap, length_seq. Qed.

Lemma rd_bytes_lookup m a n i :
  (i < n)%nat -> rd_bytes m a n !! i = Some (rd8 m (a + Z.of_nat i)).
Proof. intros. unfold rd_bytes. by rewrite list_lookup_fmap, lookup_seq_lt by lia. Qed.

Lemma rd_bytes_ext m m' a a' n :
  (forall i, (i < n)%nat -> rd8 m (a + Z.of_nat i) = rd8 m' (a' + Z.of_nat i)) ->
  rd_bytes m a n = rd_bytes m' a' n.
Proof.
  intros E. apply list_eq_same_length with n; rewrite ?length_rd_bytes; try done.
  intros i x y Hi. rewrite !rd_bytes_lookup by done. rewrite E by done. congruence.
Qed.

Lemma rd_bytes_S m a n : rd_bytes m a (S n) = rd8 m a :: rd_bytes m (a + 1) n.
Proof.
  unfold rd_bytes. cbn [seq fmap list_fmap]. f_equal; [f_equal; lia|].
  rewrite <- fmap_S_seq, <- list_fmap_compose.
  apply list_fmap_ext. intros i x _. unfold compose. f_equal. lia.
Qed.

Lemma rd_bytes_app m a n k :
  rd_bytes m a (n + k) = rd_bytes m a n ++ rd_bytes m (a + Z.of_nat n) k.
Proof.
  revert a. induction n as [|n IH]; intros a.
  - cbn. by rewrite Z.add_0_r.
  - change (S n + k)%nat with (S (n + k)). rewrite !rd_bytes_S, IH. cbn. do 3 f_equal. lia.
Qed.

Lemma rd_bytes_take m a n k : (k <= n)%nat -> rd_bytes m a k = take k (rd_bytes m a n).
Proof.
  intros Hk. replace n with (k + (n - k))%nat by lia. rewrite rd_bytes_app.
  rewrite take_app_le by (rewrite length_rd_bytes; lia).
  by rewrite take_ge by (rewrite length_rd_bytes; lia).
Qed.

Lemma rd_bytes_bytes m a n : Forall (λ b, 0 <= b < 256) (rd_bytes m a n).
Proof.
  apply Forall_forall. intros x Hx.
  apply list_elem_of_fmap in Hx as (i & -> & _). apply rd8_range.
Qed.

(** A block write that stays inside a window replaces that part of it. *)
Lemma rd_bytes_wr_bytes_in m a l p n (o : nat) :
  Z.of_nat n <= 4294967296 ->
  a = p + Z.of_nat o -> (o + length l <= n)%nat ->
  rd_bytes (wr_bytes m a l) p n =
    take o (rd_bytes m p n) ++ (u8 <$> l) ++ drop (o + length l) (rd_bytes m p n).
Proof.
  intros Hn -> Hol.
  apply list_eq_same_length with n; rewrite ?length_app, ?length_take, ?length_drop,
    ?length_fmap, ?length_rd_bytes; try lia.
  intros i x y Hi. rewrite rd_bytes_lookup by done. rewrite rd8_wr_bytes by lia.
  intros [= <-].
  destruct (decide (i < o)%nat).
  - rewrite lookup_app_l by (rewrite length_take, length_rd_bytes; lia).
    rewrite lookup_take_lt by done. rewrite rd_bytes_lookup by done. intros [= <-].
    rewrite lookup_ge_None_2 by wrap_lia. done.
  - rewrite lookup_app_r; rewrite length_take, length_rd_bytes; [|lia].
    replace (i - o `min` n)%nat with (i - o)%nat by lia.
    replace (Z.to_nat (u32 (p + Z.of_nat i - (p + Z.of_nat o)))) with (i - o)%nat by wrap_lia.
    destruct (decide (i - o < length l)%nat) as [Hl|Hl].
    + rewrite lookup_app_l by (rewrite length_fmap; lia).
      rewrite list_lookup_fmap. destruct (lookup_lt_is_Some_2 _ _ Hl) as [v ->].
      cbn. congruence.
    + rewrite lookup_app_r by (rewrite length_fmap; lia). rewrite length_fmap, lookup_drop.
      replace (o + length l + (i - o - length l))%nat with i by lia.
      rewrite rd_bytes_lookup by done. intros [= <-].
      rewrite lookup_ge_None_2 by lia. done.
Qed.

(** A block write outside a window leaves it alone. *)
Lemma rd_bytes_wr_bytes_out m a l p n :
  Z.of_nat (length l) <= u32 (p - a) -> u32 (p - a) + Z.of_nat n <= 4294967296 ->
  rd_bytes (wr_bytes m a l) p n = rd_bytes m p n.
Proof.
  intros Hl Hn. apply rd_bytes_ext. intros i Hi. apply rd8_wr_bytes_out. wrap_lia.
Qed.

Lemma rd_bytes_wr8_in m a v p n (i : nat) :
  Z.of_nat n <= 4294967296 ->
  a = p + Z.of_nat i -> (i < n)%nat ->
  rd_bytes (wr8 m a v) p n = <[i := u8 v]> (rd_bytes m p n).
Proof.
  intros Hn -> Hi. change (wr8 m (p + Z.of_nat i) v) with (wr_bytes m (p + Z.of_nat i) [v]).
  rewrite rd_bytes_wr_bytes_in with (o := i) by (cbn; lia).
  rewrite insert_take_drop by (rewrite length_rd_bytes; lia).
  cbn. repeat f_equal; lia.
Qed.

Lemma rd_bytes_wr8_out m a v p n :
  1 <= u32 (p - a) -> u32 (p - a) + Z.of_nat n <= 4294967296 ->
  rd_bytes (wr8 m a v) p n = rd_bytes m p n.
Proof. apply (rd_bytes_wr_bytes_out m a [v]). Qed.

Lemma rd_bytes_wr_bytes_same m a l :
  Z.of_nat (length l) <= 4294967296 ->
  rd_bytes (wr_bytes m a l) a (length l) = u8 <$> l.
Proof.
  intros Hl. rewrite rd_bytes_wr_bytes_in with (o := O); [|lia..].
  rewrite take_0, Nat.add_0_l, drop_ge, app_nil_r by (rewrite length_rd_bytes; lia). done.
Qed.

Lemma fmap_u8_bytes l : Forall (λ b, 0 <= b < 256) l -> u8 <$> l = l.
Proof.
  induction 1 as [|x l Hx Hl IH]; [done|]. cbn. rewrite IH, u8_small by done. done.
Qed.

(** ** Consecutive stores *)

Lemma wr_bytes_app l1 : forall m a l2,
  wr_bytes m a (l1 ++ l2) = wr_bytes (wr_bytes m a l1) (a + Z.of_nat (length l1)) l2.
Proof.
  induction l1 as [|v l1 IH]; intros m a l2; cbn [app wr_bytes length].
  - by rewrite Z.add_0_r.
  - rewrite IH. f_equal. lia.
Qed.

Lemma wr8_wr_bytes m a v : wr8 m a v = wr_bytes m a [v].
Proof. done. Qed.

(** The cells after a block write. *)
Lemma lookup_wr_bytes l : forall m a x,
  Z.of_nat (length l) <= 4294967296 ->
  wr_bytes m a l !! x =
    (if (0 <=? x) && (x <? 4294967296) then
       match l !! Z.to_nat (u32 (x - a)) with Some v => Some (u8 v) | None => m !! x end
     else m !! x).
Proof.
  induction l as [|v l IH]; intros m a x Hlen; cbn [wr_bytes length] in *; [by case_bool|].
  rewrite IH by lia. unfold wr8. destruct ((0 <=? x) && (x <? 4294967296)) eqn:Ex.
  - bool_to_prop. destruct (decide (u32 a = x)) as [<-|Hne].
    + replace (u32 (u32 a - a)) with 0 by wrap_lia. rewrite lookup_ge_None_2 by wrap_lia.
      by rewrite lookup_insert_eq.
    + replace (Z.to_nat (u32 (x - a))) with (S (Z.to_nat (u32 (x - (a + 1))))) by wrap_lia.
      cbn [lookup list_lookup]. by rewrite lookup_insert_ne.
  - rewrite lookup_insert_ne; [done|]. intros <-. apply andb_false_iff in Ex as [Ex|Ex]; bool_to_prop;
      pose proof (u32_range a); lia.
Qed.

(** Writing a block again changes nothing. *)
Lemma wr_bytes_idem m a l :
  Z.of_nat (length l) <= 4294967296 -> wr_bytes (wr_bytes m a l) a l = wr_bytes m a l.
Proof.
  intros Hl. apply map_eq. intros x. rewrite !lookup_wr_bytes by done.
  case_bool; [|done]. by case_match.
Qed.

(** [memcpy] is a block write of the bytes it read when the destination does
    not start inside the source, apart from its first byte. *)
Lemma memcpy_wr_bytes n : forall m d s,
  Z.of_nat n <= 4294967296 ->
  u32 (d - s) = 0 \/ Z.of_nat n <= u32 (d - s) ->
  memcpy m d s n = wr_bytes m d (rd_bytes m s n).
Proof.
  induction n as [|n IH]; intros m d s Hn Hd; [done|].
  cbn [memcpy]. rewrite rd_bytes_S. cbn [wr_bytes].
  rewrite IH by (lia || (destruct Hd; [left|right]; wrap_lia)). f_equal.
  apply rd_bytes_ext. intros i Hi. apply rd8_wr8_ne. wrap_lia.
Qed.

(** ** Words *)

Lemma rd16_range m a : 0 <= rd16 m a < 65536.
Proof. unfold rd16. pose proof (rd8_range m a). pose proof (rd8_range m (a + 1)). lia. Qed.

Lemma rd32_range m a : 0 <= rd32 m a < 4294967296.
Proof. unfold rd32. pose proof (rd16_range m a). pose proof (rd16_range m (a + 2)). lia. Qed.

Lemma rd16_wr16 m a v : rd16 (wr16 m a v) a = u16 v.
Proof.
  unfold rd16, wr16. rewrite Z.shiftr_div_pow2 by lia. change (2 ^ 8) with 256.
  rewrite rd8_wr8_ne by wrap_lia. rewrite !rd8_wr8_eq by done. wrap_lia.
Qed.

Lemma wr16_wr_bytes m a v : wr16 m a v = wr_bytes m a [v; Z.shiftr v 8].
Proof. done. Qed.

Lemma wr32_wr_bytes m a v :
  wr32 m a v = wr_bytes m a [v; Z.shiftr v 8; Z.shiftr v 16; Z.shiftr (Z.shiftr v 16) 8].
Proof.
  unfold wr32, wr16. cbn [wr_bytes]. by replace (a + 1 + 1) with (a + 2) by lia.
Qed.

Lemma rd16_ext m m' a : (forall i, 0 <= i < 2 -> rd8 m (a + i) = rd8 m' (a + i)) -> rd16 m a = rd16 m' a.
Proof.
  intros E. unfold rd16. rewrite (E 1) by lia. f_equal.
  specialize (E 0). rewrite Z.add_0_r in E. apply E. lia.
Qed.

Lemma rd32_ext m m' a : (forall i, 0 <= i < 4 -> rd8 m (a + i) = rd8 m' (a + i)) -> rd32 m a = rd32 m' a.
Proof.
  intros E. unfold rd32. f_equal; [|f_equal]; apply rd16_ext; intros i Hi; [apply E; lia|].
  rewrite <- !Z.add_assoc. apply E. lia.
Qed.

Lemma rd32_wr32 m a v : rd32 (wr32 m a v) a = u32 v.
Proof.
  unfold rd32. rewrite wr32_wr_bytes. unfold rd16.
  rewrite !rd8_wr_bytes by (cbn; lia).
  replace (u32 (a - a)) with 0 by wrap_lia.
  replace (u32 (a + 1 - a)) with 1 by wrap_lia.
  replace (u32 (a + 2 - a)) with 2 by wrap_lia.
  replace (u32 (a + 2 + 1 - a)) with 3 by wrap_lia.
  change (Z.to_nat 0) with 0%nat. change (Z.to_nat 1) with 1%nat.
  change (Z.to_nat 2) with 2%nat. change (Z.to_nat 3) with 3%nat.
  cbn [lookup list_lookup]. rewrite !Z.shiftr_div_pow2 by lia. change (2 ^ 8) with 256. change (2 ^ 16) with 65536.
  wrap_lia.
Qed.

(** ** Comparisons *)

Lemma memcmp_eq_0 n : forall a b : list Z,
  length a = n -> length b = n -> memcmp a b n = 0 <-> a = b.
Proof.
  induction n as [|n IH]; intros [|x a] [|y b] Ha Hb; try done.
  cbn [memcmp]. injection Ha as Ha. injection Hb as Hb.
  destruct (x - y =? 0) eqn:E; cbn [negb]; bool_to_prop.
  - rewrite IH by done. split; [intros ->; f_equal; lia | congruence].
  - split; [lia | intros [= -> ->]; lia].
Qed.

(** ** Statements leave the variables of the C files alone *)

Record same_statics (s s' : machine) : Prop := {
  ss_irq : m_irq_function s' = m_irq_function s;
  ss_alloc : m_alloc s' = m_alloc s;
  ss_pci : m_pci s' = m_pci s;
  ss_net : m_net s' = m_net s;
  ss_pcnet32 : m_pcnet32 s' = m_pcnet32 s;
  ss_rtl8101 : m_rtl8101 s' = m_rtl8101 s;
  ss_ne2000 : m_ne2000 s' = m_ne2000 s
}.

#[export] Instance same_statics_preorder : PreOrder same_statics.
Proof.
  split.
  - by intros s.
  - intros s1 s2 s3 [] []. split; congruence.
Qed.

(** ** Port accesses only add to the I/O history *)

Definition io_only (s s' : machine) : Prop :=
  exists tr, s' = set_m_trace (tr ++ m_trace s) s /\ executed tr = [].

Lemma executed_app t1 t2 : executed (t1 ++ t2) = executed t1 ++ executed t2.
Proof. apply omap_app. Qed.

#[export] Instance io_only_preorder : PreOrder io_only.
Proof.
  split.
  - intros s. exists []. by destruct s.
  - intros s1 s2 s3 [t1 [-> X1]] [t2 [-> X2]]. exists (t2 ++ t1). cbn. by rewrite app_assoc, executed_app, X1, X2.
Qed.

Abbreviation port_io := (stays (λ _ : machine, True) io_only).

(** The history has grown, by port accesses and polls but no calls of uploaded
    code. *)
Definition adds_io (s s' : machine) : Prop := exists tr, m_trace s' = tr ++ m_trace s /\ executed tr = [].

#[export] Instance adds_io_preorder : PreOrder adds_io.
Proof.
  split.
  - intros s. by exists [].
  - intros s1 s2 s3 (t1 & E1 & X1) (t2 & E2 & X2). exists (t2 ++ t1). split; [by rewrite E2, E1, app_assoc|].
    by rewrite executed_app, X1, X2.
Qed.

Lemma adds_io_same s s' : m_trace s' = m_trace s -> adds_io s s'.
Proof. by exists []. Qed.

Lemma adds_io_executed s s' : adds_io s s' -> executed (m_trace s') = executed (m_trace s).
Proof. intros (tr & -> & X). by rewrite executed_app, X. Qed.

Lemma io_only_adds s s' : io_only s s' -> adds_io s s'.
Proof. intros (tr & -> & X). by exists tr. Qed.

Section PortIO.
Context `{Env}.

Lemma io_only_log e : executed [e] = [] -> port_io (log e).
Proof. intros X s _. split; [done|]. by exists [e]. Qed.

#[local] Hint Resolve io_only_log : stays.

Lemma io_only_out w p v : port_io (io_out w p v).
Proof. unfold io_out. solve_stays. Qed.

Lemma io_only_in w p : port_io (io_in w p).
Proof. unfold io_in. solve_stays. Qed.

#[local] Hint Resolve io_only_out io_only_in : stays.

Lemma io_only_inl p : port_io (io_inl p).
Proof. unfold io_inl. solve_stays. Qed.

Lemma io_only_inw p : port_io (io_inw p).
Proof. unfold io_inw. solve_stays. Qed.

Lemma io_only_inb p : port_io (io_inb p).
Proof. unfold io_inb. solve_stays. Qed.

Lemma io_only_inbi p : port_io (io_inbi p).
Proof. unfold io_inbi. solve_stays. Qed.

Lemma io_only_outl p v : port_io (io_outl p v).
Proof. unfold io_outl. solve_stays. Qed.

Lemma io_only_outw p v : port_io (io_outw p v).
Proof. unfold io_outw. solve_stays. Qed.

Lemma io_only_outb p v : port_io (io_outb p v).
Proof. unfold io_outb. solve_stays. Qed.

Lemma io_only_outbi p v : port_io (io_outbi p v).
Proof. unfold io_outbi. solve_stays. Qed.

#[local] Hint Resolve io_only_inl io_only_inw io_only_inb io_only_inbi io_only_outl io_only_outw io_only_outb io_only_outbi : stays.

Lemma io_only_delay : port_io io_delay.
Proof. unfold io_delay. solve_stays. Qed.

#[local] Hint Resolve io_only_delay : stays.

Lemma io_only_inbi_d p : port_io (io_inbi_d p).
Proof. unfold io_inbi_d. solve_stays. Qed.

Lemma io_only_outbi_d p v : port_io (io_outbi_d p v).
Proof. unfold io_outbi_d. solve_stays. Qed.

Lemma io_only_inb_d p : port_io (io_inb_d p).
Proof. unfold io_inb_d. solve_stays. Qed.

Lemma io_only_outb_d p v : port_io (io_outb_d p v).
Proof. unfold io_outb_d. solve_stays. Qed.
End PortIO.

#[export] Hint Resolve io_only_log io_only_out io_only_in io_only_inl io_only_inw io_only_inb io_only_inbi
  io_only_outl io_only_outw io_only_outb io_only_outbi io_only_delay io_only_inbi_d io_only_outbi_d
  io_only_inb_d io_only_outb_d : stays.

(** Memory unchanged outside a set of addresses. *)
Definition mem_frame (P : Z -> Prop) (m m' : gmap Z Z) : Prop :=
  forall a, ~ P (u32 a) -> rd8 m' a = rd8 m a.

#[export] Instance mem_frame_preorder P : PreOrder (mem_frame P).
Proof.
  split.
  - by intros m a.
  - intros m1 m2 m3 H1 H2 a Ha. by rewrite H2, H1.
Qed.

Lemma mem_frame_wr_bytes (P : Z -> Prop) m a l :
  (forall i, 0 <= i < Z.of_nat (length l) -> P (u32 (a + i))) ->
  mem_frame P m (wr_bytes m a l).
Proof.
  intros HP b Hb. apply rd8_wr_bytes_out.
  destruct (Z_lt_le_dec (u32 (b - a)) (Z.of_nat (length l))) as [Hlt|]; [|done].
  exfalso. apply Hb. replace (u32 b) with (u32 (a + u32 (b - a))) by wrap_lia.
  apply HP. pose proof (u32_range (b - a)). lia.
Qed.

Lemma mem_frame_rd_bytes (P : Z -> Prop) m m' a n :
  mem_frame P m m' -> (forall i, 0 <= i < Z.of_nat n -> ~ P (u32 (a + i))) ->
  rd_bytes m' a n = rd_bytes m a n.
Proof. intros HF HP. apply rd_bytes_ext. intros i Hi. apply HF, HP. lia. Qed.

(** Blocks and words at addresses that do not wrap. *)
Lemma mem_frame_block (P : Z -> Prop) m m' a n :
  mem_frame P m m' -> 0 <= a -> a + Z.of_nat n <= 4294967296 ->
  (forall x, a <= x < a + Z.of_nat n -> ~ P x) -> rd_bytes m' a n = rd_bytes m a n.
Proof.
  intros HF Ha Hend HP. apply (mem_frame_rd_bytes _ _ _ _ _ HF). intros i Hi.
  rewrite u32_small by lia. apply HP. lia.
Qed.

Lemma mem_frame_rd16 (P : Z -> Prop) m m' a :
  mem_frame P m m' -> 0 <= a -> a + 2 <= 4294967296 -> (forall x, a <= x < a + 2 -> ~ P x) -> rd16 m' a = rd16 m a.
Proof.
  intros HF Ha Hend HP. apply rd16_ext. intros i Hi. apply HF. rewrite u32_small by lia. apply HP. lia.
Qed.

Lemma mem_frame_rd32 (P : Z -> Prop) m m' a :
  mem_frame P m m' -> 0 <= a -> a + 4 <= 4294967296 -> (forall x, a <= x < a + 4 -> ~ P x) -> rd32 m' a = rd32 m a.
Proof.
  intros HF Ha Hend HP. apply rd32_ext. intros i Hi. apply HF. rewrite u32_small by lia. apply HP. lia.
Qed.

(** A store as a frame. *)
Lemma mem_frame_store m a l :
  0 <= a -> a + Z.of_nat (length l) <= 4294967296 ->
  mem_frame (λ x, a <= x < a + Z.of_nat (length l)) m (wr_bytes m a l).
Proof. intros Ha Hend. apply mem_frame_wr_bytes. intros i Hi. rewrite u32_small by lia. lia. Qed.

Lemma mem_frame_store16 m a v :
  0 <= a -> a + 2 <= 4294967296 -> mem_frame (λ x, a <= x < a + 2) m (wr16 m a v).
Proof. intros Ha Hend. apply (mem_frame_store m a [v; Z.shiftr v 8] Ha). cbn. lia. Qed.

Lemma mem_frame_store32 m a v :
  0 <= a -> a + 4 <= 4294967296 -> mem_frame (λ x, a <= x < a + 4) m (wr32 m a v).
Proof.
  intros Ha Hend. rewrite wr32_wr_bytes.
  apply (mem_frame_store m a [v; Z.shiftr v 8; Z.shiftr v 16; Z.shiftr (Z.shiftr v 16) 8] Ha). cbn. lia.
Qed.

Lemma mem_frame_weaken (P Q : Z -> Prop) m m' :
  (forall a, P a -> Q a) -> mem_frame P m m' -> mem_frame Q m m'.
Proof. intros HPQ HF a Ha. apply HF. auto. Qed.

(** Words that do not overlap a store. *)
Definition apart (a n b k : Z) : Prop :=
  0 <= a /\ a + n <= 4294967296 /\ 0 <= b /\ b + k <= 4294967296 /\ (b + k <= a \/ a + n <= b).

Lemma rd32_wr16_far m a v b : apart a 2 b 4 -> rd32 (wr16 m a v) b = rd32 m b.
Proof.
  intros (?&?&?&?&?). apply (mem_frame_rd32 _ _ _ _ (mem_frame_store16 m a v ltac:(lia) ltac:(lia))); intros; lia.
Qed.

Lemma rd32_wr32_far m a v b : apart a 4 b 4 -> rd32 (wr32 m a v) b = rd32 m b.
Proof.
  intros (?&?&?&?&?). apply (mem_frame_rd32 _ _ _ _ (mem_frame_store32 m a v ltac:(lia) ltac:(lia))); intros; lia.
Qed.

Lemma rd16_wr32_far m a v b : apart a 4 b 2 -> rd16 (wr32 m a v) b = rd16 m b.
Proof.
  intros (?&?&?&?&?). apply (mem_frame_rd16 _ _ _ _ (mem_frame_store32 m a v ltac:(lia) ltac:(lia))); intros; lia.
Qed.

Lemma rd16_wr16_far m a v b : apart a 2 b 2 -> rd16 (wr16 m a v) b = rd16 m b.
Proof.
  intros (?&?&?&?&?). apply (mem_frame_rd16 _ _ _ _ (mem_frame_store16 m a v ltac:(lia) ltac:(lia))); intros; lia.
Qed.

(** The memory a computation leaves. *)
Definition memory_after {A} (c : M A) (s : machine) : gmap Z Z :=
  match c s with
  | inr (_, s') => m_mem s'
  | inl _ => ∅
  end.

Lemma memory_after_wp {A} (c : M A) (Q : gmap Z Z -> Prop) s :
  wp c (λ _ s', Q (m_mem s')) s -> Q (memory_after c s).
Proof. unfold wp, memory_after. destruct (c s) as [|[]]; done. Qed.
