(* ===== verification/Vga.v ===== *)
(** * The VGA text console (src/eth/vga.c and the console helpers of c-main.c)

    The operations, the invariant [vga_ok] that keeps the cursor on the screen,
    the frame rule [vga_frame] that the network code relies on (printing only
    touches the text RAM, the I/O history and the console's own variables), and
    a refinement of [vga_writechar] to an abstract scrolling terminal. *)

From S2P Require Import Prelude Machine Memory.

Definition hexes : list Z := str "0123456789ABCDEF".

Section Vga.
Context `{Env}.

Definition vga_alpha_char_ptr (v : vga_state) (x y : Z) : Z :=
  u32 (VGA_alpha v + 2 * (u32 (y * VGA_alpha_columns v) + x)).

Definition vga_scrollup : M unit :=
  v ← gets m_vga;
  do_memcpy (VGA_alpha v) (VGA_alpha v + 2 * VGA_alpha_columns v)
    (u32 (u32 (VGA_alpha_rows v - 1) * VGA_alpha_columns v * 2)) ;;
  do_memset (VGA_alpha v + 2 * u32 (u32 (VGA_alpha_rows v - 1) * VGA_alpha_columns v)) 0
    (u32 (VGA_alpha_columns v * 2)).

Definition vga_crtc_write (index val : Z) : M unit :=
  v ← gets m_vga;
  io_outb (u32 (VGA_iobase v + 4)) (u8 index) ;;
  io_outb (u32 (VGA_iobase v + 5)) (u8 val).

Definition vga_update_cursor : M unit :=
  v ← gets m_vga;
  let cursor_pos := u32 (VGA_alpha_y v * VGA_alpha_columns v + VGA_alpha_x v) in
  vga_crtc_write 14 (u8 (Z.shiftr cursor_pos 8)) ;;
  vga_crtc_write 15 (u8 cursor_pos).

Definition vga_cursor_down : M unit :=
  upd_vga (λ v, set_VGA_alpha_y (u32 (VGA_alpha_y v + 1)) v) ;;
  v ← gets m_vga;
  when (VGA_alpha_rows v <=? VGA_alpha_y v)
    (upd_vga (λ v, set_VGA_alpha_y (u32 (VGA_alpha_rows v - 1)) v) ;;
     vga_scrollup).

Definition vga_cursor_right : M unit :=
  upd_vga (λ v, set_VGA_alpha_x (u32 (VGA_alpha_x v + 1)) v) ;;
  v ← gets m_vga;
  when (VGA_alpha_columns v <=? VGA_alpha_x v)
    (upd_vga (set_VGA_alpha_x 0) ;;
     vga_cursor_down).

(** [c] arrives as a [char]. *)
Definition vga_writechar (c : Z) : M unit :=
  let c := s8 c in
  (if c =? 13 then upd_vga (set_VGA_alpha_x 0)
   else if c =? 10 then vga_cursor_down
   else
     v ← gets m_vga;
     store16 (vga_alpha_char_ptr v (VGA_alpha_x v) (VGA_alpha_y v))
       (Z.lor (Z.shiftl (VGA_color v) 8) (u8 c)) ;;
     vga_cursor_right) ;;
  vga_update_cursor.

Fixpoint vga_writehex (val : Z) (digits : nat) : M unit :=
  match digits with
  | O => skip
  | S d =>
      let v := Z.land (Z.shiftr val (Z.of_nat d * 4)) 15 in
      vga_writechar (nth (Z.to_nat v) hexes 0) ;;
      vga_writehex val d
  end.

(** [vga_write_hex(x)] for an expression [x] of [size] bytes. *)
Definition vga_write_hex (x : Z) (size : nat) : M unit := vga_writehex x (size * 2).

Fixpoint vga_write (s : list Z) : M unit :=
  match s with
  | [] => skip
  | c :: s' => if negb (c =? 0) then vga_writechar c ;; vga_write s' else skip
  end.

(** [*BIOS_DATA_AREA(t,o)] is at [0x400+o]. *)
Definition BIOS_DATA_AREA (o : Z) : Z := 1024 + o.

Definition vga_init : M unit :=
  upd_vga (λ v, set_VGA_iobase 976 (set_VGA_alpha_columns 25
                  (set_VGA_alpha_rows 80 (set_VGA_alpha 753664 v)))) ;;
  r ← load8 (BIOS_DATA_AREA 132);
  let bios_rows := u8 (r + 1) in
  c ← load16 (BIOS_DATA_AREA 74);
  let bios_cols := u8 c in
  when (((bios_cols =? 40) || (bios_cols =? 80) || (bios_cols =? 32)) &&
        ((10 <=? bios_rows) && (bios_rows <=? 60)))
    (upd_vga (λ v, set_VGA_alpha_columns bios_cols (set_VGA_alpha_rows bios_rows v))) ;;
  upd_vga (set_VGA_alpha_x 0) ;;
  upd_vga (λ v, set_VGA_alpha_y (u32 (VGA_alpha_rows v - 1)) v) ;;
  x ← load8 (BIOS_DATA_AREA 80);
  y ← load8 (BIOS_DATA_AREA 81);
  v ← gets m_vga;
  when ((0 <=? x) && (x <? VGA_alpha_columns v) && (0 <=? y) && (y <? VGA_alpha_rows v))
    (upd_vga (set_VGA_alpha_x x) ;; upd_vga (set_VGA_alpha_y y)).

(** *** Console helpers of c-main.c *)

Definition vga_clear : M unit :=
  v ← gets m_vga;
  let xmax := u32 (VGA_alpha_rows v * VGA_alpha_columns v) in
  for_range 0 (Z.to_nat xmax) (λ x, store16 (VGA_alpha v + 2 * x) 1824).

Definition vga_home : M unit := upd_vga (set_VGA_alpha_y 0) ;; upd_vga (set_VGA_alpha_x 0).

Definition vga_color (c : Z) : M unit := upd_vga (set_VGA_color (u8 c)).

Definition vga_normal : M unit := upd_vga (set_VGA_color 7).

(** The digits [vga_write_dec] leaves in [stk], most significant first: the
    last one always, then while the quotient is not zero and [stki > 0]. *)
Fixpoint dec_digits (x : Z) (stki : nat) : list Z :=
  match stki with
  | O => []
  | S i => if x =? 0 then [] else dec_digits (x / 10) i ++ [x mod 10]
  end.

Fixpoint vga_write_digits (stk : list Z) : M unit :=
  match stk with
  | [] => skip
  | d :: stk' => vga_writechar (d + 48) ;; vga_write_digits stk'
  end.

Definition vga_write_dec (x : Z) : M unit :=
  vga_write_digits (dec_digits (x / 10) 11 ++ [x mod 10]).

Definition vga_write_ipv4 (p : list Z) : M unit :=
  vga_write_dec (nth 0 p 0) ;; vga_writechar 46 ;;
  vga_write_dec (nth 1 p 0) ;; vga_writechar 46 ;;
  vga_write_dec (nth 2 p 0) ;; vga_writechar 46 ;;
  vga_write_dec (nth 3 p 0).

End Vga.

(** ** The invariant of the console variables *)

Record vga_ok (v : vga_state) : Prop := {
  vok_alpha : VGA_alpha v = 753664;
  vok_cols : 0 < VGA_alpha_columns v;
  vok_rows : 0 < VGA_alpha_rows v;
  vok_size : VGA_alpha_rows v * VGA_alpha_columns v <= 16384;
  vok_x : 0 <= VGA_alpha_x v < VGA_alpha_columns v;
  vok_y : 0 <= VGA_alpha_y v < VGA_alpha_rows v;
  vok_color : 0 <= VGA_color v < 256
}.

(** The 32K of text RAM at 0xB8000. *)
Definition vga_window (a : Z) : Prop := 753664 <= a < 786432.

(** What printing may change. *)
Record console_step (s s' : machine) : Prop := {
  cs_ok : vga_ok (m_vga s');
  cs_mem : mem_frame vga_window (m_mem s) (m_mem s');
  cs_statics : same_statics s s';
  cs_io : adds_io s s'
}.

(** The same between states that keep the invariant. *)
Record console_frame (s s' : machine) : Prop := {
  cf_mem : mem_frame vga_window (m_mem s) (m_mem s');
  cf_statics : same_statics s s';
  cf_io : adds_io s s'
}.

#[export] Instance console_frame_preorder : PreOrder console_frame.
Proof.
  split.
  - by intros s.
  - intros s1 s2 s3 [Hm1 Hs1 Ht1] [Hm2 Hs2 Ht2]. split; by etransitivity.
Qed.

(** A computation that only prints. *)
Definition console_inv (s : machine) : Prop := vga_ok (m_vga s).
Abbreviation prints := (stays console_inv console_frame).

(** ** An abstract terminal *)

Record term : Type := mkTerm {
  t_rows : nat; t_cols : nat;
  t_cells : list Z;               (* attribute:character words, row by row *)
  t_x : nat; t_y : nat
}.

Definition term_newline (t : term) : term :=
  if decide (S (t_y t) < t_rows t)%nat
  then mkTerm (t_rows t) (t_cols t) (t_cells t) (t_x t) (S (t_y t))
  else mkTerm (t_rows t) (t_cols t)
         (drop (t_cols t) (t_cells t) ++ replicate (t_cols t) 0) (t_x t) (t_y t).

Definition term_cr (t : term) : term := mkTerm (t_rows t) (t_cols t) (t_cells t) 0 (t_y t).

Definition term_right (t : term) : term :=
  if decide (S (t_x t) < t_cols t)%nat
  then mkTerm (t_rows t) (t_cols t) (t_cells t) (S (t_x t)) (t_y t)
  else term_newline (term_cr t).

Definition term_putc (attr c : Z) (t : term) : term :=
  if u8 c =? 13 then term_cr t
  else if u8 c =? 10 then term_newline t
  else term_right (mkTerm (t_rows t) (t_cols t)
         (<[(t_y t * t_cols t + t_x t)%nat := 256 * attr + u8 c]> (t_cells t)) (t_x t) (t_y t)).

Definition vga_cells (m : gmap Z Z) (base : Z) (n : nat) : list Z :=
  (λ i, rd16 m (base + 2 * Z.of_nat i)) <$> seq 0 n.

(** The terminal a machine state shows. *)
Definition term_of (s : machine) : term :=
  let v := m_vga s in
  let rows := Z.to_nat (VGA_alpha_rows v) in
  let cols := Z.to_nat (VGA_alpha_columns v) in
  mkTerm rows cols (vga_cells (m_mem s) (VGA_alpha v) (rows * cols))
    (Z.to_nat (VGA_alpha_x v)) (Z.to_nat (VGA_alpha_y v)).

(** ** Lemmas *)

Lemma length_vga_cells m base n : length (vga_cells m base n) = n.
Proof. unfold vga_cells. by rewrite length_fmap, length_seq. Qed.

Lemma vga_cells_lookup m base n i :
  (i < n)%nat -> vga_cells m base n !! i = Some (rd16 m (base + 2 * Z.of_nat i)).
Proof. intros. unfold vga_cells. by rewrite list_lookup_fmap, lookup_seq_lt by lia. Qed.

(** The screen as the scroll leaves it. *)
Definition scrolled (m : gmap Z Z) (base cols n : Z) : gmap Z Z :=
  memset (memcpy m base (base + 2 * cols) (Z.to_nat (2 * n))) (base + 2 * n) 0 (Z.to_nat (2 * cols)).

Lemma rd8_scrolled m base cols n a :
  0 <= n -> 0 < cols -> n + cols <= 16384 ->
  rd8 (scrolled m base cols n) a =
    let o := u32 (a - base) in
    if o <? 2 * n then rd8 m (a + 2 * cols)
    else if o <? 2 * (n + cols) then 0 else rd8 m a.
Proof.
  intros Hn Hc Hs. unfold scrolled, memset.
  rewrite memcpy_wr_bytes by (lia || (right; wrap_lia)).
  rewrite rd8_wr_bytes by (rewrite length_replicate; lia).
  rewrite rd8_wr_bytes by (rewrite length_rd_bytes; lia). cbv zeta.
  destruct (u32 (a - base) <? 2 * n) eqn:E1; bool_to_prop.
  - rewrite (lookup_ge_None_2 (replicate _ _)) by (rewrite length_replicate; wrap_lia).
    rewrite rd_bytes_lookup by wrap_lia. rewrite u8_small by apply rd8_range.
    apply rd8_cong. wrap_lia.
  - rewrite (lookup_ge_None_2 (rd_bytes _ _ _)) by (rewrite length_rd_bytes; wrap_lia).
    destruct (u32 (a - base) <? 2 * (n + cols)) eqn:E2; bool_to_prop.
    + rewrite lookup_replicate_2 by wrap_lia. done.
    + rewrite lookup_ge_None_2 by (rewrite length_replicate; wrap_lia). done.
Qed.

Lemma vga_cells_scrolled m base cols n :
  0 <= n -> 0 < cols -> n + cols <= 16384 ->
  vga_cells (scrolled m base cols n) base (Z.to_nat (n + cols)) =
    drop (Z.to_nat cols) (vga_cells m base (Z.to_nat (n + cols))) ++ replicate (Z.to_nat cols) 0.
Proof.
  intros Hn Hc Hs.
  apply list_eq_same_length with (Z.to_nat (n + cols));
    rewrite ?length_app, ?length_drop, ?length_vga_cells, ?length_replicate; try lia.
  intros i x y Hi. rewrite vga_cells_lookup by done. intros [= <-].
  unfold rd16. rewrite !rd8_scrolled by done. cbv zeta.
  replace (u32 (base + 2 * Z.of_nat i - base)) with (2 * Z.of_nat i) by wrap_lia.
  replace (u32 (base + 2 * Z.of_nat i + 1 - base)) with (2 * Z.of_nat i + 1) by wrap_lia.
  destruct (decide (Z.of_nat i < n)).
  - rewrite lookup_app_l by (rewrite length_drop, length_vga_cells; lia).
    rewrite lookup_drop, vga_cells_lookup by lia. intros [= <-].
    rewrite !(proj2 (Z.ltb_lt _ _)) by lia.
    unfold rd16. f_equal; [|f_equal]; f_equal; lia.
  - rewrite lookup_app_r by (rewrite length_drop, length_vga_cells; lia).
    rewrite length_drop, length_vga_cells, lookup_replicate_2 by lia. intros [= <-].
    rewrite !(proj2 (Z.ltb_ge _ (2 * n))) by lia. rewrite !(proj2 (Z.ltb_lt _ _)) by lia. done.
Qed.

Lemma vga_cells_wr16 m base n i v :
  Z.of_nat n <= 16384 -> (i < n)%nat ->
  vga_cells (wr16 m (base + 2 * Z.of_nat i) v) base n = <[i := u16 v]> (vga_cells m base n).
Proof.
  intros Hn Hi. apply list_eq_same_length with n; rewrite ?length_insert, ?length_vga_cells; try done.
  intros j x y Hj. rewrite vga_cells_lookup by done. intros [= <-].
  destruct (decide (i = j)) as [->|Hne].
  - rewrite list_lookup_insert_eq by (rewrite length_vga_cells; lia). intros [= <-]. apply rd16_wr16.
  - rewrite list_lookup_insert_ne by done. rewrite vga_cells_lookup by done. intros [= <-].
    apply rd16_ext. intros k Hk. unfold wr16. rewrite !rd8_wr8_ne by wrap_lia. done.
Qed.

Section VgaSpecs.
Context `{Env}.

Lemma vga_scrollup_run s :
  let v := m_vga s in
  0 < VGA_alpha_columns v -> 0 < VGA_alpha_rows v ->
  VGA_alpha_rows v * VGA_alpha_columns v <= 16384 ->
  vga_scrollup s = inr (tt, set_m_mem
    (scrolled (m_mem s) (VGA_alpha v) (VGA_alpha_columns v)
       ((VGA_alpha_rows v - 1) * VGA_alpha_columns v)) s).
Proof.
  intros v Hc Hr Hs. unfold vga_scrollup, scrolled. subst v. run.
  set (cols := VGA_alpha_columns _) in *. set (rows := VGA_alpha_rows _) in *.
  set (n := (rows - 1) * cols).
  assert (0 <= n /\ n + cols <= 16384) as [Hn Hnc] by (subst n; nia).
  assert (rows <= 16384) by nia.
  assert (u32 (rows - 1) * cols = n) as E by (rewrite u32_small by lia; done).
  rewrite E. rewrite (u32_small (n * 2)), (u32_small n), (u32_small (cols * 2)) by lia.
  by rewrite (Z.mul_comm n 2), (Z.mul_comm cols 2).
Qed.

(** Moving to the next line, against the terminal: also from a state whose [x]
    has just been set to 0 by [vga_cursor_right]. *)
Lemma vga_cursor_down_term s :
  vga_ok (m_vga s) ->
  wp vga_cursor_down (λ _ s', console_step s s' /\ term_of s' = term_newline (term_of s) /\
                              VGA_color (m_vga s') = VGA_color (m_vga s)) s.
Proof.
  intros [Ha Hc Hr Hs Hx Hy Hcol]. unfold vga_cursor_down, upd_vga.
  assert (VGA_alpha_rows (m_vga s) <= 16384) by nia.
  wp_step. wp_step. wp_step. wp_step. cbn -[u32 term_newline term_of].
  rewrite (u32_small (VGA_alpha_y (m_vga s) + 1)) by lia.
  unfold term_newline, term_of. cbn [t_y t_rows t_cols t_cells t_x].
  wp_step; bool_to_prop.
  - wp_step. wp_step. unfold wp. rewrite vga_scrollup_run by (cbn; lia).
    cbn -[u32 drop vga_cells scrolled]. rewrite u32_small by lia. split; [|split; [|done]].
    + split; [split; cbn; lia| |done|by apply adds_io_same]. cbn. intros a Ha'. unfold vga_window in Ha'.
      pose proof (u32_range a).
      rewrite rd8_scrolled by nia. cbv zeta.
      rewrite !(proj2 (Z.ltb_ge _ _)) by (revert Ha'; wrap_lia || (rewrite Ha; nia || wrap_lia)). done.
    + rewrite decide_False by lia. f_equal; [|lia].
      replace (Z.to_nat (VGA_alpha_rows (m_vga s)) * Z.to_nat (VGA_alpha_columns (m_vga s)))%nat
        with (Z.to_nat ((VGA_alpha_rows (m_vga s) - 1) * VGA_alpha_columns (m_vga s) +
                        VGA_alpha_columns (m_vga s))) by nia.
      apply vga_cells_scrolled; nia.
  - cbn. rewrite decide_True by lia. split; [|split; [|done]].
    + split; [split; cbn; lia|by intros a|done|by apply adds_io_same].
    + f_equal. lia.
Qed.

Lemma vga_update_cursor_run s :
  exists tr, vga_update_cursor s = inr (tt, set_m_trace (tr ++ m_trace s) s) /\ executed tr = [].
Proof.
  unfold vga_update_cursor, vga_crtc_write, io_outb, io_out, log. run.
  eexists [_; _; _; _]. split; [reflexivity|done].
Qed.

Lemma vga_cursor_right_term s :
  vga_ok (m_vga s) ->
  wp vga_cursor_right (λ _ s', console_step s s' /\ term_of s' = term_right (term_of s) /\
                               VGA_color (m_vga s') = VGA_color (m_vga s)) s.
Proof.
  intros [Ha Hc Hr Hs Hx Hy Hcol]. unfold vga_cursor_right, upd_vga.
  assert (VGA_alpha_columns (m_vga s) <= 16384) by nia.
  wp_step. wp_step. wp_step. wp_step. cbn -[u32 term_right term_of].
  rewrite (u32_small (VGA_alpha_x (m_vga s) + 1)) by lia.
  unfold term_right. cbn [t_y t_rows t_cols t_cells t_x term_of].
  wp_step; bool_to_prop.
  - wp_step. wp_step. rewrite decide_False by lia.
    eapply wp_mono; [apply vga_cursor_down_term; split; cbn; lia|].
    intros [] s' (Hcs & Ht & Hcl). split; [|split; [|done]].
    + destruct Hcs as [Hok Hm [??????] Hio]. split; [done|exact Hm|by split|exact Hio].
    + rewrite Ht. f_equal.
  - cbn. rewrite decide_True by lia. split; [|split; [|done]].
    + split; [split; cbn; lia|by intros a|done|by apply adds_io_same].
    + unfold term_of. cbn. f_equal. lia.
Qed.

(** Storing the character cell. *)
Lemma vga_put_cell s c :
  vga_ok (m_vga s) ->
  let v := m_vga s in
  let s' := set_m_mem (wr16 (m_mem s) (vga_alpha_char_ptr v (VGA_alpha_x v) (VGA_alpha_y v))
                        (Z.lor (Z.shiftl (VGA_color v) 8) (u8 c))) s in
  console_step s s' /\
  term_of s' = mkTerm (t_rows (term_of s)) (t_cols (term_of s))
    (<[(t_y (term_of s) * t_cols (term_of s) + t_x (term_of s))%nat
         := 256 * VGA_color v + u8 c]> (t_cells (term_of s)))
    (t_x (term_of s)) (t_y (term_of s)).
Proof.
  intros [Ha Hc Hr Hs Hx Hy Hcol] v. subst v.
  set (v := m_vga s) in *.
  set (i := (Z.to_nat (VGA_alpha_y v) * Z.to_nat (VGA_alpha_columns v) + Z.to_nat (VGA_alpha_x v))%nat).
  assert (Z.of_nat i = VGA_alpha_y v * VGA_alpha_columns v + VGA_alpha_x v) as Ei by (subst i; nia).
  assert (Z.of_nat i < VGA_alpha_rows v * VGA_alpha_columns v) as Hi by nia.
  assert (vga_alpha_char_ptr v (VGA_alpha_x v) (VGA_alpha_y v) = VGA_alpha v + 2 * Z.of_nat i) as ->.
  { unfold vga_alpha_char_ptr.
    rewrite (u32_small (VGA_alpha_y v * VGA_alpha_columns v)) by nia.
    rewrite u32_small by lia. lia. }
  assert (Z.lor (Z.shiftl (VGA_color v) 8) (u8 c) = 256 * VGA_color v + u8 c) as ->.
  { rewrite Z.shiftl_mul_pow2, lor_shifted by (lia || apply u8_range). lia. }
  cbv zeta. split.
  - split; [by split|cbn|done|by apply adds_io_same]. rewrite wr16_wr_bytes. apply mem_frame_wr_bytes.
    cbn [length]. intros j Hj. unfold vga_window. rewrite u32_small by lia. lia.
  - unfold term_of. cbn -[Z.mul]. fold v. f_equal. rewrite vga_cells_wr16 by (lia || nia).
    pose proof (u8_range c). rewrite u16_small by lia. done.
Qed.

(** One character, as the terminal sees it. *)
Lemma vga_writechar_term s c :
  vga_ok (m_vga s) ->
  wp (vga_writechar c)
    (λ _ s', console_step s s' /\ term_of s' = term_putc (VGA_color (m_vga s)) c (term_of s) /\
             VGA_color (m_vga s') = VGA_color (m_vga s)) s.
Proof.
  intros Hok. unfold vga_writechar. wp_step.
  apply wp_mono with
    (P := λ _ s', console_step s s' /\ term_of s' = term_putc (VGA_color (m_vga s)) c (term_of s) /\
                  VGA_color (m_vga s') = VGA_color (m_vga s)).
  2: { intros [] s' ([Hok' Hm Hst Hio] & Ht & Hcl). apply wp_run.
       destruct (vga_update_cursor_run s') as (tr & Htr & X). exists tt, (set_m_trace (tr ++ m_trace s') s').
       split; [done|]. split; [|split; done]. split; [done|done|destruct Hst; by split|].
       etransitivity; [exact Hio|]. by exists tr. }
  unfold term_putc.
  replace (s8 c =? 13) with (u8 c =? 13) by (destruct (u8 c =? 13) eqn:?, (s8 c =? 13) eqn:?; bool_to_prop; wrap_lia).
  replace (s8 c =? 10) with (u8 c =? 10) by (destruct (u8 c =? 10) eqn:?, (s8 c =? 10) eqn:?; bool_to_prop; wrap_lia).
  replace (u8 (s8 c)) with (u8 c) by wrap_lia.
  destruct (u8 c =? 13).
  { unfold upd_vga. wp_step. destruct Hok. split; [split; [split; cbn; lia|by intros a|done|by apply adds_io_same]|]. done. }
  destruct (u8 c =? 10); [by apply vga_cursor_down_term|].
  wp_step. wp_step. unfold store16, upd_mem. wp_step. wp_step.
  destruct (vga_put_cell s c Hok) as [[Hok' Hm Hst Hio] Ht].
  eapply wp_mono; [by apply vga_cursor_right_term|].
  intros [] s' ([Hok2 Hm2 Hst2 Hio2] & Ht2 & Hcl2). split; [split; [done|by etransitivity..]|].
  rewrite Ht2, Ht. done.
Qed.

Definition term_write (attr : Z) (l : list Z) (t : term) : term :=
  fold_left (λ t c, term_putc attr c t) l t.

(** A NUL-free string followed by NUL prints exactly its characters. *)
Lemma vga_write_term l : forall s,
  vga_ok (m_vga s) -> Forall (λ c, c <> 0) l ->
  wp (vga_write (l ++ [0]))
    (λ _ s', console_step s s' /\ term_of s' = term_write (VGA_color (m_vga s)) l (term_of s) /\
             VGA_color (m_vga s') = VGA_color (m_vga s)) s.
Proof.
  induction l as [|c l IH]; intros s Hok Hl; cbn [app vga_write].
  - rewrite Z.eqb_refl. cbn. split; [by split|done].
  - inversion Hl; subst. rewrite (proj2 (Z.eqb_neq _ _)) by done. cbn [negb].
    wp_step. eapply wp_mono; [by apply vga_writechar_term|].
    intros [] s1 ([Hok1 Hm1 Hs1 Hio1] & Ht1 & Hc1).
    eapply wp_mono; [by apply IH|].
    intros [] s2 ([Hok2 Hm2 Hs2 Hio2] & Ht2 & Hc2).
    split; [split; [done|by etransitivity..]|]. rewrite Ht2, Ht1, Hc2, Hc1. done.
Qed.

(** The digits [vga_writehex] prints, and their value. *)
Fixpoint hex_digits (val : Z) (digits : nat) : list Z :=
  match digits with
  | O => []
  | S d => nth (Z.to_nat (Z.land (Z.shiftr val (Z.of_nat d * 4)) 15)) hexes 0 :: hex_digits val d
  end.

Lemma vga_writehex_term digits val : forall s,
  vga_ok (m_vga s) ->
  wp (vga_writehex val digits)
    (λ _ s', console_step s s' /\
             term_of s' = term_write (VGA_color (m_vga s)) (hex_digits val digits) (term_of s) /\
             VGA_color (m_vga s') = VGA_color (m_vga s)) s.
Proof.
  induction digits as [|d IH]; intros s Hok; cbn [vga_writehex hex_digits].
  - cbn. split; [by split|done].
  - wp_step. eapply wp_mono; [by apply vga_writechar_term|].
    intros [] s1 ([Hok1 Hm1 Hs1 Hio1] & Ht1 & Hc1).
    eapply wp_mono; [by apply IH|].
    intros [] s2 ([Hok2 Hm2 Hs2 Hio2] & Ht2 & Hc2).
    split; [split; [done|by etransitivity..]|]. rewrite Ht2, Ht1, Hc2, Hc1. done.
Qed.

(** *** Frame properties, for the clients that print *)

Lemma prints_of_wp (m : M unit) (Q : machine -> machine -> Prop) :
  (forall s, vga_ok (m_vga s) -> wp m (λ _ s', console_step s s' /\ Q s s') s) -> prints m.
Proof.
  intros Hm s Hs. eapply wp_mono; [by apply Hm|]. intros a s' [[Hok HF Hst] _].
  split; [done|by split].
Qed.

Lemma prints_writechar c : prints (vga_writechar c).
Proof. eapply prints_of_wp. intros s. apply vga_writechar_term. Qed.

#[local] Hint Resolve prints_writechar : stays.

Lemma prints_write l : prints (vga_write l).
Proof.
  induction l as [|c l IH]; cbn [vga_write]; solve_stays.
Qed.

Lemma prints_writehex val digits : prints (vga_writehex val digits).
Proof. eapply prints_of_wp. intros s. apply vga_writehex_term. Qed.

Lemma prints_write_dec x : prints (vga_write_dec x).
Proof.
  unfold vga_write_dec. generalize (dec_digits (x / 10) 11 ++ [x mod 10]).
  intros l. induction l as [|c l IH]; cbn [vga_write_digits]; solve_stays.
Qed.

End VgaSpecs.

#[export] Hint Resolve prints_writechar prints_write prints_writehex prints_write_dec : stays.

Section VgaMore.
Context `{Env}.

Lemma prints_write_hex x n : prints (vga_write_hex x n).
Proof. apply prints_writehex. Qed.

Lemma prints_write_ipv4 p : prints (vga_write_ipv4 p).
Proof. unfold vga_write_ipv4. solve_stays. Qed.

(** Whatever the BIOS left in its data area, initialisation puts the cursor on
    the screen. *)
Lemma vga_init_inv s :
  0 <= VGA_color (m_vga s) < 256 ->
  wp vga_init (λ _ s', vga_ok (m_vga s') /\ m_mem s' = m_mem s /\ same_statics s s') s.
Proof.
  intros Hc. unfold vga_init, upd_vga, load8, load16.
  set (m := m_mem s). pose proof (rd8_range m (BIOS_DATA_AREA 80)) as Hx.
  pose proof (rd8_range m (BIOS_DATA_AREA 81)) as Hy.
  pose proof (u8_range (rd16 m (BIOS_DATA_AREA 74))) as Hbc.
  pose proof (u8_range (rd8 m (BIOS_DATA_AREA 132) + 1)) as Hbr.
  do 7 wp_step. cbn [m_mem set_m_vga]. fold m.
  set (bc := u8 (rd16 m _)) in *. set (br := u8 (rd8 m _ + 1)) in *.
  wp_step.
  - bool_to_prop. assert (bc = 40 \/ bc = 80 \/ bc = 32) as Hcol.
    { repeat match goal with E : (_ || _)%bool = true |- _ => apply orb_true_iff in E as [E|E] end;
        bool_to_prop; lia. }
    wp_steps; cbn -[u32 rd8] in *; bool_to_prop; (split; [|done]);
      split; cbn -[u32 rd8]; rewrite ?(u32_small (br - 1)) by lia; lia || nia.
  - wp_steps; cbn -[u32 rd8] in *; bool_to_prop; (split; [|done]);
      split; cbn -[u32 rd8]; lia || (change (u32 (80 - 1)) with 79; lia).
Qed.

(** Clearing fills the screen with blanks in the normal colour. *)
Lemma vga_clear_term s :
  vga_ok (m_vga s) ->
  wp vga_clear (λ _ s', console_step s s' /\
    t_cells (term_of s') = replicate (t_rows (term_of s) * t_cols (term_of s)) 1824 /\
    m_vga s' = m_vga s) s.
Proof.
  intros Hok. pose proof Hok as [Ha Hc Hr Hs _ _ _]. unfold vga_clear. wp_step. wp_step.
  set (v := m_vga s) in *.
  set (n := (Z.to_nat (VGA_alpha_rows v) * Z.to_nat (VGA_alpha_columns v))%nat).
  assert (Z.of_nat n = VGA_alpha_rows v * VGA_alpha_columns v) as En by (subst n; nia).
  rewrite u32_small by nia. rewrite <- En, Nat2Z.id.
  eapply wp_mono.
  { apply (wp_for_range (λ i s', console_step s s' /\ m_vga s' = v /\
      forall j, 0 <= j < i -> rd16 (m_mem s') (VGA_alpha v + 2 * j) = 1824)).
    - split; [by split|]. split; [done|]. lia.
    - intros i s1 Hi ([Hok1 Hm1 Hs1 Hio1] & Hv1 & Hj). unfold store16, upd_mem. wp_step.
      split; [|split; [done|]].
      + split; [done| |destruct Hs1; by split|exact Hio1]. etransitivity; [exact Hm1|]. cbn.
        rewrite wr16_wr_bytes. apply mem_frame_wr_bytes. cbn [length].
        intros k Hk. unfold vga_window. rewrite u32_small by lia. lia.
      + intros j Hji. cbn. destruct (Z.eq_dec j i) as [->|Hne]; [by rewrite rd16_wr16|].
        rewrite <- (Hj j) by lia. apply rd16_ext. intros k Hk. unfold wr16.
        rewrite !rd8_wr8_ne by wrap_lia. done. }
  intros [] s' (Hcs & Hv & Hj). split; [done|split; [|done]].
  unfold term_of. rewrite Hv. cbn [t_cells t_rows t_cols]. fold v n.
  apply list_eq_same_length with n; rewrite ?length_vga_cells, ?length_replicate; try done.
  intros i x y Hi. rewrite vga_cells_lookup by done. rewrite lookup_replicate_2 by lia.
  rewrite Hj by lia. congruence.
Qed.

(** C31: [vga_write] behaves like a terminal: on a console in order, writing a
    string leaves exactly the screen, cursor and colour that the abstract
    terminal has after those characters (carriage return, line feed, wrapping at
    the right margin and scrolling included), and changes no memory but the
    text screen. *)
Theorem vga_write_refines_terminal l s :
  vga_ok (m_vga s) -> Forall (λ c, c <> 0) l ->
  exists s', vga_write (l ++ [0]) s = inr (tt, s') /\ console_step s s' /\
    term_of s' = term_write (VGA_color (m_vga s)) l (term_of s) /\ VGA_color (m_vga s') = VGA_color (m_vga s).
Proof. intros Hv Hl. by apply wp_run_unit, vga_write_term. Qed.

(** Whatever the BIOS data area says, [vga_init] leaves a console in order:
    a screen that fits the text memory with the cursor on it, so that no later
    output is stored outside the screen; then [vga_clear] blanks all of it. *)
Theorem vga_init_clear s :
  0 <= VGA_color (m_vga s) < 256 ->
  exists s1 s', vga_init s = inr (tt, s1) /\ vga_ok (m_vga s1) /\ m_mem s1 = m_mem s /\
    vga_clear s1 = inr (tt, s') /\ console_step s1 s' /\
    t_cells (term_of s') = replicate (t_rows (term_of s1) * t_cols (term_of s1)) 1824.
Proof.
  intros Hc. destruct (wp_run_unit _ _ _ (vga_init_inv s Hc)) as (s1 & E1 & Hv & Hm & _).
  destruct (wp_run_unit _ _ _ (vga_clear_term s1 Hv)) as (s' & E2 & Hs & Ht & _). by exists s1, s'.
Qed.

End VgaMore.

#[export] Hint Resolve prints_write_hex prints_write_ipv4 : stays.

Lemma vga_write_refines_terminal_witness :
  exists s', vga_write (str "OK" ++ [0]) blank = inr (tt, s') /\
    term_of s' = term_write 7 (str "OK") (term_of blank).
Proof.
  destruct (vga_write_refines_terminal (str "OK") blank) as (s' & E & _ & Ht & _).
  - split; cbn; lia.
  - repeat constructor; discriminate.
  - exists s'. split; [exact E|exact Ht].
Defined.

Lemma vga_init_clear_witness :
  exists s1 s', vga_init blank = inr (tt, s1) /\ vga_ok (m_vga s1) /\ vga_clear s1 = inr (tt, s').
Proof.
  destruct (vga_init_clear blank) as (s1 & s' & E1 & Hv & _ & E2 & _); [cbn; lia|].
  exists s1, s'. split_and!; [exact E1|exact Hv|exact E2].
Defined.
