(* ===== verification/Text.v ===== *)
(** * Numbers in text (c-main.c)

    Byte order, the whitespace and number scanners that parse a command out of
    the receive buffer, and [hex_to_str] that prints into a reply.  A scanner
    works on memory from a pointer, without a length: it stops at the first
    byte it does not accept, wherever that byte is. *)

From S2P Require Import Prelude Machine Memory Vga.

(** ** Byte order *)

Definition ntoh16 (x : Z) : Z := u16 (Z.lor (Z.shiftl x 8) (Z.shiftr x 8)).
Definition hton16 : Z -> Z := ntoh16.

Definition ntoh32 (x : Z) : Z :=
  let x := Z.lor (Z.shiftr x 16) (u32 (Z.shiftl x 16)) in
  Z.lor (Z.shiftr (Z.land x 4278255360) 8) (u32 (Z.shiftl (Z.land x 16711935) 8)).
Definition hton32 : Z -> Z := ntoh32.

(** ** Scanners *)

Fixpoint skip_whitespace (fuel : nat) (m : gmap Z Z) (p : Z) : option Z :=
  match fuel with
  | O => None
  | S f => if rd8 m p =? 32 then skip_whitespace f m (p + 1) else Some p
  end.

Definition chartohex (c : Z) : Z :=
  if (48 <=? c) && (c <=? 57) then c - 48
  else if (97 <=? c) && (c <=? 102) then (c - 97) + 10
  else if (65 <=? c) && (c <=? 70) then (c - 65) + 10
  else -1.

(** The digit loop of [s_strtoul_hex]. *)
Fixpoint hex_loop (fuel : nat) (m : gmap Z Z) (val p : Z) : option (Z * Z) :=
  match fuel with
  | O => None
  | S f =>
      let digit := chartohex (rd8 m p) in
      if 0 <=? digit
      then hex_loop f m (Z.lor (u32 (Z.shiftl val 4)) digit) (p + 1)
      else Some (val, p)
  end.

Definition s_strtoul_hex (fuel : nat) (m : gmap Z Z) (p : Z) : option (Z * Z) :=
  let p := if memcmp (rd_bytes m p 2) (str "0x") 2 =? 0 then p + 2 else p in
  hex_loop fuel m 0 p.

(** [s_strtoul_dec]; the loop also ends at a hex digit that is not decimal. *)
Fixpoint dec_loop (fuel : nat) (m : gmap Z Z) (val p : Z) : option (Z * Z) :=
  match fuel with
  | O => None
  | S f =>
      let digit := chartohex (rd8 m p) in
      if 0 <=? digit then
        if 10 <=? digit then Some (val, p)
        else dec_loop f m (u32 (u32 (val * 10) + digit)) (p + 1)
      else Some (val, p)
  end.

Definition s_strtoul_dec (fuel : nat) (m : gmap Z Z) (p : Z) : option (Z * Z) :=
  dec_loop fuel m 0 p.

(** ** Printing *)

(** The characters [hex_to_str] stores, most significant digit first. *)
Fixpoint hex_chars (x : Z) (digits : nat) : list Z :=
  match digits with
  | O => []
  | S d => nth (Z.to_nat (Z.shiftr x 28)) hexes 0 :: hex_chars (u32 (Z.shiftl x 4)) d
  end.

Fixpoint hex_to_str (p x : Z) (digits : nat) : M Z :=
  match digits with
  | O => mret p
  | S d =>
      store8 p (nth (Z.to_nat (Z.shiftr x 28)) hexes 0) ;;
      hex_to_str (p + 1) (u32 (Z.shiftl x 4)) d
  end.

(** ** Byte order lemmas *)

Lemma ntoh16_swap x : 0 <= x < 65536 -> ntoh16 x = 256 * (x mod 256) + x / 256.
Proof.
  intros Hx. unfold ntoh16. rewrite Z.shiftl_mul_pow2, Z.shiftr_div_pow2 by lia.
  rewrite lor_shifted by (change (2 ^ 8) with 256; Z.div_mod_to_equations; lia).
  change (2 ^ 8) with 256. wrap_lia.
Qed.

Lemma ntoh16_range x : 0 <= ntoh16 x < 65536.
Proof. apply u16_range. Qed.

Lemma ntoh16_invol x : 0 <= x < 65536 -> ntoh16 (ntoh16 x) = x.
Proof.
  intros Hx. rewrite (ntoh16_swap (ntoh16 x)) by apply ntoh16_range.
  rewrite ntoh16_swap by done. Z.div_mod_to_equations. lia.
Qed.

(** A word loaded from memory and swapped is the big-endian value there. *)
Lemma ntoh16_rd16 m a : ntoh16 (rd16 m a) = 256 * rd8 m a + rd8 m (a + 1).
Proof.
  rewrite ntoh16_swap by apply rd16_range. unfold rd16.
  pose proof (rd8_range m a). pose proof (rd8_range m (a + 1)). Z.div_mod_to_equations. lia.
Qed.

(** Storing a swapped word lays the value out big-endian. *)
Lemma wr16_hton16 m a x :
  0 <= x < 65536 -> wr16 m a (hton16 x) = wr_bytes m a [x / 256; x].
Proof.
  intros Hx. rewrite wr16_wr_bytes. unfold hton16. rewrite ntoh16_swap by done.
  rewrite Z.shiftr_div_pow2 by lia. change (2 ^ 8) with 256. cbn [wr_bytes]. unfold wr8.
  f_equal; [wrap_lia|]. f_equal. wrap_lia.
Qed.

(** ** Hexadecimal values *)

Definition is_hex (c : Z) : bool := 0 <=? chartohex c.

(** The number a string of hex digits denotes. *)
Definition hexval (l : list Z) : Z := fold_left (λ v c, 16 * v + chartohex c) l 0.

Lemma chartohex_range c : -1 <= chartohex c < 16.
Proof. unfold chartohex. repeat case_bool; bool_to_prop; lia. Qed.

Lemma chartohex_hexes d : 0 <= d < 16 -> chartohex (nth (Z.to_nat d) hexes 0) = d.
Proof.
  intros Hd. apply Z.eqb_eq.
  by apply (forallb_range (λ d, chartohex (nth (Z.to_nat d) hexes 0) =? d) 16).
Qed.

Lemma hexes_range d : 0 <= d < 16 -> 48 <= nth (Z.to_nat d) hexes 0 < 71.
Proof.
  intros Hd.
  assert (((48 <=? nth (Z.to_nat d) hexes 0) && (nth (Z.to_nat d) hexes 0 <? 71))%bool = true).
  { by apply (forallb_range (λ d, (48 <=? nth (Z.to_nat d) hexes 0) &&
                                  (nth (Z.to_nat d) hexes 0 <? 71))%bool 16). }
  bool_to_prop. lia.
Qed.

Lemma is_hex_hexes d : 0 <= d < 16 -> is_hex (nth (Z.to_nat d) hexes 0) = true.
Proof. intros Hd. unfold is_hex. rewrite chartohex_hexes by done. lia. Qed.

Lemma lor_nibble v d : 0 <= v -> 0 <= d < 16 -> Z.lor (u32 (Z.shiftl v 4)) d = u32 (16 * v + d).
Proof.
  intros Hv Hd. rewrite Z.shiftl_mul_pow2 by lia. change (2 ^ 4) with 16.
  replace (u32 (v * 16)) with ((v mod 268435456) * 16) by wrap_lia.
  change 16 with (2 ^ 4) at 1. rewrite lor_shifted by lia. change (2 ^ 4) with 16. wrap_lia.
Qed.

Definition hexacc (v : Z) (l : list Z) : Z := fold_left (λ v c, 16 * v + chartohex c) l v.

Lemma hexacc_nonneg l : forall v,
  0 <= v -> Forall (λ c, is_hex c = true) l -> 0 <= hexacc v l.
Proof.
  induction l as [|c l IH]; intros v Hv Hl; [done|]. inversion Hl as [|? ? Hc Hl']; subst.
  unfold is_hex in Hc. cbn. apply IH; [lia|done].
Qed.

(** ** What the scanners return *)

(** Spaces are skipped up to the first other byte. *)
Lemma skip_whitespace_spaces k : forall fuel m p,
  rd_bytes m p k = replicate k 32 -> rd8 m (p + Z.of_nat k) <> 32 -> (k < fuel)%nat ->
  skip_whitespace fuel m p = Some (p + Z.of_nat k).
Proof.
  induction k as [|k IH]; intros [|fuel] m p Hb Hne Hf; try lia; cbn [skip_whitespace].
  - rewrite Z.add_0_r in *. by rewrite (proj2 (Z.eqb_neq _ _)).
  - rewrite rd_bytes_S in Hb. injection Hb as Hh Ht. rewrite Hh. cbn.
    rewrite IH; [f_equal; lia|done| |lia].
    by replace (p + 1 + Z.of_nat k) with (p + Z.of_nat (S k)) by lia.
Qed.

Lemma hex_loop_scan ds : forall fuel m v p,
  rd_bytes m p (length ds) = ds -> Forall (λ c, is_hex c = true) ds ->
  is_hex (rd8 m (p + Z.of_nat (length ds))) = false -> (length ds < fuel)%nat -> 0 <= v ->
  hex_loop fuel m (u32 v) p = Some (u32 (hexacc v ds), p + Z.of_nat (length ds)).
Proof.
  induction ds as [|c ds IH]; intros [|fuel] m v p Hb Hall Hend Hf Hv; cbn [length] in *; try lia;
    cbn [hex_loop].
  - rewrite Z.add_0_r in *. unfold is_hex in Hend. by rewrite Hend.
  - rewrite rd_bytes_S in Hb. injection Hb as Hh Ht. inversion Hall as [|? ? Hc Hds]; subst c.
    pose proof Hc as Hc'. unfold is_hex in Hc'. rewrite Hc'. bool_to_prop.
    pose proof (chartohex_range (rd8 m p)).
    rewrite lor_nibble by (pose proof (u32_range v); lia).
    replace (u32 (16 * u32 v + chartohex (rd8 m p))) with (u32 (16 * v + chartohex (rd8 m p))) by wrap_lia.
    rewrite IH; [f_equal; f_equal; lia|done|done| |lia|lia].
    by replace (p + 1 + Z.of_nat (length ds)) with (p + Z.of_nat (S (length ds))) by lia.
Qed.

(** A string of hex digits, followed by a byte that is neither a hex digit nor
    [x], is read to its end and to its value modulo 2^32. *)
Lemma s_strtoul_hex_scan ds fuel m p :
  rd_bytes m p (length ds) = ds -> Forall (λ c, is_hex c = true) ds ->
  is_hex (rd8 m (p + Z.of_nat (length ds))) = false -> rd8 m (p + Z.of_nat (length ds)) <> 120 ->
  (length ds < fuel)%nat ->
  s_strtoul_hex fuel m p = Some (u32 (hexval ds), p + Z.of_nat (length ds)).
Proof.
  intros Hb Hall Hend Hx Hf. unfold s_strtoul_hex.
  assert ((memcmp (rd_bytes m p 2) (str "0x") 2 =? 0) = false) as ->.
  { apply Z.eqb_neq. rewrite memcmp_eq_0 by (rewrite ?length_rd_bytes; done).
    intros E. rewrite !rd_bytes_S in E. change (str "0x") with [48; 120] in E.
    injection E as E0 E1.
    destruct ds as [|c [|c' ds]]; cbn [length] in *.
    - rewrite Z.add_0_r, E0 in Hend. done.
    - change (Z.of_nat 1) with 1 in Hx. done.
    - rewrite !rd_bytes_S in Hb. injection Hb as _ Hc' _. rewrite E1 in Hc'. subst c'.
      inversion Hall as [|? ? _ Hall']; subst. inversion Hall' as [|? ? Hc'' _]; subst. done. }
  change 0 with (u32 0) at 1. by rewrite (hex_loop_scan ds) by (done || lia).
Qed.

(** *** Decimal *)

Definition is_dec (c : Z) : bool := (48 <=? c) && (c <=? 57).
Definition decacc (v : Z) (l : list Z) : Z := fold_left (λ v c, 10 * v + (c - 48)) l v.
Definition decval (l : list Z) : Z := decacc 0 l.

Lemma chartohex_dec c : is_dec c = true -> chartohex c = c - 48 /\ 0 <= c - 48 < 10.
Proof. unfold is_dec, chartohex. intros Hc. rewrite Hc. bool_to_prop. lia. Qed.

(** A byte at which a decimal number ends. *)
Definition ends_dec (c : Z) : Prop := chartohex c < 0 \/ 10 <= chartohex c.

Lemma dec_loop_scan ds : forall fuel m v p,
  rd_bytes m p (length ds) = ds -> Forall (λ c, is_dec c = true) ds ->
  ends_dec (rd8 m (p + Z.of_nat (length ds))) -> (length ds < fuel)%nat ->
  dec_loop fuel m (u32 v) p = Some (u32 (decacc v ds), p + Z.of_nat (length ds)).
Proof.
  induction ds as [|c ds IH]; intros [|fuel] m v p Hb Hall Hend Hf; cbn [length] in *; try lia;
    cbn [dec_loop].
  - rewrite Z.add_0_r in *. destruct Hend as [Hend|Hend].
    + by rewrite (proj2 (Z.leb_gt _ _)).
    + rewrite (proj2 (Z.leb_le 0 _)) by lia. by rewrite (proj2 (Z.leb_le 10 _)).
  - rewrite rd_bytes_S in Hb. injection Hb as Hh Ht. inversion Hall as [|? ? Hc Hds]; subst c.
    destruct (chartohex_dec _ Hc) as [-> Hr].
    rewrite (proj2 (Z.leb_le 0 _)), (proj2 (Z.leb_gt 10 _)) by lia.
    replace (u32 (u32 (u32 v * 10) + (rd8 m p - 48))) with (u32 (10 * v + (rd8 m p - 48))) by wrap_lia.
    rewrite IH; [f_equal; f_equal; lia|done|done| |lia].
    by replace (p + 1 + Z.of_nat (length ds)) with (p + Z.of_nat (S (length ds))) by lia.
Qed.

Lemma s_strtoul_dec_scan ds fuel m p :
  rd_bytes m p (length ds) = ds -> Forall (λ c, is_dec c = true) ds ->
  ends_dec (rd8 m (p + Z.of_nat (length ds))) -> (length ds < fuel)%nat ->
  s_strtoul_dec fuel m p = Some (u32 (decval ds), p + Z.of_nat (length ds)).
Proof. apply (dec_loop_scan ds fuel m 0 p). Qed.

(** ** What is printed *)

Lemma hex_to_str_run n : forall p x s,
  hex_to_str p x n s =
    inr (p + Z.of_nat n, set_m_mem (wr_bytes (m_mem s) p (hex_chars x n)) s).
Proof.
  induction n as [|n IH]; intros p x s; cbn [hex_to_str hex_chars wr_bytes].
  - run. rewrite Z.add_0_r. by destruct s.
  - unfold store8, upd_mem. run. rewrite IH. cbn [m_mem set_m_mem]. do 2 f_equal. lia.
Qed.

Lemma length_hex_chars n : forall x, length (hex_chars x n) = n.
Proof. induction n as [|n IH]; intros x; cbn; [done|by rewrite IH]. Qed.

Lemma hex_chars_hex n : forall x,
  0 <= x < 4294967296 -> Forall (λ c, is_hex c = true /\ 48 <= c < 71) (hex_chars x n).
Proof.
  induction n as [|n IH]; intros x Hx; cbn [hex_chars]; [constructor|].
  assert (0 <= Z.shiftr x 28 < 16).
  { rewrite Z.shiftr_div_pow2 by lia. change (2 ^ 28) with 268435456. Z.div_mod_to_equations. lia. }
  constructor; [split; [by apply is_hex_hexes|by apply hexes_range]|apply IH, u32_range].
Qed.

Lemma hexacc_hex_chars n : forall x v,
  0 <= x < 4294967296 ->
  hexacc v (hex_chars x n) = v * 16 ^ Z.of_nat n + (x * 16 ^ Z.of_nat n) / 4294967296.
Proof.
  induction n as [|n IH]; intros x v Hx.
  - change (16 ^ Z.of_nat 0) with 1. cbn. rewrite Z.div_small by lia. lia.
  - cbn [hex_chars]. unfold hexacc. cbn [fold_left]. fold (hexacc (16 * v + chartohex (nth (Z.to_nat (Z.shiftr x 28)) hexes 0)) (hex_chars (u32 (Z.shiftl x 4)) n)).
    rewrite IH by apply u32_range.
    rewrite Z.shiftr_div_pow2, Z.shiftl_mul_pow2 by lia.
    change (2 ^ 28) with 268435456. change (2 ^ 4) with 16.
    rewrite chartohex_hexes by (Z.div_mod_to_equations; lia).
    rewrite Nat2Z.inj_succ, Z.pow_succ_r by lia.
    set (e := 16 ^ Z.of_nat n). set (d := x / 268435456).
    assert (u32 (x * 16) = 16 * (x - 268435456 * d)) as -> by (subst d; wrap_lia).
    replace (x * (16 * e)) with ((d * e) * 4294967296 + 16 * (x - 268435456 * d) * e) by ring.
    rewrite Z.div_add_l by lia. ring.
Qed.

(** Eight digits print a 32-bit number exactly. *)
Lemma hexval_hex_chars x : 0 <= x < 4294967296 -> hexval (hex_chars x 8) = x.
Proof.
  intros Hx. change (hexval (hex_chars x 8)) with (hexacc 0 (hex_chars x 8)).
  rewrite hexacc_hex_chars by done. change (16 ^ Z.of_nat 8) with 4294967296.
  rewrite Z.div_mul by lia. lia.
Qed.

(** [hex_to_str] and [s_strtoul_hex] are inverse: eight digits printed into
    memory are read back as the number, up to the end of the digits, whatever
    byte that is no digit and no x follows. *)
Theorem hex_print_scan p x fuel s :
  0 <= x < 4294967296 -> is_hex (rd8 (m_mem s) (p + 8)) = false -> rd8 (m_mem s) (p + 8) <> 120 -> (8 < fuel)%nat ->
  exists s', hex_to_str p x 8 s = inr (p + 8, s') /\ s_strtoul_hex fuel (m_mem s') p = Some (x, p + 8).
Proof.
  intros Hx Hh Hn Hf. eexists. split; [apply (hex_to_str_run 8)|]. cbn [m_mem set_m_mem].
  pose proof (hex_chars_hex 8 x Hx) as Hd. pose proof (length_hex_chars 8 x) as Hl.
  assert (rd8 (wr_bytes (m_mem s) p (hex_chars x 8)) (p + 8) = rd8 (m_mem s) (p + 8)) as Enext
    by (apply rd8_wr_bytes_out; rewrite Hl; wrap_lia).
  rewrite (s_strtoul_hex_scan (hex_chars x 8)); rewrite ?Hl.
  - by rewrite hexval_hex_chars, u32_small.
  - rewrite <- Hl at 1. rewrite rd_bytes_wr_bytes_same by (rewrite Hl; lia). apply fmap_u8_bytes.
    eapply Forall_impl; [exact Hd|]. cbn. intros. lia.
  - eapply Forall_impl; [exact Hd|]. cbn. tauto.
  - change (Z.of_nat 8) with 8. by rewrite Enext.
  - change (Z.of_nat 8) with 8. by rewrite Enext.
  - done.
Qed.

Lemma hex_print_scan_witness :
  exists s', hex_to_str 4096 3735928559 8 blank = inr (4104, s') /\
    s_strtoul_hex 10 (m_mem s') 4096 = Some (3735928559, 4104).
Proof. apply (hex_print_scan 4096 3735928559 10 blank); [lia|reflexivity|discriminate|lia]. Defined.
