(* ===== verification/Checksum.v ===== *)
(** * The Internet checksum (the summing loops of c-main.c)

    c-main.c repeats one loop in five places: add each big-endian word of a
    block into a 32-bit accumulator, folding the carry back in after every
    word, and leave out the word that holds the checksum itself.  It is modelled
    once, for memory and for a local array, and proved to compute the
    one's-complement sum. *)

From S2P Require Import Prelude Machine Memory Text.

(** [chksum += wd; chksum += chksum >> 16; chksum &= 0xFFFF;] *)
Definition cksum_add (chksum wd : Z) : Z :=
  let chksum := u32 (chksum + wd) in
  let chksum := u32 (chksum + Z.shiftr chksum 16) in
  Z.land chksum 65535.

(** [for (i = i0; i < i0+n; i++) if (i != skip) { wd = ntoh16(pkt16[i]); ... }] *)
Fixpoint cksum_loop (m : gmap Z Z) (pkt skip i : Z) (n : nat) (chksum : Z) : Z :=
  match n with
  | O => chksum
  | S n' => cksum_loop m pkt skip (i + 1) n'
              (if negb (i =? skip) then cksum_add chksum (ntoh16 (rd16 m (pkt + 2 * i))) else chksum)
  end.

(** The same loop over a local byte array, no word left out. *)
Fixpoint cksum_array (l : list Z) (chksum : Z) : Z :=
  match l with
  | b0 :: b1 :: l' => cksum_array l' (cksum_add chksum (ntoh16 (b0 + 256 * b1)))
  | _ => chksum
  end.

(** [(~chksum) & 0xFFFF] *)
Definition cksum_not (chksum : Z) : Z := Z.land (Z.lnot chksum) 65535.

(** ** Reference: one's-complement arithmetic *)

(** The one's-complement representative of a sum of words: 0 for no data,
    otherwise the residue modulo 65535 in 1..65535. *)
Definition fold16 (t : Z) : Z := if t =? 0 then 0 else (t - 1) mod 65535 + 1.

(** The sum of the big-endian words of a block, word [skip] left out, [i] the
    number of the first word. *)
Fixpoint wsum (skip i : Z) (l : list Z) : Z :=
  match l with
  | b0 :: b1 :: l' => (if i =? skip then 0 else 256 * b0 + b1) + wsum skip (i + 1) l'
  | _ => 0
  end.

Abbreviation bytes_ok := (Forall (λ b, 0 <= b < 256)).

Lemma fold16_range t : 0 <= t -> 0 <= fold16 t < 65536.
Proof. unfold fold16. case_bool; bool_to_prop; Z.div_mod_to_equations; lia. Qed.

Lemma fold16_small t : 0 <= t < 65536 -> fold16 t = t.
Proof. unfold fold16. case_bool; bool_to_prop; Z.div_mod_to_equations; lia. Qed.

(** One iteration of the C loop adds a word in one's complement. *)
Lemma cksum_add_fold16 t wd :
  0 <= t -> 0 <= wd < 65536 -> cksum_add (fold16 t) wd = fold16 (t + wd).
Proof.
  intros Ht Hw. pose proof (fold16_range t Ht) as Hf. unfold cksum_add.
  rewrite (u32_small (fold16 t + wd)) by lia.
  rewrite Z.shiftr_div_pow2 by lia. change 65535 with (Z.ones 16). rewrite Z.land_ones by lia.
  change (2 ^ 16) with 65536. unfold fold16 in *.
  destruct (t =? 0) eqn:E1, (t + wd =? 0) eqn:E2; bool_to_prop; wrap_lia.
Qed.

Lemma wsum_nonneg skip l : forall i, bytes_ok l -> 0 <= wsum skip i l.
Proof.
  induction l as [l IH] using (induction_ltof1 _ length). unfold ltof in IH.
  destruct l as [|b0 [|b1 l]]; intros i Hl; cbn [wsum]; try done.
  inversion Hl as [|? ? H0 Hl']; subst. inversion Hl' as [|? ? H1 Hl'']; subst.
  specialize (IH l ltac:(cbn; lia) (i + 1) Hl''). case_bool; lia.
Qed.

Lemma cksum_loop_fold16 m pkt skip n : forall i t,
  0 <= t ->
  cksum_loop m pkt skip i n (fold16 t) =
    fold16 (t + wsum skip i (rd_bytes m (pkt + 2 * i) (2 * n))).
Proof.
  induction n as [|n IH]; intros i t Ht; cbn [cksum_loop].
  - cbn. by rewrite Z.add_0_r.
  - replace (2 * S n)%nat with (S (S (2 * n))) by lia. rewrite !rd_bytes_S. cbn [wsum].
    replace (pkt + 2 * i + 1 + 1) with (pkt + 2 * (i + 1)) by lia.
    pose proof (rd8_range m (pkt + 2 * i)). pose proof (rd8_range m (pkt + 2 * i + 1)).
    destruct (i =? skip); cbn [negb].
    + by rewrite IH by done.
    + rewrite ntoh16_rd16, cksum_add_fold16, IH by lia. f_equal. lia.
Qed.

(** The loop computes the one's-complement sum of the block. *)
Lemma cksum_loop_spec m pkt skip n :
  cksum_loop m pkt skip 0 n 0 = fold16 (wsum skip 0 (rd_bytes m pkt (2 * n))).
Proof.
  change 0 with (fold16 0) at 2. rewrite cksum_loop_fold16 by lia. by rewrite Z.mul_0_r, !Z.add_0_r.
Qed.

Lemma cksum_array_fold16 l : forall t,
  0 <= t -> bytes_ok l -> cksum_array l (fold16 t) = fold16 (t + wsum (-1) 0 l).
Proof.
  assert (forall i t, 0 <= t -> 0 <= i -> bytes_ok l ->
            cksum_array l (fold16 t) = fold16 (t + wsum (-1) i l)) as Hgen.
  { induction l as [l IH] using (induction_ltof1 _ length). unfold ltof in IH.
    destruct l as [|b0 [|b1 l]]; intros i t Ht Hi Hl; cbn [wsum cksum_array];
      try (by rewrite Z.add_0_r).
    inversion Hl as [|? ? H0 Hl']; subst. inversion Hl' as [|? ? H1 Hl'']; subst.
    rewrite (proj2 (Z.eqb_neq i (-1))) by lia.
    assert (ntoh16 (b0 + 256 * b1) = 256 * b0 + b1) as ->
      by (rewrite ntoh16_swap by lia; Z.div_mod_to_equations; lia).
    rewrite cksum_add_fold16 by lia.
    rewrite (IH l ltac:(cbn; lia) (i + 1)) by (lia || done). f_equal. lia. }
  intros t Ht Hl. by apply Hgen.
Qed.

Lemma cksum_not_range c : 0 <= cksum_not c < 65536.
Proof.
  unfold cksum_not. change 65535 with (Z.ones 16). rewrite Z.land_ones by lia.
  change (2 ^ 16) with 65536. Z.div_mod_to_equations. lia.
Qed.

Lemma cksum_not_eq c : 0 <= c < 65536 -> cksum_not c = 65535 - c.
Proof.
  intros Hc. unfold cksum_not, Z.lnot. change 65535 with (Z.ones 16) at 1.
  rewrite Z.land_ones by lia. change (2 ^ 16) with 65536. Z.div_mod_to_equations. lia.
Qed.

(** A sender that stores the complement of its sum gives a block whose words,
    checksum included, add up to all ones: what RFC 1071 receivers test. *)
Lemma fold16_verifies t : 0 <= t -> fold16 (t + cksum_not (fold16 t)) = 65535.
Proof.
  intros Ht. pose proof (fold16_range t Ht). rewrite cksum_not_eq by lia.
  unfold fold16 in *. destruct (t =? 0) eqn:E1; bool_to_prop; [by subst|].
  case_bool; bool_to_prop; Z.div_mod_to_equations; lia.
Qed.

(** C28: The summing loop of c-main.c computes the one's-complement sum of the
    words of a block (RFC 1071), its complement is the checksum that makes the
    block add up to all ones, and the loop over a local array agrees with it. *)
Theorem checksum_loop_rfc1071 m pkt skip n :
  let l := rd_bytes m pkt (2 * n) in
  let c := cksum_loop m pkt skip 0 n 0 in
  c = fold16 (wsum skip 0 l) /\ fold16 (wsum skip 0 l + cksum_not c) = 65535 /\
  cksum_array l 0 = cksum_loop m pkt (-1) 0 n 0.
Proof.
  intros l c. pose proof (wsum_nonneg skip l 0 (rd_bytes_bytes _ _ _)) as Hnn.
  assert (c = fold16 (wsum skip 0 l)) as E by apply cksum_loop_spec. split_and!; [done| |].
  - rewrite E. by apply fold16_verifies.
  - rewrite cksum_loop_spec. change 0 with (fold16 0) at 1.
    rewrite cksum_array_fold16 by (lia || apply rd_bytes_bytes). by rewrite Z.add_0_l.
Qed.
