(* ===== verification/Alloc.v ===== *)
(** * The bump allocator (alloc.c)

    [alloc] is the next free byte; memory is never given back. *)

From S2P Require Import Prelude Machine Memory.

Section Alloc.
Context `{Linker}.

Definition do_alloc (n : Z) : M Z :=
  p ← gets m_alloc;
  modify (λ s, set_m_alloc (u32 (m_alloc s + n)) s) ;;
  mret p.

Definition init_alloc : M unit := modify (set_m_alloc (u32 (last_byte + 131072))).

(** [((size_t)alloc + sz - 1) & ~(sz - 1)] in 32 bits *)
Definition align_up (a sz : Z) : Z := Z.land (u32 (a + sz - 1)) (u32 (Z.lnot (u32 (sz - 1)))).

Definition align_alloc (sz : Z) : M unit :=
  modify (λ s, set_m_alloc (align_up (m_alloc s) sz) s).

End Alloc.

(** ** Alignment *)

(** Rounding up to a power of two that does not leave the address space. *)
Lemma align_up_spec a k :
  0 <= k < 32 -> 0 <= a -> a + 2 ^ k <= 4294967296 ->
  a <= align_up a (2 ^ k) < a + 2 ^ k /\ align_up a (2 ^ k) mod 2 ^ k = 0.
Proof.
  intros Hk Ha Hend. unfold align_up.
  assert (0 < 2 ^ k) as Hp by (apply Z.pow_pos_nonneg; lia).
  rewrite (u32_small (2 ^ k - 1)) by lia. rewrite land_lnot_low by (lia || apply u32_range).
  rewrite u32_small by lia. set (b := a + 2 ^ k - 1).
  pose proof (Z.mod_pos_bound b (2 ^ k) Hp) as Hb. pose proof (Z.div_mod b (2 ^ k) ltac:(lia)) as Hd.
  split; [lia|]. replace (b - b mod 2 ^ k) with ((b / 2 ^ k) * 2 ^ k) by lia. by apply Z_mod_mult.
Qed.

(** ** Sequences of allocations *)

Inductive alloc_op : Type := Take (n : Z) | Align (k : Z).

(** The blocks a sequence hands out, as (start, size). *)
Fixpoint run_allocs (ops : list alloc_op) : M (list (Z * Z)) :=
  match ops with
  | [] => mret []
  | Take n :: ops' => p ← do_alloc n; l ← run_allocs ops'; mret ((p, n) :: l)
  | Align k :: ops' => align_alloc (2 ^ k) ;; run_allocs ops'
  end.

(** The most a sequence can use. *)
Definition op_cost (o : alloc_op) : Z := match o with Take n => n | Align k => 2 ^ k end.
Definition op_ok (o : alloc_op) : Prop := match o with Take n => 0 <= n | Align k => 0 <= k < 32 end.
Definition ops_cost (ops : list alloc_op) : Z := foldr (λ o c, op_cost o + c) 0 ops.

Definition blocks_apart (b c : Z * Z) : Prop := b.1 + b.2 <= c.1.

Lemma ops_cost_nonneg ops : Forall op_ok ops -> 0 <= ops_cost ops.
Proof.
  induction 1 as [|o ops Ho Hops IH]; [done|]. change (ops_cost (o :: ops)) with (op_cost o + ops_cost ops).
  destruct o as [n|k]; cbn [op_cost op_ok] in *; [lia|].
  pose proof (Z.pow_nonneg 2 k ltac:(lia)). lia.
Qed.

(** Blocks come out in ascending order, each behind the end of the one before,
    all inside what was free. *)
Lemma run_allocs_spec ops : forall s,
  Forall op_ok ops -> 0 <= m_alloc s -> m_alloc s + ops_cost ops < 4294967296 ->
  exists l a, run_allocs ops s = inr (l, set_m_alloc a s) /\
    m_alloc s <= a <= m_alloc s + ops_cost ops /\
    Forall (λ b, m_alloc s <= b.1 /\ 0 <= b.2 /\ b.1 + b.2 <= a) l /\
    (forall i j b c, (i < j)%nat -> l !! i = Some b -> l !! j = Some c -> blocks_apart b c).
Proof.
  induction ops as [|o ops IH]; intros s Hok Hs Hend.
  - exists [], (m_alloc s). cbn in *. split_and!; [by destruct s|lia|lia|constructor|]. intros; done.
  - inversion Hok as [|? ? Ho Hops]; subst. pose proof (ops_cost_nonneg ops Hops) as Hc.
    destruct o as [n|k]; cbn [run_allocs ops_cost foldr op_cost op_ok] in *; fold (ops_cost ops) in *.
    + set (s1 := set_m_alloc (m_alloc s + n) s).
      destruct (IH s1 Hops) as (l & a & E & Ha & Hl & Hd); cbn in *; [lia..|].
      exists ((m_alloc s, n) :: l), a. split_and!; [|lia|lia| |].
      * unfold do_alloc. run. rewrite u32_small by lia. fold s1. by rewrite E.
      * constructor; [cbn; lia|]. eapply Forall_impl; [exact Hl|]. cbn. intros. lia.
      * intros i j b c Hij Hi Hj. destruct j as [|j]; [lia|]. cbn in Hj.
        destruct i as [|i]; cbn in Hi; [|eapply Hd; [|done|done]; lia]. injection Hi as <-.
        rewrite Forall_lookup in Hl. specialize (Hl _ _ Hj). unfold blocks_apart. cbn in *. lia.
    + pose proof (Z.pow_pos_nonneg 2 k ltac:(lia) ltac:(lia)) as Hp.
      destruct (align_up_spec (m_alloc s) k) as [Hup _]; [lia..|].
      set (s1 := set_m_alloc (align_up (m_alloc s) (2 ^ k)) s).
      destruct (IH s1 Hops) as (l & a & E & Ha & Hl & Hd); cbn in *; [lia..|].
      exists l, a. split_and!; [|lia|lia| |done].
      * unfold align_alloc. run. fold s1. by rewrite E.
      * eapply Forall_impl; [exact Hl|]. cbn. intros. lia.
Qed.

(** C32: The blocks a run of [do_alloc] and [align_alloc] calls hands out are
    disjoint, in ascending order, and lie in the memory that was free before,
    as long as that memory lasts. *)
Theorem allocated_blocks_disjoint ops s :
  Forall op_ok ops -> 0 <= m_alloc s -> m_alloc s + ops_cost ops < 4294967296 ->
  exists l a, run_allocs ops s = inr (l, set_m_alloc a s) /\ m_alloc s <= a <= m_alloc s + ops_cost ops /\
    Forall (λ b, m_alloc s <= b.1 /\ 0 <= b.2 /\ b.1 + b.2 <= a) l /\
    forall i j b c, (i < j)%nat -> l !! i = Some b -> l !! j = Some c -> blocks_apart b c.
Proof. apply run_allocs_spec. Qed.

Lemma allocated_blocks_disjoint_witness :
  exists l a, run_allocs [Take 100; Align 4; Take 256; Align 5; Take 1600] blank = inr (l, set_m_alloc a blank) /\
    Forall (λ b, 1048576 <= b.1 /\ 0 <= b.2 /\ b.1 + b.2 <= a) l.
Proof.
  destruct (allocated_blocks_disjoint [Take 100; Align 4; Take 256; Align 5; Take 1600] blank)
    as (l & a & E & _ & Hl & _); [repeat constructor; cbn; lia|cbn; lia|vm_compute; reflexivity|].
  exists l, a. split; [exact E|exact Hl].
Defined.
