(* ===== verification/Pci.v ===== *)
(** * PCI configuration space (pci.c)

    Configuration mechanism #1 through ports 0xCF8/0xCFC, the scan of the bus
    into [pci_device[]] and the lookup in that table. *)

From S2P Require Import Prelude Machine Memory Vga.

Definition MAX_PCI_DEVICE : Z := 64.
Definition PCI_CONFIG_ADDRESS : Z := 3320.  (* 0xCF8 *)
Definition PCI_CONFIG_DATA : Z := 3324.     (* 0xCFC *)
Definition PCI_BAR_TYPE_64BIT : Z := 2.

(** [memset] of the structs to 0 *)
Definition zero_bar : pci_bar := mkBar 0 0 0 0 0 0 0.
Definition zero_device : pci_device := mkPciDevice 0 0 0 0 0 0 0 0 0 0 (replicate 6 zero_bar).

(** ** pci_find *)

(** The tests on one entry.  The arguments are [uint16_t] and [PCI_ANY] is the
    [int] -1, so after promotion [x != PCI_ANY] compares a value in 0..65535
    with -1. *)
Definition PCI_ANY : Z := -1.
Definition pci_match (device_id vendor_id class_code : Z) (dev : pci_device) : bool :=
  if pd_device_id dev =? 0 then false
  else if negb (device_id =? PCI_ANY) && negb (device_id =? pd_device_id dev) then false
  else if negb (vendor_id =? PCI_ANY) && negb (vendor_id =? pd_vendor_id dev) then false
  else if negb (class_code =? PCI_ANY) &&
          (negb (Z.land class_code 16711680 =? Z.land (pd_class_code dev) 16711680) ||
           negb (Z.land class_code 65280 =? Z.land (pd_class_code dev) 65280) ||
           negb (Z.land class_code 255 =? Z.land (pd_class_code dev) 255)) then false
  else true.

(** The index of the entry returned, [None] for NULL. *)
Definition pci_find (device_id vendor_id class_code : Z) : M (option Z) :=
  p ← gets m_pci;
  if pci_bus_present p =? 0 then mret None else
  mret ((λ '(i, _), Z.of_nat i) <$>
          list_find (λ d, pci_match (u16 device_id) (u16 vendor_id) (u16 class_code) d = true)
            (take (Z.to_nat MAX_PCI_DEVICE) (pci_devices p))).

Section Pci.
Context `{Env}.

(** ** Configuration accesses *)

Definition pci_address (bus dev func reg_dw : Z) : Z :=
  let reg_dw := Z.land (u8 reg_dw) 252 in
  let func := Z.land (u8 func) 7 in
  let dev := Z.land (u8 dev) 31 in
  let bus := Z.land (u8 bus) 255 in
  Z.lor (Z.lor (Z.lor (Z.lor 2147483648 (Z.shiftl bus 16)) (Z.shiftl dev 11)) (Z.shiftl func 8)) reg_dw.

Definition pci_addr (bus dev func reg_dw : Z) : M unit :=
  io_outl PCI_CONFIG_ADDRESS (pci_address bus dev func reg_dw).

Definition pci_config_read_imm (bus dev func reg_dw : Z) : M Z :=
  pci_addr bus dev func reg_dw ;; io_inl PCI_CONFIG_DATA.

Definition pci_config_write_imm (bus dev func reg_dw data : Z) : M unit :=
  pci_addr bus dev func reg_dw ;; io_outl PCI_CONFIG_DATA data.

(** [for (bus=1,bus_max=1;bus <= 0xFF;bus++)] with [n] iterations left *)
Fixpoint max_bus_loop (match_id : Z) (n : nat) (bus bus_max : Z) : M Z :=
  match n with
  | O => mret bus_max
  | S n' =>
      tmp ← pci_config_read_imm bus 0 0 0;
      if tmp =? match_id then mret bus_max
      else max_bus_loop match_id n' (bus + 1) (bus + 1)
  end.

Definition pci_max_bus : M Z :=
  match_id ← pci_config_read_imm 0 0 0 0;
  max_bus_loop match_id 255 1 1.

(** ** The scan *)

(** What the three reads of a BAR say, before the upper half is read. *)
Definition decode_bar (orig max : Z) : pci_bar :=
  if negb (Z.land max 1 =? 0) then
    let orig := Z.land orig (u32 (Z.lnot 3)) in
    let max := Z.land max (u32 (Z.lnot 3)) in
    mkBar 1 0 0 1 orig (Z.lor orig (u32 (Z.lnot max))) 4294967295
  else
    let o := Z.land orig (u32 (Z.lnot 15)) in
    let m := Z.land max (u32 (Z.lnot 15)) in
    mkBar 0 (Z.land (Z.shiftr max 3) 1) (Z.land (Z.shiftr max 1) 3) 1 o (Z.lor o (u32 (Z.lnot m))) 4294967295.

(** One pass of the BAR loop: the entry found and the next [bar]. *)
Definition probe_bar (bus dev func bar : Z) : M (option pci_bar * Z) :=
  let reg := 16 + bar * 4 in
  orig ← pci_config_read_imm bus dev func reg;
  pci_config_write_imm bus dev func reg 0 ;;
  min ← pci_config_read_imm bus dev func reg;
  pci_config_write_imm bus dev func reg 4294967295 ;;
  max ← pci_config_read_imm bus dev func reg;
  pci_config_write_imm bus dev func reg orig ;;
  let next := bar + 1 in
  if (orig =? min) && (min =? max) && ((orig =? 0) || (orig =? 4294967295)) then mret (None, next) else
  let b := decode_bar orig max in
  if (bar_type b =? PCI_BAR_TYPE_64BIT) && (next <? 6) then
    upper ← pci_config_read_imm bus dev func (reg + 4);
    mret (Some (set_bar_start (Z.lor (bar_start b) (Z.shiftl upper 32)) b), next + 1)
  else mret (Some b, next).

(** [for (bar=0;bar < 6;)]: [bar] grows in every pass, so six are enough. *)
Fixpoint probe_bars (n : nat) (bus dev func bar : Z) (bars : list pci_bar) : M (list pci_bar) :=
  match n with
  | O => mret bars
  | S n' =>
      if 6 <=? bar then mret bars else
      '(b, next) ← probe_bar bus dev func bar;
      probe_bars n' bus dev func next
        (match b with Some b => <[Z.to_nat bar := b]> bars | None => bars end)
  end.

(** The entry for one function whose ID register read [id]. *)
Definition probe_function (bus dev func id : Z) : M pci_device :=
  x ← pci_config_read_imm bus dev func 8;
  let class_code := Z.shiftr x 8 in
  let revision_id := Z.land x 255 in
  x ← pci_config_read_imm bus dev func 44;
  let subsystem_id := u16 (Z.shiftr x 16) in
  let subsystem_vendor_id := Z.land x 65535 in
  x ← pci_config_read_imm bus dev func 48;
  let expansion_rom := Z.land x (u32 (Z.lnot 2097151)) in
  bars ← probe_bars 6 bus dev func 0 (replicate 6 zero_bar);
  mret (mkPciDevice (u8 bus) (u8 dev) (u8 func) (u16 (Z.shiftr id 16)) (Z.land id 65535)
          class_code revision_id subsystem_id subsystem_vendor_id expansion_rom bars).

(** The loops over functions, devices and busses; each returns [index]. *)
Fixpoint scan_functions (n : nat) (bus dev func index : Z) : M Z :=
  match n with
  | O => mret index
  | S n' =>
      if MAX_PCI_DEVICE <=? index then mret index else
      id ← pci_config_read_imm bus dev func 0;
      if id =? 4294967295 then mret index else
      d ← probe_function bus dev func id;
      upd_pci (λ p, set_pci_devices (<[Z.to_nat index := d]> (pci_devices p)) p) ;;
      scan_functions n' bus dev (func + 1) (index + 1)
  end.

Fixpoint scan_devices (n : nat) (bus dev index : Z) : M Z :=
  match n with
  | O => mret index
  | S n' =>
      if MAX_PCI_DEVICE <=? index then mret index else
      index ← scan_functions 8 bus dev 0 index;
      scan_devices n' bus (dev + 1) index
  end.

Fixpoint scan_busses (n : nat) (bus index : Z) : M Z :=
  match n with
  | O => mret index
  | S n' =>
      if MAX_PCI_DEVICE <=? index then mret index else
      index ← scan_devices 32 bus 0 index;
      scan_busses n' (bus + 1) index
  end.

Definition pci_init : M unit :=
  io_outl PCI_CONFIG_ADDRESS 2147483648 ;;
  x ← io_inl PCI_CONFIG_ADDRESS;
  if negb (Z.land x 2164260860 =? 2147483648) then skip else
  io_outl PCI_CONFIG_ADDRESS 2164260860 ;;
  x ← io_inl PCI_CONFIG_ADDRESS;
  if negb (Z.land x 2164260860 =? 2164260860) then skip else
  upd_pci (set_pci_devices (replicate (Z.to_nat MAX_PCI_DEVICE) zero_device)) ;;
  vga_write (msg "PCI bus detected") ;;
  bus_max ← pci_max_bus;
  upd_pci (set_pci_bus_present 1) ;;
  scan_busses (Z.to_nat bus_max) 0 0 ;; skip.

(** ** Properties *)

(** *** The address register *)

Lemma pci_address_value bus dev func reg :
  0 <= bus < 256 -> 0 <= dev < 32 -> 0 <= func < 8 -> 0 <= reg < 256 -> reg mod 4 = 0 ->
  pci_address bus dev func reg = 2147483648 + bus * 65536 + dev * 2048 + func * 256 + reg.
Proof.
  intros Hb Hd Hf Hr Ha. unfold pci_address. rewrite !u8_small by lia.
  assert (Z.land reg 252 = reg) as ->.
  { assert (reg = (reg / 4) * 2 ^ 2) as E by (change (2 ^ 2) with 4; Z.div_mod_to_equations; lia). rewrite E at 1.
    change 252 with (63 * 2 ^ 2). rewrite <- !Z.shiftl_mul_pow2, <- Z.shiftl_land by lia.
    change 63 with (Z.ones 6). rewrite Z.land_ones by lia. change (2 ^ 6) with 64.
    rewrite Z.mod_small, Z.shiftl_mul_pow2 by (Z.div_mod_to_equations; lia). by symmetry. }
  change 255 with (Z.ones 8). change 31 with (Z.ones 5). change 7 with (Z.ones 3).
  rewrite !Z.land_ones by lia. rewrite !Z.mod_small by (cbn; lia).
  rewrite !Z.shiftl_mul_pow2 by lia.
  change 2147483648 with (128 * 2 ^ 24) at 1.
  rewrite (lor_shifted 24 128) by lia.
  replace (128 * 2 ^ 24 + bus * 2 ^ 16) with ((128 * 2 ^ 8 + bus) * 2 ^ 16) by lia.
  rewrite (lor_shifted 16) by lia.
  replace ((128 * 2 ^ 8 + bus) * 2 ^ 16 + dev * 2 ^ 11) with (((128 * 2 ^ 8 + bus) * 2 ^ 5 + dev) * 2 ^ 11) by lia.
  rewrite (lor_shifted 11) by lia.
  replace (((128 * 2 ^ 8 + bus) * 2 ^ 5 + dev) * 2 ^ 11 + func * 2 ^ 8) with
    ((((128 * 2 ^ 8 + bus) * 2 ^ 5 + dev) * 2 ^ 3 + func) * 2 ^ 8) by lia.
  rewrite (lor_shifted 8) by lia. lia.
Qed.

(** *** Loops *)

Lemma io_only_read b d f r : port_io (pci_config_read_imm b d f r).
Proof. unfold pci_config_read_imm, pci_addr. solve_stays. Qed.

Lemma io_only_write b d f r v : port_io (pci_config_write_imm b d f r v).
Proof. unfold pci_config_write_imm, pci_addr. solve_stays. Qed.

#[local] Hint Resolve io_only_read io_only_write : stays.

Lemma pci_read_range b d f r s :
  wp (pci_config_read_imm b d f r) (λ v s', 0 <= v < 4294967296 /\ io_only s s') s.
Proof.
  eapply wp_mono.
  - unfold pci_config_read_imm. wp_step. eapply stays_wp; [apply io_only_outl|done|]. intros [] s1 _ H1.
    unfold io_inl. wp_step. eapply stays_wp; [apply io_only_in|done|]. intros v s2 _ H2.
    wp_step. instantiate (1 := λ v s', 0 <= v < 4294967296 /\ io_only s s').
    split; [apply u32_range|]. by etransitivity.
  - done.
Qed.

Lemma max_bus_loop_range id n : forall bus bus_max s,
  1 <= bus_max <= 256 -> 1 <= bus -> bus + Z.of_nat n <= 256 ->
  wp (max_bus_loop id n bus bus_max) (λ r s', 1 <= r <= 256 /\ io_only s s') s.
Proof.
  induction n as [|n IH]; intros bus bus_max s Hm Hb Hn; cbn [max_bus_loop]; [by wp_step|].
  wp_step. eapply stays_wp; [apply io_only_read|done|]. intros tmp s1 _ H1.
  destruct (tmp =? id); [by wp_step|].
  eapply wp_mono; [apply IH; lia|]. intros r s2 [Hr H2]. split; [done|by etransitivity].
Qed.

(** The number of busses is between 1 and 256, whatever the hardware answers. *)
Lemma pci_max_bus_range s : wp pci_max_bus (λ r s', 1 <= r <= 256 /\ io_only s s') s.
Proof.
  unfold pci_max_bus. wp_step. eapply stays_wp; [apply io_only_read|done|]. intros id s1 _ H1.
  eapply wp_mono; [apply max_bus_loop_range; lia|]. intros r s2 [Hr H2]. split; [done|by etransitivity].
Qed.

(** *** The table *)

Record device_ok (d : pci_device) : Prop := {
  dok_bus : 0 <= pd_bus d < 256;
  dok_device : 0 <= pd_device d < 32;
  dok_function : 0 <= pd_function d < 8;
  dok_ids : 0 <= pd_device_id d < 65536 /\ 0 <= pd_vendor_id d < 65536;
  dok_class : 0 <= pd_class_code d < 16777216;
  dok_bars : length (pd_BAR d) = 6%nat
}.

Record pci_ok (p : pci_state) : Prop := {
  pok_length : length (pci_devices p) = 64%nat;
  pok_devices : Forall device_ok (pci_devices p)
}.

(** What the scan may change. *)
Definition pci_step (s s' : machine) : Prop :=
  exists tr p, s' = set_m_trace (tr ++ m_trace s) (set_m_pci p s).

Lemma io_only_pci_step s s' : io_only s s' -> pci_step s s' /\ m_pci s' = m_pci s.
Proof. intros [tr [-> _]]. split; [|done]. exists tr, (m_pci s). by destruct s. Qed.

#[export] Instance pci_step_preorder : PreOrder pci_step.
Proof.
  split.
  - intros s. exists [], (m_pci s). by destruct s.
  - intros s1 s2 s3 (t1 & p1 & ->) (t2 & p2 & ->). exists (t2 ++ t1), p2. cbn. by rewrite app_assoc.
Qed.

Lemma io_only_probe_bar b d f r : port_io (probe_bar b d f r).
Proof. unfold probe_bar. solve_stays. Qed.

#[local] Hint Resolve io_only_probe_bar : stays.

Lemma probe_bars_length n : forall bus dev func bar bars s,
  wp (probe_bars n bus dev func bar bars) (λ l s', length l = length bars /\ io_only s s') s.
Proof.
  induction n as [|n IH]; intros bus dev func bar bars s; cbn [probe_bars]; [by wp_step|].
  destruct (6 <=? bar); [by wp_step|]. wp_step. eapply stays_wp; [apply io_only_probe_bar|done|].
  intros [b next] s1 _ H1. eapply wp_mono; [apply IH|]. intros l s2 [Hl H2]. split; [|by etransitivity].
  rewrite Hl. destruct b; [apply length_insert|done].
Qed.

Lemma land_u16 x : Z.land x 65535 = x mod 65536.
Proof. change 65535 with (Z.ones 16). by rewrite Z.land_ones by lia. Qed.

Lemma probe_function_ok bus dev func id s :
  0 <= bus < 256 -> 0 <= dev < 32 -> 0 <= func < 8 ->
  wp (probe_function bus dev func id) (λ d s', device_ok d /\ io_only s s') s.
Proof.
  intros Hb Hd Hf. unfold probe_function. wp_step.
  eapply wp_mono; [apply pci_read_range|]. intros x s1 [Hx H1].
  wp_step. eapply stays_wp; [apply io_only_read|done|]. intros y s2 _ H2.
  wp_step. eapply stays_wp; [apply io_only_read|done|]. intros z s3 _ H3.
  wp_step. eapply wp_mono; [apply probe_bars_length|]. intros bars s4 [Hbars H4].
  wp_step. split; [|etransitivity; [exact H1|]; etransitivity; [exact H2|]; by etransitivity].
  split; cbn [pd_bus pd_device pd_function pd_device_id pd_vendor_id pd_class_code pd_BAR].
  - wrap_lia.
  - wrap_lia.
  - wrap_lia.
  - rewrite land_u16. split; [apply u16_range|wrap_lia].
  - rewrite Z.shiftr_div_pow2 by lia. change (2 ^ 8) with 256. Z.div_mod_to_equations. lia.
  - by rewrite Hbars, length_replicate.
Qed.

(** The loop ends here with [index] as it is. *)
Ltac scan_end := wp_step; split_and!; (lia || done).

(** The scan loops stay inside the table and record well-formed entries. *)
Lemma scan_functions_ok n : forall bus dev func index s,
  0 <= bus < 256 -> 0 <= dev < 32 -> 0 <= func -> func + Z.of_nat n <= 8 -> 0 <= index <= 64 -> pci_ok (m_pci s) ->
  wp (scan_functions n bus dev func index)
    (λ r s', index <= r <= 64 /\ pci_ok (m_pci s') /\ pci_step s s') s.
Proof.
  induction n as [|n IH]; intros bus dev func index s Hb Hd Hf Hn Hi Hok; cbn [scan_functions]; [scan_end|].
  unfold MAX_PCI_DEVICE. destruct (64 <=? index) eqn:Ei; bool_to_prop; [scan_end|].
  wp_step. eapply wp_mono; [apply pci_read_range|]. intros id s1 [Hid H1].
  apply io_only_pci_step in H1 as [H1 E1].
  destruct (id =? 4294967295); [rewrite <- E1 in Hok; scan_end|].
  wp_step. eapply wp_mono; [apply probe_function_ok; lia|]. intros d s2 [Hd2 H2].
  apply io_only_pci_step in H2 as [H2 E2]. unfold upd_pci. wp_step. wp_step.
  destruct Hok as [Hlen Hdev].
  eapply wp_mono; [apply IH; try lia|].
  - cbn. rewrite E2, E1. split; cbn; [by rewrite length_insert|by apply Forall_insert].
  - intros r s3 (Hr & Hok3 & H3). split_and!; [lia|lia|done|].
    etransitivity; [exact H1|]. etransitivity; [exact H2|]. etransitivity; [|exact H3].
    exists [], (set_pci_devices (<[Z.to_nat index := d]> (pci_devices (m_pci s2))) (m_pci s2)). by destruct s2.
Qed.

Lemma scan_devices_ok n : forall bus dev index s,
  0 <= bus < 256 -> 0 <= dev -> dev + Z.of_nat n <= 32 -> 0 <= index <= 64 -> pci_ok (m_pci s) ->
  wp (scan_devices n bus dev index) (λ r s', index <= r <= 64 /\ pci_ok (m_pci s') /\ pci_step s s') s.
Proof.
  induction n as [|n IH]; intros bus dev index s Hb Hd Hn Hi Hok; cbn [scan_devices]; [scan_end|].
  destruct (MAX_PCI_DEVICE <=? index); [scan_end|]. wp_step.
  eapply wp_mono; [apply scan_functions_ok; (lia || done)|]. intros r s1 (Hr & Hok1 & H1).
  eapply wp_mono; [apply IH; (lia || done)|]. intros r2 s2 (Hr2 & Hok2 & H2).
  split_and!; [lia|lia|done|by etransitivity].
Qed.

Lemma scan_busses_ok n : forall bus index s,
  0 <= bus -> bus + Z.of_nat n <= 256 -> 0 <= index <= 64 -> pci_ok (m_pci s) ->
  wp (scan_busses n bus index) (λ r s', index <= r <= 64 /\ pci_ok (m_pci s') /\ pci_step s s') s.
Proof.
  induction n as [|n IH]; intros bus index s Hb Hn Hi Hok; cbn [scan_busses]; [scan_end|].
  destruct (MAX_PCI_DEVICE <=? index); [scan_end|]. wp_step.
  eapply wp_mono; [apply scan_devices_ok; (lia || done)|]. intros r s1 (Hr & Hok1 & H1).
  eapply wp_mono; [apply IH; (lia || done)|]. intros r2 s2 (Hr2 & Hok2 & H2).
  split_and!; [lia|lia|done|by etransitivity].
Qed.

Lemma zero_table_ok p : pci_ok (set_pci_devices (replicate 64 zero_device) p).
Proof.
  split; [done|]. apply Forall_replicate. split; cbn; done || lia.
Qed.

(** *** Base address registers *)

(** The range of a memory BAR: a device that decodes 2^k bytes at an aligned
    address answers the all-ones write with the complement of its size, and
    [start] and [end] are the first and the last byte it decodes. *)
Theorem decode_memory_bar base k flags :
  4 <= k < 32 -> 0 <= base -> base + 2 ^ k <= 4294967296 -> base mod 2 ^ k = 0 ->
  0 <= flags < 16 -> flags mod 2 = 0 ->
  let b := decode_bar (base + flags) (4294967296 - 2 ^ k + flags) in
  bar_io b = 0 /\ bar_present b = 1 /\ bar_start b = base /\ bar_end b = base + 2 ^ k - 1.
Proof.
  intros Hk Hb Hend Hal Hf He b. subst b. unfold decode_bar.
  assert (2 ^ 4 <= 2 ^ k) as H16 by (apply Z.pow_le_mono_r; lia). change (2 ^ 4) with 16 in H16.
  assert (2 ^ k mod 16 = 0) as Hp.
  { replace k with (k - 4 + 4) by lia. rewrite Z.pow_add_r by lia. apply Z_mod_mult. }
  assert (base mod 16 = 0) as Hb16.
  { apply Z.mod_divide; [lia|]. apply Z.mod_divide in Hal; [|lia]. apply Z.mod_divide in Hp; [|lia]. by etransitivity. }
  assert (Z.land (4294967296 - 2 ^ k + flags) 1 = 0) as ->.
  { change 1 with (Z.ones 1). rewrite Z.land_ones by lia. change (2 ^ 1) with 2. Z.div_mod_to_equations. lia. }
  cbn [Z.eqb negb bar_io bar_present bar_start bar_end].
  change 15 with (2 ^ 4 - 1). rewrite !land_lnot_low by lia. change (2 ^ 4) with 16.
  replace (base + flags - (base + flags) mod 16) with base by (Z.div_mod_to_equations; lia).
  replace (4294967296 - 2 ^ k + flags - (4294967296 - 2 ^ k + flags) mod 16) with (4294967296 - 2 ^ k)
    by (Z.div_mod_to_equations; lia).
  split_and!; [done|done|done|].
  replace (u32 (Z.lnot (4294967296 - 2 ^ k))) with (2 ^ k - 1) by (unfold Z.lnot; wrap_lia).
  replace base with (base / 2 ^ k * 2 ^ k) at 1 by (rewrite Z.mul_comm, <- Z_div_exact_full_2; lia).
  rewrite lor_shifted by lia. rewrite (Z.mul_comm (base / 2 ^ k)), <- Z_div_exact_full_2 by lia. lia.
Qed.

(** Values written to the data port, latest first. *)
Definition data_writes (tr : list event) : list Z :=
  omap (λ e, match e with EvOut 32 3324 v => Some v | _ => None end) tr.

Lemma probe_bar_writes bus dev func bar s :
  let orig := u32 (env_in (EvOut 32 3320 (u32 (pci_address bus dev func (16 + bar * 4))) :: m_trace s) 32 3324) in
  wp (probe_bar bus dev func bar)
    (λ _ s', exists tr, m_trace s' = tr ++ m_trace s /\ data_writes tr = [orig; 4294967295; 0]) s.
Proof.
  intros orig. unfold probe_bar, pci_config_read_imm, pci_config_write_imm, pci_addr, io_inl, io_outl, io_out, io_in, log.
  unfold wp. run. cbn [m_trace set_m_trace].
  change (u16 PCI_CONFIG_ADDRESS) with 3320. change (u16 PCI_CONFIG_DATA) with 3324. fold orig.
  case_bool.
  - eexists [_; _; _; _; _; _; _; _; _; _; _; _]. split; [reflexivity|].
    cbn. by rewrite u32_small by (subst orig; apply u32_range).
  - case_bool.
    + eexists [_; _; _; _; _; _; _; _; _; _; _; _; _; _]. split; [reflexivity|].
      cbn. by rewrite u32_small by (subst orig; apply u32_range).
    + eexists [_; _; _; _; _; _; _; _; _; _; _; _]. split; [reflexivity|].
      cbn. by rewrite u32_small by (subst orig; apply u32_range).
Qed.

(** Sizing a base address register leaves it with the value found there: the
    last value written to the configuration data port is the one read first. *)
Theorem probe_bar_restores bus dev func bar s :
  exists r s' tr, probe_bar bus dev func bar s = inr (r, s') /\ m_trace s' = tr ++ m_trace s /\
    data_writes tr = [u32 (env_in (EvOut 32 3320 (u32 (pci_address bus dev func (16 + bar * 4))) :: m_trace s) 32 3324); 4294967295; 0].
Proof.
  pose proof (probe_bar_writes bus dev func bar s) as Hw. apply wp_run in Hw as (r & s' & E & tr & Ht & Hd). by exists r, s', tr.
Qed.

(** The address register selects bus, device, function and register as
    configuration mechanism #1 lays them out, so different registers have
    different addresses. *)
Theorem pci_address_layout bus dev func reg bus' dev' func' reg' :
  0 <= bus < 256 -> 0 <= dev < 32 -> 0 <= func < 8 -> 0 <= reg < 256 -> reg mod 4 = 0 ->
  0 <= bus' < 256 -> 0 <= dev' < 32 -> 0 <= func' < 8 -> 0 <= reg' < 256 -> reg' mod 4 = 0 ->
  pci_address bus dev func reg = 2147483648 + bus * 65536 + dev * 2048 + func * 256 + reg /\
  (pci_address bus dev func reg = pci_address bus' dev' func' reg' -> (bus, dev, func, reg) = (bus', dev', func', reg')).
Proof.
  intros. rewrite !pci_address_value by done. split; [done|]. intros E. f_equal; [f_equal; [f_equal|]|]; lia.
Qed.

(** What [pci_init] does, whatever the bus answers: the variables of the other
    files are left alone. *)
Lemma pci_init_spec s :
  vga_ok (m_vga s) -> pci_ok (m_pci s) ->
  wp pci_init (λ _ s', pci_ok (m_pci s') /\ vga_ok (m_vga s') /\ mem_frame vga_window (m_mem s) (m_mem s') /\
    same_statics (set_m_pci (m_pci s') s) s') s.
Proof.
  intros Hv Hok. unfold pci_init.
  assert (forall s1, io_only s s1 -> pci_ok (m_pci s1) /\ vga_ok (m_vga s1) /\ mem_frame vga_window (m_mem s) (m_mem s1) /\
    same_statics (set_m_pci (m_pci s1) s) s1) as Hio by (intros s1 [tr [-> _]]; by split_and!).
  wp_step. eapply stays_wp; [apply io_only_outl|done|]. intros [] s1 _ H1.
  wp_step. eapply stays_wp; [apply io_only_inl|done|]. intros x s2 _ H2.
  assert (io_only s s2) as H02 by (by etransitivity). case_bool; [wp_step; by apply Hio|].
  wp_step. eapply stays_wp; [apply io_only_outl|done|]. intros [] s3 _ H3.
  wp_step. eapply stays_wp; [apply io_only_inl|done|]. intros y s4 _ H4.
  assert (io_only s s4) as H04 by (etransitivity; [exact H02|by etransitivity]).
  case_bool; [wp_step; by apply Hio|]. destruct (Hio s4 H04) as (_ & Hv4 & Hm4 & Hs4).
  unfold upd_pci. wp_step. wp_step. wp_step. eapply stays_wp; [apply prints_write|exact Hv4|].
  intros [] s5 Hv5 [Hm5 Hs5]. cbn [m_mem set_m_pci] in Hm5.
  wp_step. eapply wp_mono; [apply pci_max_bus_range|]. intros bus s6 [Hbus [tr6 [-> _]]].
  wp_step. wp_step. wp_step. eapply wp_mono; [apply scan_busses_ok; [lia|lia|lia|]|].
  - cbn [m_pci set_m_pci set_m_trace]. rewrite (ss_pci _ _ Hs5). cbn [m_pci set_m_pci]. destruct (zero_table_ok (m_pci s4)). by split.
  - intros r s7 (_ & Hok7 & tr7 & p & ->). wp_step. split_and!; [done|done| |].
    + cbn. etransitivity; [exact Hm4|exact Hm5].
    + destruct Hs4, Hs5. split; cbn in *; congruence.
Qed.


End Pci.

(** [pci_find] takes its class code as 16 bits and then compares bits 16-23,
    so it never finds a device of a class other than 0x00xxxx, and since its IDs
    are 16 bits wide, [PCI_ANY] is no wildcard either. *)
Theorem pci_find_classified device_id vendor_id class_code s :
  Forall (λ d, Z.land (pd_class_code d) 16711680 <> 0 \/ pd_device_id d = 0) (pci_devices (m_pci s)) ->
  pci_find device_id vendor_id class_code s = inr (None, s).
Proof.
  intros Hc. unfold pci_find. run. destruct (_ =? 0); [done|].
  destruct (list_find _ _) as [[i d]|] eqn:E; [|done]. exfalso. apply list_find_Some in E as (Hi & Hm & _).
  apply lookup_take_Some in Hi as [Hi _]. rewrite Forall_lookup in Hc. specialize (Hc _ _ Hi).
  revert Hm. unfold pci_match. destruct (pd_device_id d =? 0) eqn:E0; [done|]. bool_to_prop.
  pose proof (u16_range device_id). pose proof (u16_range vendor_id). pose proof (u16_range class_code) as Hr.
  unfold PCI_ANY. rewrite (proj2 (Z.eqb_neq (u16 class_code) (-1))) by lia.
  assert (Z.land (u16 class_code) 16711680 = 0) as ->.
  { rewrite Z.land_comm. apply (land_shifted 16 255); [lia|]. change (2 ^ 16) with 65536. lia. }
  rewrite (proj2 (Z.eqb_neq 0 _)) by lia. cbn [negb andb orb].
  destruct (negb (u16 device_id =? -1) && _); [done|]. by destruct (negb (u16 vendor_id =? -1) && _).
Qed.

(** An Ethernet card, class 0x020000. *)
Definition ethernet_card : pci_device := mkPciDevice 0 3 0 8192 4130 131072 0 0 0 0 (replicate 6 zero_bar).

Lemma pci_find_classified_witness :
  pci_find 8192 4130 131072 (set_m_pci (mkPci [ethernet_card] 1) blank) = inr (None, set_m_pci (mkPci [ethernet_card] 1) blank).
Proof.
  apply (pci_find_classified 8192 4130 131072 (set_m_pci (mkPci [ethernet_card] 1) blank)).
  constructor; [left; vm_compute; discriminate|constructor].
Defined.

Lemma pci_address_layout_witness :
  pci_address 1 3 0 16 = 2147555344 /\ (pci_address 1 3 0 16 = pci_address 1 3 0 20 -> (1, 3, 0, 16) = (1, 3, 0, 20)).
Proof. apply (pci_address_layout 1 3 0 16 1 3 0 20); lia || reflexivity. Defined.

Lemma decode_memory_bar_witness :
  bar_start (decode_bar 4026531848 4294963208) = 4026531840 /\ bar_end (decode_bar 4026531848 4294963208) = 4026535935.
Proof. destruct (decode_memory_bar 4026531840 12 8) as (_ & _ & H1 & H2); [lia|lia|vm_compute; discriminate|reflexivity|lia|reflexivity|]. split; [exact H1|exact H2]. Defined.

