(* ===== verification/Keyboard.v ===== *)
(** * The keyboard controller (keyb8042.c, keyb8042_map of c-main.c) *)

From S2P Require Import Prelude Machine Memory Vga.

Definition IO_KEYBOARD_BUFFER : Z := 96.
Definition IO_KEYBOARD_COMMAND : Z := 100.
Definition IO_KEYBOARD_STATUS : Z := 100.

Section Keyboard.
Context `{Env}.

(** [while (io_inbi_d(STATUS) & 2) io_delay();] *)
Definition keyb8042_wait_for_output_ready : M unit :=
  while env_fuel (v ← io_inbi_d IO_KEYBOARD_STATUS; mret (negb (Z.land v 2 =? 0))) io_delay.

Definition keyb8042_wait_for_input_ready : M unit :=
  while env_fuel (v ← io_inbi_d IO_KEYBOARD_STATUS; mret (Z.land v 1 =? 0)) io_delay.

Definition keyb8042_write_buffer (c : Z) : M unit :=
  keyb8042_wait_for_output_ready ;; io_outbi_d IO_KEYBOARD_BUFFER c.

Definition keyb8042_read_buffer_imm : M Z :=
  v ← io_inbi_d IO_KEYBOARD_STATUS;
  if negb (Z.land v 1 =? 0) then io_inbi_d IO_KEYBOARD_BUFFER else mret (-1).

(** [while ((r=keyb8042_read_buffer_imm()) < 0) io_delay();] *)
Fixpoint read_buffer_loop (fuel : nat) : M Z :=
  match fuel with
  | O => halt NoReturn
  | S f =>
      r ← keyb8042_read_buffer_imm;
      if r <? 0 then io_delay ;; read_buffer_loop f else mret r
  end.
Definition keyb8042_read_buffer : M Z := read_buffer_loop env_fuel.

Definition keyb8042_write_command (c : Z) : M unit :=
  keyb8042_wait_for_output_ready ;; io_outbi_d IO_KEYBOARD_COMMAND c.

Definition keyb8042_write_command_byte (c : Z) : M unit :=
  keyb8042_write_command 96 ;;
  keyb8042_write_buffer c ;;
  keyb8042_wait_for_output_ready.

Definition keyb8042_write_leds (c : Z) : M unit :=
  keyb8042_write_buffer 237 ;; keyb8042_write_buffer c.

(** [if (keyb8042_read_buffer() != 0xFA) vga_write(complaint);] *)
Definition expect_ack (complaint : list Z) : M unit :=
  r ← keyb8042_read_buffer;
  when (negb (r =? 250)) (vga_write complaint).

(** The reset block of [keyb8042_init]. *)
Definition keyb8042_reset : M unit :=
  keyb8042_write_buffer 255 ;;
  c ← keyb8042_read_buffer;
  let c := u8 c in
  c ← (if negb (c =? 250) then c ← keyb8042_read_buffer_imm; mret (u8 c) else mret c : M Z);
  when (negb (c =? 250))
   (keyb8042_read_buffer_imm ;;
    keyb8042_write_buffer 255 ;;
    c ← keyb8042_read_buffer;
    when (negb (u8 c =? 250)) (vga_write (msg "PS/2 keyboard reset does not give acknowledgement"))) ;;
  c ← keyb8042_read_buffer;
  when (negb (u8 c =? 170)) (vga_write (msg "PS/2 keyboard reset does not give self-test passed response")).

(** "please use scan code set #1" *)
Definition set_scan_code : M unit :=
  keyb8042_write_buffer 240 ;;
  expect_ack (msg "PS/2 keyboard set scan code #2 (first): no ack") ;;
  keyb8042_write_buffer 1 ;;
  expect_ack (msg "PS/2 keyboard set scan code #2: no ack").

Definition keyb8042_init : M unit :=
  io_inbi_d IO_KEYBOARD_BUFFER ;;
  io_inbi_d IO_KEYBOARD_BUFFER ;;
  io_inbi_d IO_KEYBOARD_STATUS ;;
  io_inbi_d IO_KEYBOARD_STATUS ;;
  b ← io_inbi_d IO_KEYBOARD_BUFFER;
  absent ← (if b =? 255 then v ← io_inbi_d IO_KEYBOARD_STATUS; mret (v =? 255) else mret false : M bool);
  if absent : bool then vga_write (msg "PS/2 or compatible keyboard controller not present") else
  keyb8042_write_command 170 ;;
  self_test ← keyb8042_read_buffer;
  if negb (self_test =? 85)
  then vga_write (msg "PS/2 or compatible keyboard controller gave incorrect response to self-test") else
  keyb8042_write_command_byte 51 ;;
  keyb8042_write_command 171 ;;
  keyb8042_test ← keyb8042_read_buffer;
  (if (1 <=? keyb8042_test) && (keyb8042_test <=? 3)
   then vga_write (msg "PS/2 keyboard self-test indicates possible problem")
   else when ((keyb8042_test <? 0) || (16 <=? keyb8042_test))
          (vga_write (msg "PS/2 keyboard self-test returned garbage results"))) ;;
  keyb8042_reset ;;
  keyb8042_write_buffer 245 ;;
  expect_ack (msg "PS/2 keyboard 0xF5: no ack") ;;
  keyb8042_write_leds 0 ;;
  expect_ack (msg "PS/2 keyboard set LEDs: no ack") ;;
  set_scan_code ;;
  keyb8042_write_command 174 ;;
  keyb8042_write_buffer 244 ;;
  expect_ack (msg "PS/2 keyboard enable: no ack") ;;
  set_scan_code ;;
  keyb8042_write_leds 7.

(** Extended keys arrive as two or three bytes; key-up messages are dropped. *)
Definition keyb8042_readkey : M Z :=
  b1 ← keyb8042_read_buffer_imm;
  if b1 <? 0 then mret (-1) else
  r ← (if b1 =? 224 then
         b2 ← keyb8042_read_buffer;
         if b2 <? 0 then mret None else mret (Some (Z.lor 57344 b2))
       else if b1 =? 225 then
         b2 ← keyb8042_read_buffer;
         if b2 <? 0 then mret None else
         let b1 := Z.lor 14745600 (Z.shiftl b2 8) in
         b2 ← keyb8042_read_buffer;
         if b2 <? 0 then mret None else mret (Some (Z.lor b1 b2))
       else mret (Some b1) : M (option Z));
  match r with
  | None => mret (-1)
  | Some b1 => if negb (Z.land b1 128 =? 0) then mret (-1) else mret b1
  end.

(** [while ((r = keyb8042_readkey()) == -1);] *)
Fixpoint waitkey_loop (fuel : nat) : M Z :=
  match fuel with
  | O => halt NoReturn
  | S f => r ← keyb8042_readkey; if r =? -1 then waitkey_loop f else mret r
  end.
Definition keyb8042_waitkey : M Z := waitkey_loop env_fuel.

Definition keyboard_init : M unit := keyb8042_init.

(** [keyb8042_map[0x80]] as [signed char] values. *)
Definition keyb8042_map : list Z :=
  [-1; 27] ++ str "1234567890-=" ++ [8; 9] ++
  str "qwertyuiop[]" ++ [13; -1] ++ str "as" ++
  str "dfghjkl;'`" ++ [-1] ++ str "\zxcv" ++
  str "bnm,./*" ++ [-1; 32] ++ replicate 7 (-1) ++
  replicate 64 (-1).

Definition keyb8042_to_ascii (r : Z) : Z :=
  if (r <? 0) || (128 <=? r) then -1 else nth (Z.to_nat r) keyb8042_map 0.

(** ** Properties *)

Lemma read_imm_range s : wp keyb8042_read_buffer_imm (λ r s', -1 <= r < 256 /\ io_only s s') s.
Proof.
  unfold keyb8042_read_buffer_imm. wp_step. eapply stays_wp; [apply io_only_inbi_d|done|]. intros v s1 _ H1.
  case_bool; [|by wp_step].
  unfold io_inbi_d, io_inbi. wp_step. wp_step. eapply stays_wp; [apply io_only_in|done|]. intros x s2 _ H2. wp_step.
  wp_step. eapply stays_wp; [apply io_only_delay|done|]. intros [] s3 _ H3. wp_step. pose proof (u8_range x).
  split; [lia|]. etransitivity; [exact H1|]. by etransitivity.
Qed.

Lemma keyb8042_map_length : length keyb8042_map = 128%nat.
Proof. done. Qed.

(** Every ASCII code the table gives is a printing character or one of the
    control keys the menus test for. *)
Definition menu_key (a : Z) : bool := existsb (Z.eqb a) [-1; 8; 9; 13; 27] || ((32 <=? a) && (a <? 127)).

Lemma to_ascii_keys r : menu_key (keyb8042_to_ascii r) = true.
Proof.
  unfold keyb8042_to_ascii. destruct (r <? 0) eqn:E1, (128 <=? r) eqn:E2; bool_to_prop; try done.
  apply (forallb_range (λ r, menu_key (nth (Z.to_nat r) keyb8042_map 0)) 128); [done|lia].
Qed.

(** Reading a port that always gives the same byte. *)
Lemma inbi_d_constant p v s :
  (forall tr, u8 (env_in tr 8 (u16 p)) = v) -> wp (io_inbi_d p) (λ r s', r = v /\ io_only s s') s.
Proof.
  intros Hv. unfold io_inbi_d, io_inbi, io_in. do 4 wp_step. wp_step.
  eapply stays_wp; [by apply io_only_log|done|]. intros [] s1 _ H1. wp_step. wp_step. wp_step.
  eapply stays_wp; [apply io_only_delay|done|]. intros [] s2 _ H2. wp_step. split; [apply Hv|by etransitivity].
Qed.

Lemma land_128 b : 0 <= b < 256 -> (Z.land b 128 =? 0) = (b <? 128).
Proof.
  intros Hb. apply (forallb_range (λ b, Bool.eqb (Z.land b 128 =? 0) (b <? 128)) 256) in Hb; [|vm_compute; reflexivity].
  by apply Bool.eqb_prop in Hb.
Qed.

(** [keyb8042_readkey] never waits for an ordinary key: it returns the scan
    code of a key that was pressed, and -1 when the controller has nothing or
    the byte says that a key was released; only the controller's ports are
    touched. *)
Theorem readkey_ordinary status b s :
  (forall tr, u8 (env_in tr 8 100) = status) -> (forall tr, u8 (env_in tr 8 96) = b) -> b <> 224 -> b <> 225 ->
  exists r s', keyb8042_readkey s = inr (r, s') /\ io_only s s' /\
    r = if negb (Z.land status 1 =? 0) && (b <? 128) then b else -1.
Proof.
  intros Hst Hb H224 H225. assert (0 <= b < 256) as Hr by (rewrite <- (Hb []); apply u8_range).
  apply wp_run. unfold keyb8042_readkey, keyb8042_read_buffer_imm. wp_step. wp_step.
  eapply wp_mono; [by apply (inbi_d_constant IO_KEYBOARD_STATUS status)|]. intros v s1 [-> H1].
  destruct (Z.land status 1 =? 0); cbn [negb andb].
  - wp_step. cbn [Z.ltb Z.compare]. by wp_step.
  - eapply wp_mono; [by apply (inbi_d_constant IO_KEYBOARD_BUFFER b)|]. intros v s2 [-> H2].
    rewrite (proj2 (Z.ltb_ge _ _)), (proj2 (Z.eqb_neq b 224)), (proj2 (Z.eqb_neq b 225)) by lia.
    wp_step. wp_step. rewrite land_128 by done. destruct (b <? 128); cbn [negb]; wp_step; (split; [by etransitivity|done]).
Qed.

End Keyboard.

(** The A key, pressed. *)
Definition key_env : Env := {|
  env_in := λ _ _ p, if p =? 100 then 1 else 30;
  env_dma := λ _ m, m;
  env_exec := λ _ _, None;
  env_fuel := 10
|}.

Lemma readkey_ordinary_witness :
  exists r s', @keyb8042_readkey key_env blank = inr (r, s') /\ r = 30.
Proof.
  destruct (@readkey_ordinary key_env 1 30 blank) as (r & s' & E & _ & Hr); try done.
  exists r, s'. split; [exact E|exact Hr].
Defined.
