(* ===== verification/NetDriver.v ===== *)
(** * The network-driver interface (network.h)

    [struct ethernet_frame_header] and [struct network_driver].  The protocol
    code reaches the card only through the function pointers of the chosen
    driver; [NetDrivers] says which operations each entry of [net_drivers[]]
    has, and [DriverLaws] states what the protocol code relies on. *)

From S2P Require Import Prelude Machine Memory Vga Text.

(** [type] is kept as the machine loads it (little-endian), like the C field. *)
Record ethernet_frame_header : Type := mkEth {
  dst_mac : list Z;
  src_mac : list Z;
  eth_type : Z
}.

(** The 14 bytes of the packed struct, and reading it through a pointer. *)
Definition eth_bytes (h : ethernet_frame_header) : list Z :=
  dst_mac h ++ src_mac h ++ [eth_type h; Z.shiftr (eth_type h) 8].
Definition load_eth (m : gmap Z Z) (p : Z) : ethernet_frame_header :=
  mkEth (rd_bytes m p 6) (rd_bytes m (p + 6) 6) (rd16 m (p + 12)).

Lemma length_eth_bytes hdr :
  length (dst_mac hdr) = 6%nat -> length (src_mac hdr) = 6%nat -> length (eth_bytes hdr) = 14%nat.
Proof. intros Hd Hs. unfold eth_bytes. rewrite !length_app, Hd, Hs. done. Qed.

Record network_driver : Type := mkDriver {
  drv_name : list Z;
  drv_probe : option pci_device -> M Z;
  drv_init : option pci_device -> M Z;
  drv_uninit : option pci_device -> M Z;
  (** [None] for NULL, otherwise the packet pointer, [*sz] and [*hdr] *)
  drv_get_packet : M (option (Z * Z * ethernet_frame_header));
  drv_prepare_send_packet : Z -> ethernet_frame_header -> M (option Z);
  drv_send_packet : M unit;
  drv_put_packet : Z -> M unit
}.

Class NetDrivers : Type := net_driver : driver_id -> network_driver.

(** A call through [chosen_net_drv->...]; a NULL pointer has no behaviour. *)
Definition chosen `{NetDrivers} {A} (f : network_driver -> M A) : M A :=
  d ← gets (λ s, chosen_net_drv (m_net s));
  match d with
  | Some d => f (net_driver d)
  | None => halt Undefined
  end.

(** ** What the protocol code relies on *)

(** The variables of all drivers are the same. *)
Record same_drivers (s s' : machine) : Prop := {
  sd_pcnet32 : m_pcnet32 s' = m_pcnet32 s;
  sd_rtl8101 : m_rtl8101 s' = m_rtl8101 s;
  sd_ne2000 : m_ne2000 s' = m_ne2000 s
}.

#[export] Instance same_drivers_preorder : PreOrder same_drivers.
Proof.
  split.
  - by intros s.
  - intros s1 s2 s3 [] []. split; congruence.
Qed.

(** What a driver call may change: memory in the driver's [area] and on the
    screen, the I/O history (no uploaded code is called), the console and the driver's own variables. *)
Record drv_step (area : Z -> Prop) (s s' : machine) : Prop := {
  ds_mem : mem_frame (λ a, area a \/ vga_window a) (m_mem s) (m_mem s');
  ds_vga : vga_ok (m_vga s');
  ds_net : m_net s' = m_net s;
  ds_alloc : m_alloc s' = m_alloc s;
  ds_pci : m_pci s' = m_pci s;
  ds_irq : m_irq_function s' = m_irq_function s;
  ds_exec : executed (m_trace s') = executed (m_trace s)
}.

(** A step that changes no variable of the drivers or the protocol code: the
    card at work in [area], printing, port accesses. *)
Record bus_step (area : Z -> Prop) (s s' : machine) : Prop := {
  bs_mem : mem_frame (λ a, area a \/ vga_window a) (m_mem s) (m_mem s');
  bs_statics : same_statics s s';
  bs_io : adds_io s s'
}.

#[export] Instance bus_step_preorder area : PreOrder (bus_step area).
Proof.
  split.
  - by intros s.
  - intros s1 s2 s3 [] []. split; by etransitivity.
Qed.

Lemma bus_step_weaken (P Q : Z -> Prop) s s' :
  (forall a, P a -> Q a) -> bus_step P s s' -> bus_step Q s s'.
Proof. intros HPQ []. split; [|done|done]. eapply mem_frame_weaken; [|done]. cbn. intros a []; auto. Qed.

Lemma bus_step_drv area s s' : vga_ok (m_vga s') -> bus_step area s s' -> drv_step area s s'.
Proof. intros Hv [Hm [] Hio]. split; try done. by apply adds_io_executed. Qed.

#[export] Instance drv_step_trans area : Transitive (drv_step area).
Proof. intros s1 s2 s3 [] []. split; [by etransitivity|congruence..]. Qed.

Lemma console_bus area s s' : console_frame s s' -> bus_step area s s'.
Proof. intros []. split; [|done|done]. eapply mem_frame_weaken; [|done]. auto. Qed.

(** The card alone at work in [area], seen by polls. *)
Record card_step (area : Z -> Prop) (s s' : machine) : Prop := {
  ks_mem : mem_frame area (m_mem s) (m_mem s');
  ks_same : s' = set_m_trace (m_trace s') (set_m_mem (m_mem s') s);
  ks_io : adds_io s s'
}.

#[export] Instance card_step_preorder area : PreOrder (card_step area).
Proof.
  split.
  - intros s. split; [done|by destruct s|done].
  - intros s1 s2 s3 [H1 E1 I1] [H2 E2 I2]. split; [by etransitivity| |by etransitivity]. rewrite E2, E1. done.
Qed.

Lemma card_step_weaken (P Q : Z -> Prop) s s' :
  (forall a, P a -> Q a) -> card_step P s s' -> card_step Q s s'.
Proof. intros HPQ []. split; [|done|done]. by eapply mem_frame_weaken. Qed.

Lemma card_step_bus area s s' : card_step area s s' -> bus_step area s s'.
Proof.
  intros [Hm E Hio]. split; [|rewrite E; by split|done]. eapply mem_frame_weaken; [|exact Hm]. auto.
Qed.

(** A driver that is ready to send while the protocol code holds a received
    packet.  [drv_area] is the memory the driver and its card work in (the
    packet being held is outside it); [drv_prepared s p sz] says that a buffer
    for [sz] bytes of payload starts at [p]; [drv_handed s f] that the last
    frame given to the card is [f]. *)
Class DriverLaws (d : network_driver) : Type := {
  drv_area : Z -> Prop;
  drv_inv : machine -> Prop;
  drv_prepared : machine -> Z -> Z -> Prop;
  drv_handed : machine -> list Z -> Prop;
  drv_mtu : Z;
  law_mtu : 1480 <= drv_mtu;
  law_area_vga a : drv_area a -> ~ vga_window a;
  law_prepare s sz hdr :
    drv_inv s -> vga_ok (m_vga s) -> 0 <= sz <= drv_mtu ->
    length (dst_mac hdr) = 6%nat -> length (src_mac hdr) = 6%nat ->
    wp (drv_prepare_send_packet d sz hdr)
      (λ r s', exists p, r = Some p /\ drv_prepared s' p sz /\
         rd_bytes (m_mem s') (p - 14) 14 = u8 <$> eth_bytes hdr /\
         drv_step drv_area s s') s;
  law_window s p sz :
    drv_prepared s p sz ->
    14 <= p /\ 0 <= sz /\ p + sz <= 4294967296 /\ forall a, p - 14 <= a < p + sz -> drv_area a;
  law_prepared_stable s s' p sz :
    drv_prepared s p sz -> same_drivers s s' ->
    mem_frame (λ a, p - 14 <= a < p + sz \/ ~ drv_area a) (m_mem s) (m_mem s') ->
    drv_prepared s' p sz;
  law_send s p sz :
    drv_prepared s p sz -> vga_ok (m_vga s) ->
    wp (drv_send_packet d)
      (λ _ s', drv_inv s' /\ drv_step drv_area s s' /\
         drv_handed s' (rd_bytes (m_mem s) (p - 14) (Z.to_nat (sz + 14)))) s;
  law_inv_stable s s' :
    drv_inv s -> same_drivers s s' ->
    mem_frame (λ a, ~ drv_area a) (m_mem s) (m_mem s') -> drv_inv s';
  law_handed_stable s s' f :
    drv_handed s f -> same_drivers s s' -> adds_io s s' ->
    mem_frame (λ a, ~ drv_area a) (m_mem s) (m_mem s') -> drv_handed s' f
}.

(** ** Sending through the interface *)

(** A caller asks for a buffer, stores its payload there and sends, the way the
    protocol code does. *)
Definition transmit (d : network_driver) (hdr : ethernet_frame_header) (payload : list Z) : M unit :=
  r ← drv_prepare_send_packet d (Z.of_nat (length payload)) hdr;
  match r with
  | Some p => store_bytes p payload ;; drv_send_packet d
  | None => halt Undefined
  end.

Lemma transmit_law (d : network_driver) `{L : !DriverLaws d} s hdr payload :
  drv_inv s -> vga_ok (m_vga s) -> Z.of_nat (length payload) <= drv_mtu ->
  length (dst_mac hdr) = 6%nat -> length (src_mac hdr) = 6%nat ->
  wp (transmit d hdr payload)
    (λ _ s', drv_inv s' /\ drv_handed s' ((u8 <$> eth_bytes hdr) ++ (u8 <$> payload)) /\ drv_step drv_area s s') s.
Proof.
  intros Hs Hv Hlen Hd Hsr. unfold transmit. set (n := Z.of_nat (length payload)) in *. wp_step.
  eapply wp_mono; [apply (law_prepare s n hdr); (done || lia)|].
  intros r s1 (p & -> & Hp & Hhdr & D1). wp_step. unfold store_bytes, upd_mem. wp_step.
  pose proof (law_window s1 p n Hp) as (Hp14 & _ & Hend & Harea).
  set (s2 := set_m_mem (wr_bytes (m_mem s1) p payload) s1).
  assert (mem_frame (λ a, p <= a < p + n) (m_mem s1) (m_mem s2)) as HF by (apply mem_frame_store; lia).
  assert (drv_prepared s2 p n) as Hp2.
  { eapply (law_prepared_stable s1); [done|by split|]. eapply mem_frame_weaken; [|exact HF]. cbv beta. lia. }
  eapply wp_mono; [apply (law_send s2 p n Hp2); apply D1|].
  intros [] s3 (Hr3 & D3 & Hh). split_and!; [done| |].
  - replace (_ ++ _) with (rd_bytes (m_mem s2) (p - 14) (Z.to_nat (n + 14))); [done|].
    replace (Z.to_nat (n + 14)) with (14 + length payload)%nat by lia. rewrite rd_bytes_app. f_equal.
    + rewrite (mem_frame_block _ _ _ _ _ HF) by lia. done.
    + replace (p - 14 + Z.of_nat 14) with p by lia. apply rd_bytes_wr_bytes_same. lia.
  - transitivity s1; [done|]. transitivity s2; [|done]. destruct D1. split; try done.
    eapply mem_frame_weaken; [|exact HF]. cbv beta. intros a Ha. left. apply Harea. lia.
Qed.
