(* ===== verification/Network.v ===== *)
(** * Choosing a network card (network.c) *)

From S2P Require Import Prelude Machine Memory Vga Pci Keyboard NetDriver.

(** [net_drivers[]], without its NULL terminator. *)
Definition net_drivers : list driver_id := [pcnet32; rtl8101; rtl8139; ne2000].

Section Network.
Context `{Env} `{NetDrivers}.

(** Offer a device to the drivers until one takes it:
    [for (drvidx=0;net_drivers[drvidx] != NULL && chosen_net_drv == NULL;drvidx++)]. *)
Fixpoint probe_drivers (ds : list driver_id) (pdev : option pci_device) (found : driver_id -> net_state -> net_state) : M unit :=
  match ds with
  | [] => skip
  | d :: ds' =>
      c ← gets (λ s, chosen_net_drv (m_net s));
      match c with
      | Some _ => skip
      | None =>
          r ← drv_probe (net_driver d) pdev;
          when (negb (r =? 0)) (upd_net (found d)) ;;
          probe_drivers ds' pdev found
      end
  end.

Definition autoprobe_network_card_isa : M unit :=
  upd_net (set_chosen_net_drv None) ;;
  upd_net (set_chosen_net_dev None) ;;
  probe_drivers net_drivers None (λ d, set_chosen_net_drv (Some d)).

(** The loop over [pci_device[]]. *)
Fixpoint probe_devices (n : nat) (index : Z) : M unit :=
  match n with
  | O => skip
  | S n' =>
      c ← gets (λ s, chosen_net_drv (m_net s));
      match c with
      | Some _ => skip
      | None =>
          pdev ← gets (λ s, nth (Z.to_nat index) (pci_devices (m_pci s)) zero_device);
          when (negb (pd_device_id pdev =? 0) && (Z.shiftr (pd_class_code pdev) 16 =? 2))
            (probe_drivers net_drivers (Some pdev)
               (λ d n, set_chosen_net_drv (Some d) (set_chosen_net_dev (Some index) n))) ;;
          probe_devices n' (index + 1)
      end
  end.

(** The question about ISA cards: 'y' probes, any other ASCII key declines. *)
Fixpoint ask_isa (fuel : nat) : M unit :=
  match fuel with
  | O => halt NoReturn
  | S f =>
      r ← keyb8042_read_buffer;
      let c := keyb8042_to_ascii r in
      if c =? 121 then autoprobe_network_card_isa
      else if 0 <? c then skip
      else ask_isa f
  end.

Definition autoprobe_network_card : M unit :=
  upd_net (set_chosen_net_drv None) ;;
  upd_net (set_chosen_net_dev None) ;;
  probe_devices (Z.to_nat MAX_PCI_DEVICE) 0 ;;
  dev ← gets (λ s, chosen_net_dev (m_net s));
  match dev with
  | Some _ => skip
  | None =>
      vga_write (msg "No PCI cards were automatically identified. Would you like me to probe for") ;;
      vga_write (msg "ISA network cards? ") ;;
      ask_isa env_fuel
  end.

(** ** Properties *)

(** Probes of PCI devices that only look: true of the drivers here, which
    compare vendor and device IDs. *)
Definition probe_reads (d : driver_id) (known : pci_device -> bool) : Prop :=
  forall p s, drv_probe (net_driver d) (Some p) s = inr (if known p then 1 else 0, s).

Context (known : driver_id -> pci_device -> bool) (Hknown : forall d, probe_reads d (known d)).

(** The driver the code should choose for a device: the first that knows it. *)
Definition driver_for (p : pci_device) : option driver_id :=
  snd <$> list_find (λ d, known d p = true) net_drivers.

Definition ethernet_device (p : pci_device) : bool :=
  negb (pd_device_id p =? 0) && (Z.shiftr (pd_class_code p) 16 =? 2).

(** The first device of the table, from [i] on, that some driver knows. *)
Fixpoint first_card (i : Z) (l : list pci_device) : option (Z * driver_id) :=
  match l with
  | [] => None
  | p :: l' =>
      match (if ethernet_device p then driver_for p else None) with
      | Some d => Some (i, d)
      | None => first_card (i + 1) l'
      end
  end.

Lemma probe_drivers_spec ds p found s :
  chosen_net_drv (m_net s) = None -> (forall d n, chosen_net_drv (found d n) = Some d) ->
  probe_drivers ds (Some p) found s =
    inr (tt, match snd <$> list_find (λ d, known d p = true) ds with
             | Some d => set_m_net (found d (m_net s)) s
             | None => s
             end).
Proof.
  intros Hn Hf. induction ds as [|d ds IH]; cbn [probe_drivers list_find]; [done|].
  run. rewrite Hn, (Hknown d p s). destruct (known d p) eqn:Ek; cbn [Z.eqb negb when].
  - rewrite decide_True by done. run. destruct ds as [|d' ds]; cbn [probe_drivers]; [done|].
    run. cbn [m_net set_m_net]. by rewrite Hf.
  - rewrite decide_False by congruence. run. rewrite IH. by destruct (list_find _ ds) as [[]|].
Qed.

Lemma probe_devices_spec n : forall index s,
  chosen_net_drv (m_net s) = None -> 0 <= index ->
  (Z.to_nat index + n)%nat = length (pci_devices (m_pci s)) ->
  probe_devices n index s =
    inr (tt, match first_card index (drop (Z.to_nat index) (pci_devices (m_pci s))) with
             | Some (i, d) => set_m_net (set_chosen_net_drv (Some d) (set_chosen_net_dev (Some i) (m_net s))) s
             | None => s
             end).
Proof.
  induction n as [|n IH]; intros index s Hn Hi Hlen; cbn [probe_devices].
  - rewrite drop_ge by lia. done.
  - run. rewrite Hn.
    destruct (lookup_lt_is_Some_2 (pci_devices (m_pci s)) (Z.to_nat index) ltac:(lia)) as [p Hp].
    rewrite (drop_S _ _ _ Hp), (nth_lookup_Some _ _ _ _ Hp). cbn [first_card].
    replace (S (Z.to_nat index)) with (Z.to_nat (index + 1)) by lia.
    change (negb (pd_device_id p =? 0) && (Z.shiftr (pd_class_code p) 16 =? 2)) with (ethernet_device p).
    destruct (ethernet_device p); cbn [when].
    + rewrite probe_drivers_spec by done. unfold driver_for.
      destruct (snd <$> list_find _ net_drivers) as [d|]; [|by rewrite IH by (done || lia)].
      destruct n; cbn [probe_devices]; [done|]. by run.
    + run. by rewrite IH by (done || lia).
Qed.

(** The automatic choice takes the first Ethernet device of the PCI table
    that some driver knows, with the first driver that knows it, and touches
    nothing else. *)
Lemma autoprobe_choice s i d :
  length (pci_devices (m_pci s)) = 64%nat -> first_card 0 (pci_devices (m_pci s)) = Some (i, d) ->
  exists s', autoprobe_network_card s = inr (tt, s') /\
    s' = set_m_net (set_chosen_net_drv (Some d) (set_chosen_net_dev (Some i) (m_net s))) s.
Proof.
  intros Hlen Hf. eexists. split; [|reflexivity]. unfold autoprobe_network_card, upd_net. run.
  rewrite probe_devices_spec by done. cbn [m_pci set_m_net Z.to_nat]. rewrite drop_0, Hf. done.
Qed.

End Network.
