(* ===== verification/Rings.v ===== *)
(** * Descriptor rings: what the bus-master drivers share

    net-pcnet32.c and net-rtl8101.c set their cards up with the same loops: a
    1600-byte buffer per descriptor, its address in a pointer array, then one
    16-byte descriptor after the other filled from that array. *)

From S2P Require Import Prelude Machine Memory Alloc.

(** What a receive descriptor holds, as the drivers see it: still the card's; an
    error or a part of a frame; a frame too short for a header; a frame. *)
Inductive rx_verdict : Type := NotOurs | Discard | Runt | Frame.

(** The frame and the words after a run of stores. *)
Ltac frame_stores :=
  repeat lazymatch goal with
  | |- mem_frame _ _ (wr16 _ _ _) =>
      etransitivity; [|eapply mem_frame_weaken; [|apply mem_frame_store16]; cbv beta; lia]
  | |- mem_frame _ _ (wr32 _ _ _) =>
      etransitivity; [|eapply mem_frame_weaken; [|apply mem_frame_store32]; cbv beta; lia]
  end; reflexivity.

Ltac far_words :=
  repeat first [ rewrite rd32_wr16_far by (unfold apart; lia) | rewrite rd32_wr32_far by (unfold apart; lia)
               | rewrite rd16_wr32_far by (unfold apart; lia) | rewrite rd16_wr16_far by (unfold apart; lia) ].

(** The loop that allocates the buffers of one ring. *)
Lemma alloc_buffers_spec (n : nat) tbl b s :
  0 <= tbl -> tbl + 4 * Z.of_nat n <= 4294967296 -> 0 <= b -> b + 1600 * Z.of_nat n < 4294967296 -> m_alloc s = b ->
  wp (for_range 0 n (λ i, p ← do_alloc 1600; store32 (tbl + 4 * i) p))
    (λ _ s', exists m, s' = set_m_alloc (b + 1600 * Z.of_nat n) (set_m_mem m s) /\
       mem_frame (λ x, tbl <= x < tbl + 4 * Z.of_nat n) (m_mem s) m /\
       forall i, 0 <= i < Z.of_nat n -> rd32 m (tbl + 4 * i) = b + 1600 * i) s.
Proof.
  intros Ht Hte Hb Hbe Ha. eapply wp_mono.
  - apply (wp_for_range (λ k s', exists m, s' = set_m_alloc (b + 1600 * k) (set_m_mem m s) /\
       mem_frame (λ x, tbl <= x < tbl + 4 * Z.of_nat n) (m_mem s) m /\
       forall i, 0 <= i < k -> i < Z.of_nat n -> rd32 m (tbl + 4 * i) = b + 1600 * i)).
    + exists (m_mem s). split_and!; [|done|intros; lia]. rewrite Z.mul_0_r, Z.add_0_r, <- Ha. by destruct s.
    + intros k s1 Hk (m & -> & HF & Hm). unfold wp, do_alloc. run. cbn [m_mem m_alloc set_m_mem set_m_alloc].
      exists (wr32 m (tbl + 4 * k) (b + 1600 * k)). rewrite u32_small by lia.
      split_and!.
      * by replace (b + 1600 * k + 1600) with (b + 1600 * (k + 1)) by lia.
      * etransitivity; [exact HF|]. eapply mem_frame_weaken; [|apply mem_frame_store32]; cbn; lia.
      * intros i Hi Hi'. destruct (decide (i = k)) as [->|Hne].
        -- rewrite rd32_wr32. apply u32_small. lia.
        -- rewrite rd32_wr32_far by (unfold apart; lia). apply Hm; lia.
  - intros [] s' (m & -> & HF & Hm). exists m. split_and!; [done|done|]. intros i Hi. apply Hm; lia.
Qed.

(** A loop body that sets descriptor [i] up, taking its buffer from the pointer
    array: afterwards [ok i buf] holds of the descriptor's 16 bytes. *)
Section Setup.
Context (n : nat) (ring tbl : Z) (ok : Z -> Z -> gmap Z Z -> Prop).

Definition sets_up (f : Z -> M unit) : Prop := forall s i,
  0 <= i < Z.of_nat n -> wp (f i) (λ _ s', exists m, s' = set_m_mem m s /\
    mem_frame (λ x, ring + 16 * i <= x < ring + 16 * i + 16) (m_mem s) m /\
    ok i (rd32 (m_mem s) (tbl + 4 * i)) m) s.

Context (ok_frame : forall P i p m m', 0 <= i < Z.of_nat n -> mem_frame P m m' ->
  (forall x, ring + 16 * i <= x < ring + 16 * i + 16 -> ~ P x) -> ok i p m -> ok i p m').

Lemma setup_ring_spec f (buf : Z -> Z) s :
  sets_up f -> 0 <= ring -> ring + 16 * Z.of_nat n <= 4294967296 -> 0 <= tbl -> tbl + 4 * Z.of_nat n <= 4294967296 ->
  (tbl + 4 * Z.of_nat n <= ring \/ ring + 16 * Z.of_nat n <= tbl) ->
  (forall i, 0 <= i < Z.of_nat n -> rd32 (m_mem s) (tbl + 4 * i) = buf i) ->
  wp (for_range 0 n f)
    (λ _ s', exists m, s' = set_m_mem m s /\ mem_frame (λ x, ring <= x < ring + 16 * Z.of_nat n) (m_mem s) m /\
       forall i, 0 <= i < Z.of_nat n -> ok i (buf i) m) s.
Proof.
  intros Hf Hr Hre Ht Hte Hap Hbuf. eapply wp_mono.
  - apply (wp_for_range (λ k s', exists m, s' = set_m_mem m s /\
       mem_frame (λ x, ring <= x < ring + 16 * Z.of_nat n) (m_mem s) m /\
       forall i, 0 <= i < k -> i < Z.of_nat n -> ok i (buf i) m)).
    + exists (m_mem s). split_and!; [by destruct s|done|intros; lia].
    + intros k s1 Hk (m & -> & HF & Hm). eapply wp_mono; [apply Hf; lia|].
      intros [] s' (m' & -> & HF' & Eok). cbn [m_mem set_m_mem] in *. exists m'. split_and!; [done| |].
      * etransitivity; [exact HF|]. eapply mem_frame_weaken; [|exact HF']. cbn. lia.
      * intros i Hi Hi'. destruct (decide (i = k)) as [->|Hne].
        -- rewrite (mem_frame_rd32 _ _ _ _ HF), Hbuf in Eok by (lia || (intros; lia)). exact Eok.
        -- eapply ok_frame; [lia|exact HF'| |apply Hm; lia]. cbv beta. lia.
  - intros [] s' (m & -> & HF & Hm). exists m. split_and!; [done|done|]. intros i Hi. apply Hm; lia.
Qed.

End Setup.

Lemma mem_frame_memset m a c n :
  0 <= a -> a + Z.of_nat n <= 4294967296 -> mem_frame (λ x, a <= x < a + Z.of_nat n) m (memset m a c n).
Proof.
  intros Ha Hend. unfold memset. pose proof (mem_frame_store m a (replicate n (u8 c)) Ha) as HF.
  rewrite length_replicate in HF. by apply HF.
Qed.
