(* ===== verification/Pcnet32.v ===== *)
(** * The AMD PCnet driver (net-pcnet32.c)

    Two rings of 16 descriptors of 16 bytes each, shared with the card, and a
    1600-byte buffer per descriptor.  Descriptor fields at their offsets:
    [base] 0, [buf_length]/[length] 4, [status] 6, [msg_length] 8, [reserved]
    12; [status] (and the transmit [length]) are volatile, so every read of
    [status] is a poll. *)

From S2P Require Import Prelude Machine Memory Vga Alloc Pci NetDriver Rings.

Section Driver.
Context `{Env} `{Linker}.

Definition pcnet32_known_pci_id (p : option pci_device) : Z :=
  match p with
  | None => 0
  | Some p => if (pd_vendor_id p =? 4130) && (pd_device_id p =? 8192) then 1 else 0
  end.

Definition pcnet32_probe (pdev : option pci_device) : M Z :=
  if pcnet32_known_pci_id pdev =? 0 then mret 0 else mret 1.

Definition pcnet32_rap (addr : Z) : M unit :=
  iobase ← gets (λ s, pcnet32_iobase (m_pcnet32 s)); io_outl (iobase + 20) addr.
Definition pcnet32_read_csr : M Z :=
  iobase ← gets (λ s, pcnet32_iobase (m_pcnet32 s)); io_inl (iobase + 16).
Definition pcnet32_write_csr (x : Z) : M unit :=
  iobase ← gets (λ s, pcnet32_iobase (m_pcnet32 s)); io_outl (iobase + 16) x.
Definition pcnet32_read_bcr : M Z :=
  iobase ← gets (λ s, pcnet32_iobase (m_pcnet32 s)); io_inl (iobase + 28).
Definition pcnet32_write_bcr (x : Z) : M unit :=
  iobase ← gets (λ s, pcnet32_iobase (m_pcnet32 s)); io_outl (iobase + 28) x.

(** The loop over the BARs: the first present I/O range of at least 32 ports. *)
Definition pcnet32_io_bar (b : pci_bar) : bool :=
  negb (bar_present b =? 0) && negb (bar_io b =? 0) && (u64 (bar_start b + 31) <=? bar_end b).
Definition pcnet32_find_io (bars : list pci_bar) : option (nat * pci_bar) :=
  list_find (λ b, pcnet32_io_bar b = true) bars.

(** [if (x == NULL) x = do_alloc(n);] *)
Definition alloc_once (get : pcnet32_state -> Z) (set : Z -> pcnet32_state -> pcnet32_state) (n : Z) : M unit :=
  x ← gets (λ s, get (m_pcnet32 s));
  when (x =? 0) (p ← do_alloc n; upd_pcnet32 (set p)).

(** The INIT block: [it[0]], the MAC address, no logical addresses, the rings. *)
Definition pcnet32_init_block : M unit :=
  upd_pcnet32 (set_pcnet32_ring_size 16) ;;
  let it := pcnet32_init_data in
  store32 it (Z.lor (Z.lor (Z.lor (Z.shiftl 4 28) (Z.shiftl 4 20)) 32768) (Z.shiftl 3 7)) ;;
  mac ← gets (λ s, pcnet32_mac_address (m_pcnet32 s)); store_bytes (it + 4) mac ;;
  do_memset (it + 10) 0 2 ;;
  do_memset (it + 12) 0 8 ;;
  rx ← gets (λ s, pcnet32_rx (m_pcnet32 s)); store32 (it + 20) rx ;;
  tx ← gets (λ s, pcnet32_tx (m_pcnet32 s)); store32 (it + 24) tx.

Definition pcnet32_rx_reinit (rx : Z) : M unit :=
  store16 (rx + 4) (u16 (-1600)) ;;
  store32 (rx + 8) 0 ;;
  store32 (rx + 12) 0 ;;
  store16 (rx + 6) 32768.

(** Clearing the rings and the pointer arrays, then filling them. *)
Definition pcnet32_setup_rings : M unit :=
  st ← gets m_pcnet32;
  let rx := pcnet32_rx st in
  let tx := pcnet32_tx st in
  let rx_packets := pcnet32_rx_packets st in
  let tx_packets := pcnet32_tx_packets st in
  do_memset rx 0 256 ;;
  do_memset tx 0 256 ;;
  do_memset rx_packets 0 64 ;;
  do_memset tx_packets 0 64 ;;
  align_alloc 32 ;;
  for_range 0 16 (λ i, p ← do_alloc 1600; store32 (rx_packets + 4 * i) p) ;;
  for_range 0 16 (λ i, p ← do_alloc 1600; store32 (tx_packets + 4 * i) p) ;;
  for_range 0 16 (λ i,
    p ← load32 (rx_packets + 4 * i);
    store32 (rx + 16 * i) p ;;
    pcnet32_rx_reinit (rx + 16 * i)) ;;
  for_range 0 16 (λ i,
    p ← load32 (tx_packets + 4 * i);
    store32 (tx + 16 * i) p ;;
    store16 (tx + 16 * i + 4) (u16 (-1)) ;;
    store16 (tx + 16 * i + 6) 0 ;;
    store32 (tx + 16 * i + 8) 0 ;;
    store16 (tx + 16 * i + 6) 0).

(** From the switch to DWORD mode to the end of [pcnet32_init]. *)
Definition pcnet32_start_card : M Z :=
  iobase ← gets (λ s, pcnet32_iobase (m_pcnet32 s));
  io_outl (iobase + 16) 0 ;;
  for_range 0 6 (λ i,
    v ← io_inb (iobase + i);
    upd_pcnet32 (λ st, set_pcnet32_mac_address (<[Z.to_nat i := v]> (pcnet32_mac_address st)) st)) ;;
  pcnet32_rap 20 ;;
  pcnet32_write_bcr 2 ;;
  pcnet32_init_block ;;
  pcnet32_setup_rings ;;
  let init_addr := u32 pcnet32_init_data in
  pcnet32_rap 2 ;; pcnet32_write_csr (Z.shiftr init_addr 16) ;;
  pcnet32_rap 1 ;; pcnet32_write_csr (Z.land init_addr 65535) ;;
  pcnet32_rap 0 ;; pcnet32_write_csr 3 ;;
  upd_pcnet32 (set_pcnet32_rx_offset 0) ;;
  upd_pcnet32 (set_pcnet32_tx_offset 0) ;;
  mac ← gets (λ s, pcnet32_mac_address (m_pcnet32 s));
  upd_net (set_my_eth_mac mac) ;;
  mret 1.

Definition pcnet32_init (pdev : option pci_device) : M Z :=
  match pdev with
  | None => mret 0
  | Some d =>
  if pcnet32_known_pci_id pdev =? 0 then mret 0 else
  upd_pcnet32 (set_pcnet32_io None) ;;
  match pcnet32_find_io (pd_BAR d) with
  | None => vga_write (msg "Cannot locate I/O resource") ;; mret 0
  | Some (i, b) =>
      upd_pcnet32 (set_pcnet32_io (Some (Z.of_nat i))) ;;
      pci_config_write_imm (pd_bus d) (pd_device d) (pd_function d) 4 671 ;;
      align_alloc 16 ;;
      alloc_once pcnet32_rx set_pcnet32_rx 256 ;;
      alloc_once pcnet32_tx set_pcnet32_tx 256 ;;
      alloc_once pcnet32_rx_packets set_pcnet32_rx_packets 64 ;;
      alloc_once pcnet32_tx_packets set_pcnet32_tx_packets 64 ;;
      upd_pcnet32 (set_pcnet32_iobase (u32 (bar_start b))) ;;
      pcnet32_start_card
  end
  end.

Definition pcnet32_uninit (pdev : option pci_device) : M Z := mret 1.

Definition pcnet32_adv_packet : M unit :=
  upd_pcnet32 (λ st,
    let o := pcnet32_rx_offset st + 1 in
    set_pcnet32_rx_offset (if pcnet32_ring_size st <=? o then 0 else o) st).

Definition tx_desc (st : pcnet32_state) : Z := pcnet32_tx st + 16 * pcnet32_tx_offset st.
Definition rx_desc (st : pcnet32_state) : Z := pcnet32_rx st + 16 * pcnet32_rx_offset st.

(** [(tx->status & 0x8000) != 0] *)
Definition owned_by_card (desc : Z) : M bool :=
  status ← vload16 (desc + 6); mret (negb (Z.land status 32768 =? 0)).

Definition pcnet32_prepare_send_packet (sz : Z) (hdr : ethernet_frame_header) : M (option Z) :=
  if 1600 - 14 <? sz then mret None else
  tx ← gets (λ s, tx_desc (m_pcnet32 s));
  while env_fuel (owned_by_card tx) skip ;;
  store16 (tx + 6) 0 ;;
  store16 (tx + 4) (u16 (- (sz + 14))) ;;
  st ← gets m_pcnet32;
  p ← load32 (pcnet32_tx_packets st + 4 * pcnet32_tx_offset st);
  store_bytes p (eth_bytes hdr) ;;
  mret (Some (p + 14)).

Definition pcnet32_send_packet : M unit :=
  tx ← gets (λ s, tx_desc (m_pcnet32 s));
  store16 (tx + 6) (Z.lor (Z.lor 32768 (Z.shiftl 1 8)) (Z.shiftl 1 9)) ;;
  upd_pcnet32 (λ st,
    let o := pcnet32_tx_offset st + 1 in
    set_pcnet32_tx_offset (if pcnet32_ring_size st <=? o then 0 else o) st).

(** [pcnet32_rx_reinit(rx); pcnet32_adv_packet();] *)
Definition pcnet32_discard (rx : Z) : M unit := pcnet32_rx_reinit rx ;; pcnet32_adv_packet.

(** [status & mask], a fresh read of the volatile field each time. *)
Definition rx_status (rx mask : Z) : M Z := status ← vload16 (rx + 6); mret (Z.land status mask).

Definition pcnet32_get_packet : M (option (Z * Z * ethernet_frame_header)) :=
  rx ← gets (λ s, rx_desc (m_pcnet32 s));
  own ← rx_status rx 32768;
  if negb (own =? 0) then mret None else
  err ← rx_status rx 31872;
  if negb (err =? 0) then pcnet32_discard rx ;; mret None else
  stp ← rx_status rx 512;
  complete ← (if negb (stp =? 0) then enp ← rx_status rx 256; mret (negb (enp =? 0)) else mret false : M bool);
  if complete : bool then
    msg_length ← load32 (rx + 8);
    if 14 <=? msg_length then
      st ← gets m_pcnet32;
      p ← load32 (pcnet32_rx_packets st + 4 * pcnet32_rx_offset st);
      len ← load32 (rx + 8);
      hdr ← gets (λ s, load_eth (m_mem s) p);
      mret (Some (p + 14, s32 (len - 14), hdr))
    else mret None
  else
    stp ← rx_status rx 512;
    if stp =? 0 then pcnet32_discard rx ;; mret None
    else pcnet32_discard rx ;; mret None.

Definition pcnet32_put_packet (p : Z) : M unit :=
  rx ← gets (λ s, rx_desc (m_pcnet32 s));
  pcnet32_discard rx.

Definition pcnet32_driver : network_driver :=
  mkDriver (str "PCnet-FAST") pcnet32_probe pcnet32_init pcnet32_uninit pcnet32_get_packet
    pcnet32_prepare_send_packet pcnet32_send_packet pcnet32_put_packet.

End Driver.

(** ** The rings as [pcnet32_init] lays them out *)

(** Two allocations: [A] for the rings and the pointer arrays, [B] for the
    buffers; [j] is the receive descriptor whose packet is being held. *)
Section Rings.
Context (A B j : Z).

Definition rx_ring : Z := A.
Definition tx_ring : Z := A + 256.
Definition rx_table : Z := A + 512.
Definition tx_table : Z := A + 576.
Definition rx_buf (i : Z) : Z := B + 1600 * i.
Definition tx_buf (i : Z) : Z := B + 25600 + 1600 * i.

Record layout_ok : Prop := {
  lo_A : 16 <= A;
  lo_B : A + 640 <= B;
  lo_end : B + 51200 <= 4294967296;
  lo_screen : 786432 <= A \/ B + 51200 <= 753664;
  lo_j : 0 <= j < 16
}.

(** All the driver's memory but the buffer of descriptor [j]. *)
Definition ring_area (a : Z) : Prop :=
  A <= a < A + 640 \/ (B <= a < B + 51200 /\ ~ (rx_buf j <= a < rx_buf j + 1600)).

Definition owns (m : gmap Z Z) (desc : Z) : Prop := Z.land (rd16 m (desc + 6)) 32768 <> 0.

Record ring_vars (st : pcnet32_state) : Prop := {
  rv_rx : pcnet32_rx st = rx_ring;
  rv_tx : pcnet32_tx st = tx_ring;
  rv_rxp : pcnet32_rx_packets st = rx_table;
  rv_txp : pcnet32_tx_packets st = tx_table;
  rv_size : pcnet32_ring_size st = 16;
  rv_txo : 0 <= pcnet32_tx_offset st < 16;
  rv_rxo : pcnet32_rx_offset st = j
}.

(** The pointers the card and the driver agree on. *)
Record ring_mem (m : gmap Z Z) : Prop := {
  rm_txp : forall i, 0 <= i < 16 -> rd32 m (tx_table + 4 * i) = tx_buf i;
  rm_tx : forall i, 0 <= i < 16 -> rd32 m (tx_ring + 16 * i) = tx_buf i;
  rm_rxp : forall i, 0 <= i < 16 -> rd32 m (rx_table + 4 * i) = rx_buf i;
  rm_rx : forall i, 0 <= i < 16 -> rd32 m (rx_ring + 16 * i) = rx_buf i
}.

Record rings_ok (s : machine) : Prop := {
  ro_layout : layout_ok;
  ro_vars : ring_vars (m_pcnet32 s);
  ro_mem : ring_mem (m_mem s);
  ro_held : ~ owns (m_mem s) (rx_ring + 16 * j)
}.

(** The same without a packet in hand. *)
Record rings_idle (s : machine) : Prop := {
  ri_layout : layout_ok;
  ri_vars : ring_vars (m_pcnet32 s);
  ri_mem : ring_mem (m_mem s)
}.

(** *** What the card does to memory *)

(** The card writes the status of a descriptor it owns, and fills the buffer
    of a receive descriptor it owns. *)
Definition card_writes (m : gmap Z Z) (a : Z) : Prop := exists i, 0 <= i < 16 /\
  ((owns m (tx_ring + 16 * i) /\ tx_ring + 16 * i + 6 <= a < tx_ring + 16 * i + 12) \/
   (owns m (rx_ring + 16 * i) /\
     (rx_ring + 16 * i + 4 <= a < rx_ring + 16 * i + 16 \/ rx_buf i <= a < rx_buf i + 1600))).

(** Memory after [n] polls. *)
Fixpoint after_polls `{Env} (n : nat) (a : Z) (tr : list event) (m : gmap Z Z) : gmap Z Z :=
  match n with
  | O => m
  | S n' => after_polls n' a (EvPoll a :: tr) (env_dma tr m)
  end.

(** The card as its data sheet describes it: it touches only what it owns, and
    a frame handed to it is sent within the polls the driver waits. *)
Class CardOk `{Env} : Prop := {
  card_frame tr m : mem_frame (card_writes m) m (env_dma tr m);
  card_sends tr m i : 0 <= i < 16 -> exists n, (n < env_fuel)%nat /\
    ~ owns (after_polls (S n) (tx_ring + 16 * i + 6) tr m) (tx_ring + 16 * i)
}.

(** *** Stability *)

(** The cells that hold the agreed pointers. *)
Definition pointer_cell (x : Z) : Prop :=
  A + 512 <= x < A + 640 \/
  exists i, 0 <= i < 16 /\ (tx_ring + 16 * i <= x < tx_ring + 16 * i + 4 \/ rx_ring + 16 * i <= x < rx_ring + 16 * i + 4).

Lemma ring_mem_frame (P : Z -> Prop) m m' :
  layout_ok -> ring_mem m -> mem_frame P m m' -> (forall x, pointer_cell x -> ~ P x) -> ring_mem m'.
Proof.
  intros [] [H1 H2 H3 H4] HF HP. unfold pointer_cell, tx_table, rx_table, tx_ring, rx_ring in *.
  split; intros i Hi; unfold tx_table, rx_table, tx_ring, rx_ring.
  - rewrite (mem_frame_rd32 P m m') by (done || lia || (intros; apply HP; left; lia)). by apply H1.
  - rewrite (mem_frame_rd32 P m m') by (done || lia || (intros; apply HP; right; exists i; lia)). by apply H2.
  - rewrite (mem_frame_rd32 P m m') by (done || lia || (intros; apply HP; left; lia)). by apply H3.
  - rewrite (mem_frame_rd32 P m m') by (done || lia || (intros; apply HP; right; exists i; lia)). by apply H4.
Qed.

Lemma owns_frame (P : Z -> Prop) m m' d :
  mem_frame P m m' -> 0 <= d -> d + 8 <= 4294967296 -> (forall x, d + 6 <= x < d + 8 -> ~ P x) ->
  owns m' d <-> owns m d.
Proof.
  intros HF Hd Hend HP. unfold owns.
  rewrite (mem_frame_rd16 P m m') by (done || lia || (intros; apply HP; lia)). done.
Qed.

Lemma card_pointers m x : layout_ok -> card_writes m x -> ~ pointer_cell x.
Proof.
  intros [] (i & Hi & Hx). unfold pointer_cell, tx_ring, rx_ring, rx_buf in *. intros [|(i' & Hi' & Hx')]; lia.
Qed.

(** Nothing the card writes disturbs the rings or the held packet. *)
Lemma card_keeps m m' :
  layout_ok -> ring_mem m -> ~ owns m (rx_ring + 16 * j) -> mem_frame (card_writes m) m m' ->
  ring_mem m' /\ ~ owns m' (rx_ring + 16 * j) /\ mem_frame ring_area m m'.
Proof.
  intros Hl Hm Hj HF. pose proof Hl as [].
  assert (forall x, card_writes m x -> ring_area x /\ ~ pointer_cell x /\
            ~ (rx_ring + 16 * j + 6 <= x < rx_ring + 16 * j + 8)) as Hcw.
  { intros x (i & Hi & Hx). unfold ring_area, pointer_cell, tx_ring, rx_ring, rx_buf in *.
    destruct (decide (i = j)) as [->|Hne].
    - destruct Hx as [[_ Hx]|[Ho _]]; [|done].
      split_and!; [left; lia|intros [|(i' & Hi' & Hx')]; lia|lia].
    - destruct Hx as [[_ Hx]|[_ Hx]]; (split_and!; [lia|intros [|(i' & Hi' & Hx')]; lia|lia]). }
  split_and!.
  - eapply ring_mem_frame; [done|done|exact HF|]. intros x Hx Hc. by destruct (Hcw x Hc) as (_ & Hn & _).
  - unfold rx_ring in *. rewrite (owns_frame (card_writes m) m m'); [done|exact HF|lia|lia|]. intros x Hx Hc. destruct (Hcw x Hc) as (_ & _ & Hn). lia.
  - eapply mem_frame_weaken; [|exact HF]. intros x Hx. apply Hcw, Hx.
Qed.

End Rings.

(** ** The driver's promises *)

Section Laws.
Context `{Env} `{Linker} (A B j : Z) `{Card : !CardOk A B}.

(** A step of the driver inside its area. *)
Definition ring_step (s s' : machine) : Prop :=
  rings_ok A B j s' /\ mem_frame (ring_area A B j) (m_mem s) (m_mem s') /\
  exists tr, s' = set_m_trace (tr ++ m_trace s) (set_m_mem (m_mem s') s) /\ executed tr = [].

Lemma ring_step_refl s : rings_ok A B j s -> ring_step s s.
Proof. intros Hs. split_and!; [done|done|]. exists []. split; [by destruct s|done]. Qed.

Lemma ring_step_trans s1 s2 s3 : ring_step s1 s2 -> ring_step s2 s3 -> ring_step s1 s3.
Proof.
  intros (_ & F1 & t1 & E1 & X1) (H3 & F2 & t2 & E2 & X2). split_and!; [done|by etransitivity|].
  exists (t2 ++ t1). split.
  - rewrite E2. rewrite E1. cbn. by rewrite app_assoc.
  - unfold executed in *. by rewrite omap_app, X1, X2.
Qed.

Lemma poll_step a s : rings_ok A B j s -> wp (poll a) (λ _ s', ring_step s s' /\
  m_mem s' = env_dma (m_trace s) (m_mem s) /\ m_trace s' = EvPoll a :: m_trace s) s.
Proof.
  intros [Hl Hv Hm Hj]. unfold wp, poll. run. cbn [m_mem m_trace].
  destruct (card_keeps A B j _ _ Hl Hm Hj (card_frame A B (m_trace s) (m_mem s))) as (Hm' & Hj' & HF).
  split_and!; [|done|done]. split_and!; [by split|done|]. by exists [EvPoll a].
Qed.

Lemma vload16_step a s : rings_ok A B j s -> wp (vload16 a) (λ v s', ring_step s s' /\
  m_mem s' = env_dma (m_trace s) (m_mem s) /\ m_trace s' = EvPoll a :: m_trace s /\ v = rd16 (m_mem s') a) s.
Proof.
  intros Hs. unfold vload16. wp_step. eapply wp_mono; [by apply poll_step|]. intros [] s1 (H1 & Em & Et).
  unfold load16. by wp_step.
Qed.

Lemma owned_step d s : rings_ok A B j s -> wp (owned_by_card d) (λ b s', ring_step s s' /\
  m_mem s' = env_dma (m_trace s) (m_mem s) /\ m_trace s' = EvPoll (d + 6) :: m_trace s /\
  b = negb (Z.land (rd16 (m_mem s') (d + 6)) 32768 =? 0)) s.
Proof.
  intros Hs. unfold owned_by_card. wp_step. eapply wp_mono; [by apply vload16_step|].
  intros v s1 (H1 & Em & Et & ->). by wp_step.
Qed.

(** Waiting for a transmit descriptor ends, with the descriptor ours. *)
Lemma wait_owned n i : 0 <= i < 16 -> forall fuel s,
  rings_ok A B j s -> (n < fuel)%nat ->
  ~ owns (after_polls (S n) (tx_ring A + 16 * i + 6) (m_trace s) (m_mem s)) (tx_ring A + 16 * i) ->
  wp (while fuel (owned_by_card (tx_ring A + 16 * i)) skip) (λ _ s', ring_step s s') s.
Proof.
  intros Hi. induction n as [|n IH]; intros [|fuel] s Hs Hf Hown; try lia; cbn [while]; wp_step;
    (eapply wp_mono; [by apply owned_step|]); intros v s1 (H1 & Em & Et & ->);
    cbn [after_polls] in Hown; rewrite <- Em in Hown.
  - unfold owns in Hown. destruct (Z.land _ _ =? 0) eqn:E; bool_to_prop; [|done]. cbn [negb]. by wp_step.
  - destruct (Z.land _ _ =? 0) eqn:E; cbn [negb]; [by wp_step|].
    wp_step. wp_step. rewrite <- Et in Hown. eapply wp_mono; [apply (IH fuel s1); [apply H1|lia|exact Hown]|].
    intros [] s2 H2. by eapply ring_step_trans.
Qed.

Definition pcnet32_prepared (s : machine) (p sz : Z) : Prop :=
  let k := pcnet32_tx_offset (m_pcnet32 s) in
  rings_ok A B j s /\ p = tx_buf B k + 14 /\ 0 <= sz <= 1586 /\
  rd16 (m_mem s) (tx_ring A + 16 * k + 4) = u16 (- (sz + 14)) /\
  rd16 (m_mem s) (tx_ring A + 16 * k + 6) = 0.

(** The descriptor before [tx_offset] describes [f] to the card. *)
Definition pcnet32_handed (s : machine) (f : list Z) : Prop := exists k,
  0 <= k < 16 /\ pcnet32_tx_offset (m_pcnet32 s) = (k + 1) mod 16 /\ Z.of_nat (length f) <= 1600 /\ layout_ok A B j /\
  rd32 (m_mem s) (tx_ring A + 16 * k) = tx_buf B k /\
  rd16 (m_mem s) (tx_ring A + 16 * k + 4) = u16 (- Z.of_nat (length f)) /\
  rd16 (m_mem s) (tx_ring A + 16 * k + 6) = 33536 /\
  rd_bytes (m_mem s) (tx_buf B k) (length f) = f.

(** Stores that leave the agreed pointers and the held descriptor alone. *)
Definition free_cell (x : Z) : Prop :=
  ~ pointer_cell A x /\ ~ (rx_ring A + 16 * j + 6 <= x < rx_ring A + 16 * j + 8).

Lemma rings_ok_store s m' (P : Z -> Prop) :
  rings_ok A B j s -> mem_frame P (m_mem s) m' -> (forall x, P x -> free_cell x) -> rings_ok A B j (set_m_mem m' s).
Proof.
  intros [Hl Hv Hm Hj] HF HP. split; [done|done| |]; cbn [m_mem set_m_mem].
  - eapply ring_mem_frame; [done|done|exact HF|]. intros x Hx Hc. by destruct (HP x Hc).
  - pose proof Hl as []. unfold rx_ring in *. rewrite (owns_frame P (m_mem s) m'); [done|exact HF|lia|lia|].
    intros x Hx Hc. destruct (HP x Hc) as [_ Hn]. unfold rx_ring in Hn. lia.
Qed.

(** The memory [pcnet32_prepare_send_packet] leaves for descriptor [k]. *)
Definition prepare_mem (m : gmap Z Z) (k sz : Z) (hdr : ethernet_frame_header) : gmap Z Z :=
  wr_bytes (wr16 (wr16 m (tx_ring A + 16 * k + 6) 0) (tx_ring A + 16 * k + 4) (u16 (- (sz + 14))))
    (tx_buf B k) (eth_bytes hdr).

(** Where it writes. *)
Definition prepare_cells (k x : Z) : Prop :=
  tx_ring A + 16 * k + 4 <= x < tx_ring A + 16 * k + 8 \/ tx_buf B k <= x < tx_buf B k + 14.

Lemma prepare_cells_free k x :
  layout_ok A B j -> 0 <= k < 16 -> prepare_cells k x -> free_cell x /\ ring_area A B j x.
Proof.
  intros [] Hk Hx. unfold prepare_cells, free_cell, ring_area, pointer_cell, tx_ring, rx_ring, tx_buf, rx_buf in *.
  split_and!; [intros [|(i & Hi & Hx')]; lia|lia|lia].
Qed.

Lemma prepare_mem_spec m k sz hdr :
  layout_ok A B j -> 0 <= k < 16 -> length (dst_mac hdr) = 6%nat -> length (src_mac hdr) = 6%nat ->
  let m' := prepare_mem m k sz hdr in
  mem_frame (prepare_cells k) m m' /\
  rd16 m' (tx_ring A + 16 * k + 4) = u16 (- (sz + 14)) /\ rd16 m' (tx_ring A + 16 * k + 6) = 0 /\
  rd_bytes m' (tx_buf B k) 14 = u8 <$> eth_bytes hdr.
Proof.
  intros [] Hk Hd Hs m'. pose proof (length_eth_bytes hdr Hd Hs) as Hlen.
  subst m'. unfold prepare_mem. unfold tx_ring, tx_buf in *.
  set (m1 := wr16 m (A + 256 + 16 * k + 6) 0).
  set (m2 := wr16 m1 (A + 256 + 16 * k + 4) (u16 (- (sz + 14)))).
  pose proof (mem_frame_store16 m (A + 256 + 16 * k + 6) 0 ltac:(lia) ltac:(lia)) as F1. fold m1 in F1.
  pose proof (mem_frame_store16 m1 (A + 256 + 16 * k + 4) (u16 (- (sz + 14))) ltac:(lia) ltac:(lia)) as F2. fold m2 in F2.
  pose proof (mem_frame_store m2 (B + 25600 + 1600 * k) (eth_bytes hdr) ltac:(lia) ltac:(lia)) as F3. rewrite Hlen in F3.
  split_and!.
  - unfold prepare_cells, tx_ring, tx_buf. etransitivity; [|eapply mem_frame_weaken; [|exact F3]; cbn; lia].
    etransitivity; [eapply mem_frame_weaken; [|exact F1]; cbn; lia|eapply mem_frame_weaken; [|exact F2]; cbn; lia].
  - rewrite (mem_frame_rd16 _ _ _ _ F3) by (lia || (intros; lia)). subst m2. rewrite rd16_wr16.
    unfold u16. by rewrite Z.mod_mod by lia.
  - rewrite (mem_frame_rd16 _ _ _ _ F3), (mem_frame_rd16 _ _ _ _ F2) by (lia || (intros; lia)). subst m1. by rewrite rd16_wr16.
  - rewrite <- Hlen. apply rd_bytes_wr_bytes_same. lia.
Qed.

Lemma ring_step_drv s s' : vga_ok (m_vga s) -> ring_step s s' -> drv_step (ring_area A B j) s s'.
Proof.
  intros Hv (_ & HF & tr & E & X). rewrite E. split; cbn; try done.
  - rewrite E in HF. cbn in HF. eapply mem_frame_weaken; [|exact HF]. auto.
  - unfold executed in *. by rewrite omap_app, X.
Qed.

Lemma ring_step_vars s s' : ring_step s s' -> m_pcnet32 s' = m_pcnet32 s /\ m_vga s' = m_vga s.
Proof. intros (_ & _ & tr & -> & _). done. Qed.

Lemma pcnet32_prepare_law s sz hdr :
  rings_ok A B j s -> vga_ok (m_vga s) -> 0 <= sz <= 1586 ->
  length (dst_mac hdr) = 6%nat -> length (src_mac hdr) = 6%nat ->
  wp (pcnet32_prepare_send_packet sz hdr)
    (λ r s', exists p, r = Some p /\ pcnet32_prepared s' p sz /\
       rd_bytes (m_mem s') (p - 14) 14 = u8 <$> eth_bytes hdr /\
       drv_step (ring_area A B j) s s') s.
Proof.
  intros Hs Hv Hsz Hd Hsrc. pose proof Hs as [Hl Hvars Hm Hj]. destruct Hvars as [Erx Etx Erxp Etxp Esize Ho Erxo].
  unfold pcnet32_prepare_send_packet. rewrite (proj2 (Z.ltb_ge _ sz)) by lia. wp_step. wp_step. wp_step.
  set (k := pcnet32_tx_offset (m_pcnet32 s)) in *.
  assert (tx_desc (m_pcnet32 s) = tx_ring A + 16 * k) as -> by (unfold tx_desc; by rewrite Etx).
  destruct (card_sends A B (m_trace s) (m_mem s) k Ho) as (n & Hn & Hown).
  eapply wp_mono; [by apply (wait_owned n k)|]. intros [] s1 H1.
  pose proof (ring_step_vars _ _ H1) as [Ev1 Eg1]. pose proof H1 as (Hs1 & F1 & _).
  pose proof (prepare_mem_spec (m_mem s1) k sz hdr Hl Ho Hd Hsrc) as (F2 & E4 & E6 & Eh). cbv zeta in *.
  assert (rd32 (wr16 (wr16 (m_mem s1) (tx_ring A + 16 * k + 6) 0) (tx_ring A + 16 * k + 4) (u16 (- (sz + 14))))
            (tx_table A + 4 * k) = tx_buf B k) as Eptr.
  { pose proof Hl as []. pose proof (ro_mem _ _ _ _ Hs1) as Hm1. rewrite <- (rm_txp _ _ _ Hm1 k Ho).
    unfold tx_ring, tx_table in *.
    rewrite !rd32_wr16_far by (unfold apart; lia). done. }
  unfold wp. run. cbn [m_mem m_pcnet32 set_m_mem]. rewrite Ev1, Etxp. fold k. rewrite Eptr.
  fold (prepare_mem (m_mem s1) k sz hdr). exists (tx_buf B k + 14).
  assert (ring_step s1 (set_m_mem (prepare_mem (m_mem s1) k sz hdr) s1)) as H2.
  { split_and!.
    - eapply rings_ok_store; [done|exact F2|]. intros x Hx. by apply (prepare_cells_free k).
    - cbn. eapply mem_frame_weaken; [|exact F2]. intros x Hx. by apply (prepare_cells_free k).
    - exists []. split; [by destruct s1|done]. }
  split_and!; [done| | |].
  - unfold pcnet32_prepared. cbn [m_mem m_pcnet32 set_m_mem]. rewrite Ev1. fold k. split_and!; (done || lia || apply H2).
  - cbn [m_mem set_m_mem]. by replace (tx_buf B k + 14 - 14) with (tx_buf B k) by lia.
  - apply ring_step_drv; [done|]. by eapply ring_step_trans.
Qed.

Lemma pcnet32_window_law s p sz :
  pcnet32_prepared s p sz ->
  14 <= p /\ 0 <= sz /\ p + sz <= 4294967296 /\ forall a, p - 14 <= a < p + sz -> ring_area A B j a.
Proof.
  intros ([[] [] _ _] & -> & Hsz & _). unfold ring_area, tx_buf, rx_buf in *. split_and!; intros; lia.
Qed.

(** Filling the buffer, or anything outside the driver's memory, keeps the
    rings in order. *)
Lemma outside_free p sz s x :
  pcnet32_prepared s p sz -> p - 14 <= x < p + sz \/ ~ ring_area A B j x -> free_cell x.
Proof.
  intros ([[] [] _ _] & -> & Hsz & _) Hx. unfold free_cell, ring_area, pointer_cell, tx_ring, rx_ring, tx_buf, rx_buf in *.
  split; [intros [|(i & Hi & Hx')]; lia|lia].
Qed.

Lemma rings_ok_stable s s' (P : Z -> Prop) :
  rings_ok A B j s -> m_pcnet32 s' = m_pcnet32 s -> mem_frame P (m_mem s) (m_mem s') ->
  (forall x, P x -> free_cell x) -> rings_ok A B j s'.
Proof.
  intros Hs Ev HF HP. destruct (rings_ok_store s (m_mem s') P Hs HF HP) as [Hl Hv Hm Hj].
  split; [done|by rewrite Ev|done|done].
Qed.

Lemma pcnet32_prepared_stable s s' p sz :
  pcnet32_prepared s p sz -> same_drivers s s' ->
  mem_frame (λ a, p - 14 <= a < p + sz \/ ~ ring_area A B j a) (m_mem s) (m_mem s') ->
  pcnet32_prepared s' p sz.
Proof.
  intros Hp [Ev _ _] HF. pose proof Hp as (Hs & Ep & Hsz & E4 & E6).
  unfold pcnet32_prepared. rewrite Ev. split_and!; [|done|lia|lia| |].
  - eapply rings_ok_stable; [done|done|exact HF|]. intros x Hx. by eapply outside_free.
  - destruct Hs as [[] [] _ _]. rewrite <- E4. subst p. unfold ring_area, tx_ring, tx_buf in *.
    apply (mem_frame_rd16 _ _ _ _ HF); (lia || (intros; lia)).
  - destruct Hs as [[] [] _ _]. rewrite <- E6. subst p. unfold ring_area, tx_ring, tx_buf in *.
    apply (mem_frame_rd16 _ _ _ _ HF); (lia || (intros; lia)).
Qed.

Lemma pcnet32_inv_stable s s' :
  rings_ok A B j s -> same_drivers s s' -> mem_frame (λ a, ~ ring_area A B j a) (m_mem s) (m_mem s') ->
  rings_ok A B j s'.
Proof.
  intros Hs [Ev _ _] HF. eapply rings_ok_stable; [done|done|exact HF|].
  destruct Hs as [[] _ _ _]. intros x Hx. unfold free_cell, ring_area, pointer_cell, tx_ring, rx_ring in *.
  split; [intros [|(i & Hi & Hx')]; lia|lia].
Qed.

Lemma pcnet32_handed_stable s s' f :
  pcnet32_handed s f -> same_drivers s s' -> adds_io s s' -> mem_frame (λ a, ~ ring_area A B j a) (m_mem s) (m_mem s') ->
  pcnet32_handed s' f.
Proof.
  intros (k & Hk & Ho & Hf & Hl & E0 & E4 & E6 & Eb) [Ev _ _] _ HF. exists k. rewrite Ev. pose proof Hl as [].
  split_and!; [lia|lia|done|done|done| | | |].
  - rewrite <- E0. unfold ring_area, tx_ring in *. apply (mem_frame_rd32 _ _ _ _ HF); (lia || (intros; lia)).
  - rewrite <- E4. unfold ring_area, tx_ring in *. apply (mem_frame_rd16 _ _ _ _ HF); (lia || (intros; lia)).
  - rewrite <- E6. unfold ring_area, tx_ring in *. apply (mem_frame_rd16 _ _ _ _ HF); (lia || (intros; lia)).
  - rewrite <- Eb at 2. unfold ring_area, tx_buf, rx_buf in *. apply (mem_frame_block _ _ _ _ _ HF); (lia || (intros; lia)).
Qed.

Lemma pcnet32_send_law s p sz :
  pcnet32_prepared s p sz -> vga_ok (m_vga s) ->
  wp pcnet32_send_packet
    (λ _ s', rings_ok A B j s' /\ drv_step (ring_area A B j) s s' /\
       pcnet32_handed s' (rd_bytes (m_mem s) (p - 14) (Z.to_nat (sz + 14)))) s.
Proof.
  intros (Hs & -> & Hsz & E4 & E6) Hv. pose proof Hs as [Hl Hvars Hm Hj]. pose proof Hl as [].
  pose proof Hvars as [Erx Etx Erxp Etxp Esize Ho Erxo]. set (k := pcnet32_tx_offset (m_pcnet32 s)) in *.
  unfold wp, pcnet32_send_packet. run. unfold tx_desc. rewrite Etx. fold k. cbn [m_mem m_pcnet32 set_m_mem set_m_pcnet32].
  rewrite Esize. change (Z.lor (Z.lor 32768 (Z.shiftl 1 8)) (Z.shiftl 1 9)) with 33536. fold k.
  set (m1 := wr16 (m_mem s) (tx_ring A + 16 * k + 6) 33536).
  pose proof (mem_frame_store16 (m_mem s) (tx_ring A + 16 * k + 6) 33536
    ltac:(unfold tx_ring; lia) ltac:(unfold tx_ring; lia)) as F. fold m1 in F.
  assert (forall x, tx_ring A + 16 * k + 6 <= x < tx_ring A + 16 * k + 6 + 2 -> free_cell x /\ ring_area A B j x) as Hcell.
  { intros x Hx. apply (prepare_cells_free k); [done|lia|]. left. lia. }
  split_and!.
  - destruct (rings_ok_store s m1 _ Hs F) as [Hl' Hv' Hm' Hj']; [intros x Hx; by apply Hcell|].
    split; [done| |done|done]. split; cbn; try done. destruct (16 <=? k + 1) eqn:E; bool_to_prop; lia.
  - split; cbn; try done. eapply mem_frame_weaken; [|exact F]. intros x Hx. left. by apply Hcell.
  - exists k. cbn [m_mem m_pcnet32 set_m_mem set_m_pcnet32 pcnet32_tx_offset set_pcnet32_tx_offset].
    rewrite length_rd_bytes, Z2Nat.id by lia. split_and!; [lia|lia| |lia|done| | | |].
    + destruct (16 <=? k + 1) eqn:E; bool_to_prop; [assert (k = 15) as -> by lia; done|]. rewrite Z.mod_small by lia. done.
    + rewrite (mem_frame_rd32 _ _ _ _ F) by (unfold tx_ring; lia || (intros; lia)). by apply (rm_tx _ _ _ Hm).
    + rewrite (mem_frame_rd16 _ _ _ _ F) by (unfold tx_ring; lia || (intros; lia)). done.
    + subst m1. by rewrite rd16_wr16.
    + replace (tx_buf B k + 14 - 14) with (tx_buf B k) by lia. unfold tx_buf, tx_ring in *.
      apply (mem_frame_block _ _ _ _ _ F); (lia || (intros; lia)).
Qed.

(** The driver meets the interface, for every layout that misses the screen. *)
Lemma ring_area_screen a : layout_ok A B j -> ring_area A B j a -> ~ vga_window a.
Proof. intros []. unfold ring_area, vga_window. lia. Qed.

Definition pcnet32_laws (Hl : layout_ok A B j) : DriverLaws pcnet32_driver :=
  Build_DriverLaws pcnet32_driver (ring_area A B j) (rings_ok A B j) pcnet32_prepared pcnet32_handed 1586
    ltac:(lia) (λ a, ring_area_screen a Hl) pcnet32_prepare_law pcnet32_window_law pcnet32_prepared_stable
    pcnet32_send_law pcnet32_inv_stable pcnet32_handed_stable.

(** *** Receiving *)

(** The descriptor at [rx_offset], and the memory the card may write while that
    descriptor is the driver's. *)
Definition held_desc : Z := rx_ring A + 16 * j.
Definition card_area (x : Z) : Prop := ring_area A B j x /\ ~ (held_desc <= x < held_desc + 16).

Definition held_step (s s' : machine) : Prop :=
  rings_ok A B j s' /\ mem_frame card_area (m_mem s) (m_mem s') /\
  exists tr, s' = set_m_trace (tr ++ m_trace s) (set_m_mem (m_mem s') s) /\ executed tr = [].

Lemma held_step_refl s : rings_ok A B j s -> held_step s s.
Proof. intros Hs. split_and!; [done|done|]. exists []. split; [by destruct s|done]. Qed.

Lemma held_step_trans s1 s2 s3 : held_step s1 s2 -> held_step s2 s3 -> held_step s1 s3.
Proof.
  intros (_ & F1 & t1 & E1 & X1) (H3 & F2 & t2 & E2 & X2). split_and!; [done|by etransitivity|].
  exists (t2 ++ t1). split.
  - rewrite E2. rewrite E1. cbn. by rewrite app_assoc.
  - unfold executed in *. by rewrite omap_app, X1, X2.
Qed.

Lemma card_held m m' :
  layout_ok A B j -> ring_mem A B m -> ~ owns m held_desc -> mem_frame (card_writes A B m) m m' ->
  mem_frame card_area m m'.
Proof.
  intros Hl Hm Hj HF. destruct (card_keeps A B j m m' Hl Hm Hj HF) as (_ & _ & _).
  eapply mem_frame_weaken; [|exact HF]. intros x (i & Hi & Hx). destruct Hl.
  unfold card_area, held_desc, ring_area, tx_ring, rx_ring, rx_buf in *.
  destruct (decide (i = j)) as [->|Hne]; [destruct Hx as [[_ Hx]|[Ho _]]; [lia|done]|lia].
Qed.

Lemma held_cells s s' :
  layout_ok A B j -> held_step s s' ->
  rd16 (m_mem s') (held_desc + 6) = rd16 (m_mem s) (held_desc + 6) /\
  rd32 (m_mem s') (held_desc + 8) = rd32 (m_mem s) (held_desc + 8) /\
  rd_bytes (m_mem s') (rx_buf B j) 1600 = rd_bytes (m_mem s) (rx_buf B j) 1600.
Proof.
  intros [] (_ & HF & _). unfold card_area, ring_area, held_desc, rx_ring, rx_buf in *. split_and!.
  - apply (mem_frame_rd16 _ _ _ _ HF); (lia || (intros; lia)).
  - apply (mem_frame_rd32 _ _ _ _ HF); (lia || (intros; lia)).
  - apply (mem_frame_block _ _ _ _ _ HF); (lia || (intros; lia)).
Qed.

Lemma rx_status_held mask s :
  rings_ok A B j s ->
  wp (rx_status held_desc mask)
    (λ v s', v = Z.land (rd16 (m_mem s) (held_desc + 6)) mask /\ held_step s s') s.
Proof.
  intros Hs. pose proof Hs as [Hl Hv Hm Hj]. unfold rx_status. wp_step.
  eapply wp_mono; [by apply vload16_step|]. intros v s1 ((Hs1 & _ & tr & E1 & X1) & Em & _ & ->).
  assert (held_step s s1) as Hh.
  { split_and!; [done| |by exists tr]. rewrite Em. by eapply card_held, card_frame. }
  wp_step. split; [|done]. by rewrite (proj1 (held_cells _ _ Hl Hh)).
Qed.

Lemma rings_ok_idle s : rings_ok A B j s -> rings_idle A B j s.
Proof. by intros []. Qed.

(** The descriptor after [j]. *)
Definition next_desc : Z := if 16 <=? j + 1 then 0 else j + 1.

(** The descriptor goes back to the card, empty, and the next one is current. *)
Record released (s s' : machine) : Prop := {
  rel_idle : rings_idle A B next_desc s';
  rel_owned : owns (m_mem s') held_desc;
  rel_room : rd16 (m_mem s') (held_desc + 4) = u16 (-1600);
  rel_empty : rd32 (m_mem s') (held_desc + 8) = 0;
  rel_mem : mem_frame (λ x, held_desc + 4 <= x < held_desc + 16) (m_mem s) (m_mem s');
  rel_rest : s' = set_m_pcnet32 (set_pcnet32_rx_offset next_desc (m_pcnet32 s)) (set_m_mem (m_mem s') s)
}.

Lemma pcnet32_discard_spec s :
  rings_idle A B j s -> wp (pcnet32_discard held_desc) (λ _ s', released s s') s.
Proof.
  intros [Hl Hv Hm]. pose proof Hl as []. pose proof Hv as [Erx Etx Erxp Etxp Esize Ho Erxo].
  unfold wp, pcnet32_discard, pcnet32_rx_reinit, pcnet32_adv_packet. run.
  cbn [m_mem m_pcnet32 set_m_mem set_m_pcnet32]. rewrite Esize, Erxo. fold next_desc.
  set (m1 := wr16 (m_mem s) (held_desc + 4) (u16 (-1600))). set (m2 := wr32 m1 (held_desc + 8) 0).
  set (m3 := wr32 m2 (held_desc + 12) 0). set (m4 := wr16 m3 (held_desc + 6) 32768).
  assert (0 <= held_desc /\ held_desc + 16 <= 4294967296) as [Hd1 Hd2] by (unfold held_desc, rx_ring; lia).
  pose proof (mem_frame_store16 (m_mem s) (held_desc + 4) (u16 (-1600)) ltac:(lia) ltac:(lia)) as F1. fold m1 in F1.
  pose proof (mem_frame_store32 m1 (held_desc + 8) 0 ltac:(lia) ltac:(lia)) as F2. fold m2 in F2.
  pose proof (mem_frame_store32 m2 (held_desc + 12) 0 ltac:(lia) ltac:(lia)) as F3. fold m3 in F3.
  pose proof (mem_frame_store16 m3 (held_desc + 6) 32768 ltac:(lia) ltac:(lia)) as F4. fold m4 in F4.
  assert (mem_frame (λ x, held_desc + 4 <= x < held_desc + 16) (m_mem s) m4) as HF.
  { etransitivity; [eapply mem_frame_weaken; [|exact F1]; cbn; lia|].
    etransitivity; [eapply mem_frame_weaken; [|exact F2]; cbn; lia|].
    etransitivity; [eapply mem_frame_weaken; [|exact F3]; cbn; lia|eapply mem_frame_weaken; [|exact F4]; cbn; lia]. }
  split; cbn [m_mem m_pcnet32 set_m_mem set_m_pcnet32].
  - split; cbn [m_mem m_pcnet32 set_m_mem set_m_pcnet32].
    + split; try done. unfold next_desc. destruct (16 <=? j + 1) eqn:E; bool_to_prop; lia.
    + split; cbn; try done.
    + eapply (ring_mem_frame A B j); [done|done|exact HF|]. intros x Hx Hc.
      unfold pointer_cell, held_desc, tx_ring, rx_ring in *. destruct Hx as [|(i & Hi & Hx)]; lia.
  - unfold owns. subst m4. by rewrite rd16_wr16.
  - subst m4 m3 m2. rewrite rd16_wr16_far, !rd16_wr32_far by (unfold apart; lia). subst m1. by rewrite rd16_wr16.
  - subst m4 m3. rewrite rd32_wr16_far, rd32_wr32_far by (unfold apart; lia). subst m2. by rewrite rd32_wr32.
  - done.
  - by destruct s.
Qed.

(** What a descriptor with [status] and [len] gives. *)
Definition classify (status len : Z) : rx_verdict :=
  if negb (Z.land status 32768 =? 0) then NotOurs
  else if negb (Z.land status 31872 =? 0) then Discard
  else if negb (Z.land status 512 =? 0) && negb (Z.land status 256 =? 0) then
    if 14 <=? len then Frame else Runt
  else Discard.

(** The state after the first look at the descriptor: the card may have been
    at work. *)
Definition looked (s : machine) : machine :=
  set_m_trace (EvPoll (held_desc + 6) :: m_trace s) (set_m_mem (env_dma (m_trace s) (m_mem s)) s).

Definition rx_outcome (s : machine) (r : option (Z * Z * ethernet_frame_header)) (s' : machine) : Prop :=
  let s1 := looked s in
  let len := rd32 (m_mem s1) (held_desc + 8) in
  match classify (rd16 (m_mem s1) (held_desc + 6)) len with
  | NotOurs => r = None /\ s' = s1
  | Discard => r = None /\ exists s2, held_step s1 s2 /\ released s2 s'
  | Runt => r = None /\ held_step s1 s'
  | Frame => r = Some (rx_buf B j + 14, s32 (len - 14), load_eth (m_mem s1) (rx_buf B j)) /\ held_step s1 s'
  end.

Lemma looked_idle s : rings_idle A B j s -> rings_idle A B j (looked s).
Proof.
  intros [Hl Hv Hm]. split; [done|done|]. unfold looked. cbn [m_mem set_m_trace set_m_mem].
  eapply ring_mem_frame; [done|done|apply (card_frame A B)|]. intros x Hx Hc. by eapply card_pointers.
Qed.

Lemma load_eth_held s s' :
  layout_ok A B j -> held_step s s' -> load_eth (m_mem s') (rx_buf B j) = load_eth (m_mem s) (rx_buf B j).
Proof.
  intros [] (_ & HF & _). unfold load_eth, card_area, ring_area, held_desc, rx_ring, rx_buf in *. f_equal.
  - apply (mem_frame_block _ _ _ _ _ HF); (lia || (intros; lia)).
  - apply (mem_frame_block _ _ _ _ _ HF); (lia || (intros; lia)).
  - apply (mem_frame_rd16 _ _ _ _ HF); (lia || (intros; lia)).
Qed.

Lemma rx_outcome_discard s1 s2 :
  held_step s1 s2 -> wp (pcnet32_discard held_desc ;; mret (None : option (Z * Z * ethernet_frame_header)))
    (λ r s', r = None /\ exists s2, held_step s1 s2 /\ released s2 s') s2.
Proof.
  intros Hh. wp_step. eapply wp_mono; [apply pcnet32_discard_spec, rings_ok_idle, Hh|].
  intros [] s3 Hr. wp_step. split; [done|]. by exists s2.
Qed.

(** [pcnet32_get_packet] on every kind of descriptor. *)
Lemma pcnet32_get_packet_spec s :
  rings_idle A B j s -> wp pcnet32_get_packet (λ r s', rx_outcome s r s') s.
Proof.
  intros Hs. pose proof Hs as [Hl Hv Hm]. pose proof Hl as []. pose proof Hv as [Erx Etx Erxp Etxp Esize Ho Erxo].
  unfold pcnet32_get_packet. wp_step. wp_step. unfold rx_desc. rewrite Erx, Erxo. fold held_desc. wp_step.
  change (wp (rx_status held_desc 32768) ?Q s) with (Q (Z.land (rd16 (m_mem (looked s)) (held_desc + 6)) 32768) (looked s)).
  cbv beta. pose proof (looked_idle s Hs) as [_ Hv1 Hm1]. set (s1 := looked s) in *.
  unfold rx_outcome, classify. fold s1. set (st := rd16 (m_mem s1) (held_desc + 6)).
  destruct (Z.land st 32768 =? 0) eqn:Eown; cbn [negb]; [|by wp_step]. bool_to_prop.
  assert (rings_ok A B j s1) as Hok1 by (split; try done; unfold owns; fold held_desc st; tauto).
  wp_step. eapply wp_mono; [by apply rx_status_held|]. intros err s2 [-> H2]. fold st.
  destruct (Z.land st 31872 =? 0) eqn:Eerr; cbn [negb]; [|by apply rx_outcome_discard].
  pose proof (held_cells _ _ Hl H2) as (Est2 & _). fold st in Est2.
  wp_step. eapply wp_mono; [apply rx_status_held, H2|]. intros stp s3 [-> H3]. rewrite Est2.
  pose proof (held_step_trans _ _ _ H2 H3) as H13. pose proof (held_cells _ _ Hl H13) as (Est3 & _). fold st in Est3.
  wp_step. destruct (Z.land st 512 =? 0) eqn:Estp; cbn [negb andb].
  - wp_step. wp_step. eapply wp_mono; [apply rx_status_held, H13|]. intros stp' s4 [-> H4].
    pose proof (held_step_trans _ _ _ H13 H4). case_bool; by apply rx_outcome_discard.
  - wp_step. eapply wp_mono; [apply rx_status_held, H13|]. intros enp s4 [-> H4]. rewrite Est3. wp_step.
    pose proof (held_step_trans _ _ _ H13 H4) as H14. pose proof (held_cells _ _ Hl H14) as (_ & El4 & _).
    destruct (Z.land st 256 =? 0) eqn:Eenp; cbn [negb].
    + wp_step. eapply wp_mono; [apply rx_status_held, H14|]. intros stp' s5 [-> H5].
      pose proof (held_step_trans _ _ _ H14 H5). case_bool; by apply rx_outcome_discard.
    + unfold load32. wp_step. wp_step. rewrite El4.
      destruct (14 <=? rd32 (m_mem s1) (held_desc + 8)) eqn:E14; [|by wp_step].
      do 8 wp_step. pose proof H14 as ([_ Hv4 Hm4 _] & _).
      rewrite (rv_rxp _ _ _ Hv4), (rv_rxo _ _ _ Hv4), (rm_rxp _ _ _ Hm4), El4, (load_eth_held s1 s4) by (done || lia).
      done.
Qed.

(** [pcnet32_put_packet] gives the held descriptor back. *)
Lemma pcnet32_put_packet_spec s p :
  rings_idle A B j s -> wp (pcnet32_put_packet p) (λ _ s', released s s') s.
Proof.
  intros Hs. pose proof Hs as [_ [Erx _ _ _ _ _ Erxo] _]. unfold pcnet32_put_packet. wp_step. wp_step.
  unfold rx_desc. rewrite Erx, Erxo. by apply pcnet32_discard_spec.
Qed.

End Laws.

(** ** Initialisation *)

Section Init.
Context `{Env} `{Linker}.

(** The descriptor loops: each takes its buffer from the pointer array. *)
Definition rx_setup (rx tbl i : Z) : M unit :=
  p ← load32 (tbl + 4 * i); store32 (rx + 16 * i) p ;; pcnet32_rx_reinit (rx + 16 * i).

Definition tx_setup (tx tbl i : Z) : M unit :=
  p ← load32 (tbl + 4 * i);
  store32 (tx + 16 * i) p ;;
  store16 (tx + 16 * i + 4) (u16 (-1)) ;;
  store16 (tx + 16 * i + 6) 0 ;;
  store32 (tx + 16 * i + 8) 0 ;;
  store16 (tx + 16 * i + 6) 0.

(** Descriptor [i] of [ring] points at [p] and has [status]. *)
Definition desc_set (ring status i p : Z) (m : gmap Z Z) : Prop :=
  rd32 m (ring + 16 * i) = p /\ rd16 m (ring + 16 * i + 6) = status.

Lemma desc_set_frame ring status P i p m m' :
  0 <= ring -> ring + 256 <= 4294967296 -> 0 <= i < 16 -> mem_frame P m m' ->
  (forall x, ring + 16 * i <= x < ring + 16 * i + 16 -> ~ P x) -> desc_set ring status i p m -> desc_set ring status i p m'.
Proof.
  intros Hr Hre Hi HF HP [E0 E6]. split.
  - rewrite (mem_frame_rd32 _ _ _ _ HF) by (lia || (intros; apply HP; lia)). done.
  - rewrite (mem_frame_rd16 _ _ _ _ HF) by (lia || (intros; apply HP; lia)). done.
Qed.

Lemma rx_setup_spec rx tbl :
  0 <= rx -> rx + 256 <= 4294967296 -> sets_up 16 rx tbl (desc_set rx 32768) (rx_setup rx tbl).
Proof.
  intros Hr Hre s i Hi. unfold wp, rx_setup, pcnet32_rx_reinit. run. cbn [m_mem set_m_mem].
  eexists. split_and!; [reflexivity|frame_stores|split].
  - far_words. rewrite rd32_wr32. apply u32_small, rd32_range.
  - by rewrite rd16_wr16.
Qed.

Lemma tx_setup_spec tx tbl :
  0 <= tx -> tx + 256 <= 4294967296 -> sets_up 16 tx tbl (desc_set tx 0) (tx_setup tx tbl).
Proof.
  intros Hr Hre s i Hi. unfold wp, tx_setup. run. cbn [m_mem set_m_mem].
  eexists. split_and!; [reflexivity|frame_stores|split].
  - far_words. rewrite rd32_wr32. apply u32_small, rd32_range.
  - by rewrite rd16_wr16.
Qed.

(** The rings after [pcnet32_setup_rings]: every receive descriptor is the
    card's, every transmit descriptor the driver's. *)
Record fresh_rings (A B : Z) (m : gmap Z Z) : Prop := {
  fr_mem : ring_mem A B m;
  fr_rx : forall i, 0 <= i < 16 -> owns m (rx_ring A + 16 * i);
  fr_tx : forall i, 0 <= i < 16 -> ~ owns m (tx_ring A + 16 * i)
}.

Lemma pcnet32_setup_rings_spec A s :
  let B := align_up (m_alloc s) 32 in
  pcnet32_rx (m_pcnet32 s) = rx_ring A -> pcnet32_tx (m_pcnet32 s) = tx_ring A ->
  pcnet32_rx_packets (m_pcnet32 s) = rx_table A -> pcnet32_tx_packets (m_pcnet32 s) = tx_table A ->
  0 <= A -> A + 640 <= m_alloc s -> m_alloc s + 51232 < 4294967296 ->
  wp pcnet32_setup_rings
    (λ _ s', exists m, s' = set_m_alloc (B + 51200) (set_m_mem m s) /\ fresh_rings A B m /\
       mem_frame (λ x, A <= x < A + 640) (m_mem s) m) s.
Proof.
  intros B Erx Etx Erxp Etxp HA Ha Hend.
  assert (m_alloc s <= B < m_alloc s + 32) as HB.
  { subst B. change 32 with (2 ^ 5). apply align_up_spec; lia. }
  unfold rx_ring, tx_ring, rx_table, tx_table in *.
  unfold pcnet32_setup_rings. wp_step. wp_step. rewrite Erx, Etx, Erxp, Etxp.
  unfold do_memset, upd_mem, align_alloc. do 10 wp_step. cbn [m_mem m_alloc set_m_mem set_m_alloc].
  change (Z.to_nat 256) with 256%nat. change (Z.to_nat 64) with 64%nat. fold B.
  set (m0 := memset _ (A + 576) 0 64).
  assert (mem_frame (λ x, A <= x < A + 640) (m_mem s) m0) as F0.
  { subst m0. repeat (etransitivity; [|eapply mem_frame_weaken; [|apply mem_frame_memset]; cbv beta; lia]). done. }
  wp_step. eapply wp_mono; [apply (alloc_buffers_spec 16 (A + 512) B); cbn; lia|]. intros [] s1 (m1 & -> & F1 & T1).
  wp_step. eapply wp_mono; [apply (alloc_buffers_spec 16 (A + 576) (B + 25600)); cbn; lia|]. intros [] s2 (m2 & -> & F2 & T2).
  cbn [m_mem set_m_mem set_m_alloc] in *.
  assert (forall i, 0 <= i < 16 -> rd32 m2 (A + 512 + 4 * i) = rx_buf B i) as T1'.
  { intros i Hi. rewrite (mem_frame_rd32 _ _ _ _ F2) by (lia || (intros; lia)). by apply T1. }
  wp_step. eapply wp_mono.
  { apply (setup_ring_spec 16 A (A + 512) (desc_set A 32768)) with (buf := rx_buf B); try lia; [|by apply rx_setup_spec; lia|done]. intros. eapply desc_set_frame; (done || lia). }
  intros [] s3 (m3 & -> & F3 & R3). cbn [m_mem set_m_mem set_m_alloc] in *.
  assert (forall i, 0 <= i < 16 -> rd32 m3 (A + 576 + 4 * i) = tx_buf B i) as T2'.
  { intros i Hi. rewrite (mem_frame_rd32 _ _ _ _ F3) by (lia || (intros; lia)). by apply T2. }
  eapply wp_mono.
  { apply (setup_ring_spec 16 (A + 256) (A + 576) (desc_set (A + 256) 0)) with (buf := tx_buf B); try lia; [|by apply tx_setup_spec; lia|done]. intros. eapply desc_set_frame; (done || lia). }
  intros [] s4 (m4 & -> & F4 & R4). cbn [m_mem set_m_mem set_m_alloc] in *. exists m4.
  assert (forall i, 0 <= i < 16 -> rd16 m4 (A + 16 * i + 6) = 32768) as R3'.
  { intros i Hi. rewrite (mem_frame_rd16 _ _ _ _ F4) by (lia || (intros; lia)). by apply R3. }
  split_and!.
  - by replace (B + 25600 + 1600 * Z.of_nat 16) with (B + 51200) by lia.
  - split; [split|..]; intros i Hi; unfold tx_table, rx_table, tx_ring, rx_ring, owns.
    + rewrite (mem_frame_rd32 _ _ _ _ F4) by (lia || (intros; lia)). by apply T2'.
    + by apply R4.
    + rewrite (mem_frame_rd32 _ _ _ _ F4), (mem_frame_rd32 _ _ _ _ F3) by (lia || (intros; lia)). by apply T1'.
    + rewrite (mem_frame_rd32 _ _ _ _ F4) by (lia || (intros; lia)). by apply R3.
    + by rewrite R3' by done.
    + destruct (R4 i Hi) as [_ ->]. by intros Hn.
  - etransitivity; [exact F0|]. etransitivity; [eapply mem_frame_weaken; [|exact F1]; cbn; lia|].
    etransitivity; [eapply mem_frame_weaken; [|exact F2]; cbn; lia|].
    etransitivity; [eapply mem_frame_weaken; [|exact F3]; cbn; lia|eapply mem_frame_weaken; [|exact F4]; cbn; lia].
Qed.

(** What the card set-up between the allocations and the rings keeps. *)
Record init_core (A a : Z) (net : net_state) (v : vga_state) (s : machine) : Prop := {
  ic_rx : pcnet32_rx (m_pcnet32 s) = rx_ring A;
  ic_tx : pcnet32_tx (m_pcnet32 s) = tx_ring A;
  ic_rxp : pcnet32_rx_packets (m_pcnet32 s) = rx_table A;
  ic_txp : pcnet32_tx_packets (m_pcnet32 s) = tx_table A;
  ic_mac : length (pcnet32_mac_address (m_pcnet32 s)) = 6%nat;
  ic_mac_bytes : Forall (λ b, 0 <= b < 256) (pcnet32_mac_address (m_pcnet32 s));
  ic_alloc : m_alloc s = a;
  ic_net : m_net s = net;
  ic_vga : m_vga s = v
}.

Definition anything (s s' : machine) : Prop := True.
#[local] Instance anything_preorder : PreOrder anything.
Proof. by split. Qed.

Lemma core_io {T} A a net v (c : M T) : port_io c -> stays (init_core A a net v) anything c.
Proof. intros Hc s [] . eapply wp_mono; [by apply Hc|]. intros x s' [_ [tr [-> _]]]. by split. Qed.

Lemma core_mac A a net v p i :
  stays (init_core A a net v) anything (v ← io_inb p;
    upd_pcnet32 (λ st, set_pcnet32_mac_address (<[Z.to_nat i := v]> (pcnet32_mac_address st)) st)).
Proof.
  intros s Hs. unfold io_inb. wp_step. wp_step. eapply wp_mono; [by apply (core_io A a net v _ (io_only_in 8 p))|].
  intros x s1 [[] _]. wp_step. unfold upd_pcnet32. wp_step. split; [|done]. split; cbn; try done.
  - by rewrite length_insert.
  - apply Forall_insert; [done|apply u8_range].
Qed.

Lemma core_init_block A a net v :
  stays (init_core A a net v) (λ _ s', pcnet32_ring_size (m_pcnet32 s') = 16) pcnet32_init_block.
Proof. intros s []. unfold wp, pcnet32_init_block. run. split; [|done]. by split. Qed.

Lemma alloc_once_null get set n s :
  get (m_pcnet32 s) = 0 ->
  alloc_once get set n s =
    inr (tt, set_m_pcnet32 (set (m_alloc s) (m_pcnet32 s)) (set_m_alloc (u32 (m_alloc s + n)) s)).
Proof. intros E. unfold alloc_once, do_alloc. run. by rewrite E. Qed.

(** The four allocations of a first initialisation. *)
Lemma alloc_rings_spec {T} (c : M T) (Q : T -> machine -> Prop) s :
  let A := align_up (m_alloc s) 16 in
  pcnet32_rx (m_pcnet32 s) = 0 -> pcnet32_tx (m_pcnet32 s) = 0 ->
  pcnet32_rx_packets (m_pcnet32 s) = 0 -> pcnet32_tx_packets (m_pcnet32 s) = 0 ->
  0 <= A -> A + 640 < 4294967296 ->
  wp c Q (set_m_pcnet32 (set_pcnet32_tx_packets (A + 576) (set_pcnet32_rx_packets (A + 512)
    (set_pcnet32_tx (A + 256) (set_pcnet32_rx A (m_pcnet32 s))))) (set_m_alloc (A + 640) s)) ->
  wp (align_alloc 16 ;; alloc_once pcnet32_rx set_pcnet32_rx 256 ;; alloc_once pcnet32_tx set_pcnet32_tx 256 ;;
      alloc_once pcnet32_rx_packets set_pcnet32_rx_packets 64 ;; alloc_once pcnet32_tx_packets set_pcnet32_tx_packets 64 ;; c) Q s.
Proof.
  intros A Hrx Htx Hrxp Htxp HA Hend HQ. unfold wp, align_alloc, mbind, SM_bind, modify. fold A.
  rewrite alloc_once_null by done. cbn [m_pcnet32 m_alloc set_m_pcnet32 set_m_alloc]. rewrite (u32_small (A + 256)) by lia.
  rewrite alloc_once_null by done. cbn [m_pcnet32 m_alloc set_m_pcnet32 set_m_alloc].
  rewrite (u32_small (A + 256 + 256)) by lia.
  rewrite alloc_once_null by done. cbn [m_pcnet32 m_alloc set_m_pcnet32 set_m_alloc].
  rewrite (u32_small (A + 256 + 256 + 64)) by lia.
  rewrite alloc_once_null by done. cbn [m_pcnet32 m_alloc set_m_pcnet32 set_m_alloc].
  rewrite u32_small by lia. rewrite <- !Z.add_assoc. exact HQ.
Qed.

(** The card is started on fresh rings. *)
Lemma pcnet32_start_card_spec A a net v s :
  let B := align_up a 32 in
  init_core A a net v s -> 0 <= A -> A + 640 <= a -> a + 51232 < 4294967296 ->
  wp pcnet32_start_card
    (λ r s', r = 1 /\ ring_vars A 0 (m_pcnet32 s') /\ fresh_rings A B (m_mem s') /\ m_alloc s' = B + 51200 /\
       m_vga s' = v /\ exists mac, m_net s' = set_my_eth_mac mac net /\ length mac = 6%nat /\ Forall (λ b, 0 <= b < 256) mac) s.
Proof.
  intros B Hc HA Ha Hend. unfold pcnet32_start_card. wp_step. wp_step.
  wp_step. eapply (stays_wp _ anything); [apply core_io, io_only_outl|exact Hc|]. intros [] s1 Hc1 _.
  wp_step. eapply (stays_wp _ anything).
  { apply stays_for_range; [typeclasses eauto|]. intros k. apply core_mac. }
  { exact Hc1. }
  intros [] s2 Hc2 _.
  wp_step. eapply (stays_wp _ anything); [apply core_io; unfold pcnet32_rap; solve_stays|exact Hc2|]. intros [] s3 Hc3 _.
  wp_step. eapply (stays_wp _ anything); [apply core_io; unfold pcnet32_write_bcr; solve_stays|exact Hc3|]. intros [] s4 Hc4 _.
  wp_step. eapply stays_wp; [apply core_init_block|exact Hc4|]. intros [] s5 Hc5 Hsize.
  wp_step. pose proof Hc5 as [Erx Etx Erxp Etxp Hmac Hmacb Eal Enet Evga]. subst B. rewrite <- Eal in *.
  eapply wp_mono; [apply (pcnet32_setup_rings_spec A); (done || lia)|]. intros [] s6 (m & -> & Hfresh & _).
  do 6 (wp_step; eapply (stays_wp (λ _ : machine, True) io_only); [unfold pcnet32_rap, pcnet32_write_csr; solve_stays|done|]; intros [] ? _ [? [-> _]]).
  unfold wp. run. cbn [m_mem m_pcnet32 m_alloc m_vga m_net set_m_trace set_m_pcnet32 set_m_net set_m_mem set_m_alloc].
  split_and!; [done| |done|done|done|].
  - split; cbn; try done.
  - exists (pcnet32_mac_address (m_pcnet32 s5)). by rewrite Enet.
Qed.

(** The first initialisation of a card with an I/O range: it succeeds and
    leaves the rings of the layout the driver's other operations rely on. *)
Lemma pcnet32_init_spec s d i b :
  let A := align_up (m_alloc s) 16 in
  let B := align_up (A + 640) 32 in
  pcnet32_known_pci_id (Some d) = 1 -> pcnet32_find_io (pd_BAR d) = Some (i, b) ->
  pcnet32_rx (m_pcnet32 s) = 0 -> pcnet32_tx (m_pcnet32 s) = 0 ->
  pcnet32_rx_packets (m_pcnet32 s) = 0 -> pcnet32_tx_packets (m_pcnet32 s) = 0 ->
  length (pcnet32_mac_address (m_pcnet32 s)) = 6%nat ->
  Forall (λ b, 0 <= b < 256) (pcnet32_mac_address (m_pcnet32 s)) ->
  16 <= m_alloc s -> m_alloc s + 51888 < 4294967296 ->
  786432 <= m_alloc s \/ m_alloc s + 51888 <= 753664 ->
  wp (pcnet32_init (Some d))
    (λ r s', r = 1 /\ rings_idle A B 0 s' /\ fresh_rings A B (m_mem s') /\ m_alloc s' = B + 51200 /\
       m_vga s' = m_vga s /\ exists mac, m_net s' = set_my_eth_mac mac (m_net s) /\ length mac = 6%nat /\ Forall (λ b, 0 <= b < 256) mac) s.
Proof.
  intros A B Hid Hio Hrx Htx Hrxp Htxp Hmac Hmacb Ha Hend Hscr.
  assert (m_alloc s <= A < m_alloc s + 16) as HA.
  { subst A. change 16 with (2 ^ 4). apply align_up_spec; lia. }
  assert (A + 640 <= B < A + 640 + 32) as HB.
  { subst B. change 32 with (2 ^ 5). apply align_up_spec; lia. }
  unfold pcnet32_init. rewrite Hid, Hio. cbn [Z.eqb]. unfold upd_pcnet32. do 5 wp_step.
  eapply stays_wp; [apply io_only_write|done|]. intros [] s1 _ [tr1 [-> _]].
  apply alloc_rings_spec; [exact Hrx|exact Htx|exact Hrxp|exact Htxp|cbn; fold A; lia|cbn; fold A; lia|].
  cbn [m_alloc m_pcnet32 set_m_trace set_m_pcnet32]. fold A. wp_step. wp_step.
  eapply wp_mono.
  { apply (pcnet32_start_card_spec A (A + 640) (m_net s) (m_vga s)); [by split|lia|lia|lia]. }
  intros r s' (-> & Hv & Hf & Hal & Hvga & Hn). split_and!; [done| |done|done|done|done].
  split; [split; lia|done|apply Hf].
Qed.

End Init.
