(* ===== verification/Rtl8101.v ===== *)
(** * The RealTek 8101E driver (net-rtl8101.c)

    Two rings of 4 descriptors of 16 bytes each, shared with the card, and a
    1600-byte buffer per descriptor.  Descriptor fields at their offsets: [d1] 0
    (ownership, end of ring, status, length), [d2] 4, the 64-bit [addr] 8.  The
    fields are volatile, so every read of [d1] is a poll. *)

From S2P Require Import Prelude Machine Memory Vga Alloc Pci NetDriver Rings.

Section Driver.
Context `{Env}.

Definition rtl8101_known_pci_id (p : option pci_device) : Z :=
  match p with
  | None => 0
  | Some p => if (pd_vendor_id p =? 0x10EC) && (pd_device_id p =? 0x8136) then 1 else 0
  end.

Definition rtl8101_probe (pdev : option pci_device) : M Z :=
  if rtl8101_known_pci_id pdev =? 0 then mret 0 else mret 1.

(** The loop over the BARs: the first present I/O range of at least 256 ports. *)
Definition rtl8101_io_bar (b : pci_bar) : bool :=
  negb (bar_present b =? 0) && negb (bar_io b =? 0) && (u64 (bar_start b + 0xFF) <=? bar_end b).
Definition rtl8101_find_io (bars : list pci_bar) : option (nat * pci_bar) :=
  list_find (λ b, rtl8101_io_bar b = true) bars.

(** [while (io_inb(rtl8101_iobase+0x37) & 0x10) { if (--patience != 0) return 0; }]:
    [true] when the loop is left, [false] for the [return].  From a patience of
    200 the first pass decides, so little fuel is enough. *)
Fixpoint rtl8101_reset_loop (fuel : nat) (patience : Z) : M bool :=
  match fuel with
  | O => halt NoReturn
  | S f =>
      iobase ← gets (λ s, rtl8101_iobase (m_rtl8101 s));
      c ← io_inb (iobase + 0x37);
      if Z.land c 0x10 =? 0 then mret true else
      let patience := u32 (patience - 1) in
      if negb (patience =? 0) then mret false else rtl8101_reset_loop f patience
  end.

(** [if (x == NULL) x = do_alloc(n);] *)
Definition rtl8101_alloc_once (get : rtl8101_state -> Z) (set : Z -> rtl8101_state -> rtl8101_state) (n : Z) : M unit :=
  x ← gets (λ s, get (m_rtl8101 s));
  when (x =? 0) (p ← do_alloc n; upd_rtl8101 (set p)).

(** The allocations of [rtl8101_init]. *)
Definition rtl8101_alloc_rings : M unit :=
  upd_rtl8101 (set_rtl8101_ring_size 4) ;;
  align_alloc 256 ;;
  rtl8101_alloc_once rtl8101_rx set_rtl8101_rx 64 ;;
  align_alloc 256 ;;
  rtl8101_alloc_once rtl8101_tx set_rtl8101_tx 64 ;;
  align_alloc 16 ;;
  rtl8101_alloc_once rtl8101_rx_packets set_rtl8101_rx_packets 16 ;;
  rtl8101_alloc_once rtl8101_tx_packets set_rtl8101_tx_packets 16.

(** [d->addr = (uint64_t)((size_t)p)] *)
Definition store_addr (d p : Z) : M unit := store32 (d + 8) p ;; store32 (d + 12) 0.

(** [i == (rtl8101_ring_size - 1) ? 0x40000000 : 0] *)
Definition end_of_ring (i : Z) : Z := if i =? 3 then 0x40000000 else 0.

(** One pass of each descriptor loop: [own] is 0x80000000 or 0. *)
Definition rtl8101_setup_desc (ring tbl own i : Z) : M unit :=
  p ← load32 (tbl + 4 * i);
  store_addr (ring + 16 * i) p ;;
  store32 (ring + 16 * i + 4) 0 ;;
  store32 (ring + 16 * i) (Z.lor (Z.lor own (end_of_ring i)) 1600).

Definition rtl8101_setup_rings : M unit :=
  st ← gets m_rtl8101;
  let rx := rtl8101_rx st in
  let tx := rtl8101_tx st in
  let rx_packets := rtl8101_rx_packets st in
  let tx_packets := rtl8101_tx_packets st in
  do_memset rx 0 64 ;;
  do_memset tx 0 64 ;;
  do_memset rx_packets 0 16 ;;
  do_memset tx_packets 0 16 ;;
  align_alloc 32 ;;
  for_range 0 4 (λ i, p ← do_alloc 1600; store32 (rx_packets + 4 * i) p) ;;
  for_range 0 4 (λ i, p ← do_alloc 1600; store32 (tx_packets + 4 * i) p) ;;
  for_range 0 4 (rtl8101_setup_desc rx rx_packets 0x80000000) ;;
  for_range 0 4 (rtl8101_setup_desc tx tx_packets 0).

(** From the MAC address to the end of [rtl8101_init]. *)
Definition rtl8101_start_card : M Z :=
  iobase ← gets (λ s, rtl8101_iobase (m_rtl8101 s));
  for_range 0 6 (λ i,
    v ← io_inb (iobase + 0x00 + i);
    upd_rtl8101 (λ st, set_rtl8101_mac_address (<[Z.to_nat i := v]> (rtl8101_mac_address st)) st)) ;;
  io_outl (iobase + 0x08) 0xFFFFFFFF ;;
  io_outl (iobase + 0x0C) 0xFFFFFFFF ;;
  io_outw (iobase + 0x62) 0x1200 ;;
  rtl8101_alloc_rings ;;
  rtl8101_setup_rings ;;
  upd_rtl8101 (set_rtl8101_rx_offset 0) ;;
  upd_rtl8101 (set_rtl8101_tx_offset 0) ;;
  mac ← gets (λ s, rtl8101_mac_address (m_rtl8101 s));
  upd_net (set_my_eth_mac mac) ;;
  io_outl (iobase + 0xE8) 0 ;;
  rx ← gets (λ s, rtl8101_rx (m_rtl8101 s)); io_outl (iobase + 0xE4) rx ;;
  tx ← gets (λ s, rtl8101_tx (m_rtl8101 s)); io_outl (iobase + 0x20) tx ;;
  io_outl (iobase + 0x24) 0 ;;
  io_outl (iobase + 0x28) 0 ;;
  io_outl (iobase + 0x2C) 0 ;;
  io_outl (iobase + 0xEC) ((1600 + 127) / 128) ;;
  io_outb (iobase + 0x37) 0x0C ;;
  mret 1.

Definition rtl8101_init (pdev : option pci_device) : M Z :=
  match pdev with
  | None => mret 0
  | Some d =>
  if rtl8101_known_pci_id pdev =? 0 then mret 0 else
  upd_rtl8101 (set_rtl8101_io None) ;;
  match rtl8101_find_io (pd_BAR d) with
  | None => vga_write (msg "Cannot locate I/O resource") ;; mret 0
  | Some (i, b) =>
      upd_rtl8101 (set_rtl8101_io (Some (Z.of_nat i))) ;;
      pci_config_write_imm (pd_bus d) (pd_device d) (pd_function d) 4 0x29F ;;
      let iobase := u32 (bar_start b) in
      upd_rtl8101 (set_rtl8101_iobase iobase) ;;
      io_outw (iobase + 0x3C) 0x0000 ;;
      io_outb (iobase + 0x37) 0x10 ;;
      ready ← rtl8101_reset_loop 2 200;
      if negb ready then mret 0 else
      io_outw (iobase + 0x3E) 0xFFFF ;;
      io_outl (iobase + 0x40) (Z.lor (Z.lor 0x0000 (Z.shiftl 3 24)) (Z.shiftl 6 8)) ;;
      io_outl (iobase + 0x44) 0x000F ;;
      rtl8101_start_card
  end
  end.

Definition rtl8101_uninit (pdev : option pci_device) : M Z := mret 1.

(** [rx->d1 &= mask] and [rx->d1 |= mask], a read and a write of the volatile
    field. *)
Definition d1_and (d mask : Z) : M unit := v ← vload32 d; store32 d (Z.land v mask).
Definition d1_or (d mask : Z) : M unit := v ← vload32 d; store32 d (Z.lor v mask).

Definition rtl8101_rx_reinit (rx entry : Z) : M unit :=
  store32 (rx + 4) 0 ;;
  d1_and rx 0x3FFFC000 ;;
  st ← gets m_rtl8101;
  p ← load32 (rtl8101_rx_packets st + 4 * entry);
  store_addr rx p ;;
  when (entry =? u32 (rtl8101_ring_size st - 1)) (d1_or rx 0x40000000) ;;
  d1_or rx (Z.lor 0x80000000 1600).

Definition rtl8101_adv_packet : M unit :=
  upd_rtl8101 (λ st,
    let o := rtl8101_rx_offset st + 1 in
    set_rtl8101_rx_offset (if rtl8101_ring_size st <=? o then 0 else o) st).

Definition rtl8101_tx_desc (st : rtl8101_state) : Z := rtl8101_tx st + 16 * rtl8101_tx_offset st.
Definition rtl8101_rx_desc (st : rtl8101_state) : Z := rtl8101_rx st + 16 * rtl8101_rx_offset st.

(** [d1 & mask], a fresh read of the volatile field each time. *)
Definition d1_bits (d mask : Z) : M Z := v ← vload32 d; mret (Z.land v mask).

(** [while ((tx->d1&0x80000000) != 0) if (--patience == 0) { vga_write(m); break; }] *)
Definition rtl8101_wait (patience : positive) (tx : Z) (m : list Z) : M unit :=
  late ← busy_wait patience (own ← d1_bits tx 0x80000000; mret (negb (own =? 0)));
  when late (vga_write m).

Definition rtl8101_prepare_send_packet (sz : Z) (hdr : ethernet_frame_header) : M (option Z) :=
  if 1600 - 14 <? sz then mret None else
  tx ← gets (λ s, rtl8101_tx_desc (m_rtl8101 s));
  upd_rtl8101 (set_rtl8101_send_sz (u32 sz)) ;;
  rtl8101_wait 3000000 tx (msg "Timeout waiting for transmit ring to free up fragment") ;;
  st ← gets m_rtl8101;
  p ← load32 (rtl8101_tx_packets st + 4 * rtl8101_tx_offset st);
  store_bytes p (eth_bytes hdr) ;;
  mret (Some (p + 14)).

(** The first half of [rtl8101_send_packet]: the descriptor is filled in and the
    card told. *)
Definition rtl8101_hand_over : M unit :=
  st ← gets m_rtl8101;
  let tx := rtl8101_tx_desc st in
  let d1 := Z.lor (Z.lor 0x30000000 0x80000000) (u32 (rtl8101_send_sz st + 14)) in
  let d1 := Z.lor d1 0x40000000 in
  store32 (tx + 4) 0 ;;
  p ← load32 (rtl8101_tx_packets st + 4 * rtl8101_tx_offset st);
  store_addr tx p ;;
  store32 tx d1 ;;
  io_outb (rtl8101_iobase st + 0x38) 0x40.

Definition rtl8101_send_packet : M unit :=
  tx ← gets (λ s, rtl8101_tx_desc (m_rtl8101 s));
  rtl8101_hand_over ;;
  rtl8101_wait 300000000 tx (msg "Timeout waiting for transmit ring to actually send packet") ;;
  upd_rtl8101 (set_rtl8101_tx_offset 0).

(** [rtl8101_rx_reinit(rx,rtl8101_rx_offset); rtl8101_adv_packet();] *)
Definition rtl8101_discard (rx : Z) : M unit :=
  entry ← gets (λ s, rtl8101_rx_offset (m_rtl8101 s));
  rtl8101_rx_reinit rx entry ;; rtl8101_adv_packet.

Definition rtl8101_get_packet : M (option (Z * Z * ethernet_frame_header)) :=
  rx ← gets (λ s, rtl8101_rx_desc (m_rtl8101 s));
  own ← d1_bits rx 0x80000000;
  if negb (own =? 0) then mret None else
  err ← d1_bits rx (Z.shiftl 1 21);
  if negb (err =? 0) then rtl8101_discard rx ;; mret None else
  first ← d1_bits rx (Z.shiftl 1 29);
  complete ← (if negb (first =? 0) then last ← d1_bits rx (Z.shiftl 1 28); mret (negb (last =? 0)) else mret false : M bool);
  if complete : bool then
    frame_length ← d1_bits rx 0x3FFF;
    if 14 <=? frame_length then
      st ← gets m_rtl8101;
      p ← load32 (rtl8101_rx_packets st + 4 * rtl8101_rx_offset st);
      hdr ← gets (λ s, load_eth (m_mem s) p);
      mret (Some (p + 14, frame_length - 14, hdr))
    else mret None
  else
    first ← d1_bits rx (Z.shiftl 1 29);
    if first =? 0 then rtl8101_discard rx ;; mret None
    else rtl8101_discard rx ;; mret None.

Definition rtl8101_put_packet (p : Z) : M unit :=
  rx ← gets (λ s, rtl8101_rx_desc (m_rtl8101 s));
  rtl8101_discard rx.

Definition rtl8101_driver : network_driver :=
  mkDriver (str "RealTek 8101E") rtl8101_probe rtl8101_init rtl8101_uninit rtl8101_get_packet
    rtl8101_prepare_send_packet rtl8101_send_packet rtl8101_put_packet.

End Driver.

(** ** The rings as [rtl8101_init] lays them out *)

(** Two areas: [A] for the rings and the pointer arrays, [B] for the buffers;
    [j] is the receive descriptor whose packet is being held. *)
Section Rings.
Context (A B j : Z).

Definition rtl_rx : Z := A.
Definition rtl_tx : Z := A + 256.
Definition rtl_rx_table : Z := A + 320.
Definition rtl_tx_table : Z := A + 336.
Definition rtl_rx_buf (i : Z) : Z := B + 1600 * i.
Definition rtl_tx_buf (i : Z) : Z := B + 6400 + 1600 * i.

Record rtl_layout : Prop := {
  rl_A : 16 <= A;
  rl_B : A + 352 <= B;
  rl_end : B + 12800 <= 4294967296;
  rl_screen : 786432 <= A \/ B + 12800 <= 753664;
  rl_j : 0 <= j < 4
}.

(** All the driver's memory but the buffer of descriptor [j]; and the part of it
    the card may write while the driver has that descriptor. *)
Definition rtl_held_desc : Z := rtl_rx + 16 * j.
Definition rtl_area (a : Z) : Prop :=
  A <= a < A + 352 \/ (B <= a < B + 12800 /\ ~ (rtl_rx_buf j <= a < rtl_rx_buf j + 1600)).
Definition rtl_card_area (a : Z) : Prop := exists i, 0 <= i < 4 /\
  (rtl_tx + 16 * i <= a < rtl_tx + 16 * i + 8 \/
   (i <> j /\ (rtl_rx + 16 * i <= a < rtl_rx + 16 * i + 8 \/ rtl_rx_buf i <= a < rtl_rx_buf i + 1600))).

Definition rtl_owns (m : gmap Z Z) (d : Z) : Prop := Z.land (rd32 m d) 0x80000000 <> 0.

(** Only transmit descriptor 0 is ever used. *)
Record rtl_vars (st : rtl8101_state) : Prop := {
  rtv_rx : rtl8101_rx st = rtl_rx;
  rtv_tx : rtl8101_tx st = rtl_tx;
  rtv_rxp : rtl8101_rx_packets st = rtl_rx_table;
  rtv_txp : rtl8101_tx_packets st = rtl_tx_table;
  rtv_size : rtl8101_ring_size st = 4;
  rtv_txo : rtl8101_tx_offset st = 0;
  rtv_rxo : rtl8101_rx_offset st = j
}.

Record rtl_mem (m : gmap Z Z) : Prop := {
  rtm_txp : forall i, 0 <= i < 4 -> rd32 m (rtl_tx_table + 4 * i) = rtl_tx_buf i;
  rtm_rxp : forall i, 0 <= i < 4 -> rd32 m (rtl_rx_table + 4 * i) = rtl_rx_buf i;
  rtm_rx : forall i, 0 <= i < 4 -> rd32 m (rtl_rx + 16 * i + 8) = rtl_rx_buf i
}.

(** Between two packets, and with the packet of descriptor [j] in hand. *)
Record rtl_idle (s : machine) : Prop := {
  rti_layout : rtl_layout;
  rti_vars : rtl_vars (m_rtl8101 s);
  rti_mem : rtl_mem (m_mem s)
}.

Record rtl_held (s : machine) : Prop := {
  rth_idle : rtl_idle s;
  rth_ours : ~ rtl_owns (m_mem s) rtl_held_desc
}.

(** *** What the card does to memory *)

(** The card writes the first half of a descriptor it owns, and fills the buffer
    of a receive descriptor it owns. *)
Definition rtl_card_writes (m : gmap Z Z) (a : Z) : Prop := exists i, 0 <= i < 4 /\
  ((rtl_owns m (rtl_tx + 16 * i) /\ rtl_tx + 16 * i <= a < rtl_tx + 16 * i + 8) \/
   (rtl_owns m (rtl_rx + 16 * i) /\
     (rtl_rx + 16 * i <= a < rtl_rx + 16 * i + 8 \/ rtl_rx_buf i <= a < rtl_rx_buf i + 1600))).

(** The card touches only what it owns; nothing is asked about when it sends. *)
Class RtlCardOk `{Env} : Prop :=
  rtl_card_frame tr m : mem_frame (rtl_card_writes m) m (env_dma tr m).

(** The cells that hold the agreed pointers. *)
Definition rtl_pointer_cell (x : Z) : Prop :=
  A + 320 <= x < A + 352 \/ exists i, 0 <= i < 4 /\ rtl_rx + 16 * i + 8 <= x < rtl_rx + 16 * i + 12.

Lemma rtl_mem_frame (P : Z -> Prop) m m' :
  rtl_layout -> rtl_mem m -> mem_frame P m m' -> (forall x, rtl_pointer_cell x -> ~ P x) -> rtl_mem m'.
Proof.
  intros [] [H1 H2 H3] HF HP. unfold rtl_pointer_cell, rtl_tx_table, rtl_rx_table, rtl_tx, rtl_rx in *.
  split; intros i Hi; unfold rtl_tx_table, rtl_rx_table, rtl_rx.
  - rewrite (mem_frame_rd32 P m m') by (done || lia || (intros; apply HP; left; lia)). by apply H1.
  - rewrite (mem_frame_rd32 P m m') by (done || lia || (intros; apply HP; left; lia)). by apply H2.
  - rewrite (mem_frame_rd32 P m m') by (done || lia || (intros; apply HP; right; exists i; lia)). by apply H3.
Qed.

Lemma rtl_idle_frame (P : Z -> Prop) s s' :
  rtl_idle s -> m_rtl8101 s' = m_rtl8101 s -> mem_frame P (m_mem s) (m_mem s') ->
  (forall x, rtl_pointer_cell x -> ~ P x) -> rtl_idle s'.
Proof. intros [Hl Hv Hm] Ev HF HP. split; [done|by rewrite Ev|by eapply rtl_mem_frame]. Qed.

(** Cells whose change the invariant of a held packet survives. *)
Definition rtl_free_cell (x : Z) : Prop :=
  ~ rtl_pointer_cell x /\ ~ (rtl_held_desc <= x < rtl_held_desc + 4).

Lemma rtl_held_frame (P : Z -> Prop) s s' :
  rtl_held s -> m_rtl8101 s' = m_rtl8101 s -> mem_frame P (m_mem s) (m_mem s') ->
  (forall x, P x -> rtl_free_cell x) -> rtl_held s'.
Proof.
  intros [Hi Ho] Ev HF HP. pose proof Hi as [[] _ _]. split.
  - eapply rtl_idle_frame; [done|done|exact HF|]. intros x Hx Hc. by destruct (HP x Hc).
  - unfold rtl_owns in *. rewrite (mem_frame_rd32 P _ _ _ HF); [done|unfold rtl_held_desc, rtl_rx; lia..|].
    intros x Hx Hc. by destruct (HP x Hc).
Qed.

Lemma rtl_card_cells m x : ~ rtl_owns m rtl_held_desc -> rtl_card_writes m x -> rtl_card_area x.
Proof.
  intros Ho (i & Hi & Hx). exists i. split; [done|]. destruct Hx as [[_ Hx]|[Ho' Hx]]; [by left|right].
  split; [|done]. by intros ->.
Qed.

Lemma rtl_card_area_free x : rtl_layout -> rtl_card_area x -> rtl_area x /\ rtl_free_cell x.
Proof.
  intros [] (i & Hi & Hx).
  unfold rtl_free_cell, rtl_area, rtl_pointer_cell, rtl_held_desc, rtl_tx, rtl_rx, rtl_rx_buf in *.
  split_and!; [lia|intros [|(k & Hk & Hx')]; lia|lia].
Qed.

Lemma rtl_card_pointers m x : rtl_layout -> rtl_card_writes m x -> ~ rtl_pointer_cell x.
Proof.
  intros [] (i & Hi & Hx). unfold rtl_pointer_cell, rtl_tx, rtl_rx, rtl_rx_buf in *. intros [|(k & Hk & Hx')]; lia.
Qed.

Lemma rtl_window_free x : rtl_layout -> vga_window x -> rtl_free_cell x.
Proof.
  intros [] Hx. unfold vga_window, rtl_free_cell, rtl_pointer_cell, rtl_held_desc, rtl_rx in *.
  split; [intros [|(k & Hk & Hx')]; lia|lia].
Qed.

Lemma rtl_area_screen a : rtl_layout -> rtl_area a -> ~ vga_window a.
Proof. intros []. unfold rtl_area, vga_window. lia. Qed.

End Rings.

(** ** The driver's promises *)

Section Laws.
Context `{Env} (A B j : Z) `{Card : !RtlCardOk A B}.

(** With a packet in hand the card and the console may be at work: neither
    disturbs the rings, the held descriptor or its buffer. *)
Abbreviation rtl_still := (stays (rtl_held A B j) (card_step (rtl_card_area A B j))).
Definition rtl_inv (s : machine) : Prop := rtl_held A B j s /\ vga_ok (m_vga s).
Abbreviation rtl_quiet := (stays rtl_inv (bus_step (rtl_card_area A B j))).

Lemma rtl_still_poll a : rtl_still (poll a).
Proof.
  intros s Hs. unfold wp, poll, modify.
  pose proof (rtl_card_frame A B (m_trace s) (m_mem s)) as HF. pose proof Hs as [[Hl _ _] Ho].
  assert (mem_frame (rtl_card_area A B j) (m_mem s) (env_dma (m_trace s) (m_mem s))) as HF'.
  { eapply mem_frame_weaken; [|exact HF]. intros x Hx. by eapply rtl_card_cells. }
  split; [|split; [done|done|by exists [EvPoll a]]].
  eapply rtl_held_frame; [done|done|exact HF'|]. intros x Hx. by apply (rtl_card_area_free A B j).
Qed.

Lemma rtl_still_vload32 a : rtl_still (vload32 a).
Proof. unfold vload32, load32. pose proof rtl_still_poll. solve_stays. Qed.

Lemma rtl_still_bits d mask : rtl_still (d1_bits d mask).
Proof. unfold d1_bits. pose proof rtl_still_vload32. solve_stays. Qed.

Lemma rtl_still_quiet {T} (c : M T) : rtl_still c -> rtl_quiet c.
Proof.
  intros Hc s [Hs Hv]. eapply wp_mono; [by apply Hc|]. intros x s' [Hs' Hk].
  split; [|by apply card_step_bus]. split; [done|]. rewrite (ks_same _ _ _ Hk). done.
Qed.

Lemma rtl_quiet_write l : rtl_quiet (vga_write l).
Proof.
  intros s [Hs Hv]. eapply wp_mono; [apply prints_write, Hv|]. intros [] s' [Hv' HF]. split; [split; [|done]|by apply console_bus].
  destruct HF as [Hm Hst _]. eapply rtl_held_frame; [done|apply Hst|exact Hm|]. intros x. apply (rtl_window_free A B j), Hs.
Qed.

(** Waiting for the card ends whatever the card does. *)
Lemma rtl_quiet_wait p d l : rtl_quiet (rtl8101_wait p d l).
Proof. unfold rtl8101_wait. pose proof (λ d m, rtl_still_quiet _ (rtl_still_bits d m)). pose proof rtl_quiet_write. solve_stays. Qed.

Lemma rtl_quiet_vars s s' : bus_step (rtl_card_area A B j) s s' -> m_rtl8101 s' = m_rtl8101 s.
Proof. intros [_ [] _]. done. Qed.

(** *** Sending *)

Definition rtl_prepared (s : machine) (p sz : Z) : Prop :=
  rtl_held A B j s /\ p = rtl_tx_buf B 0 + 14 /\ 0 <= sz <= 1586 /\ rtl8101_send_sz (m_rtl8101 s) = sz.

(** The frame in the transmit buffer, whose length the driver keeps. *)
Definition rtl_handed (s : machine) (f : list Z) : Prop :=
  rtl_layout A B j /\ Z.of_nat (length f) = rtl8101_send_sz (m_rtl8101 s) + 14 /\ Z.of_nat (length f) <= 1600 /\
  rd32 (m_mem s) (rtl_tx A + 8) = rtl_tx_buf B 0 /\ rd_bytes (m_mem s) (rtl_tx_buf B 0) (length f) = f.

Lemma rtl_area_cells x :
  rtl_layout A B j ->
  rtl_tx_buf B 0 <= x < rtl_tx_buf B 0 + 1600 \/ rtl_tx A <= x < rtl_tx A + 16 ->
  rtl_free_cell A j x /\ rtl_area A B j x.
Proof.
  intros [] Hx. unfold rtl_free_cell, rtl_area, rtl_pointer_cell, rtl_held_desc, rtl_tx, rtl_rx, rtl_rx_buf, rtl_tx_buf in *.
  split_and!; [intros [|(k & Hk & Hx')]; lia|lia|lia].
Qed.

Lemma rtl_prepare_law s sz hdr :
  rtl_held A B j s -> vga_ok (m_vga s) -> 0 <= sz <= 1586 ->
  length (dst_mac hdr) = 6%nat -> length (src_mac hdr) = 6%nat ->
  wp (rtl8101_prepare_send_packet sz hdr)
    (λ r s', exists p, r = Some p /\ rtl_prepared s' p sz /\
       rd_bytes (m_mem s') (p - 14) 14 = u8 <$> eth_bytes hdr /\ drv_step (rtl_area A B j) s s') s.
Proof.
  intros Hs Hv Hsz Hd Hsrc. unfold rtl8101_prepare_send_packet. rewrite (proj2 (Z.ltb_ge _ sz)) by lia.
  unfold upd_rtl8101. do 4 wp_step. rewrite u32_small by lia. set (s0 := set_m_rtl8101 _ s).
  assert (rtl_inv s0) as H0.
  { split; [|done]. destruct Hs as [[Hl [] Hm] Ho]. split; [split; [done|by split|done]|done]. }
  wp_step. eapply wp_mono; [exact (rtl_quiet_wait _ _ _ _ H0)|]. intros [] s1 [[Hs1 Hv1] HF1].
  pose proof (rtl_quiet_vars _ _ HF1) as Ev1. pose proof Hs1 as [[Hl Hvars Hm] _]. pose proof Hl as [].
  unfold load32, store_bytes, upd_mem. do 7 wp_step.
  rewrite (rtv_txp _ _ _ Hvars), (rtv_txo _ _ _ Hvars), (rtm_txp _ _ _ Hm) by lia.
  pose proof (length_eth_bytes hdr Hd Hsrc) as Hlen.
  pose proof (mem_frame_store (m_mem s1) (rtl_tx_buf B 0) (eth_bytes hdr) ltac:(unfold rtl_tx_buf; lia) ltac:(unfold rtl_tx_buf; lia)) as F2.
  rewrite Hlen in F2. exists (rtl_tx_buf B 0 + 14). unfold rtl_prepared. split_and!; [done| |done|lia|lia| | |].
  - eapply rtl_held_frame; [done|done|exact F2|]. intros x Hx. apply (rtl_area_cells x); [done|]. cbv beta in Hx. lia.
  - cbn. by rewrite Ev1.
  - cbn [m_mem set_m_mem]. replace (rtl_tx_buf B 0 + 14 - 14) with (rtl_tx_buf B 0) by lia.
    rewrite <- Hlen. apply rd_bytes_wr_bytes_same. lia.
  - transitivity s0; [by split|]. transitivity s1.
    + apply bus_step_drv; [done|]. eapply bus_step_weaken; [|exact HF1]. intros x Hx. by apply rtl_card_area_free.
    + split; try done. cbn. eapply mem_frame_weaken; [|exact F2]. intros x Hx. left.
      apply (rtl_area_cells x); [done|]. cbv beta in Hx. lia.
Qed.

Lemma rtl_window_law s p sz :
  rtl_prepared s p sz ->
  14 <= p /\ 0 <= sz /\ p + sz <= 4294967296 /\ forall a, p - 14 <= a < p + sz -> rtl_area A B j a.
Proof.
  intros ([[[] _ _] _] & -> & Hsz & _). unfold rtl_area, rtl_tx_buf, rtl_rx_buf in *. split_and!; intros; lia.
Qed.

Lemma rtl_outside_free x : rtl_layout A B j -> ~ rtl_area A B j x -> rtl_free_cell A j x.
Proof.
  intros [] Hx. unfold rtl_free_cell, rtl_area, rtl_pointer_cell, rtl_held_desc, rtl_rx in *.
  split; [intros [|(i & Hi & Hx')]; lia|lia].
Qed.

Lemma rtl_inv_stable s s' :
  rtl_held A B j s -> same_drivers s s' -> mem_frame (λ a, ~ rtl_area A B j a) (m_mem s) (m_mem s') -> rtl_held A B j s'.
Proof.
  intros Hs [_ Ev _] HF. eapply rtl_held_frame; [done|done|exact HF|]. intros x. apply rtl_outside_free. apply Hs.
Qed.

Lemma rtl_prepared_stable s s' p sz :
  rtl_prepared s p sz -> same_drivers s s' ->
  mem_frame (λ a, p - 14 <= a < p + sz \/ ~ rtl_area A B j a) (m_mem s) (m_mem s') -> rtl_prepared s' p sz.
Proof.
  intros (Hs & -> & Hsz & Esz) [_ Ev _] HF. split_and!; [|done|lia|lia|by rewrite Ev].
  pose proof Hs as [[Hl _ _] _]. eapply rtl_held_frame; [done|done|exact HF|].
  intros x [Hx|Hx]; [|by apply rtl_outside_free]. apply (rtl_area_cells x); [done|]. lia.
Qed.

Lemma rtl_handed_stable s s' f :
  rtl_handed s f -> same_drivers s s' -> adds_io s s' -> mem_frame (λ a, ~ rtl_area A B j a) (m_mem s) (m_mem s') ->
  rtl_handed s' f.
Proof.
  intros (Hl & El & Hlen & Ea & Eb) [_ Ev _] _ HF. pose proof Hl as []. split_and!; [done|by rewrite Ev|done| |].
  - rewrite <- Ea. unfold rtl_area, rtl_tx in *. apply (mem_frame_rd32 _ _ _ _ HF); (lia || (intros; lia)).
  - rewrite <- Eb at 2. unfold rtl_area, rtl_tx_buf, rtl_rx_buf in *. apply (mem_frame_block _ _ _ _ _ HF); (lia || (intros; lia)).
Qed.

(** What the card finds in the transmit descriptor when it is told. *)
Record rtl_offered (sz : Z) (m : gmap Z Z) : Prop := {
  rof_d1 : rd32 m (rtl_tx A) = 0xF0000000 + (sz + 14);
  rof_d2 : rd32 m (rtl_tx A + 4) = 0;
  rof_addr : rd32 m (rtl_tx A + 8) = rtl_tx_buf B 0;
  rof_high : rd32 m (rtl_tx A + 12) = 0
}.

Lemma rtl_d1_value n : 0 <= n <= 1600 ->
  Z.lor (Z.lor (Z.lor 0x30000000 0x80000000) n) 0x40000000 = 0xF0000000 + n.
Proof.
  intros Hn. rewrite (Z.lor_comm _ 0x40000000), Z.lor_assoc.
  change (Z.lor 0x40000000 (Z.lor 0x30000000 0x80000000)) with (15 * 2 ^ 28). rewrite lor_shifted by lia. done.
Qed.

Lemma rtl_hand_over_spec s p sz :
  rtl_prepared s p sz ->
  wp rtl8101_hand_over (λ _ s1, exists m,
    s1 = set_m_trace (EvOut 8 (u16 (rtl8101_iobase (m_rtl8101 s) + 0x38)) 0x40 :: m_trace s) (set_m_mem m s) /\
    mem_frame (λ x, rtl_tx A <= x < rtl_tx A + 16) (m_mem s) m /\ rtl_offered sz m) s.
Proof.
  intros ([[Hl [] Hm] _] & -> & Hsz & Esz). pose proof Hl as [].
  unfold wp, rtl8101_hand_over, store_addr, io_outb, io_out, log, rtl8101_tx_desc. run.
  cbn [m_mem m_trace m_rtl8101 set_m_mem]. rewrite rtv_tx0, rtv_txo0, rtv_txp0, Esz, u32_small by lia.
  rewrite !Z.mul_0_r, !Z.add_0_r. rewrite rd32_wr32_far by (unfold apart, rtl_tx_table, rtl_tx; lia).
  pose proof (rtm_txp _ _ _ Hm 0 ltac:(lia)) as Ep. rewrite Z.mul_0_r, Z.add_0_r in Ep. rewrite Ep, rtl_d1_value by lia.
  eexists. split; [reflexivity|]. unfold rtl_tx, rtl_tx_buf in *. split; [frame_stores|split; unfold rtl_tx, rtl_tx_buf].
  - rewrite rd32_wr32, u32_small by lia. done.
  - far_words. by rewrite rd32_wr32.
  - far_words. rewrite rd32_wr32. apply u32_small. lia.
  - far_words. by rewrite rd32_wr32.
Qed.

Lemma rtl_card_keeps_frame s s' (f : list Z) :
  rtl_layout A B j -> bus_step (rtl_card_area A B j) s s' -> Z.of_nat (length f) <= 1600 ->
  rd32 (m_mem s') (rtl_tx A + 8) = rd32 (m_mem s) (rtl_tx A + 8) /\
  rd_bytes (m_mem s') (rtl_tx_buf B 0) (length f) = rd_bytes (m_mem s) (rtl_tx_buf B 0) (length f).
Proof.
  intros [] [HF _ _] Hf. unfold rtl_card_area, vga_window, rtl_tx, rtl_rx, rtl_rx_buf, rtl_tx_buf in *. split.
  - apply (mem_frame_rd32 _ _ _ _ HF); [lia|lia|]. intros x Hx [(i & Hi & Hc)|Hc]; lia.
  - apply (mem_frame_block _ _ _ _ _ HF); [lia|lia|]. intros x Hx [(i & Hi & Hc)|Hc]; lia.
Qed.

Lemma rtl_send_law s p sz :
  rtl_prepared s p sz -> vga_ok (m_vga s) ->
  wp rtl8101_send_packet
    (λ _ s', rtl_held A B j s' /\ drv_step (rtl_area A B j) s s' /\
       rtl_handed s' (rd_bytes (m_mem s) (p - 14) (Z.to_nat (sz + 14)))) s.
Proof.
  intros Hp Hv. pose proof Hp as (Hs & -> & Hsz & Esz). pose proof Hs as [[Hl Hvars Hm] _]. pose proof Hl as [].
  unfold rtl8101_send_packet. do 3 wp_step. eapply wp_mono; [exact (rtl_hand_over_spec _ _ _ Hp)|].
  intros [] s1 (m & E1 & F1 & Ho). wp_step.
  assert (rtl_inv s1) as H1.
  { rewrite E1. split; [|done]. eapply rtl_held_frame; [done|done|exact F1|]. intros x Hx. apply (rtl_area_cells x); [done|].
    cbv beta in Hx. lia. }
  assert (drv_step (rtl_area A B j) s s1) as D1.
  { rewrite E1. split; try done. cbn [m_mem set_m_mem set_m_trace]. eapply mem_frame_weaken; [|exact F1]. intros x Hx. left.
    apply (rtl_area_cells x); [done|]. cbv beta in Hx. lia. }
  eapply wp_mono; [exact (rtl_quiet_wait _ _ _ _ H1)|]. intros [] s2 [[Hs2 Hv2] HF2]. unfold upd_rtl8101. wp_step.
  pose proof (rtl_quiet_vars _ _ HF2) as Ev2.
  replace (rtl_tx_buf B 0 + 14 - 14) with (rtl_tx_buf B 0) by lia.
  set (f := rd_bytes (m_mem s) (rtl_tx_buf B 0) (Z.to_nat (sz + 14))).
  assert (Z.of_nat (length f) = sz + 14) as Ef by (subst f; rewrite length_rd_bytes; lia).
  destruct (rtl_card_keeps_frame s1 s2 f Hl HF2 ltac:(lia)) as [Ea Eb]. split_and!.
  - destruct Hs2 as [[_ [] Hm2] Ho2]. split; [split; [done|by split|done]|done].
  - transitivity s1; [done|]. transitivity s2; [|by split].
    apply bus_step_drv; [done|]. eapply bus_step_weaken; [|exact HF2]. intros x Hx. by apply rtl_card_area_free.
  - unfold rtl_handed. cbn [m_mem m_rtl8101 set_m_rtl8101 rtl8101_send_sz set_rtl8101_tx_offset].
    rewrite Ea, Eb, Ev2, E1. cbn [m_mem m_rtl8101 set_m_mem set_m_trace]. split_and!; [done|lia|lia|apply Ho|].
    subst f. rewrite length_rd_bytes.
    unfold rtl_tx_buf, rtl_tx in *. apply (mem_frame_block _ _ _ _ _ F1); (lia || (intros; lia)).
Qed.

Definition rtl8101_laws (Hl : rtl_layout A B j) : DriverLaws rtl8101_driver :=
  Build_DriverLaws rtl8101_driver (rtl_area A B j) (rtl_held A B j) rtl_prepared rtl_handed 1586
    ltac:(lia) (λ a, rtl_area_screen A B j a Hl) rtl_prepare_law rtl_window_law rtl_prepared_stable
    rtl_send_law rtl_inv_stable rtl_handed_stable.

(** *** Receiving *)

Abbreviation held := (rtl_held_desc A j).

Lemma rtl_held_range : rtl_layout A B j -> 16 <= held /\ held + 16 <= 4294967296.
Proof. intros []. unfold rtl_held_desc, rtl_rx. lia. Qed.

(** The card leaves the held descriptor and its buffer alone. *)
Lemma rtl_held_cells s s' :
  rtl_layout A B j -> card_step (rtl_card_area A B j) s s' ->
  rd32 (m_mem s') held = rd32 (m_mem s) held /\
  load_eth (m_mem s') (rtl_rx_buf B j) = load_eth (m_mem s) (rtl_rx_buf B j) /\
  rd_bytes (m_mem s') (rtl_rx_buf B j) 1600 = rd_bytes (m_mem s) (rtl_rx_buf B j) 1600.
Proof.
  intros [] [HF _ _]. unfold load_eth, rtl_card_area, rtl_held_desc, rtl_tx, rtl_rx, rtl_rx_buf in *.
  assert (forall x, B + 1600 * j <= x < B + 1600 * j + 1600 -> ~ exists i, 0 <= i < 4 /\
    (A + 256 + 16 * i <= x < A + 256 + 16 * i + 8 \/
     i <> j /\ (A + 16 * i <= x < A + 16 * i + 8 \/ B + 1600 * i <= x < B + 1600 * i + 1600))) as Hb.
  { intros x Hx (i & Hi & Hc). lia. }
  split_and!; [| |by apply (mem_frame_block _ _ _ _ _ HF); (lia || (intros; apply Hb; lia))].
  - apply (mem_frame_rd32 _ _ _ _ HF); [lia|lia|]. intros x Hx (i & Hi & Hc). lia.
  - f_equal.
    + apply (mem_frame_block _ _ _ _ _ HF); (lia || (intros; apply Hb; lia)).
    + apply (mem_frame_block _ _ _ _ _ HF); (lia || (intros; apply Hb; lia)).
    + apply (mem_frame_rd16 _ _ _ _ HF); (lia || (intros; apply Hb; lia)).
Qed.

Lemma rtl_bits_held mask s :
  rtl_held A B j s ->
  wp (d1_bits held mask)
    (λ v s', v = Z.land (rd32 (m_mem s) held) mask /\ rtl_held A B j s' /\ card_step (rtl_card_area A B j) s s') s.
Proof.
  intros Hs. pose proof Hs as [[Hl _ _] _]. unfold d1_bits, vload32. wp_step. wp_step.
  eapply wp_mono; [by apply rtl_still_poll|]. intros [] s1 [Hs1 H1]. unfold load32. wp_step. wp_step.
  split_and!; [|done|done]. by rewrite (proj1 (rtl_held_cells _ _ Hl H1)).
Qed.

(** Where the driver and the card write while a descriptor is given back. *)
Definition rtl_work_area (a : Z) : Prop := rtl_card_area A B j a \/ held <= a < held + 16.

Lemma rtl_work_pointers a : rtl_layout A B j -> rtl_card_area A B j a \/ held <= a < held + 8 -> ~ rtl_pointer_cell A a.
Proof.
  intros Hl Ha. pose proof Hl as []. destruct Ha as [Ha|Ha]; [by apply (rtl_card_area_free A B j)|].
  unfold rtl_pointer_cell, rtl_held_desc, rtl_rx in *. intros [|(k & Hk & Hx')]; lia.
Qed.

(** A store to [d1] or [d2] of the held descriptor. *)
Lemma rtl_store_step s a v :
  rtl_idle A B j s -> held <= a <= held + 4 ->
  let s' := set_m_mem (wr32 (m_mem s) a v) s in rtl_idle A B j s' /\ card_step rtl_work_area s s'.
Proof.
  intros Hs Ha s'. pose proof Hs as [Hl _ _]. pose proof (rtl_held_range Hl).
  pose proof (mem_frame_store32 (m_mem s) a v ltac:(lia) ltac:(lia)) as HF. split.
  - eapply rtl_idle_frame; [done|done|exact HF|]. intros x Hx Hc. eapply (rtl_work_pointers x); [done| |done]. cbv beta in Hc. right. lia.
  - split; [|by destruct s|by apply adds_io_same]. eapply mem_frame_weaken; [|exact HF]. intros x Hx. right. cbv beta in Hx. lia.
Qed.

(** A read-modify-write of [d1]. *)
Lemma rtl_rmw_spec (f : Z -> Z) s :
  (forall d, 0 <= d < 4294967296 -> 0 <= f d < 4294967296) -> rtl_held A B j s ->
  wp (v ← vload32 held; store32 held (f v))
    (λ _ s', rtl_idle A B j s' /\ card_step rtl_work_area s s' /\ rd32 (m_mem s') held = f (rd32 (m_mem s) held)) s.
Proof.
  intros Hf Hs. pose proof Hs as [[Hl _ _] _]. unfold vload32. wp_step. wp_step.
  eapply wp_mono; [by apply rtl_still_poll|]. intros [] s1 [Hs1 H1]. unfold load32, store32, upd_mem. wp_step. wp_step.
  destruct (rtl_store_step s1 held (f (rd32 (m_mem s1) held)) (rth_idle _ _ _ _ Hs1) ltac:(lia)) as [Hi H2].
  split_and!; [done| |].
  - transitivity s1; [|done]. eapply card_step_weaken; [|exact H1]. by left.
  - cbn [m_mem set_m_mem]. rewrite rd32_wr32, (proj1 (rtl_held_cells _ _ Hl H1)). apply u32_small, Hf, rd32_range.
Qed.

Lemma word_land d mask : 0 <= d < 4294967296 -> 0 <= mask -> 0 <= Z.land d mask < 4294967296.
Proof.
  intros Hd Hm. split; [apply Z.land_nonneg; lia|]. rewrite <- (u32_small d) by done. unfold u32.
  change 4294967296 with (2 ^ 32) at 1. rewrite <- Z.land_ones, <- Z.land_assoc, (Z.land_comm (Z.ones 32)), Z.land_assoc, Z.land_ones by lia.
  apply Z.mod_pos_bound. lia.
Qed.

Lemma word_lor d mask : 0 <= d < 4294967296 -> 0 <= mask < 4294967296 -> 0 <= Z.lor d mask < 4294967296.
Proof.
  intros Hd Hm. assert (0 <= Z.lor d mask) as H0 by (apply Z.lor_nonneg; lia). split; [done|].
  destruct (Z.eq_dec (Z.lor d mask) 0) as [->|]; [lia|]. change 4294967296 with (2 ^ 32). apply Z.log2_lt_pow2; [lia|].
  rewrite Z.log2_lor by lia. apply Z.max_lub_lt.
  - destruct (Z.eq_dec d 0) as [->|]; [done|]. apply Z.log2_lt_pow2; lia.
  - destruct (Z.eq_dec mask 0) as [->|]; [done|]. apply Z.log2_lt_pow2; lia.
Qed.

(** [d1] of a descriptor given back: the flags the card left but without
    ownership and length, then end of ring for the last one, ownership and the
    full buffer. *)
Definition rtl_reinit_d1 (d : Z) : Z :=
  let d := Z.land d 0x3FFFC000 in
  let d := if j =? 3 then Z.lor d 0x40000000 else d in
  Z.lor d (Z.lor 0x80000000 1600).

Lemma rtl_reinit_d1_bits d :
  0 <= d < 4294967296 ->
  Z.testbit (rtl_reinit_d1 d) 31 = true /\ Z.testbit (rtl_reinit_d1 d) 30 = (j =? 3) /\
  Z.land (rtl_reinit_d1 d) 0x3FFF = 1600.
Proof.
  intros Hd. unfold rtl_reinit_d1.
  assert (forall x k, Z.testbit (Z.lor (if j =? 3 then Z.lor x 0x40000000 else x) 0x80000640) k =
    (Z.testbit x k || ((j =? 3) && Z.testbit 0x40000000 k) || Z.testbit 0x80000640 k)) as Hb.
  { intros x k. rewrite Z.lor_spec. destruct (j =? 3); rewrite ?Z.lor_spec; [done|]. by rewrite orb_false_r. }
  change (Z.lor 0x80000000 1600) with 0x80000640. split_and!.
  - rewrite Hb. by rewrite orb_true_r.
  - rewrite Hb, Z.land_spec. change (Z.testbit 0x3FFFC000 30) with false. rewrite andb_false_r. cbn. by destruct (j =? 3).
  - destruct (j =? 3); rewrite !Z.land_lor_distr_l, <- Z.land_assoc; change (Z.land 0x3FFFC000 0x3FFF) with 0;
      rewrite Z.land_0_r; done.
Qed.

Definition rtl_next : Z := if 4 <=? j + 1 then 0 else j + 1.

(** The descriptor is the card's again, empty, and the next one is current. *)
Record rtl_released (s s' : machine) : Prop := {
  rtr_idle : rtl_idle A B rtl_next s';
  rtr_d1 : rd32 (m_mem s') held = rtl_reinit_d1 (rd32 (m_mem s) held);
  rtr_mem : mem_frame rtl_work_area (m_mem s) (m_mem s');
  rtr_io : adds_io s s';
  rtr_rest : s' = set_m_rtl8101 (set_rtl8101_rx_offset rtl_next (m_rtl8101 s))
    (set_m_trace (m_trace s') (set_m_mem (m_mem s') s))
}.

Lemma rtl_released_owned s s' : rtl_released s s' -> rtl_owns (m_mem s') held.
Proof.
  intros [_ E _ _ _]. unfold rtl_owns. rewrite E. intros Hz.
  destruct (rtl_reinit_d1_bits (rd32 (m_mem s) held) (rd32_range _ _)) as [Hb _].
  apply (f_equal (λ z, Z.testbit z 31)) in Hz. rewrite Z.land_spec, Hb, Z.bits_0 in Hz. done.
Qed.

(** The buffer address is stored again, as it was. *)
Lemma rtl_store_addr s :
  rtl_idle A B j s -> wp (store_addr held (rtl_rx_buf B j))
    (λ _ s', rtl_idle A B j s' /\ card_step rtl_work_area s s' /\ rd32 (m_mem s') held = rd32 (m_mem s) held) s.
Proof.
  intros Hs. pose proof Hs as [Hl Hv Hm]. pose proof (rtl_held_range Hl). pose proof Hl as [].
  unfold wp, store_addr. run. cbn [m_mem set_m_mem].
  set (m' := wr32 (wr32 (m_mem s) (held + 8) (rtl_rx_buf B j)) (held + 12) 0).
  assert (mem_frame (λ x, held + 8 <= x < held + 16) (m_mem s) m') as HF by (subst m'; frame_stores).
  split_and!.
  - split; [done|done|]. cbn [m_mem set_m_mem]. destruct Hm as [H1 H2 H3].
    unfold rtl_held_desc, rtl_tx_table, rtl_rx_table, rtl_rx in *. split; intros i Hi; unfold rtl_tx_table, rtl_rx_table, rtl_rx.
    + rewrite (mem_frame_rd32 _ _ _ _ HF) by (lia || (intros; lia)). by apply H1.
    + rewrite (mem_frame_rd32 _ _ _ _ HF) by (lia || (intros; lia)). by apply H2.
    + destruct (decide (i = j)) as [->|Hne].
      * subst m'. far_words. rewrite rd32_wr32. apply u32_small. unfold rtl_rx_buf. lia.
      * rewrite (mem_frame_rd32 _ _ _ _ HF) by (lia || (intros; lia)). by apply H3.
  - split; [|by destruct s|by apply adds_io_same]. eapply mem_frame_weaken; [|exact HF]. intros x Hx. right. cbv beta in Hx. lia.
  - apply (mem_frame_rd32 _ _ _ _ HF); (lia || (intros; lia)).
Qed.

Lemma rtl_not_owned s d mask :
  rtl_idle A B j s -> rd32 (m_mem s) held = d -> Z.land d mask = 0 -> mask = 0x80000000 -> rtl_held A B j s.
Proof. intros Hi E Hd ->. split; [done|]. unfold rtl_owns. rewrite E, Hd. by intros Hn. Qed.

Lemma rtl_reinit_spec s :
  rtl_held A B j s ->
  wp (rtl8101_rx_reinit held j)
    (λ _ s', rtl_idle A B j s' /\ card_step rtl_work_area s s' /\
       rd32 (m_mem s') held = rtl_reinit_d1 (rd32 (m_mem s) held)) s.
Proof.
  intros Hs. pose proof Hs as [[Hl _ _] _]. pose proof (rtl_held_range Hl). set (d := rd32 (m_mem s) held).
  assert (0 <= d < 4294967296) as Hd by apply rd32_range.
  unfold rtl8101_rx_reinit, store32, upd_mem. wp_step. wp_step.
  destruct (rtl_store_step s (held + 4) 0 (rth_idle _ _ _ _ Hs) ltac:(lia)) as [Hi1 H1]. set (s1 := set_m_mem _ s) in *.
  assert (rd32 (m_mem s1) held = d) as E1 by (apply rd32_wr32_far; unfold apart; lia).
  assert (rtl_held A B j s1) as Hs1 by (split; [done|]; unfold rtl_owns; rewrite E1; apply Hs).
  wp_step. eapply wp_mono; [apply (rtl_rmw_spec (λ v, Z.land v 0x3FFFC000)); [|done]; intros; by apply word_land|].
  intros [] s2 (Hi2 & H2 & E2). rewrite E1 in E2. pose proof Hi2 as [_ Hv2 Hm2].
  unfold load32. do 4 wp_step. rewrite (rtv_rxp _ _ _ Hv2), (rtm_rxp _ _ _ Hm2), (rtv_size _ _ _ Hv2) by apply Hl.
  wp_step. eapply wp_mono; [by apply rtl_store_addr|]. intros [] s3 (Hi3 & H3 & E3). rewrite E2 in E3.
  change (u32 (4 - 1)) with 3. wp_step.
  set (d2 := Z.land d 0x3FFFC000) in *. assert (0 <= d2 < 4294967296) as Hd2 by by apply word_land.
  assert (Z.land d2 0x80000000 = 0) as Hn2 by (subst d2; rewrite <- Z.land_assoc; apply Z.land_0_r).
  assert (wp (when (j =? 3) (d1_or held 0x40000000))
    (λ _ s', rtl_held A B j s' /\ card_step rtl_work_area s3 s' /\
       rd32 (m_mem s') held = if j =? 3 then Z.lor d2 0x40000000 else d2) s3) as Hw.
  { pose proof (rtl_not_owned s3 d2 _ Hi3 E3 Hn2 eq_refl) as Hs3. apply wp_when; intros Ej; rewrite Ej; [|done].
    eapply wp_mono; [apply (rtl_rmw_spec (λ v, Z.lor v 0x40000000)); [|done]; intros; by apply word_lor|].
    intros [] s4 (Hi4 & H4 & E4). rewrite E3 in E4. split_and!; [|done|done].
    eapply rtl_not_owned; [done|exact E4| |reflexivity]. by rewrite Z.land_lor_distr_l, Hn2. }
  eapply wp_mono; [exact Hw|]. intros [] s4 (Hs4 & H4 & E4).
  eapply wp_mono; [apply (rtl_rmw_spec (λ v, Z.lor v (Z.lor 0x80000000 1600))); [|done]; intros; by apply word_lor|].
  intros [] s5 (Hi5 & H5 & E5). split_and!; [done| |by rewrite E5, E4].
  etransitivity; [exact H1|]. etransitivity; [exact H2|]. etransitivity; [exact H3|]. by etransitivity.
Qed.

Lemma rtl_discard_spec s :
  rtl_held A B j s -> wp (rtl8101_discard held) (λ _ s', rtl_released s s') s.
Proof.
  intros Hs. pose proof Hs as [[Hl Hv _] _]. unfold rtl8101_discard. wp_step. wp_step. rewrite (rtv_rxo _ _ _ Hv).
  wp_step. eapply wp_mono; [by apply rtl_reinit_spec|]. intros [] s1 ([_ Hv1 Hm1] & [F1 E1 I1] & Ed).
  unfold rtl8101_adv_packet, upd_rtl8101. wp_step. rewrite (rtv_size _ _ _ Hv1), (rtv_rxo _ _ _ Hv1). fold rtl_next.
  split; [|done|done|done|].
  - destruct Hl, Hv1. split; [|by split|done]. split; try done. unfold rtl_next. case_bool; bool_to_prop; lia.
  - cbn [m_trace m_mem set_m_rtl8101]. rewrite E1 at 1. rewrite E1. done.
Qed.

(** What a descriptor with [d1] gives. *)
Definition rtl_classify (d1 : Z) : rx_verdict :=
  if negb (Z.land d1 0x80000000 =? 0) then NotOurs
  else if negb (Z.land d1 (Z.shiftl 1 21) =? 0) then Discard
  else if negb (Z.land d1 (Z.shiftl 1 29) =? 0) && negb (Z.land d1 (Z.shiftl 1 28) =? 0) then
    if 14 <=? Z.land d1 0x3FFF then Frame else Runt
  else Discard.

(** The state after the first look at the descriptor. *)
Definition rtl_looked (s : machine) : machine :=
  set_m_trace (EvPoll held :: m_trace s) (set_m_mem (env_dma (m_trace s) (m_mem s)) s).

Definition rtl_outcome (s : machine) (r : option (Z * Z * ethernet_frame_header)) (s' : machine) : Prop :=
  let s1 := rtl_looked s in
  let d1 := rd32 (m_mem s1) held in
  match rtl_classify d1 with
  | NotOurs => r = None /\ s' = s1
  | Discard => r = None /\ exists s2, rtl_held A B j s2 /\ card_step (rtl_card_area A B j) s1 s2 /\ rtl_released s2 s'
  | Runt => r = None /\ rtl_held A B j s' /\ card_step (rtl_card_area A B j) s1 s'
  | Frame =>
      r = Some (rtl_rx_buf B j + 14, Z.land d1 0x3FFF - 14, load_eth (m_mem s1) (rtl_rx_buf B j)) /\
      rtl_held A B j s' /\ card_step (rtl_card_area A B j) s1 s'
  end.

Lemma rtl_looked_idle s : rtl_idle A B j s -> rtl_idle A B j (rtl_looked s).
Proof.
  intros Hs. pose proof Hs as [Hl _ _]. eapply rtl_idle_frame; [done|done|apply (rtl_card_frame A B)|].
  intros x Hx Hc. by eapply rtl_card_pointers.
Qed.

Lemma rtl_outcome_discard s1 s2 :
  rtl_held A B j s2 -> card_step (rtl_card_area A B j) s1 s2 ->
  wp (rtl8101_discard held ;; mret (None : option (Z * Z * ethernet_frame_header)))
    (λ r s', r = None /\ exists s2, rtl_held A B j s2 /\ card_step (rtl_card_area A B j) s1 s2 /\ rtl_released s2 s') s2.
Proof.
  intros Hh Hk. wp_step. eapply wp_mono; [by apply rtl_discard_spec|]. intros [] s3 Hr. wp_step. split; [done|]. by exists s2.
Qed.

(** Another look at the held descriptor: the same [d1], card steps added up. *)
Lemma rtl_bits_again mask s1 s2 :
  rtl_held A B j s2 -> card_step (rtl_card_area A B j) s1 s2 ->
  wp (d1_bits held mask)
    (λ v s3, v = Z.land (rd32 (m_mem s1) held) mask /\ rtl_held A B j s3 /\ card_step (rtl_card_area A B j) s1 s3) s2.
Proof.
  intros Hs Hk. pose proof Hs as [[Hl _ _] _]. eapply wp_mono; [by apply rtl_bits_held|].
  intros v s3 (-> & Hs3 & H3). split_and!; [by rewrite (proj1 (rtl_held_cells _ _ Hl Hk))|done|by etransitivity].
Qed.

Lemma rtl_get_packet_spec s :
  rtl_idle A B j s -> wp rtl8101_get_packet (λ r s', rtl_outcome s r s') s.
Proof.
  intros Hs. pose proof Hs as [Hl Hv Hm]. unfold rtl8101_get_packet. wp_step. wp_step.
  unfold rtl8101_rx_desc. rewrite (rtv_rx _ _ _ Hv), (rtv_rxo _ _ _ Hv). fold (rtl_held_desc A j). wp_step.
  change (wp (d1_bits held 0x80000000) ?Q s) with (Q (Z.land (rd32 (m_mem (rtl_looked s)) held) 0x80000000) (rtl_looked s)).
  cbv beta. pose proof (rtl_looked_idle s Hs) as Hi1. unfold rtl_outcome, rtl_classify. set (s1 := rtl_looked s) in *.
  set (d1 := rd32 (m_mem s1) held).
  destruct (Z.land d1 0x80000000 =? 0) eqn:Eown; cbn [negb]; [|by wp_step]. bool_to_prop.
  assert (rtl_held A B j s1) as H1 by (split; [done|]; unfold rtl_owns; fold d1; rewrite Eown; by intros Hn).
  wp_step. eapply wp_mono; [by apply (rtl_bits_again _ s1)|]. intros err s2 (-> & H2 & K2). fold d1.
  destruct (Z.land d1 (Z.shiftl 1 21) =? 0); cbn [negb]; [|by apply rtl_outcome_discard].
  wp_step. eapply wp_mono; [by apply (rtl_bits_again _ s1)|]. intros fs s3 (-> & H3 & K3). fold d1. wp_step.
  destruct (Z.land d1 (Z.shiftl 1 29) =? 0); cbn [negb andb].
  - wp_step. wp_step. eapply wp_mono; [by apply (rtl_bits_again _ s1)|]. intros fs s4 (-> & H4 & K4).
    case_bool; by apply rtl_outcome_discard.
  - wp_step. eapply wp_mono; [by apply (rtl_bits_again _ s1)|]. intros ls s4 (-> & H4 & K4). fold d1. wp_step.
    destruct (Z.land d1 (Z.shiftl 1 28) =? 0); cbn [negb].
    + wp_step. eapply wp_mono; [by apply (rtl_bits_again _ s1)|]. intros fs' s5 (-> & H5 & K5).
      case_bool; by apply rtl_outcome_discard.
    + wp_step. eapply wp_mono; [by apply (rtl_bits_again _ s1)|]. intros len s5 (-> & H5 & K5). fold d1.
      destruct (14 <=? Z.land d1 0x3FFF) eqn:E14; [|by wp_step].
      unfold load32. do 7 wp_step. pose proof H5 as [[_ Hv5 Hm5] _].
      rewrite (rtv_rxp _ _ _ Hv5), (rtv_rxo _ _ _ Hv5), (rtm_rxp _ _ _ Hm5) by apply Hl.
      by rewrite (proj1 (proj2 (rtl_held_cells _ _ Hl K5))).
Qed.

Lemma rtl_put_packet_spec s p :
  rtl_held A B j s -> wp (rtl8101_put_packet p) (λ _ s', rtl_released s s') s.
Proof.
  intros Hs. pose proof Hs as [[_ Hv _] _]. unfold rtl8101_put_packet. wp_step. wp_step.
  unfold rtl8101_rx_desc. rewrite (rtv_rx _ _ _ Hv), (rtv_rxo _ _ _ Hv). by apply rtl_discard_spec.
Qed.

End Laws.

(** ** Initialisation *)

Section Init.
Context `{Env}.

(** Descriptor [i] points at [p], with [own], end of ring and a full buffer. *)
Definition rtl_desc_set (ring own i p : Z) (m : gmap Z Z) : Prop :=
  rd32 m (ring + 16 * i) = Z.lor (Z.lor own (end_of_ring i)) 1600 /\ rd32 m (ring + 16 * i + 8) = p.

Lemma rtl_desc_set_frame ring own P i p m m' :
  0 <= ring -> ring + 64 <= 4294967296 -> 0 <= i < 4 -> mem_frame P m m' ->
  (forall x, ring + 16 * i <= x < ring + 16 * i + 16 -> ~ P x) -> rtl_desc_set ring own i p m -> rtl_desc_set ring own i p m'.
Proof.
  intros Hr Hre Hi HF HP [E0 E8]. split; (rewrite (mem_frame_rd32 _ _ _ _ HF); [done|lia|lia|intros; apply HP; lia]).
Qed.

Lemma rtl_d1_range own i : own = 0 \/ own = 0x80000000 -> 0 <= Z.lor (Z.lor own (end_of_ring i)) 1600 < 4294967296.
Proof. unfold end_of_ring. intros [->| ->]; destruct (i =? 3); vm_compute; split; congruence. Qed.

Lemma rtl_setup_desc_spec ring tbl own :
  own = 0 \/ own = 0x80000000 -> 0 <= ring -> ring + 64 <= 4294967296 ->
  sets_up 4 ring tbl (rtl_desc_set ring own) (rtl8101_setup_desc ring tbl own).
Proof.
  intros Hown Hr Hre s i Hi. unfold wp, rtl8101_setup_desc, store_addr. run. cbn [m_mem set_m_mem].
  eexists. split_and!; [reflexivity|frame_stores|split].
  - rewrite rd32_wr32. by apply u32_small, rtl_d1_range.
  - far_words. rewrite rd32_wr32. apply u32_small, rd32_range.
Qed.

(** The rings after [rtl8101_setup_rings]: every receive descriptor is the
    card's, every transmit descriptor the driver's. *)
Record rtl_fresh (A B : Z) (m : gmap Z Z) : Prop := {
  rtf_mem : rtl_mem A B m;
  rtf_rx : forall i, 0 <= i < 4 -> rd32 m (rtl_rx A + 16 * i) = Z.lor (Z.lor 0x80000000 (end_of_ring i)) 1600;
  rtf_tx : forall i, 0 <= i < 4 -> rd32 m (rtl_tx A + 16 * i) = Z.lor (Z.lor 0 (end_of_ring i)) 1600
}.

Lemma rtl_setup_rings_spec A s :
  let B := align_up (m_alloc s) 32 in
  rtl8101_rx (m_rtl8101 s) = rtl_rx A -> rtl8101_tx (m_rtl8101 s) = rtl_tx A ->
  rtl8101_rx_packets (m_rtl8101 s) = rtl_rx_table A -> rtl8101_tx_packets (m_rtl8101 s) = rtl_tx_table A ->
  0 <= A -> A + 352 <= m_alloc s -> m_alloc s + 12832 < 4294967296 ->
  wp rtl8101_setup_rings
    (λ _ s', exists m, s' = set_m_alloc (B + 12800) (set_m_mem m s) /\ rtl_fresh A B m) s.
Proof.
  intros B Erx Etx Erxp Etxp HA Ha Hend.
  assert (m_alloc s <= B < m_alloc s + 32) as HB.
  { subst B. change 32 with (2 ^ 5). apply align_up_spec; lia. }
  unfold rtl_rx, rtl_tx, rtl_rx_table, rtl_tx_table in *.
  unfold rtl8101_setup_rings. wp_step. wp_step. rewrite Erx, Etx, Erxp, Etxp.
  unfold do_memset, upd_mem, align_alloc. do 10 wp_step. cbn [m_mem m_alloc set_m_mem set_m_alloc]. fold B.
  wp_step. eapply wp_mono; [apply (alloc_buffers_spec 4 (A + 320) B); cbn; lia|]. intros [] s1 (m1 & -> & F1 & T1).
  wp_step. eapply wp_mono; [apply (alloc_buffers_spec 4 (A + 336) (B + 6400)); cbn; lia|]. intros [] s2 (m2 & -> & F2 & T2).
  cbn [m_mem set_m_mem set_m_alloc] in *.
  assert (forall i, 0 <= i < 4 -> rd32 m2 (A + 320 + 4 * i) = rtl_rx_buf B i) as T1'.
  { intros i Hi. rewrite (mem_frame_rd32 _ _ _ _ F2) by (lia || (intros; lia)). by apply T1. }
  wp_step. eapply wp_mono.
  { apply (setup_ring_spec 4 A (A + 320) (rtl_desc_set A 0x80000000)) with (buf := rtl_rx_buf B); try lia;
      [intros; eapply rtl_desc_set_frame; (done || lia)|apply rtl_setup_desc_spec; auto; lia|done]. }
  intros [] s3 (m3 & -> & F3 & R3). cbn [m_mem set_m_mem set_m_alloc] in *.
  assert (forall i, 0 <= i < 4 -> rd32 m3 (A + 336 + 4 * i) = rtl_tx_buf B i) as T2'.
  { intros i Hi. rewrite (mem_frame_rd32 _ _ _ _ F3) by (lia || (intros; lia)). by apply T2. }
  eapply wp_mono.
  { apply (setup_ring_spec 4 (A + 256) (A + 336) (rtl_desc_set (A + 256) 0)) with (buf := rtl_tx_buf B); try lia;
      [intros; eapply rtl_desc_set_frame; (done || lia)|apply rtl_setup_desc_spec; auto; lia|done]. }
  intros [] s4 (m4 & -> & F4 & R4). cbn [m_mem set_m_mem set_m_alloc] in *. exists m4. split.
  - by replace (B + 6400 + 1600 * Z.of_nat 4) with (B + 12800) by lia.
  - assert (forall i, 0 <= i < 4 -> rtl_desc_set A 0x80000000 i (rtl_rx_buf B i) m4) as R3'.
    { intros i Hi. eapply rtl_desc_set_frame; [lia|lia|lia|exact F4| |by apply R3]. cbv beta. lia. }
    split; [split|..]; intros i Hi; unfold rtl_tx_table, rtl_rx_table, rtl_tx, rtl_rx.
    + rewrite (mem_frame_rd32 _ _ _ _ F4) by (lia || (intros; lia)). by apply T2'.
    + rewrite (mem_frame_rd32 _ _ _ _ F4), (mem_frame_rd32 _ _ _ _ F3) by (lia || (intros; lia)). by apply T1'.
    + by apply R3'.
    + by apply R3'.
    + by apply R4.
Qed.

Lemma rtl_alloc_once_null get set n s :
  get (m_rtl8101 s) = 0 ->
  rtl8101_alloc_once get set n s =
    inr (tt, set_m_rtl8101 (set (m_alloc s) (m_rtl8101 s)) (set_m_alloc (u32 (m_alloc s + n)) s)).
Proof. intros E. unfold rtl8101_alloc_once, do_alloc. run. by rewrite E. Qed.

(** The variables before the first initialisation: no ring, six MAC bytes. *)
Record rtl_cold (st : rtl8101_state) : Prop := {
  rtc_rx : rtl8101_rx st = 0;
  rtc_tx : rtl8101_tx st = 0;
  rtc_rxp : rtl8101_rx_packets st = 0;
  rtc_txp : rtl8101_tx_packets st = 0;
  rtc_mac : length (rtl8101_mac_address st) = 6%nat;
  rtc_bytes : Forall (λ b, 0 <= b < 256) (rtl8101_mac_address st)
}.

Lemma align_up_aligned a k b :
  0 <= k < 32 -> 0 <= a -> a mod 2 ^ k = 0 -> 0 < b <= 2 ^ k -> a + b + 2 ^ k <= 4294967296 -> align_up (a + b) (2 ^ k) = a + 2 ^ k.
Proof.
  intros Hk Ha Hm Hb Hend. destruct (align_up_spec (a + b) k) as [[H1 H2] H3]; [lia|lia|lia|].
  assert (0 < 2 ^ k) as Hp by (apply Z.pow_pos_nonneg; lia).
  pose proof (Z.div_mod a (2 ^ k) ltac:(lia)). pose proof (Z.div_mod (align_up (a + b) (2 ^ k)) (2 ^ k) ltac:(lia)).
  assert (a / 2 ^ k < align_up (a + b) (2 ^ k) / 2 ^ k <= a / 2 ^ k + 1) by nia. nia.
Qed.

Lemma rtl_alloc_rings_spec A s :
  align_up (m_alloc s) 256 = A -> rtl_cold (m_rtl8101 s) -> 0 <= A -> A mod 256 = 0 -> A + 1024 < 4294967296 ->
  rtl8101_alloc_rings s = inr (tt, set_m_rtl8101 (set_rtl8101_tx_packets (A + 336) (set_rtl8101_rx_packets (A + 320)
    (set_rtl8101_tx (A + 256) (set_rtl8101_rx A (set_rtl8101_ring_size 4 (m_rtl8101 s)))))) (set_m_alloc (A + 352) s)).
Proof.
  intros EA [] HA Hal Hend.
  pose proof (align_up_aligned A 8 64 ltac:(lia) HA Hal ltac:(lia) ltac:(lia)) as E1.
  pose proof (align_up_aligned (A + 304) 4 16 ltac:(lia) ltac:(lia) ltac:(Z.div_mod_to_equations; lia) ltac:(lia) ltac:(lia)) as E2.
  change (2 ^ 8) with 256 in E1. change (2 ^ 4) with 16 in E2.
  replace (A + 304 + 16) with (A + 320) in E2 by lia.
  unfold rtl8101_alloc_rings, align_alloc, upd_rtl8101, mbind, SM_bind, modify.
  cbn [m_rtl8101 m_alloc set_m_rtl8101 set_m_alloc]. rewrite EA.
  rewrite rtl_alloc_once_null by done. cbn [m_rtl8101 m_alloc set_m_rtl8101 set_m_alloc]. rewrite (u32_small (A + 64)), E1 by lia.
  rewrite rtl_alloc_once_null by done. cbn [m_rtl8101 m_alloc set_m_rtl8101 set_m_alloc].
  rewrite (u32_small (A + 256 + 64)) by lia. replace (A + 256 + 64) with (A + 320) by lia. rewrite E2.
  rewrite rtl_alloc_once_null by done. cbn [m_rtl8101 m_alloc set_m_rtl8101 set_m_alloc]. rewrite (u32_small (A + 320 + 16)) by lia.
  rewrite rtl_alloc_once_null by done. cbn [m_rtl8101 m_alloc set_m_rtl8101 set_m_alloc]. rewrite u32_small by lia.
  replace (A + 320 + 16) with (A + 336) by lia. replace (A + 336 + 16) with (A + 352) by lia. done.
Qed.

(** What reading the MAC address and programming the card keep. *)
Record rtl_core (a : Z) (net : net_state) (v : vga_state) (s : machine) : Prop := {
  rco_cold : rtl_cold (m_rtl8101 s);
  rco_alloc : m_alloc s = a;
  rco_net : m_net s = net;
  rco_vga : m_vga s = v
}.

Lemma rtl_core_io {T} a net v (c : M T) : port_io c -> stays (rtl_core a net v) (λ _ _, True) c.
Proof. intros Hc s []. eapply wp_mono; [by apply Hc|]. intros x s' [_ [tr [-> _]]]. by split. Qed.

Lemma rtl_core_mac a net v p i :
  stays (rtl_core a net v) (λ _ _, True) (v ← io_inb p;
    upd_rtl8101 (λ st, set_rtl8101_mac_address (<[Z.to_nat i := v]> (rtl8101_mac_address st)) st)).
Proof.
  intros s [[] ? ? ?]. unfold io_inb, io_in, log, upd_rtl8101. wp_steps. split; [|done]. split; [|done..]. split; cbn; try done.
  - by rewrite length_insert.
  - apply Forall_insert; [done|apply u8_range].
Qed.

#[local] Instance always_preorder : PreOrder (λ _ _ : machine, True).
Proof. by split. Qed.

Lemma rtl_start_card_spec A net v s :
  let B := align_up (A + 352) 32 in
  align_up (m_alloc s) 256 = A -> rtl_core (m_alloc s) net v s -> 0 <= A -> A mod 256 = 0 -> A + 16384 < 4294967296 ->
  wp rtl8101_start_card
    (λ r s', r = 1 /\ rtl_vars A 0 (m_rtl8101 s') /\ rtl_fresh A B (m_mem s') /\ m_alloc s' = B + 12800 /\
       m_vga s' = v /\ exists mac, m_net s' = set_my_eth_mac mac net /\ length mac = 6%nat /\ Forall (λ b, 0 <= b < 256) mac) s.
Proof.
  intros B EA Hc HA Hal Hend. unfold rtl8101_start_card. wp_step. wp_step. set (io := rtl8101_iobase _).
  wp_step. eapply (stays_wp _ (λ _ _, True)).
  { apply stays_for_range; [typeclasses eauto|]. intros k. apply rtl_core_mac. }
  { exact Hc. }
  intros [] s1 Hc1 _.
  do 3 (wp_step; eapply (stays_wp _ (λ _ _, True)); [apply rtl_core_io; solve_stays|eassumption|]; intros [] ? ? _).
  match goal with H : rtl_core _ _ _ ?s |- wp _ _ ?s => rename s into s2; rename H into Hc2 end.
  pose proof Hc2 as [Hcold Eal Enet Evga]. wp_step. unfold wp at 1. rewrite (rtl_alloc_rings_spec A) by (by rewrite ?Eal || done || lia).
  wp_step. eapply wp_mono; [apply (rtl_setup_rings_spec A); cbn; (done || lia)|]. intros [] s3 (m & -> & Hf).
  cbn [m_alloc set_m_alloc set_m_rtl8101] in *. fold B in Hf |- *. unfold upd_rtl8101, upd_net. do 8 wp_step.
  destruct Hcold. unfold wp, io_outl, io_outb, io_out, log. run.
  cbn [m_mem m_rtl8101 m_alloc m_vga m_net set_m_trace set_m_rtl8101 set_m_net set_m_mem set_m_alloc].
  split_and!; [done|by split|done|done|done|]. eexists. by rewrite Enet.
Qed.

(** The first initialisation of a card with an I/O range.  Whether it succeeds
    depends on one look at the command register after the reset command: the
    test of [patience] is the wrong way round, so that a reset still under way
    makes the driver give up at once. *)
Lemma rtl_init_spec s d i b :
  let A := align_up (m_alloc s) 256 in
  let B := align_up (A + 352) 32 in
  let port := u16 (u32 (bar_start b) + 0x37) in
  rtl8101_known_pci_id (Some d) = 1 -> rtl8101_find_io (pd_BAR d) = Some (i, b) -> rtl_cold (m_rtl8101 s) ->
  16 <= m_alloc s -> m_alloc s + 16640 < 4294967296 ->
  786432 <= m_alloc s \/ m_alloc s + 16640 <= 753664 ->
  exists tr, let look := u8 (env_in (EvOut 8 port 0x10 :: tr) 8 port) in
  wp (rtl8101_init (Some d))
    (λ r s', (Z.land look 0x10 = 0 ->
       r = 1 /\ rtl_idle A B 0 s' /\ rtl_fresh A B (m_mem s') /\ m_alloc s' = B + 12800 /\ m_vga s' = m_vga s /\
       exists mac, m_net s' = set_my_eth_mac mac (m_net s) /\ length mac = 6%nat /\ Forall (λ b, 0 <= b < 256) mac) /\
     (Z.land look 0x10 <> 0 ->
       r = 0 /\ m_mem s' = m_mem s /\ m_alloc s' = m_alloc s /\ m_net s' = m_net s)) s.
Proof.
  intros A B port Hid Hio Hcold Ha Hend Hscr.
  assert (m_alloc s <= A < m_alloc s + 256 /\ A mod 256 = 0) as [HA Hal].
  { subst A. change 256 with (2 ^ 8). apply align_up_spec; lia. }
  assert (A + 352 <= B < A + 352 + 32) as HB.
  { subst B. change 32 with (2 ^ 5). apply align_up_spec; lia. }
  set (s0 := set_m_rtl8101 (set_rtl8101_io (Some (Z.of_nat i)) (set_rtl8101_io None (m_rtl8101 s))) s).
  assert (wp (pci_config_write_imm (pd_bus d) (pd_device d) (pd_function d) 4 0x29F) (λ _ s1, io_only s0 s1) s0) as Hpci.
  { eapply wp_mono; [by apply io_only_write|]. by intros ? ? []. }
  apply wp_run in Hpci as ([] & s1 & E1 & tr1 & Es1 & _).
  exists (EvOut 16 (u16 (u32 (bar_start b) + 0x3C)) 0 :: tr1 ++ m_trace s). cbv zeta.
  unfold rtl8101_init. rewrite Hid, Hio. cbn [Z.eqb]. unfold upd_rtl8101. do 5 wp_step.
  unfold wp at 1.
  match goal with |- context [pci_config_write_imm _ _ _ _ _ ?x] => change x with s0 end. rewrite E1, Es1. unfold io_outw, io_outl, io_outb, io_out, log. wp_steps.
  cbn [rtl8101_reset_loop]. unfold io_inb, io_in, log. wp_steps.
  set (look := u8 (env_in (EvOut 8 port 0x10 :: _) 8 port)).
  match goal with |- wp (if Z.land ?l _ =? 0 then _ else _) _ _ => change l with look end.
  destruct (Z.land look 0x10 =? 0) eqn:El; bool_to_prop.
  - wp_steps. cbn [negb]. unfold io_outw, io_outl, io_out, log. wp_steps.
    match goal with |- wp _ _ ?x => set (s2 := x) end.
    assert (rtl_core (m_alloc s) (m_net s) (m_vga s) s2) as Hcore by (destruct Hcold; by split). clearbody s2.
    pose proof (rco_alloc _ _ _ _ Hcore) as Eal. rewrite <- Eal in Hcore.
    eapply wp_mono; [apply (rtl_start_card_spec A (m_net s) (m_vga s)); [by rewrite Eal|done|lia|done|lia]|].
    intros r s' (-> & Hv & Hf & Hal' & Hvga & Hn). split; [|done]. intros _. split_and!; try done.
    split; [split; lia|done|apply Hf].
  - change (u32 (200 - 1)) with 199. cbn [Z.eqb negb]. wp_steps. by split.
Qed.

End Init.
