(* ===== verification/RefEth.v ===== *)
(** * The RealTek test program (eth/ref/eth.c)

    A Linux program that resets a RealTek card at a fixed port and programs its
    registers: the sequence the 8101 driver was written from. *)

From S2P Require Import Prelude Machine Memory.

Definition rtl_base_io : Z := 0x3000.

Section RefEth.
Context `{Env}.

(** [while (io_inb(rtl_base_io+0x37) & 0x10) { if (--patience != 0) return 1; }];
    [false] for the [return]. *)
Fixpoint ref_reset_loop (fuel : nat) (patience : Z) : M bool :=
  match fuel with
  | O => halt NoReturn
  | S f =>
      c ← io_inb (rtl_base_io + 0x37);
      if Z.land c 0x10 =? 0 then mret true else
      let patience := u32 (patience - 1) in
      if negb (patience =? 0) then mret false else ref_reset_loop f patience
  end.

(** [for (i=0;i < 6;i++) rtl_mac_address[i] = io_inb(rtl_base_io+0x00+i);] *)
Fixpoint ref_read_mac (n : nat) (i : Z) : M (list Z) :=
  match n with
  | O => mret []
  | S n' => b ← io_inb (rtl_base_io + 0x00 + i); l ← ref_read_mac n' (i + 1); mret (b :: l)
  end.

(** The return value and, when it gets that far, [rtl_mac_address]; [iopl] is
    the result of [iopl(3)]. *)
Definition ref_eth_main (iopl : Z) : M (Z * option (list Z)) :=
  if negb (iopl =? 0) then mret (1, None) else
  io_outw (rtl_base_io + 0x3C) 0x0000 ;;
  io_outb (rtl_base_io + 0x37) 0x10 ;;
  ready ← ref_reset_loop 2 200;
  if negb ready then mret (1, None) else
  io_outw (rtl_base_io + 0x3E) 0xFFFF ;;
  io_outl (rtl_base_io + 0x40) (Z.lor 0x0000 (Z.shiftl 3 24)) ;;
  io_outl (rtl_base_io + 0x44) 0x008F ;;
  mac ← ref_read_mac 6 0;
  io_outl (rtl_base_io + 0x08) 0xFFFFFFFF ;;
  io_outl (rtl_base_io + 0x0C) 0xFFFFFFFF ;;
  io_outw (rtl_base_io + 0x62) 0x1200 ;;
  io_outb (rtl_base_io + 0x37) 0x0C ;;
  mret (0, Some mac).

(** The writes of a history, latest first. *)
Definition port_writes (tr : list event) : list (Z * Z) :=
  omap (λ e, match e with EvOut _ p v => Some (p, v) | _ => None end) tr.

Definition wrote (ws : list (Z * Z)) (s s' : machine) : Prop :=
  exists tr, s' = set_m_trace (tr ++ m_trace s) s /\ executed tr = [] /\ port_writes tr = ws.

Lemma wrote_trans w1 w2 s1 s2 s3 : wrote w1 s1 s2 -> wrote w2 s2 s3 -> wrote (w2 ++ w1) s1 s3.
Proof.
  intros (t1 & -> & X1 & <-) (t2 & -> & X2 & <-). exists (t2 ++ t1). cbn [m_trace set_m_trace].
  split_and!; [by rewrite <- app_assoc|by rewrite executed_app, X1, X2|apply omap_app].
Qed.

Lemma out_wrote w p v s : wp (io_out w p v) (λ _ s', wrote [(u16 p, v)] s s') s.
Proof. unfold io_out, log. wp_step. by exists [EvOut w (u16 p) v]. Qed.

Lemma inb_wrote p s : wp (io_inb p) (λ b s', b = u8 (env_in (m_trace s) 8 (u16 p)) /\ wrote [] s s') s.
Proof. unfold io_inb, io_in, log. wp_steps. split; [done|]. by exists [EvIn 8 (u16 p) (env_in (m_trace s) 8 (u16 p))]. Qed.

Lemma read_mac_wrote n : forall i s,
  wp (ref_read_mac n i) (λ l s', length l = n /\ Forall (λ b, 0 <= b < 256) l /\ wrote [] s s') s.
Proof.
  induction n as [|n IH]; intros i s; cbn [ref_read_mac]; [wp_step; split_and!; [done..|by exists []; destruct s]|].
  wp_step. eapply wp_mono; [apply inb_wrote|]. intros b s1 [-> W1]. wp_step. eapply wp_mono; [apply IH|].
  intros l s2 (Hl & Hb & W2). wp_step. split_and!; [by rewrite <- Hl|constructor; [apply u8_range|done]|exact (wrote_trans _ _ _ _ _ W1 W2)].
Qed.

(** The next statement writes a port. *)
Ltac wrote_step :=
  wp_step; eapply wp_mono; [apply out_wrote|];
  let W := fresh "W" in let W' := fresh "W" in
  intros [] ? W;
  try match goal with W0 : wrote _ ?s ?a, W1 : wrote _ ?a ?b |- _ => pose proof (wrote_trans _ _ _ _ _ W0 W1) as W'; clear W0 W1 end.

(** The program returns for every behaviour of the card.  The first look at the
    reset bit decides: with the bit set it gives up after the two writes of the
    reset; with the bit clear it writes every register once and returns the six
    bytes the card gave. *)
Theorem ref_eth_main_one_look s :
  let look := u8 (env_in (EvOut 8 0x3037 0x10 :: EvOut 16 0x303C 0 :: m_trace s) 8 0x3037) in
  let reset := [(0x3037, 0x10); (0x303C, 0)] in
  wp (ref_eth_main 0) (λ r s',
    if Z.land look 0x10 =? 0
    then (exists mac, r = (0, Some mac) /\ length mac = 6%nat /\ Forall (λ b, 0 <= b < 256) mac) /\
         wrote ([(0x3037, 0x0C); (0x3062, 0x1200); (0x300C, 0xFFFFFFFF); (0x3008, 0xFFFFFFFF);
                 (0x3044, 0x8F); (0x3040, 0x3000000); (0x303E, 0xFFFF)] ++ reset) s s'
    else r = (1, None) /\ wrote reset s s') s.
Proof.
  intros look reset. unfold ref_eth_main. cbn [Z.eqb negb]. unfold io_outw, io_outb, io_outl.
  wp_step. unfold io_out at 1, log. wp_step. wp_step. unfold io_out at 1, log. wp_step. set (s1 := set_m_trace _ _).
  assert (wrote reset s s1) as W1 by (by exists [EvOut 8 0x3037 0x10; EvOut 16 0x303C 0]).
  wp_step. cbn [ref_reset_loop]. wp_step. eapply wp_mono; [apply inb_wrote|]. intros c s2 [-> W2].
  pose proof (wrote_trans _ _ _ _ _ W1 W2) as W. change (u8 (env_in (m_trace s1) 8 (u16 (rtl_base_io + 0x37)))) with look.
  destruct (Z.land look 0x10 =? 0); [|change (u32 (200 - 1)) with 199; cbn [Z.eqb negb]; wp_step; cbn [negb]; by wp_step].
  wp_step. cbn [negb]. clear W1 W2. do 3 wrote_step.
  wp_step. eapply wp_mono; [apply read_mac_wrote|]. intros mac ? (Hl & Hb & W5).
  match goal with W0 : wrote _ s ?a, W1 : wrote _ ?a ?b |- _ => pose proof (wrote_trans _ _ _ _ _ W0 W1) as W6; clear W0 W1 end.
  do 4 wrote_step. wp_step. split; [by exists mac|assumption].
Qed.

End RefEth.
