(* ===== verification/Rtl8139.v ===== *)
(** * The RealTek 8139 driver (net-rtl8139.c)

    The driver is switched off: the bodies of its functions are compiled out
    ([#if 0]), which leaves an entry of the table that knows no card. *)

From S2P Require Import Prelude Machine NetDriver.

Definition rtl8139_known_pci_id (p : option pci_device) : Z := 0.

Definition rtl8139_probe (pdev : option pci_device) : M Z :=
  if rtl8139_known_pci_id pdev =? 0 then mret 0 else mret 1.

Definition rtl8139_init (pdev : option pci_device) : M Z := mret 0.

Definition rtl8139_uninit (pdev : option pci_device) : M Z := mret 0.

Definition rtl8139_prepare_send_packet (sz : Z) (hdr : ethernet_frame_header) : M (option Z) := mret None.

Definition rtl8139_send_packet : M unit := skip.

Definition rtl8139_get_packet : M (option (Z * Z * ethernet_frame_header)) := mret None.

Definition rtl8139_put_packet (p : Z) : M unit := skip.

Definition rtl8139_driver : network_driver :=
  mkDriver (str "RealTek 8139") rtl8139_probe rtl8139_init rtl8139_uninit rtl8139_get_packet
    rtl8139_prepare_send_packet rtl8139_send_packet rtl8139_put_packet.

(** It never takes a device, so the automatic choice passes over it. *)
Lemma rtl8139_probe_none pdev s : drv_probe rtl8139_driver pdev s = inr (0, s).
Proof. reflexivity. Qed.
