(* ===== verification/Ne2000.v ===== *)
(** * The NE2000 driver (net-ne2000.c)

    An ISA card without bus mastering: packets go through its data port, a word
    at a time, between its own memory and two buffers of the driver.  What the
    registers and the data port return is the parameter [env_in]. *)

From S2P Require Import Prelude Machine Memory Vga Alloc NetDriver.

Section Driver.
Context `{Env}.

Definition base_port : M Z := gets (λ s, ne2000_probe_base (m_ne2000 s)).
(** [io_outb(ne2000_probe_base+r,v)] and [io_inb(ne2000_probe_base+r)] *)
Definition ne_out (r v : Z) : M unit := b ← base_port; io_outb (b + r) v.
Definition ne_in (r : Z) : M Z := b ← base_port; io_inb (b + r).

(** [unsigned int patience=0xC00; while (patience-- != 0 && (io_inb(base+7)&0x80) == want);
    if ((io_inb(base+7)&0x80) == want) return 0;] *)
Definition isr_stuck (base want : Z) : M bool :=
  busy_wait 0xC00 (c ← io_inb (base + 7); mret (Z.land c 0x80 =? want)) ;;
  c ← io_inb (base + 7); mret (Z.land c 0x80 =? want).

(** [x = io_inb(base); if ((x&0x3) != state) return 0; if ((x&0xC0) != 0) return 0;]:
    [true] when neither returns. *)
Definition command_is (base state : Z) : M bool :=
  x ← io_inb base; mret ((Z.land x 0x3 =? state) && (Z.land x 0xC0 =? 0)).

Definition ne2000_isa_probe (base : Z) : M Z :=
  c ← io_inb base;
  if c =? 0xFF then mret 0 else
  io_outb base 0x21 ;;
  ok ← command_is base 1;
  if negb ok then mret 0 else
  stuck ← isr_stuck base 0;
  if stuck : bool then mret 0 else
  io_outb base 0x02 ;;
  ok ← command_is base 2;
  if negb ok then mret 0 else
  stuck ← isr_stuck base 0x80;
  if stuck : bool then mret 0 else
  io_outb base 0x21 ;;
  vga_write (cstr "NE-2000 compatible at ") ;;
  vga_write_hex (u16 base) 2 ;;
  vga_write (msg "") ;;
  upd_ne2000 (set_ne2000_probe_base base) ;;
  mret 1.

Definition ne2000_probe (pdev : option pci_device) : M Z :=
  match pdev with
  | Some _ => mret 0
  | None =>
      r ← ne2000_isa_probe 0x240;
      if negb (r =? 0) then mret 1 else
      r ← ne2000_isa_probe 0x260;
      if negb (r =? 0) then mret 1 else
      r ← ne2000_isa_probe 0x300;
      if negb (r =? 0) then mret 1 else mret 0
  end.

Definition TX_PAGE : Z := 0x40.
Definition RX_PAGE_START : Z := 0x46.
Definition RX_PAGE_END : Z := 0x70.

(** [for (i=0;i < n;i++) tmp[i] = io_inb(ne2000_probe_base+0x10)] *)
Fixpoint read_data_bytes (n : nat) : M (list Z) :=
  match n with
  | O => mret []
  | S n' => v ← ne_in 0x10; l ← read_data_bytes n'; mret (v :: l)
  end.

(** The end of [ne2000_init]: the registers of page 1, then the start. *)
Definition ne2000_start : M Z :=
  ne_out 0x0 (Z.lor 0x21 0x40) ;;
  for_range 0 6 (λ i,
    mac ← gets (λ s, ne2000_mac_address (m_ne2000 s)); ne_out (0x1 + i) (nth (Z.to_nat i) mac 0)) ;;
  for_range 0 6 (λ i, ne_out (0x8 + i) 0xFF) ;;
  ne_out 0x7 RX_PAGE_START ;;
  ne_out 0x0 0x22 ;;
  ne_out 0xD 0x00 ;;
  mret 1.

Definition ne2000_init (pdev : option pci_device) : M Z :=
  base ← base_port;
  match (if base =? 0 then None else Some base), pdev with
  | Some _, None =>
      p ← do_alloc 2048; upd_ne2000 (set_ne2000_last_packet p) ;;
      p ← do_alloc 2049; upd_ne2000 (set_ne2000_xmit_packet p) ;;
      ne_out 0x0 0x21 ;;
      ne_out 0xE 0xC5 ;;
      ne_out 0xA 0x00 ;;
      ne_out 0xB 0x00 ;;
      ne_out 0xC 0x1C ;;
      ne_out 0xD 0x02 ;;
      ne_out 0x3 RX_PAGE_START ;;
      ne_out 0x1 RX_PAGE_START ;;
      ne_out 0x2 RX_PAGE_END ;;
      ne_out 0x7 0xFF ;;
      ne_out 0xF 0x00 ;;
      ne_out 0xA 32 ;;
      ne_out 0xB 0 ;;
      ne_out 0x8 0 ;;
      ne_out 0x9 0 ;;
      tmp ← read_data_bytes 16;
      upd_net (set_my_eth_mac (take 6 tmp)) ;;
      upd_ne2000 (set_ne2000_mac_address (take 6 tmp)) ;;
      ne2000_start
  | _, _ => mret 0
  end.

Definition ne2000_uninit (pdev : option pci_device) : M Z := mret 1.

Definition ne2000_adv_packet : M unit := skip.

(** [io_outb(ne2000_probe_base+0,0x22); while (io_inb(ne2000_probe_base+0x0) & 4);] *)
Definition wait_transmitter : M unit :=
  ne_out 0 0x22 ;;
  while env_fuel (c ← ne_in 0; mret (negb (Z.land c 4 =? 0))) skip.

Definition ne2000_prepare_send_packet (sz : Z) (hdr : ethernet_frame_header) : M (option Z) :=
  wait_transmitter ;;
  if 1520 <=? sz then mret None else
  p ← gets (λ s, ne2000_xmit_packet (m_ne2000 s));
  store_bytes p (eth_bytes hdr) ;;
  upd_ne2000 (set_ne2000_xmit_packet_size (u32 (sz + 14))) ;;
  mret (Some (p + 14)).

(** The words, then the odd byte, of the packet to the data port. *)
Definition ne_write_data (p size : Z) : M unit :=
  for_range 0 (Z.to_nat (Z.shiftr size 1)) (λ i,
    w ← load16 (p + 2 * i); b ← base_port; io_outw (b + 0x10) w) ;;
  when (negb (Z.land size 1 =? 0)) (v ← load8 (p + (size - 1)); ne_out 0x10 v).

Definition ne2000_send_packet : M unit :=
  size ← gets (λ s, ne2000_xmit_packet_size (m_ne2000 s));
  when (negb (size =? 0)) (
    ne_out 0x4 TX_PAGE ;;
    ne_out 0x5 size ;;
    ne_out 0x6 (Z.shiftr size 8) ;;
    ne_out 0x8 0 ;;
    ne_out 0x0 (Z.lor 0x02 0x08) ;;
    ne_out 0xA size ;;
    ne_out 0xB (Z.shiftr size 8) ;;
    ne_out 0x8 0 ;;
    ne_out 0x9 TX_PAGE ;;
    ne_out 0x0 (Z.lor 0x02 0x10) ;;
    p ← gets (λ s, ne2000_xmit_packet (m_ne2000 s));
    ne_write_data p size ;;
    ne_out 0x0 (Z.lor 0x22 0x04) ;;
    wait_transmitter ;;
    upd_ne2000 (set_ne2000_xmit_packet_size 0)).

(** The words, then the odd byte, of a packet from the data port. *)
Definition ne_read_data (p size : Z) : M unit :=
  for_range 0 (Z.to_nat (Z.shiftr size 1)) (λ i,
    b ← base_port; w ← io_inw (b + 0x10); store16 (p + 2 * i) w) ;;
  when (negb (Z.land size 1 =? 0)) (v ← ne_in 0x10; store8 (p + (size - 1)) v).

(** [(rstatus & 1) && ((rstatus & 0x1E) == 0) && byte_count >= (14+4) && byte_count <= (1518+4)] *)
Definition ne2000_good (rstatus byte_count : Z) : bool :=
  negb (Z.land rstatus 1 =? 0) && (Z.land rstatus 0x1E =? 0) && (14 + 4 <=? byte_count) && (byte_count <=? 1518 + 4).

(** The packet at page [cur_read]: its header, then its bytes if it is good,
    then the boundary register and the interrupt flag. *)
Definition ne2000_take_packet (cur_read : Z) : M unit :=
  ne_out 0xA 4 ;;
  ne_out 0xB 0 ;;
  ne_out 0x8 0 ;;
  ne_out 0x9 cur_read ;;
  b ← base_port;
  w0 ← io_inw (b + 0x10);
  w1 ← io_inw (b + 0x10);
  let next := u8 (Z.shiftr w0 8) in
  let rstatus := u8 w0 in
  let byte_count := Z.lor (u8 w1) (Z.shiftl (u8 (Z.shiftr w1 8)) 8) in
  when (ne2000_good rstatus byte_count) (
    let byte_count := byte_count - 4 in
    ne_out 0xA byte_count ;;
    ne_out 0xB (Z.shiftr byte_count 8) ;;
    ne_out 0x8 4 ;;
    ne_out 0x9 cur_read ;;
    p ← gets (λ s, ne2000_last_packet (m_ne2000 s));
    ne_read_data p byte_count ;;
    upd_ne2000 (set_ne2000_last_packet_size byte_count)) ;;
  ne_out 3 (next - 1) ;;
  ne_out 7 0x01.

(** The end of [ne2000_get_packet]: the remaining interrupt flags are cleared
    and a packet that was read is returned. *)
Definition ne2000_deliver : M (option (Z * Z * ethernet_frame_header)) :=
  ne_out 0x0 0x22 ;;
  c ← ne_in 7;
  when (negb (c =? 0)) (ne_out 7 (Z.land c 0xFE)) ;;
  size ← gets (λ s, ne2000_last_packet_size (m_ne2000 s));
  p ← gets (λ s, ne2000_last_packet (m_ne2000 s));
  if 14 <=? size then
    hdr ← gets (λ s, load_eth (m_mem s) p);
    mret (Some (p + 14, s32 (size - 14), hdr))
  else mret None.

(** The interrupt status, after the reset flag has been acknowledged. *)
Definition ne2000_status : M Z :=
  ne_out 0x0 0x22 ;;
  c ← ne_in 7;
  if negb (Z.land c 0x40 =? 0) then ne_out 7 0x40 ;; ne_in 7 else mret c.

(** [unsigned char cur_read = bnry+1; if (cur_read >= RX_PAGE_END) cur_read = RX_PAGE_START;] *)
Definition read_page (bnry : Z) : Z :=
  if RX_PAGE_END <=? u8 (bnry + 1) then RX_PAGE_START else u8 (bnry + 1).

Definition ne2000_get_packet : M (option (Z * Z * ethernet_frame_header)) :=
  upd_ne2000 (set_ne2000_last_packet_size 0) ;;
  c ← ne2000_status;
  if negb (Z.land c 1 =? 0) then
    ne_out 0 (Z.lor 0x22 0x40) ;;
    cur_write ← ne_in 7;
    ne_out 0 0x22 ;;
    bnry ← ne_in 3;
    let cur_read := read_page bnry in
    if cur_read =? cur_write then mret None else
    ne2000_take_packet cur_read ;;
    ne2000_deliver
  else ne2000_deliver.

Definition ne2000_put_packet (p : Z) : M unit := skip.

Definition ne2000_driver : network_driver :=
  mkDriver (str "NE-2000 or compatible") ne2000_probe ne2000_init ne2000_uninit ne2000_get_packet
    ne2000_prepare_send_packet ne2000_send_packet ne2000_put_packet.

End Driver.

(** ** What the card sees and returns

    [P] is the card's base port; traces are latest first, the lists of values
    in the order of time. *)

Section Observations.
Context (P : Z).

(** The values written to byte register [r]. *)
Fixpoint outs (r : Z) (tr : list event) : list Z :=
  match tr with
  | [] => []
  | EvOut 8 p v :: tr' => outs r tr' ++ (if p =? P + r then [v] else [])
  | _ :: tr' => outs r tr'
  end.

(** The bytes read from the data port. *)
Definition data_of (e : event) : list Z :=
  match e with
  | EvIn 16 p v => if p =? P + 0x10 then [u8 v; u8 (Z.shiftr v 8)] else []
  | EvIn 8 p v => if p =? P + 0x10 then [u8 v] else []
  | _ => []
  end.
Fixpoint data_read (tr : list event) : list Z :=
  match tr with
  | [] => []
  | e :: tr' => data_read tr' ++ data_of e
  end.

Lemma data_read_app t2 t1 : data_read (t2 ++ t1) = data_read t1 ++ data_read t2.
Proof.
  induction t2 as [|e t2 IH]; cbn [app data_read]; [by rewrite app_nil_r|]. by rewrite IH, app_assoc.
Qed.

Definition out_of (r : Z) (e : event) : list Z :=
  match e with EvOut 8 p v => if p =? P + r then [v] else [] | _ => [] end.

Lemma outs_cons r e tr : outs r (e :: tr) = outs r tr ++ out_of r e.
Proof.
  destruct e as [| [|w|] | | | | |]; cbn [outs out_of]; rewrite ?app_nil_r; try done.
  repeat (destruct w as [w|w|]; cbn [outs out_of]; rewrite ?app_nil_r; try done).
Qed.

Lemma outs_app r t2 t1 : outs r (t2 ++ t1) = outs r t1 ++ outs r t2.
Proof.
  induction t2 as [|e t2 IH]; cbn [app]; [by rewrite app_nil_r|]. by rewrite !outs_cons, IH, app_assoc.
Qed.

(** The port writes that put a frame into the card's memory and send it: byte
    count and page of the transmission, remote DMA set up for the same page and
    count, the frame by words and a last odd byte, then the transmit command. *)
Fixpoint data_events (f : list Z) : list event :=
  match f with
  | a :: b :: f' => EvOut 16 (P + 0x10) (a + 256 * b) :: data_events f'
  | [a] => [EvOut 8 (P + 0x10) a]
  | [] => []
  end.

Definition transmission (f : list Z) : list event :=
  let n := Z.of_nat (length f) in
  [EvOut 8 (P + 0x4) TX_PAGE; EvOut 8 (P + 0x5) (u8 n); EvOut 8 (P + 0x6) (u8 (Z.shiftr n 8));
   EvOut 8 (P + 0x8) 0; EvOut 8 (P + 0x0) 0x0A;
   EvOut 8 (P + 0xA) (u8 n); EvOut 8 (P + 0xB) (u8 (Z.shiftr n 8));
   EvOut 8 (P + 0x8) 0; EvOut 8 (P + 0x9) TX_PAGE; EvOut 8 (P + 0x0) 0x12] ++
  data_events f ++ [EvOut 8 (P + 0x0) 0x26].

Lemma data_events_app f1 : forall f2 k, length f1 = (2 * k)%nat -> data_events (f1 ++ f2) = data_events f1 ++ data_events f2.
Proof.
  assert (forall k f1 f2, length f1 = (2 * k)%nat -> data_events (f1 ++ f2) = data_events f1 ++ data_events f2) as Hk.
  { induction k as [|k IH]; intros [|a [|b g]] f2 Hl; try (cbn in Hl; lia); [done|].
    cbn [app data_events]. rewrite IH; [done|]. cbn in Hl. lia. }
  intros f2 k. apply Hk.
Qed.

(** The writes to the card's registers, latest first, and the value a register
    of one of the card's register pages has been given: bits 6 and 7 of the
    command register select the page. *)
Definition reg_writes (tr : list event) : list (Z * Z) :=
  omap (λ e, match e with EvOut 8 p v => Some (p - P, v) | _ => None end) tr.

Lemma reg_writes_app t2 t1 : reg_writes (t2 ++ t1) = reg_writes t2 ++ reg_writes t1.
Proof. apply omap_app. Qed.

Fixpoint selected_page (w : list (Z * Z)) : Z :=
  match w with
  | [] => 0
  | (r, v) :: w' => if r =? 0 then Z.shiftr v 6 else selected_page w'
  end.

Fixpoint reg_of (page r : Z) (w : list (Z * Z)) : option Z :=
  match w with
  | [] => None
  | (r', v) :: w' => if (r' =? r) && (selected_page w' =? page) then Some v else reg_of page r w'
  end.

End Observations.

(** ** The invariant *)

Section Laws.
Context `{Env} (P L X : Z).

(** The two buffers of the driver, apart from each other and from the screen. *)
Record ne_layout : Prop := {
  nl_P : 0 < P < 65504;
  nl_L : 16 <= L;
  nl_X : L + 2048 <= X;
  nl_end : X + 2049 <= 4294967296;
  nl_screen : 786432 <= L \/ X + 2049 <= 753664
}.

Record ne_ok (s : machine) : Prop := {
  no_layout : ne_layout;
  no_base : ne2000_probe_base (m_ne2000 s) = P;
  no_last : ne2000_last_packet (m_ne2000 s) = L;
  no_xmit : ne2000_xmit_packet (m_ne2000 s) = X
}.

Definition ne_area (a : Z) : Prop := X <= a < X + 2049.

(** *** Ports *)

Lemma ne_out_run r v s :
  ne_ok s -> 0 <= r <= 16 ->
  ne_out r v s = inr (tt, set_m_trace (EvOut 8 (P + r) (u8 v) :: m_trace s) s).
Proof.
  intros [[] Eb _ _] Hr. unfold ne_out, base_port, io_outb, io_out, log. run. rewrite Eb, u16_small by lia. done.
Qed.

Lemma ne_in_run r s :
  ne_ok s -> 0 <= r <= 16 ->
  let v := env_in (m_trace s) 8 (P + r) in
  ne_in r s = inr (u8 v, set_m_trace (EvIn 8 (P + r) v :: m_trace s) s).
Proof.
  intros [[] Eb _ _] Hr. unfold ne_in, base_port, io_inb, io_in, log. run. rewrite Eb, u16_small by lia. done.
Qed.

Lemma ne_ok_trace tr s : ne_ok s -> ne_ok (set_m_trace tr s).
Proof. intros []. by split. Qed.

Lemma ne_ok_mem m s : ne_ok s -> ne_ok (set_m_mem m s).
Proof. intros []. by split. Qed.

Lemma wp_ne_out r v Q s :
  ne_ok s -> 0 <= r <= 16 -> Q tt (set_m_trace (EvOut 8 (P + r) (u8 v) :: m_trace s) s) -> wp (ne_out r v) Q s.
Proof. intros Hs Hr HQ. unfold wp. by rewrite ne_out_run. Qed.

Lemma wp_ne_in r Q s :
  ne_ok s -> 0 <= r <= 16 ->
  (forall v, v = env_in (m_trace s) 8 (P + r) -> Q (u8 v) (set_m_trace (EvIn 8 (P + r) v :: m_trace s) s)) -> wp (ne_in r) Q s.
Proof. intros Hs Hr HQ. unfold wp. rewrite ne_in_run by done. by apply HQ. Qed.

(** A run of register writes. *)
Lemma wp_outs (l : list (Z * Z)) {T} (c : M T) (Q : T -> machine -> Prop) : forall s,
  ne_ok s -> Forall (λ x, 0 <= x.1 <= 16) l ->
  wp c Q (set_m_trace (rev ((λ x, EvOut 8 (P + x.1) (u8 x.2)) <$> l) ++ m_trace s) s) ->
  wp (foldr (λ x k, ne_out x.1 x.2 ;; k) c l) Q s.
Proof.
  induction l as [|[r v] l IH]; intros s Hs Hl HQ; cbn [foldr].
  - cbn in HQ. by destruct s.
  - inversion Hl; subst. wp_step. apply wp_ne_out; [done|done|]. apply IH; [by apply ne_ok_trace|done|].
    cbn [fmap list_fmap rev] in HQ. rewrite <- app_assoc in HQ. exact HQ.
Qed.

(** *** Sending *)

(** The history after [n] reads of the command register. *)
Fixpoint after_reads (n : nat) (tr : list event) : list event :=
  match n with
  | O => tr
  | S n' => after_reads n' (EvIn 8 (P + 0) (env_in tr 8 (P + 0)) :: tr)
  end.

(** The transmitter becomes free within the reads the driver makes. *)
Class NeCardOk : Prop :=
  ne_ready tr : exists n, (n < env_fuel)%nat /\ Z.land (u8 (env_in (after_reads n tr) 8 (P + 0))) 4 = 0.

Lemma wait_ready n : forall fuel s,
  ne_ok s -> (n < fuel)%nat -> Z.land (u8 (env_in (after_reads n (m_trace s)) 8 (P + 0))) 4 = 0 ->
  wp (while fuel (c ← ne_in 0; mret (negb (Z.land c 4 =? 0))) skip) (λ _ s', io_only s s') s.
Proof.
  induction n as [|n IH]; intros [|fuel] s Hs Hf Hr; try lia; cbn [while]; wp_step; wp_step;
    (apply wp_ne_in; [done|lia|]); intros v Ev; wp_step; cbn [after_reads] in Hr; rewrite <- Ev in Hr.
  - rewrite Hr. cbn [Z.eqb negb]. wp_step. by exists [EvIn 8 (P + 0) v].
  - destruct (_ =? 0) eqn:E; cbn [negb]; [wp_step; by exists [EvIn 8 (P + 0) v]|].
    wp_step. wp_step. eapply wp_mono; [apply (IH fuel); [by apply ne_ok_trace|lia|exact Hr]|].
    intros [] s' Hs'. etransitivity; [|exact Hs']. by exists [EvIn 8 (P + 0) v].
Qed.

Lemma wait_transmitter_spec `{!NeCardOk} s : ne_ok s -> wp wait_transmitter (λ _ s', io_only s s') s.
Proof.
  intros Hs. unfold wait_transmitter. wp_step. apply wp_ne_out; [done|lia|]. set (s1 := set_m_trace _ s).
  destruct (ne_ready (m_trace s1)) as (n & Hn & Hr).
  eapply wp_mono; [apply (wait_ready n); [by apply ne_ok_trace|done|exact Hr]|].
  intros [] s' Hs'. etransitivity; [|exact Hs']. by exists [EvOut 8 (P + 0) (u8 0x22)].
Qed.

Lemma ne_ok_io s s' : ne_ok s -> io_only s s' -> ne_ok s'.
Proof. intros Hs [tr [-> _]]. by apply ne_ok_trace. Qed.

Lemma io_only_drv area s s' : vga_ok (m_vga s) -> io_only s s' -> drv_step area s s'.
Proof.
  intros Hv Hio. pose proof (adds_io_executed _ _ (io_only_adds _ _ Hio)). destruct Hio as [tr [-> _]]. by split.
Qed.

Definition ne_prepared (s : machine) (p sz : Z) : Prop :=
  ne_ok s /\ p = X + 14 /\ 0 <= sz <= 1519 /\ ne2000_xmit_packet_size (m_ne2000 s) = sz + 14.

(** The frame is in the transmit buffer and has gone to the card. *)
Definition ne_handed (s : machine) (f : list Z) : Prop :=
  ne_layout /\ Z.of_nat (length f) <= 1533 /\ rd_bytes (m_mem s) X (length f) = f /\
  exists newer older, m_trace s = newer ++ rev (transmission P f) ++ older.

Lemma ne_prepare_spec `{!NeCardOk} s sz hdr :
  ne_ok s -> vga_ok (m_vga s) -> 0 <= sz <= 1519 ->
  length (dst_mac hdr) = 6%nat -> length (src_mac hdr) = 6%nat ->
  wp (ne2000_prepare_send_packet sz hdr)
    (λ r s', exists p, r = Some p /\ ne_prepared s' p sz /\
       rd_bytes (m_mem s') (p - 14) 14 = u8 <$> eth_bytes hdr /\ drv_step ne_area s s' /\ adds_io s s') s.
Proof.
  intros Hs Hv Hsz Hd Hsrc. unfold ne2000_prepare_send_packet. wp_step.
  eapply wp_mono; [by apply wait_transmitter_spec|]. intros [] s1 H1. pose proof (ne_ok_io _ _ Hs H1) as Hs1.
  rewrite (proj2 (Z.leb_gt 1520 sz)) by lia. unfold store_bytes, upd_mem, upd_ne2000. wp_steps.
  rewrite (no_xmit _ Hs1). pose proof Hs1 as [[] _ _ _]. pose proof (length_eth_bytes hdr Hd Hsrc) as Hlen.
  pose proof (mem_frame_store (m_mem s1) X (eth_bytes hdr) ltac:(lia) ltac:(lia)) as HF. rewrite Hlen in HF.
  exists (X + 14). unfold ne_prepared. split_and!; [done| |done|lia|lia| | | |].
  - destruct Hs1. by split.
  - cbn. apply u32_small. lia.
  - cbn [m_mem set_m_mem set_m_ne2000]. replace (X + 14 - 14) with X by lia. rewrite <- Hlen. apply rd_bytes_wr_bytes_same. lia.
  - transitivity s1; [by apply io_only_drv|]. split; try done.
    + cbn. eapply mem_frame_weaken; [|exact HF]. intros a Ha. left. unfold ne_area. cbv beta in Ha. lia.
    + cbn. destruct H1 as [tr [-> _]]. done.
  - apply io_only_adds in H1. exact H1.
Qed.

Lemma ne_prepare_law `{!NeCardOk} s sz hdr :
  ne_ok s -> vga_ok (m_vga s) -> 0 <= sz <= 1519 ->
  length (dst_mac hdr) = 6%nat -> length (src_mac hdr) = 6%nat ->
  wp (ne2000_prepare_send_packet sz hdr)
    (λ r s', exists p, r = Some p /\ ne_prepared s' p sz /\
       rd_bytes (m_mem s') (p - 14) 14 = u8 <$> eth_bytes hdr /\ drv_step ne_area s s') s.
Proof.
  intros Hs Hv Hsz Hd Hsrc. eapply wp_mono; [by apply ne_prepare_spec|]. intros r s' (p & -> & Hp & Hh & Hst & _). by exists p.
Qed.

Lemma ne_window_law s p sz :
  ne_prepared s p sz -> 14 <= p /\ 0 <= sz /\ p + sz <= 4294967296 /\ forall a, p - 14 <= a < p + sz -> ne_area a.
Proof. intros ([[] _ _ _] & -> & Hsz & _). unfold ne_area. split_and!; intros; lia. Qed.

Lemma ne_ok_stable s s' : ne_ok s -> same_drivers s s' -> ne_ok s'.
Proof. intros [] [_ _ E]. split; try done; by rewrite E. Qed.

Lemma ne_prepared_stable s s' p sz :
  ne_prepared s p sz -> same_drivers s s' ->
  mem_frame (λ a, p - 14 <= a < p + sz \/ ~ ne_area a) (m_mem s) (m_mem s') -> ne_prepared s' p sz.
Proof.
  intros (Hs & -> & Hsz & E) Hd _. unfold ne_prepared. split_and!; [by eapply ne_ok_stable|done|lia|lia|].
  by rewrite (sd_ne2000 _ _ Hd).
Qed.

Lemma ne_inv_stable s s' :
  ne_ok s -> same_drivers s s' -> mem_frame (λ a, ~ ne_area a) (m_mem s) (m_mem s') -> ne_ok s'.
Proof. intros Hs Hd _. by eapply ne_ok_stable. Qed.

Lemma ne_handed_stable s s' f :
  ne_handed s f -> same_drivers s s' -> adds_io s s' -> mem_frame (λ a, ~ ne_area a) (m_mem s) (m_mem s') -> ne_handed s' f.
Proof.
  intros (Hl & Hf & Eb & newer & older & Et) _ (tr & Etr & _) HF. pose proof Hl as []. split_and!; [done|done| |].
  - rewrite <- Eb at 2. unfold ne_area in HF. apply (mem_frame_block _ _ _ _ _ HF); (lia || (intros; lia)).
  - exists (tr ++ newer), older. by rewrite Etr, Et, app_assoc.
Qed.

(** The data goes out in order, two bytes at a time. *)
Lemma ne_write_data_spec n s :
  ne_ok s -> 0 <= n <= 2048 ->
  wp (ne_write_data X n)
    (λ _ s', s' = set_m_trace (rev (data_events P (rd_bytes (m_mem s) X (Z.to_nat n))) ++ m_trace s) s) s.
Proof.
  intros Hs Hn. pose proof Hs as [[] Eb _ _]. unfold ne_write_data. wp_step. rewrite Z.shiftr_div_pow2 by lia. change (2 ^ 1) with 2.
  set (k := Z.to_nat (n / 2)). assert (0 <= n / 2 /\ 2 * (n / 2) <= n < 2 * (n / 2) + 2) as Hk by (Z.div_mod_to_equations; lia).
  eapply wp_mono.
  { apply (wp_for_range (λ i s', s' = set_m_trace (rev (data_events P (rd_bytes (m_mem s) X (Z.to_nat (2 * i)))) ++ m_trace s) s)).
    - by destruct s.
    - intros i s1 Hi ->. unfold base_port, io_outw, io_out, log. unfold wp. run. cbn [m_mem m_trace m_ne2000 set_m_trace].
      rewrite Eb, u16_small, (u16_small (rd16 _ _)) by (lia || apply rd16_range).
      replace (Z.to_nat (2 * (i + 1))) with (Z.to_nat (2 * i) + 2)%nat by lia. rewrite rd_bytes_app, Z2Nat.id by lia.
      rewrite (data_events_app P _ _ (Z.to_nat i)) by (rewrite length_rd_bytes; lia).
      rewrite rev_app_distr, !rd_bytes_S, <- app_assoc. done. }
  intros [] s1 ->. replace (0 + Z.of_nat k) with (n / 2) by lia.
  assert (Z.land n 1 = n mod 2) as -> by (change 1 with (Z.ones 1) at 1; by rewrite Z.land_ones).
  wp_step; bool_to_prop.
  - unfold load8. wp_step. wp_step. apply wp_ne_out; [by apply ne_ok_trace|lia|]. cbn [m_trace m_mem set_m_trace].
    rewrite (u8_small (rd8 _ _)) by apply rd8_range.
    replace (Z.to_nat n) with (Z.to_nat (2 * (n / 2)) + 1)%nat by (Z.div_mod_to_equations; lia). rewrite rd_bytes_app, Z2Nat.id by lia.
    rewrite (data_events_app P _ _ (Z.to_nat (n / 2))) by (rewrite length_rd_bytes; lia).
    rewrite rev_app_distr, rd_bytes_S, <- app_assoc.
    replace (X + (n - 1)) with (X + 2 * (n / 2)) by (Z.div_mod_to_equations; lia). done.
  - by replace (2 * (n / 2)) with n by (Z.div_mod_to_equations; lia).
Qed.

Lemma set_trace_trace t t' s : set_m_trace t (set_m_trace t' s) = set_m_trace t s.
Proof. reflexivity. Qed.

(** [ne2000_send_packet] on a prepared frame: exactly the port writes of
    [transmission], then the wait. *)
Lemma ne_send_run `{!NeCardOk} s p sz :
  ne_prepared s p sz ->
  let f := rd_bytes (m_mem s) X (Z.to_nat (sz + 14)) in
  wp ne2000_send_packet (λ _ s', exists tr,
    s' = set_m_ne2000 (set_ne2000_xmit_packet_size 0 (m_ne2000 s))
           (set_m_trace (tr ++ rev (transmission P f) ++ m_trace s) s) /\ executed tr = []) s.
Proof.
  intros (Hs & -> & Hsz & Esz) f. pose proof Hs as [[] Eb _ _]. unfold ne2000_send_packet. wp_step. wp_step. rewrite Esz.
  rewrite (proj2 (Z.eqb_neq _ 0)) by lia. cbn [negb when].
  match goal with |- wp ?m ?Q ?s => change (wp (foldr (λ x k, ne_out x.1 x.2 ;; k)
    (p ← gets (λ s, ne2000_xmit_packet (m_ne2000 s)); ne_write_data p (sz + 14) ;; ne_out 0x0 (Z.lor 0x22 0x04) ;;
     wait_transmitter ;; upd_ne2000 (set_ne2000_xmit_packet_size 0))
    [(0x4, TX_PAGE); (0x5, sz + 14); (0x6, Z.shiftr (sz + 14) 8); (0x8, 0); (0x0, Z.lor 0x02 0x08); (0xA, sz + 14);
     (0xB, Z.shiftr (sz + 14) 8); (0x8, 0); (0x9, TX_PAGE); (0x0, Z.lor 0x02 0x10)]) Q s) end.
  apply wp_outs; [done|repeat constructor; cbn; lia|]. set (s1 := set_m_trace _ s).
  assert (ne_ok s1) as Hs1 by by apply ne_ok_trace. wp_step. wp_step. rewrite (no_xmit _ Hs1).
  wp_step. eapply wp_mono; [apply (ne_write_data_spec (sz + 14) s1 Hs1); lia|]. intros [] s2 ->.
  wp_step. apply wp_ne_out; [by do 2 apply ne_ok_trace|lia|]. rewrite set_trace_trace. subst s1. rewrite set_trace_trace.
  wp_step. eapply wp_mono; [apply wait_transmitter_spec; by apply ne_ok_trace|]. intros [] s3 [tr [-> X3]].
  unfold upd_ne2000. wp_step. exists tr. split; [|done]. rewrite set_trace_trace. cbn [m_ne2000 m_trace m_mem set_m_trace].
  fold f. do 2 f_equal. unfold transmission. assert (Z.of_nat (length f) = sz + 14) as -> by (subst f; rewrite length_rd_bytes; lia).
  rewrite !rev_app_distr, <- !app_assoc. reflexivity.
Qed.

Lemma executed_outs tr : Forall (λ e, match e with EvOut _ _ _ => True | _ => False end) tr -> executed tr = [].
Proof. induction 1 as [|[] tr He Htr IH]; [done|..]; try done; apply IH. Qed.

Lemma transmission_outs f : Forall (λ e, match e with EvOut _ _ _ => True | _ => False end) (transmission P f).
Proof.
  assert (forall n g, (length g <= n)%nat -> Forall (λ e, match e with EvOut _ _ _ => True | _ => False end) (data_events P g)) as Hd.
  { induction n as [|n IH]; intros [|a [|b g]] Hg; cbn in *; try lia; repeat constructor. apply IH. lia. }
  unfold transmission. apply Forall_app; split; [by repeat constructor|]. apply Forall_app; split; [by eapply Hd|by repeat constructor].
Qed.

Lemma ne_send_law `{!NeCardOk} s p sz :
  ne_prepared s p sz -> vga_ok (m_vga s) ->
  wp ne2000_send_packet
    (λ _ s', ne_ok s' /\ drv_step ne_area s s' /\
       ne_handed s' (rd_bytes (m_mem s) (p - 14) (Z.to_nat (sz + 14)))) s.
Proof.
  intros Hp Hv. pose proof Hp as (Hs & -> & Hsz & Esz). eapply wp_mono; [exact (ne_send_run _ _ _ Hp)|].
  intros [] s' (tr & -> & Xtr). replace (X + 14 - 14) with X by lia. set (f := rd_bytes _ _ _). split_and!.
  - destruct Hs. by split.
  - split; try done. cbn [m_trace set_m_ne2000 set_m_trace]. rewrite !executed_app, Xtr, executed_outs; [done|].
    apply Forall_rev, transmission_outs.
  - assert (length f = Z.to_nat (sz + 14)) as Ef by apply length_rd_bytes.
    unfold ne_handed. split_and!; [apply Hs|lia| |].
    + cbn [m_mem set_m_ne2000 set_m_trace]. by rewrite Ef.
    + by exists tr, (m_trace s).
Qed.

Lemma ne_area_screen a : ne_layout -> ne_area a -> ~ vga_window a.
Proof. intros []. unfold ne_area, vga_window. lia. Qed.

Definition ne2000_laws `{!NeCardOk} (Hl : ne_layout) : DriverLaws ne2000_driver :=
  Build_DriverLaws ne2000_driver ne_area ne_ok ne_prepared ne_handed 1519
    ltac:(lia) (λ a, ne_area_screen a Hl) ne_prepare_law ne_window_law ne_prepared_stable
    ne_send_law ne_inv_stable ne_handed_stable.

(** *** Receiving *)

(** [tr] was added to the history, [m] is the memory now. *)
Definition progress (s : machine) (tr : list event) (m : gmap Z Z) (s' : machine) : Prop :=
  s' = set_m_trace (tr ++ m_trace s) (set_m_mem m s) /\ executed tr = [].

Lemma rd16_word m a v :
  0 <= a -> a + 2 <= 4294967296 -> rd_bytes (wr16 m a (u16 v)) a 2 = [u8 v; u8 (Z.shiftr v 8)].
Proof.
  intros Ha Hend. rewrite wr16_wr_bytes. change 2%nat with (length [u16 v; Z.shiftr (u16 v) 8]).
  rewrite rd_bytes_wr_bytes_same by (cbn; lia). cbn [fmap list_fmap]. rewrite !Z.shiftr_div_pow2 by lia.
  f_equal; [|f_equal]; change (2 ^ 8) with 256; wrap_lia.
Qed.

(** The bytes the data port returns are stored in order. *)
Lemma ne_read_data_spec n s :
  ne_ok s -> 0 <= n <= 2048 ->
  wp (ne_read_data L n)
    (λ _ s', exists tr m, progress s tr m s' /\ mem_frame (λ x, L <= x < L + n) (m_mem s) m /\
       rd_bytes m L (Z.to_nat n) = data_read P tr /\ forall r, outs P r tr = []) s.
Proof.
  intros Hs Hn. pose proof Hs as [[] Eb _ _]. unfold ne_read_data. wp_step. rewrite Z.shiftr_div_pow2 by lia. change (2 ^ 1) with 2.
  set (k := Z.to_nat (n / 2)). assert (0 <= n / 2 /\ 2 * (n / 2) <= n < 2 * (n / 2) + 2) as Hk by (Z.div_mod_to_equations; lia).
  eapply wp_mono.
  { apply (wp_for_range (λ i s', exists tr m, progress s tr m s' /\ mem_frame (λ x, L <= x < L + 2 * i) (m_mem s) m /\
       rd_bytes m L (Z.to_nat (2 * i)) = data_read P tr /\ forall r, outs P r tr = [])).
    - exists [], (m_mem s). split_and!; [|done|done|done]. split; [by destruct s|done].
    - intros i s1 Hi (tr & m & [-> Xtr] & HF & Ed & Eo). unfold base_port, io_inw, io_in, log, wp. run.
      cbn [m_mem m_trace m_ne2000 set_m_trace set_m_mem]. rewrite Eb, (u16_small (P + 0x10)) by lia.
      set (v := env_in _ _ _). exists (EvIn 16 (P + 0x10) v :: tr), (wr16 m (L + 2 * i) (u16 v)).
      pose proof (mem_frame_store16 m (L + 2 * i) (u16 v) ltac:(lia) ltac:(lia)) as F1. split_and!.
      + split; [reflexivity|exact Xtr].
      + etransitivity; [eapply mem_frame_weaken; [|exact HF]|eapply mem_frame_weaken; [|exact F1]]; cbv beta; lia.
      + replace (Z.to_nat (2 * (i + 1))) with (Z.to_nat (2 * i) + 2)%nat by lia. rewrite rd_bytes_app, Z2Nat.id by lia.
        rewrite rd16_word by lia. cbn [data_read data_of]. rewrite Z.eqb_refl, <- Ed. f_equal.
        apply (mem_frame_block _ _ _ _ _ F1); (lia || (intros; lia)).
      + intros r. rewrite outs_cons, Eo. done. }
  intros [] s1 (tr & m & [-> Xtr] & HF & Ed & Eo). replace (0 + Z.of_nat k) with (n / 2) in * by lia.
  assert (Z.land n 1 = n mod 2) as -> by (change 1 with (Z.ones 1) at 1; by rewrite Z.land_ones).
  wp_step; bool_to_prop.
  - wp_step. apply wp_ne_in; [by apply ne_ok_trace, ne_ok_mem|lia|]. intros v _. unfold store8, upd_mem. wp_step.
    cbn [m_trace m_mem set_m_trace set_m_mem]. replace (L + (n - 1)) with (L + 2 * (n / 2)) by (Z.div_mod_to_equations; lia).
    exists (EvIn 8 (P + 0x10) v :: tr), (wr8 m (L + 2 * (n / 2)) (u8 v)). rewrite wr8_wr_bytes.
    pose proof (mem_frame_store m (L + 2 * (n / 2)) [u8 v] ltac:(lia) ltac:(cbn; lia)) as F1. cbn [length] in F1. split_and!.
    + split; [reflexivity|exact Xtr].
    + etransitivity; [eapply mem_frame_weaken; [|exact HF]|eapply mem_frame_weaken; [|exact F1]]; cbv beta; Z.div_mod_to_equations; lia.
    + replace (Z.to_nat n) with (Z.to_nat (2 * (n / 2)) + 1)%nat by (Z.div_mod_to_equations; lia). rewrite rd_bytes_app, Z2Nat.id by lia.
      cbn [data_read data_of]. rewrite Z.eqb_refl, <- Ed. f_equal.
      * apply (mem_frame_block _ _ _ _ _ F1); (lia || (intros; lia)).
      * rewrite (rd_bytes_wr_bytes_same m _ [u8 v]) by (cbn; lia). cbn. by rewrite u8_u8.
    + intros r. rewrite outs_cons, Eo. done.
  - exists tr, m. replace (2 * (n / 2)) with n in * by (Z.div_mod_to_equations; lia). done.
Qed.

(** Evaluate the observations on a history whose ports are known. *)
Ltac observe :=
  repeat (first [rewrite outs_app | rewrite outs_cons | rewrite data_read_app]);
  cbn [outs out_of data_read data_of app];
  repeat first [rewrite Z.eqb_refl | rewrite (proj2 (Z.eqb_neq (P + _) (P + _))) by lia];
  cbn [app].

Lemma u8_low v : u8 (u16 v) = u8 v.
Proof. wrap_lia. Qed.
Lemma u8_high v : u8 (Z.shiftr (u16 v) 8) = u8 (Z.shiftr v 8).
Proof. rewrite !Z.shiftr_div_pow2 by lia. change (2 ^ 8) with 256. wrap_lia. Qed.

Lemma word_bytes lo hi : 0 <= lo < 256 -> 0 <= hi < 256 -> Z.lor lo (Z.shiftl hi 8) = lo + 256 * hi.
Proof. intros Hl Hh. rewrite Z.lor_comm, Z.shiftl_mul_pow2, lor_shifted by lia. lia. Qed.

Lemma wp_inw Q s :
  ne_ok s -> (forall v, Q (u16 v) (set_m_trace (EvIn 16 (P + 0x10) v :: m_trace s) s)) -> wp (io_inw (P + 0x10)) Q s.
Proof.
  intros [[] _ _ _] HQ. unfold wp, io_inw, io_in, log. run. rewrite (u16_small (P + 0x10)) by lia. apply HQ.
Qed.

(** What the driver has read from the data port, and where from. *)
Record header_read (st nx lo hi : Z) (page : Z) (tr : list event) (rest : list Z) : Prop := {
  hr_data : data_read P tr = [st; nx; lo; hi] ++ rest;
  hr_bytes : Forall (λ b, 0 <= b < 256) [st; nx; lo; hi];
  hr_boundary : outs P 3 tr = [u8 (nx - 1)];
  hr_page : Forall (λ v, v = page) (outs P 9 tr)
}.

Lemma ne_take_spec page s :
  ne_ok s -> 0 <= page < 256 ->
  wp (ne2000_take_packet page)
    (λ _ s', exists tr m n st nx lo hi,
       s' = set_m_ne2000 (set_ne2000_last_packet_size n (m_ne2000 s)) (set_m_trace (tr ++ m_trace s) (set_m_mem m s)) /\
       executed tr = [] /\
       if ne2000_good st (lo + 256 * hi)
       then n = lo + 256 * hi - 4 /\ 14 <= n <= 1518 /\ mem_frame (λ x, L <= x < L + n) (m_mem s) m /\
            header_read st nx lo hi page tr (rd_bytes m L (Z.to_nat n))
       else n = ne2000_last_packet_size (m_ne2000 s) /\ m = m_mem s /\ header_read st nx lo hi page tr []) s.
Proof.
  intros Hs Hpage. pose proof Hs as [[] Eb Elast _]. unfold ne2000_take_packet.
  do 4 (wp_step; apply wp_ne_out; [by repeat apply ne_ok_trace|lia|]; rewrite ?set_trace_trace).
  unfold base_port. wp_step. wp_step. cbn [m_ne2000 m_trace set_m_trace]. rewrite Eb.
  wp_step. apply wp_inw; [by apply ne_ok_trace|]. intros v0. rewrite set_trace_trace.
  wp_step. apply wp_inw; [by apply ne_ok_trace|]. intros v1. rewrite set_trace_trace. cbn [m_trace set_m_trace].
  rewrite !u8_low, !u8_high. set (st := u8 v0). set (nx := u8 (Z.shiftr v0 8)). set (lo := u8 v1). set (hi := u8 (Z.shiftr v1 8)).
  assert (Forall (λ b, 0 <= b < 256) [st; nx; lo; hi]) as Hb by (repeat constructor; apply u8_range).
  rewrite word_bytes by apply u8_range. set (n := lo + 256 * hi). rewrite (u8_small page) by done.
  set (tr0 := EvIn 16 (P + 0x10) v1 :: EvIn 16 (P + 0x10) v0 :: _). set (s1 := set_m_trace _ s).
  set (t0 := [EvIn 16 (P + 0x10) v1; EvIn 16 (P + 0x10) v0; EvOut 8 (P + 9) page; EvOut 8 (P + 8) (u8 0); EvOut 8 (P + 0xB) (u8 0); EvOut 8 (P + 0xA) (u8 4)]).
  assert (s1 = set_m_trace (t0 ++ m_trace s) s) as E1 by done. clearbody s1. clear tr0.
  assert (ne_ok s1) as Hs1 by (rewrite E1; by apply ne_ok_trace). wp_step.
  destruct (ne2000_good st n) eqn:Eg; cbn [when].
  - assert (18 <= n <= 1522) as Hn by (unfold ne2000_good in Eg; bool_to_prop; lia).
    do 4 (wp_step; apply wp_ne_out; [by repeat apply ne_ok_trace|lia|]; rewrite ?set_trace_trace).
    do 2 wp_step. rewrite E1. cbn [m_ne2000 m_trace set_m_trace]. rewrite Elast, !set_trace_trace.
    wp_step. eapply wp_mono; [apply (ne_read_data_spec (n - 4)); [by apply ne_ok_trace|lia]|].
    intros [] s2 (tr & m & [-> Xtr] & HF & Ed & Eo). unfold upd_ne2000. wp_step.
    do 2 (try wp_step; apply wp_ne_out; [by repeat (apply ne_ok_trace || apply ne_ok_mem) || (destruct Hs; by split)|lia|]).
    cbn [m_mem m_trace m_ne2000 set_m_trace set_m_mem set_m_ne2000] in *. rewrite (u8_small page) by done.
    eexists ([EvOut 8 (P + 7) (u8 1); EvOut 8 (P + 3) (u8 (nx - 1))] ++ tr ++
      [EvOut 8 (P + 9) page; EvOut 8 (P + 8) (u8 4); EvOut 8 (P + 0xB) (u8 (Z.shiftr (n - 4) 8)); EvOut 8 (P + 0xA) (u8 (n - 4))] ++ t0),
      m, (n - 4), st, nx, lo, hi. fold n. rewrite Eg. split_and!; try lia; try done.
    + rewrite <- !app_assoc. reflexivity.
    + rewrite !executed_app, Xtr. done.
    + subst t0. split; [|done|..]; observe; rewrite ?Eo, ?Ed, ?app_nil_r; try done. by repeat constructor.
  - wp_step. do 2 (try wp_step; apply wp_ne_out; [by repeat apply ne_ok_trace|lia|]). rewrite E1. rewrite !set_trace_trace.
    exists ([EvOut 8 (P + 7) (u8 1); EvOut 8 (P + 3) (u8 (nx - 1))] ++ t0), (m_mem s), (ne2000_last_packet_size (m_ne2000 s)), st, nx, lo, hi.
    fold n. rewrite Eg. split_and!; try done.
    + cbn [m_trace set_m_trace app]. destruct s as [? ? ? ? ? ? ? ? ? []]; reflexivity.
    + subst t0. split; [|done|..]; observe; try done. by repeat constructor.
Qed.

(** The outcome of [ne2000_get_packet]: what it returns is what the data port
    gave, after a header that says so; everything else the machine had is as
    before. *)
Record ne_got (s : machine) (r : option (Z * Z * ethernet_frame_header)) (s' : machine) (tr : list event) (n : Z) : Prop := {
  ng_state : s' = set_m_ne2000 (set_ne2000_last_packet_size n (m_ne2000 s))
                    (set_m_trace (tr ++ m_trace s) (set_m_mem (m_mem s') s));
  ng_io : executed tr = [];
  ng_mem : mem_frame (λ x, L <= x < L + 1518) (m_mem s) (m_mem s');
  ng_result :
    match r with
    | None => n = 0 /\ (data_read P tr = [] \/ exists st nx lo hi page, header_read st nx lo hi page tr [] /\ ne2000_good st (lo + 256 * hi) = false)
    | Some (p, sz, hdr) =>
        p = L + 14 /\ n = sz + 14 /\ 0 <= sz <= 1504 /\ hdr = load_eth (m_mem s') L /\
        exists st nx lo hi page, ne2000_good st (lo + 256 * hi) = true /\ lo + 256 * hi = sz + 18 /\
          header_read st nx lo hi page tr (rd_bytes (m_mem s') L (Z.to_nat (sz + 14)))
    end
}.

(** [ne2000_deliver] adds no data and no page. *)
Lemma ne_deliver_spec s :
  ne_ok s -> 0 <= ne2000_last_packet_size (m_ne2000 s) <= 1518 ->
  wp ne2000_deliver (λ r s', exists tr,
    s' = set_m_trace (tr ++ m_trace s) s /\ executed tr = [] /\ data_read P tr = [] /\ outs P 3 tr = [] /\ outs P 9 tr = [] /\
    r = let n := ne2000_last_packet_size (m_ne2000 s) in
        if 14 <=? n then Some (L + 14, n - 14, load_eth (m_mem s) L) else None) s.
Proof.
  intros Hs Hn. pose proof Hs as [[] Eb Elast _]. unfold ne2000_deliver.
  wp_step. apply wp_ne_out; [done|lia|]. wp_step. apply wp_ne_in; [by apply ne_ok_trace|lia|]. intros v _.
  rewrite set_trace_trace. cbn [m_trace set_m_trace].
  assert (s32 (ne2000_last_packet_size (m_ne2000 s) - 14) = ne2000_last_packet_size (m_ne2000 s) - 14) as Es by wrap_lia.
  wp_step. wp_step.
  - apply wp_ne_out; [by apply ne_ok_trace|lia|]. rewrite set_trace_trace. wp_steps. cbn [m_ne2000 m_trace m_mem set_m_trace].
    rewrite Elast, Es. case_bool; wp_steps;
      exists [EvOut 8 (P + 7) (u8 (Z.land (u8 v) 0xFE)); EvIn 8 (P + 7) v; EvOut 8 (P + 0) (u8 0x22)];
      split_and!; try done; by observe.
  - wp_steps. cbn [m_ne2000 m_trace m_mem set_m_trace]. rewrite Elast, Es.
    case_bool; wp_steps; exists [EvIn 8 (P + 7) v; EvOut 8 (P + 0) (u8 0x22)]; split_and!; try done; by observe.
Qed.

Lemma ne_status_spec s :
  ne_ok s ->
  wp ne2000_status (λ c s', exists tr, s' = set_m_trace (tr ++ m_trace s) s /\ executed tr = [] /\ data_read P tr = [] /\
    outs P 3 tr = [] /\ outs P 9 tr = []) s.
Proof.
  intros Hs. pose proof Hs as [[] _ _ _]. unfold ne2000_status. wp_step. apply wp_ne_out; [done|lia|]. wp_step.
  apply wp_ne_in; [by apply ne_ok_trace|lia|]. intros v _. rewrite set_trace_trace. cbn [m_trace set_m_trace]. case_bool.
  - wp_step. apply wp_ne_out; [by apply ne_ok_trace|lia|]. apply wp_ne_in; [by repeat apply ne_ok_trace|lia|]. intros v' _.
    rewrite !set_trace_trace. cbn [m_trace set_m_trace].
    exists [EvIn 8 (P + 7) v'; EvOut 8 (P + 7) (u8 0x40); EvIn 8 (P + 7) v; EvOut 8 (P + 0) (u8 0x22)].
    split_and!; try done; by observe.
  - wp_step. exists [EvIn 8 (P + 7) v; EvOut 8 (P + 0) (u8 0x22)]. split_and!; try done; by observe.
Qed.

(** Events before the header and after the data change no observation. *)
Lemma header_read_around st nx lo hi page t1 t2 t3 rest :
  header_read st nx lo hi page t2 rest -> data_read P t1 = [] -> data_read P t3 = [] ->
  outs P 3 t1 = [] -> outs P 3 t3 = [] -> outs P 9 t1 = [] -> outs P 9 t3 = [] ->
  header_read st nx lo hi page (t3 ++ t2 ++ t1) rest.
Proof.
  intros [Hd Hb Ho Hp] D1 D3 O1 O3 P1 P3.
  split; [|done|..]; rewrite ?data_read_app, ?outs_app, ?D1, ?D3, ?O1, ?O3, ?P1, ?P3, ?Hd, ?Ho, ?app_nil_r; done.
Qed.

(** The switch to register page 1 and back between the status and the header. *)
Definition page_events (cur bnry : Z) : list event :=
  [EvIn 8 (P + 3) bnry; EvOut 8 (P + 0) (u8 0x22); EvIn 8 (P + 7) cur; EvOut 8 (P + 0) (u8 (Z.lor 0x22 0x40))].

Lemma page_events_quiet cur bnry :
  executed (page_events cur bnry) = [] /\ data_read P (page_events cur bnry) = [] /\
  outs P 3 (page_events cur bnry) = [] /\ outs P 9 (page_events cur bnry) = [].
Proof. unfold page_events. split_and!; [done|by observe..]. Qed.

Lemma read_page_range bnry : 0 <= read_page bnry < 256.
Proof. unfold read_page, RX_PAGE_START. pose proof (u8_range (bnry + 1)). case_bool; lia. Qed.

Lemma ne_get_packet_spec s :
  ne_ok s -> wp ne2000_get_packet (λ r s', exists tr n, ne_got s r s' tr n) s.
Proof.
  intros Hs. pose proof Hs as [[] Eb Elast Ex]. unfold ne2000_get_packet, upd_ne2000. wp_step. wp_step.
  set (s0 := set_m_ne2000 _ s). assert (ne_ok s0) as Hs0 by (by split). wp_step.
  eapply wp_mono; [by apply ne_status_spec|]. intros c s1 (t1 & -> & X1 & D1 & O1 & Q1). case_bool.
  - wp_step. apply wp_ne_out; [by apply ne_ok_trace|lia|]. wp_step. apply wp_ne_in; [by repeat apply ne_ok_trace|lia|]. intros cur _.
    wp_step. apply wp_ne_out; [by repeat apply ne_ok_trace|lia|]. wp_step. apply wp_ne_in; [by repeat apply ne_ok_trace|lia|]. intros bnry _.
    rewrite !set_trace_trace. cbn [m_trace set_m_trace].
    change (EvIn 8 (P + 3) bnry :: _) with (page_events cur bnry ++ t1 ++ m_trace s).
    destruct (page_events_quiet cur bnry) as (X2 & D2 & O2 & Q2). set (t2 := page_events cur bnry) in *. case_bool.
    + wp_step. exists (t2 ++ t1), 0. rewrite app_assoc. split; [done| |done|].
      * by rewrite executed_app, X1, X2.
      * split; [done|]. left. by rewrite data_read_app, D1, D2.
    + wp_step. eapply wp_mono; [apply ne_take_spec; [by apply ne_ok_trace|apply read_page_range]|].
      intros [] s2 (t3 & m & n & st & nx & lo & hi & -> & X3 & Hif). cbn [m_mem m_trace m_ne2000 set_m_trace] in *.
      assert (0 <= n <= 1518) as Hn.
      { destruct (ne2000_good st _); [|destruct Hif as (-> & _); cbn; lia]. destruct Hif as (_ & Hn & _). lia. }
      eapply wp_mono; [apply ne_deliver_spec; [destruct Hs0; by split|done]|].
      intros r s3 (t4 & -> & X4 & D4 & O4 & Q4 & ->). cbn [m_mem m_trace m_ne2000 set_m_trace set_m_mem set_m_ne2000 ne2000_last_packet_size set_ne2000_last_packet_size].
      exists (t4 ++ t3 ++ t2 ++ t1), n. destruct (ne2000_good st _) eqn:Eg.
      * destruct Hif as (En & Hn14 & HF & Hh). split.
        -- cbn [m_mem set_m_trace set_m_mem set_m_ne2000]. rewrite <- !app_assoc. reflexivity.
        -- by rewrite !executed_app, X1, X2, X3, X4.
        -- cbn. eapply mem_frame_weaken; [|exact HF]. cbv beta. lia.
        -- rewrite (proj2 (Z.leb_le 14 n)) by lia. split_and!; [done|lia|lia|lia|done|].
           exists st, nx, lo, hi, (read_page (u8 bnry)). split_and!; [done|lia|]. replace (n - 14 + 14) with n by lia.
           apply header_read_around; rewrite ?data_read_app, ?outs_app, ?D1, ?D2, ?O1, ?O2, ?Q1, ?Q2; try done.
      * destruct Hif as (En & -> & Hh). cbn in En. subst n. split.
        -- cbn [m_mem set_m_trace set_m_mem set_m_ne2000]. rewrite <- !app_assoc. reflexivity.
        -- by rewrite !executed_app, X1, X2, X3, X4.
        -- done.
        -- change (14 <=? 0) with false. split; [done|]. right. exists st, nx, lo, hi, (read_page (u8 bnry)). split; [|done].
           apply header_read_around; rewrite ?data_read_app, ?outs_app, ?D1, ?D2, ?O1, ?O2, ?Q1, ?Q2; try done.
  - eapply wp_mono; [apply ne_deliver_spec; [by apply ne_ok_trace|cbn; lia]|].
    intros r s3 (t4 & -> & X4 & D4 & O4 & Q4 & ->). exists (t4 ++ t1), 0. split.
    + cbn [m_mem set_m_trace]. rewrite <- app_assoc. reflexivity.
    + by rewrite executed_app, X1, X4.
    + done.
    + cbn. split; [done|]. left. by rewrite data_read_app, D1, D4.
Qed.

(** *** The first page

    After [ne2000_init] the boundary and the current page are both the first of
    the ring.  A first packet that fits one page moves the current page by one,
    to exactly the page [ne2000_get_packet] expects to read next. *)

Lemma ne_get_packet_caught_up s cur bnry :
  ne_ok s -> (forall tr, env_in tr 8 (P + 3) = bnry) ->
  (forall tr, env_in (EvOut 8 (P + 0) 0x62 :: tr) 8 (P + 7) = cur) -> read_page (u8 bnry) = u8 cur ->
  wp ne2000_get_packet (λ r s', exists tr, r = None /\ outs P 3 tr = [] /\ data_read P tr = [] /\
    s' = set_m_ne2000 (set_ne2000_last_packet_size 0 (m_ne2000 s)) (set_m_trace (tr ++ m_trace s) s)) s.
Proof.
  intros Hs Hb Hc Hp. pose proof Hs as [[] Eb Elast Ex]. unfold ne2000_get_packet, upd_ne2000. wp_step. wp_step.
  set (s0 := set_m_ne2000 _ s). assert (ne_ok s0) as Hs0 by (by split). wp_step.
  eapply wp_mono; [by apply ne_status_spec|]. intros c s1 (t1 & -> & _ & D1 & O1 & _). case_bool.
  - wp_step. apply wp_ne_out; [by apply ne_ok_trace|lia|]. change (u8 (Z.lor 0x22 0x40)) with 0x62.
    wp_step. apply wp_ne_in; [by repeat apply ne_ok_trace|lia|]. intros v Ev.
    cbn [m_trace set_m_trace] in Ev. rewrite Hc in Ev. subst v.
    wp_step. apply wp_ne_out; [by repeat apply ne_ok_trace|lia|]. wp_step. apply wp_ne_in; [by repeat apply ne_ok_trace|lia|].
    intros v Ev. rewrite Hb in Ev. subst v. rewrite Hp, Z.eqb_refl. wp_step. rewrite !set_trace_trace. cbn [m_trace set_m_trace].
    change (EvOut 8 (P + 0) 0x62) with (EvOut 8 (P + 0) (u8 (Z.lor 0x22 0x40))). exists (page_events cur bnry ++ t1).
    destruct (page_events_quiet cur bnry) as (_ & D2 & O2 & _). split_and!; [done| | |].
    + by rewrite outs_app, O1, O2.
    + by rewrite data_read_app, D1, D2.
    + rewrite <- app_assoc. reflexivity.
  - eapply wp_mono; [apply ne_deliver_spec; [by apply ne_ok_trace|cbn; lia]|].
    intros r s3 (t4 & -> & _ & D4 & O4 & _ & ->). exists (t4 ++ t1). split_and!; [done| | |].
    + by rewrite outs_app, O1, O4.
    + by rewrite data_read_app, D1, D4.
    + rewrite <- app_assoc. reflexivity.
Qed.

(** *** Initialisation *)

Lemma ne_ok_mac l l' s : ne_ok s -> ne_ok (set_m_ne2000 (set_ne2000_mac_address l (m_ne2000 s)) (set_m_net l' s)).
Proof. intros []. by split. Qed.

(** [n] bytes from the data port. *)
Lemma read_data_bytes_spec n : forall s,
  ne_ok s ->
  wp (read_data_bytes n) (λ l s', exists tr, s' = set_m_trace (tr ++ m_trace s) s /\ executed tr = [] /\
    l = data_read P tr /\ length l = n /\ Forall (λ b, 0 <= b < 256) l /\ reg_writes P tr = []) s.
Proof.
  induction n as [|n IH]; intros s Hs; cbn [read_data_bytes].
  - wp_step. exists []. split_and!; try done. by destruct s.
  - pose proof Hs as [[] _ _ _]. wp_step. apply wp_ne_in; [done|lia|]. intros v _. wp_step.
    eapply wp_mono; [apply IH; by apply ne_ok_trace|]. intros l s1 (tr & -> & Xt & -> & Hn & Hb & Hr). wp_step.
    exists (tr ++ [EvIn 8 (P + 0x10) v]). rewrite set_trace_trace, <- app_assoc. split_and!; [done| | | | |].
    + by rewrite executed_app, Xt.
    + rewrite data_read_app. cbn [data_read data_of app]. by rewrite Z.eqb_refl.
    + cbn. by rewrite Hn.
    + constructor; [apply u8_range|done].
    + by rewrite reg_writes_app, Hr.
Qed.

(** The registers of the card after [ne2000_init]: the receive ring, the address
    read from the card, broadcasts accepted, started and out of loopback. *)
Record ne_programmed (mac : list Z) (w : list (Z * Z)) : Prop := {
  pr_start : reg_of 0 0x1 w = Some RX_PAGE_START;
  pr_stop : reg_of 0 0x2 w = Some RX_PAGE_END;
  pr_boundary : reg_of 0 0x3 w = Some RX_PAGE_START;
  pr_current : reg_of 1 0x7 w = Some RX_PAGE_START;
  pr_mac i : 0 <= i < 6 -> reg_of 1 (1 + i) w = Some (nth (Z.to_nat i) mac 0);
  pr_multicast i : 0 <= i < 6 -> reg_of 1 (8 + i) w = Some 0xFF;
  pr_receive : reg_of 0 0xC w = Some 0x1C;
  pr_interrupts : reg_of 0 0xF w = Some 0;
  pr_normal : reg_of 0 0xD w = Some 0;
  pr_command : reg_of 1 0x0 w = Some 0x22
}.

Lemma six_cases (Q : Z -> Prop) : Q 0 -> Q 1 -> Q 2 -> Q 3 -> Q 4 -> Q 5 -> forall i, 0 <= i < 6 -> Q i.
Proof.
  intros H0 H1 H2 H3 H4 H5 i Hi. assert (i = 0 \/ i = 1 \/ i = 2 \/ i = 3 \/ i = 4 \/ i = 5) as Hc by lia.
  by destruct Hc as [->|[->|[->|[->|[->| ->]]]]].
Qed.

(** The events of [ne2000_start] for the address [m0:...:m5]. *)
Definition start_events (m0 m1 m2 m3 m4 m5 : Z) : list event :=
  [EvOut 8 (P + 0xD) 0; EvOut 8 (P + 0) 0x22; EvOut 8 (P + 7) RX_PAGE_START;
   EvOut 8 (P + 0xD) 0xFF; EvOut 8 (P + 0xC) 0xFF; EvOut 8 (P + 0xB) 0xFF; EvOut 8 (P + 0xA) 0xFF; EvOut 8 (P + 9) 0xFF; EvOut 8 (P + 8) 0xFF;
   EvOut 8 (P + 6) m5; EvOut 8 (P + 5) m4; EvOut 8 (P + 4) m3; EvOut 8 (P + 3) m2; EvOut 8 (P + 2) m1; EvOut 8 (P + 1) m0;
   EvOut 8 (P + 0) 0x61].

Lemma ne_start_spec s m0 m1 m2 m3 m4 m5 :
  ne_ok s -> ne2000_mac_address (m_ne2000 s) = [m0; m1; m2; m3; m4; m5] ->
  Forall (λ b, 0 <= b < 256) [m0; m1; m2; m3; m4; m5] ->
  wp ne2000_start (λ r s', r = 1 /\ s' = set_m_trace (start_events m0 m1 m2 m3 m4 m5 ++ m_trace s) s) s.
Proof.
  intros Hs Em Hb. pose proof Hs as [[] _ _ _]. unfold ne2000_start. cbn [for_range].
  repeat (wp_step || (apply wp_ne_out; [by repeat apply ne_ok_trace|lia|]; rewrite ?set_trace_trace; cbn [m_trace set_m_trace m_ne2000])).
  split; [done|]. rewrite Em. repeat rewrite Forall_cons in Hb. destruct Hb as (? & ? & ? & ? & ? & ? & _).
  assert (start_events m0 m1 m2 m3 m4 m5 = start_events (u8 m0) (u8 m1) (u8 m2) (u8 m3) (u8 m4) (u8 m5)) as ->
    by (by rewrite !u8_small by done).
  reflexivity.
Qed.

Lemma ne_init_spec s :
  ne_layout -> ne2000_probe_base (m_ne2000 s) = P -> m_alloc s = L -> X = L + 2048 -> X + 2049 < 4294967296 ->
  wp (ne2000_init None) (λ r s', r = 1 /\ ne_ok s' /\ exists tr mac,
    mac = take 6 (data_read P tr) /\ length mac = 6%nat /\ Forall (λ b, 0 <= b < 256) mac /\ ne_programmed mac (reg_writes P tr) /\
    executed tr = [] /\ m_trace s' = tr ++ m_trace s /\ m_mem s' = m_mem s /\ m_vga s' = m_vga s /\
    m_alloc s' = X + 2049 /\ m_net s' = set_my_eth_mac mac (m_net s)) s.
Proof.
  intros Hl Hb Ha HX Hend. pose proof Hl as []. unfold ne2000_init, base_port, do_alloc, upd_ne2000, upd_net. do 2 wp_step.
  rewrite Hb, (proj2 (Z.eqb_neq P 0)) by lia. wp_steps. cbn [m_alloc set_m_alloc set_m_ne2000 m_ne2000].
  rewrite Ha, (u32_small (L + 2048)), <- HX, u32_small by lia.
  set (s1 := set_m_ne2000 _ _). assert (ne_ok s1) as Hs1 by (by split).
  assert (m_trace s1 = m_trace s /\ m_mem s1 = m_mem s /\ m_vga s1 = m_vga s /\ m_net s1 = m_net s /\ m_alloc s1 = X + 2049)
    as (T1 & M1 & V1 & N1 & A1) by done. clearbody s1.
  do 15 (apply wp_ne_out; [by repeat apply ne_ok_trace|lia|]; rewrite ?set_trace_trace; cbn [m_trace set_m_trace]; wp_step).
  eapply wp_mono; [apply (read_data_bytes_spec 16); by apply ne_ok_trace|]. intros l s2 (tr & -> & Xt & El & Hlen & Hlb & Hr).
  wp_steps. rewrite set_trace_trace. cbn [m_net m_trace m_ne2000 set_m_trace set_m_net].
  set (mac := take 6 l). assert (length mac = 6%nat) as Hmac by (subst mac; rewrite length_take; lia).
  assert (Forall (λ b, 0 <= b < 256) mac) as Hmb by (by apply Forall_take).
  set (t0 := [EvOut 8 (P + 9) (u8 0); EvOut 8 (P + 8) (u8 0); EvOut 8 (P + 0xB) (u8 0); EvOut 8 (P + 0xA) (u8 32);
    EvOut 8 (P + 0xF) (u8 0); EvOut 8 (P + 7) (u8 0xFF); EvOut 8 (P + 2) (u8 RX_PAGE_END); EvOut 8 (P + 1) (u8 RX_PAGE_START);
    EvOut 8 (P + 3) (u8 RX_PAGE_START); EvOut 8 (P + 0xD) (u8 2); EvOut 8 (P + 0xC) (u8 0x1C); EvOut 8 (P + 0xB) (u8 0);
    EvOut 8 (P + 0xA) (u8 0); EvOut 8 (P + 0xE) (u8 0xC5); EvOut 8 (P + 0) (u8 0x21)]).
  change (tr ++ _) with (tr ++ t0 ++ m_trace s1). rewrite app_assoc. set (s2 := set_m_ne2000 _ _).
  assert (ne_ok s2) as Hs2 by (destruct Hs1; by split).
  assert (m_trace s2 = (tr ++ t0) ++ m_trace s /\ m_mem s2 = m_mem s /\ m_vga s2 = m_vga s /\
    m_net s2 = set_my_eth_mac mac (m_net s) /\ m_alloc s2 = X + 2049 /\ ne2000_mac_address (m_ne2000 s2) = mac)
    as (T2 & M2 & V2 & N2 & A2 & E2) by (subst s2; cbn; by rewrite T1, M1, V1, N1, A1).
  assert (data_read P t0 = [] /\ executed t0 = []) as [D0 X0] by done.
  assert (mac = take 6 (data_read P tr)) as Em by (by rewrite <- El). clearbody s2 mac.
  destruct mac as [|m0 [|m1 [|m2 [|m3 [|m4 [|m5 []]]]]]]; try discriminate Hmac.
  eapply wp_mono; [by apply (ne_start_spec s2 m0 m1 m2 m3 m4 m5)|]. intros r s3 [-> ->]. split_and!; [done|by apply ne_ok_trace|].
  eexists (start_events m0 m1 m2 m3 m4 m5 ++ tr ++ t0), [m0; m1; m2; m3; m4; m5]. cbn [m_trace m_mem m_vga m_alloc m_net set_m_trace].
  split_and!; [| |done| | | |done|done|done|done].
  - rewrite !data_read_app, D0. change (data_read P (start_events _ _ _ _ _ _)) with (@nil Z). by rewrite app_nil_r.
  - done.
  - rewrite !reg_writes_app, Hr. subst t0. unfold start_events, reg_writes. cbn [omap list_omap]. rewrite !Z.add_simpl_l.
    split; try reflexivity; apply six_cases; reflexivity.
  - by rewrite !executed_app, Xt, X0.
  - rewrite T2, app_assoc. done.
Qed.

End Laws.

(** ** Probing and initialisation *)

Section Probe.
Context `{Env}.

Lemma port_io_stuck base want : port_io (isr_stuck base want).
Proof. unfold isr_stuck. solve_stays. Qed.

Lemma port_io_command base v : port_io (command_is base v).
Proof. unfold command_is. solve_stays. Qed.

#[local] Hint Resolve port_io_stuck port_io_command : stays.

(** A base that answers like no card: nothing but port accesses.  One that
    does: a message, and the base is remembered. *)
Definition probed (base : Z) (s : machine) (r : Z) (s' : machine) : Prop :=
  (r = 0 /\ io_only s s') \/
  (r = 1 /\ exists s1, console_inv s1 /\ console_frame s s1 /\
     s' = set_m_ne2000 (set_ne2000_probe_base base (m_ne2000 s1)) s1).

Lemma io_only_console s s' : console_inv s -> io_only s s' -> console_inv s' /\ console_frame s s'.
Proof.
  intros Hv Hio. pose proof (io_only_adds _ _ Hio) as Ha. destruct Hio as [tr [-> _]]. split; [exact Hv|]. by split.
Qed.

(** One step of the probe that only accesses ports. *)
Lemma probed_io {T} (c : M T) (k : T -> M Z) base s s0 :
  port_io c -> io_only s0 s -> (forall v s1, io_only s0 s1 -> wp (k v) (probed base s0) s1) ->
  wp (c ≫= k) (probed base s0) s.
Proof.
  intros Hc H0 Hk. apply wp_bind. eapply (stays_wp _ _ c _ s Hc); [done|]. intros v s1 _ H1. apply Hk. by etransitivity.
Qed.

Lemma probed_no base s0 s : io_only s0 s -> wp (mret 0) (probed base s0) s.
Proof. intros Hs. apply wp_ret. by left. Qed.

Lemma ne2000_isa_probe_spec base s : console_inv s -> wp (ne2000_isa_probe base) (probed base s) s.
Proof.
  intros Hv. unfold ne2000_isa_probe.
  apply probed_io; [solve_stays|done|]. intros c s1 H1. case_bool; [by apply probed_no|].
  apply probed_io; [solve_stays|done|]. intros [] s2 H2.
  apply probed_io; [solve_stays|done|]. intros [] s3 H3; cbn [negb]; [|by apply probed_no].
  apply probed_io; [solve_stays|done|]. intros [] s4 H4; [by apply probed_no|].
  apply probed_io; [solve_stays|done|]. intros [] s5 H5.
  apply probed_io; [solve_stays|done|]. intros [] s6 H6; cbn [negb]; [|by apply probed_no].
  apply probed_io; [solve_stays|done|]. intros [] s7 H7; [by apply probed_no|].
  apply probed_io; [solve_stays|done|]. intros [] s8 H8.
  destruct (io_only_console s s8 Hv H8) as [Hv8 F8].
  wp_step. eapply (stays_wp _ _ _ _ s8 (prints_write _)); [done|]. intros [] s9 Hv9 F9.
  wp_step. eapply (stays_wp _ _ _ _ s9 (prints_write_hex _ _)); [done|]. intros [] s10 Hv10 F10.
  wp_step. eapply (stays_wp _ _ _ _ s10 (prints_write _)); [done|]. intros [] s11 Hv11 F11.
  unfold upd_ne2000. wp_steps. right. split; [done|]. exists s11. split_and!; [done| |done].
  do 3 (etransitivity; [|eassumption]). exact F8.
Qed.

(** The bases are tried in turn; a PCI device is not this driver's. *)
Definition probed_first (s : machine) (r : Z) (s' : machine) : Prop :=
  (r = 0 /\ io_only s s') \/ exists base, base ∈ [0x240; 0x260; 0x300] /\ probed base s 1 s' /\ r = 1.

Lemma probe_next base (c : M Z) s s0 :
  base ∈ [0x240; 0x260; 0x300] -> console_inv s0 -> io_only s0 s ->
  (forall s1, io_only s0 s1 -> wp c (probed_first s0) s1) ->
  wp (r ← ne2000_isa_probe base; if negb (r =? 0) then mret 1 else c) (probed_first s0) s.
Proof.
  intros Hb Hv H0 Hc. destruct (io_only_console s0 s Hv H0) as [Hv1 F1]. wp_step.
  eapply wp_mono; [by apply ne2000_isa_probe_spec|]. intros r s1 [[-> H1]|(-> & s2 & Hv2 & F2 & ->)]; cbn [Z.eqb negb].
  - apply Hc. by etransitivity.
  - wp_step. right. exists base. split_and!; [done| |done]. right. split; [done|]. exists s2. split_and!; [done|by etransitivity|done].
Qed.

Lemma ne2000_probe_spec s : console_inv s -> wp (ne2000_probe None) (probed_first s) s.
Proof.
  intros Hv. cbn [ne2000_probe].
  apply probe_next; [set_solver|done|done|]. intros s1 H1.
  apply probe_next; [set_solver|done|done|]. intros s2 H2.
  apply probe_next; [set_solver|done|done|]. intros s3 H3. wp_step. by left.
Qed.

End Probe.
