(* ===== verification/Drivers.v ===== *)
(** * The driver table (net_drivers[] of network.c)

    The four drivers behind their identifiers, and what the automatic choice of
    a card comes to with them. *)

From S2P Require Import Prelude Machine Memory Vga NetDriver Network Rings Pcnet32 Rtl8101 Rtl8139 Ne2000.

Section Drivers.
Context `{Env} `{Linker}.

Definition eth_drivers : NetDrivers := λ d,
  match d with
  | pcnet32 => pcnet32_driver
  | rtl8101 => rtl8101_driver
  | rtl8139 => rtl8139_driver
  | ne2000 => ne2000_driver
  end.

(** The PCI devices each driver takes. *)
Definition known_card (d : driver_id) (p : pci_device) : bool :=
  match d with
  | pcnet32 => (pd_vendor_id p =? 0x1022) && (pd_device_id p =? 0x2000)
  | rtl8101 => (pd_vendor_id p =? 0x10EC) && (pd_device_id p =? 0x8136)
  | rtl8139 | ne2000 => false
  end.

#[local] Existing Instance eth_drivers.

Lemma eth_drivers_probe d : probe_reads d (known_card d).
Proof.
  destruct d; intros p s; [..|reflexivity|reflexivity]; unfold net_driver, eth_drivers; cbn [drv_probe pcnet32_driver rtl8101_driver known_card].
  - unfold pcnet32_probe, pcnet32_known_pci_id. by destruct (_ && _).
  - unfold rtl8101_probe, rtl8101_known_pci_id. by destruct (_ && _).
Qed.

(** The automatic choice takes the first Ethernet device of the PCI table
    that is an AMD PCnet-FAST or a RealTek 8101, with the driver for it, and
    touches nothing else: no port is accessed and the other drivers never take
    a PCI device. *)
Theorem autoprobe_first_card s i d :
  length (pci_devices (m_pci s)) = 64%nat -> first_card known_card 0 (pci_devices (m_pci s)) = Some (i, d) ->
  exists s', autoprobe_network_card s = inr (tt, s') /\
    s' = set_m_net (set_chosen_net_drv (Some d) (set_chosen_net_dev (Some i) (m_net s))) s.
Proof. apply (autoprobe_choice known_card eth_drivers_probe). Qed.

End Drivers.
