(* ===== verification/Rtl8101Spec.v ===== *)
(** * What the RealTek 8101 driver guarantees

    The properties of net-rtl8101.c, from the lemmas of [Rtl8101], for every
    card that writes only to what it owns; and a card at rest on which the
    hypotheses hold. *)

From S2P Require Import Prelude Machine Memory Vga Alloc Pci NetDriver Rings Rtl8101.

Section Spec.
Context `{Env} (A B j : Z) `{Card : !RtlCardOk A B}.

(** C15: [rtl8101_get_packet] on every kind of descriptor: one the card still
    owns is left alone, one with an error flag or without both ends of a frame
    is given back and skipped, a complete frame is returned with its length and
    header and stays with the driver; the driver touches nothing but its rings. *)
Theorem rtl8101_get_packet_outcomes s :
  rtl_idle A B j s -> exists r s', rtl8101_get_packet s = inr (r, s') /\ rtl_outcome A B j s r s'.
Proof. intros Hs. apply wp_run, (rtl_get_packet_spec A B j s Hs). Qed.

(** C16: Sending returns whatever the card does, even one that never gives the
    transmit descriptor back: the driver's waits have an end.  The frame is then
    in the transmit buffer the descriptor points to, whole, and only the
    driver's memory, the screen and its own variables have changed. *)
Theorem rtl8101_transmits s hdr (payload : list Z) :
  rtl_held A B j s -> vga_ok (m_vga s) -> Z.of_nat (length payload) <= 1586 ->
  length (dst_mac hdr) = 6%nat -> length (src_mac hdr) = 6%nat ->
  exists s', transmit rtl8101_driver hdr payload s = inr (tt, s') /\ rtl_held A B j s' /\
    rtl_handed A B j s' ((u8 <$> eth_bytes hdr) ++ (u8 <$> payload)) /\ drv_step (rtl_area A B j) s s'.
Proof.
  intros Hs Hv Hlen Hd Hsr. apply wp_run_unit. eapply wp_mono.
  { exact (transmit_law rtl8101_driver (L := rtl8101_laws A B j (rti_layout _ _ _ _ (rth_idle _ _ _ _ Hs))) s hdr payload
      Hs Hv Hlen Hd Hsr). }
  done.
Qed.

(** [rtl8101_put_packet] gives the descriptor back to the card: ownership
    and, for the last one, end of ring set, the length that of the whole buffer,
    and the next descriptor of the four is current. *)
Theorem rtl8101_put_packet_releases s p :
  rtl_held A B j s ->
  exists s', rtl8101_put_packet p s = inr (tt, s') /\ rtl_released A B j s s' /\
    let d1 := rd32 (m_mem s') (rtl_held_desc A j) in
    Z.testbit d1 31 = true /\ Z.testbit d1 30 = (j =? 3) /\ Z.land d1 0x3FFF = 1600.
Proof.
  intros Hs. apply wp_run_unit. eapply wp_mono; [by apply (rtl_put_packet_spec A B j)|]. intros [] s' Hr. split; [done|].
  cbv zeta. rewrite (rtr_d1 _ _ _ _ _ Hr). apply rtl_reinit_d1_bits, rd32_range.
Qed.

End Spec.

(** C22: The first initialisation of a known card is decided by the first look
    at the command register after the reset command, because the test of
    [patience] gives up when patience is left: a card that has finished its
    reset by then gets rings of four descriptors in fresh memory, any other
    makes [rtl8101_init] return 0 with nothing allocated. *)
Theorem rtl8101_init_one_look `{Env} s d i b :
  let A := align_up (m_alloc s) 256 in
  let B := align_up (A + 352) 32 in
  let port := u16 (u32 (bar_start b) + 0x37) in
  rtl8101_known_pci_id (Some d) = 1 -> rtl8101_find_io (pd_BAR d) = Some (i, b) -> rtl_cold (m_rtl8101 s) ->
  16 <= m_alloc s -> m_alloc s + 16640 < 4294967296 ->
  786432 <= m_alloc s \/ m_alloc s + 16640 <= 753664 ->
  exists tr r s', rtl8101_init (Some d) s = inr (r, s') /\
    if Z.land (u8 (env_in (EvOut 8 port 0x10 :: tr) 8 port)) 0x10 =? 0
    then r = 1 /\ rtl_idle A B 0 s' /\ rtl_fresh A B (m_mem s') /\ m_alloc s' = B + 12800
    else r = 0 /\ m_mem s' = m_mem s /\ m_alloc s' = m_alloc s /\ m_net s' = m_net s.
Proof.
  intros A B port Hid Hio Hcold Ha Hend Hscr. destruct (rtl_init_spec s d i b Hid Hio Hcold Ha Hend Hscr) as (tr & Hw).
  exists tr. apply wp_run in Hw as (r & s' & E & H1 & H2). exists r, s'. split; [done|].
  case_bool; bool_to_prop; [|by apply H2]. by destruct H1 as (-> & Hi & Hf & Hal & _).
Qed.

(** ** A card at rest *)

#[local] Instance rest_env : Env := {|
  env_in := λ _ _ _, 0;
  env_dma := λ _ m, m;
  env_exec := λ _ _, None;
  env_fuel := 100
|}.

Definition rest_A : Z := 0x100000.
Definition rest_B : Z := 0x100160.

#[local] Instance rest_card : RtlCardOk rest_A rest_B.
Proof. intros tr m. reflexivity. Qed.

Definition rest_mac : list Z := [2; 0; 0; 0; 0; 1].
Definition rest_rtl8101 : rtl8101_state :=
  mkRtl8101 (Some 0) 0xD000 rest_mac (rtl_rx rest_A) (rtl_rx_table rest_A) (rtl_tx rest_A) (rtl_tx_table rest_A) 4 0 0 0.
Definition rest_base (st : rtl8101_state) (alloc : Z) : machine :=
  mkMachine ∅ [] (replicate 16 None) alloc (mkVga 753664 25 80 0 0 7 980) (mkPci (replicate 64 zero_device) 1)
    (mkNet [192; 168; 250; 254] rest_mac (Some 0) (Some rtl8101) 1 0 0 0 4294967295)
    (mkPcnet32 None 0 [] 0 0 0 0 0 0 0) st (mkNe2000 [] 0 0 0 0 0).

Definition rest_rings : gmap Z Z := memory_after rtl8101_setup_rings (rest_base rest_rtl8101 (rest_A + 352)).

(** A frame of 60 bytes in the first receive buffer. *)
Definition rest_state : machine :=
  set_m_mem (wr32 rest_rings rest_A 0x3000003C) (rest_base rest_rtl8101 (rest_B + 12800)).

Lemma rest_layout : rtl_layout rest_A rest_B 0.
Proof. split; unfold rest_A, rest_B; lia. Qed.

Lemma rest_fresh : rtl_fresh rest_A rest_B rest_rings.
Proof.
  unfold rest_rings. apply (memory_after_wp rtl8101_setup_rings (rtl_fresh rest_A rest_B)).
  assert (0 <= rest_A) as H1 by (unfold rest_A; lia). set (s := rest_base rest_rtl8101 (rest_A + 352)).
  assert (rest_A + 352 <= m_alloc s) as H2 by (subst s; cbn [m_alloc rest_base]; lia).
  assert (m_alloc s + 12832 < 4294967296) as H3 by (subst s; cbn [m_alloc rest_base]; unfold rest_A; lia).
  eapply wp_mono; [exact (rtl_setup_rings_spec rest_A s eq_refl eq_refl eq_refl eq_refl H1 H2 H3)|].
  intros _ s' (m & -> & Hf). exact Hf.
Qed.

Lemma rest_held : rtl_held rest_A rest_B 0 rest_state.
Proof.
  split.
  - split; [apply rest_layout|by split|].
    eapply (rtl_mem_frame rest_A rest_B 0 (λ x, rest_A <= x < rest_A + 4)); [apply rest_layout|apply rest_fresh| |].
    + apply mem_frame_store32; unfold rest_A; lia.
    + intros x [Hx|(i & Hi & Hx)]; unfold rtl_rx in *; lia.
  - unfold rtl_owns, rtl_held_desc, rtl_rx, rest_state. cbn [m_mem set_m_mem]. rewrite Z.mul_0_r, Z.add_0_r, rd32_wr32.
    intros Hn. apply Hn. reflexivity.
Qed.

Lemma rest_vga : vga_ok (m_vga rest_state).
Proof. split; cbn; lia. Qed.

Lemma rtl8101_get_packet_outcomes_witness :
  exists r s', rtl8101_get_packet rest_state = inr (r, s') /\ rtl_outcome rest_A rest_B 0 rest_state r s'.
Proof. apply (rtl8101_get_packet_outcomes rest_A rest_B 0 rest_state). apply rest_held. Defined.

Lemma rtl8101_transmits_witness :
  exists s', transmit rtl8101_driver (mkEth rest_mac rest_mac 8) [1; 2; 3] rest_state = inr (tt, s') /\
    rtl_handed rest_A rest_B 0 s' (rest_mac ++ rest_mac ++ [8; 0; 1; 2; 3]).
Proof.
  destruct (rtl8101_transmits rest_A rest_B 0 rest_state (mkEth rest_mac rest_mac 8) [1; 2; 3] rest_held rest_vga)
    as (s' & E & _ & Hh & _); [cbn; lia|reflexivity|reflexivity|].
  exists s'. split; [exact E|exact Hh].
Defined.

Lemma rtl8101_put_packet_releases_witness :
  exists s', rtl8101_put_packet 0 rest_state = inr (tt, s') /\ rtl_idle rest_A rest_B 1 s'.
Proof.
  destruct (rtl8101_put_packet_releases rest_A rest_B 0 rest_state 0 rest_held) as (s' & E & Hr & _).
  exists s'. split; [exact E|]. exact (rtr_idle _ _ _ _ _ Hr).
Defined.

(** A RealTek card with its I/O range in the first register. *)
Definition realtek_io : pci_bar := mkBar 1 0 0 1 0xD000 0xD0FF 0.
Definition realtek_card : pci_device :=
  mkPciDevice 0 3 0 0x8136 0x10EC 0x20000 1 0 0 0 [realtek_io; zero_bar; zero_bar; zero_bar; zero_bar; zero_bar].
Definition rest_cold : machine := rest_base (mkRtl8101 None 0 rest_mac 0 0 0 0 0 0 0 0) 0x100000.

(** Nothing is set in the command register of a card at rest. *)
Lemma rtl8101_init_one_look_witness :
  exists s', rtl8101_init (Some realtek_card) rest_cold = inr (1, s') /\ rtl_idle rest_A rest_B 0 s'.
Proof.
  destruct (rtl8101_init_one_look rest_cold realtek_card 0 realtek_io) as (tr & r & s' & E & -> & Hi & _); try reflexivity.
  - split; try done. by repeat constructor.
  - vm_compute. discriminate.
  - left. vm_compute. discriminate.
  - exists s'. split; [exact E|exact Hi].
Defined.
