(* ===== verification/Ne2000Spec.v ===== *)
(** * What the NE2000 driver guarantees

    The properties of net-ne2000.c, from the lemmas of [Ne2000]; and a card
    whose registers read zero, on which the hypotheses hold. *)

From S2P Require Import Prelude Machine Memory Vga Alloc Pci NetDriver Ne2000.

Section Spec.
Context `{Env} (P L X : Z).

(** C17: [ne2000_get_packet] returns whatever the card answers, and writes no
    memory but 1518 bytes of its receive buffer: a length the card reports is
    used only when it is 18 to 1522.  What it returns is what the data port
    gave, behind a header that announced it as good, and the boundary register
    is set to the page before the one the header names. *)
Theorem ne2000_get_packet_safe s :
  ne_ok P L X s -> exists r s' tr n, ne2000_get_packet s = inr (r, s') /\ ne_got P L s r s' tr n.
Proof.
  intros Hs. pose proof (ne_get_packet_spec P L X s Hs) as Hw. apply wp_run in Hw as (r & s' & E & tr & n & Hg).
  by exists r, s', tr, n.
Qed.

(** C18: A frame goes to the card as one fixed sequence of port writes: the
    transmit page and byte count, remote DMA to the same page for the same
    count, the header and the payload word by word with a last odd byte, and
    the transmit command; the variables are then ready for the next frame. *)
Theorem ne2000_transmits `{!NeCardOk P} s hdr (payload : list Z) :
  ne_ok P L X s -> vga_ok (m_vga s) -> Z.of_nat (length payload) <= 1519 ->
  length (dst_mac hdr) = 6%nat -> length (src_mac hdr) = 6%nat ->
  exists s' newer older, transmit ne2000_driver hdr payload s = inr (tt, s') /\ ne_ok P L X s' /\
    m_trace s' = newer ++ rev (transmission P ((u8 <$> eth_bytes hdr) ++ (u8 <$> payload))) ++ older ++ m_trace s /\
    ne2000_xmit_packet_size (m_ne2000 s') = 0 /\ mem_frame (λ a, X <= a < X + 2049 \/ vga_window a) (m_mem s) (m_mem s').
Proof.
  intros Hs Hv Hlen Hd Hsr. set (n := Z.of_nat (length payload)) in *.
  pose proof (ne_prepare_spec P L X s n hdr Hs Hv ltac:(lia) Hd Hsr) as Hp.
  apply wp_run in Hp as (r & s1 & E1 & p & -> & Hp & Hhdr & D1 & older & Et & _).
  set (s2 := set_m_mem (wr_bytes (m_mem s1) p payload) s1).
  assert (ne_prepared P L X s2 p n) as Hp2 by (destruct Hp as ([] & Hp); by split).
  pose proof (ne_send_run P L X s2 p n Hp2) as Hw. apply wp_run in Hw as ([] & s3 & E3 & tr & -> & _).
  pose proof Hp as ([[] _ _ _] & -> & _).
  assert (mem_frame (λ a, X + 14 <= a < X + 14 + n) (m_mem s1) (m_mem s2)) as HF by (apply mem_frame_store; lia).
  assert (rd_bytes (m_mem s2) X (Z.to_nat (n + 14)) = (u8 <$> eth_bytes hdr) ++ (u8 <$> payload)) as Ef.
  { replace (Z.to_nat (n + 14)) with (14 + length payload)%nat by lia. rewrite rd_bytes_app. f_equal.
    - rewrite (mem_frame_block _ _ _ _ _ HF) by lia. rewrite <- Hhdr. f_equal. lia.
    - change (Z.of_nat 14) with 14. apply rd_bytes_wr_bytes_same. lia. }
  eexists _, tr, older. split_and!.
  - unfold transmit. cbn [drv_prepare_send_packet drv_send_packet ne2000_driver]. fold n. run. rewrite E1. unfold store_bytes, upd_mem. run.
    exact E3.
  - destruct Hp2 as ([] & _). by split.
  - cbn [m_trace set_m_ne2000 set_m_trace]. rewrite <- Et. change (m_trace s2) with (m_trace s1). by rewrite Ef.
  - reflexivity.
  - cbn [m_mem set_m_ne2000 set_m_trace]. etransitivity; [exact (ds_mem _ _ _ D1)|].
    eapply mem_frame_weaken; [|exact HF]. cbv beta. lia.
Qed.

(** After [ne2000_init] the card is programmed: a receive ring of pages
    0x46 to 0x6F with boundary and current page at its start, the station
    address and multicast filter in register page 1, loopback off and the card
    started; the address is the first six bytes the data port gave and becomes
    the machine's. *)
Theorem ne2000_init_programs s :
  ne_layout P L X -> ne2000_probe_base (m_ne2000 s) = P -> m_alloc s = L -> X = L + 2048 -> X + 2049 < 4294967296 ->
  exists s' tr mac, ne2000_init None s = inr (1, s') /\ ne_ok P L X s' /\ m_trace s' = tr ++ m_trace s /\
    mac = take 6 (data_read P tr) /\ length mac = 6%nat /\ ne_programmed mac (reg_writes P tr) /\
    m_net s' = set_my_eth_mac mac (m_net s) /\ m_mem s' = m_mem s /\ m_alloc s' = X + 2049.
Proof.
  intros Hl Hb Ha HX Hend. pose proof (ne_init_spec P L X s Hl Hb Ha HX Hend) as Hw.
  apply wp_run in Hw as (r & s' & E & -> & Hs' & tr & mac & Em & Hm & _ & Hp & _ & Et & Emem & _ & Eal & En).
  by exists s', tr, mac.
Qed.

(** The first packet is lost.  [ne2000_init] sets the boundary and the
    current page to 0x46, [ne2000_get_packet] reads from the page behind the
    boundary, and a first packet of one page leaves the current page there:
    the driver takes the ring for empty, reads nothing and does not move the
    boundary. *)
Theorem ne2000_first_packet_lost s :
  ne_ok P L X s -> (forall tr, env_in tr 8 (P + 3) = RX_PAGE_START) ->
  (forall tr, env_in (EvOut 8 (P + 0) 0x62 :: tr) 8 (P + 7) = RX_PAGE_START + 1) ->
  exists s' tr, ne2000_get_packet s = inr (None, s') /\ m_trace s' = tr ++ m_trace s /\ outs P 3 tr = [] /\ data_read P tr = [].
Proof.
  intros Hs Hb Hc. pose proof (ne_get_packet_caught_up P L X s (RX_PAGE_START + 1) RX_PAGE_START Hs Hb Hc eq_refl) as Hw.
  apply wp_run in Hw as (r & s' & E & tr & -> & Ho & Hd & ->). by eexists _, tr.
Qed.

End Spec.

(** Probing for an ISA card returns for every behaviour of the ports, and
    leaves memory and variables alone unless a card was found; then a message
    is printed and the base address is one of the three the driver knows.  PCI
    devices are never taken. *)
Theorem ne2000_probe_returns `{Env} s pdev :
  vga_ok (m_vga s) ->
  exists r s', ne2000_probe pdev s = inr (r, s') /\
    match pdev with
    | Some _ => r = 0 /\ s' = s
    | None => probed_first s r s'
    end.
Proof.
  intros Hv. destruct pdev; [by exists 0, s|]. apply wp_run. by apply ne2000_probe_spec.
Qed.

(** ** A card whose registers read zero *)

#[local] Instance zero_env : Env := {|
  env_in := λ _ _ _, 0;
  env_dma := λ _ m, m;
  env_exec := λ _ _, None;
  env_fuel := 100
|}.

Definition zero_L : Z := 0x100000.
Definition zero_X : Z := 0x100800.
Definition zero_base (st : ne2000_state) (alloc : Z) : machine :=
  mkMachine ∅ [] (replicate 16 None) alloc (mkVga 753664 25 80 0 0 7 980) (mkPci (replicate 64 zero_device) 0)
    (mkNet [192; 168; 250; 254] [2; 0; 0; 0; 0; 1] None (Some ne2000) 1 0 0 0 4294967295)
    (mkPcnet32 None 0 [] 0 0 0 0 0 0 0) (mkRtl8101 None 0 [] 0 0 0 0 0 0 0 0) st.
Definition zero_state : machine := zero_base (mkNe2000 [2; 0; 0; 0; 0; 1] 0x300 zero_L zero_X 0 0) (zero_X + 2049).

#[local] Instance zero_card : NeCardOk 0x300.
Proof. intros tr. exists 0%nat. split; [cbn; lia|done]. Qed.

Lemma zero_layout : ne_layout 0x300 zero_L zero_X.
Proof. split; unfold zero_L, zero_X; lia. Qed.

Lemma zero_ok : ne_ok 0x300 zero_L zero_X zero_state.
Proof. split; [apply zero_layout|done..]. Qed.

Lemma zero_vga : vga_ok (m_vga zero_state).
Proof. split; cbn; lia. Qed.

Lemma ne2000_get_packet_safe_witness :
  exists r s' tr n, ne2000_get_packet zero_state = inr (r, s') /\ ne_got 0x300 zero_L zero_state r s' tr n.
Proof. apply (ne2000_get_packet_safe 0x300 zero_L zero_X zero_state zero_ok). Defined.

Lemma ne2000_transmits_witness :
  exists s' newer older, transmit ne2000_driver (mkEth [1; 2; 3; 4; 5; 6] [2; 0; 0; 0; 0; 1] 8) [1; 2; 3] zero_state = inr (tt, s') /\
    m_trace s' = newer ++ rev (transmission 0x300 [1; 2; 3; 4; 5; 6; 2; 0; 0; 0; 0; 1; 8; 0; 1; 2; 3]) ++ older.
Proof.
  destruct (ne2000_transmits 0x300 zero_L zero_X zero_state (mkEth [1; 2; 3; 4; 5; 6] [2; 0; 0; 0; 0; 1] 8) [1; 2; 3] zero_ok zero_vga)
    as (s' & newer & older & E & _ & Et & _); [cbn; lia|reflexivity|reflexivity|].
  exists s', newer, (older ++ m_trace zero_state). split; [exact E|exact Et].
Defined.

Lemma ne2000_init_programs_witness :
  exists s', ne2000_init None (zero_base (mkNe2000 [] 0x300 0 0 0 0) zero_L) = inr (1, s') /\ ne_ok 0x300 zero_L zero_X s'.
Proof.
  destruct (ne2000_init_programs 0x300 zero_L zero_X (zero_base (mkNe2000 [] 0x300 0 0 0 0) zero_L))
    as (s' & tr & mac & E & Hs & _); [exact zero_layout|reflexivity|reflexivity|reflexivity|reflexivity|].
  exists s'. split; [exact E|exact Hs].
Defined.

(** A card that has stored one packet in the first page of its ring. *)
Definition one_page_env : Env := {|
  env_in := λ tr w p,
    if p =? 0x303 then 0x46
    else if p =? 0x307 then match tr with EvOut _ _ 0x62 :: _ => 0x47 | _ => 1 end
    else 0;
  env_dma := λ _ m, m;
  env_exec := λ _ _, None;
  env_fuel := 100
|}.

Lemma ne2000_first_packet_lost_witness :
  exists s', ne2000_get_packet (H := one_page_env) zero_state = inr (None, s').
Proof.
  destruct (ne2000_first_packet_lost (H := one_page_env) 0x300 zero_L zero_X zero_state zero_ok) as (s' & tr & E & _);
    [reflexivity|reflexivity|].
  exists s'. exact E.
Defined.

Lemma ne2000_probe_returns_witness :
  exists r s', ne2000_probe None zero_state = inr (r, s') /\ probed_first zero_state r s'.
Proof. apply (ne2000_probe_returns zero_state None zero_vga). Defined.
