(* ===== verification/Bench.v ===== *)
(** * A concrete machine

    One fixed environment, linker layout and machine state, with a PCnet card
    that sends at once, on which the definitions are evaluated and the
    hypotheses of the theorems are shown to hold. *)

From S2P Require Import Prelude Machine Memory Vga Alloc Pci NetDriver Pcnet32 Drivers.

(** ** The card *)

Definition bench_A : Z := 1048576.
Definition bench_B : Z := 1049216.

(** A card that gives every transmit descriptor back as soon as it looks. *)
Definition release (m : gmap Z Z) (i : Z) : gmap Z Z :=
  let d := tx_ring bench_A + 16 * i in
  if Z.land (rd16 m (d + 6)) 32768 =? 0 then m else wr16 m (d + 6) 768.

Definition release_all (m : gmap Z Z) : gmap Z Z := fold_left release (seqZ 0 16) m.

#[export] Instance bench_env : Env := {|
  env_in := λ _ _ _, 0;
  env_dma := λ _ m, release_all m;
  env_exec := λ a s, if a =? 2097152 then Some (set_m_mem (wr8 (m_mem s) 3145728 42) s) else None;
  env_fuel := 100
|}.

#[export] Instance bench_linker : Linker := {|
  last_byte := 131072;
  pcnet32_init_data := 98304;
  IDT := 65536;
  IDTR := 69632;
  default_int := 74565;
  default_irq_iret := λ n, 74752 + 16 * n
|}.

#[export] Instance bench_drivers : NetDrivers := eth_drivers.

Lemma release_frame m i :
  0 <= i < 16 -> mem_frame (λ a, owns m (tx_ring bench_A + 16 * i) /\
    tx_ring bench_A + 16 * i + 6 <= a < tx_ring bench_A + 16 * i + 8) m (release m i).
Proof.
  intros Hi. unfold release, owns. destruct (_ =? 0) eqn:E; bool_to_prop; [done|].
  unfold tx_ring, bench_A in *. eapply mem_frame_weaken; [|apply mem_frame_store16]; cbv beta; lia.
Qed.

Lemma release_status m i :
  Z.land (rd16 (release m i) (tx_ring bench_A + 16 * i + 6)) 32768 = 0.
Proof.
  unfold release. destruct (_ =? 0) eqn:E; bool_to_prop; [done|]. by rewrite rd16_wr16.
Qed.

(** Releasing one descriptor leaves the others alone. *)
Lemma release_other m i k :
  0 <= i < 16 -> 0 <= k < 16 -> i <> k ->
  rd16 (release m i) (tx_ring bench_A + 16 * k + 6) = rd16 m (tx_ring bench_A + 16 * k + 6).
Proof.
  intros Hi Hk Hne. unfold release. destruct (_ =? 0); [done|].
  apply rd16_wr16_far. unfold apart, tx_ring, bench_A. lia.
Qed.

(** A run of releases. *)
Lemma releases l : forall m,
  NoDup l -> Forall (λ i, 0 <= i < 16) l ->
  let m' := fold_left release l m in
  mem_frame (λ a, exists i, i ∈ l /\ owns m (tx_ring bench_A + 16 * i) /\
    tx_ring bench_A + 16 * i + 6 <= a < tx_ring bench_A + 16 * i + 8) m m' /\
  (forall i, i ∈ l -> Z.land (rd16 m' (tx_ring bench_A + 16 * i + 6)) 32768 = 0) /\
  (forall k, 0 <= k < 16 -> k ∉ l -> rd16 m' (tx_ring bench_A + 16 * k + 6) = rd16 m (tx_ring bench_A + 16 * k + 6)).
Proof.
  induction l as [|i l IH]; intros m Hnd Hl m'; subst m'; cbn [fold_left].
  - split_and!; [done|by intros i ?%elem_of_nil|done].
  - apply NoDup_cons in Hnd as [Hi Hnd]. inversion Hl as [|? ? Hir Hl']; subst.
    destruct (IH (release m i) Hnd Hl') as (F & R & O). split_and!.
    + etransitivity; [eapply mem_frame_weaken; [|by apply (release_frame m i)]|eapply mem_frame_weaken; [|exact F]].
      * intros a [Ho Ha]. exists i. split_and!; [left|done|lia|lia].
      * intros a (k & Hk & Ho & Ha). exists k. split_and!; [by right| |lia|lia].
        rewrite Forall_forall in Hl'. unfold owns in *. rewrite release_other in Ho; [done|done|by apply Hl'|]. by intros ->.
    + intros k [->|Hk]%elem_of_cons; [|by apply R]. rewrite O by done. apply release_status.
    + intros k Hk Hn. apply not_elem_of_cons in Hn as [Hne Hn]. rewrite O by done. apply release_other; [done|done|congruence].
Qed.

Lemma release_all_spec m :
  mem_frame (card_writes bench_A bench_B m) m (release_all m) /\
  forall i, 0 <= i < 16 -> ~ owns (release_all m) (tx_ring bench_A + 16 * i).
Proof.
  destruct (releases (seqZ 0 16) m) as (F & R & _).
  - apply NoDup_seqZ.
  - apply Forall_forall. intros i Hi%elem_of_seqZ. lia.
  - split.
    + eapply mem_frame_weaken; [|exact F]. intros a (i & Hi%elem_of_seqZ & Ho & Ha). exists i.
      split; [lia|]. left. split; [done|lia].
    + intros i Hi Ho. apply Ho, R, elem_of_seqZ. lia.
Qed.

(** It touches nothing but its transmit descriptors. *)
Lemma release_all_far m : mem_frame (λ a, tx_ring bench_A <= a < tx_ring bench_A + 256) m (release_all m).
Proof.
  destruct (releases (seqZ 0 16) m) as (F & _).
  - apply NoDup_seqZ.
  - apply Forall_forall. intros i Hi%elem_of_seqZ. lia.
  - eapply mem_frame_weaken; [|exact F]. intros a (i & Hi%elem_of_seqZ & _ & Ha). unfold tx_ring, bench_A in *. lia.
Qed.

#[export] Instance bench_card : CardOk bench_A bench_B.
Proof.
  split.
  - intros tr m. apply release_all_spec.
  - intros tr m i Hi. exists 0%nat. split; [cbn; lia|]. cbn [after_polls]. by apply release_all_spec.
Qed.

(** ** The machine *)

Definition bench_ip : list Z := [192; 168; 250; 254].
Definition bench_mac : list Z := [2; 0; 0; 0; 0; 1].
Definition peer_ip : list Z := [192; 168; 250; 1].
Definition peer_mac : list Z := [2; 0; 0; 0; 0; 9].

Definition bench_vga : vga_state := mkVga 753664 25 80 0 0 7 980.
Definition bench_net : net_state := mkNet bench_ip bench_mac (Some 0) (Some pcnet32) 1 0 0 0 4294967295.
Definition bench_pcnet32 : pcnet32_state :=
  mkPcnet32 (Some 0) 49152 bench_mac (rx_ring bench_A) (rx_table bench_A) (tx_ring bench_A) (tx_table bench_A) 16 0 0.
Definition bench_pci : pci_state := mkPci (replicate 64 zero_device) 1.

Definition bench_base : machine :=
  mkMachine ∅ [] (replicate 16 None) (bench_A + 640) bench_vga bench_pci bench_net bench_pcnet32
    (mkRtl8101 None 0 [] 0 0 0 0 0 0 0 0) (mkNe2000 [] 0 0 0 0 0).

(** The rings as the driver sets them up. *)
Definition bench_rings : gmap Z Z := memory_after pcnet32_setup_rings bench_base.

(** A [frame] in the first receive buffer, complete and without errors, and the
    target's memory filled with [cells]. *)
Definition received (frame : list Z) (cells : gmap Z Z -> gmap Z Z) : machine :=
  set_m_mem (cells (wr16 (wr32 (wr_bytes bench_rings (rx_buf bench_B 0) frame)
    (rx_ring bench_A + 8) (Z.of_nat (length frame))) (rx_ring bench_A + 6) 768)) bench_base.

Lemma bench_layout : layout_ok bench_A bench_B 0.
Proof. split; unfold bench_A, bench_B; lia. Qed.

Lemma bench_rings_fresh : fresh_rings bench_A bench_B bench_rings.
Proof.
  assert (0 <= bench_A) as H1 by (unfold bench_A; lia).
  assert (bench_A + 640 <= m_alloc bench_base) as H2 by (change (m_alloc bench_base) with (bench_A + 640); lia).
  assert (m_alloc bench_base + 51232 < 4294967296) as H3
    by (change (m_alloc bench_base) with (bench_A + 640); unfold bench_A; lia).
  assert (align_up (m_alloc bench_base) 32 = bench_B) as HB by reflexivity.
  unfold bench_rings. apply (memory_after_wp pcnet32_setup_rings (fresh_rings bench_A bench_B)). eapply wp_mono.
  { exact (pcnet32_setup_rings_spec bench_A bench_base eq_refl eq_refl eq_refl eq_refl H1 H2 H3). }
  intros _ s' (m & -> & Hf & _). rewrite HB in Hf. exact Hf.
Qed.

Lemma received_rings frame cells :
  Z.of_nat (length frame) <= 1600 -> (forall m, mem_frame (λ a, 2097152 <= a) m (cells m)) ->
  rings_ok bench_A bench_B 0 (received frame cells).
Proof.
  intros Hl Hc. destruct bench_rings_fresh as [Hm _ _]. unfold received.
  set (m1 := wr_bytes bench_rings (rx_buf bench_B 0) frame). set (m2 := wr32 m1 _ _). set (m3 := wr16 m2 _ _).
  assert (mem_frame (λ x, rx_ring bench_A + 6 <= x < rx_ring bench_A + 12 \/
            rx_buf bench_B 0 <= x < rx_buf bench_B 0 + Z.of_nat (length frame) \/ 2097152 <= x) bench_rings (cells m3)) as HF.
  { unfold rx_buf, rx_ring, bench_A, bench_B in *.
    etransitivity; [eapply mem_frame_weaken; [|apply (mem_frame_store bench_rings 1049216 frame)]; cbv beta; lia|].
    etransitivity; [eapply mem_frame_weaken; [|apply (mem_frame_store32 m1 1048584 (Z.of_nat (length frame)))]; cbv beta; lia|].
    etransitivity; [eapply mem_frame_weaken; [|apply (mem_frame_store16 m2 1048582 768)]; cbv beta; lia|].
    eapply mem_frame_weaken; [|apply Hc]. cbv beta. lia. }
  split; [apply bench_layout|by split| |].
  - eapply (ring_mem_frame bench_A bench_B 0); [apply bench_layout|exact Hm|exact HF|]. intros x Hx.
    unfold pointer_cell, tx_ring, rx_ring, rx_buf, bench_A, bench_B in *. destruct Hx as [|(i & Hi & Hx)]; lia.
  - unfold owns. cbn [m_mem set_m_mem]. rewrite (mem_frame_rd16 _ _ _ _ (Hc m3)).
    + subst m3. replace (rx_ring bench_A + 16 * 0 + 6) with (rx_ring bench_A + 6) by lia. rewrite rd16_wr16. by intros Hn.
    + unfold rx_ring, bench_A. lia.
    + unfold rx_ring, bench_A. lia.
    + unfold rx_ring, bench_A. intros. lia.
Qed.
