(* ===== verification/Pcnet32Spec.v ===== *)
(** * What the PCnet driver guarantees

    The properties of net-pcnet32.c, from the lemmas of [Pcnet32] and on the
    concrete machine of [Bench]. *)

From S2P Require Import Prelude Machine Memory Vga Alloc Pci NetDriver Network Rings Pcnet32 Drivers Bench.

Section Spec.
Context `{Env} `{Linker} (A B j : Z) `{Card : !CardOk A B}.

(** C13: [pcnet32_get_packet] on every kind of descriptor: one the card still
    owns is left alone, one with an error flag or a partial frame is given back
    to the card and skipped, a complete frame is returned with its length and
    header and stays with the driver, and the driver never touches anything but
    its rings. *)
Theorem pcnet32_get_packet_outcomes s :
  rings_idle A B j s -> exists r s', pcnet32_get_packet s = inr (r, s') /\ rx_outcome A B j s r s'.
Proof. intros Hs. apply wp_run, (pcnet32_get_packet_spec A B j s Hs). Qed.

(** C14: A frame goes out whole: the driver waits for a transmit descriptor, the
    caller stores its payload in the buffer, and the descriptor handed to the
    card describes exactly the Ethernet header followed by that payload. *)
Theorem pcnet32_transmits s hdr (payload : list Z) :
  rings_ok A B j s -> vga_ok (m_vga s) -> Z.of_nat (length payload) <= 1586 ->
  length (dst_mac hdr) = 6%nat -> length (src_mac hdr) = 6%nat ->
  exists s', transmit pcnet32_driver hdr payload s = inr (tt, s') /\
    rings_ok A B j s' /\ pcnet32_handed A B j s' ((u8 <$> eth_bytes hdr) ++ (u8 <$> payload)) /\
    drv_step (ring_area A B j) s s'.
Proof.
  intros Hs Hv Hlen Hd Hsr. apply wp_run_unit.
  exact (transmit_law pcnet32_driver (L := pcnet32_laws A B j (ro_layout _ _ _ _ Hs)) s hdr payload Hs Hv Hlen Hd Hsr).
Qed.

(** [pcnet32_put_packet] gives the descriptor back to the card, marked empty
    and with its full buffer, and makes the next one of the ring current. *)
Theorem pcnet32_put_packet_releases s p :
  rings_idle A B j s -> exists s', pcnet32_put_packet p s = inr (tt, s') /\ released A B j s s'.
Proof.
  intros Hs. pose proof (pcnet32_put_packet_spec A B j s p Hs) as Hw. apply wp_run in Hw as ([] & s' & Hw). by exists s'.
Qed.

(** The driver holds a complete frame that is too short for a header. *)
Record stuck (s : machine) : Prop := {
  st_rings : rings_ok A B j s;
  st_runt : classify (rd16 (m_mem s) (held_desc A j + 6)) (rd32 (m_mem s) (held_desc A j + 8)) = Runt
}.

Lemma stuck_step s : stuck s -> exists s', pcnet32_get_packet s = inr (None, s') /\ stuck s'.
Proof.
  intros [Hr Hc]. pose proof (pcnet32_get_packet_spec A B j s (rings_ok_idle _ _ _ _ Hr)) as Hw.
  apply wp_run in Hw as (r & s' & E & Ho). unfold rx_outcome in Ho.
  assert (held_step A B j s (looked A j s)) as H1.
  { pose proof Hr as [Hl Hv Hm Hj]. destruct (card_keeps A B j _ _ Hl Hm Hj (card_frame A B (m_trace s) (m_mem s))) as (Hm' & Hj' & _).
    split_and!; [by split|by apply (card_held A B j), card_frame|]. by exists [EvPoll (held_desc A j + 6)]. }
  destruct (held_cells A B j s _ (ro_layout _ _ _ _ Hr) H1) as (E1 & E2 & _). rewrite E1, E2, Hc in Ho.
  destruct Ho as [-> H2]. exists s'. split; [done|]. split; [apply H2|].
  destruct (held_cells A B j _ _ (ro_layout _ _ _ _ Hr) H2) as (E3 & E4 & _). by rewrite E3, E4, E1, E2.
Qed.

(** [n] calls in a row. *)
Fixpoint polls (n : nat) : M (list (option (Z * Z * ethernet_frame_header))) :=
  match n with
  | O => mret []
  | S n' => r ← pcnet32_get_packet; l ← polls n'; mret (r :: l)
  end.

(** C39: A complete frame shorter than 14 bytes is neither returned nor given
    back: [pcnet32_get_packet] returns NULL for it without releasing the
    descriptor, so every later call finds it again and nothing more is ever
    received. *)
Theorem runt_blocks_receiver n s :
  stuck s -> exists s', polls n s = inr (replicate n None, s') /\ stuck s'.
Proof.
  revert s. induction n as [|n IH]; intros s Hs; cbn [polls]; [by exists s|].
  destruct (stuck_step s Hs) as (s1 & E1 & Hs1). destruct (IH s1 Hs1) as (s2 & E2 & Hs2).
  exists s2. run. rewrite E1. run. by rewrite E2.
Qed.

End Spec.

(** C21: Initialising a known card through its I/O range succeeds and leaves the
    driver ready to receive: two rings of 16 descriptors with a buffer each, in
    freshly allocated memory, the receive ones owned by the card and the
    transmit ones by the driver, and the card's MAC address as the machine's. *)
Theorem pcnet32_init_ready `{Env} `{Linker} s d i b :
  let A := align_up (m_alloc s) 16 in
  let B := align_up (A + 640) 32 in
  pcnet32_known_pci_id (Some d) = 1 -> pcnet32_find_io (pd_BAR d) = Some (i, b) ->
  pcnet32_rx (m_pcnet32 s) = 0 -> pcnet32_tx (m_pcnet32 s) = 0 ->
  pcnet32_rx_packets (m_pcnet32 s) = 0 -> pcnet32_tx_packets (m_pcnet32 s) = 0 ->
  length (pcnet32_mac_address (m_pcnet32 s)) = 6%nat ->
  Forall (λ b, 0 <= b < 256) (pcnet32_mac_address (m_pcnet32 s)) ->
  16 <= m_alloc s -> m_alloc s + 51888 < 4294967296 ->
  786432 <= m_alloc s \/ m_alloc s + 51888 <= 753664 ->
  exists s' mac, pcnet32_init (Some d) s = inr (1, s') /\ rings_idle A B 0 s' /\ fresh_rings A B (m_mem s') /\
    m_alloc s' = B + 51200 /\ m_net s' = set_my_eth_mac mac (m_net s) /\ length mac = 6%nat.
Proof.
  intros A B H1 H2 H3 H4 H5 H6 H7 H8 H9 H10 H11.
  pose proof (pcnet32_init_spec s d i b H1 H2 H3 H4 H5 H6 H7 H8 H9 H10 H11) as Hw.
  apply wp_run in Hw as (r & s' & E & -> & Hr & Hf & Ha & _ & mac & Hn & Hm & _). by exists s', mac.
Qed.

(** ** The concrete machine *)

Definition got_frame : list Z := replicate 60 0.
Definition got_state : machine := received got_frame (λ m, m).

Lemma got_rings : rings_ok bench_A bench_B 0 got_state.
Proof. apply received_rings; [vm_compute; discriminate|]. intros m. reflexivity. Qed.

Lemma pcnet32_get_packet_outcomes_witness :
  exists r s', pcnet32_get_packet got_state = inr (r, s') /\ rx_outcome bench_A bench_B 0 got_state r s'.
Proof. apply (pcnet32_get_packet_outcomes bench_A bench_B 0 got_state). apply rings_ok_idle, got_rings. Defined.

Lemma bench_vga_ok : vga_ok bench_vga.
Proof. split; cbn; lia. Qed.

Lemma pcnet32_transmits_witness :
  exists s', transmit pcnet32_driver (mkEth peer_mac bench_mac 8) [1; 2; 3] got_state = inr (tt, s') /\
    pcnet32_handed bench_A bench_B 0 s' (peer_mac ++ bench_mac ++ [8; 0; 1; 2; 3]).
Proof.
  destruct (pcnet32_transmits bench_A bench_B 0 got_state (mkEth peer_mac bench_mac 8) [1; 2; 3] got_rings)
    as (s' & E & _ & Hh & _); [exact bench_vga_ok|cbn; lia|reflexivity|reflexivity|].
  exists s'. split; [exact E|exact Hh].
Defined.

Lemma pcnet32_put_packet_releases_witness :
  exists s', pcnet32_put_packet 0 got_state = inr (tt, s') /\ released bench_A bench_B 0 got_state s'.
Proof. apply (pcnet32_put_packet_releases bench_A bench_B 0 got_state 0). apply rings_ok_idle, got_rings. Defined.

(** Ten bytes, marked as a complete frame. *)
Definition runt_state : machine := received (replicate 10 0) (λ m, m).

Lemma runt_stuck : stuck bench_A bench_B 0 runt_state.
Proof.
  split.
  - apply received_rings; [vm_compute; discriminate|]. intros m. reflexivity.
  - change (held_desc bench_A 0 + 6) with (rx_ring bench_A + 6). change (held_desc bench_A 0 + 8) with (rx_ring bench_A + 8).
    unfold runt_state, received. cbn [m_mem set_m_mem].
    rewrite rd16_wr16, rd32_wr16_far by (unfold apart, rx_ring, bench_A; lia). rewrite rd32_wr32. reflexivity.
Qed.

Lemma runt_blocks_receiver_witness :
  exists s', polls 1000 runt_state = inr (replicate 1000 None, s') /\ stuck bench_A bench_B 0 s'.
Proof. apply (runt_blocks_receiver bench_A bench_B 0 1000 runt_state runt_stuck). Defined.

(** An AMD card with a memory range in its first register and its I/O range in
    the second, before initialisation. *)
Definition io_bar : pci_bar := mkBar 1 0 0 1 49152 49183 0.
Definition amd_card : pci_device :=
  mkPciDevice 0 3 0 8192 4130 131072 64 0 0 0 [mkBar 0 0 0 1 4026531840 4026531871 0; io_bar; zero_bar; zero_bar; zero_bar; zero_bar].
Definition cold_state : machine :=
  set_m_alloc 1048576 (set_m_pcnet32 (mkPcnet32 None 0 [0; 0; 0; 0; 0; 0] 0 0 0 0 0 0 0) bench_base).

Lemma pcnet32_init_ready_witness :
  exists s', pcnet32_init (Some amd_card) cold_state = inr (1, s') /\ rings_idle bench_A bench_B 0 s'.
Proof.
  destruct (pcnet32_init_ready cold_state amd_card 1 io_bar) as (s' & mac & E & Hr & _); try reflexivity.
  - by repeat constructor.
  - vm_compute. discriminate.
  - left. vm_compute. discriminate.
  - exists s'. split; [exact E|exact Hr].
Defined.

(** The card behind an empty slot. *)
Definition card_table : machine :=
  set_m_pci (mkPci (zero_device :: amd_card :: replicate 62 zero_device) 1) bench_base.

Lemma autoprobe_first_card_witness :
  exists s', autoprobe_network_card card_table = inr (tt, s') /\ chosen_net_dev (m_net s') = Some 1.
Proof.
  destruct (autoprobe_first_card card_table 1 pcnet32) as (s' & E & Hs'); [reflexivity|vm_compute; reflexivity|].
  exists s'. split; [exact E|]. rewrite Hs'. reflexivity.
Defined.
