(* ===== verification/NetStack.v ===== *)
(** * The protocol code of the Ethernet debugger (c-main.c)

    ARP, IPv4, ICMP echo and the UDP command server on port 777, each handler
    statement by statement on the machine of [Machine]. *)

From S2P Require Import Prelude Machine Memory Vga Text Checksum NetDriver.

Definition ETH_TYPE_ARP : Z := 2054.   (* 0x0806 *)
Definition ETH_TYPE_IPv4 : Z := 2048.  (* 0x0800 *)
Definition ARP_TYPE_ETH : Z := 1.
Definition ARP_TYPE_IPv4 : Z := 2048.
Definition ARP_REQUEST : Z := 1.
Definition ARP_REPLY : Z := 2.
Definition IPv4_PROTO_ICMP : Z := 1.
Definition IPv4_PROTO_UDP : Z := 17.

Section NetStack.
Context `{Env} `{NetDrivers}.

(** The result of a scanner with the fuel of the environment. *)
Definition scanned {A} (o : option A) : M A :=
  match o with
  | Some a => mret a
  | None => halt NoReturn
  end.

Definition read_mem : M (gmap Z Z) := gets m_mem.
Definition my_ip : M (list Z) := gets (λ s, my_ipv4_address (m_net s)).
Definition my_mac : M (list Z) := gets (λ s, my_eth_mac (m_net s)).

(** ** ARP *)

Definition net_on_arp_IPv4 (eth : ethernet_frame_header) (pkt sz : Z) : M unit :=
  proto_addr_len ← load8 (pkt + 5);
  if negb (proto_addr_len =? 4) then skip else
  operation ← load16 (pkt + 6);
  if negb (ntoh16 operation =? ARP_REQUEST) then skip else
  let sender_mac := pkt + 8 in
  let sender_ip := pkt + 14 in
  let lookin_for_ip := pkt + 24 in
  target ← load_bytes lookin_for_ip 4;
  ip ← my_ip;
  if negb (memcmp target ip 4 =? 0) then skip else
  mac ← my_mac;
  let ret_eth := mkEth (src_mac eth) mac (hton16 ETH_TYPE_ARP) in
  r ← chosen (λ d, drv_prepare_send_packet d 28 ret_eth);
  match r with
  | None => vga_write (msg "ARP: cannot construct packet to answer")
  | Some ret_pkt =>
      store16 ret_pkt (hton16 ARP_TYPE_ETH) ;;
      store16 (ret_pkt + 2) (hton16 ARP_TYPE_IPv4) ;;
      store8 (ret_pkt + 4) 6 ;;
      store8 (ret_pkt + 5) 4 ;;
      store16 (ret_pkt + 6) (hton16 ARP_REPLY) ;;
      mac ← my_mac; store_bytes (ret_pkt + 8) mac ;;
      ip ← my_ip; store_bytes (ret_pkt + 14) ip ;;
      do_memcpy (ret_pkt + 18) sender_mac 6 ;;
      do_memcpy (ret_pkt + 24) sender_ip 4 ;;
      chosen drv_send_packet ;;
      vga_write (msg "Someone is looking for me, replying to ARP request")
  end.

Definition net_on_arp (eth : ethernet_frame_header) (pkt sz : Z) : M unit :=
  hw_type ← load16 pkt;
  hw_addr_len ← load8 (pkt + 4);
  if negb (ntoh16 hw_type =? ARP_TYPE_ETH) || negb (hw_addr_len =? 6) then skip else
  proto_type ← load16 (pkt + 2);
  when (ntoh16 proto_type =? ARP_TYPE_IPv4) (net_on_arp_IPv4 eth pkt sz).

(** ** UDP replies *)

(** Returns the address of the UDP data, 0 for NULL.  When the driver gives no
    buffer the C function falls off a [return;] without a value. *)
Definition make_udp_response (eth : ethernet_frame_header) (src_ip src_port dst_port len : Z) : M Z :=
  if (len <? 0) || (1580 <? len) then mret 0 else
  mac ← my_mac;
  let ret_eth := mkEth (src_mac eth) mac (hton16 ETH_TYPE_IPv4) in
  let ipv4_len := 20 + 8 + len in
  r ← chosen (λ d, drv_prepare_send_packet d (20 + 8 + len) ret_eth);
  match r with
  | None => vga_write (msg "ARP: cannot construct packet to answer") ;; halt Undefined
  | Some ret_pkt =>
      do_memset ret_pkt 0 (20 + 8 + len) ;;
      store8 ret_pkt 69 ;;
      store8 (ret_pkt + 2) (Z.shiftr ipv4_len 8) ;;
      store8 (ret_pkt + 3) ipv4_len ;;
      store8 (ret_pkt + 6) (Z.shiftl 2 5) ;;
      store8 (ret_pkt + 8) 64 ;;
      store8 (ret_pkt + 9) 17 ;;
      ip ← my_ip; store_bytes (ret_pkt + 12) ip ;;
      do_memcpy (ret_pkt + 16) src_ip 4 ;;
      m ← read_mem;
      let chksum := cksum_loop m ret_pkt 5 0 10 0 in
      let ret_hdr_chksum := u16 (Z.lnot chksum) in
      store8 (ret_pkt + 10) (Z.shiftr ret_hdr_chksum 8) ;;
      store8 (ret_pkt + 11) ret_hdr_chksum ;;
      let udp_len := u16 (len + 8) in
      let udp_header := ret_pkt + 20 in
      store16 udp_header (hton16 dst_port) ;;
      store16 (udp_header + 2) (hton16 src_port) ;;
      store16 (udp_header + 4) (hton16 udp_len) ;;
      store16 (udp_header + 6) 0 ;;
      let udp_data := udp_header + 8 in
      upd_net (λ n, set_udp_resp_len len (set_udp_resp_data udp_data (set_udp_resp_hdr udp_header n))) ;;
      mret udp_data
  end.

Definition send_udp_response : M unit := chosen drv_send_packet.

(** ** The command server *)

Section Commands.
Context (eth : ethernet_frame_header) (src_ip src_port dst_port : Z).

(** [data = make_udp_response(...,len); if (data == NULL) return; body(data); send_udp_response();] *)
Definition respond (len : Z) (body : Z -> M unit) : M unit :=
  data ← make_udp_response eth src_ip src_port dst_port len;
  if data =? 0 then skip else body data ;; send_udp_response.

Definition cmd_test : M unit :=
  let test_ok := cstr "OK x86-32" in
  respond (strlen test_ok) (λ data, store_bytes data (take (Z.to_nat (strlen test_ok)) test_ok)).

(** The two hexadecimal arguments after a command word: both values and the
    pointer behind the second. *)
Definition scan_args (m : gmap Z Z) (p : Z) : option (Z * Z * Z) :=
  p ← skip_whitespace env_fuel m p;
  '(a, p) ← s_strtoul_hex env_fuel m p;
  p ← skip_whitespace env_fuel m p;
  '(b, p) ← s_strtoul_hex env_fuel m p;
  Some (a, b, p).

Definition cmd_read (data : Z) : M unit :=
  m ← read_mem;
  '(address, size, p) ← scanned (scan_args m (data + 5));
  let size := if 1400 <? size then 1400 else size in
  respond (3 + 8 + 1 + size) (λ data,
    store_bytes data (str "OK ") ;;
    data ← hex_to_str (data + 3) address 8;
    store8 data 10 ;;
    when (0 <? size) (do_memcpy (data + 1) address size)).

(** [while (p < fence && *p != '\n') p++;] *)
Fixpoint find_newline (m : gmap Z Z) (p : Z) (room : nat) : Z :=
  match room with
  | O => p
  | S r => if rd8 m p =? 10 then p else find_newline m (p + 1) r
  end.

(** Where the data of a WRITE begins and how long it is ([size_t]). *)
Definition write_data (m : gmap Z Z) (p fence : Z) : Z * Z :=
  let p := find_newline m p (Z.to_nat (fence - p)) in
  let p := if (p <? fence) && (rd8 m p =? 10) then p + 1 else p in
  (p, u32 (fence - p)).

Definition cmd_write (data data_length : Z) : M unit :=
  m ← read_mem;
  let fence := data + data_length in
  '(address, seq, p) ← scanned (scan_args m (data + 5));
  let '(p, data_len) := write_data m p fence in
  when (0 <? data_len) (do_memcpy address p data_len) ;;
  respond (3 + 8 + 1 + 8) (λ data,
    store_bytes data (str "OK ") ;;
    data ← hex_to_str (data + 3) address 8;
    store8 data 32 ;;
    hex_to_str (data + 1) seq 8 ;; skip).

Definition cmd_low : M unit :=
  respond (3 + 8) (λ data,
    store_bytes data (str "OK ") ;;
    alloc ← gets m_alloc;
    hex_to_str (data + 3) (u32 alloc) 8 ;; skip).

(** The call of uploaded code: [pusha; call *%eax; popa]. *)
Definition call_uploaded (address : Z) : M unit := λ s,
  match env_exec address s with
  | Some s' => inr (tt, s')
  | None => inl NoReturn
  end.

Definition cmd_exec (data : Z) : M unit :=
  m ← read_mem;
  '(address, seq, p) ← scanned (scan_args m (data + 5));
  last ← gets (λ s, exec_last_seq (m_net s));
  when (negb (seq =? last))
    (log (EvExec address) ;; call_uploaded address ;; upd_net (set_exec_last_seq seq)) ;;
  respond (12 + 8) (λ data,
    store_bytes data (str "OK Complete ") ;;
    hex_to_str (data + 12) seq 8 ;; skip).

Definition cmd_unknown : M unit :=
  let unk := cstr "ERR Unknown command" in
  respond (strlen unk) (λ data, store_bytes data (take (Z.to_nat (strlen unk)) unk)).

End Commands.

(** [data_length >= n && !memcmp(data,word,n)] *)
Definition starts_with (m : gmap Z Z) (data data_length : Z) (word : list Z) : bool :=
  let n := length word in
  (Z.of_nat n <=? data_length) && (memcmp (rd_bytes m data n) word n =? 0).

(** The dispatch on the command word of a datagram for port 777. *)
Definition serve (eth : ethernet_frame_header) (src_ip src_port dst_port data data_length : Z) : M unit :=
  m ← read_mem;
  if starts_with m data data_length (str "TEST") then cmd_test eth src_ip src_port dst_port
  else if starts_with m data data_length (str "READ ") then cmd_read eth src_ip src_port dst_port data
  else if starts_with m data data_length (str "WRITE ")
  then cmd_write eth src_ip src_port dst_port data data_length
  else if starts_with m data data_length (str "LOW") then cmd_low eth src_ip src_port dst_port
  else if starts_with m data data_length (str "EXEC ") then cmd_exec eth src_ip src_port dst_port data
  else cmd_unknown eth src_ip src_port dst_port.

(** The checksum of a datagram as [net_on_ipv4_udp] recomputes it. *)
Definition udp_checksum (m : gmap Z Z) (ip : list Z) (src_ip pkt len : Z) : Z :=
  let pseudo_ipv4 := rd_bytes m src_ip 4 ++ take 4 ip ++
                     [0; IPv4_PROTO_UDP; u8 (Z.shiftr len 8); u8 len] in
  let chksum := cksum_array pseudo_ipv4 0 in
  let chksum := cksum_loop m pkt 3 0 (Z.to_nat (Z.shiftr len 1)) chksum in
  let chksum := if Z.odd len then cksum_add chksum (Z.shiftl (rd8 m (pkt + len - 1)) 8) else chksum in
  cksum_not chksum.

Fixpoint vga_dump (p : Z) (c : nat) : M unit :=
  match c with
  | O => skip
  | S c' => b ← load8 p; vga_writechar b ;; vga_dump (p + 1) c'
  end.

Definition net_on_ipv4_udp (eth : ethernet_frame_header) (src_ip pkt len : Z) : M unit :=
  if len <? 8 then skip else
  m ← read_mem;
  ip ← my_ip;
  let hdr_chksum := ntoh16 (rd16 m (pkt + 6)) in
  if negb (hdr_chksum =? 0) && negb (udp_checksum m ip src_ip pkt len =? hdr_chksum) then skip else
  let data := pkt + 8 in
  let data_length := ntoh16 (rd16 m (pkt + 4)) in
  let data_length := if len - 8 <? data_length then len - 8 else data_length in
  let src_port := ntoh16 (rd16 m pkt) in
  let dst_port := ntoh16 (rd16 m (pkt + 2)) in
  if dst_port =? 777 then serve eth src_ip src_port dst_port data data_length
  else
    vga_write (cstr "UDP ") ;;
    vga_write (cstr "sport=") ;; vga_write_hex src_port 2 ;;
    vga_write (cstr " dport=") ;; vga_write_hex dst_port 2 ;;
    vga_write (cstr " len=") ;; vga_write_hex data_length 4 ;;
    vga_write (msg "") ;;
    vga_dump data (Z.to_nat data_length) ;;
    vga_write (msg "").

(** ** ICMP echo *)

Definition net_on_ipv4_icmp (eth : ethernet_frame_header) (src_ip pkt len : Z) : M unit :=
  if len <? 8 then skip else
  m ← read_mem;
  let chksum := cksum_not (cksum_loop m pkt 1 0 (Z.to_nat (Z.shiftr len 1)) 0) in
  let hdr_chksum := ntoh16 (rd16 m (pkt + 2)) in
  if negb (chksum =? hdr_chksum) then skip else
  let type := rd8 m pkt in
  let code := rd8 m (pkt + 1) in
  when ((type =? 8) && (code =? 0))
   (vga_write (msg "ICMP echo request, sending reply") ;;
    mac ← my_mac;
    let ret_eth := mkEth (src_mac eth) mac (hton16 ETH_TYPE_IPv4) in
    let ipv4_len := 20 + len in
    r ← chosen (λ d, drv_prepare_send_packet d (20 + len) ret_eth);
    match r with
    | None => vga_write (msg "ARP: cannot construct packet to answer")
    | Some ret_pkt =>
        do_memset ret_pkt 0 (20 + len) ;;
        store8 ret_pkt 69 ;;
        store8 (ret_pkt + 2) (Z.shiftr ipv4_len 8) ;;
        store8 (ret_pkt + 3) ipv4_len ;;
        store8 (ret_pkt + 6) (Z.shiftl 2 5) ;;
        store8 (ret_pkt + 8) 64 ;;
        store8 (ret_pkt + 9) 1 ;;
        ip ← my_ip; store_bytes (ret_pkt + 12) ip ;;
        do_memcpy (ret_pkt + 16) src_ip 4 ;;
        m ← read_mem;
        let chksum := cksum_loop m ret_pkt 5 0 10 0 in
        let ret_hdr_chksum := u16 (Z.lnot chksum) in
        store8 (ret_pkt + 10) (Z.shiftr ret_hdr_chksum 8) ;;
        store8 (ret_pkt + 11) ret_hdr_chksum ;;
        let icmp := ret_pkt + 20 in
        do_memcpy icmp pkt len ;;
        store8 icmp 0 ;;
        m ← read_mem;
        let chksum := cksum_loop m icmp 1 0 (Z.to_nat (Z.shiftr len 1)) 0 in
        let ret_hdr_chksum := u16 (Z.lnot chksum) in
        store8 (icmp + 2) (Z.shiftr ret_hdr_chksum 8) ;;
        store8 (icmp + 3) ret_hdr_chksum ;;
        chosen drv_send_packet
    end).

(** ** IPv4 *)

Definition net_on_ipv4 (eth : ethernet_frame_header) (pkt sz : Z) : M unit :=
  if sz <? 20 then skip else
  m ← read_mem;
  ip ← my_ip;
  if negb (Z.shiftr (rd8 m pkt) 4 =? 4) then skip else
  let hdr_len := Z.land (rd8 m pkt) 15 * 4 in
  if hdr_len <? 20 then skip else
  let chksum := cksum_not (cksum_loop m pkt 5 0 (Z.to_nat (Z.shiftr hdr_len 1)) 0) in
  let hdr_chksum := ntoh16 (rd16 m (pkt + 10)) in
  if negb (chksum =? hdr_chksum) then skip else
  let total_len := ntoh16 (rd16 m (pkt + 2)) in
  let flags := Z.shiftr (rd8 m (pkt + 6)) 5 in
  let frag_offset := u16 (Z.lor (Z.land (rd8 m (pkt + 6)) 31) (Z.shiftl (rd8 m (pkt + 7)) 5)) in
  let proto := rd8 m (pkt + 9) in
  let src_ip := pkt + 12 in
  let dst_ip := pkt + 16 in
  if negb (memcmp (rd_bytes m dst_ip 4) ip 4 =? 0) then skip else
  if negb (Z.land flags 1 =? 0) then skip else
  if negb (frag_offset =? 0) then skip else
  if sz <? hdr_len then skip else
  if total_len <? hdr_len then skip else
  if sz <? total_len then skip else
  let data := pkt + hdr_len in
  let data_len := total_len - hdr_len in
  if data_len <? 0 then skip else
  if proto =? IPv4_PROTO_ICMP then net_on_ipv4_icmp eth src_ip data data_len
  else if proto =? IPv4_PROTO_UDP then net_on_ipv4_udp eth src_ip data data_len
  else skip.

(** ** The idle loop body *)

Definition bcast : list Z := [255; 255; 255; 255; 255; 255].

Definition net_dump (eth : ethernet_frame_header) (p sz : Z) : M unit :=
  vga_writechar 62 ;;
  for_range 0 6 (λ i, vga_write_hex (nth (Z.to_nat i) (dst_mac eth) 0) 1) ;;
  vga_writechar 58 ;;
  for_range 0 (Z.to_nat (Z.min 24 (u32 sz))) (λ i, b ← load8 (p + i); vga_write_hex b 1) ;;
  vga_write (msg "").

(** What [net_idle] does with a frame: only frames for everybody or for this
    machine are looked at. *)
Definition net_dispatch (eth : ethernet_frame_header) (p sz : Z) : M unit :=
  mac ← my_mac;
  when ((memcmp (dst_mac eth) bcast 6 =? 0) || (memcmp (dst_mac eth) mac 6 =? 0))
   (if ntoh16 (eth_type eth) =? ETH_TYPE_ARP then net_on_arp eth p sz
    else if ntoh16 (eth_type eth) =? ETH_TYPE_IPv4 then net_on_ipv4 eth p sz
    else
      six ← load_bytes p 6;
      if memcmp six bcast 6 =? 0 then skip else net_dump eth p sz).

Definition net_idle : M unit :=
  opened ← gets (λ s, chosen_net_drv_open (m_net s));
  if opened =? 0 then skip else
  r ← chosen drv_get_packet;
  match r with
  | None => skip
  | Some (p, sz, eth) =>
      net_dispatch eth p sz ;;
      chosen (λ d, drv_put_packet d p)
  end.

End NetStack.
