(* ===== verification/Packets.v ===== *)
(** * Reference packet layouts

    The wire formats the replies must have, written from the protocol headers
    and independent of the code that builds them, with the block calculus that
    turns a run of stores into the bytes of a buffer. *)

From S2P Require Import Prelude Machine Memory Text Checksum.

(** ** Layouts *)

Definition be16 (x : Z) : list Z := [x / 256; x mod 256].

Definition eth_frame (dst src : list Z) (type : Z) (payload : list Z) : list Z :=
  dst ++ src ++ be16 type ++ payload.

(** An option-free IPv4 header with DF set, TTL 64 and a valid checksum, for
    [n] bytes of payload. *)
Definition ipv4_header (proto n : Z) (src dst : list Z) : list Z :=
  let first := [69; 0] ++ be16 (20 + n) ++ [0; 0; 64; 0; 64; proto] in
  first ++ be16 (65535 - fold16 (wsum 5 0 (first ++ [0; 0] ++ src ++ dst))) ++ src ++ dst.

(** Without a checksum, which UDP over IPv4 allows. *)
Definition udp_header (sport dport n : Z) : list Z :=
  be16 sport ++ be16 dport ++ be16 (8 + n) ++ [0; 0].

Definition udp_packet (src dst : list Z) (sport dport : Z) (payload : list Z) : list Z :=
  let n := Z.of_nat (length payload) in
  ipv4_header 17 (8 + n) src dst ++ udp_header sport dport n ++ payload.

Definition arp_reply (mac ip peer_mac peer_ip : list Z) : list Z :=
  be16 1 ++ be16 2048 ++ [6; 4] ++ be16 2 ++ mac ++ ip ++ peer_mac ++ peer_ip.

(** An ICMP echo reply to [request]: type 0 and the checksum of the even part. *)
Definition echo_reply (request : list Z) : list Z :=
  match request with
  | _ :: code :: _ :: _ :: rest =>
      let ck := 65535 - fold16 (wsum 1 0 (take (2 * (length request / 2)) (0 :: code :: 0 :: 0 :: rest))) in
      0 :: code :: be16 ck ++ rest
  | _ => []
  end.

(** ** Block calculus *)

Lemma rd_bytes_memset m p c n :
  Z.of_nat n <= 4294967296 -> rd_bytes (memset m p c n) p n = replicate n (u8 c).
Proof.
  intros Hn. unfold memset. pose proof (rd_bytes_wr_bytes_same m p (replicate n (u8 c))) as E.
  rewrite length_replicate in E. rewrite E by done. rewrite fmap_replicate. by rewrite u8_u8.
Qed.

(** *** Reading a packet that is known *)

Lemma packet_rd8 m p l a (o : nat) :
  rd_bytes m p (length l) = l -> a = p + Z.of_nat o -> (o <? length l)%nat = true -> rd8 m a = nth o l 0.
Proof.
  intros E -> Ho%Nat.ltb_lt. pose proof (rd_bytes_lookup m p (length l) o) as Hl. rewrite E in Hl.
  specialize (Hl Ho). symmetry. by apply nth_lookup_Some.
Qed.

Lemma packet_bytes m p l a (o n : nat) :
  rd_bytes m p (length l) = l -> a = p + Z.of_nat o -> (o + n <=? length l)%nat = true ->
  rd_bytes m a n = take n (drop o l).
Proof.
  intros E -> Ho%Nat.leb_le. rewrite <- E. replace (length l) with (o + (n + (length l - o - n)))%nat at 1 by lia.
  rewrite rd_bytes_app, drop_app_length' by (by rewrite length_rd_bytes). by rewrite rd_bytes_app, take_app_length' by (by rewrite length_rd_bytes).
Qed.

(** The constant offset of an address from [p]. *)
Ltac offset_of p a :=
  lazymatch a with
  | p => constr:(0)
  | ?b + ?k => let o := offset_of p b in eval compute in (o + k)
  end.

(** Push a byte store inside the window at [p] onto the bytes of the window. *)
Ltac block_step :=
  match goal with
  | |- context [rd_bytes (wr8 ?m ?a ?v) ?p ?n] =>
      let o := offset_of p a in
      let i := eval compute in (Z.to_nat o) in
      rewrite (rd_bytes_wr8_in m a v p n i) by (cbn; lia)
  end.

Lemma mem_frame_wr8 (P : Z -> Prop) m m' a v :
  mem_frame P m m' -> P (u32 a) -> mem_frame P m (wr8 m' a v).
Proof.
  intros HF HP b Hb. rewrite rd8_wr8_ne; [by apply HF|]. congruence.
Qed.

Lemma mem_frame_wr_bytes_trans (P : Z -> Prop) m m' a l :
  mem_frame P m m' -> (forall i, 0 <= i < Z.of_nat (length l) -> P (u32 (a + i))) ->
  mem_frame P m (wr_bytes m' a l).
Proof. intros HF HP. etransitivity; [done|by apply mem_frame_wr_bytes]. Qed.

(** Stores at constant offsets of [p] stay in a window of [n] bytes. *)
Ltac solve_window :=
  repeat first
    [ apply mem_frame_wr8; [|rewrite u32_small by lia; lia]
    | apply mem_frame_wr_bytes_trans;
        [|intros ? ?; rewrite ?length_replicate in *; cbn in *; rewrite u32_small by lia; lia] ];
  try reflexivity.

Lemma u16_lnot c : u16 (Z.lnot c) = cksum_not c.
Proof.
  unfold cksum_not, u16. change 65535 with (Z.ones 16). by rewrite Z.land_ones by lia.
Qed.

Lemma rd_bytes_4 m a :
  rd_bytes m a 4 = [rd8 m a; rd8 m (a + 1); rd8 m (a + 2); rd8 m (a + 3)].
Proof.
  rewrite !rd_bytes_S. replace (a + 1 + 1) with (a + 2) by lia.
  by replace (a + 2 + 1) with (a + 3) by lia.
Qed.

Lemma length_4_inv {A} (l : list A) : length l = 4%nat -> exists a b c d, l = [a; b; c; d].
Proof. destruct l as [|a [|b [|c [|d [|]]]]]; try done. by exists a, b, c, d. Qed.

Lemma length_6_inv {A} (l : list A) :
  length l = 6%nat -> exists a b c d e f, l = [a; b; c; d; e; f].
Proof. destruct l as [|a [|b [|c [|d [|e [|f [|]]]]]]]; try done. by exists a, b, c, d, e, f. Qed.

(** Equality of explicit byte lists, element by element. *)
Lemma cons_cong {A} (a b : A) l l' : a = b -> l = l' -> a :: l = b :: l'.
Proof. congruence. Qed.

Ltac byte_arith :=
  first [ reflexivity
        | apply u8_small; lia
        | rewrite ?Z.shiftr_div_pow2 by lia; change (2 ^ 8) with 256; wrap_lia ].

Ltac list_bytes := repeat (apply cons_cong; [byte_arith|]); try reflexivity.

(** Split the byte bounds of an explicit list. *)
Ltac bytes_bounds :=
  repeat match goal with
  | Hb : bytes_ok (_ :: _) |- _ => inversion Hb; subst; clear Hb
  | Hb : bytes_ok [] |- _ => clear Hb
  end.

