(* ===== verification/Interrupt.v ===== *)
(** * Interrupts and the timer (interrupt.c, pic-8259.c, pit-8253.c)

    The interrupt descriptor table in memory, the two 8259 interrupt
    controllers and the 8253 countdown. *)

From S2P Require Import Prelude Machine Memory Vga.

Definition CODE_SELECTOR : Z := 8.
Definition MAX_IRQ : Z := 16.
Definition PIC_8259_PIC1 : Z := 32.
Definition PIC_8259_PIC2 : Z := 160.
Definition IO_PIT_8253_TIMER0 : Z := 64.
Definition IO_PIT_8253_CONTROL : Z := 67.

Section Interrupt.
Context `{Env} `{Linker}.

(** ** interrupt.c *)

(** One pass of the loop of [idt_init]. *)
Definition idt_entry (i : Z) : M unit :=
  let b := IDT + i * 8 in
  let offset := u32 default_int in
  store16 b (u16 offset) ;;
  store16 (b + 2) CODE_SELECTOR ;;
  store16 (b + 4) 36352 ;;
  store16 (b + 6) (u16 (Z.shiftr offset 16)).

Definition idt_init : M unit :=
  do_memset IDT 0 (256 * 8) ;;
  for_range 0 256 idt_entry ;;
  store16 IDTR (256 * 8 - 1) ;;
  store32 (IDTR + 2) (u32 IDT) ;;
  log (EvLidt IDTR) ;;
  modify (set_m_irq_function (replicate (Z.to_nat MAX_IRQ) None)).

Definition set_idt (interrupt intfunc : Z) : M unit :=
  let b := IDT + u8 interrupt * 8 in
  let offset := u32 intfunc in
  store16 b (u16 offset) ;;
  store16 (b + 6) (u16 (Z.shiftr offset 16)).

(** An installed handler is code at an address, like the code EXEC calls. *)
Definition call_handler (f : Z) : M unit := λ s,
  match env_exec f s with
  | Some s' => inr (tt, s')
  | None => inl NoReturn
  end.

Definition do_irq (n : Z) : M unit :=
  if MAX_IRQ <=? n then skip else
  c ← load16 (753664 + n * 2);
  store16 (753664 + n * 2) (u16 (c + 1)) ;;
  f ← gets (λ s, m_irq_function s !! Z.to_nat n);
  match f with
  | Some (Some f) => call_handler f
  | _ => skip
  end.

(** ** pic-8259.c *)

(** [default_irq_pic1_0] to [default_irq_pic2_15]: the handler installed for line [n]. *)
Definition default_irq (n : Z) : M unit := do_irq n.

Definition pic_8259_init : M unit :=
  a ← io_inbi_d PIC_8259_PIC1;
  missing ← (if a =? 255 then b ← io_inbi_d PIC_8259_PIC2; mret (b =? 255) else mret false : M bool);
  if missing : bool then vga_write (msg "8259 PIC is missing") else
  io_outbi_d PIC_8259_PIC1 17 ;;
  io_outbi_d (PIC_8259_PIC1 + 1) 32 ;;
  io_outbi_d (PIC_8259_PIC1 + 1) 4 ;;
  io_outbi_d (PIC_8259_PIC1 + 1) 3 ;;
  io_outbi_d (PIC_8259_PIC1 + 1) 0 ;;
  io_outbi_d PIC_8259_PIC2 17 ;;
  io_outbi_d (PIC_8259_PIC2 + 1) 40 ;;
  io_outbi_d (PIC_8259_PIC2 + 1) 2 ;;
  io_outbi_d (PIC_8259_PIC2 + 1) 3 ;;
  io_outbi_d (PIC_8259_PIC2 + 1) 0 ;;
  for_range 0 8 (λ i, io_outbi_d PIC_8259_PIC1 (96 + i)) ;;
  for_range 0 8 (λ i, io_outbi_d PIC_8259_PIC2 (96 + i)) ;;
  for_range 0 8 (λ n, set_idt (32 + n) (default_irq_iret n)) ;;
  for_range 8 8 (λ n, set_idt (32 + n) (default_irq_iret n)).

Definition pic_8259_seoi (i : Z) : M unit :=
  if (0 <=? i) && (i <=? 7) then io_outbi_d PIC_8259_PIC1 (96 + i)
  else if (8 <=? i) && (i <=? 15) then io_outbi_d PIC_8259_PIC2 (96 + i - 8)
  else skip.

(** [OCW3] read of a pair of registers. *)
Definition pic_read (ocw3 : Z) : M Z :=
  io_outbi_d PIC_8259_PIC1 ocw3 ;;
  irr1 ← io_inbi_d PIC_8259_PIC1;
  io_outbi_d PIC_8259_PIC2 ocw3 ;;
  irr2 ← io_inbi_d PIC_8259_PIC2;
  mret (Z.lor irr1 (Z.shiftl irr2 8)).
Definition pending_interrupts : M Z := pic_read (Z.lor 8 2).
Definition in_service_interrupts : M Z := pic_read (Z.lor 8 3).

(** ** pit-8253.c *)

Definition pit_8253_start_countdown : M unit :=
  io_outbi IO_PIT_8253_CONTROL (Z.lor (Z.lor (Z.shiftl 0 6) (Z.shiftl 3 4)) (Z.shiftl 0 1)) ;;
  io_outbi IO_PIT_8253_TIMER0 255 ;;
  io_outbi IO_PIT_8253_TIMER0 255.
Definition pit_8253_init : M unit := pit_8253_start_countdown.

Definition pit_8253_time : M Z :=
  io_outbi IO_PIT_8253_CONTROL (Z.lor (Z.lor (Z.shiftl 0 6) (Z.shiftl 0 4)) (Z.shiftl 0 1)) ;;
  lo ← io_inbi IO_PIT_8253_TIMER0;
  hi ← io_inbi IO_PIT_8253_TIMER0;
  mret (u16 (Z.lor lo (Z.shiftl hi 8))).

(** ** c-main.c *)

Definition timer_init : M unit := pit_8253_init.
Definition interrupt_init : M unit := idt_init ;; pic_8259_init.

(** ** Gates *)

(** What the processor reads from the 8 bytes of a gate. *)
Record gate : Type := mkGate { g_offset : Z; g_selector : Z; g_type : Z }.

Definition read_gate (m : gmap Z Z) (i : Z) : gate :=
  let b := IDT + i * 8 in
  mkGate (rd16 m b + 65536 * rd16 m (b + 6)) (rd16 m (b + 2)) (rd16 m (b + 4)).

Lemma rd16_wr16_ne m a b v :
  2 <= u32 (b - a) <= 4294967294 -> rd16 (wr16 m a v) b = rd16 m b.
Proof.
  intros Hd. apply rd16_ext. intros i Hi. unfold wr16. rewrite !rd8_wr8_ne; [done|wrap_lia..].
Qed.

Lemma rd16_wr16_same m a v : rd16 (wr16 m a v) a = u16 v.
Proof. apply rd16_wr16. Qed.

(** Offsets of a gate are split over two words. *)
Lemma offset_halves x : u16 (u16 (u32 x)) + 65536 * u16 (u16 (Z.shiftr (u32 x) 16)) = u32 x.
Proof. rewrite Z.shiftr_div_pow2 by lia. change (2 ^ 16) with 65536. wrap_lia. Qed.

Lemma set_idt_run i f s :
  set_idt i f s = inr (tt, set_m_mem (wr16 (wr16 (m_mem s) (IDT + u8 i * 8) (u16 (u32 f)))
    (IDT + u8 i * 8 + 6) (u16 (Z.shiftr (u32 f) 16))) s).
Proof. reflexivity. Qed.

Ltac gate_words :=
  repeat first [ rewrite rd16_wr16_same | rewrite rd16_wr16_ne by wrap_lia ].

(** [set_idt] redirects its gate. *)
Lemma set_idt_gate m i f :
  0 <= i < 256 ->
  read_gate (wr16 (wr16 m (IDT + u8 i * 8) (u16 (u32 f))) (IDT + u8 i * 8 + 6) (u16 (Z.shiftr (u32 f) 16))) i =
    mkGate (u32 f) (g_selector (read_gate m i)) (g_type (read_gate m i)).
Proof.
  intros Hi. unfold read_gate. rewrite (u8_small i) by done. cbn [g_selector g_type].
  f_equal; gate_words; try done. apply offset_halves.
Qed.

(** ... and no other. *)
Lemma set_idt_other m i j f :
  0 <= i < 256 -> 0 <= j < 256 -> i <> j ->
  read_gate (wr16 (wr16 m (IDT + u8 i * 8) (u16 (u32 f))) (IDT + u8 i * 8 + 6) (u16 (Z.shiftr (u32 f) 16))) j =
    read_gate m j.
Proof.
  intros Hi Hj Hne. unfold read_gate. rewrite (u8_small i) by done. f_equal; gate_words; done.
Qed.

(** The gate [idt_init] writes. *)
Definition idle_gate : gate := mkGate (u32 default_int) CODE_SELECTOR 36352.

Definition entry_mem (m : gmap Z Z) (i : Z) : gmap Z Z :=
  let b := IDT + i * 8 in
  wr16 (wr16 (wr16 (wr16 m b (u16 (u32 default_int))) (b + 2) CODE_SELECTOR) (b + 4) 36352) (b + 6)
    (u16 (Z.shiftr (u32 default_int) 16)).

Lemma entry_mem_gate m i : 0 <= i < 256 -> read_gate (entry_mem m i) i = idle_gate.
Proof.
  intros Hi. unfold read_gate, entry_mem, idle_gate. f_equal; gate_words; try done. apply offset_halves.
Qed.

Lemma entry_mem_other m i j : 0 <= i < 256 -> 0 <= j < 256 -> i <> j -> read_gate (entry_mem m i) j = read_gate m j.
Proof. intros Hi Hj Hne. unfold read_gate, entry_mem. f_equal; gate_words; done. Qed.

(** The descriptor-table loop. *)
Lemma idt_loop s :
  wp (for_range 0 256 idt_entry)
    (λ _ s', exists m, s' = set_m_mem m s /\ forall i, 0 <= i < 256 -> read_gate m i = idle_gate) s.
Proof.
  eapply wp_mono.
  - apply (wp_for_range (λ k s', exists m, s' = set_m_mem m s /\ forall i, 0 <= i < k -> i < 256 -> read_gate m i = idle_gate)).
    + exists (m_mem s). split; [by destruct s|]. intros; lia.
    + intros k s1 Hk (m & -> & Hm). unfold wp, idt_entry. run. exists (entry_mem m k). split; [done|].
      intros i Hi Hi'. destruct (decide (i = k)) as [->|Hne]; [by apply entry_mem_gate|].
      rewrite entry_mem_other by lia. apply Hm; lia.
  - intros [] s' (m & -> & Hm). exists m. split; [done|]. intros i Hi. apply Hm; lia.
Qed.

(** *** After [interrupt_init] *)

(** The table, its descriptor and the screen do not overlap. *)
Record idt_placed : Prop := {
  ip_idtr : 2048 <= u32 (IDTR - IDT) <= 4294967288;
  ip_screen : forall i, 0 <= i < 2048 -> ~ vga_window (u32 (IDT + i))
}.

(** A table whose gate [i] is [g i]. *)
Definition table (m : gmap Z Z) (g : Z -> gate) : Prop := forall i, 0 <= i < 256 -> read_gate m i = g i.

Lemma read_gate_ext m m' i :
  (forall o, 0 <= o < 8 -> rd8 m' (IDT + i * 8 + o) = rd8 m (IDT + i * 8 + o)) -> read_gate m' i = read_gate m i.
Proof.
  intros E. unfold read_gate.
  assert (forall o, 0 <= o <= 6 -> rd16 m' (IDT + i * 8 + o) = rd16 m (IDT + i * 8 + o)) as E16.
  { intros o Ho. apply rd16_ext. intros k Hk.
    rewrite <- (Z.add_assoc (IDT + i * 8) o k). apply E. lia. }
  pose proof (E16 0 ltac:(lia)) as E0. rewrite Z.add_0_r in E0. rewrite E0, !E16 by lia. done.
Qed.

Lemma idt_init_table s :
  idt_placed ->
  wp idt_init (λ _ s', table (m_mem s') (λ _, idle_gate) /\
    rd16 (m_mem s') IDTR = 2047 /\ rd32 (m_mem s') (IDTR + 2) = u32 IDT /\
    m_irq_function s' = replicate 16 None) s.
Proof.
  intros [Hp _]. unfold idt_init, do_memset, upd_mem. wp_step. wp_step. wp_step.
  eapply wp_mono; [apply idt_loop|]. intros [] s1 (m & -> & Hm). unfold wp, log. run. cbn [m_mem m_irq_function m_trace set_m_mem set_m_trace set_m_irq_function].
  split_and!; [| | |done].
  - intros i Hi. rewrite (read_gate_ext m); [by apply Hm|]. intros o Ho. rewrite wr32_wr_bytes.
    rewrite rd8_wr_bytes_out by (cbn [length]; wrap_lia). unfold wr16. rewrite !rd8_wr8_ne by wrap_lia. done.
  - rewrite (rd16_ext _ (wr16 m IDTR (256 * 8 - 1))); [by rewrite rd16_wr16_same|].
    intros i Hi. rewrite wr32_wr_bytes. apply rd8_wr_bytes_out. cbn [length]. wrap_lia.
  - rewrite rd32_wr32. by rewrite u32_u32.
Qed.

(** Redirecting a run of gates. *)
Lemma set_idts_table (f : Z -> Z) n : forall lo s g,
  0 <= lo -> 32 + lo + Z.of_nat n <= 256 -> table (m_mem s) g -> (forall i, g_selector (g i) = CODE_SELECTOR /\ g_type (g i) = 36352) ->
  wp (for_range lo n (λ n, set_idt (32 + n) (f n)))
    (λ _ s', exists m, s' = set_m_mem m s /\
       table m (λ i, if (32 + lo <=? i) && (i <? 32 + lo + Z.of_nat n)
                     then mkGate (u32 (f (i - 32))) CODE_SELECTOR 36352 else g i)) s.
Proof.
  induction n as [|n IH]; intros lo s g Hlo Hn Ht Hg; cbn [for_range].
  - wp_step. exists (m_mem s). split; [by destruct s|]. intros i Hi. rewrite (Ht i Hi).
    replace ((32 + lo <=? i) && (i <? 32 + lo + Z.of_nat 0)) with false; [done|].
    symmetry. apply andb_false_iff. destruct (Z_lt_le_dec i (32 + lo)); [left; by apply Z.leb_gt|right; apply Z.ltb_ge; lia].
  - wp_step. unfold wp at 1. rewrite set_idt_run.
    set (m1 := wr16 _ _ _).
    assert (table m1 (λ i, if i =? 32 + lo then mkGate (u32 (f lo)) CODE_SELECTOR 36352 else g i)) as Ht1.
    { intros i Hi. subst m1. destruct (i =? 32 + lo) eqn:E; bool_to_prop.
      - subst i. rewrite set_idt_gate by lia. rewrite (Ht (32 + lo)) by lia. by destruct (Hg (32 + lo)) as [-> ->].
      - rewrite set_idt_other by lia. by apply Ht. }
    eapply wp_mono; [apply (IH (lo + 1) (set_m_mem m1 s) _ ltac:(lia) ltac:(lia) Ht1)|].
    + intros i. by destruct (i =? 32 + lo).
    + intros [] s' (m & -> & Hm). exists m. split; [done|]. intros i Hi. rewrite (Hm i Hi).
      destruct (32 + (lo + 1) <=? i) eqn:E1, (i <? 32 + (lo + 1) + Z.of_nat n) eqn:E2, (i =? 32 + lo) eqn:E3,
        (32 + lo <=? i) eqn:E4, (i <? 32 + lo + Z.of_nat (S n)) eqn:E5; cbn [andb]; bool_to_prop; try lia; try done.
      subst i. by replace (32 + lo - 32) with lo by lia.
Qed.

(** After [interrupt_init] with a PIC that answers, the table has 256 gates:
    the sixteen interrupts of the PICs go to their stubs, every other one to the
    bare [iret]; all are 32-bit interrupt gates in the code segment, IDTR
    describes the table, and no handler is installed. *)
Theorem interrupt_init_gates s :
  idt_placed -> (forall tr, u8 (env_in tr 8 32) <> 255) ->
  exists s', interrupt_init s = inr (tt, s') /\
    table (m_mem s') (λ i, if (32 <=? i) && (i <? 48) then mkGate (u32 (default_irq_iret (i - 32))) CODE_SELECTOR 36352
                           else idle_gate) /\
    m_irq_function s' = replicate 16 None.
Proof.
  intros Hp Hpic. apply wp_run_unit. unfold interrupt_init. wp_step. eapply wp_mono; [by apply idt_init_table|].
  intros [] s1 (Ht & _ & _ & Hirq). unfold pic_8259_init. wp_step.
  assert (wp (io_inbi_d PIC_8259_PIC1) (λ a s', a <> 255 /\ io_only s1 s') s1) as Hin.
  { unfold io_inbi_d, io_inbi, io_in. do 4 wp_step. wp_step.
    eapply stays_wp; [by apply io_only_log|done|]. intros [] s2 _ H2. wp_step. wp_step. wp_step.
    eapply stays_wp; [apply io_only_delay|done|]. intros [] s3 _ H3. wp_step. split; [apply Hpic|by etransitivity]. }
  eapply wp_mono; [exact Hin|]. intros a s2 [Ha [tr2 [E2 _]]]. rewrite (proj2 (Z.eqb_neq _ _)) by done. wp_step. wp_step.
  assert (exists tr, s2 = set_m_trace tr s1) as [tr E] by (by eexists). rewrite E. clear s2 E2 E Hin a Ha tr2.
  do 12 (wp_step; eapply (stays_wp (λ _ : machine, True) io_only); [solve_stays|done|]; intros [] ? _ [? [-> _]];
         cbn [m_trace set_m_trace]).
  wp_step. eapply wp_mono; [apply (set_idts_table default_irq_iret 8 0 _ (λ _, idle_gate)); [lia|lia|exact Ht|done]|].
  intros [] s3 (m & -> & Hm).
  eapply wp_mono; [eapply (set_idts_table default_irq_iret 8 8); [lia|lia|exact Hm|]|].
  - intros i. cbv beta. by case_match.
  - intros [] s4 (m' & -> & Hm'). split; [|exact Hirq]. intros i Hi. cbn [m_mem set_m_mem]. rewrite (Hm' i Hi).
    destruct (32 + 8 <=? i) eqn:E1, (i <? 32 + 8 + Z.of_nat 8) eqn:E2, (32 + 0 <=? i) eqn:E3, (i <? 32 + 0 + Z.of_nat 8) eqn:E4,
      (32 <=? i) eqn:E5, (i <? 48) eqn:E6; cbn [andb]; bool_to_prop; try lia; done.
Qed.

End Interrupt.

Lemma interrupt_init_gates_witness :
  exists s', @interrupt_init idle_env flat_linker blank = inr (tt, s') /\
    @read_gate flat_linker (m_mem s') 33 = mkGate 74768 CODE_SELECTOR 36352.
Proof.
  destruct (@interrupt_init_gates idle_env flat_linker blank) as (s' & E & Ht & _).
  - split; [vm_compute; intuition discriminate|]. intros i Hi. unfold vga_window. cbn [IDT flat_linker]. rewrite u32_small; lia.
  - intros tr. vm_compute. discriminate.
  - exists s'. split; [exact E|]. apply (Ht 33). lia.
Defined.
