(* ===== verification/Replies.v ===== *)
(** * Building and sending a UDP reply

    [make_udp_response] and [respond] of [NetStack] against the layouts of
    [Packets], for every driver that satisfies [DriverLaws]. *)

From S2P Require Import Prelude Machine Memory Vga Text Checksum NetDriver NetStack Packets.

Section Replies.
Context `{Env} `{NetDrivers} (did : driver_id) `{L : !DriverLaws (net_driver did)}.

(** The state in which a received packet is handled. *)
Record stack_ok (s : machine) : Prop := {
  so_drv : chosen_net_drv (m_net s) = Some did;
  so_inv : drv_inv s;
  so_vga : vga_ok (m_vga s);
  so_ip : length (my_ipv4_address (m_net s)) = 4%nat;
  so_ip_bytes : bytes_ok (my_ipv4_address (m_net s));
  so_mac : length (my_eth_mac (m_net s)) = 6%nat;
  so_mac_bytes : bytes_ok (my_eth_mac (m_net s))
}.

(** Memory that neither the driver nor the console writes. *)
Definition quiet (a n : Z) : Prop :=
  forall i, 0 <= i < n -> ~ drv_area (u32 (a + i)) /\ ~ vga_window (u32 (a + i)).

(** The memory after the IPv4 header of a reply of [ipv4_len] bytes has been
    stored at [p]: up to the copy of the peer's address, and after it. *)
Definition ip_reply_mem1 (m : gmap Z Z) (p : Z) (ip : list Z) (proto ipv4_len : Z) : gmap Z Z :=
  let m := memset m p 0 (Z.to_nat ipv4_len) in
  let m := wr8 (wr8 (wr8 m p 69) (p + 2) (Z.shiftr ipv4_len 8)) (p + 3) ipv4_len in
  let m := wr8 (wr8 (wr8 m (p + 6) (Z.shiftl 2 5)) (p + 8) 64) (p + 9) proto in
  wr_bytes m (p + 12) ip.

Definition ip_reply_mem2 (m : gmap Z Z) (p : Z) : gmap Z Z :=
  let ck := u16 (Z.lnot (cksum_loop m p 5 0 10 0)) in
  wr8 (wr8 m (p + 10) (Z.shiftr ck 8)) (p + 11) ck.

Definition ip_reply_mem (m : gmap Z Z) (p : Z) (ip peer_ip : list Z) (proto ipv4_len : Z) : gmap Z Z :=
  ip_reply_mem2 (wr_bytes (ip_reply_mem1 m p ip proto ipv4_len) (p + 16) peer_ip) p.

Lemma ip_reply_mem_frame m p ip peer_ip proto ipv4_len :
  0 <= p -> 20 <= ipv4_len -> p + ipv4_len <= 4294967296 -> length ip = 4%nat -> length peer_ip = 4%nat ->
  mem_frame (λ a, p <= a < p + ipv4_len) m (ip_reply_mem m p ip peer_ip proto ipv4_len).
Proof.
  intros Hp Hlen Hend Hip Hpeer. unfold ip_reply_mem, ip_reply_mem1, ip_reply_mem2, memset. cbv zeta.
  destruct (length_4_inv _ Hip) as (?&?&?&?&->). destruct (length_4_inv _ Hpeer) as (?&?&?&?&->).
  solve_window.
Qed.

Lemma ip_reply_mem_bytes m p ip peer_ip proto ipv4_len :
  0 <= p -> 20 <= ipv4_len < 65536 -> p + ipv4_len <= 4294967296 -> 0 <= proto < 256 ->
  length ip = 4%nat -> length peer_ip = 4%nat -> bytes_ok ip -> bytes_ok peer_ip ->
  rd_bytes (ip_reply_mem m p ip peer_ip proto ipv4_len) p (Z.to_nat ipv4_len) =
    ipv4_header proto (ipv4_len - 20) ip peer_ip ++ replicate (Z.to_nat (ipv4_len - 20)) 0.
Proof.
  intros Hp Hlen Hend Hproto Hip Hpeer Hipb Hpeerb.
  destruct (length_4_inv _ Hip) as (i0&i1&i2&i3&->).
  destruct (length_4_inv _ Hpeer) as (j0&j1&j2&j3&->).
  unfold ip_reply_mem, ip_reply_mem1, ip_reply_mem2. cbv zeta.
  set (n := Z.to_nat (ipv4_len - 20)).
  replace (Z.to_nat ipv4_len) with (20 + n)%nat by lia.
  set (m0 := memset m p 0 (20 + n)).
  set (m1 := wr_bytes (wr_bytes _ (p + 12) [i0; i1; i2; i3]) (p + 16) [j0; j1; j2; j3]).
  assert (rd_bytes m0 p (20 + n) = replicate (20 + n) 0) as E0 by (apply rd_bytes_memset; lia).
  assert (rd_bytes m1 p (20 + n) =
            [69; 0] ++ be16 ipv4_len ++ [0; 0; 64; 0; 64; proto] ++ [0; 0] ++
            [i0; i1; i2; i3] ++ [j0; j1; j2; j3] ++ replicate n 0) as E1.
  { subst m1. cbn [wr_bytes]. repeat block_step. rewrite E0.
    cbn [replicate insert list_insert Nat.add be16 app]. bytes_bounds. list_bytes. }
  assert (rd_bytes m1 p (2 * 10) =
            [69; 0] ++ be16 ipv4_len ++ [0; 0; 64; 0; 64; proto] ++ [0; 0] ++
            [i0; i1; i2; i3] ++ [j0; j1; j2; j3]) as E2.
  { rewrite (rd_bytes_take m1 p (20 + n) (2 * 10)) by lia. rewrite E1. reflexivity. }
  rewrite cksum_loop_spec, E2, u16_lnot.
  set (t := wsum 5 0 _).
  assert (0 <= t) as Ht.
  { apply wsum_nonneg. rewrite <- E2. apply rd_bytes_bytes. }
  pose proof (fold16_range t Ht). rewrite cksum_not_eq by done.
  repeat block_step. rewrite E1. bytes_bounds.
  unfold ipv4_header, be16.
  replace (20 + (ipv4_len - 20)) with ipv4_len by lia. change (wsum 5 0 _) with t.
  cbn [replicate insert list_insert Nat.add app]. list_bytes.
Qed.

(** The memory [make_udp_response] leaves. *)
Definition udp_reply_mem2 (m : gmap Z Z) (p src_port dst_port len : Z) : gmap Z Z :=
  let m := wr16 (wr16 m (p + 20) (hton16 dst_port)) (p + 20 + 2) (hton16 src_port) in
  wr16 (wr16 m (p + 20 + 4) (hton16 (u16 (len + 8)))) (p + 20 + 6) 0.

Definition udp_reply_mem (m : gmap Z Z) (p : Z) (ip peer_ip : list Z) (src_port dst_port len : Z) : gmap Z Z :=
  udp_reply_mem2 (ip_reply_mem m p ip peer_ip 17 (20 + 8 + len)) p src_port dst_port len.

Lemma udp_reply_mem_frame m p ip peer_ip sport dport len :
  0 <= p -> 0 <= len -> p + 28 + len <= 4294967296 -> length ip = 4%nat -> length peer_ip = 4%nat ->
  mem_frame (λ a, p <= a < p + (20 + 8 + len)) m (udp_reply_mem m p ip peer_ip sport dport len).
Proof.
  intros Hp Hlen Hend Hip Hpeer. unfold udp_reply_mem, udp_reply_mem2, wr16. cbv zeta.
  etransitivity; [apply (ip_reply_mem_frame m p ip peer_ip 17 (20 + 8 + len)); (done || lia)|].
  generalize (ip_reply_mem m p ip peer_ip 17 (20 + 8 + len)). intros m1. solve_window.
Qed.

Lemma length_ipv4_header proto n src dst :
  length src = 4%nat -> length dst = 4%nat -> length (ipv4_header proto n src dst) = 20%nat.
Proof. intros Hs Hd. unfold ipv4_header, be16. rewrite !length_app, Hs, Hd. done. Qed.

Lemma udp_reply_mem_bytes m p ip peer_ip sport dport len :
  0 <= p -> 0 <= len <= 1580 -> p + 28 + len <= 4294967296 ->
  length ip = 4%nat -> length peer_ip = 4%nat -> bytes_ok ip -> bytes_ok peer_ip ->
  0 <= sport < 65536 -> 0 <= dport < 65536 ->
  rd_bytes (udp_reply_mem m p ip peer_ip sport dport len) p (28 + Z.to_nat len) =
    ipv4_header 17 (8 + len) ip peer_ip ++ udp_header dport sport len ++ replicate (Z.to_nat len) 0.
Proof.
  intros Hp Hlen Hend Hip Hpeer Hipb Hpeerb Hs Hd. unfold udp_reply_mem, udp_reply_mem2. cbv zeta.
  pose proof (ip_reply_mem_bytes m p ip peer_ip 17 (20 + 8 + len) Hp ltac:(lia) ltac:(lia) ltac:(lia)
                Hip Hpeer Hipb Hpeerb) as E.
  replace (20 + 8 + len - 20) with (8 + len) in E by lia. set (m1 := ip_reply_mem _ _ _ _ _ _) in *.
  rewrite !wr16_hton16 by (lia || apply u16_range).
  change (wr16 ?x ?y 0) with (wr_bytes x y [0; 0]).
  replace (wr_bytes _ (p + 20 + 6) [0; 0]) with
    (wr_bytes m1 (p + 20) ([dport / 256; dport] ++ [sport / 256; sport] ++
       [u16 (len + 8) / 256; u16 (len + 8)] ++ [0; 0])).
  2:{ rewrite !wr_bytes_app. cbn [length]. by rewrite <- !Z.add_assoc. }
  rewrite (rd_bytes_wr_bytes_in _ _ _ _ _ 20) by (cbn; lia).
  replace (28 + Z.to_nat len)%nat with (Z.to_nat (20 + 8 + len)) by lia. rewrite E.
  pose proof (length_ipv4_header 17 (8 + len) ip peer_ip Hip Hpeer) as Hl.
  rewrite take_app_length' by done. f_equal. cbn [length app Nat.add].
  rewrite drop_app_ge by lia. rewrite Hl, drop_replicate. unfold udp_header, be16. cbn [app fmap list_fmap].
  replace (Z.to_nat (8 + len) - (28 - 20))%nat with (Z.to_nat len) by lia. list_bytes.
Qed.

(** *** Memory the driver and console leave alone *)

Lemma quiet_far a n x : quiet a n -> drv_area (u32 x) -> n <= u32 (x - a).
Proof.
  intros Hq Hx. destruct (Z_lt_le_dec (u32 (x - a)) n) as [Hlt|]; [|done].
  exfalso. destruct (Hq (u32 (x - a))) as [Hn _]; [pose proof (u32_range (x - a)); lia|].
  apply Hn. by replace (u32 (a + u32 (x - a))) with (u32 x) by wrap_lia.
Qed.

Lemma quiet_rd_bytes a n m m' :
  quiet a (Z.of_nat n) -> mem_frame (λ x, drv_area x \/ vga_window x) m m' ->
  rd_bytes m' a n = rd_bytes m a n.
Proof.
  intros Hq HF. apply (mem_frame_rd_bytes _ _ _ _ _ HF). intros i Hi. destruct (Hq i Hi). tauto.
Qed.

Lemma quiet_sub a n b k : quiet a n -> a <= b -> b + k <= a + n -> quiet b k.
Proof.
  intros Hq Hb Hk i Hi. replace (b + i) with (a + (b - a + i)) by lia. apply Hq. lia.
Qed.

(** A reply of [len] data bytes under construction. *)
Record reply_built (s s' : machine) (peer_mac peer_ip : list Z) (sport dport len p : Z) : Prop := {
  rb_prepared : drv_prepared s' p (28 + len);
  rb_bytes : rd_bytes (m_mem s') (p - 14) (42 + Z.to_nat len) =
    eth_frame peer_mac (my_eth_mac (m_net s)) ETH_TYPE_IPv4
      (ipv4_header 17 (8 + len) (my_ipv4_address (m_net s)) peer_ip ++
       udp_header dport sport len ++ replicate (Z.to_nat len) 0);
  rb_mem : mem_frame (λ a, drv_area a \/ vga_window a) (m_mem s) (m_mem s');
  rb_vga : vga_ok (m_vga s');
  rb_net : m_net s' = set_udp_resp_len len (set_udp_resp_data (p + 28) (set_udp_resp_hdr (p + 20) (m_net s)));
  rb_alloc : m_alloc s' = m_alloc s;
  rb_exec : executed (m_trace s') = executed (m_trace s)
}.

Lemma wp_chosen {A} (f : network_driver -> M A) Q s :
  chosen_net_drv (m_net s) = Some did -> wp (f (net_driver did)) Q s -> wp (chosen f) Q s.
Proof. intros Hd Hf. unfold chosen. wp_step. wp_step. by rewrite Hd. Qed.

Lemma eth_bytes_be dst src type :
  bytes_ok dst -> bytes_ok src -> 0 <= type < 65536 ->
  u8 <$> eth_bytes (mkEth dst src (hton16 type)) = dst ++ src ++ be16 type.
Proof.
  intros Hd Hs Ht. unfold eth_bytes, be16. cbn [dst_mac src_mac eth_type].
  rewrite !fmap_app, (fmap_u8_bytes dst), (fmap_u8_bytes src) by done. do 2 f_equal. cbn [fmap list_fmap].
  unfold hton16. rewrite ntoh16_swap by done. list_bytes.
Qed.

(** The copy of the peer's address reads bytes outside the buffer. *)
Lemma ip_reply_mem_copy m p ip proto ipv4_len src_ip :
  0 <= p -> 20 <= ipv4_len -> p + ipv4_len <= 4294967296 -> length ip = 4%nat ->
  quiet src_ip 4 -> (forall a, p <= a < p + ipv4_len -> drv_area a) ->
  ip_reply_mem2 (memcpy (ip_reply_mem1 m p ip proto ipv4_len) (p + 16) src_ip 4) p =
    ip_reply_mem m p ip (rd_bytes m src_ip 4) proto ipv4_len.
Proof.
  intros Hp Hlen Hend Hip Hq Harea. unfold ip_reply_mem. f_equal.
  assert (4 <= u32 (p + 16 - src_ip)) as Hfar.
  { apply quiet_far; [done|]. rewrite u32_small by lia. apply Harea. lia. }
  rewrite memcpy_wr_bytes by lia. f_equal.
  apply (mem_frame_rd_bytes (λ a, p <= a < p + ipv4_len)).
  - unfold ip_reply_mem1, memset. cbv zeta. destruct (length_4_inv _ Hip) as (?&?&?&?&->). solve_window.
  - intros i Hi Hw. destruct (Hq i); [lia|]. auto.
Qed.

Lemma make_udp_response_spec s eth src_ip sport dport len :
  stack_ok s -> 0 <= len <= 1452 -> length (src_mac eth) = 6%nat -> bytes_ok (src_mac eth) ->
  0 <= sport < 65536 -> 0 <= dport < 65536 -> quiet src_ip 4 ->
  wp (make_udp_response eth src_ip sport dport len)
    (λ data s', exists p, data = p + 28 /\ data <> 0 /\
       reply_built s s' (src_mac eth) (rd_bytes (m_mem s) src_ip 4) sport dport len p) s.
Proof.
  intros [Hd Hinv Hvga Hip Hipb Hmac Hmacb] Hlen Hpm Hpmb Hsp Hdp Hq.
  unfold make_udp_response.
  rewrite (proj2 (Z.ltb_ge len 0)), (proj2 (Z.ltb_ge 1580 len)) by lia. cbn [orb].
  unfold my_mac. wp_step. wp_step. wp_step. apply wp_chosen; [done|].
  eapply wp_mono; [apply law_prepare; cbn; try done; pose proof law_mtu; lia|].
  intros r s1 (p & -> & Hp & Hhdr & [Hm1 Hv1 Hn1 Ha1 Hp1 Hi1 He1]).
  pose proof (law_window _ _ _ Hp) as (Hp14 & _ & Hpend & Harea).
  pose proof (quiet_rd_bytes src_ip 4 _ _ Hq Hm1) as Hsrc.
  apply wp_run.
  exists (p + 20 + 8), (set_m_net (set_udp_resp_len len (set_udp_resp_data (p + 20 + 8) (set_udp_resp_hdr (p + 20) (m_net s1))))
    (set_m_mem (udp_reply_mem2 (ip_reply_mem2 (memcpy (ip_reply_mem1 (m_mem s1) p (my_ipv4_address (m_net s1)) 17 (20 + 8 + len))
       (p + 16) src_ip 4) p) p sport dport len) s1)).
  split; [reflexivity|]. exists p.
  replace (p + 20 + 8) with (p + 28) by lia.
  rewrite ip_reply_mem_copy; [|lia|lia|lia|by rewrite Hn1|done|intros; apply Harea; lia].
  fold (udp_reply_mem (m_mem s1) p (my_ipv4_address (m_net s1)) (rd_bytes (m_mem s1) src_ip 4) sport dport len).
  rewrite Hsrc, Hn1. set (peer := rd_bytes (m_mem s) src_ip 4).
  assert (length peer = 4%nat) as Hpeer by (subst peer; apply length_rd_bytes).
  assert (bytes_ok peer) as Hpeerb by (subst peer; apply rd_bytes_bytes).
  pose proof (udp_reply_mem_frame (m_mem s1) p _ _ sport dport len ltac:(lia) ltac:(lia) ltac:(lia) Hip Hpeer) as HF.
  split_and!; [done|lia|]. split; cbn [m_mem m_net m_vga m_alloc m_trace set_m_net set_m_mem]; try done.
  - eapply law_prepared_stable; [by replace (28 + len) with (20 + 8 + len) by lia|by split|]. cbn [m_mem set_m_net set_m_mem].
    eapply mem_frame_weaken; [|done]. cbn. lia.
  - replace (42 + Z.to_nat len)%nat with (14 + (28 + Z.to_nat len))%nat by lia.
    rewrite rd_bytes_app. replace (p - 14 + Z.of_nat 14) with p by lia.
    rewrite udp_reply_mem_bytes by (done || lia).
    rewrite (mem_frame_rd_bytes _ _ _ _ _ HF) by (intros i Hi; cbv beta; rewrite u32_small by lia; lia).
    rewrite Hhdr, eth_bytes_be by (done || (unfold ETH_TYPE_IPv4; lia)).
    unfold eth_frame. by rewrite !(assoc_L (++)).
  - etransitivity; [exact Hm1|]. eapply mem_frame_weaken; [|exact HF]. intros a Ha. left. apply Harea. cbv beta in Ha. lia.
Qed.

(** *** Filling the data in and sending *)

(** A reply with [payload] has gone out, and nothing else has changed but the
    memory of the driver and of the screen. *)
Record replied (s s' : machine) (peer_mac peer_ip : list Z) (sport dport : Z) (payload : list Z) : Prop := {
  re_handed : drv_handed s' (eth_frame peer_mac (my_eth_mac (m_net s)) ETH_TYPE_IPv4
    (udp_packet (my_ipv4_address (m_net s)) peer_ip dport sport payload));
  re_stack : stack_ok s';
  re_mem : mem_frame (λ a, drv_area a \/ vga_window a) (m_mem s) (m_mem s');
  re_seq : exec_last_seq (m_net s') = exec_last_seq (m_net s);
  re_addr : my_ipv4_address (m_net s') = my_ipv4_address (m_net s) /\
            my_eth_mac (m_net s') = my_eth_mac (m_net s) /\
            chosen_net_drv_open (m_net s') = chosen_net_drv_open (m_net s);
  re_alloc : m_alloc s' = m_alloc s;
  re_exec : executed (m_trace s') = executed (m_trace s)
}.

(** What the code between [make_udp_response] and [send_udp_response] does: it
    stores [payload] at [data] and touches nothing else. *)
Definition fills (data : Z) (payload : list Z) (s s' : machine) : Prop :=
  m_mem s' = wr_bytes (m_mem s) data payload /\ m_vga s' = m_vga s /\ same_statics s s' /\
  m_trace s' = m_trace s.

Lemma reply_filled s s1 s2 peer_mac peer_ip sport dport len p payload :
  reply_built s s1 peer_mac peer_ip sport dport len p -> 0 <= len ->
  length peer_mac = 6%nat -> length (my_eth_mac (m_net s)) = 6%nat ->
  length peer_ip = 4%nat -> length (my_ipv4_address (m_net s)) = 4%nat ->
  Z.of_nat (length payload) = len -> bytes_ok payload -> fills (p + 28) payload s1 s2 ->
  drv_prepared s2 p (28 + len) /\
  rd_bytes (m_mem s2) (p - 14) (Z.to_nat (28 + len + 14)) =
    eth_frame peer_mac (my_eth_mac (m_net s)) ETH_TYPE_IPv4
      (udp_packet (my_ipv4_address (m_net s)) peer_ip dport sport payload) /\
  mem_frame (λ a, drv_area a \/ vga_window a) (m_mem s) (m_mem s2).
Proof.
  intros [Hp Hb Hm Hv Hn Ha He] Hlen Hl1 Hl2 Hl3 Hl4 Hpl Hplb (Hm2 & Hv2 & Hs2 & Ht2).
  pose proof (law_window _ _ _ Hp) as (Hp14 & _ & Hpend & Harea).
  assert (mem_frame (λ a, p + 28 <= a < p + 28 + len) (m_mem s1) (m_mem s2)) as HF.
  { rewrite Hm2. apply mem_frame_wr_bytes. intros i Hi. rewrite u32_small by lia. lia. }
  split_and!.
  - eapply law_prepared_stable; [done|destruct Hs2; by split|].
    eapply mem_frame_weaken; [|exact HF]. cbn. lia.
  - rewrite Hm2. replace (Z.to_nat (28 + len + 14)) with (42 + Z.to_nat len)%nat by lia.
    rewrite (rd_bytes_wr_bytes_in _ _ _ _ _ 42) by lia.
    rewrite Hb, fmap_u8_bytes by done. rewrite drop_ge.
    2:{ rewrite <- Hb, length_rd_bytes. lia. }
    unfold eth_frame, udp_packet. rewrite Hpl, app_nil_r. rewrite !(assoc_L (++)). f_equal.
    apply take_app_length'. unfold ipv4_header, udp_header, be16.
    rewrite !length_app. cbn [length]. rewrite Hl1, Hl2, Hl3, Hl4. done.
  - etransitivity; [exact Hm|]. eapply mem_frame_weaken; [|exact HF]. intros a Hw. left. apply Harea. cbv beta in Hw. lia.
Qed.

(** [respond]: the reply is made, filled and handed to the card. *)
Lemma respond_spec s eth src_ip sport dport len body payload :
  stack_ok s -> 0 <= len <= 1452 -> length (src_mac eth) = 6%nat -> bytes_ok (src_mac eth) ->
  0 <= sport < 65536 -> 0 <= dport < 65536 -> quiet src_ip 4 ->
  Z.of_nat (length payload) = len -> bytes_ok payload ->
  (forall data s1, mem_frame (λ a, drv_area a \/ vga_window a) (m_mem s) (m_mem s1) ->
     m_alloc s1 = m_alloc s -> 0 <= data -> data + len <= 4294967296 ->
     (forall a, data <= a < data + len -> drv_area a) ->
     wp (body data) (λ _ s2, fills data payload s1 s2) s1) ->
  wp (respond eth src_ip sport dport len body)
    (λ _ s', replied s s' (src_mac eth) (rd_bytes (m_mem s) src_ip 4) sport dport payload) s.
Proof.
  intros Hok Hlen Hpm Hpmb Hsp Hdp Hq Hpl Hplb Hbody. unfold respond. wp_step.
  eapply wp_mono; [by apply make_udp_response_spec|].
  intros data s1 (p & -> & Hnz & Hb). rewrite (proj2 (Z.eqb_neq _ 0)) by done. wp_step.
  pose proof (law_window _ _ _ (rb_prepared _ _ _ _ _ _ _ _ Hb)) as (Hp14 & _ & Hpend & Harea).
  eapply wp_mono.
  { apply Hbody; [apply Hb|apply Hb|lia|lia|intros; apply Harea; lia]. }
  intros [] s2 Hf.
  destruct (reply_filled _ _ _ _ _ _ _ _ _ _ Hb ltac:(lia) Hpm (so_mac _ Hok)
    (length_rd_bytes _ _ _) (so_ip _ Hok) Hpl Hplb Hf) as (Hp2 & Hbytes & Hm2).
  destruct Hf as (_ & Hv2 & Hs2 & Ht2). destruct Hb as [_ _ _ Hv1 Hn1 Ha1 He1].
  assert (m_net s2 = m_net s1) as Hn2 by apply Hs2.
  assert (m_alloc s2 = m_alloc s1) as Ha2 by apply Hs2.
  unfold send_udp_response. apply wp_chosen; [rewrite Hn2, Hn1; apply Hok|].
  eapply wp_mono; [apply (law_send _ _ _ Hp2); congruence|].
  intros [] s3 (Hinv & [Hm3 Hv3 Hn3 Ha3 _ _ He3] & Hh). rewrite Hbytes in Hh.
  rewrite Hn2, Hn1 in Hn3. destruct Hok. split; [done|split; rewrite ?Hn3; done|by etransitivity|by rewrite Hn3| | |].
  - by rewrite Hn3.
  - congruence.
  - by rewrite He3, Ht2, He1.
Qed.

End Replies.
