(* ===== verification/Commands.v ===== *)
(** * The commands of the debug protocol

    What each command of PROTOCOL.TXT's Ethernet form does: the text a datagram
    carries, the effect on the machine and the payload of the answer, proved of
    [serve] for every driver that satisfies [DriverLaws]. *)

From S2P Require Import Prelude Machine Memory Vga Text Checksum NetDriver NetStack Packets Replies.

(** ** The text of a datagram *)

Abbreviation hex_digits := (Forall (λ c, is_hex c = true)).

(** [k] spaces, a hex number, at least one space, a hex number. *)
Definition args_text (k1 : nat) (da : list Z) (k2 : nat) (db : list Z) : list Z :=
  replicate k1 32 ++ da ++ replicate k2 32 ++ db.

(** A byte that ends a number. *)
Definition ends_number (c : Z) : Prop := is_hex c = false /\ c <> 120.

Lemma is_hex_space c : is_hex c = true -> c <> 32.
Proof. intros Hc ->. done. Qed.

Lemma rd_bytes_app_inv m p l1 l2 :
  rd_bytes m p (length (l1 ++ l2)) = l1 ++ l2 ->
  rd_bytes m p (length l1) = l1 /\ rd_bytes m (p + Z.of_nat (length l1)) (length l2) = l2.
Proof.
  rewrite length_app, rd_bytes_app. intros E.
  apply app_inj_1 in E; [done|]. apply length_rd_bytes.
Qed.

Lemma rd_bytes_hd m p c l : rd_bytes m p (length (c :: l)) = c :: l -> rd8 m p = c.
Proof. cbn [length]. rewrite rd_bytes_S. congruence. Qed.

(** A block after a number starts with something that ends it. *)
Lemma skip_to_digits k ds fuel m p :
  rd_bytes m p (length (replicate k 32 ++ ds)) = replicate k 32 ++ ds ->
  hex_digits ds -> ds <> [] -> (k < fuel)%nat ->
  skip_whitespace fuel m p = Some (p + Z.of_nat k).
Proof.
  intros E Hds Hne Hf. apply rd_bytes_app_inv in E as [E1 E2].
  rewrite length_replicate in *. destruct ds as [|d ds]; [done|].
  apply rd_bytes_hd in E2. inversion Hds; subst.
  apply skip_whitespace_spaces; [done|by apply is_hex_space|done].
Qed.

Section ScanArgs.
Context `{Env}.

Lemma scan_args_text m p k1 da k2 db :
  rd_bytes m p (length (args_text k1 da k2 db)) = args_text k1 da k2 db ->
  hex_digits da -> hex_digits db -> da <> [] -> db <> [] -> (0 < k2)%nat ->
  ends_number (rd8 m (p + Z.of_nat (length (args_text k1 da k2 db)))) ->
  (length (args_text k1 da k2 db) < env_fuel)%nat ->
  scan_args m p =
    Some (u32 (hexval da), u32 (hexval db), p + Z.of_nat (length (args_text k1 da k2 db))).
Proof.
  unfold args_text. intros E Hda Hdb Nda Ndb Hk2. rewrite !length_app, !length_replicate.
  intros [He Hx] Hf. unfold scan_args.
  apply rd_bytes_app_inv in E as [E1 E2]. rewrite length_replicate in E1, E2.
  pose proof (rd_bytes_app_inv _ _ _ _ E2) as [E3 E4].
  rewrite (skip_to_digits k1 da); [| |done|done|lia].
  2:{ rewrite length_app, length_replicate, rd_bytes_app. by rewrite E1, E3. }
  cbn [mbind option_bind].
  pose proof (rd_bytes_app_inv _ _ _ _ E4) as [E5 E6].
  rewrite length_replicate in E5, E6.
  assert (rd8 m (p + Z.of_nat k1 + Z.of_nat (length da)) = 32) as Esp.
  { destruct k2 as [|k2]; [lia|]. cbn [replicate] in E5. rewrite rd_bytes_S in E5. congruence. }
  rewrite (s_strtoul_hex_scan da) by (done || lia || (rewrite Esp; done)). cbn [mbind option_bind].
  rewrite (skip_to_digits k2 db) by (done || lia). cbn [mbind option_bind].
  assert (p + Z.of_nat (k1 + (length da + (k2 + length db))) =
    p + Z.of_nat k1 + Z.of_nat (length da) + Z.of_nat k2 + Z.of_nat (length db)) as Ep by lia.
  rewrite Ep in *. rewrite (s_strtoul_hex_scan db) by (done || lia). done.
Qed.

End ScanArgs.

(** ** Dispatch on the command word *)

Lemma starts_with_app m data n word rest :
  rd_bytes m data (length (word ++ rest)) = word ++ rest -> Z.of_nat (length word) <= n ->
  starts_with m data n word = true.
Proof.
  intros E Hn. apply rd_bytes_app_inv in E as [E _]. unfold starts_with.
  rewrite E, (proj2 (memcmp_eq_0 (length word) word word eq_refl eq_refl) eq_refl), Z.eqb_refl.
  rewrite andb_true_r. by apply Z.leb_le.
Qed.

(** Two command words that differ in a byte both have. *)
Lemma starts_with_differs m data n (word word' : list Z) rest :
  rd_bytes m data (length (word ++ rest)) = word ++ rest ->
  (exists i, match word !! i, word' !! i with Some a, Some b => a <> b | _, _ => False end) ->
  starts_with m data n word' = false.
Proof.
  intros E [i Hi]. apply rd_bytes_app_inv in E as [E _]. unfold starts_with.
  apply andb_false_intro2, Z.eqb_neq.
  rewrite memcmp_eq_0 by (rewrite ?length_rd_bytes; done). intros E'.
  destruct (word !! i) as [a|] eqn:Ea; [|done]. destruct (word' !! i) as [b|] eqn:Eb; [|done].
  apply Hi. rewrite <- E in Ea. rewrite <- E' in Eb.
  pose proof (lookup_lt_Some _ _ _ Ea) as La. pose proof (lookup_lt_Some _ _ _ Eb) as Lb.
  rewrite length_rd_bytes in La, Lb. rewrite rd_bytes_lookup in Ea, Eb by done. congruence.
Qed.

(** ** The commands *)

Section Commands.
Context `{Env} `{NetDrivers} (did : driver_id) `{L : !DriverLaws (net_driver did)}.
Context (eth : ethernet_frame_header) (src_ip sport dport : Z).

(** The sender of the datagram being served, as the handlers see it. *)
Record sender_ok : Prop := {
  se_mac : length (src_mac eth) = 6%nat;
  se_mac_bytes : bytes_ok (src_mac eth);
  se_sport : 0 <= sport < 65536;
  se_dport : 0 <= dport < 65536;
  se_ip : quiet did src_ip 4
}.

(** An answer with [payload] has gone back to the sender. *)
Definition answered (s s' : machine) (payload : list Z) : Prop :=
  replied did s s' (src_mac eth) (rd_bytes (m_mem s) src_ip 4) sport dport payload.

Hypothesis Hsender : sender_ok.

Lemma answer_with s len body payload :
  stack_ok did s -> Z.of_nat (length payload) = len -> len <= 1452 -> bytes_ok payload ->
  (forall data s1, mem_frame (λ a, drv_area a \/ vga_window a) (m_mem s) (m_mem s1) ->
     m_alloc s1 = m_alloc s -> 0 <= data -> data + len <= 4294967296 ->
     (forall a, data <= a < data + len -> drv_area a) ->
     wp (body data) (λ _ s2, fills data payload s1 s2) s1) ->
  wp (respond eth src_ip sport dport len body) (λ _ s', answered s s' payload) s.
Proof.
  intros Hok Hl Hlen Hb Hbody. destruct Hsender. unfold answered.
  eapply respond_spec; try done. lia.
Qed.

Lemma fills_store data l s : wp (store_bytes data l) (λ _ s', fills data l s s') s.
Proof. unfold wp. run. split_and!; [done|done|by split|done]. Qed.

Lemma bytes_ok_hex x n : 0 <= x < 4294967296 -> bytes_ok (hex_chars x n).
Proof.
  intros Hx. eapply Forall_impl; [by apply hex_chars_hex|]. intros c [_ Hc]. lia.
Qed.

Lemma cmd_test_spec s :
  stack_ok did s ->
  wp (cmd_test eth src_ip sport dport) (λ _ s', answered s s' (str "OK x86-32")) s.
Proof.
  intros Hok. apply answer_with; [done|done|done| |].
  - by repeat constructor.
  - intros data s1 _ _ _ _ _. apply fills_store.
Qed.

Lemma cmd_unknown_spec s :
  stack_ok did s ->
  wp (cmd_unknown eth src_ip sport dport) (λ _ s', answered s s' (str "ERR Unknown command")) s.
Proof.
  intros Hok. apply answer_with; [done|done|done| |].
  - by repeat constructor.
  - intros data s1 _ _ _ _ _. apply fills_store.
Qed.

Lemma cmd_low_spec s :
  stack_ok did s ->
  wp (cmd_low eth src_ip sport dport)
    (λ _ s', answered s s' (str "OK " ++ hex_chars (u32 (m_alloc s)) 8)) s.
Proof.
  intros Hok. apply answer_with; [done| |done| |].
  - rewrite length_app, length_hex_chars. done.
  - apply Forall_app_2; [by repeat constructor|]. apply bytes_ok_hex, u32_range.
  - intros data s1 _ Ha _ _ _. unfold wp. run. rewrite hex_to_str_run. cbn [m_alloc m_mem set_m_mem]. rewrite Ha.
    split_and!; [|done|by split|done]. by rewrite wr_bytes_app.
Qed.

(** [OK <address> <newline> <data>] *)
Definition read_answer (m : gmap Z Z) (address size : Z) : list Z :=
  str "OK " ++ hex_chars address 8 ++ [10] ++ rd_bytes m address (Z.to_nat (Z.min 1400 size)).

Lemma cmd_read_spec s data address size e :
  stack_ok did s -> scan_args (m_mem s) (data + 5) = Some (address, size, e) ->
  0 <= address < 4294967296 -> 0 <= size -> quiet did address (Z.min 1400 size) ->
  wp (cmd_read eth src_ip sport dport data)
    (λ _ s', answered s s' (read_answer (m_mem s) address size)) s.
Proof.
  intros Hok Hscan Ha Hs Hq. unfold cmd_read, read_mem. wp_step. wp_step. rewrite Hscan. cbn [scanned].
  wp_step. wp_step. replace (if 1400 <? size then 1400 else size) with (Z.min 1400 size).
  2:{ case_bool; bool_to_prop; lia. }
  set (n := Z.min 1400 size) in *. unfold read_answer. fold n.
  apply answer_with; [done| |lia| |].
  - rewrite !length_app, length_hex_chars, length_rd_bytes. cbn. lia.
  - repeat apply Forall_app_2; try apply rd_bytes_bytes; try (by repeat constructor). by apply bytes_ok_hex.
  - intros d s1 HF _ Hd0 Hdend Harea. unfold wp. run. rewrite hex_to_str_run. cbn [m_mem set_m_mem].
    change (str "OK ") with [79; 75; 32].
    set (m1 := wr8 _ _ _).
    assert (m1 = wr_bytes (m_mem s1) d ([79; 75; 32] ++ hex_chars address 8 ++ [10])) as Em1.
    { subst m1. rewrite !wr_bytes_app, length_hex_chars. done. }
    assert (rd_bytes m1 address (Z.to_nat n) = rd_bytes (m_mem s) address (Z.to_nat n)) as Erd.
    { rewrite <- (quiet_rd_bytes did address (Z.to_nat n) (m_mem s) (m_mem s1)); [|by rewrite Z2Nat.id by lia|done].
      apply (mem_frame_rd_bytes (λ a, drv_area a)).
      - rewrite Em1. apply mem_frame_wr_bytes. rewrite !length_app, length_hex_chars. cbn [length].
        intros i Hi. rewrite u32_small by lia. apply Harea. lia.
      - intros i Hi. apply Hq. lia. }
    match goal with |- context [when _ ?f ?st] => assert (when (0 <? n) f st =
      inr (tt, set_m_mem (wr_bytes m1 (d + 12) (rd_bytes (m_mem s) address (Z.to_nat n))) s1)) as E end.
    { destruct (0 <? n) eqn:En; bool_to_prop; cbn [when].
      2:{ assert (Z.to_nat n = 0%nat) as -> by lia. done. }
      cbn [m_mem set_m_mem].
      replace (d + 3 + Z.of_nat 8 + 1) with (d + 12) by lia.
      assert (n <= u32 (d + 12 - address)) as Hfar.
      { eapply quiet_far; [done|]. rewrite u32_small by lia. apply Harea. lia. }
      rewrite memcpy_wr_bytes by lia. by rewrite Erd. }
    rewrite E. split_and!; [|done|by split|done]. cbn [m_mem set_m_mem].
    by rewrite Em1, !(assoc_L (++)), (wr_bytes_app (_ ++ _) _ _ (rd_bytes _ _ _)).
Qed.

(** Memory that WRITE may change without disturbing the driver. *)
Definition unowned (a n : Z) : Prop := forall i, 0 <= i < n -> ~ drv_area (u32 (a + i)).

Lemma stack_ok_wr_bytes s a l :
  stack_ok did s -> unowned a (Z.of_nat (length l)) ->
  stack_ok did (set_m_mem (wr_bytes (m_mem s) a l) s).
Proof.
  intros [] Hu. split; try done. eapply law_inv_stable; [done|by split|]. by apply mem_frame_wr_bytes.
Qed.

(** [OK <address> <seq>] *)
Definition write_answer (address seq : Z) : list Z :=
  str "OK " ++ hex_chars address 8 ++ [32] ++ hex_chars seq 8.

(** The reply half of WRITE, after the copy. *)
Lemma write_reply_spec s address seq :
  stack_ok did s -> 0 <= address < 4294967296 -> 0 <= seq < 4294967296 ->
  wp (respond eth src_ip sport dport (3 + 8 + 1 + 8) (λ data,
        store_bytes data (str "OK ") ;;
        data ← hex_to_str (data + 3) address 8;
        store8 data 32 ;;
        hex_to_str (data + 1) seq 8 ;; skip))
    (λ _ s', answered s s' (write_answer address seq)) s.
Proof.
  intros Hok Ha Hs. unfold write_answer. apply answer_with; [done|done|done| |].
  - repeat apply Forall_app_2; try (by apply bytes_ok_hex); by repeat constructor.
  - intros d s1 _ _ _ _ _. unfold wp. run. rewrite hex_to_str_run. cbn [m_mem set_m_mem].
    rewrite hex_to_str_run. cbn [m_mem set_m_mem]. split_and!; [|done|by split|done]. cbn [m_mem set_m_mem].
    rewrite !wr_bytes_app, wr8_wr_bytes. cbn [length str]. rewrite length_hex_chars. do 2 f_equal; lia.
Qed.

Lemma cmd_write_spec s data n address seq e p (d : list Z) :
  stack_ok did s -> scan_args (m_mem s) (data + 5) = Some (address, seq, e) ->
  write_data (m_mem s) e (data + n) = (p, Z.of_nat (length d)) ->
  rd_bytes (m_mem s) p (length d) = d ->
  0 <= address < 4294967296 -> 0 <= seq < 4294967296 ->
  unowned address (Z.of_nat (length d)) ->
  u32 (address - p) = 0 \/ Z.of_nat (length d) <= u32 (address - p) ->
  wp (cmd_write eth src_ip sport dport data n)
    (λ _ s', answered (set_m_mem (wr_bytes (m_mem s) address d) s) s' (write_answer address seq)) s.
Proof.
  intros Hok Hscan Hwd Hd Ha Hs Hu Hov. unfold cmd_write, read_mem. wp_step. wp_step. rewrite Hscan.
  cbn [scanned]. wp_step. wp_step. rewrite Hwd. wp_step.
  assert (Z.of_nat (length d) <= 4294967296) as Hlen.
  { unfold write_data in Hwd. injection Hwd as _ Hl. rewrite <- Hl.
    match goal with |- u32 ?x <= _ => pose proof (u32_range x) end. lia. }
  match goal with |- wp ?w _ _ =>
    assert (w s = inr (tt, set_m_mem (wr_bytes (m_mem s) address d) s)) as E end.
  { destruct (0 <? Z.of_nat (length d)) eqn:E0; bool_to_prop; cbn [when].
    - run. rewrite memcpy_wr_bytes by lia. by rewrite Nat2Z.id, Hd.
    - destruct d; [|cbn [length] in E0; lia]. by destruct s. }
  unfold wp at 1. rewrite E. apply write_reply_spec; [by apply stack_ok_wr_bytes|done|done].
Qed.

(** [OK Complete <seq>] *)
Definition exec_answer (seq : Z) : list Z := str "OK Complete " ++ hex_chars seq 8.

Lemma exec_reply_spec s seq :
  stack_ok did s -> 0 <= seq < 4294967296 ->
  wp (respond eth src_ip sport dport (12 + 8) (λ data,
        store_bytes data (str "OK Complete ") ;; hex_to_str (data + 12) seq 8 ;; skip))
    (λ _ s', answered s s' (exec_answer seq)) s.
Proof.
  intros Hok Hs. unfold exec_answer. apply answer_with; [done|done|done| |].
  - apply Forall_app_2; [by repeat constructor|by apply bytes_ok_hex].
  - intros d s1 _ _ _ _ _. unfold wp. run. rewrite hex_to_str_run.
    split_and!; [|done|by split|done]. cbn [m_mem set_m_mem]. by rewrite wr_bytes_app.
Qed.

(** A new sequence number: the code at [address] is called once, from the
    state in which the datagram arrived, and the number is remembered. *)
Lemma cmd_exec_new s s1 data address seq e :
  scan_args (m_mem s) (data + 5) = Some (address, seq, e) -> 0 <= seq < 4294967296 ->
  seq <> exec_last_seq (m_net s) ->
  env_exec address (set_m_trace (EvExec address :: m_trace s) s) = Some s1 ->
  stack_ok did s1 ->
  wp (cmd_exec eth src_ip sport dport data)
    (λ _ s', answered (set_m_net (set_exec_last_seq seq (m_net s1)) s1) s' (exec_answer seq)) s.
Proof.
  intros Hscan Hs Hne Hx Hok. unfold cmd_exec, read_mem. wp_step. wp_step. rewrite Hscan.
  cbn [scanned]. wp_step. wp_step. wp_step. wp_step.
  rewrite (proj2 (Z.eqb_neq _ _)) by done. cbn [negb when]. wp_step.
  unfold wp at 1, log, call_uploaded. run. cbn [m_trace]. rewrite Hx.
  apply exec_reply_spec; [|done]. destruct Hok. split; try done.
  eapply law_inv_stable; [done|by split|]. reflexivity.
Qed.

(** The last sequence number again: nothing is called. *)
Lemma cmd_exec_again s data address seq e :
  stack_ok did s -> scan_args (m_mem s) (data + 5) = Some (address, seq, e) -> 0 <= seq < 4294967296 ->
  seq = exec_last_seq (m_net s) ->
  wp (cmd_exec eth src_ip sport dport data) (λ _ s', answered s s' (exec_answer seq)) s.
Proof.
  intros Hok Hscan Hs ->. unfold cmd_exec, read_mem. wp_step. wp_step. rewrite Hscan.
  cbn [scanned]. wp_step. wp_step. wp_step. wp_step. rewrite Z.eqb_refl. cbn [negb when]. wp_step. wp_step.
  by apply exec_reply_spec.
Qed.

End Commands.
