(* ===== verification/Server.v ===== *)
(** * The command server as an abstract machine

    The contract of the UDP service on port 777: which command a datagram
    carries, the command's effect on the machine and its answer; and the proof
    that [serve] implements it. *)

From S2P Require Import Prelude Machine Memory Vga Text Checksum NetDriver NetStack Packets Replies Commands.

(** ** Commands and the datagrams that carry them *)

Inductive command : Type :=
  | TEST
  | READ (address size : Z)
  | WRITE (address seq : Z) (d : list Z)
  | LOW
  | EXEC (address seq : Z)
  | UNKNOWN.

Record args_ok (da : list Z) (k2 : nat) (db : list Z) : Prop := {
  ao_da : hex_digits da;
  ao_db : hex_digits db;
  ao_da_ne : da <> [];
  ao_db_ne : db <> [];
  ao_k2 : (0 < k2)%nat
}.

(** The [n]-byte datagram at [data] is the text [t]. *)
Definition holds (m : gmap Z Z) (data n : Z) (t : list Z) : Prop :=
  n = Z.of_nat (length t) /\ rd_bytes m data (length t) = t.

Definition command_words : list (list Z) :=
  [str "TEST"; str "READ "; str "WRITE "; str "LOW"; str "EXEC "].

(** A number is read up to the first byte that cannot continue it, so the byte
    after the last digit matters even where the datagram ends. *)
Inductive carries (m : gmap Z Z) (data n : Z) : command -> Prop :=
  | carries_test rest :
      holds m data n (str "TEST" ++ rest) -> carries m data n TEST
  | carries_read k1 da k2 db rest :
      holds m data n (str "READ " ++ args_text k1 da k2 db ++ rest) -> args_ok da k2 db ->
      ends_number (rd8 m (data + 5 + Z.of_nat (length (args_text k1 da k2 db)))) ->
      carries m data n (READ (u32 (hexval da)) (u32 (hexval db)))
  | carries_write k1 da k2 db junk d :
      holds m data n (str "WRITE" ++ args_text (S k1) da k2 db ++ junk ++ [10] ++ d) -> args_ok da k2 db ->
      ends_number (rd8 m (data + 5 + Z.of_nat (length (args_text (S k1) da k2 db)))) ->
      Forall (λ c, c <> 10) junk ->
      carries m data n (WRITE (u32 (hexval da)) (u32 (hexval db)) d)
  | carries_low rest :
      holds m data n (str "LOW" ++ rest) -> carries m data n LOW
  | carries_exec k1 da k2 db rest :
      holds m data n (str "EXEC " ++ args_text k1 da k2 db ++ rest) -> args_ok da k2 db ->
      ends_number (rd8 m (data + 5 + Z.of_nat (length (args_text k1 da k2 db)))) ->
      carries m data n (EXEC (u32 (hexval da)) (u32 (hexval db)))
  | carries_unknown :
      Forall (λ w, starts_with m data n w = false) command_words -> carries m data n UNKNOWN.

(** ** The code's scanners on such datagrams *)

Lemma holds_app m data n l1 l2 :
  holds m data n (l1 ++ l2) ->
  rd_bytes m data (length l1) = l1 /\ rd_bytes m (data + Z.of_nat (length l1)) (length l2) = l2 /\
  n = Z.of_nat (length l1) + Z.of_nat (length l2).
Proof.
  intros [Hn E]. apply rd_bytes_app_inv in E as [E1 E2]. rewrite length_app in Hn.
  split_and!; [done|done|lia].
Qed.

Lemma holds_word m data n w rest :
  holds m data n (w ++ rest) -> starts_with m data n w = true.
Proof.
  intros Hh. pose proof (holds_app _ _ _ _ _ Hh) as (_ & _ & Hn). destruct Hh as [_ E].
  eapply starts_with_app; [done|lia].
Qed.

Lemma find_newline_text junk : forall m p room,
  rd_bytes m p (length (junk ++ [10])) = junk ++ [10] -> Forall (λ c, c <> 10) junk ->
  (length junk < room)%nat -> find_newline m p room = p + Z.of_nat (length junk).
Proof.
  induction junk as [|c junk IH]; intros m p [|room] E Hj Hr; cbn [length] in *; try lia; cbn [find_newline].
  - apply rd_bytes_hd in E. rewrite E, Z.add_0_r. done.
  - cbn [app length] in E. rewrite rd_bytes_S in E. injection E as E1 E2.
    inversion Hj as [|? ? Hc Hj']; subst. rewrite (proj2 (Z.eqb_neq _ _)) by done.
    rewrite IH by (done || lia). lia.
Qed.

Lemma write_data_text m p fence junk (d : list Z) :
  rd_bytes m p (length (junk ++ [10])) = junk ++ [10] -> Forall (λ c, c <> 10) junk ->
  fence = p + Z.of_nat (length junk) + 1 + Z.of_nat (length d) ->
  Z.of_nat (length d) < 4294967296 ->
  write_data m p fence = (p + Z.of_nat (length junk) + 1, Z.of_nat (length d)).
Proof.
  intros E Hj Hf Hd. unfold write_data. rewrite (find_newline_text junk) by (done || lia).
  assert (rd8 m (p + Z.of_nat (length junk)) = 10) as ->.
  { apply rd_bytes_app_inv in E as [_ E]. by apply rd_bytes_hd in E. }
  rewrite (proj2 (Z.ltb_lt _ _)) by lia. cbn [andb Z.eqb Pos.eqb].
  rewrite u32_small by lia. f_equal. lia.
Qed.

(** ** The contract *)

Section Server.
Context `{Env} `{NetDrivers} (did : driver_id) `{L : !DriverLaws (net_driver did)}.

(** Uploaded code runs in the state in which its datagram arrived. *)
Definition run_uploaded (address : Z) (s : machine) : option machine :=
  env_exec address (set_m_trace (EvExec address :: m_trace s) s).

(** The effect of a command, [None] when uploaded code does not come back. *)
Definition effect (c : command) (s : machine) : option machine :=
  match c with
  | WRITE address _ d => Some (set_m_mem (wr_bytes (m_mem s) address d) s)
  | EXEC address seq =>
      if seq =? exec_last_seq (m_net s) then Some s
      else s1 ← run_uploaded address s; Some (set_m_net (set_exec_last_seq seq (m_net s1)) s1)
  | _ => Some s
  end.

Definition answer (c : command) (s : machine) : list Z :=
  match c with
  | TEST => str "OK x86-32"
  | READ address size => read_answer (m_mem s) address size
  | WRITE address seq _ => write_answer address seq
  | LOW => str "OK " ++ hex_chars (u32 (m_alloc s)) 8
  | EXEC _ seq => exec_answer seq
  | UNKNOWN => str "ERR Unknown command"
  end.

(** What the protocol leaves to the host: READ stays off the driver's buffers
    and the screen, WRITE off the driver's memory and off the bytes it copies
    from, and uploaded code returns with the stack in order. *)
Definition permitted (data n : Z) (c : command) (s : machine) : Prop :=
  match c with
  | READ address size => quiet did address (Z.min 1400 size)
  | WRITE address _ d =>
      let len := Z.of_nat (length d) in
      let from := data + n - len in
      unowned did address len /\ (u32 (address - from) = 0 \/ len <= u32 (address - from))
  | EXEC address seq =>
      seq = exec_last_seq (m_net s) \/ (forall s1, run_uploaded address s = Some s1 -> stack_ok did s1)
  | _ => True
  end.

Context (eth : ethernet_frame_header) (src_ip sport dport : Z).
Hypothesis Hsender : sender_ok did eth src_ip sport dport.

(** Rules out the command words a datagram does not start with. *)
Ltac other_word Hh i :=
  rewrite (starts_with_differs _ _ _ _ _ _ (proj2 Hh)) by (exists i; done).

Lemma scan_args_held m data n word k1 da k2 db rest :
  holds m data n (word ++ args_text k1 da k2 db ++ rest) -> length word = 5%nat -> args_ok da k2 db ->
  ends_number (rd8 m (data + 5 + Z.of_nat (length (args_text k1 da k2 db)))) ->
  n < Z.of_nat env_fuel ->
  scan_args m (data + 5) =
    Some (u32 (hexval da), u32 (hexval db), data + 5 + Z.of_nat (length (args_text k1 da k2 db))).
Proof.
  intros Hh Hw [] He Hf. apply holds_app in Hh as (_ & Hh & Hn). rewrite Hw in Hh.
  apply rd_bytes_app_inv in Hh as [Hh _]. rewrite length_app in Hn.
  apply scan_args_text; try done. lia.
Qed.

Lemma serve_test s data n rest :
  holds (m_mem s) data n (str "TEST" ++ rest) ->
  serve eth src_ip sport dport data n s = cmd_test eth src_ip sport dport s.
Proof. intros Hh. unfold serve, read_mem. run. by rewrite (holds_word _ _ _ _ _ Hh). Qed.

Lemma serve_read s data n rest :
  holds (m_mem s) data n (str "READ " ++ rest) ->
  serve eth src_ip sport dport data n s = cmd_read eth src_ip sport dport data s.
Proof.
  intros Hh. unfold serve, read_mem. run. other_word Hh 0%nat. by rewrite (holds_word _ _ _ _ _ Hh).
Qed.

Lemma serve_write s data n rest :
  holds (m_mem s) data n (str "WRITE " ++ rest) ->
  serve eth src_ip sport dport data n s = cmd_write eth src_ip sport dport data n s.
Proof.
  intros Hh. unfold serve, read_mem. run. other_word Hh 0%nat. other_word Hh 0%nat.
  by rewrite (holds_word _ _ _ _ _ Hh).
Qed.

Lemma serve_low s data n rest :
  holds (m_mem s) data n (str "LOW" ++ rest) ->
  serve eth src_ip sport dport data n s = cmd_low eth src_ip sport dport s.
Proof.
  intros Hh. unfold serve, read_mem. run. do 3 other_word Hh 0%nat. by rewrite (holds_word _ _ _ _ _ Hh).
Qed.

Lemma serve_exec s data n rest :
  holds (m_mem s) data n (str "EXEC " ++ rest) ->
  serve eth src_ip sport dport data n s = cmd_exec eth src_ip sport dport data s.
Proof.
  intros Hh. unfold serve, read_mem. run. do 4 other_word Hh 0%nat. by rewrite (holds_word _ _ _ _ _ Hh).
Qed.

Lemma serve_unknown s data n :
  Forall (λ w, starts_with (m_mem s) data n w = false) command_words ->
  serve eth src_ip sport dport data n s = cmd_unknown eth src_ip sport dport s.
Proof.
  intros Hw. unfold serve, read_mem. run. unfold command_words in Hw.
  rewrite !Forall_cons in Hw. by destruct Hw as (-> & -> & -> & -> & -> & _).
Qed.

Lemma serve_write_spec s data n k1 da k2 db junk d :
  stack_ok did s -> args_ok da k2 db -> n < Z.of_nat env_fuel -> n < 4294967296 ->
  holds (m_mem s) data n (str "WRITE" ++ args_text (S k1) da k2 db ++ junk ++ [10] ++ d) ->
  ends_number (rd8 (m_mem s) (data + 5 + Z.of_nat (length (args_text (S k1) da k2 db)))) ->
  Forall (λ c, c <> 10) junk ->
  permitted data n (WRITE (u32 (hexval da)) (u32 (hexval db)) d) s ->
  wp (serve eth src_ip sport dport data n)
    (λ _ s', answered did eth src_ip sport dport (set_m_mem (wr_bytes (m_mem s) (u32 (hexval da)) d) s) s'
       (write_answer (u32 (hexval da)) (u32 (hexval db)))) s.
Proof.
  intros Hok Hao Hf Hn Hh He Hj [Hu Hov].
  pose proof (scan_args_held _ _ _ _ _ _ _ _ _ Hh eq_refl Hao He Hf) as Hscan.
  eapply wp_conv; [by eapply (serve_write _ _ _ (args_text k1 da k2 db ++ junk ++ [10] ++ d))|].
  pose proof (holds_app _ _ _ _ _ Hh) as (_ & H1 & Hlen). change (Z.of_nat (length (str "WRITE"))) with 5 in *.
  apply rd_bytes_app_inv in H1 as [_ H1]. rewrite (assoc_L (++)) in H1.
  apply rd_bytes_app_inv in H1 as [H1 H2]. rewrite !length_app in Hlen. rewrite length_app in H2. cbn [length] in *.
  assert (data + n - Z.of_nat (length d) =
    data + 5 + Z.of_nat (length (args_text (S k1) da k2 db)) + Z.of_nat (length junk) + 1) as Efrom by lia.
  rewrite Efrom in Hov.
  eapply cmd_write_spec; [done|done|exact Hscan| | |apply u32_range|apply u32_range|done|exact Hov].
  - apply write_data_text; [done|done|lia|lia].
  - rewrite <- H2 at 2. f_equal. lia.
Qed.

(** [serve] implements the contract. *)
Lemma serve_spec s s1 data n c :
  stack_ok did s -> carries (m_mem s) data n c -> permitted data n c s ->
  n < Z.of_nat env_fuel -> n < 4294967296 -> effect c s = Some s1 ->
  wp (serve eth src_ip sport dport data n)
    (λ _ s', answered did eth src_ip sport dport s1 s' (answer c s)) s.
Proof.
  intros Hok Hc Hp Hf Hn Heff.
  destruct Hc as [rest Hh|k1 da k2 db rest Hh Hao He|k1 da k2 db junk d Hh Hao He Hj|rest Hh
                 |k1 da k2 db rest Hh Hao He|Hw]; cbn [effect answer permitted] in *.
  - injection Heff as <-. eapply wp_conv; [by eapply serve_test|]. by apply cmd_test_spec.
  - injection Heff as <-. eapply wp_conv; [by eapply serve_read|].
    pose proof (scan_args_held _ _ _ _ _ _ _ _ _ Hh eq_refl Hao He Hf) as Hscan.
    eapply cmd_read_spec; [done|done|done|apply u32_range|apply u32_range|done].
  - injection Heff as <-. by eapply serve_write_spec.
  - injection Heff as <-. eapply wp_conv; [by eapply serve_low|]. by apply cmd_low_spec.
  - eapply wp_conv; [by eapply serve_exec|].
    pose proof (scan_args_held _ _ _ _ _ _ _ _ _ Hh eq_refl Hao He Hf) as Hscan.
    destruct (u32 (hexval db) =? exec_last_seq (m_net s)) eqn:Eq; bool_to_prop.
    + injection Heff as <-. eapply cmd_exec_again; [done|done|done|apply u32_range|done].
    + destruct (run_uploaded (u32 (hexval da)) s) as [s2|] eqn:Erun; [|done]. cbn in Heff. injection Heff as <-.
      destruct Hp as [Hp|Hp]; [congruence|].
      eapply cmd_exec_new; [done|done|apply u32_range|done|done|by apply Hp].
  - injection Heff as <-. eapply wp_conv; [by eapply serve_unknown|]. by apply cmd_unknown_spec.
Qed.

End Server.

(** ** Where the code leaves its contract *)

(** C38: A WRITE without a newline whose last number runs into the digits that an
    earlier packet left behind it in the buffer: the scanner stops behind the
    end of the datagram, the length [(size_t)(fence - p)] wraps around, and
    [memcpy] is asked for almost 4 GB. *)
Theorem write_without_newline_wraps `{Env} m data da db (stale : list Z) :
  let text := args_text 1 da 1 db in
  let fence := data + 5 + Z.of_nat (length text) in
  let p := fence + Z.of_nat (length stale) in
  args_ok da 1 (db ++ stale) -> 0 < Z.of_nat (length stale) < 4294967296 ->
  rd_bytes m (data + 5) (length (text ++ stale)) = text ++ stale -> ends_number (rd8 m p) ->
  (length (text ++ stale) < env_fuel)%nat ->
  scan_args m (data + 5) = Some (u32 (hexval da), u32 (hexval (db ++ stale)), p) /\
  write_data m p fence = (p, 4294967296 - Z.of_nat (length stale)).
Proof.
  intros text fence p [Hda Hdb Hda' Hdb' Hk] Hs Hb He Hf. split.
  - assert (args_text 1 da 1 (db ++ stale) = text ++ stale) as E by (unfold text, args_text; by rewrite <- !(assoc_L (++))).
    rewrite (scan_args_text m (data + 5) 1 da 1 (db ++ stale)); rewrite ?E; try done.
    + f_equal. f_equal. rewrite length_app. subst p fence. lia.
    + replace (data + 5 + Z.of_nat (length (text ++ stale))) with p by (rewrite length_app; subst p fence; lia). done.
  - unfold write_data. replace (Z.to_nat (fence - p)) with 0%nat by lia. cbn [find_newline].
    rewrite (proj2 (Z.ltb_ge p fence)) by lia. cbn [andb]. f_equal. wrap_lia.
Qed.

Definition stale_memory : gmap Z Z := wr_bytes ∅ 8192 (str "WRITE 300000 12").

Lemma write_without_newline_wraps_witness :
  write_data stale_memory 8207 8206 = (8207, 4294967295).
Proof.
  apply (@write_without_newline_wraps idle_env stale_memory 8192 (str "300000") (str "1") (str "2")).
  - split; [by repeat constructor|by repeat constructor|discriminate|discriminate|lia].
  - cbn. lia.
  - vm_compute. reflexivity.
  - split; vm_compute; [reflexivity|discriminate].
  - vm_compute. lia.
Defined.
