(* ===== verification/Ip.v ===== *)
(** * Which packets are accepted (IPv4 and UDP)

    The guards of [net_on_ipv4] and [net_on_ipv4_udp] against the protocols'
    own conditions: what passes them reaches the right handler, and everything
    else leaves the machine as it was. *)

From S2P Require Import Prelude Machine Memory Vga Text Checksum NetDriver NetStack Packets.

(** ** Bit fields *)

Lemma land_low a k : 0 <= k -> Z.land a (2 ^ k - 1) = a mod 2 ^ k.
Proof. intros Hk. rewrite <- Z.land_ones by done. by rewrite Z.ones_equiv, Z.sub_1_r. Qed.

Lemma lor_eq_0 a b : Z.lor a b = 0 <-> a = 0 /\ b = 0.
Proof. apply Z.lor_eq_0_iff. Qed.

(** The offset the code assembles (low five bits in the wrong place) is zero
    exactly when the 13-bit field of the header is. *)
Lemma frag_offset_zero b6 b7 :
  0 <= b6 < 256 -> 0 <= b7 < 256 ->
  u16 (Z.lor (Z.land b6 31) (Z.shiftl b7 5)) = 0 <-> 256 * (b6 mod 32) + b7 = 0.
Proof.
  intros H6 H7. change 31 with (2 ^ 5 - 1). rewrite land_low by lia.
  change (2 ^ 5) with 32. rewrite Z.shiftl_mul_pow2 by lia. change (2 ^ 5) with 32.
  rewrite Z.lor_comm. change 32 with (2 ^ 5) at 1.
  rewrite lor_shifted by (change (2 ^ 5) with 32; wrap_lia). change (2 ^ 5) with 32. wrap_lia.
Qed.

(** ** The acceptance test of RFC 1071 *)

(** The receiver's check: all words, checksum included, add up to all ones. *)
Definition sums_to_ones (t ck : Z) : Prop := fold16 (t + ck) = 65535.

(** The code compares with the complement of the sum of the other words.  It
    accepts what the RFC accepts, but for a checksum field of 0xFFFF. *)
Lemma complement_check t ck :
  0 <= t -> 0 <= ck < 65536 ->
  cksum_not (fold16 t) = ck <-> sums_to_ones t ck /\ (fold16 t = 65535 -> ck = 0).
Proof.
  intros Ht Hck. pose proof (fold16_range t Ht). rewrite cksum_not_eq by done. unfold sums_to_ones.
  unfold fold16 in *. destruct (t =? 0) eqn:E1, (t + ck =? 0) eqn:E2; bool_to_prop; Z.div_mod_to_equations; lia.
Qed.

(** ** IPv4 *)

Section Ipv4.
Context `{Env} `{NetDrivers}.

Definition ihl (m : gmap Z Z) (pkt : Z) : Z := 4 * (rd8 m pkt mod 16).
Definition total_length (m : gmap Z Z) (pkt : Z) : Z := 256 * rd8 m (pkt + 2) + rd8 m (pkt + 3).

(** An unfragmented IPv4 packet of [sz] bytes for the address [ip]. *)
Record ipv4_valid (m : gmap Z Z) (pkt sz : Z) (ip : list Z) : Prop := {
  iv_size : 20 <= sz;
  iv_version : rd8 m pkt / 16 = 4;
  iv_ihl : 20 <= ihl m pkt;
  iv_fits : ihl m pkt <= total_length m pkt;
  iv_total : total_length m pkt <= sz;
  iv_sum : 256 * rd8 m (pkt + 10) + rd8 m (pkt + 11) =
           65535 - fold16 (wsum 5 0 (rd_bytes m pkt (Z.to_nat (ihl m pkt))));
  iv_dst : rd_bytes m (pkt + 16) 4 = ip;
  iv_more : (rd8 m (pkt + 6) / 32) mod 2 = 0;
  iv_offset : 256 * (rd8 m (pkt + 6) mod 32) + rd8 m (pkt + 7) = 0
}.

(** The tests of [net_on_ipv4], in its order, as one condition. *)
Definition ipv4_tests (m : gmap Z Z) (pkt sz : Z) (ip : list Z) : bool :=
  let hdr_len := Z.land (rd8 m pkt) 15 * 4 in
  negb (sz <? 20) && (Z.shiftr (rd8 m pkt) 4 =? 4) && negb (hdr_len <? 20) &&
  (cksum_not (cksum_loop m pkt 5 0 (Z.to_nat (Z.shiftr hdr_len 1)) 0) =? ntoh16 (rd16 m (pkt + 10))) &&
  (memcmp (rd_bytes m (pkt + 16) 4) ip 4 =? 0) &&
  (Z.land (Z.shiftr (rd8 m (pkt + 6)) 5) 1 =? 0) &&
  (u16 (Z.lor (Z.land (rd8 m (pkt + 6)) 31) (Z.shiftl (rd8 m (pkt + 7)) 5)) =? 0) &&
  negb (sz <? hdr_len) && negb (ntoh16 (rd16 m (pkt + 2)) <? hdr_len) &&
  negb (sz <? ntoh16 (rd16 m (pkt + 2))).

Lemma land15 b : Z.land b 15 = b mod 16.
Proof. apply (land_low b 4). lia. Qed.

Lemma rd16_be m a b : b = a + 1 -> ntoh16 (rd16 m a) = 256 * rd8 m a + rd8 m b.
Proof. intros ->. apply ntoh16_rd16. Qed.

Lemma ipv4_tests_valid m pkt sz ip :
  length ip = 4%nat -> ipv4_tests m pkt sz ip = true <-> ipv4_valid m pkt sz ip.
Proof.
  intros Hip. unfold ipv4_tests. rewrite land15.
  rewrite (rd16_be m (pkt + 10) (pkt + 11)), (rd16_be m (pkt + 2) (pkt + 3)) by lia.
  fold (total_length m pkt). replace (rd8 m pkt mod 16 * 4) with (ihl m pkt) by (unfold ihl; lia).
  assert (0 <= ihl m pkt) as Hihl by (unfold ihl; Z.div_mod_to_equations; lia).
  rewrite cksum_loop_spec, !Z.shiftr_div_pow2 by lia.
  replace (2 * Z.to_nat (ihl m pkt / 2 ^ 1))%nat with (Z.to_nat (ihl m pkt)).
  2:{ change (2 ^ 1) with 2. unfold ihl. rewrite !Z2Nat.inj_mul by (Z.div_mod_to_equations; lia).
      replace (4 * (rd8 m pkt mod 16) / 2) with (2 * (rd8 m pkt mod 16)) by (Z.div_mod_to_equations; lia).
      rewrite Z2Nat.inj_mul by (Z.div_mod_to_equations; lia). change (Z.to_nat 4) with 4%nat. lia. }
  set (t := wsum 5 0 _).
  assert (0 <= t) as Ht by (apply wsum_nonneg, rd_bytes_bytes).
  rewrite cksum_not_eq by (by apply fold16_range).
  change (2 ^ 4) with 16. change (2 ^ 5) with 32.
  change 1 with (2 ^ 1 - 1) at 1. rewrite land_low by lia. change (2 ^ 1) with 2.
  rewrite !andb_true_iff, !negb_true_iff, !Z.eqb_eq, !Z.ltb_ge.
  rewrite memcmp_eq_0 by (rewrite ?length_rd_bytes; done).
  rewrite frag_offset_zero by apply rd8_range. subst t.
  split; [intros (((((((((?&?)&?)&?)&?)&?)&?)&?)&?)&?); split; congruence || lia|].
  intros []. split_and!; congruence || lia.
Qed.

(** The handler a valid packet goes to. *)
Definition ipv4_handler (eth : ethernet_frame_header) (m : gmap Z Z) (pkt : Z) : M unit :=
  let data := pkt + ihl m pkt in
  let n := total_length m pkt - ihl m pkt in
  if rd8 m (pkt + 9) =? 1 then net_on_ipv4_icmp eth (pkt + 12) data n
  else if rd8 m (pkt + 9) =? 17 then net_on_ipv4_udp eth (pkt + 12) data n
  else skip.

Lemma net_on_ipv4_tests eth pkt sz s :
  net_on_ipv4 eth pkt sz s =
    if ipv4_tests (m_mem s) pkt sz (my_ipv4_address (m_net s))
    then ipv4_handler eth (m_mem s) pkt s else inr (tt, s).
Proof.
  unfold net_on_ipv4, ipv4_tests, ipv4_handler, my_ip, read_mem.
  rewrite (rd16_be _ (pkt + 2) (pkt + 3)) by lia. fold (total_length (m_mem s) pkt).
  case_bool; [by run|]. run. rewrite (rd16_be _ (pkt + 2) (pkt + 3)) by lia. fold (total_length (m_mem s) pkt).
  replace (ihl (m_mem s) pkt) with (Z.land (rd8 (m_mem s) pkt) 15 * 4) by (unfold ihl; rewrite land15; lia).
  cbv zeta. set (hl := Z.land (rd8 (m_mem s) pkt) 15 * 4).
  repeat match goal with
  | |- (if negb ?b then _ else _) _ = _ => destruct b; cbn [negb andb]; [|done]
  | |- (if ?x <? ?y then _ else _) _ = _ =>
      let E := fresh "E" in destruct (x <? y) eqn:E; cbn [negb andb]; [try done|]
  end.
  all: bool_to_prop; try lia; done.
Qed.

Lemma net_on_ipv4_valid eth pkt sz s :
  length (my_ipv4_address (m_net s)) = 4%nat -> ipv4_valid (m_mem s) pkt sz (my_ipv4_address (m_net s)) ->
  net_on_ipv4 eth pkt sz s = ipv4_handler eth (m_mem s) pkt s.
Proof. intros Hip Hv. by rewrite net_on_ipv4_tests, (proj2 (ipv4_tests_valid _ _ _ _ Hip) Hv). Qed.

Lemma net_on_ipv4_invalid eth pkt sz s :
  length (my_ipv4_address (m_net s)) = 4%nat -> ~ ipv4_valid (m_mem s) pkt sz (my_ipv4_address (m_net s)) ->
  net_on_ipv4 eth pkt sz s = inr (tt, s).
Proof.
  intros Hip Hv. rewrite net_on_ipv4_tests. case_bool; [|done].
  exfalso. by apply Hv, ipv4_tests_valid.
Qed.

(** ** UDP *)

(** A block padded with a zero byte to whole words. *)
Definition pad_even (l : list Z) : list Z := if Nat.odd (length l) then l ++ [0] else l.

Definition pseudo_header (src dst : list Z) (len : Z) : list Z := src ++ dst ++ [0; 17] ++ be16 len.

(** The sum RFC 768 prescribes, without the checksum word. *)
Definition udp_sum (src dst dgram : list Z) : Z :=
  wsum (-1) 0 (pseudo_header src dst (Z.of_nat (length dgram))) + wsum 3 0 (pad_even dgram).

Lemma wsum_app skip l1 l2 : forall i,
  Nat.even (length l1) = true ->
  wsum skip i (l1 ++ l2) = wsum skip i l1 + wsum skip (i + Z.of_nat (length l1) / 2) l2.
Proof.
  induction l1 as [l1 IH] using (induction_ltof1 _ length). unfold ltof in IH.
  destruct l1 as [|b0 [|b1 l1]]; intros i He; try done; cbn [app wsum length].
  - by rewrite Z.add_0_r.
  - rewrite (IH l1) by (cbn; lia || done).
    replace (i + 1 + Z.of_nat (length l1) / 2) with (i + Z.of_nat (S (S (length l1))) / 2)
      by (Z.div_mod_to_equations; lia). lia.
Qed.

Lemma even_double k : Nat.even (2 * k) = true.
Proof. rewrite Nat.even_mul. done. Qed.

(** The datagram loop and the extra addition for a last odd byte. *)
Lemma udp_loop_sum m pkt len t :
  8 <= len -> 0 <= t ->
  (let chksum := cksum_loop m pkt 3 0 (Z.to_nat (Z.shiftr len 1)) (fold16 t) in
   if Z.odd len then cksum_add chksum (Z.shiftl (rd8 m (pkt + len - 1)) 8) else chksum) =
    fold16 (t + wsum 3 0 (pad_even (rd_bytes m pkt (Z.to_nat len)))).
Proof.
  intros Hlen Ht. cbv zeta. rewrite cksum_loop_fold16 by done. rewrite Z.mul_0_r, Z.add_0_r.
  rewrite Z.shiftr_div_pow2 by lia. change (2 ^ 1) with 2. unfold pad_even. rewrite length_rd_bytes.
  set (k := Z.to_nat (len / 2)).
  destruct (Z.odd len) eqn:Eo.
  - apply Z.odd_spec in Eo as [q Eq]. assert (Z.to_nat len = 2 * k + 1)%nat as -> by (subst k; Z.div_mod_to_equations; lia).
    rewrite Nat.odd_add, Nat.odd_mul. cbn [Nat.odd Nat.even negb andb xorb].
    rewrite rd_bytes_app, <- app_assoc, wsum_app by (rewrite length_rd_bytes; apply even_double).
    rewrite length_rd_bytes. replace (pkt + Z.of_nat (2 * k)) with (pkt + len - 1) by (subst k; Z.div_mod_to_equations; lia).
    cbn [app wsum rd_bytes seq fmap list_fmap]. rewrite !Z.add_0_r, Z.add_0_l.
    rewrite (proj2 (Z.eqb_neq _ 3)) by (subst k; Z.div_mod_to_equations; lia).
    rewrite cksum_add_fold16.
    + f_equal. rewrite Z.shiftl_mul_pow2 by lia. change (2 ^ 8) with 256. lia.
    + pose proof (wsum_nonneg 3 (rd_bytes m pkt (2 * k)) 0 (rd_bytes_bytes _ _ _)). lia.
    + rewrite Z.shiftl_mul_pow2 by lia. change (2 ^ 8) with 256. pose proof (rd8_range m (pkt + len - 1)). lia.
  - assert (Z.to_nat len = 2 * k)%nat as ->.
    { subst k. rewrite Zodd_mod in Eo. assert (len mod 2 = 0).
      { apply Z.eqb_neq in Eo. Z.div_mod_to_equations. lia. } Z.div_mod_to_equations. lia. }
    rewrite <- Nat.negb_even, even_double. done.
Qed.

Lemma udp_checksum_spec m ip src_ip pkt len :
  length ip = 4%nat -> bytes_ok ip -> 8 <= len < 65536 ->
  udp_checksum m ip src_ip pkt len =
    65535 - fold16 (udp_sum (rd_bytes m src_ip 4) ip (rd_bytes m pkt (Z.to_nat len))).
Proof.
  intros Hip Hipb Hlen. unfold udp_checksum, udp_sum. cbv zeta.
  rewrite take_ge by lia. rewrite length_rd_bytes, Z2Nat.id by lia.
  rewrite (Z.shiftr_div_pow2 len 8) by lia. change (2 ^ 8) with 256.
  assert ([0; IPv4_PROTO_UDP; u8 (len / 256); u8 len] = [0; 17] ++ be16 len) as ->.
  { unfold be16. rewrite u8_small by (Z.div_mod_to_equations; lia). done. }
  fold (pseudo_header (rd_bytes m src_ip 4) ip len).
  assert (bytes_ok (pseudo_header (rd_bytes m src_ip 4) ip len)) as Hps.
  { unfold pseudo_header, be16. repeat apply Forall_app_2; try apply rd_bytes_bytes; try done;
    repeat constructor; Z.div_mod_to_equations; lia. }
  change (cksum_array (pseudo_header (rd_bytes m src_ip 4) ip len) 0) with
    (cksum_array (pseudo_header (rd_bytes m src_ip 4) ip len) (fold16 0)).
  rewrite cksum_array_fold16 by done.
  pose proof (wsum_nonneg (-1) _ 0 Hps) as Ht. pose proof (udp_loop_sum m pkt len _ ltac:(lia) Ht) as E.
  cbv zeta in E. rewrite Z.add_0_l, E. apply cksum_not_eq, fold16_range.
  assert (0 <= wsum 3 0 (pad_even (rd_bytes m pkt (Z.to_nat len)))); [|lia].
  apply wsum_nonneg. unfold pad_even. case_bool; [|apply rd_bytes_bytes].
  apply Forall_app_2; [apply rd_bytes_bytes|by repeat constructor].
Qed.

Lemma udp_sum_nonneg src dst dgram :
  bytes_ok src -> bytes_ok dst -> bytes_ok dgram -> Z.of_nat (length dgram) < 65536 -> 0 <= udp_sum src dst dgram.
Proof.
  intros Hs Hd Hg Hl. unfold udp_sum.
  assert (0 <= wsum (-1) 0 (pseudo_header src dst (Z.of_nat (length dgram)))).
  { apply wsum_nonneg. unfold pseudo_header, be16. repeat apply Forall_app_2; try done;
      repeat constructor; Z.div_mod_to_equations; lia. }
  assert (0 <= wsum 3 0 (pad_even dgram)); [|lia].
  apply wsum_nonneg. unfold pad_even. case_bool; [|done]. apply Forall_app_2; [done|by repeat constructor].
Qed.

(** The checks of [net_on_ipv4_udp]: long enough, and no checksum or the right one. *)
Definition udp_valid (m : gmap Z Z) (ip : list Z) (src_ip pkt len : Z) : Prop :=
  8 <= len /\
  let ck := 256 * rd8 m (pkt + 6) + rd8 m (pkt + 7) in
  (ck = 0 \/ ck = 65535 - fold16 (udp_sum (rd_bytes m src_ip 4) ip (rd_bytes m pkt (Z.to_nat len)))).

Definition udp_field (m : gmap Z Z) (pkt o : Z) : Z := 256 * rd8 m (pkt + o) + rd8 m (pkt + o + 1).

(** The length the server works with. *)
Definition udp_data_length (m : gmap Z Z) (pkt len : Z) : Z := Z.min (len - 8) (udp_field m pkt 4).

Lemma net_on_ipv4_udp_serve eth src_ip pkt len s :
  length (my_ipv4_address (m_net s)) = 4%nat -> bytes_ok (my_ipv4_address (m_net s)) -> len < 65536 ->
  udp_valid (m_mem s) (my_ipv4_address (m_net s)) src_ip pkt len -> udp_field (m_mem s) pkt 2 = 777 ->
  net_on_ipv4_udp eth src_ip pkt len s =
    serve eth src_ip (udp_field (m_mem s) pkt 0) 777 (pkt + 8) (udp_data_length (m_mem s) pkt len) s.
Proof.
  intros Hip Hipb Hlen [H8 Hck] Hport. unfold net_on_ipv4_udp, my_ip, read_mem.
  rewrite (proj2 (Z.ltb_ge len 8)) by done. run. rewrite udp_checksum_spec by (done || lia).
  rewrite (rd16_be _ (pkt + 6) (pkt + 7)) by lia. rewrite !ntoh16_rd16.
  cbv zeta in Hck. match goal with |- (if ?b then _ else _) _ = _ => assert (b = false) as -> end.
  { destruct Hck as [->| ->]; [done|]. by rewrite Z.eqb_refl, andb_false_r. }
  unfold udp_field in *. rewrite Hport, Z.eqb_refl. unfold udp_data_length, udp_field. rewrite Z.add_0_r.
  f_equal. case_bool; bool_to_prop; lia.
Qed.

Lemma net_on_ipv4_udp_drop eth src_ip pkt len s :
  length (my_ipv4_address (m_net s)) = 4%nat -> bytes_ok (my_ipv4_address (m_net s)) -> len < 65536 ->
  ~ udp_valid (m_mem s) (my_ipv4_address (m_net s)) src_ip pkt len ->
  net_on_ipv4_udp eth src_ip pkt len s = inr (tt, s).
Proof.
  intros Hip Hipb Hlen Hv. unfold net_on_ipv4_udp, my_ip, read_mem.
  destruct (len <? 8) eqn:E8; bool_to_prop; [done|]. run. rewrite udp_checksum_spec by (done || lia).
  rewrite (rd16_be _ (pkt + 6) (pkt + 7)) by lia.
  case_bool; [done|]. exfalso. apply Hv. split; [done|]. cbv zeta.
  apply andb_false_iff in E as [E|E]; bool_to_prop; [by left|right; by symmetry].
Qed.

End Ipv4.

(** ** What the sender makes, the receiver takes *)

Lemma be16_value x : 256 * (x / 256) + x mod 256 = x.
Proof. Z.div_mod_to_equations. lia. Qed.

(** A packet of the reference layout in memory. *)
Lemma udp_packet_valid m pkt src dst sport dport payload :
  let p := udp_packet src dst sport dport payload in
  let n := Z.of_nat (length payload) in
  length src = 4%nat -> length dst = 4%nat -> rd_bytes m pkt (length p) = p ->
  ipv4_valid m pkt (28 + n) dst /\ rd8 m (pkt + 9) = 17 /\ rd_bytes m (pkt + 12) 4 = src /\
  ihl m pkt = 20 /\ total_length m pkt = 28 + n /\
  udp_valid m dst (pkt + 12) (pkt + 20) (8 + n) /\ udp_data_length m (pkt + 20) (8 + n) = n /\
  udp_field m (pkt + 20) 0 = sport /\ udp_field m (pkt + 20) 2 = dport /\ rd_bytes m (pkt + 28) (length payload) = payload.
Proof.
  intros p n Hs Hd Hp. apply length_4_inv in Hs as (a & b & c & d & ->). apply length_4_inv in Hd as (e & f & g & h & ->).
  assert (length p = 28 + length payload)%nat as Hlen by done.
  assert (forall o, 0 <= o < 28 -> rd8 m (pkt + o) = nth (Z.to_nat o) p 0) as Hrd.
  { intros o Ho. apply (packet_rd8 m pkt p _ _ Hp); [lia|apply Nat.ltb_lt; lia]. }
  assert (forall o k, 0 <= o -> (Z.to_nat o + k <= length p)%nat -> rd_bytes m (pkt + o) k = take k (drop (Z.to_nat o) p)) as Hby.
  { intros o k Ho Hk. apply (packet_bytes m pkt p _ _ k Hp); [lia|by apply Nat.leb_le]. }
  assert (rd8 m pkt = 69) as E0 by (rewrite <- (Z.add_0_r pkt); apply (Hrd 0); lia).
  assert (ihl m pkt = 20) as Ei by (unfold ihl; by rewrite E0).
  assert (total_length m pkt = 28 + n) as Et.
  { unfold total_length. rewrite (Hrd 2), (Hrd 3) by lia. etransitivity; [exact (be16_value _)|]. fold n. lia. }
  assert (forall o, 0 <= o < 7 -> udp_field m (pkt + 20) o = 256 * nth (Z.to_nat (20 + o)) p 0 + nth (Z.to_nat (20 + o + 1)) p 0) as Hf.
  { intros o Ho. unfold udp_field. replace (pkt + 20 + o) with (pkt + (20 + o)) by lia.
    replace (pkt + (20 + o) + 1) with (pkt + (20 + o + 1)) by lia. by rewrite !Hrd by lia. }
  assert (udp_field m (pkt + 20) 0 = sport) as F0 by (rewrite Hf by lia; exact (be16_value _)).
  assert (udp_field m (pkt + 20) 2 = dport) as F2 by (rewrite Hf by lia; exact (be16_value _)).
  assert (udp_field m (pkt + 20) 4 = 8 + n) as F4 by (rewrite Hf by lia; exact (be16_value _)).
  split_and!; try done.
  - split; rewrite ?Ei, ?Et; try lia.
    + by rewrite E0.
    + rewrite (Hrd 10), (Hrd 11) by lia. etransitivity; [exact (be16_value _)|].
      rewrite <- (Z.add_0_r pkt). rewrite (Hby 0 (Z.to_nat 20)) by lia. reflexivity.
    + apply (Hby 16 4%nat); lia.
    + by rewrite (Hrd 6) by lia.
    + by rewrite (Hrd 6), (Hrd 7) by lia.
  - apply (Hrd 9). lia.
  - apply (Hby 12 4%nat); lia.
  - split; [lia|]. left. replace (pkt + 20 + 7) with (pkt + 20 + 6 + 1) by lia. apply (Hf 6). lia.
  - unfold udp_data_length. rewrite F4. lia.
  - etransitivity; [apply (Hby 28); lia|]. apply take_ge. done.
Qed.

(** What the code sends, it would take itself: a UDP packet of the layout of
    its replies, addressed to this machine and port 777, passes all tests of
    [net_on_ipv4] and [net_on_ipv4_udp], and the server gets its source address,
    source port and payload. *)
Theorem own_packets_accepted `{Env} `{NetDrivers} eth pkt src sport payload s :
  let p := udp_packet src (my_ipv4_address (m_net s)) sport 777 payload in
  let n := Z.of_nat (length payload) in
  length src = 4%nat -> length (my_ipv4_address (m_net s)) = 4%nat -> bytes_ok (my_ipv4_address (m_net s)) ->
  n <= 65507 -> rd_bytes (m_mem s) pkt (length p) = p ->
  net_on_ipv4 eth pkt (28 + n) s = serve eth (pkt + 12) sport 777 (pkt + 28) n s /\
  rd_bytes (m_mem s) (pkt + 12) 4 = src /\ rd_bytes (m_mem s) (pkt + 28) (length payload) = payload.
Proof.
  intros p n Hs Hip Hipb Hn Hp.
  destruct (udp_packet_valid _ _ _ _ _ _ _ Hs Hip Hp) as (Hv & Hproto & Hsrc & Hi & Ht & Hu & Hlen & Hsp & Hdp & Hpay).
  split; [|done]. fold n in Hv, Ht, Hu, Hlen. rewrite net_on_ipv4_valid by done. unfold ipv4_handler. rewrite Hproto, Hi, Ht.
  cbn [Z.eqb Pos.eqb]. replace (28 + n - 20) with (8 + n) by lia. rewrite net_on_ipv4_udp_serve by (done || lia).
  rewrite Hsp, Hlen. by replace (pkt + 20 + 8) with (pkt + 28) by lia.
Qed.
