(* ===== verification/ArpIcmp.v ===== *)
(** * ARP replies and ICMP echo

    [net_on_arp] and [net_on_ipv4_icmp] answer exactly the requests they should,
    with a frame of the layout of [Packets]. *)

From S2P Require Import Prelude Machine Memory Vga Text Checksum NetDriver NetStack Packets Replies Ip.

Section ArpIcmp.
Context `{Env} `{NetDrivers} (did : driver_id) `{L : !DriverLaws (net_driver did)}.

(** A frame has been handed to the card and nothing else has changed but the
    memory of the driver and of the screen. *)
Record sent (s s' : machine) (frame : list Z) : Prop := {
  st_handed : drv_handed s' frame;
  st_stack : stack_ok did s';
  st_mem : mem_frame (λ a, drv_area a \/ vga_window a) (m_mem s) (m_mem s');
  st_net : m_net s' = m_net s;
  st_alloc : m_alloc s' = m_alloc s
}.

(** The buffer is filled with [payload] and sent, after [prepare_send_packet]
    gave [p]. *)
Lemma send_filled s s1 s2 p sz hdr payload :
  stack_ok did s -> drv_step drv_area s s1 -> drv_prepared s1 p sz ->
  rd_bytes (m_mem s1) (p - 14) 14 = hdr ->
  mem_frame (λ a, p <= a < p + sz) (m_mem s1) (m_mem s2) ->
  rd_bytes (m_mem s2) p (Z.to_nat sz) = payload -> m_vga s2 = m_vga s1 -> same_statics s1 s2 ->
  wp (chosen drv_send_packet) (λ _ s', sent s s' (hdr ++ payload)) s2.
Proof.
  intros Hok [Hm1 Hv1 Hn1 Ha1 _ _ _] Hp Hhdr HF Hpay Hv2 Hs2.
  pose proof (law_window _ _ _ Hp) as (Hp14 & Hsz & Hpend & Harea).
  assert (drv_prepared s2 p sz) as Hp2.
  { eapply law_prepared_stable; [done|destruct Hs2; by split|]. eapply mem_frame_weaken; [|exact HF]. cbn. lia. }
  assert (rd_bytes (m_mem s2) (p - 14) (Z.to_nat (sz + 14)) = hdr ++ payload) as Hbytes.
  { replace (Z.to_nat (sz + 14)) with (14 + Z.to_nat sz)%nat by lia.
    rewrite rd_bytes_app. f_equal.
    - rewrite <- Hhdr. apply (mem_frame_rd_bytes _ _ _ _ _ HF). intros i Hi. cbv beta. rewrite u32_small by lia. lia.
    - by replace (p - 14 + Z.of_nat 14) with p by lia. }
  assert (m_net s2 = m_net s) as Hn2 by (rewrite <- Hn1; apply Hs2).
  assert (m_alloc s2 = m_alloc s) as Ha2 by (rewrite <- Ha1; apply Hs2).
  apply (wp_chosen did); [rewrite Hn2; apply Hok|].
  eapply wp_mono; [apply (law_send _ _ _ Hp2); congruence|].
  intros [] s3 (Hinv & [Hm3 Hv3 Hn3 Ha3 _ _ _] & Hh). rewrite Hbytes in Hh. rewrite Hn2 in Hn3.
  destruct Hok. split; [done|split; rewrite ?Hn3; done| |done|congruence].
  etransitivity; [exact Hm1|]. etransitivity; [|exact Hm3].
  eapply mem_frame_weaken; [|exact HF]. intros a Hw. left. apply Harea. cbv beta in Hw. lia.
Qed.

(** Printing does not disturb the stack. *)
Lemma console_stack s s' :
  stack_ok did s -> console_inv s' -> console_frame s s' -> stack_ok did s'.
Proof.
  intros [] Hv [Hm Hs]. pose proof (ss_net _ _ Hs) as Hn. split; rewrite ?Hn; try done.
  eapply law_inv_stable; [done|destruct Hs; by split|]. eapply mem_frame_weaken; [|exact Hm].
  intros a Ha Hd. by apply (law_area_vga a).
Qed.

Lemma console_sent s s1 s2 f :
  sent s s1 f -> console_inv s2 -> console_frame s1 s2 -> sent s s2 f.
Proof.
  intros [Hh Hok Hm Hn Ha] Hv HF. pose proof (console_stack _ _ Hok Hv HF) as Hok2. destruct HF as [Hm2 Hs Hio].
  pose proof (ss_net _ _ Hs). pose proof (ss_alloc _ _ Hs). split; [|done| |congruence|congruence].
  - eapply law_handed_stable; [done|destruct Hs; by split|done|]. eapply mem_frame_weaken; [|exact Hm2].
    intros a Hw Hd. by apply (law_area_vga a).
  - etransitivity; [exact Hm|]. eapply mem_frame_weaken; [|exact Hm2]. auto.
Qed.

(** ** ARP *)

(** A request for the IPv4 address [ip] on Ethernet. *)
Record arp_request (m : gmap Z Z) (pkt : Z) (ip : list Z) : Prop := {
  ar_hw : udp_field m pkt 0 = 1;
  ar_proto : udp_field m pkt 2 = 2048;
  ar_hlen : rd8 m (pkt + 4) = 6;
  ar_plen : rd8 m (pkt + 5) = 4;
  ar_op : udp_field m pkt 6 = 1;
  ar_target : rd_bytes m (pkt + 24) 4 = ip
}.

(** The reply packet is stored front to back. *)
Definition arp_mem (m : gmap Z Z) (p pkt : Z) (mac ip : list Z) : gmap Z Z :=
  let m := wr16 (wr16 m p (hton16 ARP_TYPE_ETH)) (p + 2) (hton16 ARP_TYPE_IPv4) in
  let m := wr16 (wr8 (wr8 m (p + 4) 6) (p + 5) 4) (p + 6) (hton16 ARP_REPLY) in
  let m := wr_bytes (wr_bytes m (p + 8) mac) (p + 14) ip in
  memcpy (memcpy m (p + 18) (pkt + 8) 6) (p + 24) (pkt + 14) 4.

Lemma quiet_block m p o pkt (l : list Z) (n : nat) :
  0 <= p -> p + Z.of_nat (length l) <= 4294967296 ->
  (forall a, p <= a < p + Z.of_nat (length l) -> drv_area a) -> quiet did (pkt + o) (Z.of_nat n) ->
  rd_bytes (wr_bytes m p l) (pkt + o) n = rd_bytes m (pkt + o) n.
Proof.
  intros Hp Hend Harea Hq. apply (mem_frame_rd_bytes (λ a, drv_area a)).
  - apply mem_frame_wr_bytes. intros i Hi. rewrite u32_small by lia. apply Harea. lia.
  - intros i Hi. by apply Hq.
Qed.

Lemma arp_mem_block m p pkt mac ip :
  0 <= p -> p + 28 <= 4294967296 -> (forall a, p <= a < p + 28 -> drv_area a) -> quiet did pkt 28 ->
  length mac = 6%nat -> length ip = 4%nat ->
  arp_mem m p pkt mac ip = wr_bytes m p (arp_reply mac ip (rd_bytes m (pkt + 8) 6) (rd_bytes m (pkt + 14) 4)).
Proof.
  intros Hp Hend Harea Hq Hmac Hip. unfold arp_mem. cbv zeta.
  assert (forall m, wr_bytes (wr_bytes (wr16 (wr8 (wr8 (wr16 (wr16 m p (hton16 ARP_TYPE_ETH)) (p + 2)
            (hton16 ARP_TYPE_IPv4)) (p + 4) 6) (p + 5) 4) (p + 6) (hton16 ARP_REPLY)) (p + 8) mac) (p + 14) ip =
          wr_bytes m p ([0; 1] ++ [8; 0] ++ [6] ++ [4] ++ [0; 2] ++ mac ++ ip)) as E.
  { intros m'. rewrite !wr_bytes_app. cbn [length]. rewrite Hmac, <- !Z.add_assoc. done. }
  rewrite E. set (hd := [0; 1] ++ _).
  assert (length hd = 18%nat) as Hhd by (subst hd; rewrite !length_app, Hmac, Hip; done).
  assert (6 <= u32 (p + 18 - (pkt + 8))) as F1.
  { eapply (quiet_far did); [eapply (quiet_sub did); [exact Hq|lia|lia]|]. rewrite u32_small by lia. apply Harea. lia. }
  assert (4 <= u32 (p + 24 - (pkt + 14))) as F2.
  { eapply (quiet_far did); [eapply (quiet_sub did); [exact Hq|lia|lia]|]. rewrite u32_small by lia. apply Harea. lia. }
  rewrite (memcpy_wr_bytes 6) by lia.
  rewrite (quiet_block m p 8 pkt hd 6) by
    (lia || (intros; apply Harea; lia) || (eapply (quiet_sub did); [exact Hq|lia|lia])).
  replace (wr_bytes (wr_bytes m p hd) (p + 18) (rd_bytes m (pkt + 8) 6)) with
    (wr_bytes m p (hd ++ rd_bytes m (pkt + 8) 6)) by (by rewrite wr_bytes_app, Hhd).
  rewrite (memcpy_wr_bytes 4) by lia.
  rewrite (quiet_block m p 14 pkt _ 4) by
    (rewrite ?length_app, ?Hhd, ?length_rd_bytes; lia || (intros; apply Harea; lia) || (eapply (quiet_sub did); [exact Hq|lia|lia])).
  replace (p + 24) with (p + Z.of_nat (length (hd ++ rd_bytes m (pkt + 8) 6)))
    by (rewrite length_app, Hhd, length_rd_bytes; lia).
  rewrite <- wr_bytes_app. f_equal. subst hd. unfold arp_reply. by rewrite <- !(assoc_L (++)).
Qed.

Lemma bytes_ok_arp_reply mac ip m a b :
  bytes_ok mac -> bytes_ok ip -> bytes_ok (arp_reply mac ip (rd_bytes m a 6) (rd_bytes m b 4)).
Proof.
  intros Hm Hi. unfold arp_reply. repeat apply Forall_app_2; try apply rd_bytes_bytes; try done; by repeat constructor.
Qed.

Lemma length_arp_reply mac ip m a b :
  length mac = 6%nat -> length ip = 4%nat ->
  length (arp_reply mac ip (rd_bytes m a 6) (rd_bytes m b 4)) = 28%nat.
Proof. intros Hm Hi. unfold arp_reply. rewrite !length_app, !length_rd_bytes, Hm, Hi. done. Qed.

(** A request for this machine's address is answered. *)
Lemma net_on_arp_answers s eth pkt sz :
  stack_ok did s -> length (src_mac eth) = 6%nat -> bytes_ok (src_mac eth) -> quiet did pkt 28 ->
  arp_request (m_mem s) pkt (my_ipv4_address (m_net s)) ->
  wp (net_on_arp eth pkt sz)
    (λ _ s', sent s s' (eth_frame (src_mac eth) (my_eth_mac (m_net s)) ETH_TYPE_ARP
       (arp_reply (my_eth_mac (m_net s)) (my_ipv4_address (m_net s))
          (rd_bytes (m_mem s) (pkt + 8) 6) (rd_bytes (m_mem s) (pkt + 14) 4)))) s.
Proof.
  intros Hok Hpm Hpmb Hq [Hhw Hpr Hhl Hpl Hop Htg]. unfold udp_field in *. rewrite Z.add_0_r in Hhw.
  unfold net_on_arp, load8, load16. wp_steps. rewrite ntoh16_rd16, Hhw, Hhl. cbn [negb orb Z.eqb Pos.eqb ARP_TYPE_ETH].
  wp_step. wp_step. rewrite ntoh16_rd16, Hpr. cbn [when Z.eqb Pos.eqb ARP_TYPE_IPv4].
  unfold net_on_arp_IPv4, load8, load16, load_bytes, my_ip, my_mac. wp_step. wp_step. rewrite Hpl. cbn [negb Z.eqb Pos.eqb].
  wp_step. wp_step. rewrite ntoh16_rd16, Hop. cbn [negb Z.eqb Pos.eqb ARP_REQUEST].
  wp_step. wp_step. wp_step. wp_step. rewrite Htg.
  rewrite (proj2 (memcmp_eq_0 4 _ _ (so_ip _ _ Hok) (so_ip _ _ Hok)) eq_refl). cbn [negb Z.eqb].
  wp_step. wp_step. wp_step. apply (wp_chosen did); [apply Hok|].
  eapply wp_mono; [apply law_prepare; cbn; try apply Hok; try done; pose proof law_mtu; lia|].
  intros r s1 (p & -> & Hp & Hhdr & Hstep). pose proof Hstep as [Hm1 _ Hn1 _ _ _ _].
  pose proof (law_window _ _ _ Hp) as (Hp14 & _ & Hpend & Harea).
  assert (forall Q, wp (chosen drv_send_packet ;; vga_write (msg "Someone is looking for me, replying to ARP request")) Q
      (set_m_mem (arp_mem (m_mem s1) p pkt (my_eth_mac (m_net s1)) (my_ipv4_address (m_net s1))) s1) ->
    wp (store16 p (hton16 ARP_TYPE_ETH) ;; store16 (p + 2) (hton16 ARP_TYPE_IPv4) ;;
      store8 (p + 4) 6 ;; store8 (p + 5) 4 ;; store16 (p + 6) (hton16 ARP_REPLY) ;;
      mac ← gets (λ s, my_eth_mac (m_net s)); store_bytes (p + 8) mac ;;
      ip ← gets (λ s, my_ipv4_address (m_net s)); store_bytes (p + 14) ip ;;
      do_memcpy (p + 18) (pkt + 8) 6 ;; do_memcpy (p + 24) (pkt + 14) 4 ;;
      chosen drv_send_packet ;; vga_write (msg "Someone is looking for me, replying to ARP request")) Q s1) as Hrun.
  { intros Q HQ. exact HQ. }
  apply Hrun. wp_step. rewrite Hn1.
  rewrite arp_mem_block by (lia || apply Hok || done || (intros; apply Harea; lia)).
  rewrite (quiet_rd_bytes did (pkt + 8) 6 _ _ (quiet_sub did pkt 28 (pkt + 8) 6 Hq ltac:(lia) ltac:(lia)) Hm1).
  rewrite (quiet_rd_bytes did (pkt + 14) 4 _ _ (quiet_sub did pkt 28 (pkt + 14) 4 Hq ltac:(lia) ltac:(lia)) Hm1).
  set (reply := arp_reply _ _ _ _).
  assert (length reply = 28%nat) as Hlen by (apply length_arp_reply; apply Hok).
  assert (bytes_ok reply) as Hb by (apply bytes_ok_arp_reply; apply Hok).
  eapply wp_mono.
  { eapply (send_filled s s1 _ _ _ _ reply); [done|done|done|exact Hhdr| | |done|by split]; cbn [m_mem set_m_mem].
    - apply mem_frame_wr_bytes. intros i Hi. rewrite u32_small by lia. lia.
    - change (Z.to_nat 28) with 28%nat. rewrite <- Hlen. rewrite rd_bytes_wr_bytes_same by lia. by apply fmap_u8_bytes. }
  intros [] s3 Hsent. rewrite eth_bytes_be in Hsent by (done || apply Hok || (unfold ETH_TYPE_ARP; lia)).
  eapply stays_wp; [apply prints_write|apply Hsent|]. intros _ s4 Hv4 HF4.
  eapply console_sent; [|done|done]. unfold eth_frame. by rewrite <- !(assoc_L (++)) in Hsent.
Qed.

(** Everything else is ignored. *)
Lemma net_on_arp_ignores s eth pkt sz :
  length (my_ipv4_address (m_net s)) = 4%nat ->
  ~ arp_request (m_mem s) pkt (my_ipv4_address (m_net s)) ->
  net_on_arp eth pkt sz s = inr (tt, s).
Proof.
  intros Hip Hno. unfold net_on_arp, net_on_arp_IPv4, my_ip, my_mac. run. rewrite !ntoh16_rd16.
  destruct (256 * rd8 (m_mem s) pkt + rd8 (m_mem s) (pkt + 1) =? ARP_TYPE_ETH) eqn:E1; [|done].
  destruct (rd8 (m_mem s) (pkt + 4) =? 6) eqn:E2; [|done]. cbn [negb orb].
  rewrite ?ntoh16_rd16. destruct (256 * rd8 (m_mem s) (pkt + 2) + rd8 (m_mem s) (pkt + 2 + 1) =? ARP_TYPE_IPv4) eqn:E3; [|done].
  cbn [when]. destruct (rd8 (m_mem s) (pkt + 5) =? 4) eqn:E4; [|done]. cbn [negb]. rewrite ntoh16_rd16.
  destruct (256 * rd8 (m_mem s) (pkt + 6) + rd8 (m_mem s) (pkt + 6 + 1) =? ARP_REQUEST) eqn:E5; [|done]. cbn [negb].
  destruct (memcmp _ _ 4 =? 0) eqn:E6; [|done]. exfalso. bool_to_prop. apply Hno.
  rewrite memcmp_eq_0 in E6 by (rewrite ?length_rd_bytes; done).
  split; unfold udp_field; rewrite ?Z.add_0_r; done.
Qed.

(** ** ICMP echo *)

(** A message whose checksum is right over its whole words. *)
Definition icmp_valid (m : gmap Z Z) (pkt len : Z) : Prop :=
  8 <= len /\
  256 * rd8 m (pkt + 2) + rd8 m (pkt + 3) =
    65535 - fold16 (wsum 1 0 (rd_bytes m pkt (2 * Z.to_nat (len / 2)))).

Record echo_request (m : gmap Z Z) (pkt len : Z) : Prop := {
  er_valid : icmp_valid m pkt len;
  er_type : rd8 m pkt = 8;
  er_code : rd8 m (pkt + 1) = 0
}.

(** The message part of the reply, stored at [q]. *)
Definition icmp_mem (m : gmap Z Z) (q pkt len : Z) : gmap Z Z :=
  let m := wr8 (memcpy m q pkt (Z.to_nat len)) q 0 in
  let ck := u16 (Z.lnot (cksum_loop m q 1 0 (Z.to_nat (Z.shiftr len 1)) 0)) in
  wr8 (wr8 m (q + 2) (Z.shiftr ck 8)) (q + 3) ck.

(** The word left out of the sum does not matter. *)
Lemma wsum_skip_1 a b c d c' d' l : wsum 1 0 (a :: b :: c :: d :: l) = wsum 1 0 (a :: b :: c' :: d' :: l).
Proof. done. Qed.

Lemma icmp_mem_bytes m q pkt len req :
  8 <= len < 65536 -> Z.of_nat (Z.to_nat len) <= u32 (q - pkt) -> rd_bytes m pkt (Z.to_nat len) = req ->
  rd_bytes (icmp_mem m q pkt len) q (Z.to_nat len) = echo_reply req.
Proof.
  intros Hlen Hfar Hreq. unfold icmp_mem. cbv zeta. rewrite memcpy_wr_bytes by lia. rewrite Hreq.
  assert (length req = Z.to_nat len) as Hl by (rewrite <- Hreq; apply length_rd_bytes).
  assert (bytes_ok req) as Hb by (rewrite <- Hreq; apply rd_bytes_bytes).
  destruct req as [|r0 [|r1 [|r2 [|r3 req]]]]; cbn [length] in Hl; try lia.
  set (m1 := wr8 (wr_bytes m q _) q 0).
  assert (rd_bytes m1 q (Z.to_nat len) = 0 :: r1 :: r2 :: r3 :: req) as E1.
  { subst m1. rewrite (rd_bytes_wr8_in _ q 0 q _ 0) by (cbn; lia). rewrite <- Hl.
    change (S (S (S (S (length req))))) with (length (r0 :: r1 :: r2 :: r3 :: req)).
    rewrite rd_bytes_wr_bytes_same by (cbn [length]; lia). by rewrite fmap_u8_bytes. }
  set (k := Z.to_nat (Z.shiftr len 1)).
  assert (2 * k = 4 + (2 * k - 4))%nat as Hk.
  { subst k. rewrite Z.shiftr_div_pow2 by lia. change (2 ^ 1) with 2. Z.div_mod_to_equations. lia. }
  assert (2 * k <= Z.to_nat len)%nat as Hk2.
  { subst k. rewrite Z.shiftr_div_pow2 by lia. change (2 ^ 1) with 2. Z.div_mod_to_equations. lia. }
  assert (Z.to_nat len / 2 = k)%nat as Hk3.
  { subst k. rewrite Z.shiftr_div_pow2 by lia. change (2 ^ 1) with 2. rewrite Z2Nat.inj_div by lia. done. }
  rewrite cksum_loop_spec, (rd_bytes_take m1 q (Z.to_nat len)), E1, u16_lnot by done.
  unfold echo_reply. cbn [length]. rewrite Hl, Hk3, Hk. cbn [take Nat.add].
  rewrite (wsum_skip_1 0 r1 r2 r3 0 0). set (t := wsum 1 0 _).
  bytes_bounds.
  assert (0 <= t) as Ht.
  { apply wsum_nonneg. repeat constructor; try lia. apply Forall_take. done. }
  pose proof (fold16_range t Ht). rewrite cksum_not_eq by done.
  rewrite (rd_bytes_wr8_in _ (q + 3) _ q _ 3), (rd_bytes_wr8_in _ (q + 2) _ q _ 2) by (cbn; lia).
  rewrite E1. cbn [insert list_insert be16 app]. list_bytes.
Qed.

Lemma icmp_mem_frame m q pkt len :
  8 <= len < 65536 -> 0 <= q -> q + len <= 4294967296 -> Z.of_nat (Z.to_nat len) <= u32 (q - pkt) ->
  mem_frame (λ a, q <= a < q + len) m (icmp_mem m q pkt len).
Proof.
  intros Hlen Hq Hend Hfar. unfold icmp_mem. cbv zeta. rewrite memcpy_wr_bytes by lia.
  repeat (apply mem_frame_wr8; [|rewrite u32_small by lia; lia]).
  apply mem_frame_wr_bytes. rewrite length_rd_bytes. intros i Hi. rewrite u32_small by lia. lia.
Qed.

(** The payload of the reply frame in the prepared buffer. *)
Lemma echo_payload m p ip src_ip pkt len :
  0 <= p -> 8 <= len -> 20 + len < 65536 -> p + (20 + len) <= 4294967296 -> length ip = 4%nat -> bytes_ok ip ->
  (forall a, p <= a < p + (20 + len) -> drv_area a) -> quiet did pkt len ->
  let m' := icmp_mem (ip_reply_mem m p ip (rd_bytes m src_ip 4) 1 (20 + len)) (p + 20) pkt len in
  mem_frame (λ a, p <= a < p + (20 + len)) m m' /\
  rd_bytes m' p (Z.to_nat (20 + len)) =
    ipv4_header 1 len ip (rd_bytes m src_ip 4) ++ echo_reply (rd_bytes m pkt (Z.to_nat len)).
Proof.
  intros Hp Hlen Hmax Hend Hip Hipb Harea Hq. cbv zeta. set (peer := rd_bytes m src_ip 4).
  assert (length peer = 4%nat) as Hpeer by apply length_rd_bytes.
  pose proof (ip_reply_mem_frame m p ip peer 1 (20 + len) Hp ltac:(lia) ltac:(lia) Hip Hpeer) as HF1.
  pose proof (ip_reply_mem_bytes m p ip peer 1 (20 + len) Hp ltac:(lia) ltac:(lia) ltac:(lia) Hip Hpeer Hipb
                (rd_bytes_bytes _ _ _)) as E1.
  set (m1 := ip_reply_mem m p ip peer 1 (20 + len)) in *.
  assert (Z.of_nat (Z.to_nat len) <= u32 (p + 20 - pkt)) as Hfar.
  { rewrite Z2Nat.id by lia. eapply (quiet_far did); [exact Hq|]. rewrite u32_small by lia. apply Harea. lia. }
  pose proof (icmp_mem_frame m1 (p + 20) pkt len ltac:(lia) ltac:(lia) ltac:(lia) Hfar) as HF2.
  assert (rd_bytes m1 pkt (Z.to_nat len) = rd_bytes m pkt (Z.to_nat len)) as Ereq.
  { apply (mem_frame_rd_bytes _ _ _ _ _ HF1). intros i Hi Hw. destruct (Hq i); [lia|]. auto. }
  split.
  - etransitivity; [exact HF1|]. eapply mem_frame_weaken; [|exact HF2]. cbn. lia.
  - replace (Z.to_nat (20 + len)) with (20 + Z.to_nat len)%nat in * by lia.
    rewrite rd_bytes_app. f_equal.
    + rewrite (mem_frame_rd_bytes _ _ _ _ _ HF2) by (intros i Hi; cbv beta; rewrite u32_small by lia; lia).
      rewrite (rd_bytes_take m1 p (20 + Z.to_nat len)), E1 by lia.
      replace (20 + len - 20) with len by lia. apply take_app_length'. symmetry. by apply length_ipv4_header.
    + change (Z.of_nat 20) with 20. apply icmp_mem_bytes; [lia|done|done].
Qed.

Lemma sent_trans s s0 s' f :
  sent s0 s' f -> mem_frame vga_window (m_mem s) (m_mem s0) -> same_statics s s0 -> sent s s' f.
Proof.
  intros [Hh Hok Hm Hn Ha] HF Hs. pose proof (ss_net _ _ Hs). pose proof (ss_alloc _ _ Hs).
  split; [done|done| |congruence|congruence].
  etransitivity; [|exact Hm]. eapply mem_frame_weaken; [|exact HF]. auto.
Qed.

(** A frame is built from a prepared buffer by the code after
    [prepare_send_packet]. *)
Lemma echo_send s s1 eth p src_ip pkt len :
  stack_ok did s -> length (src_mac eth) = 6%nat -> bytes_ok (src_mac eth) -> 8 <= len <= 1460 ->
  quiet did src_ip 4 -> quiet did pkt len ->
  drv_step drv_area s s1 -> drv_prepared s1 p (20 + len) ->
  rd_bytes (m_mem s1) (p - 14) 14 =
    u8 <$> eth_bytes (mkEth (src_mac eth) (my_eth_mac (m_net s)) (hton16 ETH_TYPE_IPv4)) ->
  wp (chosen drv_send_packet)
    (λ _ s', sent s s' (eth_frame (src_mac eth) (my_eth_mac (m_net s)) ETH_TYPE_IPv4
       (ipv4_header 1 len (my_ipv4_address (m_net s)) (rd_bytes (m_mem s) src_ip 4) ++
        echo_reply (rd_bytes (m_mem s) pkt (Z.to_nat len)))))
    (set_m_mem (icmp_mem (ip_reply_mem2 (memcpy (ip_reply_mem1 (m_mem s1) p (my_ipv4_address (m_net s1)) 1 (20 + len))
       (p + 16) src_ip 4) p) (p + 20) pkt len) s1).
Proof.
  intros Hok Hpm Hpmb Hlen Hqs Hqp Hstep Hp Hhdr. pose proof Hstep as [Hm1 _ Hn1 _ _ _ _].
  pose proof (law_window _ _ _ Hp) as (Hp14 & _ & Hpend & Harea). rewrite Hn1.
  rewrite (ip_reply_mem_copy did) by (lia || apply Hok || done || (intros; apply Harea; lia)).
  pose proof (echo_payload (m_mem s1) p (my_ipv4_address (m_net s)) src_ip pkt len ltac:(lia) ltac:(lia) ltac:(lia)
    ltac:(lia) (so_ip _ _ Hok) (so_ip_bytes _ _ Hok) ltac:(intros; apply Harea; lia) Hqp) as [HF Hpay].
  cbv zeta in HF, Hpay.
  rewrite (quiet_rd_bytes did src_ip 4 _ _ Hqs Hm1) in HF, Hpay |- *.
  rewrite (quiet_rd_bytes did pkt (Z.to_nat len) _ _ ltac:(by rewrite Z2Nat.id by lia) Hm1) in Hpay.
  rewrite eth_bytes_be in Hhdr by (done || apply Hok || (unfold ETH_TYPE_IPv4; lia)).
  unfold eth_frame. rewrite !(assoc_L (++)), <- (assoc_L (++) _ (ipv4_header _ _ _ _) (echo_reply _)).
  rewrite !(assoc_L (++)) in Hhdr. by eapply (send_filled s s1).
Qed.

(** An echo request is answered with its echo. *)
Lemma net_on_ipv4_icmp_answers s eth src_ip pkt len :
  stack_ok did s -> length (src_mac eth) = 6%nat -> bytes_ok (src_mac eth) -> len <= 1460 ->
  quiet did src_ip 4 -> quiet did pkt len -> echo_request (m_mem s) pkt len ->
  wp (net_on_ipv4_icmp eth src_ip pkt len)
    (λ _ s', sent s s' (eth_frame (src_mac eth) (my_eth_mac (m_net s)) ETH_TYPE_IPv4
       (ipv4_header 1 len (my_ipv4_address (m_net s)) (rd_bytes (m_mem s) src_ip 4) ++
        echo_reply (rd_bytes (m_mem s) pkt (Z.to_nat len))))) s.
Proof.
  intros Hok Hpm Hpmb Hlen Hqs Hqp [[H8 Hck] Hty Hco]. unfold net_on_ipv4_icmp, read_mem, my_mac.
  rewrite (proj2 (Z.ltb_ge len 8)) by done. wp_step. wp_step.
  assert (cksum_not (cksum_loop (m_mem s) pkt 1 0 (Z.to_nat (Z.shiftr len 1)) 0) = ntoh16 (rd16 (m_mem s) (pkt + 2))) as ->.
  { rewrite cksum_loop_spec, Z.shiftr_div_pow2, (rd16_be _ (pkt + 2) (pkt + 3)), Hck by lia.
    apply cksum_not_eq, fold16_range, wsum_nonneg, rd_bytes_bytes. }
  rewrite Z.eqb_refl, Hty, Hco. cbn [negb when andb Z.eqb Pos.eqb].
  wp_step. eapply stays_wp; [apply prints_write|apply Hok|]. intros _ s0 Hv0 HF0.
  pose proof (console_stack _ _ Hok Hv0 HF0) as Hok0. destruct HF0 as [HF0 Hs0].
  pose proof (ss_net _ _ Hs0) as Hn0.
  wp_step. wp_step. wp_step. apply (wp_chosen did); [apply Hok0|].
  eapply wp_mono; [apply law_prepare; cbn; try apply Hok0; try done; pose proof law_mtu; lia|].
  intros r s1 (p & -> & Hp & Hhdr & Hstep).
  assert (mem_frame (λ a, drv_area a \/ vga_window a) (m_mem s) (m_mem s0)) as HF0'
    by (eapply mem_frame_weaken; [|exact HF0]; auto).
  rewrite <- (quiet_rd_bytes did src_ip 4 _ _ Hqs HF0').
  rewrite <- (quiet_rd_bytes did pkt (Z.to_nat len) _ _ ltac:(by rewrite Z2Nat.id by lia) HF0').
  rewrite <- Hn0.
  pose proof (echo_send s0 s1 eth p src_ip pkt len Hok0 Hpm Hpmb ltac:(lia) Hqs Hqp Hstep Hp Hhdr) as Hend.
  eapply wp_conv; [|eapply wp_mono; [exact Hend|intros [] s' Hsent; by eapply sent_trans]]. reflexivity.
Qed.

Lemma net_on_ipv4_icmp_ignores s eth src_ip pkt len :
  ~ echo_request (m_mem s) pkt len -> net_on_ipv4_icmp eth src_ip pkt len s = inr (tt, s).
Proof.
  intros Hno. unfold net_on_ipv4_icmp, read_mem.
  destruct (len <? 8) eqn:E8; bool_to_prop; [done|]. run.
  rewrite cksum_loop_spec, Z.shiftr_div_pow2, (rd16_be _ (pkt + 2) (pkt + 3)) by lia. change (2 ^ 1) with 2.
  set (t := wsum 1 0 _). assert (0 <= t) as Ht by (apply wsum_nonneg, rd_bytes_bytes).
  rewrite cksum_not_eq by (by apply fold16_range).
  destruct (65535 - fold16 t =? _) eqn:E1; [|done]. cbn [negb].
  destruct (rd8 (m_mem s) pkt =? 8) eqn:E2; [|done]. destruct (rd8 (m_mem s) (pkt + 1) =? 0) eqn:E3; [|done].
  exfalso. bool_to_prop. apply Hno. split; [|done|done]. split; [done|]. by symmetry.
Qed.

(** The echo of an even-length message is itself a valid message. *)
Lemma echo_reply_valid code rest :
  Nat.even (length rest) = true -> bytes_ok (code :: rest) ->
  forall ty c0 c1, exists d0 d1,
    echo_reply (ty :: code :: c0 :: c1 :: rest) = 0 :: code :: d0 :: d1 :: rest /\
    fold16 (wsum (-1) 0 (0 :: code :: d0 :: d1 :: rest)) = 65535.
Proof.
  intros He Hb ty c0 c1. unfold echo_reply. cbn [length]. apply Nat.even_spec in He as [k Hk].
  rewrite take_ge.
  2:{ cbn [length]. rewrite Hk. replace (S (S (S (S (2 * k))))) with ((k + 2) * 2)%nat by lia. rewrite Nat.div_mul by lia. lia. }
  set (t := wsum 1 0 _). eexists _, _. cbn [be16 app]. split; [reflexivity|].
  inversion Hb; subst. assert (0 <= t) as Ht by (apply wsum_nonneg; repeat constructor; try lia; done).
  pose proof (fold16_verifies t Ht) as Hf. pose proof (fold16_range t Ht). rewrite cksum_not_eq in Hf by done.
  etransitivity; [|exact Hf]. f_equal. subst t. cbn [wsum Z.eqb].
  assert (forall l i, 1 < i -> wsum (-1) i l = wsum 1 i l) as Hskip.
  { clear. intros l. induction l as [l IH] using (induction_ltof1 _ length). unfold ltof in IH.
    destruct l as [|a [|b l]]; intros i Hi; cbn [wsum]; try done.
    rewrite (proj2 (Z.eqb_neq i (-1))), (proj2 (Z.eqb_neq i 1)), (IH l) by (cbn; lia). done. }
  change (0 + 1 + 1) with 2. rewrite Hskip by lia. change (0 + 1 =? -1) with false. change (0 + 1 =? 1) with true. cbv match.
  set (x := 65535 - fold16 _). Z.div_mod_to_equations. lia.
Qed.

End ArpIcmp.
