(* ===== verification/Stack.v ===== *)
(** * The receive path as a whole

    From an IPv4 packet or ARP message in a receive buffer to the frame handed
    to the card, for every driver that satisfies [DriverLaws]. *)

From S2P Require Import Prelude Machine Memory Vga Text Checksum NetDriver Pcnet32 Bench NetStack Packets Replies Commands Server Ip ArpIcmp.

Section Stack.
Context `{Env} `{NetDrivers} (did : driver_id) `{L : !DriverLaws (net_driver did)}.

Lemma total_length_range m pkt : 0 <= total_length m pkt < 65536.
Proof. unfold total_length. pose proof (rd8_range m (pkt + 2)). pose proof (rd8_range m (pkt + 3)). lia. Qed.

Lemma udp_field_range m pkt o : 0 <= udp_field m pkt o < 65536.
Proof. unfold udp_field. pose proof (rd8_range m (pkt + o)). pose proof (rd8_range m (pkt + o + 1)). lia. Qed.

(** A packet of [sz] bytes at [pkt] whose UDP datagram for port 777 carries
    the command [c]. *)
Record command_packet (s : machine) (pkt sz : Z) (c : command) : Prop := {
  cp_ip : ipv4_valid (m_mem s) pkt sz (my_ipv4_address (m_net s));
  cp_proto : rd8 (m_mem s) (pkt + 9) = 17;
  cp_udp : udp_valid (m_mem s) (my_ipv4_address (m_net s)) (pkt + 12) (pkt + ihl (m_mem s) pkt)
             (total_length (m_mem s) pkt - ihl (m_mem s) pkt);
  cp_port : udp_field (m_mem s) (pkt + ihl (m_mem s) pkt) 2 = 777;
  cp_carries : carries (m_mem s) (pkt + ihl (m_mem s) pkt + 8)
                 (udp_data_length (m_mem s) (pkt + ihl (m_mem s) pkt)
                    (total_length (m_mem s) pkt - ihl (m_mem s) pkt)) c
}.

(** Where its data is, and its source port. *)
Definition command_data (s : machine) (pkt : Z) : Z := pkt + ihl (m_mem s) pkt + 8.
Definition command_length (s : machine) (pkt : Z) : Z :=
  udp_data_length (m_mem s) (pkt + ihl (m_mem s) pkt) (total_length (m_mem s) pkt - ihl (m_mem s) pkt).
Definition command_sport (s : machine) (pkt : Z) : Z := udp_field (m_mem s) (pkt + ihl (m_mem s) pkt) 0.

Lemma command_length_bound s pkt sz c : command_packet s pkt sz c -> command_length s pkt < 65536.
Proof.
  intros []. unfold command_length, udp_data_length. pose proof (total_length_range (m_mem s) pkt).
  destruct cp_ip0. lia.
Qed.

Lemma net_on_ipv4_command s eth pkt sz c :
  stack_ok did s -> command_packet s pkt sz c ->
  net_on_ipv4 eth pkt sz s =
    serve eth (pkt + 12) (command_sport s pkt) 777 (command_data s pkt) (command_length s pkt) s.
Proof.
  intros Hok [Hip Hproto Hudp Hport _]. pose proof (total_length_range (m_mem s) pkt).
  rewrite net_on_ipv4_valid by (done || apply Hok). unfold ipv4_handler. rewrite Hproto. cbn [Z.eqb Pos.eqb].
  pose proof (iv_ihl _ _ _ _ Hip).
  rewrite net_on_ipv4_udp_serve by (done || lia || apply Hok). done.
Qed.

(** The sender, the data and the fuel are as the handlers need them. *)
Record command_ok (s : machine) (eth : ethernet_frame_header) (pkt sz : Z) (c : command) : Prop := {
  co_packet : command_packet s pkt sz c;
  co_mac : length (src_mac eth) = 6%nat;
  co_mac_bytes : bytes_ok (src_mac eth);
  co_quiet : quiet did (pkt + 12) 4;
  co_permitted : permitted did (command_data s pkt) (command_length s pkt) c s;
  co_fuel : command_length s pkt < Z.of_nat env_fuel
}.

Lemma net_on_ipv4_serves s s1 eth pkt sz c :
  stack_ok did s -> command_ok s eth pkt sz c -> effect c s = Some s1 ->
  wp (net_on_ipv4 eth pkt sz)
    (λ _ s', answered did eth (pkt + 12) (command_sport s pkt) 777 s1 s' (answer c s)) s.
Proof.
  intros Hok [Hp Hm Hmb Hq Hperm Hf] Heff. eapply wp_conv; [by eapply net_on_ipv4_command|].
  pose proof (command_length_bound _ _ _ _ Hp). apply serve_spec; try done.
  - split; [done|done|apply udp_field_range|lia|done].
  - apply Hp.
  - lia.
Qed.

(** C3: A UDP datagram for port 777 that carries a command does exactly what
    the command says, and its answer goes back to the sender: the code of
    [net_on_ipv4], [net_on_ipv4_udp] and [serve] refines the abstract server
    given by [effect] and [answer]. *)
Theorem udp_command_served s s1 eth pkt sz c :
  stack_ok did s -> command_ok s eth pkt sz c -> effect c s = Some s1 ->
  exists s', net_on_ipv4 eth pkt sz s = inr (tt, s') /\ stack_ok did s' /\
    m_alloc s' = m_alloc s1 /\ exec_last_seq (m_net s') = exec_last_seq (m_net s1) /\
    executed (m_trace s') = executed (m_trace s1) /\
    mem_frame (λ a, drv_area a \/ vga_window a) (m_mem s1) (m_mem s') /\
    drv_handed s' (eth_frame (src_mac eth) (my_eth_mac (m_net s1)) ETH_TYPE_IPv4
      (udp_packet (my_ipv4_address (m_net s1)) (rd_bytes (m_mem s1) (pkt + 12) 4) 777 (command_sport s pkt) (answer c s))).
Proof.
  intros Hok Hc Heff. pose proof (net_on_ipv4_serves s s1 eth pkt sz c Hok Hc Heff) as Hw.
  apply wp_run in Hw as ([] & s' & E & [Hh Hst Hm Hseq _ Hal Hex]). by exists s'.
Qed.

(** C9: [net_on_ipv4] acts on exactly the packets that are valid for this
    machine (version, header length, header checksum, destination address, not
    a fragment, lengths consistent with the frame); every other packet leaves
    the machine as it was. *)
Theorem ipv4_packet_filter eth pkt sz s :
  length (my_ipv4_address (m_net s)) = 4%nat ->
  (ipv4_valid (m_mem s) pkt sz (my_ipv4_address (m_net s)) ->
     net_on_ipv4 eth pkt sz s = ipv4_handler eth (m_mem s) pkt s) /\
  (~ ipv4_valid (m_mem s) pkt sz (my_ipv4_address (m_net s)) ->
     net_on_ipv4 eth pkt sz s = inr (tt, s)).
Proof. intros Hip. split; [by apply net_on_ipv4_valid|by apply net_on_ipv4_invalid]. Qed.


(** C11: An ARP request for this machine's address is answered with its MAC
    address, to the asker; any other ARP packet is ignored. *)
Theorem arp_requests_answered s eth pkt sz :
  stack_ok did s -> length (src_mac eth) = 6%nat -> bytes_ok (src_mac eth) -> quiet did pkt 28 ->
  (arp_request (m_mem s) pkt (my_ipv4_address (m_net s)) ->
     exists s', net_on_arp eth pkt sz s = inr (tt, s') /\
       sent did s s' (eth_frame (src_mac eth) (my_eth_mac (m_net s)) ETH_TYPE_ARP
         (arp_reply (my_eth_mac (m_net s)) (my_ipv4_address (m_net s))
            (rd_bytes (m_mem s) (pkt + 8) 6) (rd_bytes (m_mem s) (pkt + 14) 4)))) /\
  (~ arp_request (m_mem s) pkt (my_ipv4_address (m_net s)) -> net_on_arp eth pkt sz s = inr (tt, s)).
Proof.
  intros Hok Hm Hmb Hq. split; intros Hr.
  - pose proof (net_on_arp_answers did s eth pkt sz Hok Hm Hmb Hq Hr) as Hw.
    apply wp_run in Hw as ([] & s' & E & Hs). by exists s'.
  - apply net_on_arp_ignores; [apply Hok|done].
Qed.

Lemma icmp_echo_sent s eth pkt sz :
  let data := pkt + ihl (m_mem s) pkt in
  let len := total_length (m_mem s) pkt - ihl (m_mem s) pkt in
  stack_ok did s -> length (src_mac eth) = 6%nat -> bytes_ok (src_mac eth) ->
  ipv4_valid (m_mem s) pkt sz (my_ipv4_address (m_net s)) -> rd8 (m_mem s) (pkt + 9) = 1 ->
  len <= 1460 -> quiet did (pkt + 12) 4 -> quiet did data len -> echo_request (m_mem s) data len ->
  exists s', net_on_ipv4 eth pkt sz s = inr (tt, s') /\
    sent did s s' (eth_frame (src_mac eth) (my_eth_mac (m_net s)) ETH_TYPE_IPv4
      (ipv4_header 1 len (my_ipv4_address (m_net s)) (rd_bytes (m_mem s) (pkt + 12) 4) ++
       echo_reply (rd_bytes (m_mem s) data (Z.to_nat len)))).
Proof.
  intros data len Hok Hm Hmb Hv Hp Hlen Hq1 Hq2 He. rewrite net_on_ipv4_valid by (done || apply Hok).
  unfold ipv4_handler. rewrite Hp. cbn [Z.eqb Pos.eqb]. fold data len.
  by apply wp_run_unit, (net_on_ipv4_icmp_answers did s eth (pkt + 12) data len).
Qed.


(** The echo the code sends for a message of even length has type 0, the
    code and data of the request, and a checksum with which its words add up to
    all ones. *)
Theorem echo_reply_checksum s eth pkt sz :
  let data := pkt + ihl (m_mem s) pkt in
  let len := total_length (m_mem s) pkt - ihl (m_mem s) pkt in
  stack_ok did s -> length (src_mac eth) = 6%nat -> bytes_ok (src_mac eth) ->
  ipv4_valid (m_mem s) pkt sz (my_ipv4_address (m_net s)) -> rd8 (m_mem s) (pkt + 9) = 1 ->
  len <= 1460 -> quiet did (pkt + 12) 4 -> quiet did data len -> echo_request (m_mem s) data len -> Z.even len = true ->
  exists s' reply, net_on_ipv4 eth pkt sz s = inr (tt, s') /\
    sent did s s' (eth_frame (src_mac eth) (my_eth_mac (m_net s)) ETH_TYPE_IPv4
      (ipv4_header 1 len (my_ipv4_address (m_net s)) (rd_bytes (m_mem s) (pkt + 12) 4) ++ reply)) /\
    take 2 reply = [0; 0] /\ drop 4 reply = drop 4 (rd_bytes (m_mem s) data (Z.to_nat len)) /\
    fold16 (wsum (-1) 0 reply) = 65535.
Proof.
  intros data len Hok Hm Hmb Hv Hp Hlen Hq1 Hq2 He Hev.
  destruct (icmp_echo_sent s eth pkt sz Hok Hm Hmb Hv Hp Hlen Hq1 Hq2 He) as (s' & E & Hs).
  exists s', (echo_reply (rd_bytes (m_mem s) data (Z.to_nat len))). split_and!; [done|done|..].
  all: destruct He as [[H8 _] Ht Hc].
  all: assert (exists n, Z.to_nat len = S (S (S (S n)))) as [n Hn] by (exists (Z.to_nat (len - 4)); lia).
  all: rewrite Hn, !rd_bytes_S, Ht, Hc; set (rest := rd_bytes _ _ n).
  all: assert (Nat.even (length rest) = true) as Hre
    by (subst rest; rewrite length_rd_bytes; apply Z.even_spec in Hev as [k Hk]; apply Nat.even_spec; exists (Z.to_nat k - 2)%nat; lia).
  all: destruct (echo_reply_valid 0 rest Hre ltac:(by constructor; [lia|apply rd_bytes_bytes]) 8
    (rd8 (m_mem s) (data + 1 + 1)) (rd8 (m_mem s) (data + 1 + 1 + 1))) as (d0 & d1 & Er & Ek).
  - by rewrite Er.
  - by rewrite Er.
  - by rewrite Er.
Qed.

(** C8: A second EXEC with the sequence number of the last one answers "OK
    Complete" without calling any code, whatever address it names, and leaves
    the sequence number as it is. *)
Theorem exec_not_repeated s eth pkt sz address seq :
  stack_ok did s -> command_ok s eth pkt sz (EXEC address seq) -> seq = exec_last_seq (m_net s) ->
  exists s', net_on_ipv4 eth pkt sz s = inr (tt, s') /\
    executed (m_trace s') = executed (m_trace s) /\ exec_last_seq (m_net s') = seq /\
    drv_handed s' (eth_frame (src_mac eth) (my_eth_mac (m_net s)) ETH_TYPE_IPv4
      (udp_packet (my_ipv4_address (m_net s)) (rd_bytes (m_mem s) (pkt + 12) 4) 777 (command_sport s pkt) (exec_answer seq))).
Proof.
  intros Hok Hc Hseq. pose proof (net_on_ipv4_serves s s eth pkt sz _ Hok Hc) as Hw.
  cbn [effect] in Hw. rewrite Hseq, Z.eqb_refl in Hw. specialize (Hw eq_refl).
  apply wp_run in Hw as ([] & s' & E & [Hh Hst Hm Hs _ Hal Hex]). rewrite Hseq. by exists s'.
Qed.

(** C7: After an EXEC with a new sequence number, that number is the last one,
    so that the same datagram again is not executed; the code ran exactly once,
    from the state in which the datagram arrived. *)
Theorem exec_runs_once s s2 eth pkt sz address seq :
  stack_ok did s -> command_ok s eth pkt sz (EXEC address seq) -> seq <> exec_last_seq (m_net s) ->
  run_uploaded address s = Some s2 -> stack_ok did s2 ->
  exists s', net_on_ipv4 eth pkt sz s = inr (tt, s') /\ exec_last_seq (m_net s') = seq /\
    executed (m_trace s') = executed (m_trace s2) /\
    mem_frame (λ a, drv_area a \/ vga_window a) (m_mem s2) (m_mem s').
Proof.
  intros Hok Hc Hne Hrun Hok2.
  pose proof (net_on_ipv4_serves s (set_m_net (set_exec_last_seq seq (m_net s2)) s2) eth pkt sz _ Hok Hc) as Hw.
  cbn [effect] in Hw. rewrite (proj2 (Z.eqb_neq _ _) Hne), Hrun in Hw. specialize (Hw eq_refl).
  apply wp_run in Hw as ([] & s' & E & [Hh Hst Hm Hs _ Hal Hex]). by exists s'.
Qed.

(** A datagram whose words sum to 0xFFFF must carry the checksum 0xFFFF
    (RFC 768: zero means none).  Its receiver's test succeeds, yet the code
    drops it. *)
Theorem udp_ones_checksum_dropped eth src_ip pkt len s :
  let ip := my_ipv4_address (m_net s) in
  let t := udp_sum (rd_bytes (m_mem s) src_ip 4) ip (rd_bytes (m_mem s) pkt (Z.to_nat len)) in
  length ip = 4%nat -> bytes_ok ip -> 8 <= len < 65536 -> fold16 t = 65535 -> udp_field (m_mem s) pkt 6 = 65535 ->
  sums_to_ones t (udp_field (m_mem s) pkt 6) /\ net_on_ipv4_udp eth src_ip pkt len s = inr (tt, s).
Proof.
  intros ip t Hip Hipb Hlen Ht Hck.
  assert (0 <= t) as Ht0 by (apply udp_sum_nonneg; try apply rd_bytes_bytes; [done|rewrite length_rd_bytes; lia]).
  split.
  - rewrite Hck. unfold sums_to_ones, fold16 in *. destruct (t =? 0) eqn:E; bool_to_prop; [done|].
    rewrite (proj2 (Z.eqb_neq _ 0)) by lia. Z.div_mod_to_equations; lia.
  - apply net_on_ipv4_udp_drop; [done|done|lia|]. intros [_ [Hz|Hz]].
    + unfold udp_field in Hck. replace (pkt + 6 + 1) with (pkt + 7) in Hck by lia. lia.
    + unfold udp_field in Hck. replace (pkt + 6 + 1) with (pkt + 7) in Hck by lia.
      fold ip in Hz. fold t in Hz. lia.
Qed.

End Stack.

(** ** Packets on the concrete machine *)

#[local] Instance bench_laws : DriverLaws (net_driver pcnet32) := pcnet32_laws bench_A bench_B 0 bench_layout.

Definition bench_eth (type : Z) : ethernet_frame_header := mkEth bench_mac peer_mac (hton16 type).
Definition bench_pkt : Z := rx_buf bench_B 0 + 14.

(** A machine that has just received [payload] in a frame of the given type,
    after an EXEC with sequence number [q]. *)
Definition bench_state (q type : Z) (payload : list Z) : machine :=
  set_m_net (set_exec_last_seq q bench_net) (received (eth_frame bench_mac peer_mac type payload) (λ m, m)).

Lemma bench_stack q type payload :
  Z.of_nat (length payload) <= 1500 -> stack_ok pcnet32 (bench_state q type payload).
Proof.
  intros Hl. assert (rings_ok bench_A bench_B 0 (bench_state q type payload)) as Hr.
  { destruct (received_rings (eth_frame bench_mac peer_mac type payload) (λ m, m)) as [H1 H2 H3 H4]; [|done|by split].
    unfold eth_frame. rewrite !length_app. cbn. lia. }
  split; try done; by repeat constructor.
Qed.

(** The held packet, and memory from 2 MB up, are nobody else's. *)
Lemma bench_quiet a n :
  (rx_buf bench_B 0 <= a /\ a + n <= rx_buf bench_B 0 + 1600 \/ 2097152 <= a /\ a + n <= 4294967296) ->
  quiet pcnet32 a n.
Proof.
  intros Ha i Hi. unfold rx_buf, bench_B in Ha. rewrite u32_small by lia.
  unfold drv_area, bench_laws, pcnet32_laws, ring_area, vga_window, rx_buf, bench_A, bench_B. lia.
Qed.

(** ** Reading a packet that is known *)

(** Replaces reads of the packet [Hp] describes by its bytes and evaluates. *)
Ltac read_packet Hp :=
  repeat match goal with
  | |- context [rd8 ?m ?a] =>
      let o := offset_of bench_pkt a in let i := eval compute in (Z.to_nat o) in
      rewrite (packet_rd8 m bench_pkt _ a i Hp) by first [reflexivity|cbn; lia]
  | |- context [rd_bytes ?m ?a ?n] =>
      let o := offset_of bench_pkt a in let i := eval compute in (Z.to_nat o) in
      rewrite (packet_bytes m bench_pkt _ a i n Hp) by first [reflexivity|cbn; lia]
  end.

Ltac packet_fact Hp := read_packet Hp; first [reflexivity|vm_compute; first [reflexivity|discriminate]].

Definition bench_payload (l : list Z) : Prop := bytes_ok l /\ Z.of_nat (length l) <= 1500.

Lemma bench_frame q type payload :
  bench_payload payload -> 0 <= type < 65536 ->
  rd_bytes (m_mem (bench_state q type payload)) (rx_buf bench_B 0) (14 + length payload) =
    eth_frame bench_mac peer_mac type payload.
Proof.
  intros [Hb Hl] Ht. unfold bench_state, received. cbn [m_mem set_m_mem set_m_net].
  set (frame := eth_frame _ _ _ _).
  assert (length frame = 14 + length payload)%nat as Elen by done. rewrite <- Elen in *.
  assert (forall P m m' , mem_frame P m m' -> (forall x, P x -> x < bench_B) ->
    rd_bytes m' (rx_buf bench_B 0) (length frame) = rd_bytes m (rx_buf bench_B 0) (length frame)) as Hkeep.
  { intros P m m' HF HP. apply (mem_frame_block _ _ _ _ _ HF); unfold rx_buf, bench_B in *; [lia|lia|].
    intros x Hx Hp. specialize (HP x Hp). lia. }
  erewrite (Hkeep _ _ _ (mem_frame_store16 _ (rx_ring bench_A + 6) 768 _ _)).
  erewrite (Hkeep _ _ _ (mem_frame_store32 _ (rx_ring bench_A + 8) _ _ _)).
  - rewrite rd_bytes_wr_bytes_same by lia. apply fmap_u8_bytes. unfold frame, eth_frame.
    repeat (apply Forall_app; split); [by repeat constructor..| |done].
    unfold be16. repeat constructor; Z.div_mod_to_equations; lia.
  - unfold rx_ring, bench_A, bench_B. intros x. lia.
  - unfold rx_ring, bench_A, bench_B. intros x. lia.
  Unshelve. all: done.
Qed.

Lemma bench_packet q type payload :
  bench_payload payload -> 0 <= type < 65536 ->
  rd_bytes (m_mem (bench_state q type payload)) bench_pkt (length payload) = payload.
Proof.
  intros Hp Ht. pose proof (bench_frame q type payload Hp Ht) as E. rewrite rd_bytes_app in E.
  unfold eth_frame in E. rewrite (app_assoc bench_mac), (app_assoc (bench_mac ++ peer_mac)) in E.
  by apply app_inj_1 in E as [_ E].
Qed.

Definition udp_request (t : list Z) : list Z := udp_packet peer_ip bench_ip 4000 777 t.

(** An IPv4 packet for the machine, from its bytes. *)
Ltac packet_ipv4 Hp := split; unfold ihl, total_length; packet_fact Hp.

(** The checks a command packet passes. *)
Lemma bench_command s sz n t c :
  ipv4_valid (m_mem s) bench_pkt sz (my_ipv4_address (m_net s)) ->
  rd8 (m_mem s) (bench_pkt + 9) = 17 -> ihl (m_mem s) bench_pkt = 20 -> total_length (m_mem s) bench_pkt = 28 + n ->
  0 <= n -> udp_field (m_mem s) (bench_pkt + 20) 6 = 0 -> udp_field (m_mem s) (bench_pkt + 20) 2 = 777 ->
  udp_data_length (m_mem s) (bench_pkt + 20) (8 + n) = n ->
  holds (m_mem s) (bench_pkt + 28) n t ->
  (holds (m_mem s) (bench_pkt + 28) n t -> carries (m_mem s) (bench_pkt + 28) n c) ->
  permitted pcnet32 (bench_pkt + 28) n c s -> n < Z.of_nat env_fuel ->
  command_ok pcnet32 s (bench_eth 2048) bench_pkt sz c.
Proof.
  intros Hv Hproto Hihl Htot Hn Hck Hport Hlen Hh Hc Hperm Hf.
  assert (28 + n - 20 = 8 + n) as E by lia. assert (bench_pkt + 20 + 8 = bench_pkt + 28) as E' by lia.
  split; [split| | | | |]; rewrite ?Hihl, ?Htot, ?E, ?E'.
  - done.
  - done.
  - split; [lia|]. left. unfold udp_field in Hck. by replace (bench_pkt + 20 + 7) with (bench_pkt + 20 + 6 + 1) by lia.
  - done.
  - rewrite Hlen. by apply Hc.
  - done.
  - by repeat constructor.
  - apply bench_quiet. left. unfold bench_pkt. lia.
  - unfold command_data, command_length. by rewrite Hihl, Htot, E, E', Hlen.
  - unfold command_length. by rewrite Hihl, Htot, E, Hlen.
Qed.

(** The evaluated premises of [bench_command]. *)
Ltac bench_facts Hp :=
  lazymatch goal with
  | |- holds _ _ _ _ -> _ => idtac
  | |- permitted _ _ _ _ _ => idtac
  | |- holds _ _ _ _ => split; packet_fact Hp
  | |- _ < Z.of_nat _ => vm_compute; reflexivity
  | |- 0 <= _ => lia
  | |- _ => unfold ihl, total_length, udp_data_length, udp_field; packet_fact Hp
  end.

Ltac hex_args := split; [repeat constructor; vm_compute; intuition congruence|repeat constructor; vm_compute; intuition congruence|discriminate|discriminate|lia].

(** WRITE of four bytes to 3 MB. *)
Definition write_text : list Z := str "WRITE 300000 1" ++ [10; 1; 2; 3; 4].
Definition write_state : machine := bench_state 0 2048 (udp_request write_text).

Lemma write_packet : rd_bytes (m_mem write_state) bench_pkt 47 = udp_request write_text.
Proof. apply (bench_packet 0 2048 (udp_request write_text)); [split; [by repeat constructor|done]|lia]. Qed.

Lemma write_packet_ok s :
  my_ipv4_address (m_net s) = bench_ip -> rd_bytes (m_mem s) bench_pkt 47 = udp_request write_text ->
  command_ok pcnet32 s (bench_eth 2048) bench_pkt 47 (WRITE 3145728 1 [1; 2; 3; 4]).
Proof.
  intros Hip Hp. change 47%nat with (length (udp_request write_text)) in Hp.
  apply (bench_command _ 47 19 write_text); [rewrite Hip; packet_ipv4 Hp|bench_facts Hp..].
  - intros Hh. apply (carries_write _ _ _ 0 (str "300000") 1 (str "1") [] [1; 2; 3; 4]); [exact Hh|hex_args| |constructor].
    change (bench_pkt + 28 + 5 + _) with (bench_pkt + 42). read_packet Hp. split; vm_compute; intuition congruence.
  - split; [|right; vm_compute; discriminate]. intros i Hi. apply (bench_quiet 3145728 4); [right; lia|exact Hi].
Qed.

Lemma write_state_ok : command_ok pcnet32 write_state (bench_eth 2048) bench_pkt 47 (WRITE 3145728 1 [1; 2; 3; 4]).
Proof. apply write_packet_ok; [reflexivity|exact write_packet]. Qed.

Lemma udp_command_served_witness :
  exists s', net_on_ipv4 (bench_eth 2048) bench_pkt 47 write_state = inr (tt, s') /\
    rd_bytes (m_mem s') 3145728 4 = [1; 2; 3; 4].
Proof.
  pose proof (udp_command_served pcnet32 write_state
    (set_m_mem (wr_bytes (m_mem write_state) 3145728 [1; 2; 3; 4]) write_state) (bench_eth 2048) bench_pkt 47
    (WRITE 3145728 1 [1; 2; 3; 4]) (bench_stack 0 2048 (udp_request write_text) ltac:(vm_compute; discriminate))
    write_state_ok eq_refl)
    as (s' & E & _ & _ & _ & _ & HF & _).
  exists s'. split; [exact E|].
  rewrite (mem_frame_rd_bytes _ _ _ 3145728 4 HF).
  - apply (rd_bytes_wr_bytes_same (m_mem write_state) 3145728 [1; 2; 3; 4]). cbn. lia.
  - intros i Hi. pose proof (bench_quiet 3145728 4 ltac:(right; lia) i Hi). tauto.
Defined.

Lemma ipv4_packet_filter_witness :
  net_on_ipv4 (bench_eth 2048) bench_pkt 47 write_state = ipv4_handler (bench_eth 2048) (m_mem write_state) bench_pkt write_state.
Proof.
  apply (ipv4_packet_filter (bench_eth 2048) bench_pkt 47 write_state eq_refl).
  pose proof write_packet as Hp. change 47%nat with (length (udp_request write_text)) in Hp. packet_ipv4 Hp.
Defined.


(** Who has 192.168.250.254? *)
Definition arp_payload : list Z :=
  be16 1 ++ be16 2048 ++ [6; 4] ++ be16 1 ++ peer_mac ++ peer_ip ++ replicate 6 0 ++ bench_ip.
Definition arp_state : machine := bench_state 0 2054 arp_payload.

Lemma arp_packet : rd_bytes (m_mem arp_state) bench_pkt (length arp_payload) = arp_payload.
Proof. apply (bench_packet 0 2054 arp_payload); [split; [by repeat constructor|done]|lia]. Qed.

Lemma arp_requests_answered_witness :
  exists s', net_on_arp (bench_eth 2054) bench_pkt 28 arp_state = inr (tt, s') /\
    sent pcnet32 arp_state s' (eth_frame peer_mac bench_mac 2054 (arp_reply bench_mac bench_ip peer_mac peer_ip)).
Proof.
  pose proof (arp_requests_answered pcnet32 arp_state (bench_eth 2054) bench_pkt 28
    (bench_stack 0 2054 arp_payload ltac:(vm_compute; discriminate)) eq_refl ltac:(by repeat constructor)
    ltac:(apply bench_quiet; left; unfold bench_pkt; lia)) as [Hans _].
  pose proof arp_packet as Hp. destruct Hans as (s' & E & Hs).
  - split; unfold udp_field; packet_fact Hp.
  - exists s'. apply conj; [exact E|].
    assert (rd_bytes (m_mem arp_state) (bench_pkt + 8) 6 = peer_mac) as E1 by packet_fact Hp.
    assert (rd_bytes (m_mem arp_state) (bench_pkt + 14) 4 = peer_ip) as E2 by packet_fact Hp.
    rewrite E1, E2 in Hs. exact Hs.
Defined.

(** ping *)
Definition ping : list Z := [8; 0; 246; 253; 0; 1; 1; 1].
Definition ping_payload : list Z := ipv4_header 1 8 peer_ip bench_ip ++ ping.
Definition ping_state : machine := bench_state 0 2048 ping_payload.

Lemma ping_packet : rd_bytes (m_mem ping_state) bench_pkt (length ping_payload) = ping_payload.
Proof. apply (bench_packet 0 2048 ping_payload); [split; [by repeat constructor|done]|lia]. Qed.

(** The hypotheses of the ICMP theorems. *)
Lemma ping_ok :
  ipv4_valid (m_mem ping_state) bench_pkt 28 bench_ip /\ rd8 (m_mem ping_state) (bench_pkt + 9) = 1 /\
  ihl (m_mem ping_state) bench_pkt = 20 /\ total_length (m_mem ping_state) bench_pkt = 28 /\
  echo_request (m_mem ping_state) (bench_pkt + 20) 8.
Proof.
  pose proof ping_packet as Hp. split_and!.
  - packet_ipv4 Hp.
  - packet_fact Hp.
  - unfold ihl. packet_fact Hp.
  - unfold total_length. packet_fact Hp.
  - apply Build_echo_request; [apply conj; [lia|]| |]; packet_fact Hp.
Qed.


Lemma echo_reply_checksum_witness :
  exists s' reply, net_on_ipv4 (bench_eth 2048) bench_pkt 28 ping_state = inr (tt, s') /\ fold16 (wsum (-1) 0 reply) = 65535.
Proof.
  destruct ping_ok as (Hv & Hpr & Ei & Et & He).
  pose proof (echo_reply_checksum pcnet32 ping_state (bench_eth 2048) bench_pkt 28) as Hans. cbv zeta in Hans.
  rewrite Ei, Et in Hans.
  destruct Hans as (s' & reply & E & _ & _ & _ & Hk); [|reflexivity|by repeat constructor|exact Hv|exact Hpr|lia| | |exact He|reflexivity|
    exists s', reply; apply conj; [exact E|exact Hk]].
  - apply bench_stack. vm_compute. discriminate.
  - apply bench_quiet. left. unfold bench_pkt. lia.
  - apply bench_quiet. left. unfold bench_pkt. lia.
Defined.

(** EXEC of the code at 2 MB with sequence number 5. *)
Definition exec_text : list Z := str "EXEC 200000 5" ++ [10].
Definition exec_state (q : Z) : machine := bench_state q 2048 (udp_request exec_text).

Lemma exec_packet q :
  rd_bytes (m_mem (exec_state q)) bench_pkt (length (udp_request exec_text)) = udp_request exec_text.
Proof. apply (bench_packet q 2048 (udp_request exec_text)); [split; [by repeat constructor|done]|lia]. Qed.

Lemma exec_state_ok q :
  permitted pcnet32 (bench_pkt + 28) 14 (EXEC 2097152 5) (exec_state q) ->
  command_ok pcnet32 (exec_state q) (bench_eth 2048) bench_pkt 42 (EXEC 2097152 5).
Proof.
  intros Hperm. pose proof (exec_packet q) as Hp. 
  apply (bench_command _ 42 14 exec_text); [packet_ipv4 Hp|bench_facts Hp..]; [|exact Hperm].
  intros Hh. apply (carries_exec _ _ _ 0 (str "200000") 1 (str "5") [10]); [exact Hh|hex_args|].
  change (bench_pkt + 28 + 5 + _) with (bench_pkt + 41). read_packet Hp. split; vm_compute; intuition congruence.
Qed.

Lemma exec_again_ok : command_ok pcnet32 (exec_state 5) (bench_eth 2048) bench_pkt 42 (EXEC 2097152 5).
Proof. apply exec_state_ok. by left. Qed.

Lemma exec_not_repeated_witness :
  exists s', net_on_ipv4 (bench_eth 2048) bench_pkt 42 (exec_state 5) = inr (tt, s') /\
    executed (m_trace s') = [].
Proof.
  pose proof (exec_not_repeated pcnet32 (exec_state 5) (bench_eth 2048) bench_pkt 42 2097152 5
    (bench_stack 5 2048 (udp_request exec_text) ltac:(vm_compute; discriminate)) exec_again_ok eq_refl) as (s' & E & Hx & _).
  exists s'. apply conj; [exact E|exact Hx].
Defined.

(** What the uploaded code of the concrete machine does. *)
Definition ran (s : machine) : machine :=
  set_m_mem (wr8 (m_mem s) 3145728 42) (set_m_trace (EvExec 2097152 :: m_trace s) s).

Lemma run_bench s : run_uploaded 2097152 s = Some (ran s).
Proof. reflexivity. Qed.

Lemma ran_stack s : stack_ok pcnet32 s -> stack_ok pcnet32 (ran s).
Proof.
  intros [H1 H2 H3 H4 H5 H6 H7].
  split; try done. eapply law_inv_stable; [exact H2|by split|].
  intros a Ha. unfold ran. cbn [m_mem set_m_mem set_m_trace]. rewrite rd8_wr8_ne; [done|].
  intros E. apply Ha. intros Hd. rewrite <- E in Hd. change (u32 3145728) with (u32 (3145728 + 0)) in Hd.
  exact (proj1 (bench_quiet 3145728 1 ltac:(right; lia) 0 ltac:(lia)) Hd).
Qed.

Lemma exec_new_ok : command_ok pcnet32 (exec_state 4) (bench_eth 2048) bench_pkt 42 (EXEC 2097152 5).
Proof.
  apply exec_state_ok. right. intros s1. rewrite run_bench. intros E. apply (inj Some) in E. rewrite <- E.
  apply ran_stack, (bench_stack 4 2048 (udp_request exec_text)). vm_compute. discriminate.
Qed.

Lemma exec_runs_once_witness :
  exists s', net_on_ipv4 (bench_eth 2048) bench_pkt 42 (exec_state 4) = inr (tt, s') /\
    executed (m_trace s') = [2097152] /\ exec_last_seq (m_net s') = 5.
Proof.
  pose proof (bench_stack 4 2048 (udp_request exec_text) ltac:(vm_compute; discriminate)) as Hst.
  pose proof (exec_runs_once pcnet32 (exec_state 4) (ran (exec_state 4)) (bench_eth 2048) bench_pkt 42 2097152 5
    Hst exec_new_ok ltac:(discriminate) (run_bench _) (ran_stack _ Hst)) as (s' & E & Hq & Hx & _).
  exists s'. split_and!; [exact E|exact Hx|exact Hq].
Defined.

(** A datagram whose words add up to 0xFFFF, sent with that checksum. *)
Definition ones_dgram : list Z := be16 4000 ++ be16 777 ++ be16 10 ++ [255; 255] ++ be16 30431.
Definition ones_state : machine := bench_state 0 2048 (ipv4_header 17 10 peer_ip bench_ip ++ ones_dgram).

Lemma ones_packet :
  rd_bytes (m_mem ones_state) bench_pkt 30 = ipv4_header 17 10 peer_ip bench_ip ++ ones_dgram.
Proof. apply (bench_packet 0 2048 (ipv4_header 17 10 peer_ip bench_ip ++ ones_dgram)); [split; [by repeat constructor|done]|lia]. Qed.

Lemma udp_ones_checksum_dropped_witness :
  sums_to_ones (udp_sum (rd_bytes (m_mem ones_state) (bench_pkt + 12) 4) bench_ip (rd_bytes (m_mem ones_state) (bench_pkt + 20) 10))
    (udp_field (m_mem ones_state) (bench_pkt + 20) 6) /\
  net_on_ipv4_udp (bench_eth 2048) (bench_pkt + 12) (bench_pkt + 20) 10 ones_state = inr (tt, ones_state).
Proof.
  pose proof ones_packet as Hp.
  change 30%nat with (length (ipv4_header 17 10 peer_ip bench_ip ++ ones_dgram)) in Hp.
  apply (udp_ones_checksum_dropped (bench_eth 2048) (bench_pkt + 12) (bench_pkt + 20) 10 ones_state).
  - reflexivity.
  - by repeat constructor.
  - lia.
  - packet_fact Hp.
  - unfold udp_field. packet_fact Hp.
Defined.

Lemma own_packets_accepted_witness :
  net_on_ipv4 (bench_eth 2048) bench_pkt 47 write_state =
    serve (bench_eth 2048) (bench_pkt + 12) 4000 777 (bench_pkt + 28) 19 write_state.
Proof.
  apply (own_packets_accepted (bench_eth 2048) bench_pkt peer_ip 4000 write_text write_state).
  - reflexivity.
  - reflexivity.
  - by repeat constructor.
  - vm_compute. discriminate.
  - exact write_packet.
Defined.
