(* ===== verification/Poll.v ===== *)
(** * The poll over any driver

    What [net_idle] does with every kind of frame, stated once for all drivers:
    [frame_effect] is the abstract behaviour, [ReceiverLaws] what a driver
    promises about receiving, and the theorems run [net_idle] between them, once
    and in a loop. *)

From S2P Require Import Prelude Machine Memory Vga Text Checksum NetDriver NetStack Packets Replies Commands Server Ip ArpIcmp Stack.

Section Dispatch.
Context `{Env} `{NetDrivers} (did : driver_id) `{L : !DriverLaws (net_driver did)}.

(** ** The abstract behaviour *)

Definition for_us (s : machine) (eth : ethernet_frame_header) : Prop :=
  dst_mac eth = bcast \/ dst_mac eth = my_eth_mac (m_net s).

(** The frames of an EtherType that are looked at. *)
Definition accepted (s : machine) (eth : ethernet_frame_header) (type : Z) : Prop :=
  for_us s eth /\ ntoh16 (eth_type eth) = type.

Definition ip_data (m : gmap Z Z) (pkt : Z) : Z := pkt + ihl m pkt.
Definition ip_length (m : gmap Z Z) (pkt : Z) : Z := total_length m pkt - ihl m pkt.

(** A valid IPv4 packet with the given protocol. *)
Definition ip_packet (s : machine) (eth : ethernet_frame_header) (pkt sz proto : Z) : Prop :=
  accepted s eth ETH_TYPE_IPv4 /\ ipv4_valid (m_mem s) pkt sz (my_ipv4_address (m_net s)) /\ rd8 (m_mem s) (pkt + 9) = proto.

(** What a frame does: the frame sent in answer, if any, and the machine whose
    memory and variables the target then has.  Only commands that leave the
    target's own memory in peace are covered. *)
Inductive frame_effect (s : machine) (eth : ethernet_frame_header) (pkt sz : Z) : option (list Z) -> machine -> Prop :=
  | fe_foreign : ~ for_us s eth -> frame_effect s eth pkt sz None s
  | fe_arp : accepted s eth ETH_TYPE_ARP -> arp_request (m_mem s) pkt (my_ipv4_address (m_net s)) -> quiet did pkt 28 ->
      frame_effect s eth pkt sz
        (Some (eth_frame (src_mac eth) (my_eth_mac (m_net s)) ETH_TYPE_ARP
          (arp_reply (my_eth_mac (m_net s)) (my_ipv4_address (m_net s))
             (rd_bytes (m_mem s) (pkt + 8) 6) (rd_bytes (m_mem s) (pkt + 14) 4)))) s
  | fe_arp_ignored : accepted s eth ETH_TYPE_ARP -> ~ arp_request (m_mem s) pkt (my_ipv4_address (m_net s)) ->
      frame_effect s eth pkt sz None s
  | fe_ip_ignored : accepted s eth ETH_TYPE_IPv4 -> ~ ipv4_valid (m_mem s) pkt sz (my_ipv4_address (m_net s)) ->
      frame_effect s eth pkt sz None s
  | fe_echo : ip_packet s eth pkt sz 1 -> ip_length (m_mem s) pkt <= 1460 -> quiet did (pkt + 12) 4 ->
      quiet did (ip_data (m_mem s) pkt) (ip_length (m_mem s) pkt) ->
      echo_request (m_mem s) (ip_data (m_mem s) pkt) (ip_length (m_mem s) pkt) ->
      frame_effect s eth pkt sz
        (Some (eth_frame (src_mac eth) (my_eth_mac (m_net s)) ETH_TYPE_IPv4
          (ipv4_header 1 (ip_length (m_mem s) pkt) (my_ipv4_address (m_net s)) (rd_bytes (m_mem s) (pkt + 12) 4) ++
           echo_reply (rd_bytes (m_mem s) (ip_data (m_mem s) pkt) (Z.to_nat (ip_length (m_mem s) pkt)))))) s
  | fe_icmp_ignored : ip_packet s eth pkt sz 1 -> ~ echo_request (m_mem s) (ip_data (m_mem s) pkt) (ip_length (m_mem s) pkt) ->
      frame_effect s eth pkt sz None s
  | fe_command c s1 : accepted s eth ETH_TYPE_IPv4 -> command_ok did s eth pkt sz c -> effect c s = Some s1 ->
      frame_effect s eth pkt sz
        (Some (eth_frame (src_mac eth) (my_eth_mac (m_net s1)) ETH_TYPE_IPv4
          (udp_packet (my_ipv4_address (m_net s1)) (rd_bytes (m_mem s1) (pkt + 12) 4) 777 (command_sport s pkt) (answer c s)))) s1
  | fe_udp_ignored : ip_packet s eth pkt sz 17 ->
      ~ udp_valid (m_mem s) (my_ipv4_address (m_net s)) (pkt + 12) (ip_data (m_mem s) pkt) (ip_length (m_mem s) pkt) ->
      frame_effect s eth pkt sz None s
  | fe_udp_printed : ip_packet s eth pkt sz 17 -> udp_field (m_mem s) (ip_data (m_mem s) pkt) 2 <> 777 ->
      frame_effect s eth pkt sz None s
  | fe_ip_other proto : ip_packet s eth pkt sz proto -> proto <> 1 -> proto <> 17 -> frame_effect s eth pkt sz None s
  | fe_other type : accepted s eth type -> type <> ETH_TYPE_ARP -> type <> ETH_TYPE_IPv4 -> frame_effect s eth pkt sz None s.

(** The code has done it: the answer is with the card, and otherwise only the
    driver's memory and the screen differ from [s1]. *)
Record handled (s1 s' : machine) (out : option (list Z)) : Prop := {
  hd_stack : stack_ok did s';
  hd_mem : mem_frame (λ a, drv_area a \/ vga_window a) (m_mem s1) (m_mem s');
  hd_alloc : m_alloc s' = m_alloc s1;
  hd_seq : exec_last_seq (m_net s') = exec_last_seq (m_net s1);
  hd_open : chosen_net_drv_open (m_net s') = chosen_net_drv_open (m_net s1);
  hd_out : forall f, out = Some f -> drv_handed s' f
}.

Lemma handled_same s : stack_ok did s -> handled s s None.
Proof. by split. Qed.

Lemma handled_printed s s' : stack_ok did s -> console_inv s' -> console_frame s s' -> handled s s' None.
Proof.
  intros Hok Hv HF. pose proof (console_stack did s s' Hok Hv HF). destruct HF as [Hm Hs _].
  pose proof (ss_net _ _ Hs) as En. pose proof (ss_alloc _ _ Hs). split; rewrite ?En; try done.
  eapply mem_frame_weaken; [|exact Hm]. auto.
Qed.

Lemma handled_sent s s' f : sent did s s' f -> handled s s' (Some f).
Proof. intros [Hh Hok Hm En Ea]. split; rewrite ?En; try done. by intros ? [= <-]. Qed.

(** *** Printing handlers *)

Lemma prints_dump c : forall p, prints (vga_dump p c).
Proof. induction c as [|c IH]; intros p; cbn [vga_dump]; unfold load8; solve_stays. Qed.

#[local] Hint Resolve prints_dump : stays.

Lemma prints_net_dump eth p sz : prints (net_dump eth p sz).
Proof. unfold net_dump, load8. solve_stays. Qed.

(** A datagram for another port is printed, or dropped for its checksum. *)
Lemma prints_udp eth src_ip pkt len s :
  console_inv s -> udp_field (m_mem s) pkt 2 <> 777 ->
  wp (net_on_ipv4_udp eth src_ip pkt len) (λ _ s', console_inv s' /\ console_frame s s') s.
Proof.
  intros Hv Hp. unfold net_on_ipv4_udp, read_mem, my_ip. case_bool; [by wp_step|]. do 4 wp_step. case_bool; [by wp_step|].
  rewrite !ntoh16_rd16. change (256 * _ + rd8 (m_mem s) (pkt + 2 + 1)) with (udp_field (m_mem s) pkt 2).
  rewrite (proj2 (Z.eqb_neq _ _) Hp).
  match goal with |- wp ?c _ _ => assert (prints c) as Hc by solve_stays end. by apply Hc.
Qed.

(** *** The dispatch *)

Lemma memcmp_mac (a b : list Z) : length a = 6%nat -> length b = 6%nat -> (memcmp a b 6 =? 0) = bool_decide (a = b).
Proof.
  intros Ha Hb. pose proof (memcmp_eq_0 6 a b Ha Hb) as He. case_bool_decide; [by apply Z.eqb_eq, He|].
  apply Z.eqb_neq. by rewrite He.
Qed.

Definition handler (eth : ethernet_frame_header) (pkt sz type : Z) : M unit :=
  if type =? ETH_TYPE_ARP then net_on_arp eth pkt sz
  else if type =? ETH_TYPE_IPv4 then net_on_ipv4 eth pkt sz
  else six ← load_bytes pkt 6; if memcmp six bcast 6 =? 0 then skip else net_dump eth pkt sz.

Lemma dispatch_accepted s eth pkt sz type :
  length (dst_mac eth) = 6%nat -> length (my_eth_mac (m_net s)) = 6%nat -> accepted s eth type ->
  net_dispatch eth pkt sz s = handler eth pkt sz type s.
Proof.
  intros Hd Hm [Hu <-]. unfold net_dispatch, my_mac. run. rewrite !memcmp_mac by done.
  assert (bool_decide (dst_mac eth = bcast) || bool_decide (dst_mac eth = my_eth_mac (m_net s)) = true) as ->
    by (apply orb_true_iff; rewrite !bool_decide_eq_true; exact Hu). done.
Qed.

Lemma dispatch_foreign s eth pkt sz :
  length (dst_mac eth) = 6%nat -> length (my_eth_mac (m_net s)) = 6%nat -> ~ for_us s eth ->
  net_dispatch eth pkt sz s = inr (tt, s).
Proof.
  intros Hd Hm Hu. unfold net_dispatch, my_mac. run. rewrite !memcmp_mac by done. unfold for_us in Hu.
  by rewrite !bool_decide_eq_false_2 by tauto.
Qed.

Lemma prints_other eth pkt sz type : type <> ETH_TYPE_ARP -> type <> ETH_TYPE_IPv4 -> prints (handler eth pkt sz type).
Proof.
  intros Ha Hi. unfold handler. rewrite (proj2 (Z.eqb_neq _ _) Ha), (proj2 (Z.eqb_neq _ _) Hi). unfold load_bytes.
  pose proof prints_net_dump. solve_stays.
Qed.

Lemma handler_ip s eth pkt sz proto :
  stack_ok did s -> length (dst_mac eth) = 6%nat -> ip_packet s eth pkt sz proto ->
  net_dispatch eth pkt sz s =
    (if proto =? 1 then net_on_ipv4_icmp eth (pkt + 12) (ip_data (m_mem s) pkt) (ip_length (m_mem s) pkt)
     else if proto =? 17 then net_on_ipv4_udp eth (pkt + 12) (ip_data (m_mem s) pkt) (ip_length (m_mem s) pkt) else skip) s.
Proof.
  intros Hok Hd (Ha & Hv & <-). rewrite (dispatch_accepted s eth pkt sz ETH_TYPE_IPv4) by (done || apply Hok).
  change (handler eth pkt sz ETH_TYPE_IPv4) with (net_on_ipv4 eth pkt sz). rewrite net_on_ipv4_valid by (done || apply Hok). done.
Qed.

Lemma net_dispatch_spec s s1 eth pkt sz out :
  stack_ok did s -> length (dst_mac eth) = 6%nat -> length (src_mac eth) = 6%nat -> bytes_ok (src_mac eth) ->
  frame_effect s eth pkt sz out s1 -> wp (net_dispatch eth pkt sz) (λ _ s', handled s1 s' out) s.
Proof.
  intros Hok Hd Hm Hmb Hf. pose proof (so_mac _ _ Hok) as Hmy. pose proof (so_ip _ _ Hok) as Hip.
  assert (forall type c, accepted s eth type -> handler eth pkt sz type s = inr (tt, c) -> handled s1 c out ->
    wp (net_dispatch eth pkt sz) (λ _ s', handled s1 s' out) s) as Hgo.
  { intros type c Ha E Hc. unfold wp. by rewrite (dispatch_accepted _ _ _ _ type), E. }
  assert (forall proto c, ip_packet s eth pkt sz proto -> net_on_ipv4 eth pkt sz s = inr (tt, c) -> handled s1 c out ->
    wp (net_dispatch eth pkt sz) (λ _ s', handled s1 s' out) s) as Hip4.
  { intros proto c [Ha _] E Hc. by apply (Hgo ETH_TYPE_IPv4 c). }
  destruct Hf as [Hu|Ha Hr Hq|Ha Hr|Ha Hv|Hp Hl Hq1 Hq2 He|Hp He|c s1 Ha Hc Heff|Hp Hv|Hp Hport|proto Hp H1 H2|type Ha H1 H2].
  - unfold wp. rewrite dispatch_foreign by done. by apply handled_same.
  - pose proof (net_on_arp_answers did s eth pkt sz Hok Hm Hmb Hq Hr) as Hw. apply wp_run in Hw as ([] & s' & E & Hs).
    apply (Hgo ETH_TYPE_ARP s'); [done|exact E|by apply handled_sent].
  - apply (Hgo ETH_TYPE_ARP s); [done|by apply net_on_arp_ignores|by apply handled_same].
  - apply (Hgo ETH_TYPE_IPv4 s); [done|by apply net_on_ipv4_invalid|by apply handled_same].
  - destruct (icmp_echo_sent did s eth pkt sz Hok Hm Hmb) as (s' & E & Hs); try done; [apply Hp..|].
    apply (Hip4 1 s'); [done|exact E|by apply handled_sent].
  - eapply wp_conv; [by apply (handler_ip s eth pkt sz 1)|]. unfold wp. cbn [Z.eqb Pos.eqb].
    rewrite net_on_ipv4_icmp_ignores by done. by apply handled_same.
  - pose proof (net_on_ipv4_serves did s s1 eth pkt sz c Hok Hc Heff) as Hw.
    apply wp_run in Hw as ([] & s' & E & [Hh Hst HM Hseq (_ & _ & Hop) Hal _]).
    apply (Hgo ETH_TYPE_IPv4 s'); [done|exact E|]. split; try done. by intros ? [= <-].
  - eapply wp_conv; [by apply (handler_ip s eth pkt sz 17)|]. unfold wp. cbn [Z.eqb Pos.eqb].
    assert (ip_length (m_mem s) pkt < 65536) as Hlen.
    { unfold ip_length. pose proof (total_length_range (m_mem s) pkt). destruct Hp as (_ & [] & _). lia. }
    rewrite net_on_ipv4_udp_drop by (done || apply Hok). by apply handled_same.
  - eapply wp_conv; [by apply (handler_ip s eth pkt sz 17)|]. cbn [Z.eqb Pos.eqb].
    eapply wp_mono; [apply prints_udp; [apply Hok|done]|]. intros [] s' [Hv' HF]. by apply handled_printed.
  - eapply wp_conv; [by apply (handler_ip s eth pkt sz proto)|].
    rewrite (proj2 (Z.eqb_neq _ _) H1), (proj2 (Z.eqb_neq _ _) H2). wp_step. by apply handled_same.
  - eapply wp_conv; [by apply (dispatch_accepted s eth pkt sz type)|].
    eapply (stays_wp _ _ _ _ s (prints_other eth pkt sz type H1 H2)); [apply Hok|]. intros [] s' Hv' HF. by apply handled_printed.
Qed.

End Dispatch.

(** ** Receiving through the interface *)

(** A packet in hand: the driver can send without touching the packet (up to
    1504 bytes of it), the header is the one in the buffer and [put_packet] makes the driver ready for the next packet, with the last
    frame still handed over. *)
Record holding (d : network_driver) (area : Z -> Prop) (idle : machine -> Prop) (out : machine -> list Z -> Prop)
    (L : DriverLaws d) (pkt : Z) (eth : ethernet_frame_header) (s : machine) : Prop := {
  ho_inv : drv_inv s;
  ho_eth : eth = load_eth (m_mem s) (pkt - 14);
  ho_packet : forall a, pkt - 14 <= a < pkt + 1504 -> ~ drv_area a /\ ~ vga_window a;
  ho_area : forall a, drv_area a -> area a;
  ho_put : forall s1, drv_inv s1 -> vga_ok (m_vga s1) ->
    wp (drv_put_packet d pkt) (λ _ s2, idle s2 /\ drv_step area s1 s2 /\ forall f, drv_handed s1 f -> out s2 f) s1
}.

(** A driver between two packets, and what [get_packet] does then. *)
Class ReceiverLaws (d : network_driver) : Type := {
  rcv_area : Z -> Prop;
  rcv_idle : machine -> Prop;
  rcv_handed : machine -> list Z -> Prop;
  rcv_get s :
    rcv_idle s -> vga_ok (m_vga s) ->
    wp (drv_get_packet d) (λ r s', drv_step rcv_area s s' /\
      match r with
      | None => rcv_idle s'
      | Some (pkt, sz, eth) => exists L : DriverLaws d, holding d rcv_area rcv_idle rcv_handed L pkt eth s'
      end) s;
  rcv_stable s s' : rcv_idle s -> same_drivers s s' -> mem_frame vga_window (m_mem s) (m_mem s') -> rcv_idle s'
}.

Section Poll.
Context `{Env} `{NetDrivers} (did : driver_id) `{R : !ReceiverLaws (net_driver did)}.

(** The machine between two polls. *)
Record poll_ok (s : machine) : Prop := {
  po_idle : rcv_idle s;
  po_drv : chosen_net_drv (m_net s) = Some did;
  po_open : chosen_net_drv_open (m_net s) <> 0;
  po_vga : vga_ok (m_vga s);
  po_ip : length (my_ipv4_address (m_net s)) = 4%nat;
  po_ip_bytes : bytes_ok (my_ipv4_address (m_net s));
  po_mac : length (my_eth_mac (m_net s)) = 6%nat;
  po_mac_bytes : bytes_ok (my_eth_mac (m_net s))
}.

(** What a pass sees: nothing, or a frame together with the driver that holds it. *)
Definition sees (s : machine) (r : option (Z * Z * ethernet_frame_header)) (s2 : machine) : Prop :=
  drv_get_packet (net_driver did) s = inr (r, s2).

(** The whole pass: with no frame it ends where [get_packet] left it; with a
    frame of [frame_effect] it ends with that effect and the driver idle. *)
Record passed (s1 s' : machine) (out : option (list Z)) : Prop := {
  pa_ok : chosen_net_drv_open (m_net s1) <> 0 -> poll_ok s';
  pa_mem : mem_frame (λ a, rcv_area a \/ vga_window a) (m_mem s1) (m_mem s');
  pa_alloc : m_alloc s' = m_alloc s1;
  pa_seq : exec_last_seq (m_net s') = exec_last_seq (m_net s1);
  pa_out : forall f, out = Some f -> rcv_handed s' f
}.

Lemma net_idle_get s r s2 :
  poll_ok s -> sees s r s2 ->
  net_idle s = match r with
               | None => inr (tt, s2)
               | Some (pkt, sz, eth) => (net_dispatch eth pkt sz ;; chosen (λ d, drv_put_packet d pkt)) s2
               end.
Proof.
  intros [] E. unfold net_idle, chosen, sees in *. run. rewrite (proj2 (Z.eqb_neq _ _)) by done. run. rewrite po_drv0. run.
  rewrite E. by destruct r as [[[]]|].
Qed.

Lemma step_poll_ok s s2 : poll_ok s -> drv_step rcv_area s s2 -> rcv_idle s2 -> poll_ok s2.
Proof. intros [] [] Hi. split; try done; by rewrite ds_net. Qed.

(** Printing between two polls. *)
Lemma console_poll_ok s s2 : poll_ok s -> console_inv s2 -> console_frame s s2 -> poll_ok s2.
Proof.
  intros [] Hv [Hm [] _]. split; rewrite ?ss_net; try done. eapply rcv_stable; [done|by split|done].
Qed.

(** The dialogue that changes the address. *)
Lemma set_ip_poll_ok s ip :
  poll_ok s -> length ip = 4%nat -> bytes_ok ip -> poll_ok (set_m_net (set_my_ipv4_address ip (m_net s)) s).
Proof. intros [] Hl Hb. split; try done. by apply (rcv_stable s). Qed.

Lemma held_stack (L : DriverLaws (net_driver did)) s s2 pkt eth :
  poll_ok s -> drv_step rcv_area s s2 -> holding _ rcv_area rcv_idle rcv_handed L pkt eth s2 -> stack_ok did s2.
Proof. intros [] [] []. split; try done; by rewrite ds_net. Qed.

Lemma handled_passed (L : DriverLaws (net_driver did)) s1 s3 out pkt eth s2 :
  holding _ rcv_area rcv_idle rcv_handed L pkt eth s2 -> handled did s1 s3 out ->
  wp (chosen (λ d, drv_put_packet d pkt)) (λ _ s', passed s1 s' out) s3.
Proof.
  intros Hh [Hst Hm Ha Hs Ho Hout]. apply (wp_chosen did); [apply Hst|].
  eapply wp_mono; [apply (ho_put _ _ _ _ _ _ _ _ Hh); apply Hst|]. intros [] s' (Hi & [] & Hk). destruct Hst. split.
  - intros Hop. split; rewrite ?ds_net; try done. by rewrite Ho.
  - etransitivity; [|exact ds_mem]. eapply mem_frame_weaken; [|exact Hm]. intros a [Hd|Hw]; [left; by apply (ho_area _ _ _ _ _ _ _ _ Hh)|by right].
  - congruence.
  - by rewrite ds_net.
  - intros f Ef. by apply Hk, Hout.
Qed.

(** One pass, for every driver: the frame it sees is as the card delivered it,
    and what it does to the machine is its abstract effect. *)
Lemma net_idle_pass_spec s :
  poll_ok s ->
  exists r s2, sees s r s2 /\ drv_step rcv_area s s2 /\
    match r with
    | None => net_idle s = inr (tt, s2) /\ poll_ok s2
    | Some (pkt, sz, eth) => exists L : DriverLaws (net_driver did),
        holding _ rcv_area rcv_idle rcv_handed L pkt eth s2 /\ stack_ok did s2 /\
        forall out s1, frame_effect did s2 eth pkt sz out s1 ->
          exists s', net_idle s = inr (tt, s') /\ passed s1 s' out
    end.
Proof.
  intros Hs. pose proof (rcv_get s (po_idle _ Hs) (po_vga _ Hs)) as Hg. apply wp_run in Hg as (r & s2 & E & D & Hr).
  exists r, s2. split_and!; [done|done|]. pose proof (net_idle_get s r s2 Hs E) as En. destruct r as [[[pkt sz] eth]|].
  - destruct Hr as [L Hh]. exists L. pose proof (held_stack L s s2 pkt eth Hs D Hh) as Hst. split_and!; [done|done|].
    intros out s1 Hf. rewrite En. apply wp_run_unit. wp_step.
    pose proof (ho_eth _ _ _ _ _ _ _ _ Hh) as ->.
    eapply wp_mono; [apply (net_dispatch_spec did s2 s1); try done; [apply length_rd_bytes..|apply rd_bytes_bytes]|].
    intros [] s3 Hd. by apply (handled_passed L s1 s3 out pkt (load_eth (m_mem s2) (pkt - 14)) s2).
  - split; [done|]. by apply (step_poll_ok s).
Qed.

(** ** The loop *)

Fixpoint poll (n : nat) : M unit :=
  match n with
  | O => skip
  | S n' => net_idle ;; poll n'
  end.

(** The frame that a pass from [s] sees, if any, has an abstract effect that
    leaves the card open. *)
Definition frame_served (s : machine) : Prop :=
  forall s2 pkt sz eth (L : DriverLaws (net_driver did)), sees s (Some (pkt, sz, eth)) s2 ->
    holding _ rcv_area rcv_idle rcv_handed L pkt eth s2 -> stack_ok did s2 ->
    exists out s1, frame_effect did s2 eth pkt sz out s1 /\ chosen_net_drv_open (m_net s1) <> 0.

(** The same for the next [n] passes: what the protocol asks of the hosts on
    the network. *)
Fixpoint fed (n : nat) (s : machine) : Prop :=
  match n with
  | O => True
  | S n' =>
      frame_served s /\ (forall s', net_idle s = inr (tt, s') -> fed n' s')
  end.

Lemma net_idle_served s : poll_ok s -> frame_served s -> wp net_idle (λ _ s', poll_ok s') s.
Proof.
  intros Hs Hf. apply wp_run. destruct (net_idle_pass_spec s Hs) as (r & s2 & E & _ & Hr).
  destruct r as [[[pkt sz] eth]|]; [|by exists tt, s2]. destruct Hr as (L & Hh & Hst & Hr).
  destruct (Hf s2 pkt sz eth L E Hh Hst) as (out & s1 & He & Ho). destruct (Hr out s1 He) as (s' & E' & [Hok _ _ _ _]).
  exists tt, s'. split; [done|by apply Hok].
Qed.

Lemma poll_spec n : forall s, poll_ok s -> fed n s -> exists s', poll n s = inr (tt, s') /\ poll_ok s'.
Proof.
  induction n as [|n IH]; intros s Hs Hf; cbn [poll]; [by exists s|]. destruct Hf as [Hf Hn].
  pose proof (net_idle_served s Hs Hf) as Hw. apply wp_run in Hw as ([] & s' & E' & Hs').
  destruct (IH s' Hs' (Hn s' E')) as (s3 & E3 & Hs3). exists s3. split; [|done]. run. by rewrite E'.
Qed.

End Poll.
