(* ===== verification/Receivers.v ===== *)
(** * The drivers as receivers

    Each driver of the table satisfies [ReceiverLaws], so that the theorems of
    [Poll] hold for it. *)

From S2P Require Import Prelude Machine Memory Vga NetDriver Rings Pcnet32 Rtl8101 Rtl8139 Ne2000 Drivers Poll NetStack.

Lemma load_eth_kept P m m' p :
  mem_frame P m m' -> 0 <= p -> p + 14 <= 4294967296 -> (forall x, p <= x < p + 14 -> ~ P x) -> load_eth m' p = load_eth m p.
Proof.
  intros HF H0 H1 HP. unfold load_eth. f_equal.
  - apply (mem_frame_block _ _ _ _ _ HF); [lia|lia|]. intros x Hx. apply HP. lia.
  - apply (mem_frame_block _ _ _ _ _ HF); [lia|lia|]. intros x Hx. apply HP. lia.
  - apply (mem_frame_rd16 _ _ _ _ HF); [lia|lia|]. intros x Hx. apply HP. lia.
Qed.

(** Steps of the card, and of the driver's own variables, as driver steps. *)
Lemma mem_step_drv (area : Z -> Prop) s s' :
  vga_ok (m_vga s) -> mem_frame area (m_mem s) (m_mem s') -> executed (m_trace s') = executed (m_trace s) ->
  s' = set_m_ne2000 (m_ne2000 s') (set_m_rtl8101 (m_rtl8101 s') (set_m_pcnet32 (m_pcnet32 s')
    (set_m_trace (m_trace s') (set_m_mem (m_mem s') s)))) ->
  drv_step area s s'.
Proof.
  intros Hv HF Hx E. split; try by rewrite E. eapply mem_frame_weaken; [|exact HF]. auto.
Qed.

(** ** PCnet *)

Section Pcnet.
Context `{Env} `{Linker} (A B : Z) `{Card : !CardOk A B}.

Definition pcnet_area (a : Z) : Prop := A <= a < A + 640 \/ B <= a < B + 51200.
Definition pcnet_idle (s : machine) : Prop := exists j, rings_idle A B j s.
Definition pcnet_handed (s : machine) (f : list Z) : Prop := exists j, pcnet32_handed A B j s f.

Lemma pcnet_looked j s : rings_idle A B j s -> vga_ok (m_vga s) -> drv_step pcnet_area s (looked A j s).
Proof.
  intros [Hl _ _] Hv. destruct Hl. apply mem_step_drv; [done| |reflexivity|reflexivity].
  cbn. eapply mem_frame_weaken; [|apply (card_frame A B)]. intros a (i & Hi & Ha).
  unfold pcnet_area, tx_ring, rx_ring, rx_buf in *. lia.
Qed.

Lemma pcnet_held_step j s s' : layout_ok A B j -> vga_ok (m_vga s) -> held_step A B j s s' -> drv_step pcnet_area s s'.
Proof.
  intros Hl Hv (_ & HF & tr & E & X). destruct Hl. apply mem_step_drv; [done| | |rewrite E; reflexivity].
  - eapply mem_frame_weaken; [|exact HF]. unfold card_area, ring_area, pcnet_area. lia.
  - rewrite E. cbn. by rewrite executed_app, X.
Qed.

Lemma pcnet_released j s s' : layout_ok A B j -> vga_ok (m_vga s) -> released A B j s s' -> drv_step pcnet_area s s'.
Proof.
  intros Hl Hv [_ _ _ _ HF E]. destruct Hl. apply mem_step_drv; [done| | |rewrite E; reflexivity].
  - eapply mem_frame_weaken; [|exact HF]. unfold held_desc, rx_ring, pcnet_area. lia.
  - by rewrite E.
Qed.

Lemma next_desc_layout j : layout_ok A B j -> layout_ok A B (next_desc j).
Proof. intros []. split; try done. unfold next_desc. case_bool; bool_to_prop; lia. Qed.

Lemma released_handed j s s' f :
  pcnet32_handed A B j s f -> released A B j s s' -> pcnet32_handed A B (next_desc j) s' f.
Proof.
  intros (k & Hk & Ht & Hf & Hl & E1 & E2 & E3 & E4) []. exists k. pose proof (next_desc_layout j Hl). destruct Hl.
  assert (pcnet32_tx_offset (m_pcnet32 s') = pcnet32_tx_offset (m_pcnet32 s)) as -> by (rewrite rel_rest; done).
  unfold held_desc, tx_ring, rx_ring, tx_buf in *. split_and!; try (done || lia).
  - etrans; [|exact E1]. apply (mem_frame_rd32 _ _ _ _ rel_mem); (lia || (intros; lia)).
  - etrans; [|exact E2]. apply (mem_frame_rd16 _ _ _ _ rel_mem); (lia || (intros; lia)).
  - etrans; [|exact E3]. apply (mem_frame_rd16 _ _ _ _ rel_mem); (lia || (intros; lia)).
  - etrans; [|exact E4]. apply (mem_frame_block _ _ _ _ _ rel_mem); (lia || (intros; lia)).
Qed.

Lemma pcnet_holding j (Hl : layout_ok A B j) s1 s2 :
  held_step A B j s1 s2 ->
  holding pcnet32_driver pcnet_area pcnet_idle pcnet_handed (pcnet32_laws A B j Hl)
    (rx_buf B j + 14) (load_eth (m_mem s1) (rx_buf B j)) s2.
Proof.
  intros Hh. pose proof Hh as (Hr & HF & _). pose proof Hl as []. split.
  - exact Hr.
  - replace (rx_buf B j + 14 - 14) with (rx_buf B j) by lia. symmetry.
    unfold card_area, ring_area, rx_buf in *. apply (load_eth_kept _ _ _ _ HF); [lia|lia|]. intros x Hx. lia.
  - cbn [drv_area pcnet32_laws]. unfold ring_area, vga_window, rx_buf. lia.
  - cbn [drv_area pcnet32_laws]. unfold ring_area, pcnet_area, rx_buf. lia.
  - intros s3 Hs3 Hv. eapply wp_mono; [exact (pcnet32_put_packet_spec A B j s3 _ (rings_ok_idle _ _ _ _ Hs3))|].
    intros [] s4 Hrel. split_and!; [exists (next_desc j); apply Hrel|by apply (pcnet_released j)|].
    intros f Hf. exists (next_desc j). by apply (released_handed j s3).
Qed.

Lemma pcnet_get s :
  pcnet_idle s -> vga_ok (m_vga s) ->
  wp pcnet32_get_packet (λ r s', drv_step pcnet_area s s' /\
    match r with
    | None => pcnet_idle s'
    | Some (pkt, sz, eth) => exists L, holding pcnet32_driver pcnet_area pcnet_idle pcnet_handed L pkt eth s'
    end) s.
Proof.
  intros [j Hi] Hv. pose proof (ri_layout _ _ _ _ Hi) as Hl. pose proof (pcnet_looked j s Hi Hv) as D1.
  eapply wp_mono; [by apply (pcnet32_get_packet_spec A B j)|]. intros r s' Ho. unfold rx_outcome in Ho.
  destruct (classify _ _).
  - destruct Ho as [-> ->]. split; [done|]. exists j. by apply looked_idle.
  - destruct Ho as [-> (s2 & Hh & Hr)]. pose proof (pcnet_held_step j _ _ Hl (ds_vga _ _ _ D1) Hh) as D2. split.
    + transitivity (looked A j s); [done|]. transitivity s2; [done|]. apply (pcnet_released j); [done|apply D2|done].
    + exists (next_desc j). apply Hr.
  - destruct Ho as [-> Hh]. split; [transitivity (looked A j s); [done|by apply (pcnet_held_step j), Hh; [|apply D1]]|].
    exists j. apply rings_ok_idle, Hh.
  - destruct Ho as [-> Hh]. split; [transitivity (looked A j s); [done|by apply (pcnet_held_step j), Hh; [|apply D1]]|].
    exists (pcnet32_laws A B j Hl). by apply pcnet_holding.
Qed.

Lemma pcnet_stable s s' : pcnet_idle s -> same_drivers s s' -> mem_frame vga_window (m_mem s) (m_mem s') -> pcnet_idle s'.
Proof.
  intros [j [Hl Hv Hm]] Hs HF. exists j. split; [done|by rewrite (sd_pcnet32 _ _ Hs)|].
  eapply (ring_mem_frame A B j); [done|done|exact HF|]. destruct Hl.
  unfold pointer_cell, vga_window, tx_ring, rx_ring. intros x [Hx|(i & Hi & Hx)]; lia.
Qed.

#[export] Instance pcnet32_receiver : ReceiverLaws pcnet32_driver :=
  Build_ReceiverLaws pcnet32_driver pcnet_area pcnet_idle pcnet_handed pcnet_get pcnet_stable.

End Pcnet.

(** ** RealTek 8101 *)

Section Realtek.
Context `{Env} (A B : Z) `{Card : !RtlCardOk A B}.

Definition realtek_area (a : Z) : Prop := A <= a < A + 352 \/ B <= a < B + 12800.
Definition realtek_idle (s : machine) : Prop := exists j, rtl_idle A B j s.
Definition realtek_handed (s : machine) (f : list Z) : Prop := exists j, rtl_handed A B j s f.

Lemma realtek_card_area j a : rtl_layout A B j -> rtl_card_area A B j a -> realtek_area a.
Proof.
  intros [] (i & Hi & Ha). unfold realtek_area, rtl_tx, rtl_rx, rtl_rx_buf in *. lia.
Qed.

Lemma realtek_looked j s : rtl_idle A B j s -> vga_ok (m_vga s) -> drv_step realtek_area s (rtl_looked A j s).
Proof.
  intros [Hl _ _] Hv. destruct Hl. apply mem_step_drv; [done| |reflexivity|reflexivity].
  cbn. eapply mem_frame_weaken; [|apply (rtl_card_frame A B)]. intros a (i & Hi & Ha).
  unfold realtek_area, rtl_tx, rtl_rx, rtl_rx_buf in *. lia.
Qed.

Lemma realtek_card_step j s s' :
  rtl_layout A B j -> vga_ok (m_vga s) -> card_step (rtl_card_area A B j) s s' -> drv_step realtek_area s s'.
Proof.
  intros Hl Hv [HF E Hio]. apply mem_step_drv; [done| |by apply adds_io_executed|rewrite E; reflexivity].
  eapply mem_frame_weaken; [|exact HF]. intros a. by apply realtek_card_area.
Qed.

Lemma realtek_released j s s' :
  rtl_layout A B j -> vga_ok (m_vga s) -> rtl_released A B j s s' -> drv_step realtek_area s s'.
Proof.
  intros Hl Hv [_ _ HF Hio E]. apply mem_step_drv; [done| |by apply adds_io_executed|rewrite E; reflexivity].
  eapply mem_frame_weaken; [|exact HF]. intros a [Ha|Ha]; [by apply (realtek_card_area j)|].
  destruct Hl. unfold realtek_area, rtl_held_desc, rtl_rx in *. lia.
Qed.

Lemma realtek_released_handed j s s' f :
  rtl_handed A B j s f -> rtl_released A B j s s' -> rtl_handed A B (rtl_next j) s' f.
Proof.
  intros (Hl & E1 & E2 & E3 & E4) [Hi _ HF _ E]. pose proof (rti_layout _ _ _ _ Hi). pose proof Hl as [].
  unfold rtl_handed, rtl_work_area, rtl_card_area, rtl_held_desc, rtl_tx, rtl_rx, rtl_tx_buf, rtl_rx_buf in *. split_and!; try done.
  - rewrite E. exact E1.
  - etrans; [|exact E3]. apply (mem_frame_rd32 _ _ _ _ HF); [lia|lia|]. intros x Hx [(i & Hi' & Hc)|Hc]; lia.
  - etrans; [|exact E4]. apply (mem_frame_block _ _ _ _ _ HF); [lia|lia|]. intros x Hx [(i & Hi' & Hc)|Hc]; lia.
Qed.

Lemma realtek_holding j (Hl : rtl_layout A B j) s1 s2 :
  rtl_held A B j s2 -> card_step (rtl_card_area A B j) s1 s2 ->
  holding rtl8101_driver realtek_area realtek_idle realtek_handed (rtl8101_laws A B j Hl)
    (rtl_rx_buf B j + 14) (load_eth (m_mem s1) (rtl_rx_buf B j)) s2.
Proof.
  intros Hh Hc. pose proof Hl as []. split.
  - exact Hh.
  - replace (rtl_rx_buf B j + 14 - 14) with (rtl_rx_buf B j) by lia. symmetry. by apply (rtl_held_cells A B j).
  - cbn [drv_area rtl8101_laws]. unfold rtl_area, vga_window, rtl_rx_buf. lia.
  - cbn [drv_area rtl8101_laws]. unfold rtl_area, realtek_area. lia.
  - intros s3 Hs3 Hv. eapply wp_mono; [exact (rtl_put_packet_spec A B j s3 _ Hs3)|].
    intros [] s4 Hrel. split_and!; [exists (rtl_next j); apply Hrel|by apply (realtek_released j)|].
    intros f Hf. exists (rtl_next j). by apply (realtek_released_handed j s3).
Qed.

Lemma realtek_get s :
  realtek_idle s -> vga_ok (m_vga s) ->
  wp rtl8101_get_packet (λ r s', drv_step realtek_area s s' /\
    match r with
    | None => realtek_idle s'
    | Some (pkt, sz, eth) => exists L, holding rtl8101_driver realtek_area realtek_idle realtek_handed L pkt eth s'
    end) s.
Proof.
  intros [j Hi] Hv. pose proof (rti_layout _ _ _ _ Hi) as Hl. pose proof (realtek_looked j s Hi Hv) as D1.
  eapply wp_mono; [by apply (rtl_get_packet_spec A B j)|]. intros r s' Ho. unfold rtl_outcome in Ho.
  assert (forall s2, card_step (rtl_card_area A B j) (rtl_looked A j s) s2 -> drv_step realtek_area s s2) as D2.
  { intros s2 Hc. transitivity (rtl_looked A j s); [done|]. by apply (realtek_card_step j), Hc; [|apply D1]. }
  destruct (rtl_classify _).
  - destruct Ho as [-> ->]. split; [done|]. exists j. by apply (rtl_looked_idle A B j).
  - destruct Ho as [-> (s2 & Hh & Hc & Hr)]. split; [|exists (rtl_next j); apply Hr].
    transitivity s2; [by apply D2|]. apply (realtek_released j); [done|apply (D2 _ Hc)|done].
  - destruct Ho as [-> [Hh Hc]]. split; [by apply D2|]. exists j. apply Hh.
  - destruct Ho as [-> [Hh Hc]]. split; [by apply D2|]. exists (rtl8101_laws A B j Hl). by apply realtek_holding.
Qed.

Lemma realtek_stable s s' : realtek_idle s -> same_drivers s s' -> mem_frame vga_window (m_mem s) (m_mem s') -> realtek_idle s'.
Proof.
  intros [j Hi] Hs HF. exists j. destruct (rti_layout _ _ _ _ Hi).
  eapply (rtl_idle_frame A B j); [done|apply Hs|exact HF|].
  unfold rtl_pointer_cell, vga_window, rtl_tx, rtl_rx. intros x [Hx|(i & Hi2 & Hx)]; lia.
Qed.

#[export] Instance rtl8101_receiver : ReceiverLaws rtl8101_driver :=
  Build_ReceiverLaws rtl8101_driver realtek_area realtek_idle realtek_handed realtek_get realtek_stable.

End Realtek.

(** ** NE2000 *)

Section Ne.
Context `{Env} (P L X : Z) `{Card : !NeCardOk P}.

Definition ne_buffers (a : Z) : Prop := L <= a < L + 1518 \/ X <= a < X + 2049.

Lemma ne_got_step s r s' tr n : ne_ok P L X s -> vga_ok (m_vga s) -> ne_got P L s r s' tr n -> drv_step ne_buffers s s' /\ ne_ok P L X s'.
Proof.
  intros Hs Hv [E Hx Hm _]. split.
  - apply mem_step_drv; [done| | |rewrite E; reflexivity].
    + eapply mem_frame_weaken; [|exact Hm]. unfold ne_buffers. auto.
    + rewrite E. cbn. by rewrite executed_app, Hx.
  - destruct Hs. rewrite E. by split.
Qed.

Lemma ne_holding (Hl : ne_layout P L X) s :
  ne_ok P L X s ->
  holding ne2000_driver ne_buffers (ne_ok P L X) (ne_handed P L X) (ne2000_laws P L X Hl) (L + 14) (load_eth (m_mem s) L) s.
Proof.
  intros Hs. pose proof Hl as []. split.
  - exact Hs.
  - by replace (L + 14 - 14) with L by lia.
  - cbn [drv_area ne2000_laws]. unfold ne_area, vga_window. lia.
  - cbn [drv_area ne2000_laws]. unfold ne_area, ne_buffers. lia.
  - intros s1 Hs1 Hv. cbn [drv_put_packet ne2000_driver]. unfold ne2000_put_packet. wp_step. split_and!; [done|by split|done].
Qed.

Lemma ne_get s :
  ne_ok P L X s -> vga_ok (m_vga s) ->
  wp ne2000_get_packet (λ r s', drv_step ne_buffers s s' /\
    match r with
    | None => ne_ok P L X s'
    | Some (pkt, sz, eth) => exists L', holding ne2000_driver ne_buffers (ne_ok P L X) (ne_handed P L X) L' pkt eth s'
    end) s.
Proof.
  intros Hs Hv. eapply wp_mono; [by apply (ne_get_packet_spec P L X)|]. intros r s' (tr & n & Hg).
  destruct (ne_got_step s r s' tr n Hs Hv Hg) as [D Hs']. split; [done|]. destruct r as [[[pkt sz] eth]|]; [|done].
  destruct (ng_result _ _ _ _ _ _ _ Hg) as (-> & _ & _ & -> & _). exists (ne2000_laws P L X (no_layout _ _ _ _ Hs)).
  by apply ne_holding.
Qed.

Lemma ne_stable s s' : ne_ok P L X s -> same_drivers s s' -> mem_frame vga_window (m_mem s) (m_mem s') -> ne_ok P L X s'.
Proof. intros Hs Hd _. by eapply ne_ok_stable. Qed.

#[export] Instance ne2000_receiver : ReceiverLaws ne2000_driver :=
  Build_ReceiverLaws ne2000_driver ne_buffers (ne_ok P L X) (ne_handed P L X) ne_get ne_stable.

End Ne.
