(* ===== verification/NetIdle.v ===== *)
(** * One pass of the network poll

    [net_idle] with the PCnet driver: a frame is taken from the receive ring,
    its protocol handler runs, the reply is handed to the card and the
    descriptor goes back. *)

From S2P Require Import Prelude Machine Memory Vga Text Checksum NetDriver Rings Pcnet32 Drivers Bench NetStack Packets Replies Commands Server Ip ArpIcmp Stack Poll Receivers.

(** The machine between two polls. *)
Record idle_ok (A B j : Z) (s : machine) : Prop := {
  io_rings : rings_idle A B j s;
  io_drv : chosen_net_drv (m_net s) = Some pcnet32;
  io_open : chosen_net_drv_open (m_net s) <> 0;
  io_vga : vga_ok (m_vga s);
  io_ip : length (my_ipv4_address (m_net s)) = 4%nat;
  io_ip_bytes : bytes_ok (my_ipv4_address (m_net s));
  io_mac : length (my_eth_mac (m_net s)) = 6%nat;
  io_mac_bytes : bytes_ok (my_eth_mac (m_net s))
}.

Section NetIdle.
Context `{Env} `{Linker} (A B j : Z) `{Card : !CardOk A B} (Hl : layout_ok A B j).

#[local] Instance drivers : NetDrivers := eth_drivers.
#[local] Instance laws : DriverLaws (net_driver pcnet32) := pcnet32_laws A B j Hl.

(** The current descriptor as the poll sees it, and the frame in its buffer. *)
Definition seen (s : machine) : gmap Z Z := m_mem (looked A j s).
Definition verdict (s : machine) : rx_verdict :=
  classify (rd16 (seen s) (held_desc A j + 6)) (rd32 (seen s) (held_desc A j + 8)).
Definition rx_eth (s : machine) : ethernet_frame_header := load_eth (seen s) (rx_buf B j).
Definition rx_pkt : Z := rx_buf B j + 14.
Definition rx_size (s : machine) : Z := s32 (rd32 (seen s) (held_desc A j + 8) - 14).
Definition addressed (s : machine) : Prop := dst_mac (rx_eth s) = bcast \/ dst_mac (rx_eth s) = my_eth_mac (m_net s).

Lemma held_step_stack s s2 :
  idle_ok A B j s -> held_step A B j (looked A j s) s2 -> stack_ok pcnet32 s2 /\ m_net s2 = m_net s.
Proof.
  intros [] (Hr & _ & tr & E & _). assert (m_net s2 = m_net s) as En by (rewrite E; done).
  split; [|done]. split; rewrite ?En; try done. rewrite E. done.
Qed.

(** What happens to a complete frame, up to the choice of its handler. *)
Lemma net_idle_frame s :
  idle_ok A B j s -> verdict s = Frame ->
  exists s2, held_step A B j (looked A j s) s2 /\
    net_idle s =
      ((when (bool_decide (dst_mac (rx_eth s) = bcast) || bool_decide (dst_mac (rx_eth s) = my_eth_mac (m_net s)))
         (if ntoh16 (eth_type (rx_eth s)) =? ETH_TYPE_ARP then net_on_arp (rx_eth s) rx_pkt (rx_size s)
          else if ntoh16 (eth_type (rx_eth s)) =? ETH_TYPE_IPv4 then net_on_ipv4 (rx_eth s) rx_pkt (rx_size s)
          else six ← load_bytes rx_pkt 6;
               if memcmp six bcast 6 =? 0 then skip else net_dump (rx_eth s) rx_pkt (rx_size s))) ;;
       chosen (λ d, drv_put_packet d rx_pkt)) s2.
Proof.
  intros Hok Hv. pose proof (pcnet32_get_packet_spec A B j s (io_rings _ _ _ _ Hok)) as Hg.
  apply wp_run in Hg as (r & s2 & E & Ho). unfold rx_outcome in Ho. unfold verdict, seen in Hv. rewrite Hv in Ho.
  destruct Ho as [-> Hh]. exists s2. split; [done|]. destruct (held_step_stack _ _ Hok Hh) as [Hst En].
  assert (length (dst_mac (rx_eth s)) = 6%nat) as Hd by apply length_rd_bytes. destruct Hok.
  rewrite <- !memcmp_mac, <- En by done. unfold net_idle, chosen. run.
  rewrite (proj2 (Z.eqb_neq _ _)) by done. run. rewrite io_drv0. run.
  change (drv_get_packet (net_driver pcnet32)) with pcnet32_get_packet. run. rewrite E. done.
Qed.

(** The outcome of a pass that served a frame: [s3] is the state the handler's
    effect leaves. *)
Record pass_done (s3 s' : machine) (f : list Z) : Prop := {
  pd_idle : chosen_net_drv_open (m_net s3) <> 0 -> idle_ok A B (next_desc j) s';
  pd_given : owns (m_mem s') (held_desc A j);
  pd_mem : mem_frame (λ a, ring_area A B j a \/ vga_window a) (m_mem s3) (m_mem s');
  pd_handed : pcnet32_handed A B (next_desc j) s' f
}.

Lemma released_idle s s' :
  stack_ok pcnet32 s -> chosen_net_drv_open (m_net s) <> 0 -> released A B j s s' -> idle_ok A B (next_desc j) s'.
Proof. intros [] Hop []. split; [done|rewrite rel_rest; done..]. Qed.

(** C1: One pass of the network poll with a UDP command in the receive ring:
    the command takes effect, its answer is handed to the card, the receive
    descriptor is given back empty and the next one is current, so that the
    poll can go on; outside the rings and the screen nothing else changes. *)
Theorem net_idle_serves_command s :
  idle_ok A B j s -> verdict s = Frame -> addressed s -> ntoh16 (eth_type (rx_eth s)) = ETH_TYPE_IPv4 ->
  exists s2, held_step A B j (looked A j s) s2 /\
    forall c s3, command_ok pcnet32 s2 (rx_eth s) rx_pkt (rx_size s) c -> effect c s2 = Some s3 ->
      exists s', net_idle s = inr (tt, s') /\
        executed (m_trace s') = executed (m_trace s3) /\ exec_last_seq (m_net s') = exec_last_seq (m_net s3) /\
        pass_done s3 s' (eth_frame (src_mac (rx_eth s)) (my_eth_mac (m_net s3)) ETH_TYPE_IPv4
          (udp_packet (my_ipv4_address (m_net s3)) (rd_bytes (m_mem s3) (rx_pkt + 12) 4) 777
             (command_sport s2 rx_pkt) (answer c s2))).
Proof.
  intros Hok Hv Ha Ht. destruct (net_idle_frame s Hok Hv) as (s2 & Hh & E). exists s2. split; [done|].
  intros c s3 Hc Heff. destruct (held_step_stack _ _ Hok Hh) as [Hst En].
  pose proof (net_on_ipv4_serves pcnet32 s2 s3 _ _ _ c Hst Hc Heff) as Hw.
  apply wp_run in Hw as ([] & s4 & E4 & [Hhand Hst4 Hm Hseq (_ & _ & Hopen) _ Hex]).
  pose proof (pcnet32_put_packet_spec A B j s4 rx_pkt (rings_ok_idle _ _ _ _ (so_inv _ _ Hst4))) as Hput.
  apply wp_run in Hput as ([] & s' & E5 & Hrel).
  exists s'. pose proof Hrel as [Hr Ho _ _ Hrm Hrest]. split_and!.
  - rewrite E, Ht. assert (bool_decide (dst_mac (rx_eth s) = bcast) ||
      bool_decide (dst_mac (rx_eth s) = my_eth_mac (m_net s)) = true) as -> by (apply orb_true_iff; rewrite !bool_decide_eq_true; exact Ha).
    cbn [when Z.eqb Pos.eqb ETH_TYPE_ARP ETH_TYPE_IPv4]. run. rewrite E4. unfold chosen. run. rewrite (so_drv _ _ Hst4). done.
  - rewrite Hrest. done.
  - rewrite Hrest. done.
  - split; [intros Hop|done| |exact (released_handed A B j s4 s' _ Hhand Hrel)].
    { apply (released_idle s4); [done|by rewrite Hopen|done]. }
    etransitivity; [exact Hm|]. eapply mem_frame_weaken; [|exact Hrm]. destruct Hl.
    unfold held_desc, ring_area, rx_ring. intros a. lia.
Qed.

End NetIdle.

(** ** Passes of the concrete machine *)

Lemma load_eth_frame m p dst src type rest (n : nat) :
  length dst = 6%nat -> length src = 6%nat -> 0 <= type < 65536 ->
  rd_bytes m p (14 + n) = eth_frame dst src type rest -> load_eth m p = mkEth dst src (hton16 type).
Proof.
  intros Hd Hs Ht E. change (14 + n)%nat with (6 + (6 + (2 + n)))%nat in E. unfold eth_frame in E.
  rewrite !rd_bytes_app in E. apply app_inj_1 in E as [E1 E]; [|by rewrite length_rd_bytes].
  apply app_inj_1 in E as [E2 E]; [|by rewrite length_rd_bytes]. rewrite !rd_bytes_S in E. cbn [be16 app] in E.
  injection E as E3 E4 _. unfold load_eth, rd16. rewrite E1. change (Z.of_nat 6) with 6 in *. rewrite E2. f_equal.
  replace (p + 12) with (p + 6 + 6) by lia. rewrite E3, E4. change (hton16 type) with (ntoh16 type). rewrite ntoh16_swap by done. lia.
Qed.

Section BenchPass.
Context (q type : Z) (payload : list Z) (Hp : bench_payload payload) (Ht : 0 <= type < 65536).
Abbreviation st := (bench_state q type payload).

Lemma seen_far : mem_frame (λ a, tx_ring bench_A <= a < tx_ring bench_A + 256) (m_mem st) (seen bench_A 0 st).
Proof. apply (release_all_far (m_mem st)). Qed.

Lemma bench_idle : idle_ok bench_A bench_B 0 st.
Proof.
  destruct (bench_stack q type payload (proj2 Hp)). split; try done. by apply rings_ok_idle.
Qed.

Lemma bench_seen_length : rd32 (seen bench_A 0 st) (held_desc bench_A 0 + 8) = 14 + Z.of_nat (length payload).
Proof.
  rewrite (mem_frame_rd32 _ _ _ _ seen_far); unfold held_desc, rx_ring, tx_ring, bench_A; [|lia|lia|lia].
  unfold bench_state, received. cbn [m_mem set_m_mem set_m_net].
  rewrite rd32_wr16_far by (unfold apart, rx_ring, bench_A; lia). rewrite Z.mul_0_r, Z.add_0_r.
  rewrite (rd32_wr32 _ (1048576 + 8)). destruct Hp as [_ Hl].
  change (length (eth_frame bench_mac peer_mac type payload)) with (14 + length payload)%nat. rewrite u32_small; lia.
Qed.

Lemma bench_verdict : verdict bench_A 0 st = Frame.
Proof.
  unfold verdict. rewrite bench_seen_length.
  rewrite (mem_frame_rd16 _ _ _ _ seen_far); unfold held_desc, rx_ring, tx_ring, bench_A; [|lia|lia|lia].
  unfold bench_state, received. cbn [m_mem set_m_mem set_m_net]. rewrite Z.mul_0_r, Z.add_0_r.
  rewrite (rd16_wr16 _ (1048576 + 6)). unfold classify. rewrite (proj2 (Z.leb_le _ _)) by lia. reflexivity.
Qed.

Lemma bench_seen_frame : rd_bytes (seen bench_A 0 st) (rx_buf bench_B 0) (14 + length payload) = eth_frame bench_mac peer_mac type payload.
Proof.
  destruct Hp as [_ Hl]. rewrite (mem_frame_block _ _ _ _ _ seen_far); unfold rx_buf, tx_ring, bench_A, bench_B; [|lia|lia|lia].
  by apply (bench_frame q type payload).
Qed.

Lemma bench_rx_eth : rx_eth bench_A bench_B 0 st = bench_eth type.
Proof.
  exact (load_eth_frame _ _ bench_mac peer_mac _ _ _ eq_refl eq_refl Ht bench_seen_frame).
Qed.

Lemma bench_rx_size : rx_size bench_A 0 st = Z.of_nat (length payload).
Proof. unfold rx_size. rewrite bench_seen_length. destruct Hp. unfold s32. wrap_lia. Qed.

Lemma bench_seen_packet : rd_bytes (seen bench_A 0 st) bench_pkt (length payload) = payload.
Proof.
  pose proof bench_seen_frame as E. rewrite rd_bytes_app in E. unfold eth_frame in E.
  rewrite (app_assoc bench_mac), (app_assoc (bench_mac ++ peer_mac)) in E. by apply app_inj_1 in E as [_ E].
Qed.

End BenchPass.

Lemma held_packet s s2 n :
  0 <= n <= 1500 -> held_step bench_A bench_B 0 s s2 ->
  rd_bytes (m_mem s2) bench_pkt (Z.to_nat n) = rd_bytes (m_mem s) bench_pkt (Z.to_nat n).
Proof.
  intros Hn (_ & HF & _). apply (mem_frame_block _ _ _ _ _ HF).
  all: unfold bench_pkt, card_area, ring_area, rx_buf, bench_A, bench_B in *; lia.
Qed.

Lemma net_idle_serves_command_witness :
  exists s', net_idle write_state = inr (tt, s') /\ rd_bytes (m_mem s') 3145728 4 = [1; 2; 3; 4].
Proof.
  assert (bench_payload (udp_request write_text)) as Hp by (split; [by repeat constructor|done]).
  assert (rx_eth bench_A bench_B 0 write_state = bench_eth 2048) as Ee by exact (bench_rx_eth 0 2048 _ Hp ltac:(lia)).
  assert (rx_size bench_A 0 write_state = 47) as Es by exact (bench_rx_size 0 2048 _ Hp ltac:(lia)).
  destruct (net_idle_serves_command bench_A bench_B 0 bench_layout write_state
    (bench_idle 0 2048 (udp_request write_text) Hp) (bench_verdict 0 2048 (udp_request write_text) Hp)) as (s2 & Hh & Hserve).
  - right. rewrite Ee. reflexivity.
  - rewrite Ee. reflexivity.
  - rewrite Ee, Es in Hserve.
    destruct (Hserve (WRITE 3145728 1 [1; 2; 3; 4]) (set_m_mem (wr_bytes (m_mem s2) 3145728 [1; 2; 3; 4]) s2)) as (s' & E & _ & _ & [_ _ HF _]).
    + apply write_packet_ok.
      * destruct Hh as (_ & _ & tr & E & _). rewrite E. reflexivity.
      * pose proof (bench_seen_packet 0 2048 (udp_request write_text) Hp ltac:(lia)) as Ep.
        rewrite <- Ep. apply (held_packet (looked bench_A 0 write_state) s2 47 ltac:(lia) Hh).
    + reflexivity.
    + exists s'. split; [exact E|]. rewrite (mem_frame_rd_bytes _ _ _ 3145728 4 HF).
      * apply (rd_bytes_wr_bytes_same (m_mem s2) 3145728 [1; 2; 3; 4]). cbn. lia.
      * intros i Hi. pose proof (bench_quiet 3145728 4 ltac:(right; lia) i Hi). tauto.
Defined.

(** A frame sent to somebody else. *)
Definition renamed (mac : list Z) (s : machine) : machine := set_m_net (set_my_eth_mac mac (m_net s)) s.

Lemma renamed_idle mac s :
  idle_ok bench_A bench_B 0 s -> length mac = 6%nat -> bytes_ok mac -> idle_ok bench_A bench_B 0 (renamed mac s).
Proof. intros [[] ] Hm Hb. split; [by split|done..]. Qed.

Lemma renamed_seen mac s :
  rx_eth bench_A bench_B 0 (renamed mac s) = rx_eth bench_A bench_B 0 s /\
  verdict bench_A 0 (renamed mac s) = verdict bench_A 0 s.
Proof.
  assert (seen bench_A 0 (renamed mac s) = seen bench_A 0 s) as E
    by (unfold seen, looked, renamed; cbn [m_mem m_trace set_m_mem set_m_trace set_m_net]; reflexivity).
  unfold rx_eth, verdict. rewrite E. split; reflexivity.
Qed.

Definition foreign_state : machine := renamed [2; 0; 0; 0; 0; 7] (bench_state 0 2048 []).
