(* ===== verification/PollSpec.v ===== *)
(** * The poll, for every driver of the table

    The theorems of [Poll] as properties of the code, and two machines they
    apply to: a PCnet card with a frame for another station, and an NE2000 that
    never has a packet. *)

From S2P Require Import Prelude Machine Memory Vga Text NetDriver Rings Pcnet32 Rtl8101 Ne2000 Ne2000Spec Drivers Bench NetStack Packets Replies Server Stack Poll Receivers NetIdle.

Section Spec.
Context `{Env} `{NetDrivers} (did : driver_id) `{R : !ReceiverLaws (net_driver did)}.


(** The poll loop goes on: as long as every frame that arrives has an
    abstract effect, each pass returns and the next one finds the driver and
    the stack in order, for any number of passes and any driver. *)
Theorem poll_keeps_going n s :
  poll_ok did s -> fed did n s -> exists s', poll n s = inr (tt, s') /\ poll_ok did s'.
Proof. apply poll_spec. Qed.

End Spec.

(** ** A frame for another station *)

Lemma pcnet_sees `{Env} `{Linker} A B j `{!CardOk A B} s r s2 :
  rings_idle A B j s -> verdict A j s = Frame -> sees (H0 := eth_drivers) pcnet32 s r s2 ->
  r = Some (rx_pkt B j, rx_size A j s, rx_eth A B j s) /\ m_net s2 = m_net s.
Proof.
  intros Hi Hv E. pose proof (pcnet32_get_packet_spec A B j s Hi) as Hw.
  unfold wp in Hw. unfold sees in E. change (drv_get_packet (net_driver pcnet32)) with pcnet32_get_packet in E. rewrite E in Hw.
  unfold rx_outcome in Hw. unfold verdict, seen in Hv. rewrite Hv in Hw. destruct Hw as [-> (_ & _ & tr & -> & _)].
  split; reflexivity.
Qed.

Lemma foreign_idle : idle_ok bench_A bench_B 0 foreign_state.
Proof.
  apply renamed_idle; [apply (bench_idle 0 2048 [])|reflexivity|by repeat constructor]. split; [constructor|done].
Qed.

Lemma idle_poll s : idle_ok bench_A bench_B 0 s -> poll_ok (R := pcnet32_receiver bench_A bench_B) pcnet32 s.
Proof. intros []. split; try assumption. by exists 0. Qed.

Lemma foreign_frame :
  verdict bench_A 0 foreign_state = Frame /\ dst_mac (rx_eth bench_A bench_B 0 foreign_state) = bench_mac.
Proof.
  assert (bench_payload []) as Hp by (split; [constructor|done]).
  destruct (renamed_seen [2; 0; 0; 0; 0; 7] (bench_state 0 2048 [])) as [Ee Ev]. unfold foreign_state.
  rewrite Ev, Ee, (bench_rx_eth 0 2048 [] Hp ltac:(lia)). split; [apply (bench_verdict 0 2048 [] Hp)|reflexivity].
Qed.


(** ** A card that never has a packet *)

#[local] Instance quiet_card : NeCardOk (H := one_page_env) 0x300.
Proof. intros tr. exists 0%nat. split; [cbn; lia|reflexivity]. Qed.

Section Quiet.
#[local] Existing Instance one_page_env | 0.
#[local] Instance quiet_drivers : NetDrivers := eth_drivers.

Abbreviation quiet_receiver := (ne2000_receiver 0x300 zero_L zero_X).

(** The driver finds the ring empty, in every state. *)
Lemma quiet_sees s r s2 : ne_ok 0x300 zero_L zero_X s -> sees ne2000 s r s2 -> r = None.
Proof.
  intros Hs E. pose proof (ne_get_packet_caught_up 0x300 zero_L zero_X s 0x47 0x46 Hs ltac:(done) ltac:(done) eq_refl) as Hw.
  unfold wp in Hw. unfold sees in E. change (drv_get_packet (net_driver ne2000)) with ne2000_get_packet in E. rewrite E in Hw.
  by destruct Hw as (tr & -> & _).
Qed.

Lemma quiet_fed n : forall s, poll_ok (R := quiet_receiver) ne2000 s -> fed (R := quiet_receiver) ne2000 n s.
Proof.
  induction n as [|n IH]; intros s Hs; [done|]. cbn [fed]. split.
  - intros s2 pkt sz eth L E. discriminate (quiet_sees s _ _ (po_idle _ _ Hs) E).
  - intros s' E'. destruct (net_idle_pass_spec (R := quiet_receiver) ne2000 s Hs) as (r & s2 & E & _ & Hr).
    rewrite (quiet_sees s r s2 (po_idle _ _ Hs) E) in Hr. destruct Hr as [E2 Hs2]. rewrite E2 in E'. injection E' as ->. by apply IH.
Qed.

Lemma quiet_poll : poll_ok (R := quiet_receiver) ne2000 zero_state.
Proof. split; try reflexivity; [exact zero_ok|discriminate|exact zero_vga|by repeat constructor..]. Qed.

Lemma poll_keeps_going_witness :
  exists s', poll 1000 zero_state = inr (tt, s') /\ poll_ok (R := quiet_receiver) ne2000 s'.
Proof. apply (poll_keeps_going (R := quiet_receiver) ne2000 1000 zero_state quiet_poll (quiet_fed 1000 zero_state quiet_poll)). Defined.

End Quiet.
