(* ===== verification/Menu.v ===== *)
(** * The console menus and the start-up sequence (c-main.c) *)

From S2P Require Import Prelude Machine Memory Vga Text Alloc Pci Keyboard Interrupt NetDriver Network NetStack.

Section Menu.
Context `{Env} `{NetDrivers} `{Linker}.

Definition spaces64 : M unit := for_range 0 64 (λ _, vga_writechar 32).

(** The entry with number [idx], when the table has one in use. *)
Definition shown_device (idx : Z) (p : pci_state) : option pci_device :=
  let d := nth (Z.to_nat idx) (pci_devices p) zero_device in
  if (MAX_PCI_DEVICE <=? idx) || (pd_device_id d =? 0) then None else Some d.

(** ** pci_bus_menu *)

Definition draw_row (select scroll y : Z) : M unit :=
  upd_vga (set_VGA_alpha_x 0) ;;
  upd_vga (set_VGA_alpha_y (y + 1)) ;;
  let idx := u32 (y + scroll) in
  (if idx =? select then vga_color 112 else vga_normal) ;;
  d ← gets (λ s, shown_device idx (m_pci s));
  match d with
  | None => spaces64
  | Some dev =>
      vga_write_hex (pd_bus dev) 1 ;; vga_writechar 58 ;;
      vga_write_hex (pd_device dev) 1 ;; vga_writechar 46 ;;
      vga_write_hex (pd_function dev) 1 ;; vga_write (cstr "  ") ;;
      vga_write_hex (pd_device_id dev) 2 ;; vga_write (cstr ",") ;;
      vga_write_hex (pd_vendor_id dev) 2 ;; vga_write (cstr ",") ;;
      vga_write_hex (u8 (Z.shiftr (pd_class_code dev) 16)) 1 ;;
      vga_write_hex (u16 (pd_class_code dev)) 2 ;; vga_write (cstr " ")
  end.

Definition show_bar (dev : pci_device) (y : Z) : M unit :=
  let bar := nth (Z.to_nat y) (pd_BAR dev) zero_bar in
  when (negb (bar_present bar =? 0))
   (vga_write_hex (u8 y) 1 ;;
    vga_write (cstr ": ") ;;
    (if negb (bar_io bar =? 0) then vga_write (cstr "I/O ") else vga_write (cstr "MEM ")) ;;
    vga_write_hex (u32 (Z.shiftr (bar_start bar) 32)) 4 ;;
    vga_write_hex (u32 (bar_start bar)) 4 ;;
    vga_writechar 45 ;;
    vga_write_hex (u32 (Z.shiftr (bar_end bar) 32)) 4 ;;
    vga_write_hex (u32 (bar_end bar)) 4 ;;
    vga_write (msg "")).

(** [do { c = keyb8042_read_buffer(); } while (!(c == 1 || c == 0x1C));] *)
Fixpoint wait_close (fuel : nat) : M unit :=
  match fuel with
  | O => halt NoReturn
  | S f => c ← keyb8042_read_buffer; if (c =? 1) || (c =? 28) then skip else wait_close f
  end.

Definition show_device (select : Z) : M unit :=
  vga_clear ;;
  vga_home ;;
  vga_normal ;;
  d ← gets (λ s, shown_device select (m_pci s));
  match d with
  | None => spaces64
  | Some dev =>
      vga_write (msg "BARs") ;;
      when (negb (pd_expansion_rom dev =? 0))
       (vga_write (cstr "Expansion ROM: ") ;;
        vga_write_hex (pd_expansion_rom dev) 4 ;;
        vga_write (msg "")) ;;
      for_range 0 6 (show_bar dev)
  end ;;
  wait_close env_fuel ;;
  vga_clear.

(** What a key does to [(brk, redraw, select, scroll)], apart from the screen. *)
Definition pci_menu_key (lines r redraw select scroll : Z) : Z * Z * Z :=
  if r =? 72 then
    if 0 <? select then
      let select := select - 1 in (1, select, if select <? scroll then select else scroll)
    else (redraw, select, scroll)
  else if r =? 80 then
    let select := u32 (select + 1) in
    (1, select, if u32 (scroll + lines - 1) <? select then u32 (scroll + 1) else scroll)
  else (redraw, select, scroll).

Fixpoint pci_menu_loop (fuel : nat) (lines redraw select scroll : Z) : M unit :=
  match fuel with
  | O => halt NoReturn
  | S f =>
      when (negb (redraw =? 0)) (for_range 0 (Z.to_nat lines) (draw_row select scroll)) ;;
      r ← keyb8042_read_buffer;
      let a := keyb8042_to_ascii r in
      let '(redraw, select, scroll) := pci_menu_key lines r 0 select scroll in
      let enter := negb (r =? 72) && negb (r =? 80) && (a =? 13) in
      when enter (show_device select) ;;
      let redraw := if enter then 1 else redraw in
      if r =? 1 then skip else pci_menu_loop f lines redraw select scroll
  end.

Definition pci_bus_menu : M unit :=
  v ← gets m_vga;
  let lines := u32 (VGA_alpha_rows v - 8) in
  vga_clear ;;
  vga_home ;;
  vga_color 14 ;;
  vga_write (msg "PCI devices present") ;;
  vga_normal ;;
  pci_menu_loop env_fuel lines 1 0 0.

(** ** change_ip_addr_ui *)

(** One key: the screen, and the characters typed so far. *)
Definition ip_key (a : Z) (input : list Z) : M (list Z) :=
  let inputi := Z.of_nat (length input) in
  if ((48 <=? a) && (a <=? 57)) || (a =? 46) then
    if inputi <? 63 then
      upd_vga (set_VGA_alpha_x inputi) ;; vga_writechar a ;; mret (input ++ [a])
    else mret input
  else if a =? 8 then
    if 0 <? inputi then
      upd_vga (λ v, set_VGA_alpha_x (u32 (VGA_alpha_x v - 1)) v) ;;
      vga_writechar 32 ;;
      upd_vga (λ v, set_VGA_alpha_x (u32 (VGA_alpha_x v - 1)) v) ;;
      vga_update_cursor ;;
      mret (take (length input - 1) input)
    else mret input
  else mret input.

Fixpoint ip_input (fuel : nat) (input : list Z) : M (list Z) :=
  match fuel with
  | O => halt NoReturn
  | S f =>
      r ← keyb8042_read_buffer;
      let a := keyb8042_to_ascii r in
      input ← ip_key a input;
      if a =? 13 then mret input else ip_input f input
  end.

(** The four numbers of the text in [input[64]], [None] when the address is
    left as it is.  The scanners read the local array, laid out at 0. *)
Definition parse_ipv4 (input : list Z) : option (list Z) :=
  let m := wr_bytes ∅ 0 (input ++ [0]) in
  let fuel := S (length input) in
  '(a, p) ← s_strtoul_dec fuel m 0;
  if negb (rd8 m p =? 46) then None else
  '(b, p) ← s_strtoul_dec fuel m (p + 1);
  if negb (rd8 m p =? 46) then None else
  '(c, p) ← s_strtoul_dec fuel m (p + 1);
  if negb (rd8 m p =? 46) then None else
  '(d, p) ← s_strtoul_dec fuel m (p + 1);
  Some [u8 a; u8 b; u8 c; u8 d].

Definition change_ip_addr_ui : M unit :=
  vga_write (msg "") ;;
  vga_write (msg "Enter new IP address, or hit ENTER to cancel.") ;;
  vga_write (msg "IP address must follow the standard dotted notation 123.123.123.123") ;;
  input ← ip_input env_fuel [];
  match parse_ipv4 input with
  | Some ip => upd_net (set_my_ipv4_address ip)
  | None => skip
  end.

(** ** main_menu *)

Definition draw_menu : M unit :=
  n ← gets m_net;
  match chosen_net_dev n with
  | Some i =>
      d ← gets (λ s, nth (Z.to_nat i) (pci_devices (m_pci s)) zero_device);
      vga_write_hex (pd_bus d) 1 ;; vga_writechar 58 ;;
      vga_write_hex (pd_device d) 1 ;; vga_writechar 58 ;;
      vga_write_hex (pd_function d) 1 ;;
      vga_write (msg "")
  | None => skip
  end ;;
  match chosen_net_drv n with
  | Some d =>
      vga_write (drv_name (net_driver d) ++ [0]) ;;
      when (negb (chosen_net_drv_open n =? 0)) (vga_write (cstr " [ACTIVE]")) ;;
      vga_write (msg "")
  | None => skip
  end ;;
  vga_write (msg "") ;;
  vga_write (cstr "Main menu: ") ;;
  vga_write_ipv4 (my_ipv4_address n) ;;
  vga_writechar 32 ;;
  for_range 0 6 (λ i, vga_write_hex (nth (Z.to_nat i) (my_eth_mac n) 0) 1) ;;
  vga_write (msg "") ;;
  vga_write (msg " I. Change IPv4 address") ;;
  vga_write (msg " P. Show PCI devices") ;;
  vga_write (msg " x. Auto-probe network card") ;;
  vga_write (msg " r. Reset computer") ;;
  if negb (chosen_net_drv_open n =? 0) then vga_write (msg " c. Close driver")
  else vga_write (msg " o. Open driver").

(** The PCI device [chosen_net_dev] points to. *)
Definition chosen_device (s : machine) : option pci_device :=
  (λ i, nth (Z.to_nat i) (pci_devices (m_pci s)) zero_device) <$> chosen_net_dev (m_net s).

(** 'o': open the chosen driver; the new [redraw]. *)
Definition open_driver (redraw : Z) : M Z :=
  n ← gets m_net;
  match chosen_net_drv n with
  | Some d =>
      if chosen_net_drv_open n =? 0 then
        dev ← gets chosen_device;
        ok ← drv_init (net_driver d) dev;
        if negb (ok =? 0) then upd_net (set_chosen_net_drv_open 1) ;; mret 1
        else vga_write (msg "Open failed") ;; keyb8042_read_buffer ;; mret redraw
      else mret redraw
  | None => mret redraw
  end.

(** The keys of the main menu; the new [redraw]. *)
Definition menu_command (r a : Z) : M Z :=
  if a =? 114 then mret 0
  else if a =? 112 then
    present ← gets (λ s, pci_bus_present (m_pci s));
    if present =? 0 then vga_write (msg " ! PCI bus not present") ;; mret 0
    else pci_bus_menu ;; mret 1
  else if a =? 105 then change_ip_addr_ui ;; mret 1
  else if a =? 111 then open_driver 0
  else if a =? 99 then mret 0
  else if a =? 120 then autoprobe_network_card ;; mret 1
  else if negb (a =? -1) then vga_write_hex (u32 r) 4 ;; vga_writechar 32 ;; mret 0
  else mret 0.

(** One pass of the loop of [main_menu]. *)
Definition main_menu_pass (redraw : Z) : M Z :=
  when (negb (redraw =? 0)) draw_menu ;;
  r ← keyb8042_read_buffer_imm;
  let a := keyb8042_to_ascii r in
  redraw ← menu_command r a;
  net_idle ;;
  mret redraw.

(** [brk] is never set, so the loop has no exit. *)
Fixpoint main_menu_loop (fuel : nat) (redraw : Z) : M unit :=
  match fuel with
  | O => halt NoReturn
  | S f => redraw ← main_menu_pass redraw; main_menu_loop f redraw
  end.
Definition main_menu : M unit := main_menu_loop env_fuel 1.

(** ** c_start *)

(** The driver that was found is opened without being asked. *)
Definition start_driver : M unit :=
  n ← gets m_net;
  match chosen_net_drv n with
  | Some d =>
      when (chosen_net_drv_open n =? 0)
       (dev ← gets chosen_device;
        ok ← drv_init (net_driver d) dev;
        when (negb (ok =? 0)) (upd_net (set_chosen_net_drv_open 1)))
  | None => skip
  end.

Definition c_start : M unit :=
  init_alloc ;;
  vga_init ;;
  vga_write (msg "Setting up interrupts") ;; interrupt_init ;;
  vga_write (msg "Setting up timer") ;; timer_init ;;
  vga_write (msg "Setting up keyboard") ;; keyboard_init ;;
  pci_init ;;
  sti ;;
  vga_write (msg "Remote-x86 (C) 2009-2010 Jonathan Campbell") ;;
  vga_write (msg "THIS VERSION IS FOR DEBUGGING OVER ETHERNET. It is intended for use on machines") ;;
  vga_write (msg "where there is ethernet but no working RS-232 serial port (like most laptops).") ;;
  vga_write (msg "") ;;
  autoprobe_network_card ;;
  start_driver ;;
  main_menu ;;
  halt NoReturn.

End Menu.

(** ** Properties *)

(** *** The address dialog reads back what the menu prints *)

(** The characters [vga_write_dec] and [vga_write_ipv4] put on the screen. *)
Definition dec_text (x : Z) : list Z := (λ d, d + 48) <$> (dec_digits (x / 10) 11 ++ [x mod 10]).
Definition ipv4_text (ip : list Z) : list Z :=
  dec_text (nth 0 ip 0) ++ [46] ++ dec_text (nth 1 ip 0) ++ [46] ++ dec_text (nth 2 ip 0) ++ [46] ++ dec_text (nth 3 ip 0).

Lemma dec_text_ok x :
  0 <= x < 256 ->
  Forall (λ c, is_dec c = true) (dec_text x) /\ decval (dec_text x) = x /\ (length (dec_text x) <= 3)%nat.
Proof.
  intros Hx.
  assert ((forallb is_dec (dec_text x) && (decval (dec_text x) =? x) && (length (dec_text x) <=? 3)%nat)%bool = true) as E.
  { by apply (forallb_range (λ x, forallb is_dec (dec_text x) && (decval (dec_text x) =? x) &&
      (length (dec_text x) <=? 3)%nat)%bool 256). }
  apply andb_true_iff in E as [E E3]. apply andb_true_iff in E as [E1 E2]. bool_to_prop.
  split_and!; [|done|by apply Nat.leb_le]. apply Forall_forall. intros c Hc. rewrite forallb_forall in E1.
  by apply E1, list_elem_of_In.
Qed.

(** A number followed by text that cannot continue it. *)
Lemma scan_number m p x rest fuel :
  rd_bytes m p (length (dec_text x ++ rest)) = dec_text x ++ rest -> 0 <= x < 256 ->
  ends_dec (rd8 m (p + Z.of_nat (length (dec_text x)))) -> (3 < fuel)%nat ->
  s_strtoul_dec fuel m p = Some (x, p + Z.of_nat (length (dec_text x))).
Proof.
  intros E Hx He Hf. destruct (dec_text_ok x Hx) as (Hd & Hv & Hl). rewrite length_app, rd_bytes_app in E.
  apply app_inj_1 in E as [E _]; [|apply length_rd_bytes].
  rewrite (s_strtoul_dec_scan (dec_text x)) by (done || lia). by rewrite Hv, u32_small by lia.
Qed.

Lemma rd_bytes_tail m p l1 l2 :
  rd_bytes m p (length (l1 ++ l2)) = l1 ++ l2 -> rd_bytes m (p + Z.of_nat (length l1)) (length l2) = l2.
Proof.
  rewrite length_app, rd_bytes_app. intros E. by apply app_inj_1 in E as [_ E]; [|apply length_rd_bytes].
Qed.

Lemma rd8_head m p c l : rd_bytes m p (length (c :: l)) = c :: l -> rd8 m p = c.
Proof. cbn [length]. rewrite rd_bytes_S. congruence. Qed.

(** One number of the dialog and the character after it. *)
Lemma scan_field m p x c rest fuel :
  rd_bytes m p (length (dec_text x ++ c :: rest)) = dec_text x ++ c :: rest -> 0 <= x < 256 -> ends_dec c -> (3 < fuel)%nat ->
  let q := p + Z.of_nat (length (dec_text x)) in
  s_strtoul_dec fuel m p = Some (x, q) /\ rd8 m q = c /\ rd_bytes m (q + 1) (length rest) = rest.
Proof.
  intros E Hx Hc Hf q. pose proof (rd_bytes_tail _ _ _ _ E) as Et. fold q in Et.
  pose proof (rd8_head _ _ _ _ Et) as Eh. split_and!; [|done|].
  - eapply scan_number; [done|done| |done]. fold q. by rewrite Eh.
  - cbn [length] in Et. rewrite rd_bytes_S in Et. congruence.
Qed.

(** The address dialogue reads back what it prints: the dotted form of every
    IPv4 address is parsed to that address. *)
Theorem parse_ipv4_text a b c d :
  0 <= a < 256 -> 0 <= b < 256 -> 0 <= c < 256 -> 0 <= d < 256 ->
  parse_ipv4 (ipv4_text [a; b; c; d]) = Some [a; b; c; d].
Proof.
  intros Ha Hb Hc Hd. unfold parse_ipv4. set (t := ipv4_text [a; b; c; d]). set (m := wr_bytes ∅ 0 (t ++ [0])).
  assert (Forall (λ x, is_dec x = true \/ x = 46) t) as Ht.
  { subst t. unfold ipv4_text. cbn [nth]. repeat apply Forall_app_2; try (constructor; [by right|constructor]).
    all: eapply Forall_impl; [by apply dec_text_ok|]; by left. }
  assert (Z.of_nat (length t) <= 15 /\ (3 < S (length t))%nat) as [Hlen Hfuel].
  { destruct (dec_text_ok a Ha) as (_&_&?), (dec_text_ok b Hb) as (_&_&?), (dec_text_ok c Hc) as (_&_&?), (dec_text_ok d Hd) as (_&_&?).
    subst t. unfold ipv4_text. cbn [nth]. rewrite !length_app. cbn [length]. lia. }
  assert (rd_bytes m 0 (length (t ++ [0])) = t ++ [0]) as E.
  { subst m. rewrite rd_bytes_wr_bytes_same by (rewrite length_app; cbn [length]; lia). apply fmap_u8_bytes.
    apply Forall_app_2; [|by repeat constructor]. eapply Forall_impl; [exact Ht|]. intros x [Hx| ->]; [|done].
    unfold is_dec in Hx. bool_to_prop. lia. }
  assert (ends_dec 46) as H46 by (by left). assert (ends_dec 0) as H0' by (by left).
  unfold t, ipv4_text in E. cbn [nth] in E. rewrite <- !(assoc_L (++)) in E. cbn [app] in E.
  destruct (scan_field _ _ _ _ _ _ E Ha H46 Hfuel) as (-> & E1 & Er1). cbn [mbind option_bind]. rewrite E1. cbn [Z.eqb Pos.eqb negb].
  destruct (scan_field _ _ _ _ _ _ Er1 Hb H46 Hfuel) as (-> & E2 & Er2). cbn [mbind option_bind]. rewrite E2. cbn [Z.eqb Pos.eqb negb].
  destruct (scan_field _ _ _ _ _ _ Er2 Hc H46 Hfuel) as (-> & E3 & Er3). cbn [mbind option_bind]. rewrite E3. cbn [Z.eqb Pos.eqb negb].
  destruct (scan_field _ _ _ _ _ _ Er3 Hd H0' Hfuel) as (-> & _ & _). cbn [mbind option_bind].
  by rewrite !u8_small by lia.
Qed.

(** *** The selection bar *)

(** The selected row is on the screen. *)
Definition selection_visible (lines select scroll : Z) : Prop := 0 <= scroll <= select /\ select < scroll + lines.

(** Moving through the PCI device list keeps the selected line on the
    screen, whatever key arrives. *)
Theorem pci_menu_key_visible lines r redraw select scroll :
  0 < lines -> select + lines < 4294967295 -> selection_visible lines select scroll ->
  let '(_, select', scroll') := pci_menu_key lines r redraw select scroll in
  selection_visible lines select' scroll'.
Proof.
  intros Hl Hs [Hv1 Hv2]. unfold pci_menu_key, selection_visible.
  destruct (r =? 72); [destruct (0 <? select) eqn:E0; [destruct (select - 1 <? scroll) eqn:E1|]|destruct (r =? 80)];
    bool_to_prop; try lia.
  rewrite (u32_small (select + 1)), (u32_small (scroll + lines - 1)), (u32_small (scroll + 1)) by lia.
  destruct (scroll + lines - 1 <? select + 1) eqn:E; bool_to_prop; lia.
Qed.

(** *** The loop *)

Section Loop.
Context `{Env} `{NetDrivers} `{Linker}.

Lemma main_menu_loop_stops fuel : forall redraw s, exists e, main_menu_loop fuel redraw s = inl e.
Proof.
  induction fuel as [|fuel IH]; intros redraw s; cbn [main_menu_loop]; [by exists NoReturn|].
  unfold mbind, SM_bind. destruct (main_menu_pass redraw s) as [e|[r s']]; [by exists e|apply IH].
Qed.

End Loop.

Lemma parse_ipv4_text_witness : parse_ipv4 (ipv4_text [192; 168; 250; 254]) = Some [192; 168; 250; 254].
Proof. apply (parse_ipv4_text 192 168 250 254); lia. Defined.

Lemma pci_menu_key_visible_witness :
  let '(_, select', scroll') := pci_menu_key 18 80 0 17 0 in selection_visible 18 select' scroll'.
Proof. apply (pci_menu_key_visible 18 80 0 17 0); unfold selection_visible; lia. Defined.
