(* ===== verification/Dialogs.v ===== *)
(** * The dialogues of the menus

    The screens of [Menu] wait for the operator: they draw on the text screen
    only, return or go on waiting, and never run into undefined behaviour.
    [waits] is the corresponding form of [wp], and [screen] the console
    invariant together with the geometry, which drawing does not change. *)

From S2P Require Import Prelude Machine Memory Vga Text Pci Keyboard NetDriver Network NetStack Checksum Menu.

(** ** Computations that may go on waiting *)

(** [m] returns with [Q], or is still waiting when the fuel is used up. *)
Definition waits {S A} (m : SM S A) (Q : A -> S -> Prop) (s : S) : Prop :=
  match m s with
  | inl e => e = NoReturn
  | inr (a, s') => Q a s'
  end.

Definition lingers {St A} (I : St -> Prop) (R : relation St) (m : SM St A) : Prop :=
  forall s, I s -> waits m (λ _ s', I s' /\ R s s') s.

Section waits_rules.
Context {S A B : Type}.
Implicit Types (m : SM S A) (s : S).

Lemma waits_wp m Q s : wp m Q s -> waits m Q s.
Proof. unfold wp, waits. by destruct (m s) as [|[]]. Qed.

Lemma wp_and m (P Q : A -> S -> Prop) s : wp m P s -> wp m Q s -> wp m (λ a s', P a s' /\ Q a s') s.
Proof. unfold wp. by destruct (m s) as [|[]]. Qed.

Lemma waits_bind (f : A -> SM S B) m Q s : waits m (λ a s', waits (f a) Q s') s -> waits (m ≫= f) Q s.
Proof. unfold waits, mbind, SM_bind. by destruct (m s) as [|[]]. Qed.

Lemma waits_mono m (P Q : A -> S -> Prop) s : waits m P s -> (forall a s', P a s' -> Q a s') -> waits m Q s.
Proof. unfold waits. destruct (m s) as [|[]]; auto. Qed.

End waits_rules.

Section lingers_rules.
Context {S A B : Type} (I : S -> Prop) (R : relation S) `{!PreOrder R}.
Implicit Types (m : SM S A) (s : S).

Lemma lingers_stays m : stays I R m -> lingers I R m.
Proof. intros Hm s Hs. by apply waits_wp, Hm. Qed.

Lemma lingers_halt : lingers (A := A) I R (halt NoReturn).
Proof. by intros s Hs. Qed.

Lemma lingers_bind m (f : A -> SM S B) : lingers I R m -> (forall a, lingers I R (f a)) -> lingers I R (m ≫= f).
Proof.
  intros Hm Hf s Hs. apply waits_bind. eapply waits_mono; [by apply Hm|]. intros a s1 [Hs1 H1].
  eapply waits_mono; [by apply Hf|]. intros b s2 [Hs2 H2]. split; [done|by etransitivity].
Qed.

Lemma lingers_when b (m : SM S unit) : lingers I R m -> lingers I R (when b m).
Proof. destruct b; [done|]. intros _ s Hs. apply waits_wp. by apply (stays_skip I R). Qed.

Lemma waits_lingers m Q s : lingers I R m -> I s -> (forall a s', I s' -> R s s' -> Q a s') -> waits m Q s.
Proof. intros Hm Hs HQ. eapply waits_mono; [by apply Hm|]. intros a s' []. by apply HQ. Qed.

End lingers_rules.

(** ** Drawing keeps the geometry *)

Definition screen (rows cols : Z) (s : machine) : Prop :=
  vga_ok (m_vga s) /\ VGA_alpha_rows (m_vga s) = rows /\ VGA_alpha_columns (m_vga s) = cols.

Abbreviation draws rows cols := (stays (screen rows cols) console_frame).

Lemma screen_same s : console_inv s -> screen (VGA_alpha_rows (m_vga s)) (VGA_alpha_columns (m_vga s)) s.
Proof. by split. Qed.

Lemma term_putc_geometry attr c t : t_rows (term_putc attr c t) = t_rows t /\ t_cols (term_putc attr c t) = t_cols t.
Proof. unfold term_putc, term_right, term_newline, term_cr. repeat case_match; done. Qed.

(** Where the cursor is after a character that does not end a line. *)
Lemma term_putc_x attr c t :
  u8 c <> 13 -> u8 c <> 10 -> (S (t_x t) < t_cols t)%nat -> t_x (term_putc attr c t) = S (t_x t).
Proof.
  intros H1 H2 Hx. unfold term_putc, term_right. rewrite !(proj2 (Z.eqb_neq _ _)) by done. cbn [t_x t_cols].
  by rewrite decide_True.
Qed.

Lemma term_crlf_x attr t : t_x (term_putc attr 10 (term_putc attr 13 t)) = 0%nat.
Proof. change (t_x (term_newline (term_cr t)) = 0%nat). unfold term_newline. by case_decide. Qed.

Section Drawing.
Context `{Env} (rows cols : Z).

Lemma screen_console s s' :
  screen rows cols s -> console_step s s' ->
  t_rows (term_of s') = t_rows (term_of s) -> t_cols (term_of s') = t_cols (term_of s) -> screen rows cols s'.
Proof.
  intros (Hv & <- & <-) [Hv' _ _ _] Er Ec. cbn in Er, Ec. destruct Hv, Hv'. split; [by split|]. lia.
Qed.

Lemma draws_writechar c : draws rows cols (vga_writechar c).
Proof.
  intros s Hs. eapply wp_mono; [apply vga_writechar_term, Hs|]. intros [] s' (Hc & Ht & _).
  destruct (term_putc_geometry (VGA_color (m_vga s)) c (term_of s)) as [Er Ec]. split.
  - apply (screen_console s); [done|done|by rewrite Ht..].
  - destruct Hc. by split.
Qed.

#[local] Hint Resolve draws_writechar : stays.

Lemma draws_write l : draws rows cols (vga_write l).
Proof. induction l as [|c l IH]; cbn [vga_write]; solve_stays. Qed.

Lemma draws_writehex val digits : draws rows cols (vga_writehex val digits).
Proof. induction digits as [|d IH]; cbn [vga_writehex]; solve_stays. Qed.

Lemma draws_write_hex x n : draws rows cols (vga_write_hex x n).
Proof. apply draws_writehex. Qed.

(** Moving the cursor to a place on the screen, and changing the colour. *)
Lemma draws_upd f :
  (forall v, vga_ok v -> VGA_alpha_rows v = rows -> VGA_alpha_columns v = cols ->
     vga_ok (f v) /\ VGA_alpha_rows (f v) = rows /\ VGA_alpha_columns (f v) = cols) ->
  draws rows cols (upd_vga f).
Proof.
  intros Hf s (Hv & Hr & Hc). unfold upd_vga. wp_step. split; [by apply Hf|]. by split; [| |exists []].
Qed.

Lemma draws_column x : 0 <= x < cols -> draws rows cols (upd_vga (set_VGA_alpha_x x)).
Proof. intros Hx. apply draws_upd. intros v [] Hr Hc. split; [|done]. split; try done. cbn. lia. Qed.

Lemma draws_line y : 0 <= y < rows -> draws rows cols (upd_vga (set_VGA_alpha_y y)).
Proof. intros Hy. apply draws_upd. intros v [] Hr Hc. split; [|done]. split; try done. cbn. lia. Qed.

Lemma draws_color c : draws rows cols (vga_color c).
Proof. apply draws_upd. intros v [] Hr Hc. split; [|done]. split; try done. cbn. apply u8_range. Qed.

Lemma draws_normal : draws rows cols vga_normal.
Proof. apply draws_upd. intros v [] Hr Hc. by split. Qed.

Lemma draws_home : draws rows cols vga_home.
Proof.
  unfold vga_home. apply stays_bind; [typeclasses eauto| |intros []]; apply draws_upd; intros v [] Hr Hc;
    (split; [|done]); split; try done; cbn; lia.
Qed.

Lemma draws_clear : draws rows cols vga_clear.
Proof.
  intros s (Hv & Hr & Hc). eapply wp_mono; [by apply vga_clear_term|]. intros [] s' ([] & _ & Ev).
  split; [|by split]. unfold screen. by rewrite Ev.
Qed.

(** Keys: the controller is read until it has a byte. *)
Lemma draws_read_imm : draws rows cols keyb8042_read_buffer_imm.
Proof.
  intros s Hs. eapply wp_mono; [apply read_imm_range|]. intros r s' [_ Hio].
  pose proof (io_only_adds _ _ Hio) as Ha. destruct Hio as [tr [-> _]]. split; [exact Hs|by split].
Qed.

Lemma draws_delay : draws rows cols io_delay.
Proof.
  intros s Hs. eapply wp_mono; [by apply io_only_delay|]. intros [] s' [_ Hio].
  pose proof (io_only_adds _ _ Hio) as Ha. destruct Hio as [tr [-> _]]. split; [exact Hs|by split].
Qed.

End Drawing.

#[export] Hint Resolve draws_writechar draws_write draws_write_hex draws_color draws_normal draws_home draws_clear
  draws_read_imm draws_delay : stays.

(** Closes a [lingers] goal over code whose leaves draw or wait. *)
Ltac solve_lingers := repeat (intros; lazymatch goal with
  | |- lingers _ _ (mbind _ _) => apply lingers_bind; [typeclasses eauto| |]
  | |- lingers _ _ (when _ _) => apply lingers_when; [typeclasses eauto|]
  | |- lingers _ _ (halt NoReturn) => apply lingers_halt
  | |- lingers _ _ (if _ then _ else _) => case_match
  | |- lingers _ _ (match _ with _ => _ end) => case_match
  | |- lingers _ _ _ => first [apply lingers_stays; assumption | solve [eauto 2 with stays] | apply lingers_stays; solve [solve_stays]]
  end).

(** ** The PCI screens *)

Section PciScreens.
Context `{Env} (rows cols : Z).

Abbreviation lingering := (lingers (screen rows cols) console_frame).

Lemma lingers_read_buffer : lingering keyb8042_read_buffer.
Proof.
  unfold keyb8042_read_buffer. generalize env_fuel as f. induction f as [|f IH]; cbn [read_buffer_loop]; [by intros s|].
  solve_lingers.
Qed.

#[local] Hint Resolve lingers_read_buffer : stays.

Lemma draws_row select scroll y : 0 <= y -> y + 1 < rows -> draws rows cols (draw_row select scroll y).
Proof.
  intros H0 H1 s Hs. assert (0 < cols) as Hc by (destruct Hs as ([] & _ & <-); done).
  pose proof (draws_column rows cols 0 ltac:(lia)). pose proof (draws_line rows cols (y + 1) ltac:(lia)).
  revert s Hs. change (draws rows cols (draw_row select scroll y)). unfold draw_row, spaces64. solve_stays.
Qed.

Lemma draws_rows select scroll n :
  Z.of_nat n < rows -> draws rows cols (for_range 0 n (draw_row select scroll)).
Proof.
  intros Hn s Hs. eapply wp_mono.
  - apply (wp_for_range (λ _ s', screen rows cols s' /\ console_frame s s')); [by split|].
    intros i s1 Hi [Hs1 H1]. eapply wp_mono; [apply (draws_row select scroll i); [lia|lia|done]|].
    intros [] s2 [Hs2 H2]. split; [done|by etransitivity].
  - by intros [] s'.
Qed.

Lemma draws_bar dev y : draws rows cols (show_bar dev y).
Proof. unfold show_bar. solve_stays. Qed.

Lemma lingers_close fuel : lingering (wait_close fuel).
Proof. induction fuel as [|f IH]; cbn [wait_close]; [by intros s|]. solve_lingers. Qed.

#[local] Hint Resolve draws_bar lingers_close : stays.

Lemma lingers_show_device select : lingering (show_device select).
Proof. unfold show_device, spaces64. solve_lingers. Qed.

#[local] Hint Resolve lingers_show_device : stays.

Lemma lingers_pci_loop fuel lines :
  lines < rows -> 0 < rows -> forall redraw select scroll, lingering (pci_menu_loop fuel lines redraw select scroll).
Proof.
  intros Hl Hr. induction fuel as [|f IH]; intros redraw select scroll; cbn [pci_menu_loop]; [by intros s|].
  pose proof (draws_rows select scroll (Z.to_nat lines) ltac:(lia)). solve_lingers.
Qed.

Lemma lingers_pci_menu : 8 <= rows < 4294967296 -> lingering pci_bus_menu.
Proof.
  intros Hr s Hs. pose proof Hs as (_ & Er & _). unfold pci_bus_menu. apply waits_bind, waits_wp, wp_gets.
  cbv zeta. rewrite Er, u32_small by lia. pose proof (lingers_pci_loop env_fuel (rows - 8) ltac:(lia) ltac:(lia)).
  match goal with |- waits ?c _ _ => assert (lingering c) as Hc by solve_lingers end. by apply Hc.
Qed.

End PciScreens.

#[export] Hint Resolve lingers_read_buffer lingers_pci_menu : stays.

(** ** The address dialogue *)

(** The line editor: digits and dots are appended while the buffer has room,
    backspace removes the last character. *)
Definition edit_line (input : list Z) (a : Z) : list Z :=
  if ((48 <=? a) && (a <=? 57)) || (a =? 46) then if (length input <? 63)%nat then input ++ [a] else input
  else if a =? 8 then take (length input - 1) input
  else input.

Lemma edit_line_bound input a : (length input <= 63)%nat -> (length (edit_line input a) <= 63)%nat.
Proof.
  intros Hl. unfold edit_line. destruct (_ || _)%bool; [destruct (length input <? 63)%nat eqn:E|destruct (a =? 8)]; try done.
  - apply Nat.ltb_lt in E. rewrite length_app. cbn. lia.
  - rewrite length_take. lia.
Qed.

Section AddressDialogue.
Context `{Env} (rows cols : Z) (Hcols : 64 <= cols < 4294967296).

(** The cursor is behind the last character typed. *)
Definition line_at (input : list Z) (s : machine) : Prop :=
  screen rows cols s /\ VGA_alpha_x (m_vga s) = Z.of_nat (length input) /\ (length input <= 63)%nat.

Lemma writechar_right c s :
  screen rows cols s -> VGA_alpha_x (m_vga s) + 1 < cols -> u8 c <> 13 -> u8 c <> 10 ->
  wp (vga_writechar c) (λ _ s', screen rows cols s' /\ console_frame s s' /\
    VGA_alpha_x (m_vga s') = VGA_alpha_x (m_vga s) + 1) s.
Proof.
  intros Hs Hx H13 H10. pose proof Hs as (Hv & Er & Ec). pose proof (vok_x _ Hv) as Hx0.
  eapply wp_mono; [by apply vga_writechar_term|]. intros [] s' (Hst & Ht & _).
  destruct (term_putc_geometry (VGA_color (m_vga s)) c (term_of s)) as [Gr Gc].
  assert (t_x (term_of s') = S (t_x (term_of s))) as Gx
    by (rewrite Ht; apply term_putc_x; [done..|cbn; lia]).
  assert (screen rows cols s') as Hs' by (apply (screen_console rows cols s); [done|done|by rewrite Ht..]).
  split_and!; [done|by destruct Hst|]. destruct Hs' as ([] & _ & _). cbn in Gx. lia.
Qed.

Lemma cursor_frame s : wp vga_update_cursor (λ _ s', m_vga s' = m_vga s /\ console_frame s s') s.
Proof.
  destruct (vga_update_cursor_run s) as (tr & E & X). unfold wp. rewrite E. split; [done|]. split; [done|by split|by exists tr].
Qed.

(** Moving the cursor within the line. *)
Lemma column_frame f x s :
  screen rows cols s -> f (m_vga s) = set_VGA_alpha_x x (m_vga s) -> 0 <= x < cols ->
  wp (upd_vga f) (λ _ s', screen rows cols s' /\ console_frame s s' /\ VGA_alpha_x (m_vga s') = x) s.
Proof.
  intros (Hv & Er & Ec) Ef Hx. unfold upd_vga. wp_step. unfold screen. cbn [m_vga set_m_vga]. rewrite Ef.
  destruct Hv. split_and!; try done.
  - split; try done. cbn. lia.
  - by split; [| |exists []].
Qed.

Lemma ip_key_spec a input s :
  line_at input s ->
  wp (ip_key a input) (λ input' s', input' = edit_line input a /\ line_at input' s' /\ console_frame s s') s.
Proof.
  intros (Hs & Hx & Hl). unfold ip_key. cbv zeta.
  assert (forall s', screen rows cols s' -> console_frame s s' -> VGA_alpha_x (m_vga s') = Z.of_nat (length (edit_line input a)) ->
    line_at (edit_line input a) s' /\ console_frame s s') as Hend
    by (intros s' Hs' HF Hx'; split; [split_and!; [done|done|by apply edit_line_bound]|done]).
  unfold edit_line in *. destruct (_ || _)%bool eqn:Ea; [|destruct (a =? 8) eqn:E8].
  - assert (48 <= a <= 57 \/ a = 46) as Hr by (apply orb_true_iff in Ea as [Ea|Ea]; bool_to_prop; lia).
    destruct (length input <? 63)%nat eqn:El; [apply Nat.ltb_lt in El|apply Nat.ltb_ge in El].
    + rewrite (proj2 (Z.ltb_lt _ _)) by lia. wp_step. eapply wp_mono; [apply (column_frame _ (Z.of_nat (length input)) s Hs eq_refl); lia|].
      intros [] s1 (Hs1 & F1 & Hx1). wp_step. eapply wp_mono; [apply (writechar_right a s1 Hs1); rewrite ?u8_small by lia; lia|].
      intros [] s2 (Hs2 & F2 & Hx2). wp_step. split; [done|]. apply Hend; [done|by etransitivity|].
      rewrite length_app. cbn [length]. lia.
    + rewrite (proj2 (Z.ltb_ge _ _)) by lia. wp_step. by split; [|apply Hend].
  - destruct (0 <? Z.of_nat (length input)) eqn:El; bool_to_prop.
    + wp_step. eapply wp_mono; [apply (column_frame _ (Z.of_nat (length input) - 1) s Hs); [by rewrite Hx, u32_small by lia|lia]|].
      intros [] s1 (Hs1 & F1 & Hx1). wp_step. eapply wp_mono; [apply (writechar_right 32 s1 Hs1); [lia|done|done]|].
      intros [] s2 (Hs2 & F2 & Hx2). wp_step.
      eapply wp_mono; [apply (column_frame _ (Z.of_nat (length input) - 1) s2 Hs2); [rewrite Hx2, Hx1, u32_small by lia; f_equal; lia|lia]|].
      intros [] s3 (Hs3 & F3 & Hx3). wp_step. eapply wp_mono; [apply cursor_frame|]. intros [] s4 (Ev & H4). wp_step.
      split; [done|]. apply Hend; [unfold screen; by rewrite Ev| |rewrite Ev, length_take; lia].
      repeat (etransitivity; [eassumption|]). done.
    + wp_step. rewrite take_ge by lia. split; [done|]. rewrite take_ge in Hend by lia. by apply Hend.
  - wp_step. by split; [|apply Hend].
Qed.

(** Waiting for a key does not move the cursor. *)
Lemma io_only_waits fuel : forall s, waits (read_buffer_loop fuel) (λ _ s', io_only s s') s.
Proof.
  induction fuel as [|f IH]; intros s; cbn [read_buffer_loop]; [done|]. apply waits_bind, waits_wp.
  eapply wp_mono; [apply read_imm_range|]. intros r s1 [_ F1]. case_match; [|by apply waits_wp; wp_step].
  apply waits_bind, waits_wp. eapply (stays_wp _ _ _ _ s1 io_only_delay); [done|]. intros [] s2 _ F2.
  eapply waits_mono; [apply IH|]. intros a s3 F3. etransitivity; [exact F1|by etransitivity].
Qed.

Lemma read_buffer_line input s :
  line_at input s -> waits keyb8042_read_buffer (λ _ s', line_at input s' /\ console_frame s s') s.
Proof.
  intros Hs. eapply waits_mono; [apply io_only_waits|]. intros r s' Hio. pose proof (io_only_adds _ _ Hio) as Ha.
  destruct Hio as [tr [-> _]]. split; [exact Hs|by split].
Qed.

(** The line returned is what the editor makes of the keys read. *)
Lemma ip_input_spec fuel : forall input s,
  line_at input s ->
  waits (ip_input fuel input)
    (λ input' s', (exists keys, input' = fold_left edit_line keys input) /\ line_at input' s' /\ console_frame s s') s.
Proof.
  induction fuel as [|f IH]; intros input s Hs; cbn [ip_input]; [done|]. apply waits_bind.
  eapply waits_mono; [apply (read_buffer_line input s Hs)|]. intros r s1 (Hs1 & F1). cbv zeta.
  set (a := keyb8042_to_ascii r). apply waits_bind, waits_wp. eapply wp_mono; [by apply ip_key_spec|].
  intros input' s2 (-> & Hs2 & F2). destruct (a =? 13).
  - apply waits_wp. wp_step. split_and!; [by exists [a]|done|by etransitivity].
  - eapply waits_mono; [by apply IH|]. intros input' s3 ((keys & ->) & Hs3 & F3).
    split_and!; [by exists (a :: keys)|done|]. etransitivity; [exact F1|]. by etransitivity.
Qed.

(** A message leaves the cursor at the start of a line. *)
Lemma msg_line t s :
  screen rows cols s -> Forall (λ c, c <> 0) (str t) ->
  wp (vga_write (msg t)) (λ _ s', line_at [] s' /\ console_frame s s') s.
Proof.
  intros Hs Hl. unfold msg. change [13; 10; 0] with ([13; 10] ++ [0]). rewrite (assoc_L (++)).
  pose proof (wp_and _ _ _ _ (draws_write rows cols ((str t ++ [13; 10]) ++ [0]) s Hs)
    (vga_write_term (str t ++ [13; 10]) s (proj1 Hs) ltac:(apply Forall_app_2; [done|by repeat constructor]))) as Hw.
  eapply wp_mono; [exact Hw|]. intros [] s' [[Hs' HF] (_ & Ht & _)]. split; [|done]. split_and!; [done| |cbn; lia].
  unfold term_write in Ht. rewrite fold_left_app in Ht. cbn [fold_left] in Ht.
  apply (f_equal t_x) in Ht. destruct Hs' as ([] & _ & _). cbn [term_of t_x] in Ht. cbn [length].
  rewrite term_crlf_x in Ht. lia.
Qed.

(** The dialogue draws, and changes the address to the numbers of the line
    typed when it has four of them. *)
Lemma change_ip_spec s :
  screen rows cols s ->
  waits change_ip_addr_ui (λ _ s', screen rows cols s' /\ exists keys s1, console_frame s s1 /\ screen rows cols s1 /\
    s' = match parse_ipv4 (fold_left edit_line keys []) with
         | Some ip => set_m_net (set_my_ipv4_address ip (m_net s1)) s1
         | None => s1
         end) s.
Proof.
  intros Hs. unfold change_ip_addr_ui. apply waits_bind, waits_wp. eapply wp_mono; [by apply draws_write|]. intros [] s1 [Hs1 F1].
  apply waits_bind, waits_wp. eapply wp_mono; [by apply draws_write|]. intros [] s2 [Hs2 F2].
  apply waits_bind, waits_wp. eapply wp_mono; [apply msg_line; [done|by repeat constructor]|]. intros [] s3 [Hs3 F3].
  apply waits_bind. eapply waits_mono; [by apply ip_input_spec|]. intros input s4 ((keys & ->) & (Hs4 & _) & F4).
  assert (console_frame s s4) as HF by (repeat (etransitivity; [eassumption|]); done).
  apply waits_wp. destruct (parse_ipv4 _) as [ip|] eqn:E.
  - unfold upd_net. wp_step. split; [exact Hs4|]. exists keys, s4. by rewrite E.
  - wp_step. split; [exact Hs4|]. exists keys, s4. by rewrite E.
Qed.

End AddressDialogue.

Lemma parse_ipv4_shape input ip : parse_ipv4 input = Some ip -> length ip = 4%nat /\ bytes_ok ip.
Proof.
  unfold parse_ipv4. cbv zeta. intros Hp.
  repeat (apply bind_Some in Hp as ([? ?] & _ & Hp); try (case_match; [discriminate|])).
  injection Hp as <-. split; [done|]. repeat constructor; apply u8_range.
Qed.
