(* ===== verification/MainLoop.v ===== *)
(** * The main loop

    [main_menu] polls the keyboard and the network for ever.  One pass, over any
    driver that satisfies [ReceiverLaws], keeps the invariant of the poll
    whatever the operator types, with one exception: probing again while a
    driver is open. *)

From S2P Require Import Prelude Machine Memory Vga Text Alloc Pci Keyboard Interrupt NetDriver Network Drivers Bench NetStack Checksum Stack Poll Receivers PollSpec Ne2000 Ne2000Spec Menu Dialogs.

(** ** The part of a pass before the poll *)

Section Pass.
Context `{Env} `{NetDrivers} `{Linker} (did : driver_id) `{R : !ReceiverLaws (net_driver did)}.

(** The menu is drawn when it has to be, and the scan code [r] is read (-1: no
    key) with the machine then in [s2]. *)
Definition pressed (redraw : Z) (s : machine) (r : Z) (s2 : machine) : Prop :=
  exists s1, when (negb (redraw =? 0)) draw_menu s = inr (tt, s1) /\ keyb8042_read_buffer_imm s1 = inr (r, s2).

(** A key that opens a dialogue: 'i' or 'p'. *)
Definition opens_dialogue (r : Z) : Prop := keyb8042_to_ascii r = 105 \/ keyb8042_to_ascii r = 112.

(** The screen has room for the dialogues. *)
Definition roomy (s : machine) : Prop :=
  8 <= VGA_alpha_rows (m_vga s) < 4294967296 /\ 64 <= VGA_alpha_columns (m_vga s) < 4294967296.

Lemma prints_menu : prints draw_menu.
Proof. unfold draw_menu. solve_stays. Qed.

Lemma pressed_total redraw s :
  console_inv s -> exists r s2, pressed redraw s r s2 /\ console_inv s2 /\ console_frame s s2.
Proof.
  intros Hv. assert (prints (when (negb (redraw =? 0)) draw_menu)) as Hd by (pose proof prints_menu; solve_stays).
  destruct (proj1 (wp_run _ _ _) (Hd s Hv)) as ([] & s1 & E1 & Hv1 & F1).
  destruct (proj1 (wp_run _ _ _) (draws_read_imm _ _ s1 (screen_same s1 Hv1))) as (r & s2 & E2 & Hv2 & F2).
  exists r, s2. split_and!; [by exists s1|apply Hv2|by etransitivity].
Qed.

Lemma pressed_inv redraw s r s2 :
  console_inv s -> pressed redraw s r s2 -> console_inv s2 /\ console_frame s s2.
Proof.
  intros Hv (s1 & E1 & E2). destruct (pressed_total redraw s Hv) as (r' & s2' & (s1' & E1' & E2') & Hv2 & F2).
  rewrite E1 in E1'. injection E1' as <-. rewrite E2 in E2'. injection E2' as <- <-. done.
Qed.

Lemma pass_pressed redraw s r s2 :
  pressed redraw s r s2 ->
  main_menu_pass redraw s = (redraw ← menu_command r (keyb8042_to_ascii r); net_idle ;; mret redraw) s2.
Proof. intros (s1 & E1 & E2). unfold main_menu_pass. unfold mbind at 1, SM_bind at 1. rewrite E1. unfold mbind at 1, SM_bind at 1. by rewrite E2. Qed.

(** ** The keys *)

(** Keys that open no dialogue and do not probe: the command returns and has
    only printed. *)
Lemma menu_command_prints r s :
  chosen_net_drv_open (m_net s) <> 0 -> console_inv s -> ~ opens_dialogue r -> keyb8042_to_ascii r <> 120 ->
  wp (menu_command r (keyb8042_to_ascii r)) (λ _ s', console_inv s' /\ console_frame s s') s.
Proof.
  intros Ho Hv Hd Hx. unfold opens_dialogue, menu_command in *. set (a := keyb8042_to_ascii r) in *.
  rewrite (proj2 (Z.eqb_neq a 105)), (proj2 (Z.eqb_neq a 112)), (proj2 (Z.eqb_neq a 120)) by tauto.
  case_bool; [by wp_step|]. case_bool.
  - unfold open_driver. wp_step. wp_step. destruct (chosen_net_drv _); [|by wp_step].
    rewrite (proj2 (Z.eqb_neq _ _)) by done. by wp_step.
  - match goal with |- wp ?c _ _ => assert (prints c) as Hc by solve_stays end. by apply Hc.
Qed.

(** All keys but 'x': with an open driver the poll goes on from where the
    command returns. *)
Lemma menu_command_poll r s :
  poll_ok did s -> (opens_dialogue r -> roomy s) -> keyb8042_to_ascii r <> 120 ->
  waits (menu_command r (keyb8042_to_ascii r)) (λ _ s', poll_ok did s') s.
Proof.
  intros Hs Hroom Hx. pose proof (po_vga _ _ Hs) as Hv. pose proof (screen_same s Hv) as Hscr.
  destruct (decide (keyb8042_to_ascii r = 105)) as [Ei|Ei]; [|destruct (decide (keyb8042_to_ascii r = 112)) as [Ep|Ep]].
  - destruct (Hroom (or_introl Ei)) as [_ Hc]. unfold menu_command. rewrite Ei. cbn [Z.eqb Pos.eqb]. apply waits_bind.
    eapply waits_mono; [exact (change_ip_spec _ _ Hc s Hscr)|]. intros [] s' (_ & keys & s1 & F1 & Hs1 & ->).
    apply waits_wp, wp_ret. pose proof (console_poll_ok did s s1 Hs (proj1 Hs1) F1) as Hp.
    destruct (parse_ipv4 _) as [ip|] eqn:E; [|done]. apply parse_ipv4_shape in E as [El Eb]. by apply set_ip_poll_ok.
  - destruct (Hroom (or_intror Ep)) as [Hr _]. unfold menu_command. rewrite Ep. cbn [Z.eqb Pos.eqb].
    match goal with |- waits ?c _ _ => assert (lingers (screen (VGA_alpha_rows (m_vga s)) (VGA_alpha_columns (m_vga s))) console_frame c) as Hl end.
    { pose proof (lingers_pci_menu _ (VGA_alpha_columns (m_vga s)) Hr). solve_lingers. }
    eapply waits_lingers; [exact Hl|exact Hscr|]. intros a s' Hs' HF. by apply (console_poll_ok did s); [|apply Hs'|].
  - apply waits_wp. eapply wp_mono; [apply menu_command_prints; [apply Hs|done|unfold opens_dialogue; tauto|done]|].
    intros a s' [Hv' HF]. by apply (console_poll_ok did s).
Qed.

(** ** One pass, and the loop *)

(** What a pass from [s] with [redraw] needs: no probe is asked for, a dialogue
    finds a screen with room for it, and the frame that the poll then sees, if
    any, has an abstract effect. *)
Record attended (redraw : Z) (s : machine) : Prop := {
  at_keys r s2 : pressed redraw s r s2 -> keyb8042_to_ascii r <> 120 /\ (opens_dialogue r -> roomy s2);
  at_frame r s2 r' s3 : pressed redraw s r s2 -> menu_command r (keyb8042_to_ascii r) s2 = inr (r', s3) -> frame_served did s3
}.

Lemma pass_spec redraw s :
  poll_ok did s -> attended redraw s ->
  match main_menu_pass redraw s with
  | inr (_, s') => poll_ok did s'
  | inl e => e = NoReturn /\ exists r s2, pressed redraw s r s2 /\ opens_dialogue r
  end.
Proof.
  intros Hs [Hk Hf]. destruct (pressed_total redraw s (po_vga _ _ Hs)) as (r & s2 & Hp & Hv2 & F2).
  destruct (Hk r s2 Hp) as [Hx Hroom]. pose proof (console_poll_ok did s s2 Hs Hv2 F2) as Hs2.
  rewrite (pass_pressed _ _ _ _ Hp). pose proof (menu_command_poll r s2 Hs2 Hroom Hx) as Hc. unfold waits in Hc.
  unfold mbind at 1, SM_bind at 1. destruct (menu_command r _ s2) as [e|[r' s3]] eqn:E.
  - split; [done|]. exists r, s2. split; [done|]. unfold opens_dialogue.
    destruct (decide (keyb8042_to_ascii r = 105)), (decide (keyb8042_to_ascii r = 112)); try tauto. exfalso.
    assert (~ opens_dialogue r) as Hd by (unfold opens_dialogue; tauto).
    pose proof (menu_command_prints r s2 (po_open _ _ Hs2) Hv2 Hd Hx) as Hw. unfold wp in Hw. by rewrite E in Hw.
  - pose proof (net_idle_served did s3 Hc (Hf r s2 r' s3 Hp E)) as Hw. apply wp_run in Hw as ([] & s4 & E4 & Hs4).
    unfold mbind, SM_bind. by rewrite E4.
Qed.

Fixpoint attended_for (n : nat) (redraw : Z) (s : machine) : Prop :=
  match n with
  | O => True
  | S n' => attended redraw s /\ forall r' s', main_menu_pass redraw s = inr (r', s') -> attended_for n' r' s'
  end.

(** The operator has opened a dialogue and not closed it. *)
Definition in_dialogue (redraw : Z) (s : machine) : Prop := exists r s2, pressed redraw s r s2 /\ opens_dialogue r.

Lemma loop_spec n : forall redraw s,
  poll_ok did s -> attended_for n redraw s ->
  exists r' s', poll_ok did s' /\
    ((forall m, main_menu_loop (n + m) redraw s = main_menu_loop m r' s') \/
     (in_dialogue r' s' /\ forall m, main_menu_loop (n + m) redraw s = inl NoReturn)).
Proof.
  induction n as [|n IH]; intros redraw s Hs Ha; [by exists redraw, s; split; [|left]|]. destruct Ha as [Ha Hn].
  pose proof (pass_spec redraw s Hs Ha) as Hp. cbn [Nat.add main_menu_loop]. unfold mbind, SM_bind.
  destruct (main_menu_pass redraw s) as [e|[r1 s1]].
  - exists redraw, s. split; [done|]. right. by destruct Hp as [-> Hd].
  - by apply (IH r1 s1), Hn.
Qed.


End Pass.

(** ** Probing again while a driver is open *)

Section Reprobe.
Context `{Env} `{NetDrivers} `{Linker}.

(** The operator answers the question about ISA cards with a key other than 'y'. *)
Definition declines : Prop :=
  forall tr, Z.land (u8 (env_in tr 8 IO_KEYBOARD_STATUS)) 1 <> 0 /\
    let a := keyb8042_to_ascii (u8 (env_in tr 8 IO_KEYBOARD_BUFFER)) in 0 < a /\ a <> 121.

(** The bytes a port gives. *)
Lemma inbi_d_value p s : wp (io_inbi_d p) (λ r s', (exists tr, r = u8 (env_in tr 8 (u16 p))) /\ io_only s s') s.
Proof.
  unfold io_inbi_d, io_inbi, io_in. do 4 wp_step. wp_step.
  eapply stays_wp; [by apply io_only_log|done|]. intros [] s1 _ F1. wp_step. wp_step. wp_step.
  eapply stays_wp; [apply io_only_delay|done|]. intros [] s2 _ F2. wp_step. split; [by eexists|by etransitivity].
Qed.

Lemma read_declines s :
  declines -> wp keyb8042_read_buffer_imm (λ r s', 0 <= r /\ 0 < keyb8042_to_ascii r /\ keyb8042_to_ascii r <> 121 /\ io_only s s') s.
Proof.
  intros Hd. unfold keyb8042_read_buffer_imm. wp_step. eapply wp_mono; [apply inbi_d_value|]. intros v s1 [[tr ->] F1].
  change (u16 IO_KEYBOARD_STATUS) with IO_KEYBOARD_STATUS. rewrite (proj2 (Z.eqb_neq _ _)) by apply Hd. cbn [negb].
  eapply wp_mono; [apply inbi_d_value|]. intros b s2 [[tr2 ->] F2]. change (u16 IO_KEYBOARD_BUFFER) with IO_KEYBOARD_BUFFER.
  destruct (Hd tr2) as [_ [Ha Hy]]. pose proof (u8_range (env_in tr2 8 IO_KEYBOARD_BUFFER)).
  split_and!; [lia|done|done|by etransitivity].
Qed.

Lemma ask_isa_declined s : declines -> (0 < env_fuel)%nat -> wp (ask_isa env_fuel) (λ _ s', io_only s s') s.
Proof.
  intros Hd Hf. assert (wp keyb8042_read_buffer (λ r s', 0 < keyb8042_to_ascii r /\ keyb8042_to_ascii r <> 121 /\ io_only s s') s) as Hr.
  { unfold keyb8042_read_buffer. destruct env_fuel; [lia|]. cbn [read_buffer_loop]. wp_step.
    eapply wp_mono; [by apply read_declines|]. intros r s1 (H0' & Hr). rewrite (proj2 (Z.ltb_ge _ _)) by done. by wp_step. }
  destruct env_fuel eqn:E; [lia|]. cbn [ask_isa]. wp_step.
  eapply wp_mono; [exact Hr|]. intros r s1 (Ha & Hy & F1). cbv zeta. rewrite (proj2 (Z.eqb_neq _ _)), (proj2 (Z.ltb_lt _ _)) by done.
  by wp_step.
Qed.

(** Nothing in the table is an Ethernet card: the loop over it chooses nothing. *)
Lemma probe_devices_none n : forall index s,
  chosen_net_drv (m_net s) = None -> Forall (λ p, ethernet_device p = false) (pci_devices (m_pci s)) ->
  probe_devices n index s = inr (tt, s).
Proof.
  induction n as [|n IH]; intros index s Hn Hp; cbn [probe_devices]; [done|]. run. rewrite Hn.
  change (negb (pd_device_id ?p =? 0) && (Z.shiftr (pd_class_code ?p) 16 =? 2)) with (ethernet_device p).
  assert (ethernet_device (nth (Z.to_nat index) (pci_devices (m_pci s)) zero_device) = false) as ->.
  { rewrite nth_lookup. destruct (_ !! _) as [p|] eqn:E; [|done]. cbn. by eapply (Forall_lookup_1 _ _ _ _ Hp). }
  run. by apply IH.
Qed.

Lemma autoprobe_none s :
  console_inv s -> Forall (λ p, ethernet_device p = false) (pci_devices (m_pci s)) -> declines -> (0 < env_fuel)%nat ->
  wp autoprobe_network_card (λ _ s', chosen_net_drv (m_net s') = None /\
    chosen_net_drv_open (m_net s') = chosen_net_drv_open (m_net s)) s.
Proof.
  intros Hv Hp Hd Hf. unfold autoprobe_network_card, upd_net. do 2 (wp_step; wp_step). wp_step. unfold wp at 1.
  rewrite probe_devices_none by done. wp_step. wp_step. cbn [chosen_net_dev m_net set_m_net set_chosen_net_dev].
  wp_step. eapply stays_wp; [apply prints_write|exact Hv|]. intros [] s1 Hv1 F1.
  wp_step. eapply stays_wp; [apply prints_write|exact Hv1|]. intros [] s2 Hv2 F2.
  eapply wp_mono; [by apply ask_isa_declined|]. intros [] s3 [tr [-> _]]. cbn [m_net set_m_trace].
  rewrite (ss_net _ _ (cf_statics _ _ F2)), (ss_net _ _ (cf_statics _ _ F1)). done.
Qed.

Lemma net_idle_null s : chosen_net_drv_open (m_net s) <> 0 -> chosen_net_drv (m_net s) = None -> net_idle s = inl Undefined.
Proof. intros Ho Hn. unfold net_idle, chosen. run. rewrite (proj2 (Z.eqb_neq _ _)) by done. run. by rewrite Hn. Qed.

Lemma reprobe_spec redraw s r s2 :
  console_inv s -> chosen_net_drv_open (m_net s) <> 0 -> Forall (λ p, ethernet_device p = false) (pci_devices (m_pci s)) ->
  pressed redraw s r s2 -> keyb8042_to_ascii r = 120 -> declines -> (0 < env_fuel)%nat ->
  main_menu_pass redraw s = inl Undefined.
Proof.
  intros Hv Ho Hp Hk Hx Hd Hf. rewrite (pass_pressed _ _ _ _ Hk), Hx. destruct (pressed_inv _ _ _ _ Hv Hk) as [Hv2 [_ [] _]].
  unfold menu_command. cbn [Z.eqb Pos.eqb].
  assert (wp autoprobe_network_card (λ _ s', chosen_net_drv (m_net s') = None /\ chosen_net_drv_open (m_net s') = chosen_net_drv_open (m_net s2)) s2)
    as Hw by (apply autoprobe_none; rewrite ?ss_pci; done).
  apply wp_run in Hw as ([] & s3 & E & Hn & Ho3). run. rewrite E. run.
  rewrite net_idle_null; [done|by rewrite Ho3, ss_net|done].
Qed.

(** C37: Probing again while a driver is open ends in a call through a null
    pointer: autoprobe_network_card forgets the driver but not that it is open;
    when no PCI card is found and the operator declines the ISA probe, the
    [net_idle] of the same pass uses the driver that is no longer there. *)
Theorem reprobe_while_open redraw s r s2 :
  vga_ok (m_vga s) -> chosen_net_drv_open (m_net s) <> 0 ->
  Forall (λ p, ethernet_device p = false) (pci_devices (m_pci s)) ->
  pressed redraw s r s2 -> keyb8042_to_ascii r = 120 -> declines -> (0 < env_fuel)%nat ->
  main_menu_pass redraw s = inl Undefined.
Proof. apply reprobe_spec. Qed.

End Reprobe.

(** ** A loop without traffic, and one with the X key held down *)

Section Quiet.
#[local] Existing Instance one_page_env | 0.
#[local] Instance quiet_drivers : NetDrivers := eth_drivers.
#[local] Existing Instance quiet_card.

Abbreviation quiet_receiver := (ne2000_receiver 0x300 zero_L zero_X).

(** No key is pressed. *)
Lemma quiet_pressed redraw s r s2 : console_inv s -> pressed redraw s r s2 -> r = -1.
Proof.
  intros Hv (s1 & _ & E). unfold keyb8042_read_buffer_imm in E.
  pose proof (inbi_d_constant IO_KEYBOARD_STATUS 0 s1 ltac:(done)) as Hw. apply wp_run in Hw as (v & s' & E1 & -> & _).
  unfold mbind, SM_bind in E. rewrite E1 in E. by injection E as <- _.
Qed.

Lemma quiet_attended n : forall redraw s,
  poll_ok (R := quiet_receiver) ne2000 s -> attended_for (R := quiet_receiver) ne2000 n redraw s.
Proof.
  induction n as [|n IH]; intros redraw s Hs; [done|].
  assert (attended (R := quiet_receiver) ne2000 redraw s) as Ha.
  { split.
    - intros r s2 Hp. rewrite (quiet_pressed _ _ _ _ (po_vga _ _ Hs) Hp). split; [done|]. intros [Hd|Hd]; discriminate Hd.
    - intros r s2 r' s3 Hp E. rewrite (quiet_pressed _ _ _ _ (po_vga _ _ Hs) Hp) in E. injection E as _ <-.
      destruct (pressed_inv _ _ _ _ (po_vga _ _ Hs) Hp) as [Hv2 F2].
      pose proof (console_poll_ok (R := quiet_receiver) ne2000 s s2 Hs Hv2 F2) as [Hi _ _ _ _ _ _ _].
      intros s4 pkt sz eth L E. discriminate (quiet_sees s2 _ _ Hi E). }
  split; [done|]. intros r' s' E. apply IH. pose proof (pass_spec (R := quiet_receiver) ne2000 redraw s Hs Ha) as Hp.
  by rewrite E in Hp.
Qed.


End Quiet.

(** The X key is held down, and there is no PCI bus. *)
Section Held.
#[local] Instance held_env : Env | 0 := {|
  env_in := λ _ _ p, if p =? 100 then 1 else 45;
  env_dma := λ _ m, m;
  env_exec := λ _ _, None;
  env_fuel := 10
|}.
#[local] Instance held_drivers : NetDrivers := eth_drivers.

Lemma held_key : exists s2, pressed 0 zero_state 45 s2.
Proof. eexists. exists zero_state. split; [reflexivity|vm_compute; reflexivity]. Qed.

Lemma reprobe_while_open_witness : main_menu_pass 0 zero_state = inl Undefined.
Proof.
  destruct held_key as [s2 Hp]. apply (reprobe_while_open 0 zero_state 45 s2 zero_vga); try done.
  - by repeat constructor.
  - cbn. lia.
Defined.

End Held.
