(* ===== verification/Start.v ===== *)
(** * From an unused card to the main loop

    Opening a driver establishes the invariant that [Poll] and [MainLoop] rely
    on.  [OpenLaws] is the promise of a driver's [init]; it is proved for the
    three drivers that receive, each from a machine whose card has not been
    used. *)

From S2P Require Import Prelude Machine Memory Vga Text Alloc Pci Keyboard Interrupt NetDriver Network Rings Pcnet32 Rtl8101 Rtl8139 Ne2000 Drivers Bench Pcnet32Spec NetStack Checksum Poll Receivers Menu MainLoop.

(** [init] succeeds on a card that has not been used: the driver can receive and
    the card's address is the machine's. *)
Class OpenLaws (d : network_driver) `{R : !ReceiverLaws d} : Type := {
  cold : option pci_device -> machine -> Prop;
  cold_init dev s :
    cold dev s ->
    wp (drv_init d dev) (λ r s', r = 1 /\ rcv_idle s' /\ m_vga s' = m_vga s /\
      exists mac, m_net s' = set_my_eth_mac mac (m_net s) /\ length mac = 6%nat /\ bytes_ok mac) s;
  cold_stable dev s s' : cold dev s -> same_drivers s s' -> m_alloc s' = m_alloc s -> cold dev s'
}.

(** ** The drivers *)

Section Pcnet.
Context `{Env} `{Linker} (A B : Z) `{Card : !CardOk A B}.

Record pcnet_cold (dev : option pci_device) (s : machine) : Prop := {
  pc_known : pcnet32_known_pci_id dev = 1;
  pc_io : exists d i b, dev = Some d /\ pcnet32_find_io (pd_BAR d) = Some (i, b);
  pc_A : A = align_up (m_alloc s) 16;
  pc_B : B = align_up (A + 640) 32;
  pc_rings : pcnet32_rx (m_pcnet32 s) = 0 /\ pcnet32_tx (m_pcnet32 s) = 0 /\
    pcnet32_rx_packets (m_pcnet32 s) = 0 /\ pcnet32_tx_packets (m_pcnet32 s) = 0;
  pc_mac : length (pcnet32_mac_address (m_pcnet32 s)) = 6%nat /\ bytes_ok (pcnet32_mac_address (m_pcnet32 s));
  pc_room : 16 <= m_alloc s /\ m_alloc s + 51888 < 4294967296 /\ (786432 <= m_alloc s \/ m_alloc s + 51888 <= 753664)
}.

Lemma pcnet_cold_init dev s :
  pcnet_cold dev s ->
  wp (drv_init pcnet32_driver dev) (λ r s', r = 1 /\ pcnet_idle A B s' /\ m_vga s' = m_vga s /\
    exists mac, m_net s' = set_my_eth_mac mac (m_net s) /\ length mac = 6%nat /\ bytes_ok mac) s.
Proof.
  intros [Hid (d & i & b & -> & Hio) EA EB (H1 & H2 & H3 & H4) [H5 H6] (H7 & H8 & H9)].
  eapply wp_mono; [exact (pcnet32_init_spec s d i b Hid Hio H1 H2 H3 H4 H5 H6 H7 H8 H9)|].
  intros r s' (-> & Hi & _ & _ & Hv & Hm). split_and!; [done| |done|done]. exists 0. by rewrite EB, EA.
Qed.

Lemma pcnet_cold_stable dev s s' : pcnet_cold dev s -> same_drivers s s' -> m_alloc s' = m_alloc s -> pcnet_cold dev s'.
Proof. intros [] [E1 E2 E3] Ea. by split; rewrite ?E1, ?E2, ?E3, ?Ea. Qed.

#[export] Instance pcnet32_opens : OpenLaws pcnet32_driver (R := pcnet32_receiver A B) :=
  Build_OpenLaws pcnet32_driver (pcnet32_receiver A B) pcnet_cold pcnet_cold_init pcnet_cold_stable.
End Pcnet.

Section Realtek.
Context `{Env} (A B : Z) `{Card : !RtlCardOk A B}.

(** The card has finished its reset when the driver looks. *)
Record realtek_cold (dev : option pci_device) (s : machine) : Prop := {
  rk_known : rtl8101_known_pci_id dev = 1;
  rk_io : exists d i b, dev = Some d /\ rtl8101_find_io (pd_BAR d) = Some (i, b) /\
    forall tr, let port := u16 (u32 (bar_start b) + 0x37) in
      Z.land (u8 (env_in (EvOut 8 port 0x10 :: tr) 8 port)) 0x10 = 0;
  rk_A : A = align_up (m_alloc s) 256;
  rk_B : B = align_up (A + 352) 32;
  rk_vars : rtl_cold (m_rtl8101 s);
  rk_room : 16 <= m_alloc s /\ m_alloc s + 16640 < 4294967296 /\ (786432 <= m_alloc s \/ m_alloc s + 16640 <= 753664)
}.

Lemma realtek_cold_init dev s :
  realtek_cold dev s ->
  wp (drv_init rtl8101_driver dev) (λ r s', r = 1 /\ realtek_idle A B s' /\ m_vga s' = m_vga s /\
    exists mac, m_net s' = set_my_eth_mac mac (m_net s) /\ length mac = 6%nat /\ bytes_ok mac) s.
Proof.
  intros [Hid (d & i & b & -> & Hio & Hlook) EA EB Hc (H1 & H2 & H3)].
  destruct (rtl_init_spec s d i b Hid Hio Hc H1 H2 H3) as (tr & Hw). eapply wp_mono; [exact Hw|].
  intros r s' [Hr _]. destruct (Hr (Hlook tr)) as (-> & Hi & _ & _ & Hv & Hm). split_and!; [done| |done|done].
  exists 0. by rewrite EB, EA.
Qed.

Lemma realtek_cold_stable dev s s' : realtek_cold dev s -> same_drivers s s' -> m_alloc s' = m_alloc s -> realtek_cold dev s'.
Proof. intros [] [E1 E2 E3] Ea. by split; rewrite ?E1, ?E2, ?E3, ?Ea. Qed.

#[export] Instance rtl8101_opens : OpenLaws rtl8101_driver (R := rtl8101_receiver A B) :=
  Build_OpenLaws rtl8101_driver (rtl8101_receiver A B) realtek_cold realtek_cold_init realtek_cold_stable.
End Realtek.

Section Ne.
Context `{Env} (P L X : Z) `{Card : !NeCardOk P}.

Record ne_cold (dev : option pci_device) (s : machine) : Prop := {
  nk_isa : dev = None;
  nk_layout : ne_layout P L X;
  nk_base : ne2000_probe_base (m_ne2000 s) = P;
  nk_alloc : m_alloc s = L;
  nk_X : X = L + 2048;
  nk_room : X + 2049 < 4294967296
}.

Lemma ne_cold_init dev s :
  ne_cold dev s ->
  wp (drv_init ne2000_driver dev) (λ r s', r = 1 /\ ne_ok P L X s' /\ m_vga s' = m_vga s /\
    exists mac, m_net s' = set_my_eth_mac mac (m_net s) /\ length mac = 6%nat /\ bytes_ok mac) s.
Proof.
  intros [-> Hl Hb Ha HX Hend]. eapply wp_mono; [exact (ne_init_spec P L X s Hl Hb Ha HX Hend)|].
  intros r s' (-> & Hs' & tr & mac & _ & Hm & Hmb & _ & _ & _ & _ & Hv & _ & En). split_and!; [done|done|done|by exists mac].
Qed.

Lemma ne_cold_stable dev s s' : ne_cold dev s -> same_drivers s s' -> m_alloc s' = m_alloc s -> ne_cold dev s'.
Proof. intros [] [E1 E2 E3] Ea. by split; rewrite ?E1, ?E2, ?E3, ?Ea. Qed.

#[export] Instance ne2000_opens : OpenLaws ne2000_driver (R := ne2000_receiver P L X) :=
  Build_OpenLaws ne2000_driver (ne2000_receiver P L X) ne_cold ne_cold_init ne_cold_stable.
End Ne.

(** ** Opening *)

Section Open.
Context `{Env} `{NetDrivers} `{Linker} (did : driver_id) `{R : !ReceiverLaws (net_driver did)} `{O : !OpenLaws (net_driver did)}.

(** A driver is chosen and closed, and its card has not been used. *)
Record unopened (s : machine) : Prop := {
  un_drv : chosen_net_drv (m_net s) = Some did;
  un_closed : chosen_net_drv_open (m_net s) = 0;
  un_cold : cold (chosen_device s) s;
  un_vga : vga_ok (m_vga s);
  un_ip : length (my_ipv4_address (m_net s)) = 4%nat /\ bytes_ok (my_ipv4_address (m_net s))
}.

Lemma init_opens s s' mac :
  unopened s -> rcv_idle s' -> m_vga s' = m_vga s -> m_net s' = set_my_eth_mac mac (m_net s) -> length mac = 6%nat -> bytes_ok mac ->
  poll_ok did (set_m_net (set_chosen_net_drv_open 1 (m_net s')) s').
Proof.
  intros [Hd Hc _ Hv [Hl Hb]] Hi Ev En Hm Hmb. split; cbn; rewrite ?Ev, ?En; try done. by apply (rcv_stable s').
Qed.

Lemma open_spec s :
  unopened s -> exists s', start_driver s = inr (tt, s') /\ (forall redraw, open_driver redraw s = inr (1, s')) /\ poll_ok did s'.
Proof.
  intros Hu. pose proof Hu as [Hd Hc Hk _ _]. pose proof (cold_init _ _ Hk) as Hw.
  apply wp_run in Hw as (r & s1 & E & -> & Hi & Hv & mac & En & Hm & Hmb).
  eexists. split_and!; [| |by eapply (init_opens s s1 mac)].
  - unfold start_driver, upd_net. run. rewrite Hd, Hc. cbn [Z.eqb when]. run. rewrite E. by run.
  - intros redraw. unfold open_driver, upd_net. run. rewrite Hd, Hc. cbn [Z.eqb]. run. rewrite E. by run.
Qed.


End Open.

(** ** An AMD card in a machine that has just started *)

#[local] Instance amd_drivers : NetDrivers | 0 := eth_drivers.

Definition amd_start : machine :=
  set_m_net (set_my_ipv4_address [192; 168; 1; 2] (set_chosen_net_drv_open 0
      (set_chosen_net_drv (Some pcnet32) (set_chosen_net_dev (Some 1) (m_net cold_state)))))
    (set_m_pci (m_pci card_table) cold_state).

