(* ===== verification/Boot.v ===== *)
(** * From power-on to the main menu

    [c_start] brings the machine up: allocator, console, interrupts, timer,
    keyboard and PCI bus, then the card that was found.  With a keyboard
    controller that answers, every step returns, and a machine with a card that
    a driver knows reaches [main_menu] in the invariant of [MainLoop]. *)

From S2P Require Import Prelude Machine Memory Vga Text Alloc Pci Keyboard Interrupt NetDriver Network Rings Pcnet32 Rtl8101 Rtl8139 Ne2000 Drivers Bench Pcnet32Spec NetStack Checksum Poll Receivers Menu MainLoop Start.

(** ** A keyboard controller that answers

    [kb_busy] and [kb_empty] bound how often the status still shows a full
    input buffer, or no answer, when it is only looked at from now on. *)

Definition looks (ext : list event) : Prop := Forall (λ e, exists w p v, e = EvIn w p v) ext.

Class KeyboardOk `{Env} : Type := {
  kb_busy : list event -> nat;
  kb_empty : list event -> nat;
  kb_busy_fuel tr : (kb_busy tr < env_fuel)%nat;
  kb_empty_fuel tr : (kb_empty tr < env_fuel)%nat;
  kb_drains tr ext :
    Z.land (u8 (env_in tr 8 100)) 2 <> 0 -> ext <> [] -> looks ext -> (kb_busy (ext ++ tr) < kb_busy tr)%nat;
  kb_answers tr ext :
    Z.land (u8 (env_in tr 8 100)) 1 = 0 -> ext <> [] -> looks ext -> (kb_empty (ext ++ tr) < kb_empty tr)%nat
}.

Section Waits.
Context `{E : Env}.

(** The look at a port and the delay behind it. *)
Lemma inbi_d_run p s :
  exists ext, ext <> [] /\ looks ext /\
    io_inbi_d p s = inr (u8 (env_in (m_trace s) 8 (u16 p)), set_m_trace (ext ++ m_trace s) s).
Proof.
  unfold io_inbi_d, io_inbi, io_delay, io_inbi, io_in, log. run. cbn [m_trace set_m_trace].
  eexists [_; _; _; _; _]. split; [done|]. split; [by repeat (constructor; [by eauto|])|]. reflexivity.
Qed.

Lemma delay_run s : exists ext, looks ext /\ io_delay s = inr (tt, set_m_trace (ext ++ m_trace s) s).
Proof.
  unfold io_delay, io_inbi, io_in, log. run. cbn [m_trace set_m_trace].
  eexists [_; _; _; _]. split; [by repeat (constructor; [by eauto|])|]. reflexivity.
Qed.

Lemma looks_executed ext : looks ext -> executed ext = [].
Proof. induction 1 as [|e ext (w & p & v & ->) _ IH]; [done|exact IH]. Qed.

Lemma looks_io_only ext s : looks ext -> io_only s (set_m_trace (ext ++ m_trace s) s).
Proof. intros Hl. exists ext. split; [done|]. by apply looks_executed. Qed.

Context `{K : !KeyboardOk}.

Lemma wait_loop_returns fuel : forall s,
  (kb_busy (m_trace s) < fuel)%nat ->
  wp (while fuel (v ← io_inbi_d IO_KEYBOARD_STATUS; mret (negb (Z.land v 2 =? 0))) io_delay) (λ _ s', io_only s s') s.
Proof.
  induction fuel as [|fuel IH]; intros s Hf; [lia|]. cbn [while].
  destruct (inbi_d_run IO_KEYBOARD_STATUS s) as (ext & Hne & Hl & E1). change (u16 IO_KEYBOARD_STATUS) with 100 in E1.
  wp_step. wp_step. unfold wp at 1. rewrite E1. wp_step. pose proof (looks_io_only ext s Hl) as F1.
  destruct (Z.eqb_spec (Z.land (u8 (env_in (m_trace s) 8 100)) 2) 0) as [_|Hb]; cbn [negb]; [by wp_step|].
  set (s1 := set_m_trace (ext ++ m_trace s) s) in *. destruct (delay_run s1) as (ext2 & Hl2 & E2).
  wp_step. unfold wp at 1. rewrite E2. eapply wp_mono; [apply IH|].
  - cbn [m_trace set_m_trace s1]. rewrite app_assoc.
    assert (kb_busy ((ext2 ++ ext) ++ m_trace s) < kb_busy (m_trace s))%nat; [|lia].
    apply kb_drains; [done|by destruct ext2, ext|by apply Forall_app].
  - intros [] s2 F2. etransitivity; [exact F1|]. etransitivity; [by apply looks_io_only|exact F2].
Qed.

Lemma wait_output_returns : port_io keyb8042_wait_for_output_ready.
Proof. intros s _. eapply wp_mono; [apply wait_loop_returns, kb_busy_fuel|]. done. Qed.

Lemma read_buffer_loop_returns fuel : forall s,
  (kb_empty (m_trace s) < fuel)%nat -> wp (read_buffer_loop fuel) (λ _ s', io_only s s') s.
Proof.
  induction fuel as [|fuel IH]; intros s Hf; [lia|]. cbn [read_buffer_loop]. unfold keyb8042_read_buffer_imm.
  destruct (inbi_d_run IO_KEYBOARD_STATUS s) as (ext & Hne & Hl & E1). change (u16 IO_KEYBOARD_STATUS) with 100 in E1.
  wp_step. wp_step. unfold wp at 1. rewrite E1. pose proof (looks_io_only ext s Hl) as F1.
  set (s1 := set_m_trace (ext ++ m_trace s) s) in *.
  destruct (Z.eqb_spec (Z.land (u8 (env_in (m_trace s) 8 100)) 1) 0) as [Hb|_]; cbn [negb].
  - wp_step. cbn [Z.ltb Z.compare]. destruct (delay_run s1) as (ext2 & Hl2 & E2).
    wp_step. unfold wp at 1. rewrite E2. eapply wp_mono; [apply IH|].
    + cbn [m_trace set_m_trace s1]. rewrite app_assoc.
      assert (kb_empty ((ext2 ++ ext) ++ m_trace s) < kb_empty (m_trace s))%nat; [|lia].
      apply kb_answers; [done|by destruct ext2, ext|by apply Forall_app].
    + intros r s2 F2. etransitivity; [exact F1|]. etransitivity; [by apply looks_io_only|exact F2].
  - destruct (inbi_d_run IO_KEYBOARD_BUFFER s1) as (ext2 & _ & Hl2 & E2). unfold wp at 1. rewrite E2.
    rewrite (proj2 (Z.ltb_ge _ _)) by apply u8_range. wp_step. etransitivity; [exact F1|by apply looks_io_only].
Qed.

Lemma read_buffer_returns : port_io keyb8042_read_buffer.
Proof. intros s _. eapply wp_mono; [apply read_buffer_loop_returns, kb_empty_fuel|]. done. Qed.

End Waits.

(** ** What start-up leaves alone *)

Record kept (s s' : machine) : Prop := {
  kp_alloc : m_alloc s' = m_alloc s;
  kp_net : m_net s' = m_net s;
  kp_drivers : same_drivers s s'
}.

#[export] Instance kept_preorder : PreOrder kept.
Proof.
  split; [by intros s|]. intros s1 s2 s3 [Ea1 En1 D1] [Ea2 En2 D2]. split; [congruence|congruence|by etransitivity].
Qed.

(** The console and the PCI table are in order. *)
Definition up (s : machine) : Prop := vga_ok (m_vga s) /\ pci_ok (m_pci s).

Abbreviation sets_up := (stays up kept).

Lemma same_statics_kept s s' : same_statics s s' -> kept s s'.
Proof. intros []. by repeat split. Qed.

Lemma sets_up_port {A} (c : M A) : port_io c -> sets_up c.
Proof. intros Hc s [Hv Hp]. eapply stays_wp; [exact Hc|done|]. intros a s' _ [tr [-> _]]. done. Qed.

Lemma sets_up_prints {A} (c : M A) : prints c -> sets_up c.
Proof.
  intros Hc s [Hv Hp]. eapply stays_wp; [exact Hc|exact Hv|]. intros a s' Hv' [_ Hs _]. split; [|by apply same_statics_kept].
  split; [exact Hv'|]. by rewrite (ss_pci _ _ Hs).
Qed.

Lemma sets_up_mem f : sets_up (upd_mem f).
Proof. intros s Hs. unfold upd_mem. by wp_step. Qed.

Section Setup.
Context `{E : Env} `{L : Linker} `{K : !KeyboardOk}.

Lemma sets_up_wait : sets_up keyb8042_wait_for_output_ready.
Proof. apply sets_up_port, wait_output_returns. Qed.
Lemma sets_up_read : sets_up keyb8042_read_buffer.
Proof. apply sets_up_port, read_buffer_returns. Qed.
Lemma sets_up_inbi_d p : sets_up (io_inbi_d p).
Proof. apply sets_up_port, io_only_inbi_d. Qed.
Lemma sets_up_outbi_d p v : sets_up (io_outbi_d p v).
Proof. apply sets_up_port, io_only_outbi_d. Qed.
Lemma sets_up_outbi p v : sets_up (io_outbi p v).
Proof. apply sets_up_port, io_only_outbi. Qed.
Lemma sets_up_write l : sets_up (vga_write l).
Proof. apply sets_up_prints, prints_write. Qed.

#[local] Hint Resolve sets_up_wait sets_up_read sets_up_inbi_d sets_up_outbi_d sets_up_outbi sets_up_write sets_up_mem : stays.

Lemma sets_up_write_buffer c : sets_up (keyb8042_write_buffer c).
Proof. unfold keyb8042_write_buffer. solve_stays. Qed.
Lemma sets_up_write_command c : sets_up (keyb8042_write_command c).
Proof. unfold keyb8042_write_command. solve_stays. Qed.
Lemma sets_up_read_imm : sets_up keyb8042_read_buffer_imm.
Proof. unfold keyb8042_read_buffer_imm. solve_stays. Qed.

#[local] Hint Resolve sets_up_write_buffer sets_up_write_command sets_up_read_imm : stays.

Lemma sets_up_ack l : sets_up (expect_ack l).
Proof. unfold expect_ack. solve_stays. Qed.
Lemma sets_up_reset : sets_up keyb8042_reset.
Proof. unfold keyb8042_reset. cbv zeta. solve_stays. Qed.

#[local] Hint Resolve sets_up_ack sets_up_reset : stays.

(** The keyboard comes up, or is reported as missing or broken. *)
Lemma sets_up_keyboard : sets_up keyboard_init.
Proof.
  unfold keyboard_init, keyb8042_init, keyb8042_write_command_byte, keyb8042_write_leds, set_scan_code. solve_stays.
Qed.

Lemma sets_up_interrupts : sets_up interrupt_init.
Proof.
  assert (forall i f, sets_up (set_idt i f)) as Hset by (intros; unfold set_idt, store16; solve_stays).
  unfold interrupt_init, idt_init, idt_entry, pic_8259_init, do_memset, store16, store32. cbv zeta. solve_stays.
  - by apply sets_up_port, io_only_log.
  - intros ? s Hs. by wp_step.
Qed.

Lemma sets_up_timer : sets_up timer_init.
Proof. unfold timer_init, pit_8253_init, pit_8253_start_countdown. solve_stays. Qed.

Lemma sets_up_pci : sets_up pci_init.
Proof.
  intros s [Hv Hp]. eapply wp_mono; [by apply pci_init_spec|]. intros [] s' (Hp' & Hv' & _ & []). split; [by split|]. split; [done|done|by split].
Qed.

Lemma sets_up_sti : sets_up sti.
Proof. by apply sets_up_port, io_only_log. Qed.

End Setup.

#[export] Hint Resolve sets_up_write sets_up_keyboard sets_up_interrupts sets_up_timer sets_up_pci sets_up_sti : stays.

(** ** Start-up *)

Section Boot.
Context `{E : Env} `{L : Linker} `{K : !KeyboardOk}.
#[local] Existing Instance eth_drivers | 0.

(** [c_start] up to the scan of the PCI bus. *)
Definition power_up : M unit :=
  init_alloc ;;
  vga_init ;;
  vga_write (msg "Setting up interrupts") ;; interrupt_init ;;
  vga_write (msg "Setting up timer") ;; timer_init ;;
  vga_write (msg "Setting up keyboard") ;; keyboard_init ;;
  pci_init.

(** ... and from there on to the choice of a card. *)
Definition greet : M unit :=
  sti ;;
  vga_write (msg "Remote-x86 (C) 2009-2010 Jonathan Campbell") ;;
  vga_write (msg "THIS VERSION IS FOR DEBUGGING OVER ETHERNET. It is intended for use on machines") ;;
  vga_write (msg "where there is ethernet but no working RS-232 serial port (like most laptops).") ;;
  vga_write (msg "").

Lemma c_start_parts s :
  c_start s = (power_up ;; greet ;; autoprobe_network_card ;; start_driver ;; main_menu ;; halt NoReturn) s.
Proof. unfold c_start, power_up, greet. unfold mbind, SM_bind. by repeat case_match. Qed.

(** The image as the loader leaves it: the first free byte is behind it. *)
Definition loaded (s : machine) : machine := set_m_alloc (u32 (last_byte + 131072)) s.

Lemma power_up_spec s :
  0 <= VGA_color (m_vga s) < 256 -> pci_ok (m_pci s) ->
  wp power_up (λ _ s', up s' /\ kept (loaded s) s') s.
Proof.
  intros Hc Hp. unfold power_up, init_alloc. wp_step. wp_step. fold (loaded s). wp_step.
  eapply wp_mono; [by apply vga_init_inv|]. intros [] s1 (Hv1 & _ & Hs1).
  eapply (stays_wp up kept); [solve_stays|split; [done|by rewrite (ss_pci _ _ Hs1)]|]. intros [] s2 Hs2 K2.
  split; [done|]. etransitivity; [by apply same_statics_kept|exact K2].
Qed.

Lemma greet_spec s : up s -> wp greet (λ _ s', up s' /\ kept s s' /\ m_pci s' = m_pci s) s.
Proof.
  intros Hs. unfold greet, sti, log. wp_step. wp_step. set (s1 := set_m_trace _ s).
  match goal with |- wp ?c _ _ => assert (prints c) as Hc by solve_stays end.
  eapply stays_wp; [exact Hc|exact (proj1 Hs)|]. intros [] s' Hv' [_ Hst _].
  split; [split; [done|rewrite (ss_pci _ _ Hst); exact (proj2 Hs)]|]. split; [by apply same_statics_kept; destruct Hst; split|exact (ss_pci _ _ Hst)].
Qed.

Context (did : driver_id) `{R : !ReceiverLaws (net_driver did)} `{O : !OpenLaws (net_driver did)}.

(** A machine at power-on: the variables have their initial values, and the PCI
    bus shows, as the first Ethernet card that a driver knows, [dev] for driver
    [did]; the card is [cold]. *)
Record switched_on (s : machine) (i : Z) (dev : pci_device) : Prop := {
  on_color : 0 <= VGA_color (m_vga s) < 256;
  on_pci : pci_ok (m_pci s);
  on_closed : chosen_net_drv_open (m_net s) = 0;
  on_ip : length (my_ipv4_address (m_net s)) = 4%nat /\ bytes_ok (my_ipv4_address (m_net s));
  on_found s' : power_up s = inr (tt, s') ->
    first_card known_card 0 (pci_devices (m_pci s')) = Some (i, did) /\ pci_devices (m_pci s') !! Z.to_nat i = Some dev;
  on_cold : cold (Some dev) (loaded s)
}.

Lemma boot_spec s i dev :
  switched_on s i dev -> exists s', c_start s = (main_menu ;; halt NoReturn) s' /\ poll_ok did s'.
Proof.
  intros [Hc Hp Ho Hip Hf Hcold]. rewrite c_start_parts.
  pose proof (power_up_spec s Hc Hp) as Hw. apply wp_run in Hw as ([] & s1 & E1 & Hs1 & K1). destruct (Hf s1 E1) as [Hcard Hdev].
  pose proof (greet_spec s1 Hs1) as Hw. apply wp_run in Hw as ([] & s2 & E2 & Hs2 & K2 & P2).
  destruct (autoprobe_choice known_card eth_drivers_probe s2 i did) as (s3 & E3 & Es3).
  { apply Hs2. } { by rewrite P2. }
  assert (kept (loaded s) s2) as [Ka Kn Kd] by (by etransitivity).
  destruct (open_spec did s3) as (s4 & E4 & _ & Hs4).
  - rewrite Es3. split; cbn [m_net set_m_net chosen_net_drv set_chosen_net_drv chosen_net_drv_open my_ipv4_address set_chosen_net_dev m_vga].
    + done.
    + by rewrite Kn.
    + unfold chosen_device. cbn [m_net set_m_net chosen_net_dev set_chosen_net_drv set_chosen_net_dev m_pci].
      rewrite P2. cbn [fmap option_fmap option_map]. rewrite (nth_lookup_Some _ _ _ _ Hdev).
      apply (cold_stable _ (loaded s)); [done|destruct Kd; by split|exact Ka].
    + apply Hs2.
    + by rewrite Kn.
  - exists s4. split; [|done]. unfold mbind, SM_bind. by rewrite E1, E2, E3, E4.
Qed.

(** C24: From power-on to the main menu: whatever is on the screen, in memory and on
    the PCI bus, with a keyboard controller that answers every step of [c_start]
    returns, and on a machine with a card that has not been used the main menu is
    entered with the card's driver open and the stack in order - the state from
    which the main loop serves the network. *)
Theorem boot_reaches_menu s i dev :
  switched_on s i dev -> exists s', c_start s = (main_menu ;; halt NoReturn) s' /\ poll_ok did s'.
Proof. apply boot_spec. Qed.

End Boot.

(** ** A PC with an AMD card *)

Section Pc.

(** The address written last to the configuration port. *)
Fixpoint config_address (tr : list event) : Z :=
  match tr with
  | EvOut 32 3320 v :: _ => v
  | _ :: tr' => config_address tr'
  | [] => 0
  end.

(** The value written last to the register at [a]. *)
Fixpoint config_written (tr : list event) (a : Z) : option Z :=
  match tr with
  | EvOut 32 3324 v :: tr' => if config_address tr' =? a then Some v else config_written tr' a
  | _ :: tr' => config_written tr' a
  | [] => None
  end.

(** A host bridge at device 0 and the card at device 3, on the only bus; the
    card has 32 ports, at 0xC000 to begin with. *)
Definition pc_config (tr : list event) (a : Z) : Z :=
  let dev := Z.land (Z.shiftr a 11) 31 in
  let func := Z.land (Z.shiftr a 8) 7 in
  let reg := Z.land a 252 in
  if negb (func =? 0) then 4294967295 else
  if dev =? 0 then if reg =? 0 then 0x12378086 else if reg =? 8 then 0x06000002 else 0
  else if dev =? 3 then
    if reg =? 0 then 0x20001022 else if reg =? 8 then 0x02000040 else
    if reg =? 16 then Z.lor (Z.land (default 0xC000 (config_written tr a)) 0xFFFFFFE0) 1 else 0
  else 4294967295.

(** The keyboard's answer to the command written last; [again] when a byte of
    it has been read. *)
Fixpoint pc_keyboard (again : bool) (tr : list event) : Z :=
  match tr with
  | EvIn 8 96 _ :: tr' => pc_keyboard true tr'
  | EvOut 8 100 170 :: _ => 85
  | EvOut 8 100 171 :: _ => 0
  | EvOut 8 96 255 :: _ => if again then 170 else 250
  | EvOut 8 96 _ :: _ => 250
  | _ :: tr' => pc_keyboard again tr'
  | [] => 0
  end.

#[local] Instance pc_env : Env | 0 := {|
  env_in := λ tr w p, if p =? 3320 then config_address tr else if p =? 3324 then pc_config tr (config_address tr)
                      else if p =? 100 then 1 else if p =? 96 then pc_keyboard false tr else 0;
  env_dma := λ _ m, release_all m;
  env_exec := λ _ _, None;
  env_fuel := 100
|}.

#[local] Instance pc_linker : Linker | 0 := {|
  last_byte := 917504; pcnet32_init_data := 98304; IDT := 65536; IDTR := 69632; default_int := 74565;
  default_irq_iret := λ n, 74752 + 16 * n
|}.

#[local] Instance pc_keyboard_ok : KeyboardOk.
Proof. refine {| kb_busy := λ _, 0%nat; kb_empty := λ _, 0%nat |}; try (cbn; lia); done. Defined.

#[local] Instance pc_card : CardOk bench_A bench_B.
Proof.
  split.
  - intros tr m. apply release_all_spec.
  - intros tr m i Hi. exists 0%nat. split; [cbn; lia|]. cbn [after_polls]. by apply release_all_spec.
Qed.

Definition pc_start : machine := set_m_pci (mkPci (replicate 64 zero_device) 0) blank.

Definition pc_device : pci_device :=
  mkPciDevice 0 3 0 0x2000 0x1022 0x020000 0x40 0 0 0
    (mkBar 1 0 0 1 0xC000 0xC01F 4294967295 :: replicate 5 zero_bar).

Lemma pc_scan : match power_up pc_start with
  | inr (_, s') => first_card known_card 0 (pci_devices (m_pci s')) = Some (1, pcnet32) /\ pci_devices (m_pci s') !! 1%nat = Some pc_device
  | inl _ => False
  end.
Proof. vm_compute. by split. Qed.

Lemma boot_reaches_menu_witness :
  exists s', c_start (H0 := eth_drivers) pc_start = (main_menu (H0 := eth_drivers) ;; halt NoReturn) s' /\
    poll_ok (H0 := eth_drivers) (R := pcnet32_receiver bench_A bench_B) pcnet32 s'.
Proof.
  apply (boot_reaches_menu (R := pcnet32_receiver bench_A bench_B) (O := pcnet32_opens bench_A bench_B) pcnet32 pc_start 1 pc_device).
  split; [cbn; lia|exact (zero_table_ok (mkPci [] 0))|reflexivity|split; [reflexivity|by repeat constructor]| |].
  - intros s' E. pose proof pc_scan as Hs. rewrite E in Hs. exact Hs.
  - split; [reflexivity|by exists pc_device, 0%nat, (mkBar 1 0 0 1 0xC000 0xC01F 4294967295)|reflexivity|reflexivity|done|by repeat constructor|].
    vm_compute. split_and!; [discriminate|reflexivity|by left].
Defined.

End Pc.
