(* ===== verification/ELib.v ===== *)
(** * The host side of the Ethernet protocol (comm/e_lib.c)

    Requests are formatted with [sprintf], sent, and retried up to three times
    when no answer arrives within the timeout.  The kernel's socket calls and
    the clock are the parameter [HostEnv], functions of what the program has
    done so far. *)

From S2P Require Import Prelude Machine Memory Vga Text.

(** ** The C library on strings *)

(** [%X] and [%llX]: upper-case hexadecimal without leading zeros. *)
Fixpoint fmt_hex (digits : nat) (x : Z) : list Z :=
  match digits with
  | O => []
  | S d => (if x <? 16 then [] else fmt_hex d (x / 16)) ++ [nth (Z.to_nat (x mod 16)) hexes 0]
  end.
Definition fmt_X (x : Z) : list Z := fmt_hex 8 (u32 x).
Definition fmt_llX (x : Z) : list Z := fmt_hex 16 (u64 x).

(** The characters of an array up to its first NUL. *)
Fixpoint c_string (b : list Z) : list Z :=
  match b with
  | [] => []
  | c :: b' => if c =? 0 then [] else c :: c_string b'
  end.

Definition is_space (c : Z) : bool := (c =? 32) || ((9 <=? c) && (c <=? 13)).

Fixpoint drop_spaces (l : list Z) : list Z :=
  match l with
  | c :: l' => if is_space c then drop_spaces l' else l
  | [] => []
  end.

(** The digits of [strtoul]/[strtoull] in base 16: value and rest. *)
Fixpoint hex_digits_of (l : list Z) (v : Z) : Z * list Z :=
  match l with
  | c :: l' => if is_hex c then hex_digits_of l' (16 * v + chartohex c) else (v, l)
  | [] => (v, [])
  end.

(** [strto*(s,&rest,16)] for an unsigned type whose greatest value is [max]:
    white space, a sign, an optional 0x before a digit, then digits; a value
    that does not fit gives [max], and [rest] is [s] when there is no digit. *)
Definition strtou16 (max : Z) (s : list Z) : Z * list Z :=
  let l := drop_spaces s in
  let '(neg, l) := match l with
                   | c :: l' => if c =? 45 then (true, l') else if c =? 43 then (false, l') else (false, l)
                   | [] => (false, [])
                   end in
  let l := match l with
           | z :: x :: d :: l' => if (z =? 48) && ((x =? 120) || (x =? 88)) && is_hex d then d :: l' else l
           | _ => l
           end in
  match l with
  | d :: _ =>
      if is_hex d then
        let '(v, rest) := hex_digits_of l 0 in
        (if max <? v then max else if neg then (- v) mod (max + 1) else v, rest)
      else (0, s)
  | [] => (0, s)
  end.
Definition strtoull16 : list Z -> Z * list Z := strtou16 18446744073709551615.
(** [unsigned long] is 64 bits wide on the host. *)
Definition strtoul16 : list Z -> Z * list Z := strtou16 18446744073709551615.

(** [!strncmp(b,word,n)] for a word without NUL, [n] its length. *)
Definition has_prefix (b word : list Z) : bool := bool_decide (take (length word) (c_string b) = word).

(** [strchr(b,'\n')]: the bytes before the newline and those after it. *)
Fixpoint split_newline (b : list Z) : option (list Z * list Z) :=
  match b with
  | [] => None
  | c :: b' =>
      if c =? 10 then Some ([], b')
      else if c =? 0 then None
      else match split_newline b' with
           | Some (h, t) => Some (c :: h, t)
           | None => None
           end
  end.

(** ** The host program's state and its environment *)

Inductive hevent : Type :=
  | HSend (b : list Z)          (* a datagram given to sendto *)
  | HSelect (ready : bool)      (* select returned *)
  | HRecv (rd : Z) (b : list Z) (* recvfrom returned [rd], [b] in the buffer *).

Record host : Type := mkHost {
  h_hist : list hevent;      (* latest first *)
  h_machtype : list Z;       (* c->machtype *)
  h_seq : Z                  (* static seq of remote_eth_write_block *)
}.
Definition set_h_hist (v : list hevent) (h : host) : host := mkHost v (h_machtype h) (h_seq h).
Definition set_h_machtype (v : list Z) (h : host) : host := mkHost (h_hist h) v (h_seq h).
Definition set_h_seq (v : Z) (h : host) : host := mkHost (h_hist h) (h_machtype h) v.

Class HostEnv : Type := {
  host_sendto : list hevent -> list Z -> Z;     (* return value *)
  host_select : list hevent -> bool;            (* whether it returned 1 *)
  host_recvfrom : list hevent -> list Z;        (* the datagram, [] for an error *)
  host_time : list hevent -> Z
}.

Abbreviation H := (SM host).

Section Host.
Context `{HostEnv}.

Definition hlog (e : hevent) : H unit := modify (λ h, set_h_hist (e :: h_hist h) h).

(** [sendto(...) < cmd_len]: the signed result is converted to [size_t]. *)
Definition send_failed (b : list Z) : H bool :=
  r ← gets (λ h, host_sendto (h_hist h) b);
  hlog (HSend b) ;;
  mret (u64 r <? Z.of_nat (length b)).

Definition remote_eth_wait_for_data : H bool :=
  r ← gets (λ h, host_select (h_hist h));
  hlog (HSelect r) ;; mret r.

(** [recvfrom] into a buffer of [cap] bytes: [None] for [rd <= 0], otherwise
    the bytes received; [recv_buf[rd] = 0] follows in every caller. *)
Definition receive (cap : nat) : H (option (list Z)) :=
  b ← gets (λ h, take cap (host_recvfrom (h_hist h)));
  hlog (HRecv (Z.of_nat (length b)) b) ;;
  mret (match b with [] => None | _ => Some b end).

(** [do ... while (--retry != 0)]: a pass returns [Some] to leave the function. *)
Fixpoint retry {A} (n : nat) (pass : H (option A)) (failed : A) : H A :=
  match n with
  | O => mret failed
  | S n' => r ← pass; match r with Some a => mret a | None => retry n' pass failed end
  end.

(** ** TEST *)

Definition remote_eth_test : H Z :=
  let cmd := str "TEST" in
  retry 3
    (bad ← send_failed cmd;
     if bad : bool then mret (Some 0) else
     ready ← remote_eth_wait_for_data;
     if negb ready then mret None else
     r ← receive 63;
     match r with
     | None => mret (Some 0)
     | Some b =>
         let recv_buf := b ++ [0] in
         if has_prefix recv_buf (str "OK ") then mret (Some 1)
         else if (length b <? 3)%nat then halt Undefined (* bytes nobody wrote *)
         else modify (set_h_machtype (take 31 (c_string (drop 3 recv_buf)))) ;; mret None
     end) 0.

(** ** Blocks *)

Definition read_request (addr len : Z) : list Z := str "READ " ++ fmt_llX addr ++ [32] ++ fmt_X len.
Definition write_request (addr seq : Z) (d : list Z) : list Z :=
  str "WRITE " ++ fmt_llX addr ++ [32] ++ fmt_X seq ++ [10] ++ d.
Definition exec_request (addr seq : Z) : list Z := str "EXEC " ++ fmt_llX addr ++ [32] ++ fmt_X seq.

(** What [remote_eth_write_block] makes of an answer. *)
Definition check_write_answer (b : list Z) (addr seq : Z) : Z :=
  let recv_buf := b ++ [0] in
  if negb (has_prefix recv_buf (str "OK ")) then 0 else
  let '(v, p) := strtoull16 (c_string (drop 3 recv_buf)) in
  if negb (v =? addr) then 0 else
  let p := (fix skip (l : list Z) := match l with 32 :: l' => skip l' | _ => l end) p in
  let '(v, p) := strtoul16 p in
  if negb (v =? seq) then 0 else 1.

Definition remote_eth_write_block (addr : Z) (d : list Z) : H Z :=
  let len := Z.of_nat (length d) in
  if (len <? 0) || (1400 <? len) then mret 0 else
  s ← gets h_seq;
  (if s =? 0 then t ← gets (λ h, host_time (h_hist h)); modify (set_h_seq (u32 t))
   else modify (set_h_seq (u32 (s + 1)))) ;;
  seq ← gets h_seq;
  retry 3
    (bad ← send_failed (write_request addr seq d);
     if bad : bool then mret (Some 0) else
     ready ← remote_eth_wait_for_data;
     if negb ready then mret None else
     r ← receive 2199;
     match r with
     | None => mret (Some 0)
     | Some b => mret (Some (check_write_answer b addr seq))
     end) 0.

(** What [remote_eth_read_block] makes of an answer: [None] to try again,
    otherwise the result and, when it is 1, the bytes for [buf]. *)
Definition check_read_answer (b : list Z) (addr : Z) (len : nat) : option (option (list Z)) :=
  match split_newline (b ++ [0]) with
  | None => None
  | Some (line, rest) =>
      (* the data that was received, without the final NUL *)
      let data := take (length b - length line - 1) rest in
      if (length data <? len)%nat then Some None else
      if negb (has_prefix (line ++ [0]) (str "OK ")) then Some None else
      if negb ((strtoull16 (drop 3 line)).1 =? addr) then Some None else
      Some (Some (take len data))
  end.

Definition remote_eth_read_block (addr len : Z) : H (option (list Z)) :=
  if (len <? 0) || (1400 <? len) then mret None else
  retry 3
    (bad ← send_failed (read_request addr len);
     if bad : bool then mret (Some None) else
     ready ← remote_eth_wait_for_data;
     if negb ready then mret None else
     r ← receive 1999;
     match r with
     | None => mret (Some None)
     | Some b => mret (check_read_answer b addr (Z.to_nat len))
     end) None.

(** ** Whole ranges, in blocks of 1400 *)

(** [len] shrinks by 1400, so [n = len/1400] passes of the loop. *)
Fixpoint read_loop (n : nat) (addr len : Z) : H (option (list Z)) :=
  match n with
  | S n' =>
      r ← remote_eth_read_block addr 1400;
      match r with
      | None => mret None
      | Some d =>
          r ← read_loop n' (u64 (addr + 1400)) (len - 1400);
          mret (match r with Some l => Some (d ++ l) | None => None end)
      end
  | O =>
      if 0 <? len then remote_eth_read_block addr len else mret (Some [])
  end.

(** The bytes read, [None] when the C function returns 0. *)
Definition remote_eth_read (addr len : Z) : H (option (list Z)) :=
  read_loop (Z.to_nat (len / 1400)) addr len.

Fixpoint write_loop (n : nat) (addr : Z) (buf : list Z) : H Z :=
  match n with
  | S n' =>
      r ← remote_eth_write_block addr (take 1400 buf);
      if r =? 0 then mret 0 else write_loop n' (u64 (addr + 1400)) (drop 1400 buf)
  | O =>
      if 0 <? Z.of_nat (length buf) then
        r ← remote_eth_write_block addr buf;
        if r =? 0 then mret 0 else mret 1
      else mret 1
  end.

Definition remote_eth_write (addr : Z) (buf : list Z) : H Z :=
  write_loop (length buf / 1400) addr buf.

(** ** EXEC *)

(** [seq] is an automatic variable that starts at 0, so it is the time. *)
Definition remote_eth_exec (addr timeout_s : Z) : H Z :=
  t ← gets (λ h, host_time (h_hist h));
  let seq := u32 t in
  retry 3
    (bad ← send_failed (exec_request addr seq);
     if bad : bool then mret (Some 0) else
     ready ← remote_eth_wait_for_data;
     if negb ready then mret None else
     r ← receive 63;
     match r with
     | None => mret (Some 0)
     | Some b => if has_prefix (b ++ [0]) (str "OK ") then mret (Some 1) else mret None
     end) 0.

End Host.

(** ** Connections *)

(** [struct sockaddr_in] and [struct remote_eth_connection]; [ip_sz] is written
    by [recvfrom] and never read. *)
Record sockaddr_in : Type := mkSockaddr { sin_family : Z; sin_port : Z; s_addr : Z }.
Record remote_eth_connection : Type := mkConnection { sock_fd : Z; ip_addr : sockaddr_in; machtype : list Z }.

(** The process's open sockets and the blocks it has allocated. *)
Record resources : Type := mkResources { open_fds : list Z; live_blocks : Z }.

(** [malloc]'s success and what is in the block, [socket] and [inet_addr]. *)
Class SocketEnv : Type := {
  sk_malloc : resources -> bool;
  sk_garbage : resources -> remote_eth_connection;
  sk_socket : resources -> Z;
  sk_inet_addr : list Z -> Z
}.

Section Connection.
Context `{SocketEnv}.

Definition AF_INET : Z := 2.
(** [htons] on a little-endian host. *)
Definition htons (x : Z) : Z := 256 * u8 x + u8 (Z.shiftr x 8).

Definition free_block (r : resources) : resources := mkResources (open_fds r) (live_blocks r - 1).

Definition remote_eth_socket (addr : list Z) : SM resources (option remote_eth_connection) :=
  ok ← gets sk_malloc;
  if negb ok then mret None else
  c ← gets sk_garbage;
  modify (λ r, mkResources (open_fds r) (live_blocks r + 1)) ;;
  fd ← gets sk_socket;
  if fd <? 0 then modify free_block ;; mret None else
  modify (λ r, mkResources (fd :: open_fds r) (live_blocks r)) ;;
  mret (Some (mkConnection fd (mkSockaddr AF_INET (htons 777) (sk_inet_addr addr)) (<[0%nat := 0]> (machtype c)))).

Definition remote_eth_close (c : remote_eth_connection) : SM resources unit :=
  modify (λ r, mkResources (remove Z.eq_dec (sock_fd c) (open_fds r)) (live_blocks r)) ;;
  modify free_block.

(** A connection goes to port 777 of the address with no machine type yet;
    opening and closing one, or failing to open one, leaves nothing behind. *)
Lemma remote_eth_socket_close addr r :
  (forall r, length (machtype (sk_garbage r)) = 32%nat) -> (forall r, sk_socket r ∉ open_fds r) ->
  wp (remote_eth_socket addr) (λ c r', match c with
    | None => r' = r
    | Some c => sin_port (ip_addr c) = 2307 /\ s_addr (ip_addr c) = sk_inet_addr addr /\ c_string (machtype c) = [] /\
        remote_eth_close c r' = inr (tt, r)
    end) r.
Proof.
  intros Hg Hs. unfold remote_eth_socket. wp_step. wp_step. destruct (sk_malloc r); cbn [negb]; [|by wp_step].
  do 6 wp_step. set (r1 := mkResources _ _). destruct (sk_socket r1 <? 0).
  - wp_step. wp_step. wp_step. destruct r; unfold free_block; cbn. f_equal. lia.
  - wp_step. wp_step. wp_step. split_and!; [done|done| |].
    + cbn [machtype]. specialize (Hg r). by destruct (machtype (sk_garbage r)).
    + unfold remote_eth_close, free_block. cbv [mbind SM_bind modify]. cbn [open_fds live_blocks sock_fd r1].
      rewrite remove_cons, notin_remove by (rewrite <- list_elem_of_In; apply (Hs r1)). do 2 f_equal. destruct r; cbn. f_equal. lia.
Qed.

End Connection.

(** ** What the formats denote *)

Lemma hexval_snoc l c : hexval (l ++ [c]) = 16 * hexval l + chartohex c.
Proof. unfold hexval. by rewrite fold_left_app. Qed.

Record hex_number (l : list Z) (x : Z) : Prop := {
  hn_digits : Forall (λ c, is_hex c = true /\ 48 <= c < 71) l;
  hn_some : l <> [];
  hn_value : hexval l = x
}.

Lemma fmt_hex_number d : forall x, 0 <= x < 16 ^ Z.of_nat (S d) -> hex_number (fmt_hex (S d) x) x.
Proof.
  induction d as [|d IH]; intros x Hx.
  - cbn [fmt_hex]. change (16 ^ Z.of_nat 1) with 16 in Hx. rewrite Z.mod_small by lia.
    split; [|by destruct (x <? 16)|].
    + destruct (x <? 16); repeat constructor; by (apply is_hex_hexes || apply hexes_range).
    + destruct (x <? 16); cbn [app]; unfold hexval; cbn [fold_left]; rewrite chartohex_hexes by lia; lia.
  - change (fmt_hex (S (S d)) x) with ((if x <? 16 then [] else fmt_hex (S d) (x / 16)) ++ [nth (Z.to_nat (x mod 16)) hexes 0]).
    assert (0 <= x mod 16 < 16) as Hm by (apply Z.mod_pos_bound; lia).
    assert (is_hex (nth (Z.to_nat (x mod 16)) hexes 0) = true /\ 48 <= nth (Z.to_nat (x mod 16)) hexes 0 < 71) as Hc
      by (split; by (apply is_hex_hexes || apply hexes_range)).
    destruct (x <? 16) eqn:E; bool_to_prop; cbn [app].
    + split; [by constructor; [|constructor]|done|]. unfold hexval. cbn [fold_left]. rewrite chartohex_hexes, Z.mod_small by lia. lia.
    + destruct (IH (x / 16)) as [H1 H2 H3].
      { rewrite Nat2Z.inj_succ, Z.pow_succ_r in Hx by lia. split; [apply Z.div_pos; lia|apply Z.div_lt_upper_bound; lia]. }
      split; [apply Forall_app_2; [done|by constructor; [|constructor]]|by destruct (fmt_hex (S d) (x / 16))|].
      rewrite hexval_snoc, H3, chartohex_hexes by lia. pose proof (Z.div_mod x 16 ltac:(lia)). lia.
Qed.

Lemma fmt_X_number x : 0 <= x < 4294967296 -> hex_number (fmt_X x) x.
Proof. intros Hx. unfold fmt_X. rewrite u32_small by done. apply fmt_hex_number. done. Qed.

Lemma fmt_llX_number x : 0 <= x < 4294967296 -> hex_number (fmt_llX x) x.
Proof.
  intros Hx. unfold fmt_llX, u64. rewrite Z.mod_small by lia. apply fmt_hex_number.
  change (16 ^ Z.of_nat 16) with 18446744073709551616. lia.
Qed.

Lemma hex_chars_number x : 0 <= x < 4294967296 -> hex_number (hex_chars x 8) x.
Proof. intros Hx. split; [by apply hex_chars_hex|done|by apply hexval_hex_chars]. Qed.

(** *** Reading numbers back *)

Lemma hex_digits_of_app ds rest : forall v,
  Forall (λ c, is_hex c = true) ds -> match rest with c :: _ => is_hex c = false | [] => True end ->
  hex_digits_of (ds ++ rest) v = (hexacc v ds, rest).
Proof.
  induction ds as [|c ds IH]; intros v Hds Hr; cbn [app hex_digits_of].
  - destruct rest as [|c rest]; [done|]. cbn [hex_digits_of]. by rewrite Hr.
  - inversion Hds as [|? ? Hc Hds']; subst. rewrite Hc. by apply IH.
Qed.

(** A printed number is read back, whatever follows it. *)
Lemma strtou16_number max l x rest :
  hex_number l x -> x <= max -> match rest with c :: _ => is_hex c = false /\ c <> 120 /\ c <> 88 | [] => True end ->
  strtou16 max (l ++ rest) = (x, rest).
Proof.
  intros [Hd Hs Hv] Hmax Hr. destruct l as [|c l]; [done|]. inversion Hd as [|c' l' [Hc Hcr] Hd' E]; subst c' l'.
  unfold strtou16. cbn [app drop_spaces]. unfold is_space.
  rewrite (proj2 (Z.eqb_neq c 32)), (proj2 (Z.leb_gt c 13)) by lia. rewrite andb_false_r. cbn [orb].
  rewrite (proj2 (Z.eqb_neq c 45)), (proj2 (Z.eqb_neq c 43)) by lia.
  assert (match l ++ rest with
          | x :: d :: l' => if (c =? 48) && ((x =? 120) || (x =? 88)) && is_hex d then d :: l' else c :: l ++ rest
          | _ => c :: l ++ rest
          end = c :: l ++ rest) as Epre.
  { destruct (l ++ rest) as [|y0 [|d l']] eqn:El; try done.
    assert (((y0 =? 120) || (y0 =? 88)) = false) as ->; [|by rewrite andb_false_r].
    destruct l as [|y l]; cbn [app] in El.
    - subst rest. destruct Hr as (_ & Hx1 & Hx2). by rewrite (proj2 (Z.eqb_neq y0 120)), (proj2 (Z.eqb_neq y0 88)).
    - injection El as -> _. inversion Hd' as [|? ? [_ Hy] _]; subst. rewrite (proj2 (Z.eqb_neq y0 120)), (proj2 (Z.eqb_neq y0 88)) by lia. done. }
  match goal with |- context [match ?e with [] => (0, _) | _ => _ end] => replace e with (c :: l ++ rest) end.
  rewrite Hc. change (c :: l ++ rest) with ((c :: l) ++ rest).
  rewrite hex_digits_of_app.
  - change (hexacc 0 (c :: l)) with (hexval (c :: l)). rewrite Hv. by rewrite (proj2 (Z.ltb_ge _ _)).
  - eapply Forall_impl; [exact Hd|]. by intros ? [].
  - destruct rest; [done|]. by destruct Hr.
Qed.
