(* ===== verification/EndToEnd.v ===== *)
(** * Host and target together

    The datagrams e_lib.c formats are the commands the target's server reads,
    and the target's answers are what e_lib.c accepts: READ gives the bytes of
    the target's memory, WRITE puts the bytes of the buffer there. *)

From S2P Require Import Prelude Machine Memory Vga Text Checksum NetDriver Bench NetStack Packets Replies Commands Server ELib.

(** ** Requests *)

Lemma hex_number_digits l x : hex_number l x -> hex_digits l.
Proof. intros [Hd _ _]. eapply Forall_impl; [exact Hd|]. by intros c []. Qed.

Lemma requests_args la a lb b : hex_number la a -> hex_number lb b -> args_ok la 1 lb.
Proof. intros Ha Hb. split; [by eapply hex_number_digits|by eapply hex_number_digits|apply Ha|apply Hb|lia]. Qed.

(** The text between the command word and the end of the second number. *)
Definition two_numbers (la lb : list Z) : list Z := la ++ [32] ++ lb.

Lemma args_text_two la lb : args_text 0 la 1 lb = two_numbers la lb.
Proof. done. Qed.

Lemma fmt_value l x : hex_number l x -> 0 <= x < 4294967296 -> u32 (hexval l) = x.
Proof. intros [_ _ ->] Hx. by apply u32_small. Qed.

(** A request on the target: [t] at [data], and after it a byte that ends the
    last number. *)
Definition arrived (m : gmap Z Z) (data : Z) (t : list Z) : Prop :=
  rd_bytes m data (length t) = t /\ ends_number (rd8 m (data + Z.of_nat (length t))).

Lemma read_request_carries m data addr len :
  0 <= addr < 4294967296 -> 0 <= len < 4294967296 -> arrived m data (read_request addr len) ->
  carries m data (Z.of_nat (length (read_request addr len))) (READ addr len).
Proof.
  intros Ha Hl [Hb He]. pose proof (fmt_llX_number addr Ha) as Na. pose proof (fmt_X_number len Hl) as Nl.
  rewrite <- (fmt_value _ _ Na Ha) at 2. rewrite <- (fmt_value _ _ Nl Hl) at 2.
  assert (read_request addr len = str "READ " ++ args_text 0 (fmt_llX addr) 1 (fmt_X len) ++ []) as E
    by (by rewrite app_nil_r).
  eapply (carries_read m data _ 0 (fmt_llX addr) 1 (fmt_X len) []); [|by eapply requests_args|].
  - rewrite E in *. by split.
  - rewrite E, app_nil_r, length_app in He. rewrite Nat2Z.inj_add, Z.add_assoc in He. exact He.
Qed.

Lemma exec_request_carries m data addr seq :
  0 <= addr < 4294967296 -> 0 <= seq < 4294967296 -> arrived m data (exec_request addr seq) ->
  carries m data (Z.of_nat (length (exec_request addr seq))) (EXEC addr seq).
Proof.
  intros Ha Hl [Hb He]. pose proof (fmt_llX_number addr Ha) as Na. pose proof (fmt_X_number seq Hl) as Nl.
  rewrite <- (fmt_value _ _ Na Ha) at 2. rewrite <- (fmt_value _ _ Nl Hl) at 2.
  assert (exec_request addr seq = str "EXEC " ++ args_text 0 (fmt_llX addr) 1 (fmt_X seq) ++ []) as E
    by (by rewrite app_nil_r).
  eapply (carries_exec m data _ 0 (fmt_llX addr) 1 (fmt_X seq) []); [|by eapply requests_args|].
  - rewrite E in *. by split.
  - rewrite E, app_nil_r, length_app in He. rewrite Nat2Z.inj_add, Z.add_assoc in He. exact He.
Qed.

(** The newline ends the number, so WRITE needs no condition on what follows. *)
Lemma write_request_carries m data addr seq d :
  0 <= addr < 4294967296 -> 0 <= seq < 4294967296 ->
  rd_bytes m data (length (write_request addr seq d)) = write_request addr seq d ->
  carries m data (Z.of_nat (length (write_request addr seq d))) (WRITE addr seq d).
Proof.
  intros Ha Hl Hb. pose proof (fmt_llX_number addr Ha) as Na. pose proof (fmt_X_number seq Hl) as Nl.
  rewrite <- (fmt_value _ _ Na Ha) at 2. rewrite <- (fmt_value _ _ Nl Hl) at 2.
  assert (write_request addr seq d = str "WRITE" ++ args_text 1 (fmt_llX addr) 1 (fmt_X seq) ++ [] ++ [10] ++ d) as E.
  { unfold write_request, args_text. change (str "WRITE ") with (str "WRITE" ++ [32]). cbn [replicate].
    by rewrite <- !(assoc_L (++)). }
  eapply (carries_write m data _ 0 (fmt_llX addr) 1 (fmt_X seq) [] d); [|by eapply requests_args| |constructor].
  - rewrite E in *. by split.
  - rewrite E in Hb. apply rd_bytes_app_inv in Hb as [_ Hb]. apply rd_bytes_app_inv in Hb as [_ Hb].
    apply rd_bytes_hd in Hb. change (Z.of_nat (length (str "WRITE"))) with 5 in Hb. rewrite Hb. split; done.
Qed.

(** ** Answers *)

Lemma c_string_app l : forall r, Forall (λ c, c <> 0) l -> c_string (l ++ 0 :: r) = l.
Proof.
  induction l as [|c l IH]; intros r Hl; cbn [app c_string]; [done|]. inversion Hl; subst.
  rewrite (proj2 (Z.eqb_neq c 0)) by done. by rewrite IH.
Qed.

Lemma hex_chars_text x : 0 <= x < 4294967296 -> Forall (λ c, c <> 0 /\ c <> 10) (hex_chars x 8).
Proof. intros Hx. eapply Forall_impl; [by apply hex_chars_hex|]. cbn. intros c [_ Hc]. lia. Qed.

Lemma write_answer_text a q :
  0 <= a < 4294967296 -> 0 <= q < 4294967296 -> Forall (λ c, c <> 0) (write_answer a q).
Proof.
  intros Ha Hq. unfold write_answer. repeat apply Forall_app_2; try (by repeat constructor);
    (eapply Forall_impl; [by apply hex_chars_text|]; by intros c []).
Qed.

(** The answer the target gives to a WRITE satisfies the host. *)
Lemma check_write_answer_ok a q :
  0 <= a < 4294967296 -> 0 <= q < 4294967296 -> check_write_answer (write_answer a q) a q = 1.
Proof.
  intros Ha Hq. unfold check_write_answer.
  rewrite (proj2 (negb_false_iff _)).
  2:{ unfold has_prefix. rewrite c_string_app by (by apply write_answer_text). by apply bool_decide_eq_true. }
  assert (c_string (drop 3 (write_answer a q ++ [0])) = hex_chars a 8 ++ 32 :: hex_chars q 8) as ->.
  { transitivity (c_string ((hex_chars a 8 ++ [32] ++ hex_chars q 8) ++ [0])); [done|].
    apply c_string_app. pose proof (write_answer_text a q Ha Hq) as Hall. by apply Forall_app in Hall as [_ Hall]. }
  unfold strtoull16, strtoul16. rewrite (strtou16_number _ _ a) by (done || lia || by apply hex_chars_number).
  rewrite Z.eqb_refl. cbn [negb].
  assert (forall l, match l with c :: _ => c <> 32 | [] => True end ->
    (fix skip (l : list Z) := match l with 32 :: l' => skip l' | _ => l end) (32 :: l) = l) as Hskip.
  { intros l Hl. destruct l as [|c l]; [done|]. destruct c as [|p|p]; try done. do 6 (destruct p as [p|p|]; try done). }
  rewrite Hskip.
  - rewrite <- (app_nil_r (hex_chars q 8)). rewrite (strtou16_number _ _ q) by (done || lia || by apply hex_chars_number).
    by rewrite Z.eqb_refl.
  - pose proof (hex_chars_hex 8 q Hq) as Hh. destruct (hex_chars q 8) as [|c l]; [done|]. inversion Hh as [|? ? [_ Hc] _]; subst. lia.
Qed.

Lemma split_newline_app l : forall r, Forall (λ c, c <> 0 /\ c <> 10) l -> split_newline (l ++ 10 :: r) = Some (l, r).
Proof.
  induction l as [|c l IH]; intros r Hl; cbn [app split_newline]; [done|].
  inversion Hl as [|? ? [H0 H10] Hl']; subst. rewrite (proj2 (Z.eqb_neq c 10)), (proj2 (Z.eqb_neq c 0)) by done. by rewrite IH.
Qed.

(** The answer the target gives to a READ yields its bytes. *)
Lemma check_read_answer_ok m a n :
  0 <= a < 4294967296 -> 0 <= n <= 1400 ->
  check_read_answer (read_answer m a n) a (Z.to_nat n) = Some (Some (rd_bytes m a (Z.to_nat n))).
Proof.
  intros Ha Hn. unfold check_read_answer, read_answer. rewrite Z.min_r by lia.
  set (line := str "OK " ++ hex_chars a 8). set (d := rd_bytes m a (Z.to_nat n)).
  assert (Forall (λ c, c <> 0 /\ c <> 10) line) as Hline.
  { apply Forall_app_2; [by repeat constructor|by apply hex_chars_text]. }
  replace ((str "OK " ++ hex_chars a 8 ++ [10] ++ d) ++ [0]) with (line ++ 10 :: d ++ [0])
    by (subst line; by rewrite <- !(assoc_L (++))).
  rewrite split_newline_app by done.
  replace (length (str "OK " ++ hex_chars a 8 ++ [10%Z] ++ d) - length line - 1)%nat with (length d).
  2:{ subst line. rewrite !length_app. cbn [length]. lia. }
  rewrite take_app_length. subst d. rewrite length_rd_bytes, Nat.ltb_irrefl.
  rewrite (proj2 (negb_false_iff _)).
  2:{ unfold has_prefix. rewrite c_string_app; [by apply bool_decide_eq_true|].
      eapply Forall_impl; [exact Hline|]. by intros c []. }
  change (drop 3 line) with (hex_chars a 8). rewrite <- (app_nil_r (hex_chars a 8)). unfold strtoull16.
  rewrite (strtou16_number _ _ a) by (done || lia || by apply hex_chars_number). cbn [fst]. rewrite Z.eqb_refl. cbn [negb].
  by rewrite take_ge by (rewrite length_rd_bytes; lia).
Qed.

(** ** Transfers *)

Section Transfers.
Context `{HostEnv}.

(** What the host sent, latest first. *)
Definition sent_datagrams (hist : list hevent) : list (list Z) :=
  omap (λ e, match e with HSend b => Some b | _ => None end) hist.

(** The history after [k] unanswered attempts to send [t]. *)
Fixpoint unanswered (t : list Z) (k : nat) (hist : list hevent) : list hevent :=
  match k with
  | O => hist
  | S k' => HSelect false :: HSend t :: unanswered t k' hist
  end.

(** The socket takes the datagram, and attempt number [k] is the first that is
    answered, with [ans]. *)
Record answered_at (t ans : list Z) (hist : list hevent) (k : nat) : Prop := {
  aa_sent j : (j <= k)%nat -> Z.of_nat (length t) <= u64 (host_sendto (unanswered t j hist) t);
  aa_lost j : (j < k)%nat -> host_select (HSend t :: unanswered t j hist) = false;
  aa_ready : host_select (HSend t :: unanswered t k hist) = true;
  aa_answer : host_recvfrom (HSelect true :: HSend t :: unanswered t k hist) = ans
}.

(** A pass of the request loops: send, wait, receive up to [cap] bytes. *)
Definition request_pass {A} (t : list Z) (cap : nat) (bad : A) (accept : list Z -> H (option A)) : H (option A) :=
  b ← send_failed t;
  if b : bool then mret (Some bad) else
  ready ← remote_eth_wait_for_data;
  if negb ready then mret None else
  r ← receive cap;
  match r with
  | None => mret (Some bad)
  | Some b => accept b
  end.

(** Up to two lost answers are made up for by sending again. *)
Lemma retry_answered {A} t cap (bad : A) accept ans a hist k n h :
  (k < n)%nat -> answered_at t ans hist k -> ans <> [] -> (length ans <= cap)%nat ->
  (forall h, accept ans h = inr (Some a, h)) -> h_hist h = hist ->
  retry n (request_pass t cap bad accept) bad h =
    inr (a, set_h_hist (HRecv (Z.of_nat (length ans)) ans :: HSelect true :: HSend t :: unanswered t k hist) h).
Proof.
  intros Hk [Hs Hl Hr Ha] Hne Hcap Hacc Hh.
  assert (forall i n h, (i <= k)%nat -> (k - i < n)%nat -> h_hist h = unanswered t i hist ->
    retry n (request_pass t cap bad accept) bad h =
    inr (a, set_h_hist (HRecv (Z.of_nat (length ans)) ans :: HSelect true :: HSend t :: unanswered t k hist) h)) as Hgen.
  2:{ apply (Hgen 0%nat); [lia|lia|done]. }
  clear h n Hk Hh. intros i n. remember (k - i)%nat as d eqn:Ed. revert i n Ed.
  induction d as [|d IH]; intros i [|n] Ed h Hi Hn Hh; try lia; cbn [retry].
  - assert (i = k) as -> by lia.
    unfold request_pass, send_failed, remote_eth_wait_for_data, receive, hlog. run.
    rewrite Hh, (proj2 (Z.ltb_ge _ _)) by (by apply Hs). cbn [h_hist set_h_hist]. rewrite ?Hh, Hr. cbn [negb h_hist set_h_hist].
    rewrite Ha, take_ge by done. cbn [h_hist set_h_hist]. destruct ans as [|c ans]; [done|]. rewrite Hacc. done.
  - unfold request_pass, send_failed, remote_eth_wait_for_data, receive, hlog. run.
    rewrite Hh, (proj2 (Z.ltb_ge _ _)) by (apply Hs; lia). cbn [h_hist set_h_hist]. rewrite ?Hh, Hl by lia. cbn [negb h_hist set_h_hist].
    fold (@request_pass A t cap bad accept). rewrite (IH (S i) n) by (done || lia). by destruct h.
Qed.

Lemma sent_unanswered t k hist :
  sent_datagrams (HSend t :: unanswered t k hist) = replicate (S k) t ++ sent_datagrams hist.
Proof.
  induction k as [|k IH]; [done|]. cbn [unanswered replicate app sent_datagrams omap list_omap] in *. by f_equal.
Qed.

(** One block of memory. *)
Lemma read_block_answered m addr len h k :
  0 <= addr < 4294967296 -> 0 <= len <= 1400 -> (k < 3)%nat ->
  answered_at (read_request addr len) (read_answer m addr len) (h_hist h) k ->
  wp (remote_eth_read_block addr len) (λ r h', r = Some (rd_bytes m addr (Z.to_nat len)) /\
    sent_datagrams (h_hist h') = replicate (S k) (read_request addr len) ++ sent_datagrams (h_hist h)) h.
Proof.
  intros Ha Hl Hk Haa. unfold remote_eth_read_block.
  rewrite (proj2 (Z.ltb_ge len 0)), (proj2 (Z.ltb_ge 1400 len)) by lia. cbn [orb].
  unfold wp. change (retry 3 _ None h) with
    (retry 3 (request_pass (read_request addr len) 1999 None (λ b, mret (check_read_answer b addr (Z.to_nat len)))) None h).
  erewrite retry_answered; [|exact Hk|exact Haa|done| | |done].
  - split; [reflexivity|]. apply (sent_unanswered (read_request addr len) k (h_hist h)).
  - unfold read_answer. rewrite !length_app, length_rd_bytes, length_hex_chars. change (length (str "OK ")) with 3%nat. cbn [length]. lia.
  - intros h'. by rewrite check_read_answer_ok.
Qed.

(** A target with memory [m] at the other end, which answers each request at
    the latest the third time. *)
Definition serves_reads (m : gmap Z Z) : Prop := forall hist a n,
  0 <= a < 4294967296 -> 0 <= n <= 1400 ->
  exists k, (k < 3)%nat /\ answered_at (read_request a n) (read_answer m a n) hist k.

Lemma read_loop_ok m n : serves_reads m -> forall addr len h,
  Z.of_nat n = len / 1400 -> 0 <= len -> 0 <= addr -> addr + len <= 4294967296 ->
  wp (read_loop n addr len) (λ r _, r = Some (rd_bytes m addr (Z.to_nat len))) h.
Proof.
  intros Hm. induction n as [|n IH]; intros addr len h Hn Hl Ha Hend; cbn [read_loop].
  - destruct (0 <? len) eqn:E0; bool_to_prop.
    + assert (len < 1400) by (Z.div_mod_to_equations; lia).
      destruct (Hm (h_hist h) addr len) as (k & Hk & Haa); [lia..|].
      eapply wp_mono; [apply (read_block_answered m addr len h k); (lia || done)|]. by intros r h' [-> _].
    + assert (len = 0) as -> by lia. by wp_step.
  - assert (1400 <= len) as H1400 by (Z.div_mod_to_equations; lia).
    destruct (Hm (h_hist h) addr 1400) as (k & Hk & Haa); [lia..|].
    wp_step. eapply wp_mono; [apply (read_block_answered m addr 1400 h k); (lia || done)|]. intros r h1 [-> _].
    wp_step. unfold u64. rewrite Z.mod_small by lia.
    eapply wp_mono; [apply IH; try lia; Z.div_mod_to_equations; lia|]. intros r h2 ->. wp_step.
    replace (Z.to_nat len) with (Z.to_nat 1400 + Z.to_nat (len - 1400))%nat by lia.
    rewrite rd_bytes_app. by rewrite Z2Nat.id by lia.
Qed.

(** *** Writing *)

(** What the datagrams of a transfer do to memory, in the order they arrive. *)
Definition block : Type := Z * Z * list Z.
Definition block_request (b : block) : list Z := let '(a, q, d) := b in write_request a q d.
Definition apply_block (m : gmap Z Z) (b : block) : gmap Z Z := let '(a, _, d) := b in wr_bytes m a d.
Definition apply_blocks (m : gmap Z Z) (l : list block) : gmap Z Z := fold_left apply_block l m.

Definition block_ok (b : block) : Prop :=
  let '(a, q, d) := b in 0 <= a < 4294967296 /\ 0 <= q < 4294967296 /\ (length d <= 1400)%nat.

Definition serves_writes : Prop := forall hist a q d,
  block_ok (a, q, d) -> exists k, (k < 3)%nat /\ answered_at (write_request a q d) (write_answer a q) hist k.

Lemma apply_repeat k a q d m :
  Z.of_nat (length d) <= 4294967296 -> apply_blocks m (replicate (S k) (a, q, d)) = wr_bytes m a d.
Proof.
  intros Hd. revert m. induction k as [|k IH]; intros m; [done|].
  change (apply_blocks m (replicate (S (S k)) (a, q, d))) with (apply_blocks (wr_bytes m a d) (replicate (S k) (a, q, d))).
  rewrite IH. by apply wr_bytes_idem.
Qed.

Lemma write_block_answered addr d h :
  serves_writes -> 0 <= addr < 4294967296 -> (length d <= 1400)%nat ->
  wp (remote_eth_write_block addr d) (λ r h', r = 1 /\ exists q k, 0 <= q < 4294967296 /\
    sent_datagrams (h_hist h') = replicate (S k) (write_request addr q d) ++ sent_datagrams (h_hist h)) h.
Proof.
  intros Hw Ha Hd. unfold remote_eth_write_block.
  rewrite (proj2 (Z.ltb_ge _ 0)), (proj2 (Z.ltb_ge 1400 _)) by lia. cbn [orb].
  wp_step. wp_step. wp_step.
  assert (forall h1, h_hist h1 = h_hist h -> 0 <= h_seq h1 < 4294967296 ->
    wp (seq ← gets h_seq; retry 3 (request_pass (write_request addr seq d) 2199 0
          (λ b, mret (Some (check_write_answer b addr seq)))) 0)
       (λ r h', r = 1 /\ exists q k, 0 <= q < 4294967296 /\
          sent_datagrams (h_hist h') = replicate (S k) (write_request addr q d) ++ sent_datagrams (h_hist h)) h1) as Hrun.
  { intros h1 Hh1 Hq. wp_step. wp_step. set (q := h_seq h1) in *.
    destruct (Hw (h_hist h1) addr q d) as (k & Hk & Haa); [unfold block_ok; split_and!; (done || lia)|]. unfold wp.
    erewrite retry_answered; [|exact Hk|exact Haa|done| | |done].
    - split; [reflexivity|]. exists q, k. split; [done|]. cbn [h_hist set_h_hist].
      rewrite <- Hh1. apply (sent_unanswered (write_request addr q d) k (h_hist h1)).
    - unfold write_answer. rewrite !length_app, !length_hex_chars. change (length (str "OK ")) with 3%nat. cbn [length]. lia.
    - intros h'. by rewrite check_write_answer_ok. }
  destruct (h_seq h =? 0); [wp_step; wp_step|]; wp_step; apply Hrun; cbn; (done || apply u32_range).
Qed.

Lemma write_loop_ok n : serves_writes -> forall addr buf h,
  n = (length buf / 1400)%nat -> 0 <= addr -> addr + Z.of_nat (length buf) <= 4294967296 ->
  wp (write_loop n addr buf) (λ r h', r = 1 /\ exists l, Forall block_ok l /\
    sent_datagrams (h_hist h') = reverse (block_request <$> l) ++ sent_datagrams (h_hist h) /\
    forall m, apply_blocks m l = wr_bytes m addr buf) h.
Proof.
  intros Hw.
  assert (forall addr d h, 0 <= addr < 4294967296 -> (length d <= 1400)%nat ->
    wp (remote_eth_write_block addr d) (λ r h', r = 1 /\ exists l, Forall block_ok l /\
      sent_datagrams (h_hist h') = reverse (block_request <$> l) ++ sent_datagrams (h_hist h) /\
      forall m, apply_blocks m l = wr_bytes m addr d) h) as Hblock.
  { intros addr d h Ha Hd. eapply wp_mono; [by apply write_block_answered|]. intros r h' (-> & q & k & Hq & E).
    split; [done|]. exists (replicate (S k) (addr, q, d)). split_and!.
    - apply Forall_replicate. unfold block_ok. split_and!; (done || lia).
    - by rewrite E, fmap_replicate, reverse_replicate.
    - intros m. apply apply_repeat. lia. }
  induction n as [|n IH]; intros addr buf h Hn Ha Hend; cbn [write_loop].
  - assert (length buf < 1400)%nat as Hlt by (apply Nat.div_small_iff; [lia|by symmetry]).
    destruct (0 <? Z.of_nat (length buf)) eqn:E0; bool_to_prop.
    + wp_step. eapply wp_mono; [apply Hblock; lia|]. intros r h1 (-> & l & Hl). cbn [Z.eqb]. wp_step. split; [done|]. by exists l.
    + destruct buf; [|cbn [length] in E0; lia]. wp_step. split; [done|]. exists []. by split_and!.
  - assert (1400 <= length buf)%nat as Hge by (destruct (Nat.le_gt_cases 1400 (length buf)) as [|Hs]; [done|rewrite Nat.div_small in Hn by lia; lia]).
    assert (length (take 1400 buf) = 1400%nat) as Hlt by (rewrite length_take; lia).
    wp_step. eapply wp_mono; [apply Hblock; lia|]. intros r h1 (-> & l1 & Hok1 & E1 & A1). cbn [Z.eqb].
    unfold u64. rewrite Z.mod_small by lia.
    eapply wp_mono; [apply IH; rewrite ?length_drop|].
    + replace (length buf) with (length buf - 1400 + 1 * 1400)%nat in Hn by lia. rewrite Nat.div_add in Hn by lia. lia.
    + lia.
    + lia.
    + intros r h2 (-> & l2 & Hok2 & E2 & A2). split; [done|]. exists (l1 ++ l2). split_and!; [by apply Forall_app_2| |].
      * by rewrite E2, E1, fmap_app, reverse_app, (assoc_L (++)).
      * intros m. unfold apply_blocks in *. rewrite fold_left_app, A1, A2. rewrite <- (take_drop 1400 buf) at 3.
        by rewrite wr_bytes_app, Hlt.
Qed.

(** *** The library's promises *)

(** C5: [remote_eth_read] returns the target's memory, any number of blocks
    long, when the target answers each request at the latest the third time. *)
Theorem remote_eth_read_reads_memory m addr len h :
  serves_reads m -> 0 <= len -> 0 <= addr -> addr + len <= 4294967296 ->
  exists h', remote_eth_read addr len h = inr (Some (rd_bytes m addr (Z.to_nat len)), h').
Proof.
  intros Hm Hl Ha Hend. 
  assert (Z.of_nat (Z.to_nat (len / 1400)) = len / 1400) as Hn by (apply Z2Nat.id, Z.div_pos; lia).
  pose proof (read_loop_ok m (Z.to_nat (len / 1400)) Hm addr len h Hn Hl Ha Hend) as Hw.
  apply wp_run in Hw as (r & h' & E & ->). by exists h'.
Qed.

(** C6: [remote_eth_write] succeeds, and the datagrams it has sent, repeated
    ones included and in the order they were sent, store exactly [buf] at
    [addr]. *)
Theorem remote_eth_write_writes_memory addr buf h :
  serves_writes -> 0 <= addr -> addr + Z.of_nat (length buf) <= 4294967296 ->
  exists h' l, remote_eth_write addr buf h = inr (1, h') /\ Forall block_ok l /\
    sent_datagrams (h_hist h') = reverse (block_request <$> l) ++ sent_datagrams (h_hist h) /\
    forall m, apply_blocks m l = wr_bytes m addr buf.
Proof.
  intros Hw Ha Hend. pose proof (write_loop_ok _ Hw addr buf h eq_refl Ha Hend) as Hr.
  apply wp_run in Hr as (r & h' & E & -> & l & Hl). by exists h', l.
Qed.

Lemma retry_lost {A} t cap (bad : A) accept n : forall h,
  (forall k, (k < n)%nat -> Z.of_nat (length t) <= u64 (host_sendto (unanswered t k (h_hist h)) t) /\
     host_select (HSend t :: unanswered t k (h_hist h)) = false) ->
  retry n (request_pass t cap bad accept) bad h = inr (bad, set_h_hist (unanswered t n (h_hist h)) h).
Proof.
  assert (unanswered_S : forall k hist, unanswered t (S k) hist = unanswered t k (HSelect false :: HSend t :: hist)).
  { induction k as [|k IH]; intros hist; [done|]. cbn [unanswered] in *. by rewrite IH. }
  induction n as [|n IH]; intros h Hl; cbn [retry]; [by destruct h|].
  destruct (Hl 0%nat ltac:(lia)) as [H1 H2]. cbn [unanswered] in H1, H2.
  unfold request_pass, send_failed, remote_eth_wait_for_data, receive, hlog. run.
  rewrite (proj2 (Z.ltb_ge _ _)) by done. cbn [h_hist set_h_hist]. rewrite H2. cbn [negb h_hist set_h_hist].
  fold (@request_pass A t cap bad accept). rewrite IH; cbn [h_hist set_h_hist].
  - by rewrite unanswered_S.
  - intros k Hk. rewrite <- unanswered_S. apply Hl. lia.
Qed.

(** A lost request or answer costs another attempt and nothing else: with
    an answer to one of the first three attempts a block is read correctly, and
    with no answer to any the call fails after exactly three requests. *)
Theorem read_block_retries m addr len h :
  0 <= addr < 4294967296 -> 0 <= len <= 1400 ->
  (forall k, (k < 3)%nat -> answered_at (read_request addr len) (read_answer m addr len) (h_hist h) k ->
     exists h', remote_eth_read_block addr len h = inr (Some (rd_bytes m addr (Z.to_nat len)), h') /\
       sent_datagrams (h_hist h') = replicate (S k) (read_request addr len) ++ sent_datagrams (h_hist h)) /\
  ((forall k, (k < 3)%nat ->
      Z.of_nat (length (read_request addr len)) <= u64 (host_sendto (unanswered (read_request addr len) k (h_hist h)) (read_request addr len)) /\
      host_select (HSend (read_request addr len) :: unanswered (read_request addr len) k (h_hist h)) = false) ->
     exists h', remote_eth_read_block addr len h = inr (None, h') /\
       sent_datagrams (h_hist h') = replicate 3 (read_request addr len) ++ sent_datagrams (h_hist h)).
Proof.
  intros Ha Hl. split.
  - intros k Hk Haa. pose proof (read_block_answered m addr len h k Ha Hl Hk Haa) as Hw.
    apply wp_run in Hw as (r & h' & E & -> & Es). by exists h'.
  - intros Hlost. exists (set_h_hist (unanswered (read_request addr len) 3 (h_hist h)) h). split; [|done].
    unfold remote_eth_read_block. rewrite (proj2 (Z.ltb_ge len 0)), (proj2 (Z.ltb_ge 1400 len)) by lia. cbn [orb].
    exact (retry_lost (read_request addr len) 1999 None (λ b, mret (check_read_answer b addr (Z.to_nat len))) 3 h Hlost).
Qed.


(** Passes that send one datagram each. *)
Definition sends_once {A} (t : list Z) (pass : H (option A)) : Prop := forall h,
  exists o h', pass h = inr (o, h') /\ sent_datagrams (h_hist h') = t :: sent_datagrams (h_hist h).

Lemma request_pass_once {A} t cap (bad : A) accept :
  (forall b h, exists o, accept b h = inr (o, h)) -> sends_once t (request_pass t cap bad accept).
Proof.
  intros Hacc h. unfold request_pass, send_failed, remote_eth_wait_for_data, receive, hlog. run.
  destruct (u64 _ <? _); [by eexists _, _|]. cbn [h_hist set_h_hist].
  destruct (host_select _); cbn [negb h_hist set_h_hist]; [|by eexists _, _].
  destruct (take cap _) as [|c b]; [by eexists _, _|]. destruct (Hacc (c :: b) (set_h_hist
    (HRecv (Z.of_nat (length (c :: b))) (c :: b) :: HSelect true :: HSend t :: h_hist h) h)) as [o E].
  exists o. eexists. split; [exact E|done].
Qed.

Lemma retry_sends {A} t (pass : H (option A)) failed : sends_once t pass -> forall n h,
  exists r h' k, retry (S n) pass failed h = inr (r, h') /\ (1 <= k)%nat /\
    sent_datagrams (h_hist h') = replicate k t ++ sent_datagrams (h_hist h).
Proof.
  intros Hp. induction n as [|n IH]; intros h.
  - destruct (Hp h) as (o & h1 & E & Es). cbn [retry]. run. rewrite E.
    destruct o as [a|]; [exists a|exists failed]; exists h1, 1%nat; split_and!; (done || lia).
  - destruct (Hp h) as (o & h1 & E & Es). change (retry (S (S n)) pass failed h) with
      ((r ← pass; match r with Some a => mret a | None => retry (S n) pass failed end) h). run. rewrite E.
    destruct o as [a|]; [exists a, h1, 1%nat; split_and!; (done || lia)|].
    destruct (IH h1) as (r & h2 & k & E2 & Hk & Es2). exists r, h2, (k + 1)%nat. split_and!; [exact E2|lia|].
    rewrite Es2, Es, replicate_add. by rewrite <- app_assoc.
Qed.

Lemma exec_sends addr timeout_s h : exists r h' k,
  remote_eth_exec addr timeout_s h = inr (r, h') /\ (1 <= k)%nat /\
  sent_datagrams (h_hist h') = replicate k (exec_request addr (u32 (host_time (h_hist h)))) ++ sent_datagrams (h_hist h).
Proof.
  set (t := exec_request addr (u32 (host_time (h_hist h)))).
  set (accept := λ b : list Z, if has_prefix (b ++ [0]) (str "OK ") then mret (Some 1) else mret None : H (option Z)).
  assert (forall b g, exists o, accept b g = inr (o, g)) as Hacc
    by (intros b g; unfold accept; destruct (has_prefix _ _); by eexists).
  exact (retry_sends t _ 0 (request_pass_once t 63 0 accept Hacc) 2 h).
Qed.

(** [seq] of [remote_eth_exec] is not static: it is the time of the call,
    so two calls within one second send the very same datagram, and the target
    takes the second one for a repetition and does not run the code again. *)
Theorem exec_repeats_within_second addr timeout_s h r1 h1 :
  remote_eth_exec addr timeout_s h = inr (r1, h1) ->
  host_time (h_hist h1) = host_time (h_hist h) ->
  let t := exec_request addr (u32 (host_time (h_hist h))) in
  exists r2 h2 k1 k2, remote_eth_exec addr timeout_s h1 = inr (r2, h2) /\ (1 <= k1)%nat /\ (1 <= k2)%nat /\
    sent_datagrams (h_hist h1) = replicate k1 t ++ sent_datagrams (h_hist h) /\
    sent_datagrams (h_hist h2) = replicate k2 t ++ sent_datagrams (h_hist h1).
Proof.
  intros E1 Ht t. destruct (exec_sends addr timeout_s h) as (r & h' & k1 & E & Hk1 & Es1). rewrite E1 in E. injection E as <- <-.
  destruct (exec_sends addr timeout_s h1) as (r2 & h2 & k2 & E2 & Hk2 & Es2). rewrite Ht in Es2.
  by exists r2, h2, k1, k2.
Qed.

(** The result of [sendto] is compared as an unsigned number, so a failed
    send (-1) passes for a success. *)
Theorem send_error_undetected t h :
  host_sendto (h_hist h) t = -1 -> Z.of_nat (length t) < 18446744073709551616 ->
  send_failed t h = inr (false, set_h_hist (HSend t :: h_hist h) h).
Proof.
  intros E Hl. unfold send_failed, hlog. run. rewrite E. change (u64 (-1)) with 18446744073709551615.
  by rewrite (proj2 (Z.ltb_ge _ _)) by lia.
Qed.

End Transfers.

(** ** A target at the other end of a socket *)

(** It answers the last request at once, from memory [m]. *)
Definition target_answer (m : gmap Z Z) (t : list Z) : list Z :=
  let word := if bool_decide (take 5 t = str "READ ") then 5%nat else 6%nat in
  let '(a, rest) := strtoull16 (drop word t) in
  let x := (strtoull16 (drop 1 rest)).1 in
  if bool_decide (take 5 t = str "READ ") then read_answer m a x else write_answer a x.

Definition target_host (m : gmap Z Z) (now : Z) (up : bool) : HostEnv := {|
  host_sendto := λ _ t, if up then Z.of_nat (length t) else -1;
  host_select := λ _, true;
  host_recvfrom := λ hist, match hist with _ :: HSend t :: _ => target_answer m t | _ => [] end;
  host_time := λ _, now
|}.

Lemma length_fmt_hex d : forall x, (length (fmt_hex d x) <= d)%nat.
Proof.
  induction d as [|d IH]; intros x; [done|]. cbn [fmt_hex]. rewrite length_app. cbn [length].
  destruct (x <? 16); [cbn [length]; lia|]. specialize (IH (x / 16)). lia.
Qed.

Lemma target_takes m now hist t :
  (length t <= 2000)%nat -> Z.of_nat (length t) <= u64 (@host_sendto (target_host m now true) hist t).
Proof. intros Hl. cbn. unfold u64. rewrite Z.mod_small by lia. lia. Qed.

Lemma target_serves_reads m now : @serves_reads (target_host m now true) m.
Proof.
  intros hist a n Ha Hn. exists 0%nat. split; [lia|]. split; [intros j Hj|lia|done|].
  - apply target_takes. unfold read_request. rewrite !length_app.
    pose proof (length_fmt_hex 16 (u64 a)). pose proof (length_fmt_hex 8 (u32 n)). unfold fmt_llX, fmt_X. cbn [length str]. 
    change (length (str "READ ")) with 5%nat. lia.
  - change (target_answer m (read_request a n) = read_answer m a n). unfold target_answer, read_request. rewrite bool_decide_eq_true_2 by done.
    change (drop 5 (str "READ " ++ fmt_llX a ++ [32] ++ fmt_X n)) with (fmt_llX a ++ [32] ++ fmt_X n).
    unfold strtoull16. rewrite (strtou16_number _ _ a) by (first [by apply fmt_llX_number|lia|done]).
    cbn [drop app]. rewrite ?drop_0. rewrite <- (app_nil_r (fmt_X n)). rewrite (strtou16_number _ _ n) by (first [apply fmt_X_number; lia|lia|done]).
    done.
Qed.

Lemma target_serves_writes m now : @serves_writes (target_host m now true).
Proof.
  intros hist a q d (Ha & Hq & Hd). exists 0%nat. split; [lia|]. split; [intros j Hj|lia|done|].
  - apply target_takes. unfold write_request. rewrite !length_app.
    pose proof (length_fmt_hex 16 (u64 a)). pose proof (length_fmt_hex 8 (u32 q)). unfold fmt_llX, fmt_X.
    change (length (str "WRITE ")) with 6%nat. cbn [length]. lia.
  - change (target_answer m (write_request a q d) = write_answer a q). unfold target_answer, write_request. rewrite bool_decide_eq_false_2 by done.
    change (drop 6 (str "WRITE " ++ fmt_llX a ++ [32] ++ fmt_X q ++ [10] ++ d)) with (fmt_llX a ++ [32] ++ fmt_X q ++ [10] ++ d).
    unfold strtoull16. rewrite (strtou16_number _ _ a) by (first [by apply fmt_llX_number|lia|done]).
    cbn [drop app]. rewrite ?drop_0. rewrite (strtou16_number _ _ q) by (first [apply fmt_X_number; lia|lia|done]).
    done.
Qed.

Definition start : host := mkHost [] [] 0.
Definition bench_memory : gmap Z Z := wr_bytes ∅ 4096 [1; 2; 3].

Lemma remote_eth_read_reads_memory_witness :
  exists h', @remote_eth_read (target_host bench_memory 7 true) 4096 3000 start =
    inr (Some (rd_bytes bench_memory 4096 3000), h').
Proof.
  apply (@remote_eth_read_reads_memory (target_host bench_memory 7 true) bench_memory 4096 3000 start); [|lia..].
  apply target_serves_reads.
Defined.

Lemma remote_eth_write_writes_memory_witness :
  exists h' l, @remote_eth_write (target_host ∅ 7 true) 4096 [1; 2; 3] start = inr (1, h') /\
    forall m, apply_blocks m l = wr_bytes m 4096 [1; 2; 3].
Proof.
  destruct (@remote_eth_write_writes_memory (target_host ∅ 7 true) 4096 [1; 2; 3] start) as (h' & l & E & _ & _ & Hm).
  - apply target_serves_writes.
  - lia.
  - cbn. lia.
  - exists h', l. split; [exact E|exact Hm].
Defined.

Lemma read_block_retries_witness :
  exists h', @remote_eth_read_block (target_host bench_memory 7 true) 4096 3 start = inr (Some (rd_bytes bench_memory 4096 3), h').
Proof.
  destruct (@read_block_retries (target_host bench_memory 7 true) bench_memory 4096 3 start) as [Hans _]; [lia|lia|].
  destruct (target_serves_reads bench_memory 7 [] 4096 3) as (k & Hk & Haa); [lia|lia|].
  destruct (Hans k Hk Haa) as (h' & E & _). exists h'. exact E.
Defined.

Lemma exec_repeats_within_second_witness :
  exists r1 h1 r2 h2, @remote_eth_exec (target_host ∅ 7 true) 4096 1 start = inr (r1, h1) /\
    @remote_eth_exec (target_host ∅ 7 true) 4096 1 h1 = inr (r2, h2) /\
    exec_request 4096 7 ∈ sent_datagrams (h_hist h1) /\
    exists l, sent_datagrams (h_hist h2) = exec_request 4096 7 :: l ++ sent_datagrams (h_hist h1).
Proof.
  destruct (@exec_sends (target_host ∅ 7 true) 4096 1 start) as (r1 & h1 & k & E1 & _).
  destruct (@exec_repeats_within_second (target_host ∅ 7 true) 4096 1 start r1 h1 E1 eq_refl)
    as (r2 & h2 & k1 & k2 & E2 & Hk1 & Hk2 & Es1 & Es2).
  exists r1, h1, r2, h2. split_and!; [exact E1|exact E2| |].
  - rewrite Es1. destruct k1; [lia|]. left.
  - rewrite Es2. destruct k2 as [|k2]; [lia|]. by exists (replicate k2 (exec_request 4096 7)).
Defined.

Lemma send_error_undetected_witness :
  @send_failed (target_host ∅ 7 false) (str "TEST") start = inr (false, mkHost [HSend (str "TEST")] [] 0).
Proof. apply (@send_error_undetected (target_host ∅ 7 false)); reflexivity. Defined.

