(* ===== verification/SLib.v ===== *)
(** * The host side of the serial protocol (comm/s_lib.c)

    Commands are lines, answers are lines or, for READB, raw bytes between "OK "
    and CR LF.  The kernel's calls on the serial port and the clock are the
    parameter [SerialEnv], functions of what the program has done so far; a read
    may return any part of what was asked for, or fail. *)

From S2P Require Import Prelude Machine Memory Text ELib.

(** ** The program's history and its environment *)

Inductive sevent : Type :=
  | SWrite (b : list Z) (wd : Z)       (* write of [b] returned [wd] *)
  | SRead (r : option (list Z))        (* read: [None] for -1, [Some []] for 0 *)
  | SSelect (n : Z)
  | SNonblock (on : bool)              (* fcntl of O_NONBLOCK *)
  | STermios (cflag : Z).              (* tcsetattr *)

Class SerialEnv : Type := {
  ser_read : list sevent -> nat -> option (list Z);  (* at most the size is used *)
  ser_write : list sevent -> list Z -> Z;
  ser_select : list sevent -> Z;
  ser_time : list sevent -> Z;
  ser_tcgetattr : list sevent -> option Z;           (* c_cflag, [None] for an error *)
  ser_raw : Z -> Z;                                  (* c_cflag after cfmakeraw and the speeds *)
  ser_tcsetattr : list sevent -> Z -> bool;
  ser_fuel : nat                                     (* passes of the unbounded loops *)
}.

Abbreviation S232 := (SM (list sevent)).

Section Serial.
Context `{SE : SerialEnv}.

Definition slog (e : sevent) : S232 unit := modify (cons e).

(** [read(fd,ptr,sz)] and [write(fd,b,length b)]; the kernel returns at most
    the size. *)
Definition sys_read (sz : nat) : S232 (option (list Z)) :=
  r ← gets (λ h, take sz <$> ser_read h sz);
  slog (SRead r) ;; mret r.
Definition sys_write (b : list Z) : S232 Z :=
  wd ← gets (λ h, Z.max (-1) (Z.min (ser_write h b) (Z.of_nat (length b))));
  slog (SWrite b wd) ;; mret wd.
Definition sys_select : S232 Z := n ← gets ser_select; slog (SSelect n) ;; mret n.
Definition sys_time : S232 Z := gets ser_time.

(** The result and the bytes stored at [ptr]; [acc] are those of earlier passes. *)
Fixpoint read_forced_loop (fuel : nat) (sz : nat) (acc : list Z) : S232 (Z * list Z) :=
  match sz, fuel with
  | O, _ => mret (Z.of_nat (length acc), acc)
  | S _, O => halt NoReturn
  | S _, S f =>
      rd ← sys_read sz;
      match rd with
      | Some [] => mret (if (length acc =? 0)%nat then -1 else Z.of_nat (length acc), acc)
      | None => read_forced_loop f sz acc
      | Some b => read_forced_loop f (sz - length b) (acc ++ b)
      end
  end.
Definition read_forced (sz : nat) : S232 (Z * list Z) := read_forced_loop ser_fuel sz [].

(** The loop that writes the command, and the one that writes the newline. *)
Fixpoint send_loop (fuel : nat) (cmd : list Z) : S232 unit :=
  match cmd, fuel with
  | [], _ => skip
  | _ :: _, O => halt NoReturn
  | _ :: _, S f =>
      wd ← sys_write cmd;
      if 0 <? wd then send_loop f (drop (Z.to_nat wd) cmd)
      else if wd =? 0 then skip
      else send_loop f cmd
  end.
Fixpoint newline_loop (fuel : nat) : S232 Z :=
  match fuel with
  | O => halt NoReturn
  | S f => wd ← sys_write [10]; if wd =? -1 then newline_loop f else mret wd
  end.

Definition remote_rs232_send_command (cmd : list Z) : S232 Z :=
  send_loop ser_fuel cmd ;;
  wd ← newline_loop ser_fuel;
  if wd =? 0 then mret 0 else mret 1.

(** [if (c >= 32 || c < 0) { if (wp < fence) *wp++ = c; }] for a [char], with
    room for [len] bytes and a final NUL. *)
Definition put_char (len : nat) (buf : list Z) (c : Z) : list Z :=
  if (32 <=? s8 c) || (s8 c <? 0) then
    if (length buf <? len - 1)%nat then buf ++ [c] else buf
  else buf.

Fixpoint response_loop (fuel : nat) (et : Z) (len : nat) (buf : list Z) : S232 (Z * list Z) :=
  match fuel with
  | O => halt NoReturn
  | S f =>
      t ← sys_time;
      if et <=? t then mret (-1, buf) else
      r ← sys_read 1;
      match r with
      | Some [] => mret (-1, buf)
      | None => response_loop f et len buf
      | Some (c :: _) =>
          let buf := put_char len buf c in
          if negb (c =? 10) then response_loop f et len buf else mret (0, buf)
      end
  end.

(** The result and the string left in the buffer of [len] bytes. *)
Definition remote_rs232_get_response (len : nat) (timeout : Z) : S232 (Z * list Z) :=
  t ← sys_time;
  let et := t + u64 (timeout + 999999) / 1000000 + 1 + 1 in
  slog (SNonblock true) ;;
  '(ret, buf) ← response_loop ser_fuel et len [];
  let ret := if (ret =? 0) && has_prefix (buf ++ [0]) (str "OK") then 1 else ret in
  slog (SNonblock false) ;;
  mret (ret, buf).

(** [if (!send_command(fd,cmd)) return 0;
     if (get_response(fd,line,sizeof(line),timeout) != 1) return 0; ...; return 1;] *)
Definition rs232_command (cmd : list Z) (timeout : Z) (after : list Z -> S232 Z) : S232 Z :=
  r ← remote_rs232_send_command cmd;
  if r =? 0 then mret 0 else
  '(ret, line) ← remote_rs232_get_response 128 timeout;
  if negb (ret =? 1) then mret 0 else after line.

(** [tolower] and [!strncasecmp(b,word,n)] for a lower-case word of [n] letters. *)
Definition tolower (c : Z) : Z := if (65 <=? c) && (c <=? 90) then c + 32 else c.
Definition has_prefix_nocase (b word : list Z) : bool := bool_decide (take (length word) (tolower <$> c_string b) = word).

Definition remote_rs232_test : S232 Z :=
  rs232_command (str "TEST") 1000000 (λ line,
    if has_prefix_nocase (line ++ [0]) (str "ok function") then
      '(ret, _) ← remote_rs232_get_response 128 1000000;
      if negb (ret =? 1) then mret 0 else mret 1
    else mret 1).

Definition remote_rs232_8086 : S232 Z := rs232_command (str "8086") 1000000 (λ _, mret 1).
Definition remote_rs232_286 : S232 Z := rs232_command (str "286") 1000000 (λ _, mret 1).
Definition remote_rs232_386_16 : S232 Z := rs232_command (str "386-16") 1000000 (λ _, mret 1).
Definition remote_rs232_386_32 : S232 Z := rs232_command (str "386-32") 1000000 (λ _, mret 1).
Definition remote_rs232_x64 : S232 Z := rs232_command (str "x64") 1000000 (λ _, mret 1).

(** [while (r > 0) { rd = read(fd,ptr,r); ... }]: [None] for the [return -1]. *)
Fixpoint read_data_loop (fuel : nat) (r : nat) (acc : list Z) : S232 (option (list Z)) :=
  match r, fuel with
  | O, _ => mret (Some acc)
  | S _, O => halt NoReturn
  | S _, S f =>
      rd ← sys_read r;
      match rd with
      | Some [] => mret None
      | None => read_data_loop f r acc
      | Some b => read_data_loop f (r - length b) (acc ++ b)
      end
  end.

(** The result, and what was stored in [buf] when it is 1. *)
Definition remote_rs232_read (addr count : Z) : S232 (Z * option (list Z)) :=
  r ← remote_rs232_send_command (str "READB " ++ fmt_llX addr ++ [32] ++ fmt_X count);
  if r =? 0 then mret (0, None) else
  n ← sys_select;
  if negb (n =? 1) then mret (-1, None) else
  '(rd, line) ← read_forced 3;
  if negb (rd =? 3) then mret (-1, None) else
  if negb (bool_decide (line = str "OK ")) then
    '(ret, _) ← remote_rs232_get_response 128 1000000; mret (ret, None)
  else
  data ← read_data_loop ser_fuel (Z.to_nat (u32 count)) [];
  match data with
  | None => mret (-1, None)
  | Some d =>
      '(rd, line) ← read_forced 2;
      if negb (rd =? 2) then mret (-1, None) else
      if negb (bool_decide (line = [13; 10])) then mret (-1, None) else mret (1, Some d)
  end.

(** [while (r > 0) { wr = r; wd = write(fd,p,wr); if (wd == 0) return -1;
     assert(wd <= r); p += wd; r -= wd; }] with [r] unsigned: the comparison is
    of unsigned numbers.  A count of 2 GB or more has no meaning as [int]. *)
Fixpoint write_data_loop (fuel : nat) (p : list Z) : S232 bool :=
  match p, fuel with
  | [], _ => mret true
  | _ :: _, O => halt NoReturn
  | _ :: _, S f =>
      let r := Z.of_nat (length p) in
      if 2147483648 <=? r then halt Undefined else
      wd ← sys_write p;
      if wd =? 0 then mret false else
      if negb (u32 wd <=? r) then halt Aborted else
      write_data_loop f (drop (Z.to_nat wd) p)
  end.

Definition remote_rs232_write (addr : Z) (buf : list Z) : S232 Z :=
  r ← remote_rs232_send_command (str "WRITEB " ++ fmt_llX addr ++ [32] ++ fmt_X (Z.of_nat (length buf)));
  if r =? 0 then mret 0 else
  ok ← write_data_loop ser_fuel buf;
  if negb ok then mret (-1) else
  '(ret, _) ← remote_rs232_get_response 128 1000000;
  if negb (ret =? 1) then mret 0 else mret 1.

(** [timeout_s*1000000] is a product of [unsigned int]s. *)
Definition remote_rs232_exec_seg_off (segment offset timeout_s : Z) : S232 Z :=
  rs232_command (str "EXEC " ++ fmt_X segment ++ [32] ++ fmt_llX offset) (u32 (timeout_s * 1000000)) (λ _, mret 1).
Definition remote_rs232_exec_off (offset timeout_s : Z) : S232 Z :=
  rs232_command (str "EXEC " ++ fmt_llX offset) (u32 (timeout_s * 1000000)) (λ _, mret 1).

(** [while ((rd=read(fd,buf,sizeof(buf))) > 0);] *)
Fixpoint drain_loop (fuel : nat) : S232 unit :=
  match fuel with
  | O => halt NoReturn
  | S f =>
      rd ← sys_read 16;
      match rd with
      | None | Some [] => skip
      | Some _ => drain_loop f
      end
  end.

(** CSIZE and CS8 are 0x30, CSTOPB 0x40 and CREAD 0x80. *)
Definition raw_cflag (c : Z) : Z :=
  let c := Z.lor (Z.land c (Z.lnot 0x30)) 0x30 in
  let c := Z.land c (Z.lnot 0x40) in
  Z.lor c 0x80.

Definition remote_rs232_configure : S232 unit :=
  t ← gets ser_tcgetattr;
  match t with
  | None => skip
  | Some c =>
      let c := raw_cflag (ser_raw c) in
      ok ← gets (λ h, ser_tcsetattr h c);
      slog (STermios c) ;;
      if negb ok then skip else
      slog (SNonblock true) ;;
      drain_loop ser_fuel ;;
      slog (SNonblock false)
  end.

End Serial.
