(* ===== verification/SLibSpec.v ===== *)
(** * What the serial host library guarantees

    The functions of comm/s_lib.c against a serial line that delivers a stream
    of bytes in arbitrary pieces, and against a clock that runs. *)

From S2P Require Import Prelude Machine Memory Text ELib SLib.

(** ** Observations on the history (latest first) *)

(** The bytes received and sent, in the order of time. *)
Fixpoint got (h : list sevent) : list Z :=
  match h with
  | [] => []
  | SRead (Some b) :: h' => got h' ++ b
  | _ :: h' => got h'
  end.

Fixpoint sent (h : list sevent) : list Z :=
  match h with
  | [] => []
  | SWrite b wd :: h' => sent h' ++ take (Z.to_nat wd) b
  | _ :: h' => sent h'
  end.

(** The failures since the last success. *)
Fixpoint failed_reads (h : list sevent) : nat :=
  match h with
  | SRead None :: h' => S (failed_reads h')
  | SRead (Some _) :: _ | [] => 0
  | _ :: h' => failed_reads h'
  end.

Fixpoint failed_writes (h : list sevent) : nat :=
  match h with
  | SWrite _ wd :: h' => if wd =? -1 then S (failed_writes h') else 0
  | [] => 0
  | _ :: h' => failed_writes h'
  end.

(** Events between two writes. *)
Definition waiting (h : list sevent) : Prop := Forall (λ e, match e with SWrite _ _ => False | _ => True end) h.

(** A line to a machine that delivers [stream w] in all once it has been sent
    [w]: while bytes are left, a read returns some of them, or fails, at most [k]
    times in a row; a write takes some of the bytes, or fails, at most [k] times
    in a row; and less than three seconds pass between two writes. *)
Class SerialLine `{SE : SerialEnv} (stream : list Z -> list Z) (k : nat) : Prop := {
  line_read h sz : (0 < sz)%nat -> (length (got h) < length (stream (sent h)))%nat ->
    (ser_read h sz = None /\ (failed_reads h < k)%nat) \/
    exists n, (0 < n <= sz)%nat /\ ser_read h sz = Some (take n (drop (length (got h)) (stream (sent h))));
  line_write h b : (ser_write h b = -1 /\ (failed_writes h < k)%nat) \/ 0 < ser_write h b;
  line_time h h' : waiting h' -> ser_time (h' ++ h) < ser_time h + 3
}.

(** The characters [remote_rs232_get_response] keeps. *)
Definition printable (c : Z) : bool := (32 <=? s8 c) || (s8 c <? 0).

Section Line.
Context `{SE : SerialEnv} (stream : list Z -> list Z) (k : nat) `{Line : !SerialLine stream k}.

(** What is still to come, and what will be once [w] has been sent. *)
Definition rest (h : list sevent) : list Z := drop (length (got h)) (stream (sent h)).
Definition coming (w : list Z) (h : list sevent) : list Z := drop (length (got h)) (stream (sent h ++ w)).

Lemma rest_length h : length (rest h) = (length (stream (sent h)) - length (got h))%nat.
Proof. apply length_drop. Qed.

(** One read. *)
Record read_step (sz : nat) (h : list sevent) (r : option (list Z)) (h' : list sevent) : Prop := {
  rs_hist : h' = SRead r :: h;
  rs_bytes : match r with
             | None => (failed_reads h < k)%nat
             | Some b => (0 < length b <= sz)%nat /\ exists n, b = take n (rest h)
             end
}.

Lemma sys_read_spec sz h :
  (0 < sz)%nat -> (0 < length (rest h))%nat -> wp (sys_read sz) (λ r h', read_step sz h r h') h.
Proof.
  intros Hsz Hr. unfold sys_read, slog. do 2 wp_step. wp_step. wp_step. wp_step. split; [done|].
  rewrite rest_length in Hr. destruct (line_read h sz Hsz ltac:(lia)) as [[-> Hk]|(n & Hn & ->)]; cbn [fmap option_fmap option_map]; [done|].
  rewrite take_take. unfold rest. rewrite length_take, length_drop. split; [lia|]. by exists (sz `min` n)%nat.
Qed.

(** The remaining stream and the measure of the loops after one read. *)
Definition patience (sz : nat) (h : list sevent) : nat := (sz * (k + 1) + (k - failed_reads h))%nat.

Lemma read_step_some sz h b h' :
  read_step sz h (Some b) h' ->
  got h' = got h ++ b /\ rest h = b ++ rest h' /\ (length b <= sz)%nat /\ (patience (sz - length b) h' < patience sz h)%nat /\
  sent h' = sent h.
Proof.
  intros [-> [Hb [n ->]]]. cbn [got sent failed_reads]. set (b := take n (rest h)) in *.
  split_and!; [done| |lia| |done].
  - unfold rest at 2. cbn [got sent]. rewrite length_app. rewrite <- drop_drop. fold (rest h).
    subst b. rewrite length_take. destruct (decide (n <= length (rest h))%nat).
    + rewrite Nat.min_l by done. by rewrite take_drop.
    + rewrite Nat.min_r by lia. rewrite (take_ge (rest h)) by lia. by rewrite drop_all, app_nil_r.
  - unfold patience. cbn [failed_reads]. nia.
Qed.

Lemma read_step_none sz h h' :
  read_step sz h None h' ->
  got h' = got h /\ rest h' = rest h /\ (patience sz h' < patience sz h)%nat /\ sent h' = sent h.
Proof. intros [-> Hk]. unfold patience, rest. cbn [got sent failed_reads]. split_and!; try done. lia. Qed.

(** *** Reading a known number of bytes *)

(** [n] bytes have been received and nothing sent. *)
Record received_bytes (n : nat) (h h' : list sevent) : Prop := {
  rb_got : got h' = got h ++ take n (rest h);
  rb_rest : rest h' = drop n (rest h);
  rb_sent : sent h' = sent h
}.

Lemma received_bytes_step sz h b h1 h' :
  read_step sz h (Some b) h1 -> received_bytes (sz - length b) h1 h' -> received_bytes sz h h'.
Proof.
  intros Hs [Hg Hr Hsent]. destruct (read_step_some _ _ _ _ Hs) as (Eg & Er & Hb & _ & Es). split.
  - rewrite Hg, Eg, Er, <- app_assoc. f_equal. rewrite take_app. by rewrite (take_ge b) by lia.
  - rewrite Hr, Er. rewrite drop_app. by rewrite (drop_ge b) by lia.
  - congruence.
Qed.

Lemma received_none n h h1 h' : read_step n h None h1 -> received_bytes n h1 h' -> received_bytes n h h'.
Proof.
  intros Hs [Hg Hr Hsent]. destruct (read_step_none _ _ _ Hs) as (Eg & Er & _ & Es). rewrite Eg, Er in *. split; congruence.
Qed.

Lemma taken_step sz h b h1 acc :
  read_step sz h (Some b) h1 -> (acc ++ b) ++ take (sz - length b) (rest h1) = acc ++ take sz (rest h).
Proof.
  intros Hs. destruct (read_step_some _ _ _ _ Hs) as (_ & -> & Hb & _). rewrite take_app, (take_ge b) by lia. by rewrite app_assoc.
Qed.

Lemma received_zero h : received_bytes 0 h h.
Proof. split; rewrite ?take_0, ?drop_0, ?app_nil_r; done. Qed.

Lemma read_forced_loop_spec fuel : forall sz acc h,
  (sz <= length (rest h))%nat -> (patience sz h <= fuel)%nat ->
  wp (read_forced_loop fuel sz acc)
    (λ r h', r = (Z.of_nat (length acc + sz), acc ++ take sz (rest h)) /\ received_bytes sz h h') h.
Proof.
  induction fuel as [|fuel IH]; intros [|sz] acc h Hsz Hf; cbn [read_forced_loop].
  - wp_step. rewrite Nat.add_0_r, take_0, app_nil_r. split; [done|apply received_zero].
  - unfold patience in Hf. lia.
  - wp_step. rewrite Nat.add_0_r, take_0, app_nil_r. split; [done|apply received_zero].
  - wp_step. eapply wp_mono; [apply sys_read_spec; lia|]. intros [b|] h1 Hs.
    + destruct (read_step_some _ _ _ _ Hs) as (_ & Er & Hb & Hm & _). pose proof (rs_bytes _ _ _ _ Hs) as [Hb0 _].
      destruct b as [|c b]; [cbn in Hb0; lia|]. rewrite Er, length_app in Hsz. eapply wp_mono; [apply IH; lia|].
      intros r h' [-> Hr]. split; [|by eapply received_bytes_step].
      rewrite length_app. f_equal; [lia|by apply taken_step].
    + destruct (read_step_none _ _ _ Hs) as (_ & Er & Hm & _). eapply wp_mono; [apply IH; [by rewrite Er|lia]|].
      intros r h' [-> Hr]. rewrite Er. split; [done|by eapply received_none].
Qed.

Lemma read_data_loop_spec fuel : forall sz acc h,
  (sz <= length (rest h))%nat -> (patience sz h <= fuel)%nat ->
  wp (read_data_loop fuel sz acc)
    (λ r h', r = Some (acc ++ take sz (rest h)) /\ received_bytes sz h h') h.
Proof.
  induction fuel as [|fuel IH]; intros [|sz] acc h Hsz Hf; cbn [read_data_loop].
  - wp_step. rewrite take_0, app_nil_r. split; [done|apply received_zero].
  - unfold patience in Hf. lia.
  - wp_step. rewrite take_0, app_nil_r. split; [done|apply received_zero].
  - wp_step. eapply wp_mono; [apply sys_read_spec; lia|]. intros [b|] h1 Hs.
    + destruct (read_step_some _ _ _ _ Hs) as (_ & Er & Hb & Hm & _). pose proof (rs_bytes _ _ _ _ Hs) as [Hb0 _].
      destruct b as [|c b]; [cbn in Hb0; lia|]. rewrite Er, length_app in Hsz. eapply wp_mono; [apply IH; lia|].
      intros r h' [-> Hr]. split; [|by eapply received_bytes_step]. f_equal. by apply taken_step.
    + destruct (read_step_none _ _ _ Hs) as (_ & Er & Hm & _). eapply wp_mono; [apply IH; [by rewrite Er|lia]|].
      intros r h' [-> Hr]. rewrite Er. split; [done|by eapply received_none].
Qed.

(** [n] bytes need no more passes than this. *)
Definition passes (n : nat) : nat := ((n + 1) * (k + 1))%nat.

Lemma patience_passes n h : (patience n h <= passes n)%nat.
Proof. unfold patience, passes. nia. Qed.

Lemma passes_mono n m : (n <= m)%nat -> (passes n <= passes m)%nat.
Proof. unfold passes. nia. Qed.

Lemma read_forced_spec sz h :
  (sz <= length (rest h))%nat -> (passes sz <= ser_fuel)%nat ->
  wp (read_forced sz) (λ r h', r = (Z.of_nat sz, take sz (rest h)) /\ received_bytes sz h h') h.
Proof.
  intros Hsz Hf. unfold read_forced. pose proof (patience_passes sz h). by apply (read_forced_loop_spec ser_fuel sz []); [|lia].
Qed.

(** *** Sending *)

Lemma sys_write_spec b h :
  b <> [] ->
  wp (sys_write b) (λ wd h', h' = SWrite b wd :: h /\
    ((wd = -1 /\ (failed_writes h < k)%nat) \/ 0 < wd <= Z.of_nat (length b))) h.
Proof.
  intros Hb. unfold sys_write, slog. do 2 wp_step. wp_step. wp_step. wp_step. split; [done|].
  assert (0 < Z.of_nat (length b)) by (destruct b; cbn; [done|lia]).
  destruct (line_write h b) as [[-> Hk]|Hw]; [left|right]; lia.
Qed.

(** [b] has been sent and nothing received. *)
Record sent_bytes (b : list Z) (h h' : list sevent) : Prop := {
  sb_sent : sent h' = sent h ++ b;
  sb_got : got h' = got h
}.

Lemma sent_bytes_rest b h h' : sent_bytes b h h' -> rest h' = coming b h.
Proof. intros [Es E]. unfold rest, coming. by rewrite E, Es. Qed.

Lemma sent_bytes_trans b1 b2 h1 h2 h3 : sent_bytes b1 h1 h2 -> sent_bytes b2 h2 h3 -> sent_bytes (b1 ++ b2) h1 h3.
Proof. intros [] []. split; [by rewrite sb_sent1, sb_sent0, app_assoc|congruence]. Qed.

Lemma sent_some b wd h : 0 < wd -> sent_bytes (take (Z.to_nat wd) b) h (SWrite b wd :: h).
Proof. by split. Qed.

Lemma sent_none b h : sent_bytes [] h (SWrite b (-1) :: h).
Proof. split; [|done]. cbn. by rewrite take_0. Qed.

Lemma send_loop_spec fuel : forall cmd h,
  (length cmd * (k + 1) + (k - failed_writes h) <= fuel)%nat ->
  wp (send_loop fuel cmd) (λ _ h', sent_bytes cmd h h') h.
Proof.
  induction fuel as [|fuel IH]; intros [|c cmd] h Hf; cbn [send_loop]; try (wp_step; split; by rewrite ?app_nil_r).
  - cbn in Hf. lia.
  - wp_step. eapply wp_mono; [by apply sys_write_spec|]. set (b := c :: cmd) in *. intros wd h1 [-> [[-> Hk]|Hw]]; cbn [Z.ltb Z.compare Z.eqb].
    + eapply wp_mono; [apply IH; cbn [failed_writes Z.eqb Pos.eqb]; lia|]. intros [] h' Hs. by apply (sent_bytes_trans [] b _ _ _ (sent_none b h)).
    + rewrite (proj2 (Z.ltb_lt 0 wd)) by lia. eapply wp_mono; [apply IH|].
      * cbn [failed_writes]. rewrite (proj2 (Z.eqb_neq wd (-1))) by lia. rewrite length_drop. nia.
      * intros [] h' Hs. rewrite <- (take_drop (Z.to_nat wd) b) at 1. eapply sent_bytes_trans; [apply sent_some; lia|exact Hs].
Qed.

Lemma newline_loop_spec fuel : forall h,
  (k - failed_writes h < fuel)%nat -> wp (newline_loop fuel) (λ wd h', wd = 1 /\ sent_bytes [10] h h') h.
Proof.
  induction fuel as [|fuel IH]; intros h Hf; [lia|]. cbn [newline_loop]. wp_step.
  eapply wp_mono; [by apply sys_write_spec|]. intros wd h1 [-> [[-> Hk]|Hw]]; cbn [Z.eqb Pos.eqb].
  - eapply wp_mono; [apply IH; cbn [failed_writes Z.eqb Pos.eqb]; lia|]. intros wd h' [-> Hs]. split; [done|].
    by apply (sent_bytes_trans [] [10] _ _ _ (sent_none [10] h)).
  - cbn [length] in Hw. assert (wd = 1) as -> by lia. cbn [Z.eqb]. wp_step. by repeat split.
Qed.

Lemma send_command_spec cmd h :
  (passes (length cmd) <= ser_fuel)%nat ->
  wp (remote_rs232_send_command cmd) (λ r h', r = 1 /\ sent_bytes (cmd ++ [10]) h h') h.
Proof.
  intros Hf. unfold remote_rs232_send_command, passes in *. wp_step. eapply wp_mono; [apply send_loop_spec; nia|].
  intros [] h1 H1. wp_step. eapply wp_mono; [apply newline_loop_spec; nia|]. intros wd h2 [-> H2]. cbn [Z.eqb]. wp_step.
  split; [done|by eapply sent_bytes_trans].
Qed.

(** *** Answers *)

Lemma take_line (l more : list Z) : take (S (length l)) (l ++ 10 :: more) = l ++ [10].
Proof. rewrite take_app, take_ge by lia. by replace (S (length l) - length l)%nat with 1%nat by lia. Qed.

Lemma drop_line (l more : list Z) : drop (S (length l)) (l ++ 10 :: more) = more.
Proof. rewrite drop_app, drop_ge by lia. by replace (S (length l) - length l)%nat with 1%nat by lia. Qed.

Lemma read_step_more n m h r h' : read_step n h r h' -> (n <= m)%nat -> read_step m h r h'.
Proof. intros [E Hb] Hm. split; [done|]. destruct r; [|done]. destruct Hb as [Hb Hx]. split; [lia|done]. Qed.

Lemma fold_put_char len l : forall buf,
  (length buf <= len - 1)%nat -> fold_left (put_char len) l buf = take (len - 1) (buf ++ filter (λ c, printable c = true) l).
Proof.
  induction l as [|c l IH]; intros buf Hb; cbn [fold_left].
  - by rewrite app_nil_r, take_ge.
  - rewrite filter_cons. unfold put_char, printable in *. destruct ((32 <=? s8 c) || (s8 c <? 0)).
    + rewrite decide_True by done. case_bool.
      * apply Nat.ltb_lt in E. rewrite IH by (rewrite length_app; cbn; lia). by rewrite <- app_assoc.
      * apply Nat.ltb_ge in E. rewrite IH by done. by rewrite !take_app_le by lia.
    + rewrite decide_False by done. by apply IH.
Qed.

Lemma waiting_read n h r h1 et :
  read_step n h r h1 -> (forall h', waiting h' -> ser_time (h' ++ h) < et) -> forall h', waiting h' -> ser_time (h' ++ h1) < et.
Proof.
  intros [-> _] Ht h' Hw. replace (h' ++ SRead r :: h) with ((h' ++ [SRead r]) ++ h) by by rewrite <- app_assoc.
  apply Ht, Forall_app_2; [done|by repeat constructor].
Qed.

Lemma response_loop_spec fuel et len more : forall l buf h,
  rest h = l ++ 10 :: more -> 10 ∉ l -> (forall h', waiting h' -> ser_time (h' ++ h) < et) -> (patience (S (length l)) h <= fuel)%nat ->
  wp (response_loop fuel et len buf)
    (λ r h', r = (0, fold_left (put_char len) l buf) /\ received_bytes (S (length l)) h h') h.
Proof.
  induction fuel as [|fuel IH]; intros l buf h Hr Hl Ht Hf; [unfold patience in Hf; lia|]. cbn [response_loop].
  unfold sys_time. do 2 wp_step. rewrite (proj2 (Z.leb_gt _ _)) by (apply (Ht []); constructor). wp_step.
  eapply wp_mono; [apply sys_read_spec; [lia|rewrite Hr, length_app; cbn; lia]|]. intros [b|] h1 Hs.
  - pose proof (rs_bytes _ _ _ _ Hs) as [Hb0 _]. destruct b as [|c []]; cbn [length] in Hb0; [lia| |lia].
    pose proof (read_step_more _ (S (length l)) _ _ _ Hs ltac:(lia)) as Hs'.
    destruct (read_step_some _ _ _ _ Hs') as (_ & Er & _ & Hm & _). rewrite Hr in Er. destruct l as [|c' l]; cbn [app] in Er.
    + injection Er as <- Er. cbn [Z.eqb Pos.eqb negb]. wp_step. split; [done|].
      eapply received_bytes_step; [exact Hs'|apply received_zero].
    + injection Er as -> Er. apply not_elem_of_cons in Hl as [Hc Hl]. rewrite (proj2 (Z.eqb_neq c 10)) by done. cbn [negb].
      change (S (length (c :: l)) - length [c])%nat with (S (length l)) in Hm.
      eapply wp_mono; [apply (IH l); [done|done|by eapply waiting_read|lia]|]. intros r h' [-> Hrec]. split; [done|].
      eapply received_bytes_step; [exact Hs'|exact Hrec].
  - destruct (read_step_none _ _ _ (read_step_more _ (S (length l)) _ _ _ Hs ltac:(lia))) as (_ & Er & Hm & _).
    eapply wp_mono; [apply (IH l); [by rewrite Er|done|by eapply waiting_read|lia]|]. intros r h' [-> Hrec]. split; [done|].
    eapply received_none; [|exact Hrec]. eapply read_step_more; [exact Hs|lia].
Qed.

(** The string a line of input leaves in a buffer of [len] bytes. *)
Definition shown (len : nat) (l : list Z) : list Z := take (len - 1) (filter (λ c, printable c = true) l).

Lemma received_nonblock n on h h' :
  received_bytes n (SNonblock on :: h) h' -> received_bytes n h (SNonblock false :: h').
Proof. by intros []. Qed.

Lemma get_response_spec len timeout l more h :
  0 < timeout < 2000000000000 -> rest h = l ++ 10 :: more -> 10 ∉ l -> (passes (S (length l)) <= ser_fuel)%nat ->
  wp (remote_rs232_get_response len timeout)
    (λ r h', r = (if has_prefix (shown len l ++ [0]) (str "OK") then 1 else 0, shown len l) /\
       received_bytes (S (length l)) h h') h.
Proof.
  intros Hto Hr Hl Hf. unfold remote_rs232_get_response, sys_time, slog. do 4 wp_step. wp_step.
  assert (0 < u64 (timeout + 999999) / 1000000) as Hq.
  { unfold u64. rewrite Z.mod_small by lia. apply Z.div_str_pos. lia. }
  pose proof (patience_passes (S (length l)) (SNonblock true :: h)).
  eapply wp_mono; [apply (response_loop_spec ser_fuel _ len more l []); [exact Hr|done| |lia]|].
  { intros h' Hw. replace (h' ++ SNonblock true :: h) with ((h' ++ [SNonblock true]) ++ h) by by rewrite <- app_assoc.
    pose proof (line_time h (h' ++ [SNonblock true]) ltac:(apply Forall_app_2; [done|by repeat constructor])). lia. }
  intros r h' [-> Hrec]. wp_step. wp_step. wp_step.
  rewrite fold_put_char by (cbn; lia). cbn [app Z.eqb andb]. fold (shown len l). split; [done|by eapply received_nonblock].
Qed.

(** ** READB *)

Lemma fmt_hex_length n : forall x, (length (fmt_hex n x) <= n)%nat.
Proof.
  induction n as [|n IH]; intros x; cbn [fmt_hex]; [done|]. rewrite length_app. cbn [length].
  case_bool; cbn [length]; [lia|]. specialize (IH (x / 16)). lia.
Qed.

Definition readb_request (addr count : Z) : list Z := str "READB " ++ fmt_llX addr ++ [32] ++ fmt_X count.
Definition writeb_request (addr count : Z) : list Z := str "WRITEB " ++ fmt_llX addr ++ [32] ++ fmt_X count.

Lemma request_length addr count : (length (readb_request addr count) <= 31)%nat /\ (length (writeb_request addr count) <= 32)%nat.
Proof.
  pose proof (fmt_hex_length 16 (u64 addr)). pose proof (fmt_hex_length 8 (u32 count)).
  unfold readb_request, writeb_request, fmt_llX, fmt_X. rewrite !length_app. cbn [length str]. split.
  - change (length (str "READB ")) with 6%nat. lia.
  - change (length (str "WRITEB ")) with 7%nat. lia.
Qed.

Lemma passes_le n m : (n <= m)%nat -> (passes m <= ser_fuel)%nat -> (passes n <= ser_fuel)%nat.
Proof. intros Hn Hm. pose proof (passes_mono n m Hn). lia. Qed.

(** The common start: the request goes out, and the answer's first three bytes
    come in. *)
Lemma read_start addr count h (f : Z * list Z -> S232 (Z * option (list Z))) Q :
  let answer := coming (readb_request addr count ++ [10]) h in
  (forall h', ser_select h' = 1) -> (3 <= length answer)%nat -> (passes 31 <= ser_fuel)%nat ->
  (forall h', sent h' = sent h ++ readb_request addr count ++ [10] -> rest h' = drop 3 answer -> got h' = got h ++ take 3 answer ->
     wp (f (3, take 3 answer)) Q h') ->
  wp (r ← remote_rs232_send_command (readb_request addr count);
      if r =? 0 then mret (0, None) else
      n ← sys_select;
      if negb (n =? 1) then mret (-1, None) else
      p ← read_forced 3; f p) Q h.
Proof.
  intros answer Hsel Hr Hf HQ. wp_step. eapply wp_mono; [apply send_command_spec; eapply passes_le; [|exact Hf]; apply request_length|].
  intros r h1 [-> H1]. cbn [Z.eqb]. unfold sys_select, slog. do 4 wp_step. wp_step. wp_step. rewrite Hsel. cbn [Z.eqb Pos.eqb negb].
  wp_step. set (h2 := SSelect 1 :: h1). assert (rest h2 = answer) as E2 by (exact (sent_bytes_rest _ _ _ H1)).
  eapply wp_mono; [apply (read_forced_spec 3 h2); [by rewrite E2|eapply passes_le; [|exact Hf]; lia]|].
  intros p h3 [-> [Hg Hr3 Hs]]. rewrite E2 in *. apply HQ; [|done|].
  - rewrite Hs. subst h2. cbn [sent]. apply H1.
  - rewrite Hg. subst h2. cbn [got]. by rewrite (sb_got _ _ _ H1).
Qed.

Lemma rs232_read_spec addr count d more h :
  (forall h', ser_select h' = 1) -> 0 <= count < 4294967296 -> length d = Z.to_nat count ->
  coming (readb_request addr count ++ [10]) h = str "OK " ++ d ++ [13; 10] ++ more -> (passes (31 + length d) <= ser_fuel)%nat ->
  wp (remote_rs232_read addr count)
    (λ r h', r = (1, Some d) /\ rest h' = more /\ sent h' = sent h ++ readb_request addr count ++ [10] /\
       got h' = got h ++ str "OK " ++ d ++ [13; 10]) h.
Proof.
  intros Hsel Hc Hd Hr Hf.
  eapply (read_start addr count h (λ p, let '(rd, line) := p in _)); [done|rewrite Hr; cbn; lia|eapply passes_le; [|exact Hf]; lia|].
  intros h1 Es1 Er1 Eg1. rewrite Hr in *. change (take 3 (str "OK " ++ _)) with (str "OK ") in *.
  change (drop 3 (str "OK " ++ ?x)) with x in Er1. cbn [Z.eqb Pos.eqb negb]. rewrite bool_decide_eq_true_2 by done. cbn [negb]. wp_step.
  rewrite u32_small, <- Hd by done. pose proof (patience_passes (length d) h1). pose proof (passes_mono (length d) (31 + length d) ltac:(lia)).
  eapply wp_mono; [apply (read_data_loop_spec ser_fuel (length d) []); [rewrite Er1, length_app; lia|lia]|].
  intros r h2 [-> [Eg2 Er2 Es2]]. rewrite Er1 in *. rewrite take_app_length, drop_app_length in *. cbn [app]. wp_step.
  eapply wp_mono; [apply (read_forced_spec 2 h2); [rewrite Er2; cbn; lia|eapply passes_le; [|exact Hf]; lia]|].
  intros r h3 [-> [Eg3 Er3 Es3]]. rewrite Er2 in *. cbn [take drop app] in *. change (Z.of_nat 2 =? 2) with true.
  rewrite bool_decide_eq_true_2 by done. cbn [negb]. wp_step. split_and!; [done|done|congruence|].
  rewrite Eg3, Eg2, Eg1, <- !app_assoc. done.
Qed.

(** An answer that does not start with "OK ": the rest of the line decides. *)
Lemma rs232_read_other addr count a l more h :
  (forall h', ser_select h' = 1) -> length a = 3%nat -> a <> str "OK " ->
  coming (readb_request addr count ++ [10]) h = a ++ l ++ 10 :: more -> 10 ∉ l -> (passes (31 + length l) <= ser_fuel)%nat ->
  wp (remote_rs232_read addr count)
    (λ r h', r = (if has_prefix (shown 128 l ++ [0]) (str "OK") then 1 else 0, None) /\ rest h' = more /\
       sent h' = sent h ++ readb_request addr count ++ [10] /\ got h' = got h ++ a ++ l ++ [10]) h.
Proof.
  intros Hsel Ha Hne Hr Hl Hf.
  eapply (read_start addr count h (λ p, let '(rd, line) := p in _)).
  - done.
  - rewrite Hr, length_app. lia.
  - eapply passes_le; [|exact Hf]. lia.
  - intros h1 Es1 Er1 Eg1. rewrite Hr in *. rewrite take_app_length' in * by done. rewrite drop_app_length' in Er1 by done.
    cbn [Z.eqb Pos.eqb negb].
    rewrite bool_decide_eq_false_2 by done. cbn [negb]. wp_step.
    eapply wp_mono; [apply (get_response_spec 128 1000000 l more); [lia|done|done|eapply passes_le; [|exact Hf]; lia]|].
    intros r h2 [-> [Eg2 Er2 Es2]]. wp_step. split_and!; [done|by rewrite Er2, Er1, drop_line|congruence|].
    by rewrite Eg2, Eg1, Er1, take_line, <- app_assoc.
Qed.

(** Bytes left over from before the request shift the answer into this path, which
    takes any line that starts with "OK" for a success. *)
Lemma rs232_read_stale addr count a l more h :
  (forall h', ser_select h' = 1) -> length a = 3%nat -> a <> str "OK " ->
  coming (readb_request addr count ++ [10]) h = a ++ l ++ 10 :: more -> 10 ∉ l -> has_prefix (shown 128 l ++ [0]) (str "OK") = true ->
  (passes (31 + length l) <= ser_fuel)%nat ->
  wp (remote_rs232_read addr count) (λ r h', r = (1, None) /\ rest h' = more) h.
Proof.
  intros Hsel Ha Hne Hr Hl Hok Hf. eapply wp_mono; [by apply (rs232_read_other addr count a l more)|].
  intros r h' (-> & Hm & _). by rewrite Hok.
Qed.

(** ** WRITEB and the other commands *)

Lemma sys_write_takes b h :
  b <> [] -> 0 < ser_write h b ->
  wp (sys_write b) (λ wd h', h' = SWrite b wd :: h /\ 0 < wd <= Z.of_nat (length b)) h.
Proof.
  intros Hb Hw. unfold sys_write, slog. do 2 wp_step. wp_step. wp_step. wp_step. split; [done|].
  assert (0 < Z.of_nat (length b)) by (destruct b; cbn; [done|lia]). lia.
Qed.

Lemma write_data_loop_spec fuel : forall p h,
  (forall h' b, 0 < ser_write h' b) -> Z.of_nat (length p) < 2147483648 -> (length p <= fuel)%nat ->
  wp (write_data_loop fuel p) (λ r h', r = true /\ sent_bytes p h h') h.
Proof.
  induction fuel as [|fuel IH]; intros [|c p] h Hw Hp Hf; cbn [write_data_loop]; try (wp_step; split; [done|split; by rewrite ?app_nil_r]).
  - cbn in Hf. lia.
  - set (b := c :: p) in *. rewrite (proj2 (Z.leb_gt _ _)) by done. wp_step.
    eapply wp_mono; [by apply sys_write_takes|]. intros wd h1 [-> Hwd]. rewrite (proj2 (Z.eqb_neq wd 0)) by lia.
    rewrite u32_small, (proj2 (Z.leb_le wd _)) by lia. cbn [negb].
    eapply wp_mono; [apply IH; [done|rewrite length_drop; lia|rewrite length_drop; lia]|]. intros r h' [-> Hs]. split; [done|].
    rewrite <- (take_drop (Z.to_nat wd) b) at 1. eapply sent_bytes_trans; [apply sent_some; lia|exact Hs].
Qed.

Definition answer_ok (l : list Z) : bool := has_prefix (shown 128 l ++ [0]) (str "OK").

Lemma rs232_write_spec addr buf l more h :
  let request := (writeb_request addr (Z.of_nat (length buf)) ++ [10]) ++ buf in
  (forall h' b, 0 < ser_write h' b) -> Z.of_nat (length buf) < 2147483648 ->
  coming request h = l ++ 10 :: more -> 10 ∉ l -> (passes (32 + length buf + length l) <= ser_fuel)%nat ->
  wp (remote_rs232_write addr buf)
    (λ r h', r = (if answer_ok l then 1 else 0) /\ rest h' = more /\
       sent h' = sent h ++ request /\ got h' = got h ++ l ++ [10]) h.
Proof.
  intros request Hw Hb Hr Hl Hf. unfold remote_rs232_write. fold (writeb_request addr (Z.of_nat (length buf))). wp_step.
  eapply wp_mono; [apply send_command_spec; eapply passes_le; [|exact Hf];
    pose proof (proj2 (request_length addr (Z.of_nat (length buf)))); lia|].
  intros r h1 [-> H1]. cbn [Z.eqb]. wp_step.
  eapply wp_mono; [apply (write_data_loop_spec ser_fuel buf h1 Hw Hb)|]. { unfold passes in Hf. nia. }
  intros r h2 [-> H2]. cbn [negb]. wp_step. pose proof (sent_bytes_trans _ _ _ _ _ H1 H2) as H12. fold request in H12.
  eapply wp_mono; [apply (get_response_spec 128 1000000 l more);
    [lia|by rewrite (sent_bytes_rest _ _ _ H12)|done|eapply passes_le; [|exact Hf]; lia]|].
  intros r h3 [-> [Eg3 Er3 Es3]]. fold (answer_ok l). rewrite (sent_bytes_rest _ _ _ H12), Hr in Er3, Eg3.
  assert (rest h3 = more /\ sent h3 = sent h ++ request /\ got h3 = got h ++ l ++ [10]) as (E1 & E2 & E3).
  { split_and!; [by rewrite Er3, drop_line|rewrite Es3; apply H12|by rewrite Eg3, take_line, (sb_got _ _ _ H12)]. }
  destruct (answer_ok l); cbn [Z.eqb Pos.eqb negb]; by wp_step.
Qed.

Lemma command_spec cmd timeout after l more h Q :
  0 < timeout < 2000000000000 -> coming (cmd ++ [10]) h = l ++ 10 :: more -> 10 ∉ l ->
  (passes (length cmd + length l + 1) <= ser_fuel)%nat ->
  (forall h', rest h' = more -> sent h' = sent h ++ cmd ++ [10] -> got h' = got h ++ l ++ [10] ->
     if answer_ok l then wp (after (shown 128 l)) Q h' else Q 0 h') ->
  wp (rs232_command cmd timeout after) Q h.
Proof.
  intros Ht Hr Hl Hf HQ. unfold rs232_command. wp_step. eapply wp_mono; [apply send_command_spec; eapply passes_le; [|exact Hf]; lia|].
  intros r h1 [-> H1]. cbn [Z.eqb]. wp_step.
  eapply wp_mono; [apply (get_response_spec 128 timeout l more);
    [lia|by rewrite (sent_bytes_rest _ _ _ H1)|done|eapply passes_le; [|exact Hf]; lia]|].
  intros r h2 [-> [Eg2 Er2 Es2]]. fold (answer_ok l). rewrite (sent_bytes_rest _ _ _ H1), Hr in Er2, Eg2.
  rewrite drop_line in Er2. rewrite take_line, (sb_got _ _ _ H1) in Eg2.
  specialize (HQ h2 Er2 ltac:(rewrite Es2; apply H1) Eg2). destruct (answer_ok l); cbn [Z.eqb Pos.eqb negb]; [done|by wp_step].
Qed.


(** The commands that only expect an answer, with the line each one sends. *)
Definition simple_commands : list (list Z * S232 Z) :=
  [(str "8086", remote_rs232_8086); (str "286", remote_rs232_286); (str "386-16", remote_rs232_386_16);
   (str "386-32", remote_rs232_386_32); (str "x64", remote_rs232_x64)].

Lemma simple_command_spec cmd c l more h :
  (cmd, c) ∈ simple_commands -> coming (cmd ++ [10]) h = l ++ 10 :: more -> 10 ∉ l -> (passes (7 + length l) <= ser_fuel)%nat ->
  wp c (λ r h', r = (if answer_ok l then 1 else 0) /\ sent h' = sent h ++ cmd ++ [10]) h.
Proof.
  intros Hc Hr Hl Hf. assert (c = rs232_command cmd 1000000 (λ _, mret 1) /\ (length cmd <= 6)%nat) as [-> Hlen].
  { unfold simple_commands in Hc. rewrite !elem_of_cons, elem_of_nil in Hc.
    destruct Hc as [[= -> ->]|[[= -> ->]|[[= -> ->]|[[= -> ->]|[[= -> ->]|[]]]]]]; (split; [reflexivity|cbn; lia]). }
  eapply command_spec; [lia|exact Hr|done|eapply passes_le; [|exact Hf]; lia|]. intros h' _ Hs _.
  destruct (answer_ok l); [wp_step; done|done].
Qed.

End Line.

(** ** Any port, with a clock that runs *)

Section Clock.
Context `{SE : SerialEnv} (rate : Z) (Hrate : 0 < rate).

(** In [rate] system calls a second passes. *)
Hypothesis Hclock : forall h h', ser_time h + Z.of_nat (length h') / rate <= ser_time (h' ++ h).

Lemma put_char_ok len buf c :
  (length buf <= len - 1)%nat -> Forall (λ x, printable x = true) buf ->
  (length (put_char len buf c) <= len - 1)%nat /\ Forall (λ x, printable x = true) (put_char len buf c).
Proof.
  intros Hb Hp. unfold put_char. fold (printable c). destruct (printable c) eqn:Ec; [|done]. case_bool; [|done].
  apply Nat.ltb_lt in E. rewrite length_app. split; [cbn; lia|]. apply Forall_app_2; [done|by constructor].
Qed.

Lemma response_loop_ends fuel et len h0 : forall h' buf,
  (length buf <= len - 1)%nat -> Forall (λ x, printable x = true) buf ->
  rate * (et - ser_time h0) < Z.of_nat fuel + Z.of_nat (length h') ->
  (0 < fuel)%nat ->
  wp (response_loop fuel et len buf)
    (λ r _, (r.1 = -1 \/ r.1 = 0) /\ (length r.2 <= len - 1)%nat /\ Forall (λ x, printable x = true) r.2) (h' ++ h0).
Proof.
  induction fuel as [|fuel IH]; intros h' buf Hb Hp Hf Hpos; [lia|]. cbn [response_loop]. unfold sys_time. do 2 wp_step.
  case_bool; bool_to_prop; [wp_step; cbn; auto|]. pose proof (Hclock h0 h') as Hc.
  assert (Z.of_nat (length h') < rate * (et - ser_time h0)) as Hlt.
  { assert (Z.of_nat (length h') / rate < et - ser_time h0) as Hd by lia.
    pose proof (Z.mul_succ_div_gt (Z.of_nat (length h')) rate Hrate). nia. }
  wp_step. unfold sys_read, slog. do 2 wp_step. wp_step. wp_step. wp_step.
  set (r := take 1 <$> ser_read (h' ++ h0) 1). change (SRead r :: h' ++ h0) with ((SRead r :: h') ++ h0).
  destruct r as [[|c b]|].
  - wp_step. cbn. auto.
  - destruct (put_char_ok len buf c Hb Hp) as [Hb' Hp']. case_bool.
    + apply IH; try done; cbn [length]; lia.
    + wp_step. cbn. auto.
  - apply IH; try done; cbn [length]; lia.
Qed.

Lemma get_response_ends len timeout h :
  0 <= timeout < 18446744073708551616 -> rate * ((timeout + 999999) / 1000000 + 2) < Z.of_nat ser_fuel ->
  wp (remote_rs232_get_response len timeout)
    (λ r _, (r.1 = -1 \/ r.1 = 0 \/ (r.1 = 1 /\ has_prefix (r.2 ++ [0]) (str "OK") = true)) /\
       (length r.2 <= len - 1)%nat /\ Forall (λ x, printable x = true) r.2) h.
Proof.
  intros Ht Hf. unfold remote_rs232_get_response, sys_time, slog. do 4 wp_step. wp_step.
  unfold u64. rewrite Z.mod_small by lia. set (q := (timeout + 999999) / 1000000) in *.
  change (SNonblock true :: h) with ([SNonblock true] ++ h).
  assert (0 <= q) by (apply Z.div_pos; lia).
  eapply wp_mono; [apply (response_loop_ends ser_fuel _ len h [SNonblock true] []);
    [cbn; lia|constructor|cbn [length]; replace (ser_time h + q + 1 + 1 - ser_time h) with (q + 2) by lia; lia|nia]|].
  intros [ret buf] h' (Hret & Hl & Hp). cbn [fst snd] in *. wp_step. wp_step. wp_step. cbn [fst snd]. split_and!; [|done|done].
  destruct ((ret =? 0) && has_prefix (buf ++ [0]) (str "OK")) eqn:E; [|by destruct Hret; auto].
  apply andb_true_iff in E as [_ E]. auto.
Qed.

End Clock.

(** ** The properties *)

Section Properties.
Context `{SE : SerialEnv} (stream : list Z -> list Z) (k : nat) `{Line : !SerialLine stream k}.

(** C19: [remote_rs232_read] gets the target's bytes whatever the pieces in
    which the serial line delivers them and however often (up to [k] times in a
    row) its calls fail in between: the request line goes out whole, and exactly
    the bytes between "OK " and CR LF of the answer to it come back. *)
Theorem rs232_read_any_pieces addr count d more h :
  (forall h', ser_select h' = 1) -> 0 <= count < 4294967296 -> length d = Z.to_nat count ->
  coming stream (readb_request addr count ++ [10]) h = str "OK " ++ d ++ [13; 10] ++ more -> (passes k (31 + length d) <= ser_fuel)%nat ->
  exists h', remote_rs232_read addr count h = inr ((1, Some d), h') /\ rest stream h' = more /\
    sent h' = sent h ++ readb_request addr count ++ [10].
Proof.
  intros Hsel Hc Hd Hr Hf. pose proof (rs232_read_spec stream k addr count d more h Hsel Hc Hd Hr Hf) as Hw.
  apply wp_run in Hw as (r & h' & E & -> & Hw1 & Hw2 & _). by exists h'.
Qed.

(** [remote_rs232_write] sends the request line and then the buffer, whole
    and in order, in whatever pieces the port takes them, and returns 1 exactly
    when the answer line starts with "OK". *)
Theorem rs232_write_any_pieces addr buf l more h :
  (forall h' b, 0 < ser_write h' b) -> Z.of_nat (length buf) < 2147483648 ->
  coming stream ((writeb_request addr (Z.of_nat (length buf)) ++ [10]) ++ buf) h = l ++ 10 :: more -> 10 ∉ l -> (passes k (32 + length buf + length l) <= ser_fuel)%nat ->
  exists h', remote_rs232_write addr buf h = inr (if answer_ok l then 1 else 0, h') /\ rest stream h' = more /\
    sent h' = sent h ++ (writeb_request addr (Z.of_nat (length buf)) ++ [10]) ++ buf.
Proof.
  intros Hw Hb Hr Hl Hf. pose proof (rs232_write_spec stream k addr buf l more h Hw Hb Hr Hl Hf) as Hs.
  apply wp_run in Hs as (r & h' & E & -> & Hs1 & Hs2 & _). by exists h'.
Qed.

(** Bytes left over from before make [remote_rs232_read] report success
    without data: when the first three bytes are not "OK " but the line after
    them starts with "OK", as the real answer does, it returns 1 and stores
    nothing. *)
Theorem rs232_read_leftover_success addr count a l more h :
  (forall h', ser_select h' = 1) -> length a = 3%nat -> a <> str "OK " ->
  coming stream (readb_request addr count ++ [10]) h = a ++ l ++ 10 :: more -> 10 ∉ l -> answer_ok l = true -> (passes k (31 + length l) <= ser_fuel)%nat ->
  exists h', remote_rs232_read addr count h = inr ((1, None), h').
Proof.
  intros Hsel Ha Hne Hr Hl Hok Hf. pose proof (rs232_read_stale stream k addr count a l more h Hsel Ha Hne Hr Hl Hok Hf) as Hw.
  apply wp_run in Hw as (r & h' & E & -> & _). by exists h'.
Qed.

End Properties.

(** C34: [remote_rs232_get_response] returns for every behaviour of the port, by
    its deadline at the latest, and stores at most [len - 1] characters, none of
    them a control character; 1 means that they start with "OK". *)
Theorem rs232_response_bounded `{SE : SerialEnv} rate len timeout h :
  0 < rate -> (forall h h', ser_time h + Z.of_nat (length h') / rate <= ser_time (h' ++ h)) ->
  0 <= timeout < 18446744073708551616 -> rate * ((timeout + 999999) / 1000000 + 2) < Z.of_nat ser_fuel ->
  exists ret buf h', remote_rs232_get_response len timeout h = inr ((ret, buf), h') /\
    (ret = -1 \/ ret = 0 \/ (ret = 1 /\ has_prefix (buf ++ [0]) (str "OK") = true)) /\
    (length buf <= len - 1)%nat /\ Forall (λ x, printable x = true) buf.
Proof.
  intros Hr Hc Ht Hf. pose proof (get_response_ends rate Hr Hc len timeout h Ht Hf) as Hw.
  apply wp_run in Hw as ([ret buf] & h' & E & Hres). by exists ret, buf, h'.
Qed.

(** A failing write of the data aborts the program: after the request has
    been sent, a [write] that returns -1 fails [assert(wd <= r)], which compares
    unsigned numbers, where the other loops of the library try again. *)
Theorem rs232_write_error_aborts `{SE : SerialEnv} addr buf h h1 :
  remote_rs232_send_command (writeb_request addr (Z.of_nat (length buf))) h = inr (1, h1) ->
  buf <> [] -> Z.of_nat (length buf) < 2147483648 -> (0 < ser_fuel)%nat -> ser_write h1 buf = -1 ->
  remote_rs232_write addr buf h = inl Aborted.
Proof.
  intros E Hb Hl Hf Hw. unfold remote_rs232_write. fold (writeb_request addr (Z.of_nat (length buf))). run. rewrite E. cbn [Z.eqb].
  destruct ser_fuel as [|f]; [lia|]. destruct buf as [|c p]; [done|]. cbn [write_data_loop]. set (b := c :: p) in *.
  rewrite (proj2 (Z.leb_gt _ _)) by done. unfold sys_write, slog. run. rewrite Hw.
  replace (Z.max (-1) (Z.min (-1) (Z.of_nat (length b)))) with (-1) by lia. cbn [Z.eqb Pos.eqb].
  change (u32 (-1)) with 4294967295. by rewrite (proj2 (Z.leb_gt _ _)) by lia.
Qed.

(** [timeout_s*1000000] wraps: 4295 seconds are 32704 microseconds. *)
Lemma exec_timeout_wraps `{SE : SerialEnv} offset :
  remote_rs232_exec_off offset 4295 = rs232_command (str "EXEC " ++ fmt_llX offset) 32704 (λ _, mret 1).
Proof. reflexivity. Qed.

(** Eight data bits, one stop bit, receiver on; the other flags are kept. *)
Lemma raw_cflag_bits c n : 0 <= n ->
  Z.testbit (raw_cflag c) n =
    if (n =? 4) || (n =? 5) || (n =? 7) then true else if n =? 6 then false else Z.testbit c n.
Proof.
  intros Hn. unfold raw_cflag. rewrite !Z.lor_spec, !Z.land_spec, !Z.lor_spec, !Z.land_spec, !Z.lnot_spec by done.
  generalize (Z.testbit c n). intros b. destruct (decide (n < 8)) as [Hl|Hl].
  - assert (n = 0 \/ n = 1 \/ n = 2 \/ n = 3 \/ n = 4 \/ n = 5 \/ n = 6 \/ n = 7) as Hc by lia.
    destruct Hc as [->|[->|[->|[->|[->|[->|[->| ->]]]]]]]; by destruct b.
  - rewrite (Z.bits_above_log2 0x30 n), (Z.bits_above_log2 0x40 n), (Z.bits_above_log2 0x80 n) by (cbn; lia).
    rewrite !(proj2 (Z.eqb_neq n _)) by lia. by destruct b.
Qed.

(** ** A line that gives two bytes at a time *)

Definition pieces_env (stream : list Z) (wr : list Z -> Z) (time : list sevent -> Z) : SerialEnv := {|
  ser_read := λ h sz, match drop (length (got h)) stream with [] => None | l => Some (take (2 `min` sz) l) end;
  ser_write := λ _, wr;
  ser_select := λ _, 1;
  ser_time := time;
  ser_tcgetattr := λ _, Some 0;
  ser_raw := λ c, c;
  ser_tcsetattr := λ _ _, true;
  ser_fuel := 100
|}.

(** The port takes one byte at a time. *)
Lemma pieces_line stream : SerialLine (SE := pieces_env stream (λ _, 1) (λ _, 0)) (λ _, stream) 0.
Proof.
  split.
  - intros h sz Hsz Hlen. right. exists (2 `min` sz)%nat. split; [lia|]. cbn [ser_read pieces_env].
    destruct (drop (length (got h)) stream) eqn:E; [|done]. apply (f_equal length) in E. rewrite length_drop in E. cbn in E. lia.
  - intros h b. by right.
  - intros h h'. cbn. lia.
Qed.

Ltac not_in := repeat (apply not_elem_of_cons; split; [lia|]); apply not_elem_of_nil.

(** "OK ", three bytes, CR LF. *)
Definition read_answer_stream : list Z := [79; 75; 32; 1; 2; 3; 13; 10].

Lemma rs232_read_any_pieces_witness :
  exists h', remote_rs232_read (SE := pieces_env read_answer_stream (λ _, 1) (λ _, 0)) 4096 3 [] = inr ((1, Some [1; 2; 3]), h').
Proof.
  destruct (rs232_read_any_pieces (λ _, read_answer_stream) 0 (Line := pieces_line read_answer_stream) 4096 3 [1; 2; 3] [] [])
    as (h' & E & _); [reflexivity|lia|reflexivity|reflexivity|cbn; lia|].
  exists h'. exact E.
Defined.

(** "OK", LF. *)
Definition ok_stream : list Z := [79; 75; 10].

Lemma rs232_write_any_pieces_witness :
  exists h', remote_rs232_write (SE := pieces_env ok_stream (λ _, 1) (λ _, 0)) 4096 [1; 2; 3] [] = inr (1, h').
Proof.
  destruct (rs232_write_any_pieces (λ _, ok_stream) 0 (Line := pieces_line ok_stream) 4096 [1; 2; 3] [79; 75] [] [])
    as (h' & E & _); [reflexivity|cbn; lia|reflexivity|not_in|cbn; lia|].
  exists h'. exact E.
Defined.

(** A character and CR LF from before, then "OK d", LF. *)
Definition leftover_stream : list Z := [46; 13; 10; 79; 75; 32; 100; 10].

Lemma rs232_read_leftover_success_witness :
  exists h', remote_rs232_read (SE := pieces_env leftover_stream (λ _, 1) (λ _, 0)) 4096 3 [] = inr ((1, None), h').
Proof.
  destruct (rs232_read_leftover_success (λ _, leftover_stream) 0 (Line := pieces_line leftover_stream) 4096 3 [46; 13; 10] [79; 75; 32; 100] [] [])
    as (h' & E); [reflexivity|reflexivity|discriminate|reflexivity|not_in|reflexivity|cbn; lia|].
  exists h'. exact E.
Defined.

(** A silent port: every read fails, and a second passes in ten calls. *)
Lemma rs232_response_bounded_witness :
  exists ret buf h', remote_rs232_get_response (SE := pieces_env [] (λ _, 1) (λ h, Z.of_nat (length h) / 10)) 128 1000000 [] = inr ((ret, buf), h') /\
    (length buf <= 127)%nat.
Proof.
  destruct (rs232_response_bounded (SE := pieces_env [] (λ _, 1) (λ h, Z.of_nat (length h) / 10)) 10 128 1000000 [])
    as (ret & buf & h' & E & _ & Hl & _); [lia| |lia|vm_compute; reflexivity|].
  - intros h h'. cbn [ser_time pieces_env]. rewrite length_app, Nat2Z.inj_add. Z.div_mod_to_equations. lia.
  - exists ret, buf, h'. split; [exact E|exact Hl].
Defined.

(** A port that takes commands byte by byte but not the data. *)
Definition no_data (b : list Z) : Z := match b with 9 :: _ => -1 | _ => 1 end.

Lemma rs232_write_error_aborts_witness :
  remote_rs232_write (SE := pieces_env [] no_data (λ _, 0)) 4096 [9; 9] [] = inl Aborted.
Proof.
  eapply (rs232_write_error_aborts (SE := pieces_env [] no_data (λ _, 0)) 4096 [9; 9] []);
    [vm_compute; reflexivity|discriminate|cbn; lia|cbn; lia|reflexivity].
Defined.
