(* ===== verification/SerialTarget.v ===== *)
(** * A machine at the other end of the serial line

    What the programs over comm/s_lib.c rely on in the debugger they talk to:
    READB gives memory, WRITEB changes it, EXEC runs code, and every command is
    answered.  [SerialTarget] states it in terms of the bytes sent to the machine;
    [Reference] is a machine of that kind. *)

From S2P Require Import Prelude Machine Memory Text ELib SLib SLibSpec.

(** ** Memory behind address lines *)

(** The byte written last to the cell that [decode] selects. *)
Fixpoint poke (decode : Z -> Z) (addr : Z) (buf : list Z) (phys : Z -> Z) : Z -> Z :=
  match buf with
  | [] => phys
  | b :: buf' => poke decode (addr + 1) buf' (λ a, if a =? decode addr then b else phys a)
  end.

Definition peek (decode : Z -> Z) (phys : Z -> Z) (addr : Z) (n : nat) : list Z :=
  (λ i, phys (decode (addr + Z.of_nat i))) <$> seq 0 n.

Lemma length_peek decode phys addr n : length (peek decode phys addr n) = n.
Proof. unfold peek. by rewrite length_fmap, length_seq. Qed.

Lemma peek_ext decode p q addr n : (forall a, p a = q a) -> peek decode p addr n = peek decode q addr n.
Proof. intros E. unfold peek. apply list_fmap_ext. intros. apply E. Qed.

Lemma poke_ext decode buf : forall addr p q, (forall a, p a = q a) -> forall a, poke decode addr buf p a = poke decode addr buf q a.
Proof.
  induction buf as [|b buf IH]; intros addr p q E a; cbn [poke]; [apply E|]. apply IH. intros x. by rewrite E.
Qed.

Lemma poke_outside decode buf : forall addr phys a,
  (forall i, 0 <= i < Z.of_nat (length buf) -> a <> decode (addr + i)) -> poke decode addr buf phys a = phys a.
Proof.
  induction buf as [|b buf IH]; intros addr phys a Ha; cbn [poke]; [done|]. cbn [length] in Ha. rewrite IH.
  - rewrite (proj2 (Z.eqb_neq _ _)); [done|]. specialize (Ha 0). rewrite Z.add_0_r in Ha. apply Ha. lia.
  - intros i Hi. replace (addr + 1 + i) with (addr + (1 + i)) by lia. apply Ha. lia.
Qed.

(** Cells of a block that are all different. *)
Definition separate (decode : Z -> Z) (addr : Z) (n : nat) : Prop :=
  forall i j, 0 <= i < Z.of_nat n -> 0 <= j < Z.of_nat n -> decode (addr + i) = decode (addr + j) -> i = j.

Lemma peek_poke decode buf : forall addr phys,
  separate decode addr (length buf) -> peek decode (poke decode addr buf phys) addr (length buf) = buf.
Proof.
  induction buf as [|b buf IH]; intros addr phys Hs; [done|]. cbn [length poke].
  assert (separate decode (addr + 1) (length buf)) as Hs'.
  { intros i j Hi Hj E. assert (1 + i = 1 + j); [|lia]. apply Hs; cbn [length]; [lia|lia|].
    by replace (addr + (1 + i)) with (addr + 1 + i) by lia; replace (addr + (1 + j)) with (addr + 1 + j) by lia. }
  specialize (IH (addr + 1) (λ a, if a =? decode addr then b else phys a) Hs'). unfold peek in *.
  cbn [seq fmap list_fmap]. f_equal.
  - rewrite poke_outside; [by rewrite Z.add_0_r, Z.eqb_refl|]. intros i Hi E.
    assert (0 = 1 + i); [|lia]. apply Hs; cbn [length]; [lia|lia|]. by replace (addr + (1 + i)) with (addr + 1 + i) by lia.
  - rewrite <- IH at 2. rewrite <- fmap_S_seq, <- list_fmap_compose. apply list_fmap_ext. intros n x Hx. cbn. f_equal. f_equal. lia.
Qed.

(** A part of a block. *)
Lemma peek_part decode phys addr m n : take n (drop m (peek decode phys addr (m + n))) = peek decode phys (addr + Z.of_nat m) n.
Proof.
  unfold peek. rewrite <- fmap_drop, <- fmap_take, drop_seq, take_ge by (rewrite length_seq; lia).
  replace (m + n - m)%nat with n by lia. rewrite Nat.add_0_l.
  apply list_eq. intros i. rewrite !list_lookup_fmap. destruct (decide (i < n)%nat).
  - rewrite !lookup_seq_lt by lia. cbn. do 3 f_equal. lia.
  - by rewrite !lookup_seq_ge by lia.
Qed.

(** Storing back what was there undoes a store. *)
Lemma poke_restores decode addr xs phys a :
  separate decode addr (length xs) ->
  poke decode addr (peek decode phys addr (length xs)) (poke decode addr xs phys) a = phys a.
Proof.
  intros Hs. set (n := length xs). destruct (decide (a ∈ ((λ i, decode (addr + Z.of_nat i)) <$> seq 0 n))) as [Hin|Hout].
  - apply list_elem_of_fmap in Hin as (i & -> & Hi). apply elem_of_seq in Hi.
    pose proof (peek_poke decode (peek decode phys addr n) addr (poke decode addr xs phys)) as E.
    rewrite length_peek in E. specialize (E Hs). apply (f_equal (lookup i)) in E. unfold peek in E at 1 3.
    rewrite !list_lookup_fmap, !lookup_seq_lt in E by lia. cbn in E. by injection E.
  - assert (forall i, 0 <= i < Z.of_nat n -> a <> decode (addr + i)) as Ha.
    { intros i Hi ->. apply Hout, list_elem_of_fmap. exists (Z.to_nat i). split; [f_equal; lia|apply elem_of_seq; lia]. }
    rewrite !poke_outside; [done|done|by rewrite length_peek].
Qed.

(** Up to 64 address lines see an address and its lower 64 bits alike. *)
Lemma mod_u64 lines a i : 0 <= lines <= 64 -> (u64 a + i) mod 2 ^ lines = (a + i) mod 2 ^ lines.
Proof.
  intros Hl. unfold u64. rewrite (Z.add_mod (a mod _)), (Z.add_mod a) by (apply Z.pow_nonzero; lia). f_equal. f_equal.
  change 18446744073709551616 with (2 ^ 64). replace (2 ^ 64) with (2 ^ lines * 2 ^ (64 - lines)) by (rewrite <- Z.pow_add_r by lia; f_equal; lia).
  rewrite Z.rem_mul_r by (apply Z.pow_nonzero || apply Z.pow_pos_nonneg; lia).
  rewrite Z.mul_comm, Z.mod_add, Z.mod_mod by (apply Z.pow_nonzero; lia). done.
Qed.

(** ** The machine *)

Definition exec_off_request (offset : Z) : list Z := str "EXEC " ++ fmt_llX offset.
Definition exec_seg_request (segment offset : Z) : list Z := str "EXEC " ++ fmt_X segment ++ [32] ++ fmt_llX offset.
Definition mode_lines : list (list Z) := [str "8086"; str "286"; str "386-16"; str "386-32"; str "x64"].

(** Between two points of the host's output the machine has sent one line that
    starts with OK. *)
Definition answered (stream : list Z -> list Z) (w w' : list Z) : Prop :=
  exists l, stream w' = stream w ++ (l ++ [10]) /\ (10 ∉ l) /\ answer_ok l = true /\ (length l <= 100)%nat.

Class SerialTarget `{SE : SerialEnv} (stream : list Z -> list Z) (k : nat) : Type := {
  tg_line :: SerialLine stream k;
  tg_select h : ser_select h = 1;
  tg_takes h b : 0 < ser_write h b;
  tg_fuel : (passes k 4300 <= ser_fuel)%nat;
  tg_ready : list Z -> Prop;                 (* at the prompt after the bytes sent so far *)
  tg_decode : Z -> Z;                        (* the cell an address selects *)
  tg_phys : list Z -> Z -> Z;                (* the cells *)
  tg_read w addr n : tg_ready w -> 0 <= n <= 4096 ->
    let w' := w ++ readb_request addr n ++ [10] in
    stream w' = stream w ++ str "OK " ++ peek tg_decode (tg_phys w) addr (Z.to_nat n) ++ [13; 10] /\
    tg_ready w' /\ forall a, tg_phys w' a = tg_phys w a;
  tg_write w addr buf : tg_ready w -> (length buf <= 4096)%nat ->
    let w' := w ++ (writeb_request addr (Z.of_nat (length buf)) ++ [10]) ++ buf in
    answered stream w w' /\ tg_ready w' /\ forall a, tg_phys w' a = poke tg_decode addr buf (tg_phys w) a
}.

(** A machine that also runs code: [tg_exec] is what calling an address does to
    the cells.  The mode commands leave memory alone, and the answer to TEST is
    not the one that ends an EXEC. *)
Class ExecTarget `{SE : SerialEnv} (stream : list Z -> list Z) (k : nat) `{TG : !SerialTarget stream k} : Type := {
  tg_exec : Z -> (Z -> Z) -> Z -> Z;
  tg_exec_ext addr p q : (forall a, p a = q a) -> forall a, tg_exec addr p a = tg_exec addr q a;
  tg_mode w cmd : tg_ready w -> cmd ∈ mode_lines ->
    let w' := w ++ cmd ++ [10] in
    answered stream w w' /\ tg_ready w' /\ forall a, tg_phys w' a = tg_phys w a;
  tg_test w : tg_ready w ->
    let w' := w ++ str "TEST" ++ [10] in
    (exists l, stream w' = stream w ++ (l ++ [10]) /\ (10 ∉ l) /\ answer_ok l = true /\ (length l <= 100)%nat /\
       has_prefix_nocase (shown 128 l ++ [0]) (str "ok function") = false) /\
    tg_ready w' /\ forall a, tg_phys w' a = tg_phys w a;
  tg_exec_off w offset : tg_ready w -> 0 <= offset < 4294967296 ->
    let w' := w ++ exec_off_request offset ++ [10] in
    answered stream w w' /\ tg_ready w' /\ forall a, tg_phys w' a = tg_exec offset (tg_phys w) a;
  tg_exec_seg w segment offset : tg_ready w -> 0 <= segment < 65536 -> 0 <= offset < 65536 ->
    let w' := w ++ exec_seg_request segment offset ++ [10] in
    answered stream w w' /\ tg_ready w' /\ forall a, tg_phys w' a = tg_exec (16 * segment + offset) (tg_phys w) a
}.

Section Target.
Context `{SE : SerialEnv} (stream : list Z -> list Z) (k : nat) `{TG : !SerialTarget stream k}.

(** The host has read all answers. *)
Record synced (h : list sevent) : Prop := {
  sy_ready : tg_ready (sent h);
  sy_got : got h = stream (sent h)
}.

(** The machine's memory as the host left it. *)
Definition cells (h : list sevent) : Z -> Z := tg_phys (sent h).
Definition memory (h : list sevent) (addr : Z) (n : nat) : list Z := peek tg_decode (cells h) addr n.

Lemma synced_coming h w x : synced h -> stream (sent h ++ w) = stream (sent h) ++ x -> coming stream w h = x.
Proof. intros [_ Eg] E. unfold coming. by rewrite E, Eg, drop_app_length. Qed.

Lemma target_read addr n h :
  synced h -> 0 <= n <= 4096 ->
  wp (remote_rs232_read addr n)
    (λ r h', r = (1, Some (memory h addr (Z.to_nat n))) /\ synced h' /\ forall a, cells h' a = cells h a) h.
Proof.
  intros Hs Hn. destruct (tg_read (sent h) addr n (sy_ready _ Hs) Hn) as (E & Hr & Hp).
  eapply wp_mono.
  - apply (rs232_read_spec stream k addr n (memory h addr (Z.to_nat n)) []); [apply tg_select|lia|apply length_peek| |].
    + rewrite app_nil_r. by apply synced_coming.
    + unfold memory. rewrite length_peek. eapply passes_le; [|apply tg_fuel]. lia.
  - intros r h' (-> & _ & Es & Eg). split_and!; [done| |].
    + split; rewrite Es; [done|]. rewrite Eg, E. f_equal. apply Hs.
    + intros a. unfold cells. rewrite Es. apply Hp.
Qed.

Lemma target_write addr buf h :
  synced h -> (length buf <= 4096)%nat ->
  wp (remote_rs232_write addr buf)
    (λ r h', r = 1 /\ synced h' /\ forall a, cells h' a = poke tg_decode addr buf (cells h) a) h.
Proof.
  intros Hs Hn. destruct (tg_write (sent h) addr buf (sy_ready _ Hs) Hn) as ((l & E & Hl & Hok & Hlen) & Hr & Hp).
  eapply wp_mono.
  - apply (rs232_write_spec stream k addr buf l []); [apply tg_takes|lia| |done|].
    + rewrite (synced_coming h _ _ Hs E). done.
    + eapply passes_le; [|apply tg_fuel]. lia.
  - intros r h' (-> & _ & Es & Eg). rewrite Hok. split_and!; [done| |].
    + split; rewrite Es; [done|]. rewrite Eg, E. f_equal. apply Hs.
    + intros a. unfold cells. rewrite Es. apply Hp.
Qed.

Context `{XT : !ExecTarget stream k}.

(** A line that the machine answers. *)
Lemma target_command cmd timeout after l h (Q : Z -> list sevent -> Prop) :
  synced h -> 0 < timeout < 2000000000000 -> (length cmd <= 4000)%nat ->
  stream (sent h ++ cmd ++ [10]) = stream (sent h) ++ (l ++ [10]) -> 10 ∉ l -> answer_ok l = true -> (length l <= 100)%nat ->
  tg_ready (sent h ++ cmd ++ [10]) ->
  (forall h', synced h' -> sent h' = sent h ++ cmd ++ [10] -> wp (after (shown 128 l)) Q h') ->
  wp (rs232_command cmd timeout after) Q h.
Proof.
  intros Hs Ht Hc E Hl Hok Hlen Hr HQ. eapply (command_spec stream k cmd timeout after l []); [done| |done| |].
  - by rewrite (synced_coming h _ _ Hs E).
  - eapply passes_le; [|apply tg_fuel]. lia.
  - intros h' _ Es Eg. rewrite Hok. apply HQ; [|done]. split; rewrite Es; [done|]. rewrite Eg, E. f_equal. apply Hs.
Qed.

Lemma target_answered cmd timeout h (q : Z -> Z) :
  synced h -> 0 < timeout < 2000000000000 -> (length cmd <= 4000)%nat ->
  let w' := sent h ++ cmd ++ [10] in
  (answered stream (sent h) w' /\ tg_ready w' /\ forall a, tg_phys w' a = q a) ->
  wp (rs232_command cmd timeout (λ _, mret 1)) (λ r h', r = 1 /\ synced h' /\ forall a, cells h' a = q a) h.
Proof.
  intros Hs Ht Hc w' ((l & E & Hl & Hok & Hlen) & Hr & Hp). eapply target_command; [done|done|done|exact E|done|done|done|done|].
  intros h' Hs' Es. wp_step. split_and!; [done|done|]. intros a. unfold cells. rewrite Es. apply Hp.
Qed.

Lemma target_test h :
  synced h -> wp remote_rs232_test (λ r h', r = 1 /\ synced h' /\ forall a, cells h' a = cells h a) h.
Proof.
  intros Hs. destruct (tg_test (sent h) (sy_ready _ Hs)) as ((l & E & Hl & Hok & Hlen & Hf) & Hr & Hp).
  eapply target_command; [done|lia|cbn; lia|exact E|done|done|done|done|].
  intros h' Hs' Es. rewrite Hf. wp_step. split_and!; [done|done|]. intros a. unfold cells. rewrite Es. apply Hp.
Qed.

Lemma target_mode cmd h :
  cmd ∈ mode_lines -> synced h ->
  wp (rs232_command cmd 1000000 (λ _, mret 1)) (λ r h', r = 1 /\ synced h' /\ forall a, cells h' a = cells h a) h.
Proof.
  intros Hc Hs. apply target_answered; [done|lia| |apply tg_mode; [apply Hs|done]].
  assert (length cmd <= 10)%nat; [|lia]. revert Hc. unfold mode_lines. rewrite !elem_of_cons, elem_of_nil.
  intros [->|[->|[->|[->|[->|[]]]]]]; cbn; lia.
Qed.

Lemma exec_request_length segment offset :
  (length (exec_off_request offset) <= 30)%nat /\ (length (exec_seg_request segment offset) <= 30)%nat.
Proof.
  pose proof (fmt_hex_length 16 (u64 offset)). pose proof (fmt_hex_length 8 (u32 segment)).
  unfold exec_off_request, exec_seg_request, fmt_llX, fmt_X. rewrite !length_app. change (length (str "EXEC ")) with 5%nat.
  cbn [length]. lia.
Qed.

Lemma target_exec_off offset h :
  synced h -> 0 <= offset < 4294967296 ->
  wp (remote_rs232_exec_off offset 10) (λ r h', r = 1 /\ synced h' /\ forall a, cells h' a = tg_exec offset (cells h) a) h.
Proof.
  intros Hs Ho. pose proof (exec_request_length 0 offset). apply target_answered; [done|by vm_compute|unfold exec_off_request in *; lia|].
  apply tg_exec_off; [apply Hs|done].
Qed.

Lemma target_exec_seg segment offset h :
  synced h -> 0 <= segment < 65536 -> 0 <= offset < 65536 ->
  wp (remote_rs232_exec_seg_off segment offset 10)
    (λ r h', r = 1 /\ synced h' /\ forall a, cells h' a = tg_exec (16 * segment + offset) (cells h) a) h.
Proof.
  intros Hs Hg Ho. pose proof (exec_request_length segment offset). apply target_answered; [done|by vm_compute|unfold exec_seg_request in *; lia|].
  apply tg_exec_seg; [apply Hs|done|done].
Qed.

End Target.

(** ** A reference machine

    [lines] address lines, the twenty-first of them masked while [gate] is
    false; memory holds [start] at first, and EXEC of an address does [code] to
    it. *)

Module Reference.

Record state : Type := mkState {
  line : list Z;                             (* the command so far *)
  pending : option (Z * nat * list Z);       (* WRITEB: address, count, bytes so far *)
  phys : Z -> Z;
  out : list Z
}.

Section Reference.
Context (lines : Z) (gate : bool) (start : Z -> Z) (code : Z -> (Z -> Z) -> Z -> Z) (Hlines : 0 <= lines <= 64).

Definition decode (a : Z) : Z := let a := a mod 2 ^ lines in if gate then a else Z.clearbit a 20.

(** The two numbers of a command. *)
Definition numbers (l : list Z) : Z * Z :=
  let '(addr, l) := strtoull16 l in let '(count, _) := strtoull16 (drop 1 l) in (addr, count).

(** The address of EXEC: an offset, or a segment and an offset. *)
Definition entry (l : list Z) : Z :=
  match strtoull16 l with
  | (segment, 32 :: l') => 16 * segment + (strtoull16 l').1
  | (offset, _) => offset
  end.

Definition ok_line : list Z := str "OK" ++ [10].

Definition stored (addr : Z) (buf : list Z) (st : state) : state :=
  mkState [] None (poke decode addr buf (phys st)) (out st ++ ok_line).

Definition command (st : state) (l : list Z) : state :=
  if bool_decide (take 6 l = str "READB ") then
    let '(addr, count) := numbers (drop 6 l) in
    mkState [] None (phys st) (out st ++ str "OK " ++ peek decode (phys st) addr (Z.to_nat count) ++ [13; 10])
  else if bool_decide (take 7 l = str "WRITEB ") then
    let '(addr, count) := numbers (drop 7 l) in
    if count =? 0 then stored addr [] st else mkState [] (Some (addr, Z.to_nat count, [])) (phys st) (out st)
  else if bool_decide (take 5 l = str "EXEC ") then
    mkState [] None (code (entry (drop 5 l)) (phys st)) (out st ++ ok_line)
  else mkState [] None (phys st) (out st ++ ok_line).

Definition step (st : state) (b : Z) : state :=
  match pending st with
  | Some (addr, n, acc) =>
      let acc := acc ++ [b] in
      if (n <=? length acc)%nat then stored addr acc st else mkState [] (Some (addr, n, acc)) (phys st) (out st)
  | None => if b =? 10 then command st (line st) else mkState (line st ++ [b]) None (phys st) (out st)
  end.

Definition run (st : state) (w : list Z) : state := fold_left step w st.
Definition after (w : list Z) : state := run (mkState [] None start []) w.
Definition stream (w : list Z) : list Z := out (after w).
Definition ready (w : list Z) : Prop := line (after w) = [] /\ pending (after w) = None.

Lemma after_app w v : after (w ++ v) = run (after w) v.
Proof. apply fold_left_app. Qed.

Lemma decode_u64 a i : decode (u64 a + i) = decode (a + i).
Proof. unfold decode. by rewrite mod_u64 by lia. Qed.

Lemma peek_u64 p a n : peek decode p (u64 a) n = peek decode p a n.
Proof. unfold peek. apply list_fmap_ext. intros i x _. by rewrite decode_u64. Qed.

Lemma poke_u64 buf : forall d a p x, poke decode (u64 a + d) buf p x = poke decode (a + d) buf p x.
Proof.
  induction buf as [|b buf IH]; intros d a p x; cbn [poke]; [done|]. rewrite <- !Z.add_assoc, IH. apply poke_ext.
  intros y. by rewrite decode_u64.
Qed.

(** A decidable fact about constants. *)
Ltac vm_decide := refine (bool_decide_unpack _ _); vm_compute; exact I.

(** *** Commands as the host prints them *)

Lemma run_line v : forall st,
  pending st = None -> 10 ∉ v -> run st (v ++ [10]) = command (mkState (line st ++ v) None (phys st) (out st)) (line st ++ v).
Proof.
  induction v as [|c v IH]; intros st Hp Hv; unfold run in *; cbn [app fold_left].
  - unfold step. rewrite Hp. cbn [Z.eqb Pos.eqb]. rewrite app_nil_r. destruct st; cbn in *. by subst.
  - apply not_elem_of_cons in Hv as [Hc Hv]. rewrite IH; [|unfold step; rewrite Hp; by rewrite (proj2 (Z.eqb_neq c 10))|done].
    unfold step. rewrite Hp, (proj2 (Z.eqb_neq c 10)) by done. cbn [line phys out]. by rewrite <- app_assoc.
Qed.

Lemma hex_no_newline l x : hex_number l x -> 10 ∉ l.
Proof. intros [Hd _ _] Hin. rewrite Forall_forall in Hd. destruct (Hd 10 Hin) as [_ Hr]. lia. Qed.

Lemma llX_number x : hex_number (fmt_llX x) (u64 x).
Proof. unfold fmt_llX. apply (fmt_hex_number 15). unfold u64. apply Z.mod_pos_bound. done. Qed.

Lemma numbers_printed addr n : 0 <= n < 4294967296 -> numbers (fmt_llX addr ++ [32] ++ fmt_X n) = (u64 addr, n).
Proof.
  intros Hn. unfold numbers. assert (u64 addr < 18446744073709551616) by (unfold u64; apply Z.mod_pos_bound; done).
  unfold strtoull16. rewrite (strtou16_number _ _ (u64 addr)); [|apply llX_number|lia|done].
  cbn [app drop]. rewrite drop_0, <- (app_nil_r (fmt_X n)) at 1. by rewrite (strtou16_number _ _ n); [|by apply fmt_X_number|lia|].
Qed.

Lemma request_no_newline word addr n : 10 ∉ str word -> 0 <= n < 4294967296 -> 10 ∉ str word ++ fmt_llX addr ++ [32] ++ fmt_X n.
Proof.
  intros Hw Hn. rewrite !elem_of_app. intros [?|[Hin|[Hin|Hin]]]; [done| | |].
  - by apply (hex_no_newline _ _ (llX_number addr)) in Hin.
  - apply list_elem_of_singleton in Hin. lia.
  - by apply (hex_no_newline _ _ (fmt_X_number n Hn)) in Hin.
Qed.

Lemma run_read st addr n :
  line st = [] -> pending st = None -> 0 <= n < 4294967296 ->
  run st (readb_request addr n ++ [10]) =
    mkState [] None (phys st) (out st ++ str "OK " ++ peek decode (phys st) addr (Z.to_nat n) ++ [13; 10]).
Proof.
  intros El Ep Hn. rewrite run_line; [|done|apply request_no_newline; [by vm_decide|done]].
  rewrite El. cbn [app]. unfold command. change (take 6 (readb_request addr n)) with (str "READB ").
  rewrite bool_decide_eq_true_2 by done. change (drop 6 (readb_request addr n)) with (fmt_llX addr ++ [32] ++ fmt_X n).
  rewrite numbers_printed by done. cbn [phys out]. by rewrite peek_u64.
Qed.

Lemma run_pending buf : forall st addr n acc,
  pending st = Some (addr, n, acc) -> n = (length acc + length buf)%nat -> buf <> [] ->
  run st buf = stored addr (acc ++ buf) st.
Proof.
  induction buf as [|b buf IH]; intros st addr n acc Hp Hn Hb; [done|]. unfold run in *. cbn [fold_left length] in *.
  assert (step st b = if (n <=? length (acc ++ [b]))%nat then stored addr (acc ++ [b]) st
                      else mkState [] (Some (addr, n, acc ++ [b])) (phys st) (out st)) as -> by (unfold step; by rewrite Hp).
  rewrite length_app. cbn [length]. destruct buf as [|b' buf].
  - rewrite (proj2 (Nat.leb_le _ _)) by (cbn in Hn; lia). done.
  - rewrite (proj2 (Nat.leb_gt _ _)) by (cbn in Hn; lia).
    rewrite (IH _ addr n (acc ++ [b])); [|done|rewrite length_app; cbn in *; lia|done]. by rewrite <- app_assoc.
Qed.

Lemma run_write st addr buf :
  line st = [] -> pending st = None -> Z.of_nat (length buf) < 4294967296 ->
  run st ((writeb_request addr (Z.of_nat (length buf)) ++ [10]) ++ buf) = stored (u64 addr) buf st.
Proof.
  intros El Ep Hn. unfold run. rewrite fold_left_app. fold (run st (writeb_request addr (Z.of_nat (length buf)) ++ [10])).
  rewrite run_line; [|done|apply request_no_newline; [by vm_decide|lia]].
  rewrite El. cbn [app]. unfold command. set (n := Z.of_nat (length buf)) in *.
  rewrite bool_decide_eq_false_2 by done. change (take 7 (writeb_request addr n)) with (str "WRITEB ").
  rewrite bool_decide_eq_true_2 by done. change (drop 7 (writeb_request addr n)) with (fmt_llX addr ++ [32] ++ fmt_X n).
  rewrite numbers_printed by lia. cbn [phys out]. destruct buf as [|b buf]; [done|].
  rewrite (proj2 (Z.eqb_neq n 0)) by (subst n; cbn; lia).
  match goal with |- fold_left step _ ?s = _ => exact (run_pending (b :: buf) s _ _ [] eq_refl ltac:(subst n; cbn; lia) ltac:(done)) end.
Qed.

(** *** The line and the laws *)

#[local] Instance env : SerialEnv := {|
  ser_read := λ h sz, match drop (length (got h)) (stream (sent h)) with [] => None | l => Some (take sz l) end;
  ser_write := λ _ b, Z.of_nat (length b) + 1;
  ser_select := λ _, 1;
  ser_time := λ _, 0;
  ser_tcgetattr := λ _, Some 0;
  ser_raw := λ c, c;
  ser_tcsetattr := λ _ _, true;
  ser_fuel := Z.to_nat 4301
|}.

#[local] Instance serial_line : SerialLine stream 0.
Proof.
  split.
  - intros h sz Hsz Hlen. right. exists sz. split; [lia|]. cbn [ser_read env].
    destruct (drop (length (got h)) (stream (sent h))) as [|c l] eqn:E; [|done].
    apply (f_equal length) in E. rewrite length_drop in E. cbn in E. lia.
  - intros h b. right. cbn. lia.
  - intros h h' _. cbn. lia.
Qed.

Lemma target_reads w addr n : ready w -> 0 <= n <= 4096 ->
  let w' := w ++ readb_request addr n ++ [10] in
  stream w' = stream w ++ str "OK " ++ peek decode (phys (after w)) addr (Z.to_nat n) ++ [13; 10] /\
  ready w' /\ forall a, phys (after w') a = phys (after w) a.
Proof. intros [El Ep] Hn w'. unfold stream, ready, w'. rewrite after_app, run_read by (done || lia). done. Qed.

Lemma ok_answered w w' : out (after w') = out (after w) ++ ok_line -> answered stream w w'.
Proof. intros E. exists (str "OK"). split_and!; [exact E|vm_decide|done|cbn; lia]. Qed.

Lemma target_writes w addr buf : ready w -> (length buf <= 4096)%nat ->
  let w' := w ++ (writeb_request addr (Z.of_nat (length buf)) ++ [10]) ++ buf in
  answered stream w w' /\ ready w' /\ forall a, phys (after w') a = poke decode addr buf (phys (after w)) a.
Proof.
  intros [El Ep] Hn w'. assert (after w' = stored (u64 addr) buf (after w)) as Ew by (unfold w'; rewrite after_app; apply run_write; done || lia).
  split_and!; [apply ok_answered; by rewrite Ew|by split; rewrite Ew|].
  - intros a. rewrite Ew. cbn [phys stored]. pose proof (poke_u64 buf 0 addr (phys (after w)) a) as E. by rewrite !Z.add_0_r in E.
Qed.

#[local] Instance target : SerialTarget stream 0.
Proof.
  refine {| tg_ready := ready; tg_decode := decode; tg_phys := λ w, phys (after w);
            tg_read := target_reads; tg_write := target_writes |}.
  - done.
  - intros h b. cbn. lia.
  - cbn [ser_fuel env]. unfold passes. lia.
Defined.

(** *** Code *)

Lemma run_exec st request a :
  line st = [] -> pending st = None -> 10 ∉ request -> entry request = a ->
  run st ((str "EXEC " ++ request) ++ [10]) = mkState [] None (code a (phys st)) (out st ++ ok_line).
Proof.
  intros El Ep Hn <-. rewrite run_line; [|done|rewrite elem_of_app; intros [Hin|Hin]; [by revert Hin; vm_decide|done]].
  rewrite El. cbn [app]. unfold command. change (take 6 (str "EXEC " ++ request)) with (str "EXEC " ++ take 1 request).
  change (take 7 (str "EXEC " ++ request)) with (str "EXEC " ++ take 2 request).
  rewrite (bool_decide_eq_false_2 (_ = str "READB ")), (bool_decide_eq_false_2 (_ = str "WRITEB ")) by done.
  change (take 5 (str "EXEC " ++ request)) with (str "EXEC "). rewrite bool_decide_eq_true_2 by done. done.
Qed.

Lemma run_mode st cmd :
  line st = [] -> pending st = None -> cmd ∈ str "TEST" :: mode_lines -> run st (cmd ++ [10]) = mkState [] None (phys st) (out st ++ ok_line).
Proof.
  intros El Ep Hc. unfold mode_lines in Hc. rewrite !elem_of_cons, elem_of_nil in Hc.
  destruct Hc as [->|[->|[->|[->|[->|[->|[]]]]]]]; (rewrite run_line; [|done|by vm_decide]); rewrite El; reflexivity.
Qed.

Lemma strtoull16_llX x rest :
  match rest with c :: _ => is_hex c = false /\ c <> 120 /\ c <> 88 | [] => True end ->
  strtoull16 (fmt_llX x ++ rest) = (u64 x, rest).
Proof.
  intros Hr. apply strtou16_number; [apply llX_number| |done]. assert (u64 x < 18446744073709551616) by (apply Z.mod_pos_bound; done). lia.
Qed.

Lemma entry_off offset : 0 <= offset < 4294967296 -> entry (fmt_llX offset) = offset.
Proof.
  intros Ho. unfold entry. rewrite <- (app_nil_r (fmt_llX offset)), strtoull16_llX by done. unfold u64. by rewrite Z.mod_small by lia.
Qed.

Lemma entry_seg segment offset :
  0 <= segment < 65536 -> 0 <= offset < 65536 -> entry (fmt_X segment ++ [32] ++ fmt_llX offset) = 16 * segment + offset.
Proof.
  intros Hs Ho. unfold entry. unfold strtoull16 at 1. rewrite (strtou16_number _ _ segment); [|apply fmt_X_number; lia|lia|done].
  cbn [app]. rewrite <- (app_nil_r (fmt_llX offset)), strtoull16_llX by done. cbn [fst]. unfold u64. by rewrite Z.mod_small by lia.
Qed.

Lemma exec_no_newline l : Forall (λ c, is_hex c = true \/ c = 32) l -> 10 ∉ l.
Proof. intros Hl Hin. rewrite Forall_forall in Hl. by destruct (Hl 10 Hin). Qed.

Lemma hex_exec l x : hex_number l x -> Forall (λ c, is_hex c = true \/ c = 32) l.
Proof. intros [Hd _ _]. eapply Forall_impl; [exact Hd|]. intros c [Hc _]. by left. Qed.

Context (Hcode : forall addr p q, (forall a, p a = q a) -> forall a, code addr p a = code addr q a).

#[local] Instance exec_target : ExecTarget (TG := target) stream 0.
Proof.
  refine {| tg_exec := code; tg_exec_ext := Hcode |}.
  - intros w cmd [El Ep] Hc w'. assert (after w' = mkState [] None (phys (after w)) (out (after w) ++ ok_line)) as E.
    { unfold w'. rewrite after_app. apply run_mode; [done|done|by right]. }
    split_and!; [apply ok_answered; by rewrite E|by split; rewrite E|]. intros a. cbn [tg_phys target]. by rewrite E.
  - intros w [El Ep] w'. assert (after w' = mkState [] None (phys (after w)) (out (after w) ++ ok_line)) as E.
    { unfold w'. rewrite after_app. apply run_mode; [done|done|by left]. }
    split_and!; [|by split; rewrite E|intros a; cbn [tg_phys target]; by rewrite E].
    exists (str "OK"). split_and!; [unfold stream; by rewrite E|vm_decide|done|cbn; lia|done].
  - intros w offset [El Ep] Ho w'. assert (after w' = mkState [] None (code offset (phys (after w))) (out (after w) ++ ok_line)) as E.
    { unfold w', exec_off_request. rewrite after_app. apply run_exec; [done|done| |by apply entry_off].
      apply exec_no_newline, (hex_exec _ _ (llX_number offset)). }
    split_and!; [apply ok_answered; by rewrite E|by split; rewrite E|]. intros a. cbn [tg_phys target]. by rewrite E.
  - intros w segment offset [El Ep] Hs Ho w'.
    assert (after w' = mkState [] None (code (16 * segment + offset) (phys (after w))) (out (after w) ++ ok_line)) as E.
    { unfold w', exec_seg_request. rewrite after_app. apply run_exec; [done|done| |by apply entry_seg].
      apply exec_no_newline, Forall_app. split; [apply (hex_exec _ segment), fmt_X_number; lia|].
      constructor; [by right|]. apply (hex_exec _ _ (llX_number offset)). }
    split_and!; [apply ok_answered; by rewrite E|by split; rewrite E|]. intros a. cbn [tg_phys target]. by rewrite E.
Defined.

Lemma synced_start : synced stream 0 [].
Proof. by split. Qed.

End Reference.
End Reference.
