(* ===== verification/Debugger.v ===== *)
(** * The serial debugger (stage2-8086.asm, -286, -386-16, -386-32, -x64)

    The program at the other end of the line of comm/s_lib.c: it reads a command
    from a UART, works on memory and answers.  Each CPU mode has its own copy of
    the same assembly text, with other registers and another way to reach memory;
    the common text is modelled once, over a record [flavour] of what differs.
    Routines take and return the registers they use; a carry flag that decides a
    jump is a [bool].  The code and its constant strings are not part of memory;
    everything the code stores to is. *)

From S2P Require Import Prelude.

(** ** The machine *)

Inductive cpu_mode : Type := Mode8086 | Mode286 | Mode386_16 | Mode386_32 | ModeX64.

#[export] Instance cpu_mode_eq_dec : EqDecision cpu_mode.
Proof. solve_decision. Defined.

Record debugger : Type := mkDbg {
  d_phys : Z -> Z;             (* the cells of memory *)
  d_rx : list Z;               (* the bytes the line delivers, the next one first *)
  d_tx : list Z;               (* the bytes sent *)
  d_looks : nat;               (* reads of the line status register *)
  d_ports : list (Z * Z);      (* other port writes, latest first *)
  d_mode : cpu_mode
}.

Definition set_d_phys (v : Z -> Z) (s : debugger) : debugger := mkDbg v (d_rx s) (d_tx s) (d_looks s) (d_ports s) (d_mode s).
Definition set_d_rx (v : list Z) (s : debugger) : debugger := mkDbg (d_phys s) v (d_tx s) (d_looks s) (d_ports s) (d_mode s).
Definition set_d_tx (v : list Z) (s : debugger) : debugger := mkDbg (d_phys s) (d_rx s) v (d_looks s) (d_ports s) (d_mode s).
Definition set_d_looks (v : nat) (s : debugger) : debugger := mkDbg (d_phys s) (d_rx s) (d_tx s) v (d_ports s) (d_mode s).
Definition set_d_ports (v : list (Z * Z)) (s : debugger) : debugger := mkDbg (d_phys s) (d_rx s) (d_tx s) (d_looks s) v (d_mode s).
Definition set_d_mode (v : cpu_mode) (s : debugger) : debugger := mkDbg (d_phys s) (d_rx s) (d_tx s) (d_looks s) (d_ports s) v.

Abbreviation D := (SM debugger).

(** The hardware around the processor. *)
Class Board : Type := {
  bus : Z -> Z;                                     (* the cell an address on the bus selects *)
  uart : Z;                                         (* the ports of the UART start here *)
  lsr_data : nat -> bool;                           (* has a byte arrived by this look, if there is one? *)
  lsr_other : nat -> Z;                             (* the other bits of the line status *)
  other_in : Z -> Z;                                (* what other ports give *)
  user_code : cpu_mode -> Z -> (Z -> Z) -> Z -> Z;  (* what calling an address does to memory *)
  dbg_fuel : nat                                    (* passes of waits and scans *)
}.

(** Where the linker puts the variables. *)
Class Image : Type := {
  in_buf : Z;
  comport : Z;
  inited : Z;
  command_exec_far_ptr : Z;
  gdt_table : Z;
  gdtr : Z;
  gdtr_old : Z;
  idtr_realmode : Z;
  realmode_286 : Z;            (* the label .realmode of stage2-286.asm *)
  last_byte : Z;
  with_x64 : bool              (* linked with stage2-x64, or with its stub? *)
}.

Definition IN_BUF_SIZE : Z := 256.
Definition BAUD_DIVISOR : Z := 115200 / 38400.
Definition GDT_ENTRIES : Z := 32.
Definition CODE_SELECTOR : Z := 0x08.
Definition DATA_SELECTOR : Z := 0x10.
Definition ACCESS_SELECTOR : Z := 0x18.
Definition USER_CODE_SELECTOR : Z := 0x20.

Definition hexdigits : list Z := str "0123456789ABCDEF".
Definition crlf : list Z := [13; 10].
Definition ok_head : list Z := str "OK ".
Definition err_head : list Z := str "ERR ".
Definition address_invalid_msg : list Z := str "Invalid address".
Definition unknown_command_msg : list Z := str "Unknown command" ++ crlf.
Definition write_complete_msg : list Z := str "Accepted".
Definition exec_complete_msg : list Z := str "Function complete".
Definition test_response : list Z := str "Test successful".

Section Debugger.
Context `{BD : Board} `{IM : Image}.

(** *** Memory and ports *)

Definition ld8 (a : Z) : D Z := gets (λ s, d_phys s (bus a)).
Definition st8 (a v : Z) : D unit := modify (λ s, set_d_phys (λ x, if x =? bus a then v else d_phys s x) s).
Definition ld16 (a : Z) : D Z := lo ← ld8 a; hi ← ld8 (a + 1); mret (lo + 256 * hi).
Definition st16 (a v : Z) : D unit := st8 a (u8 v) ;; st8 (a + 1) (u8 (Z.shiftr v 8)).
Definition st32 (a v : Z) : D unit := st16 a (u16 v) ;; st16 (a + 2) (u16 (Z.shiftr v 16)).

(** The divisor latch is in front of the first two registers while bit 7 of the
    line control register is set. *)
Definition dlab (ports : list (Z * Z)) : bool :=
  match List.find (λ pv, fst pv =? uart + 3) ports with Some (_, v) => Z.testbit v 7 | None => false end.

(** Bit 0: a byte has been received; bits 5 and 6: the transmitter is empty. *)
Definition line_status : D Z :=
  n ← gets d_looks;
  waiting ← gets (λ s, match d_rx s with [] => false | _ => true end);
  modify (set_d_looks (S n)) ;;
  mret (Z.lor (Z.land (lsr_other n) 0xFE) (if lsr_data n && waiting then 1 else 0)).

Definition receive_buffer : D Z :=
  l ← gets d_rx;
  match l with
  | [] => mret 0
  | b :: l => modify (set_d_rx l) ;; mret b
  end.

Definition in_byte (port : Z) : D Z :=
  ports ← gets d_ports;
  if port =? uart + 5 then line_status
  else if (port =? uart) && negb (dlab ports) then receive_buffer
  else mret (other_in port).
Definition out_byte (port v : Z) : D unit :=
  ports ← gets d_ports;
  if (port =? uart) && negb (dlab ports) then modify (λ s, set_d_tx (d_tx s ++ [v]) s)
  else modify (set_d_ports ((port, v) :: ports)).

(** *** The serial port *)

(** [in al,dx; test al,mask; jz]. *)
Fixpoint wait_status (fuel : nat) (port mask : Z) : D unit :=
  match fuel with
  | O => halt NoReturn
  | S f => al ← in_byte port; if Z.land al mask =? 0 then wait_status f port mask else skip
  end.

Definition com_char_in : D Z :=
  dx ← ld16 comport;
  wait_status dbg_fuel (u16 (dx + 5)) 1 ;;
  in_byte dx.

Definition com_char_out (al : Z) : D unit :=
  dx ← ld16 comport;
  wait_status dbg_fuel (u16 (dx + 5)) 0x60 ;;
  dx ← ld16 comport;
  out_byte dx al.

Fixpoint com_str_out (l : list Z) : D unit :=
  match l with
  | [] => skip
  | al :: l => com_char_out al ;; com_str_out l
  end.

Definition com_puthex_digit (al : Z) : D unit := com_char_out (nth (Z.to_nat (Z.land al 15)) hexdigits 0).

(** [n] times: rotate the register of [4 * w] bits left by a digit and print the
    lowest one. *)
Fixpoint rol_out (w : Z) (n : nat) (x : Z) : D unit :=
  match n with
  | O => skip
  | S n =>
      let x := Z.lor (Z.shiftl x 4 mod 16 ^ w) (Z.shiftr x (4 * (w - 1))) in
      com_puthex_digit x ;; rol_out w n x
  end.
Definition com_hex8_out (al : Z) : D unit := rol_out 2 2 al.
Definition com_hex_out (w : nat) (x : Z) : D unit := rol_out (Z.of_nat w) w x.

(** *** Scanning the command *)

(** The byte at [si] as a digit ([None] for CF=1), and [si] behind it. *)
Definition strtohex_getdigit (word si : Z) : D (option Z * Z) :=
  al ← ld8 si;
  let si := (si + 1) mod word in
  if al <? 48 then mret (None, si) else
  if al <=? 57 then mret (Some (al - 48), si) else
  let al := Z.lor al 0x20 in
  if al <? 97 then mret (None, si) else
  if 102 <? al then mret (None, si) else
  mret (Some (al - (97 - 10)), si).

Fixpoint strtohex_loop (word : Z) (fuel : nat) (ax si : Z) : D (Z * Z) :=
  match fuel with
  | O => halt NoReturn
  | S f =>
      '(digit, si) ← strtohex_getdigit word si;
      match digit with
      | None => mret (ax, si)
      | Some bl => strtohex_loop word f (Z.lor (Z.shiftl ax 4 mod word) bl) si
      end
  end.
Definition strtohex (word si : Z) : D (Z * Z) := strtohex_loop word dbg_fuel 0 si.

(** The 32-bit number of the 16-bit files, in DX:AX. *)
Fixpoint strtohex_32_loop (fuel : nat) (dx ax si : Z) : D (Z * Z * Z) :=
  match fuel with
  | O => halt NoReturn
  | S f =>
      '(digit, si) ← strtohex_getdigit 65536 si;
      match digit with
      | None => mret (dx, ax, si)
      | Some bl =>
          let bx := Z.shiftr ax 12 in
          strtohex_32_loop f (Z.lor (u16 (Z.shiftl dx 4)) bx) (Z.lor (u16 (Z.shiftl ax 4)) bl) si
      end
  end.
Definition strtohex_32 (si : Z) : D (Z * Z * Z) := strtohex_32_loop dbg_fuel 0 0 si.

(** The first other character, and the carry of the comparison with a blank.
    Only the low part of SI is used where [part] is smaller than the register. *)
Fixpoint skip_loop (part : Z) (fuel : nat) (si : Z) : D (Z * bool) :=
  match fuel with
  | O => halt NoReturn
  | S f =>
      c ← ld8 (si mod part);
      if c =? 32 then skip_loop part f (si - si mod part + (si + 1) mod part) else mret (si, c <? 32)
  end.
Definition str_skip_whitespace (part si : Z) : D (Z * bool) := skip_loop part dbg_fuel si.

(** The comparisons with the letters of a command, a byte, word or dword at a
    time. *)
Fixpoint looking_at (si : Z) (l : list Z) : D bool :=
  match l with
  | [] => mret true
  | c :: l => b ← ld8 si; if b =? c then looking_at (si + 1) l else mret false
  end.

(** *** Answers (all leave CF=0) *)

Definition command_response_output (msg : list Z) : D bool :=
  com_str_out ok_head ;; com_str_out msg ;; com_str_out crlf ;; mret false.
Definition command_response_output_err (msg : list Z) : D bool :=
  com_str_out err_head ;; com_str_out msg ;; com_str_out crlf ;; mret false.

(** ** What the five files do differently *)

Record flavour : Type := mkFlavour {
  fl_word : Z;                                 (* SI, CX and numbers, modulo this *)
  fl_part : Z;                                 (* the part of SI that str_skip_whitespace uses *)
  fl_address : Z -> D (Z * Z);                 (* the address in a command, and SI *)
  fl_valid : Z -> bool;
  fl_pointer : Z -> D (Z * Z);                 (* a segment and an offset for it *)
  fl_cell : Z -> Z -> D Z;                     (* the bus address they select *)
  fl_bump : Z -> D Z;                          (* the segment 64 KB further *)
  fl_entry : Z -> D Z;                         (* EXEC: the address to call *)
  fl_low : D unit;                             (* LOW: the number printed *)
  fl_modes : list (list Z * D unit)            (* the mode commands and the jumps *)
}.

Section Commands.
Variable F : flavour.

Abbreviation strtohex := (strtohex (fl_word F)).
Abbreviation str_skip_whitespace := (str_skip_whitespace (fl_part F)).

(** A handler gives [None] when the line is not its command, else the carry flag
    it returns to the caller of [main_loop_command]. *)
Definition command_handler : Type := Z -> Z -> D (option bool).

Definition handle (word : list Z) (body : Z -> Z -> D bool) (si di : Z) : D (option bool) :=
  ok ← looking_at si word;
  if (ok : bool) then cf ← body ((si + Z.of_nat (length word)) mod fl_word F) di; mret (Some cf) else mret None.

(** [inc bx; jnc]: [inc] leaves the carry flag alone, so the jump depends on the
    instruction before it. *)
Definition next_byte (cf : bool) (es bx : Z) : D (Z * Z) :=
  let bx := (bx + 1) mod fl_word F in
  if cf then es ← fl_bump F es; mret (es, bx) else mret (es, bx).

(** The address, its range check, the pointer, and what follows. *)
Definition with_pointer (si : Z) (body : Z -> Z -> Z -> D bool) : D bool :=
  '(address, si) ← fl_address F si;
  if negb (fl_valid F address) then command_response_output_err address_invalid_msg else
  '(si, _) ← str_skip_whitespace si;
  '(es, bx) ← fl_pointer F address;
  body si es bx.

Definition main_loop_command_test : command_handler := handle (str "TEST" ++ [0]) (λ _ _, command_response_output test_response).

(** [com_char_out] leaves CF=0 (from its [test]). *)
Fixpoint read_bytes_loop (show : Z -> D unit) (cx : nat) (es bx : Z) : D unit :=
  match cx with
  | O => skip
  | S cx =>
      a ← fl_cell F es bx;
      al ← ld8 a;
      show al ;;
      '(es, bx) ← next_byte false es bx;
      read_bytes_loop show cx es bx
  end.
Definition read_command (show : Z -> D unit) (si : Z) : D bool :=
  with_pointer si (λ si es bx,
    '(cx, _) ← strtohex si;
    com_str_out ok_head ;;
    read_bytes_loop show (Z.to_nat cx) es bx ;;
    com_str_out crlf ;;
    mret false).
Definition main_loop_command_read : command_handler :=
  handle (str "READ ") (λ si _, read_command (λ al, com_hex8_out al ;; com_char_out 32) si).
Definition main_loop_command_readb : command_handler := handle (str "READB ") (λ si _, read_command com_char_out si).

(** The carry is that of the second [str_skip_whitespace]. *)
Fixpoint write_text_loop (fuel : nat) (si di es bx : Z) : D unit :=
  match fuel with
  | O => halt NoReturn
  | S f =>
      '(si, _) ← str_skip_whitespace si;
      if di <=? si then skip else
      '(ax, si) ← strtohex si;
      '(si, cf) ← str_skip_whitespace si;
      a ← fl_cell F es bx;
      st8 a (u8 ax) ;;
      '(es, bx) ← next_byte cf es bx;
      write_text_loop f si di es bx
  end.
Definition main_loop_command_write : command_handler :=
  handle (str "WRITE ") (λ si di, with_pointer si (λ si es bx,
    write_text_loop dbg_fuel si di es bx ;; command_response_output write_complete_msg)).

(** [com_char_in] leaves CF=0 (from its [sub]). *)
Fixpoint writeb_loop (cx : nat) (es bx : Z) : D unit :=
  match cx with
  | O => skip
  | S cx =>
      al ← com_char_in;
      a ← fl_cell F es bx;
      st8 a al ;;
      '(es, bx) ← next_byte false es bx;
      writeb_loop cx es bx
  end.
Definition main_loop_command_writeb : command_handler :=
  handle (str "WRITEB ") (λ si _, with_pointer si (λ si es bx,
    '(cx, _) ← strtohex si;
    writeb_loop (Z.to_nat cx) es bx ;; command_response_output write_complete_msg)).

Definition main_loop_command_exec : command_handler :=
  handle (str "EXEC ") (λ si _,
    entry ← fl_entry F si;
    m ← gets d_mode;
    modify (λ s, set_d_phys (user_code m entry (d_phys s)) s) ;;
    command_response_output exec_complete_msg).

Definition main_loop_command_low : command_handler :=
  handle (str "LOW" ++ [0]) (λ _ _, com_str_out ok_head ;; fl_low F ;; com_str_out crlf ;; mret false).

(** The jump to another mode ends in a main loop, as a return without carry does. *)
Definition mode_handler (command : list Z * D unit) : command_handler :=
  handle (fst command ++ [0]) (λ _ _, snd command ;; mret false).

Fixpoint first_handler (l : list command_handler) (si di : Z) : D bool :=
  match l with
  | [] => mret true
  | h :: l => r ← h si di; match r with Some cf => mret cf | None => first_handler l si di end
  end.

Definition handlers : list command_handler :=
  [main_loop_command_test; main_loop_command_read; main_loop_command_readb; main_loop_command_write;
   main_loop_command_writeb; main_loop_command_exec] ++ (mode_handler <$> fl_modes F) ++ [main_loop_command_low].

Definition main_loop_command : Z -> Z -> D bool := first_handler handlers.

(** *** The main loop *)

(** The number of characters stored at in_buf; [fuel] exceeds the number of
    bytes that can still be read. *)
Fixpoint main_loop_read (fuel : nat) (si : Z) : D Z :=
  match fuel with
  | O => halt NoReturn
  | S f =>
      al ← com_char_in;
      if al =? 10 then mret si else
      if al =? 13 then mret si else
      al ← (if al =? 27 then com_char_in else mret al);
      if IN_BUF_SIZE - 1 <=? si then main_loop_read f si else
      st8 (in_buf + si) al ;; main_loop_read f (si + 1)
  end.

(** [stosb; cmp di,IN_BUF_SIZE + in_buf; jb]. *)
Fixpoint main_loop_process_clr (fuel : nat) (di : Z) : D unit :=
  match fuel with
  | O => halt NoReturn
  | S f => st8 di 0 ;; if di + 1 <? IN_BUF_SIZE + in_buf then main_loop_process_clr f (di + 1) else skip
  end.

(** One pass of the main loop. *)
Definition main_loop_pass : D unit :=
  todo ← gets (λ s, S (length (d_rx s)));
  si ← main_loop_read todo 0;
  let di := in_buf + si in
  main_loop_process_clr (Z.to_nat IN_BUF_SIZE) di ;;
  if in_buf =? di then skip else
  cf ← main_loop_command in_buf di;
  if (cf : bool) then com_str_out err_head ;; com_str_out unknown_command_msg else skip.

End Commands.
End Debugger.
