(* ===== verification/DebugModes.v ===== *)
(** * The modes of the serial debugger

    How each of the five files reaches memory and calls code, the code that
    switches between them (descriptor tables, page tables), the main loop of the
    mode the processor is in, and the start of stage2-8086.asm.  Loads of CS, DS
    and SS, of the stack pointer and of control registers are represented by
    [d_mode]; ES in a protected mode is represented by the base in its
    descriptor. *)

From S2P Require Import Prelude Debugger.

Section Modes.
Context `{BD : Board} `{IM : Image}.

(** ** 16-bit code *)

(** An address as DX:AX. *)
Definition address_32 (si : Z) : D (Z * Z) := '(dx, ax, si) ← strtohex_32 si; mret (65536 * dx + ax, si).
Definition high (address : Z) : Z := Z.shiftr address 16.
Definition low (address : Z) : Z := u16 address.

(** *** Real mode *)

Definition dx_ax_phys_to_real (dx ax : Z) : Z * Z :=
  (Z.lor (u16 (Z.shiftl dx 12)) (Z.shiftr ax 4), Z.land ax 15).

Definition exec_real (si : Z) : D Z :=
  '(es, si) ← strtohex 65536 si;
  '(si, _) ← str_skip_whitespace 65536 si;
  '(bx, _) ← strtohex 65536 si;
  st16 command_exec_far_ptr bx ;;
  st16 (command_exec_far_ptr + 2) es ;;
  mret (16 * es + bx).

(** *** Protected mode *)

(** The base address in a descriptor, as a load of a segment register reads it;
    byte 7 is 0 in the descriptors of the 286 file. *)
Definition segment_base (wide : bool) (selector : Z) : D Z :=
  lo ← ld16 (gdt_table + selector + 2);
  mid ← ld8 (gdt_table + selector + 4);
  hi ← (if wide then ld8 (gdt_table + selector + 7) else mret 0);
  mret (lo + 65536 * mid + 16777216 * hi).

(** [dx_ax_phys_to_286seg] and [dx_ax_phys_to_286seg_code]; in the 386 file byte 7
    is written as well. *)
Definition dx_ax_phys_to_286seg (selector dx ax : Z) : D unit :=
  let di := gdt_table + selector in
  st16 di 0xFFFF ;; st16 (di + 2) ax ;; st8 (di + 4) (u8 dx).
Definition dx_ax_phys_to_386seg (selector dx ax : Z) : D unit :=
  dx_ax_phys_to_286seg selector dx ax ;; st8 (gdt_table + selector + 7) (Z.shiftr dx 8).

Definition acc286_64k_bump : D Z :=
  let di := gdt_table + ACCESS_SELECTOR in
  st16 di 0xFFFF ;; st16 (di + 2) 0 ;;
  b ← ld8 (di + 4); st8 (di + 4) (u8 (b + 1)) ;;
  segment_base false ACCESS_SELECTOR.
Definition acc386_64k_bump : D Z :=
  let di := gdt_table + ACCESS_SELECTOR in
  st16 di 0xFFFF ;; st16 (di + 2) 0 ;;
  b ← ld8 (di + 4); st8 (di + 4) (u8 (b + 1)) ;;
  h ← ld8 (di + 7); st8 (di + 7) (u8 (h + 1 + (if 256 <=? b + 1 then 1 else 0))) ;;
  segment_base true ACCESS_SELECTOR.

(** The segment register behind the conversion, with offset 0. *)
Definition through (wide : bool) (convert : Z -> Z -> Z -> D unit) (address : Z) : D (Z * Z) :=
  convert ACCESS_SELECTOR (high address) (low address) ;;
  base ← segment_base wide ACCESS_SELECTOR;
  mret (base, 0).

Definition exec_prot16 (wide : bool) (convert : Z -> Z -> Z -> D unit) (si : Z) : D Z :=
  '(dx, ax, si) ← strtohex_32 si;
  convert USER_CODE_SELECTOR dx ax ;;
  base ← segment_base wide USER_CODE_SELECTOR;
  '(si, _) ← str_skip_whitespace 65536 si;
  '(bx, _) ← strtohex 65536 si;
  st16 command_exec_far_ptr bx ;;
  st16 (command_exec_far_ptr + 2) USER_CODE_SELECTOR ;;
  mret (u32 (base + bx)).

(** ** Long mode: page tables *)

Definition PML4_LOCATION : Z := 0x10000.
Definition PML3_LOCATION : Z := PML4_LOCATION + 0x1000.
Definition PML2_LOCATION : Z := PML3_LOCATION + 0x1000.
Definition FINAL_LOW : Z := PML2_LOCATION + 256 * 1024.

(** [stosd] of an entry and of its upper half, which is 0. *)
Definition st_entry (table i v : Z) : D unit := st32 (table + 8 * i) v ;; st32 (table + 8 * i + 4) 0.

Definition pml3_entry (edx : Z) : Z := Z.lor (u32 (u32 (Z.shiftl edx 12) + PML2_LOCATION)) 7.
Definition pml2_entry (edx : Z) : Z := Z.lor (u32 (Z.shiftl edx 21)) 0x87.

Definition page_tables : D unit :=
  st_entry PML4_LOCATION 0 (Z.lor PML3_LOCATION 7) ;;
  for_range 1 511 (λ i, st_entry PML4_LOCATION i 0) ;;
  for_range 0 64 (λ edx, st_entry PML3_LOCATION edx (pml3_entry edx)) ;;
  for_range 64 448 (λ edx, st_entry PML3_LOCATION edx 0) ;;
  for_range 0 (Z.to_nat (512 * 64)) (λ edx, st_entry PML2_LOCATION edx (pml2_entry edx)).

(** What the processor makes of them: four levels from CR3, here with 2 MB pages
    at the third; [None] for a page fault. *)
Fixpoint rd_le (phys : Z -> Z) (a : Z) (n : nat) : Z :=
  match n with O => 0 | S n => phys (bus a) + 256 * rd_le phys (a + 1) n end.
Definition page_entry (phys : Z -> Z) (table i : Z) : option Z :=
  let e := rd_le phys (table + 8 * i) 8 in if Z.testbit e 0 then Some e else None.
Definition table_of (e : Z) : Z := Z.land e 0xFFFFFFFFFF000.
Definition page_walk (phys : Z -> Z) (a : Z) : option Z :=
  if negb (a <? 2 ^ 47) then None else
  e4 ← page_entry phys PML4_LOCATION (a / 2 ^ 39 mod 512);
  e3 ← page_entry phys (table_of e4) (a / 2 ^ 30 mod 512);
  if Z.testbit e3 7 then Some (Z.land e3 0xFFFFFC0000000 + a mod 2 ^ 30) else
  e2 ← page_entry phys (table_of e3) (a / 2 ^ 21 mod 512);
  if Z.testbit e2 7 then Some (Z.land e2 0xFFFFFFFE00000 + a mod 2 ^ 21) else
  e1 ← page_entry phys (table_of e2) (a / 2 ^ 12 mod 512);
  Some (table_of e1 + a mod 2 ^ 12).

(** There is no handler for a fault. *)
Definition mapped_cell (a : Z) : D Z :=
  phys ← gets d_phys;
  match page_walk phys a with Some p => mret p | None => halt NoReturn end.

(** ** Changing the mode *)

Definition set_mode (m : cpu_mode) : D unit := modify (set_d_mode m).

Fixpoint stosw (di : Z) (l : list Z) : D unit :=
  match l with
  | [] => skip
  | ax :: l => st16 di ax ;; stosw (di + 2) l
  end.

(** A segment of the largest limit at 0. *)
Definition segment_words (access flags : Z) : list Z := [0xFFFF; 0; 256 * access; flags].

Definition gen_gdt (flags : Z) : D unit :=
  stosw gdt_table ([0; 0; 0; 0] ++ segment_words 0x9A flags ++ segment_words 0x92 flags ++
                   segment_words 0x92 flags ++ segment_words 0x9A flags) ;;
  stosw gdtr [GDT_ENTRIES * 8 - 1; gdt_table; 0; 0].
Definition gen_gdt_286 : D unit := gen_gdt 0.
Definition gen_gdt_386_16 : D unit := gen_gdt 0x8F.
Definition gen_gdt_386_32 : D unit := gen_gdt 0xCF.
Definition gen_gdt_32 : D unit :=
  stosw gdt_table ([0; 0; 0; 0] ++ segment_words 0x9A 0xCF ++ segment_words 0x92 0xCF).

Definition save_gdtr : D unit := st16 gdtr_old 0xFFFF ;; st32 (gdtr_old + 2) 0.

Definition jmp_8086 : D unit :=
  set_mode Mode8086 ;;
  com_str_out ok_head ;; com_str_out (str "8086") ;; com_str_out crlf.

Definition jmp_286 : D unit :=
  com_str_out ok_head ;; com_str_out (str "286") ;;
  gen_gdt_286 ;; save_gdtr ;; set_mode Mode286 ;;
  com_str_out crlf.
Definition jmp_386_16 : D unit :=
  com_str_out ok_head ;; com_str_out (str "386-16") ;;
  gen_gdt_386_16 ;; save_gdtr ;; set_mode Mode386_16 ;;
  com_str_out crlf.
Definition jmp_386_32 : D unit :=
  gen_gdt_386_32 ;; save_gdtr ;; set_mode Mode386_32 ;;
  com_str_out ok_head ;; com_str_out (str "386-32") ;; com_str_out crlf.

(** [sidt] stores what [lidt [idtr_realmode]] or the power-up loaded: 0x3FF, 0. *)
Definition jmp_x64 : D unit :=
  if negb with_x64 then jmp_8086 else
  st16 gdtr 0xFFFF ;; st32 (gdtr + 2) gdt_table ;;
  gen_gdt_32 ;;
  stosw idtr_realmode [0x3FF; 0; 0] ;;
  save_gdtr ;;
  st8 (gdt_table + CODE_SELECTOR + 6) 0xAF ;;
  st8 (gdt_table + DATA_SELECTOR + 6) 0xAF ;;
  al ← in_byte 0x92;
  out_byte 0x92 (Z.land (Z.lor al 2) 0xFE) ;;
  page_tables ;;
  set_mode ModeX64 ;;
  com_str_out ok_head ;; com_str_out (str "x64") ;; com_str_out crlf.

(** Back to real mode: from 286 by a reset, with a return vector for the BIOS. *)
Definition leave_286 : D unit :=
  out_byte 0x70 0x0F ;; out_byte 0x71 5 ;;
  st16 0x467 realmode_286 ;; st16 0x469 0 ;;
  jmp_8086.
Definition leave_386_32 : D unit :=
  st8 (gdt_table + CODE_SELECTOR + 6) 0x8F ;;
  st8 (gdt_table + DATA_SELECTOR + 6) 0x8F ;;
  jmp_8086.

(** ** The five files *)

Definition file_8086 : flavour := {|
  fl_word := 65536; fl_part := 65536;
  fl_address := address_32;
  fl_valid := λ a, high a <? 0x10;
  fl_pointer := λ a, mret (dx_ax_phys_to_real (high a) (low a));
  fl_cell := λ es bx, mret (16 * es + bx);
  fl_bump := λ es, mret (u16 (es + 0x1000));
  fl_entry := exec_real;
  fl_low := com_hex_out 4 (u16 last_byte);
  fl_modes := [(str "x64", jmp_x64); (str "386-32", jmp_386_32); (str "386-16", jmp_386_16);
               (str "286", jmp_286); (str "8086", jmp_8086)]
|}.

Definition file_286 : flavour := {|
  fl_word := 65536; fl_part := 65536;
  fl_address := address_32;
  fl_valid := λ a, high a <? 0x100;
  fl_pointer := through false dx_ax_phys_to_286seg;
  fl_cell := λ base bx, mret (u32 (base + bx));
  fl_bump := λ _, acc286_64k_bump;
  fl_entry := exec_prot16 false dx_ax_phys_to_286seg;
  fl_low := com_hex_out 4 (u16 last_byte);
  fl_modes := [(str "8086", leave_286)]
|}.

Definition file_386_16 : flavour := {|
  fl_word := 65536; fl_part := 65536;
  fl_address := address_32;
  fl_valid := λ _, true;
  fl_pointer := through true dx_ax_phys_to_386seg;
  fl_cell := λ base bx, mret (u32 (base + bx));
  fl_bump := λ _, acc386_64k_bump;
  fl_entry := exec_prot16 true dx_ax_phys_to_386seg;
  fl_low := com_hex_out 4 (u16 last_byte);
  fl_modes := [(str "8086", jmp_8086)]
|}.

(** The flat modes; [inc ebx] is followed by a jump in any case. *)
Definition exec_flat (word si : Z) : D Z := '(ebx, _) ← strtohex word si; mret ebx.

Definition file_386_32 : flavour := {|
  fl_word := 4294967296; fl_part := 65536;
  fl_address := strtohex 4294967296;
  fl_valid := λ _, true;
  fl_pointer := λ a, mret (0, a);
  fl_cell := λ _ ebx, mret ebx;
  fl_bump := λ es, mret es;
  fl_entry := exec_flat 4294967296;
  fl_low := com_hex_out 8 (u32 last_byte);
  fl_modes := [(str "8086", leave_386_32)]
|}.

Definition file_x64 : flavour := {|
  fl_word := 18446744073709551616; fl_part := 18446744073709551616;
  fl_address := strtohex 18446744073709551616;
  fl_valid := λ _, true;
  fl_pointer := λ a, mret (0, a);
  fl_cell := λ _ rbx, mapped_cell rbx;
  fl_bump := λ es, mret es;
  fl_entry := exec_flat 18446744073709551616;
  fl_low := com_hex_out 16 FINAL_LOW;
  fl_modes := [(str "8086", leave_386_32)]
|}.

Definition file_of (m : cpu_mode) : flavour :=
  match m with
  | Mode8086 => file_8086
  | Mode286 => file_286
  | Mode386_16 => file_386_16
  | Mode386_32 => file_386_32
  | ModeX64 => file_x64
  end.

Definition main_loop : D unit := m ← gets d_mode; main_loop_pass (file_of m).

(** ** The start of stage2-8086.asm *)

Definition comports : list Z := [0x3F8; 0x2F8; 0x3E8; 0x2E8].

(** Keys until one of 1 to 4 ([jl] is signed, [ja] is not). *)
Fixpoint ask_loop (keys : list Z) : D (Z * list Z) :=
  match keys with
  | [] => halt NoReturn
  | al :: keys =>
      if s8 al <? 49 then ask_loop keys else
      if 52 <? u8 al then ask_loop keys else
      mret (nth (Z.to_nat (al - 49)) comports 0, keys)
  end.

Definition setup_comport (ds : Z) : D unit :=
  dx ← ld16 (16 * ds + comport);
  out_byte (u16 (dx + 3)) 0x80 ;;
  out_byte dx (u8 BAUD_DIVISOR) ;;
  out_byte (u16 (dx + 1)) (Z.shiftr BAUD_DIVISOR 8) ;;
  out_byte (u16 (dx + 3)) 3 ;;
  out_byte (u16 (dx + 1)) 0 ;;
  out_byte (u16 (dx + 2)) 0 ;;
  out_byte (u16 (dx + 4)) 0.

(** [rep movsw] from cs:8000 to 0:8000. *)
Definition relocate (cs : Z) : D unit :=
  for_range 0 (Z.to_nat (Z.shiftr (last_byte - 0x8000) 1)) (λ i,
    w ← ld16 (16 * cs + 0x8000 + 2 * i); st16 (0x8000 + 2 * i) w).

(** The question for the port and what follows, in segment [cs]; the messages on
    the screen are left out.  The result is the keys not read. *)
Definition start_first_time (cs : Z) (keys : list Z) : D (list Z) :=
  n ← ld8 (16 * cs + inited);
  st8 (16 * cs + inited) (u8 (n + 1)) ;;
  '(port, keys) ← ask_loop keys;
  st16 (16 * cs + comport) port ;;
  setup_comport cs ;;
  (if cs =? 0 then skip else relocate cs) ;;
  mret keys.

(** From the entry to the main loop; in another segment than 0 the image jumps to
    its entry in segment 0, where it has been initialised. *)
Fixpoint start_stage2 (fuel : nat) (cs : Z) (keys : list Z) : D unit :=
  match fuel with
  | O => halt NoReturn
  | S f =>
      n ← ld8 (16 * cs + inited);
      if negb (n =? 0) then skip else
      keys ← start_first_time cs keys;
      if cs =? 0 then skip else start_stage2 f 0 keys
  end.

End Modes.
