(* ===== verification/DebugPages.v ===== *)
(** * The page tables of stage2-x64.asm

    The bytes of the tables that [page_tables] stores, and the translation a
    processor makes of memory that holds them. *)

From S2P Require Import Prelude Machine Memory Vga Text Debugger DebugModes.

(** The eight bytes of an entry whose upper half is 0. *)
Definition entry8 (v : Z) : list Z :=
  [u8 (u16 v); u8 (Z.shiftr (u16 v) 8); u8 (u16 (Z.shiftr v 16)); u8 (Z.shiftr (u16 (Z.shiftr v 16)) 8); 0; 0; 0; 0].

(** The three tables, one behind the other. *)
Definition table_entries : list Z :=
  [Z.lor PML3_LOCATION 7] ++ replicate 511 0 ++
  (pml3_entry <$> seqZ 0 64) ++ replicate 448 0 ++
  (pml2_entry <$> seqZ 0 (512 * 64)).

Definition table_bytes : list Z := concat (entry8 <$> table_entries).

Lemma concat_entries_length l : length (concat (entry8 <$> l)) = (8 * length l)%nat.
Proof. induction l as [|v l IH]; [done|]. rewrite fmap_cons. cbn [concat]. rewrite length_app, IH. cbn [length entry8]. lia. Qed.

(** Memory that holds the tables. *)
Definition has_tables (phys : Z -> Z) : Prop :=
  forall j v i, table_entries !! j = Some v -> (i < 8)%nat -> Some (phys (PML4_LOCATION + 8 * Z.of_nat j + Z.of_nat i)) = entry8 v !! i.

Section Pages.
Context `{BD : Board}.

(** ** What a processor reads back *)

(** The bytes of the tables select themselves. *)
Context (Hbus : forall a, PML4_LOCATION <= a < FINAL_LOW -> bus a = a).

Lemma table_entries_length : length table_entries = Z.to_nat 33792.
Proof.
  unfold table_entries. rewrite !length_app, !length_replicate, !length_fmap, !length_seqZ. cbn [length].
  change (Z.to_nat (512 * 64)) with (Z.to_nat 32768). lia.
Qed.

Lemma concat_entries_lookup l : forall j v i,
  l !! j = Some v -> (i < 8)%nat -> concat (entry8 <$> l) !! (8 * j + i)%nat = entry8 v !! i.
Proof.
  induction l as [|w l IH]; intros [|j] v i Hj Hi; try done; rewrite fmap_cons; cbn [concat].
  - injection Hj as ->. rewrite lookup_app_l by (cbn; lia). done.
  - rewrite lookup_app_r by (cbn [length entry8]; lia). cbn [length entry8]. replace (8 * S j + i - 8)%nat with (8 * j + i)%nat by lia. by apply IH.
Qed.

Lemma has_tables_ext p q : (forall x, PML4_LOCATION <= x < FINAL_LOW -> p x = q x) -> has_tables p -> has_tables q.
Proof.
  intros E Hp j v i Hj Hi. pose proof (lookup_lt_Some _ _ _ Hj) as Hl. rewrite table_entries_length in Hl.
  rewrite <- E by (unfold FINAL_LOW, PML2_LOCATION, PML3_LOCATION, PML4_LOCATION; lia). by apply Hp.
Qed.

Lemma rd_entry phys j v : has_tables phys -> table_entries !! j = Some v -> 0 <= v < 4294967296 -> rd_le phys (PML4_LOCATION + 8 * Z.of_nat j) 8 = v.
Proof.
  intros Ht Hj Hv. pose proof (lookup_lt_Some _ _ _ Hj) as Hl. rewrite table_entries_length in Hl.
  assert (forall i c, (i < 8)%nat -> entry8 v !! i = Some c -> phys (bus (PML4_LOCATION + 8 * Z.of_nat j + Z.of_nat i)) = c) as Hb.
  { intros i c Hi Hc. rewrite Hbus by (unfold FINAL_LOW, PML2_LOCATION, PML3_LOCATION, PML4_LOCATION; lia). specialize (Ht j v i Hj Hi). congruence. }
  set (a := PML4_LOCATION + 8 * Z.of_nat j) in *. cbn [rd_le].
  replace (a + 1 + 1) with (a + 2) by lia. replace (a + 2 + 1) with (a + 3) by lia. replace (a + 3 + 1) with (a + 4) by lia.
  replace (a + 4 + 1) with (a + 5) by lia. replace (a + 5 + 1) with (a + 6) by lia. replace (a + 6 + 1) with (a + 7) by lia.
  rewrite <- (Z.add_0_r a) at 1.
  rewrite (Hb 0%nat _ ltac:(lia) eq_refl : phys (bus (a + 0)) = _), (Hb 1%nat _ ltac:(lia) eq_refl : phys (bus (a + 1)) = _),
    (Hb 2%nat _ ltac:(lia) eq_refl : phys (bus (a + 2)) = _), (Hb 3%nat _ ltac:(lia) eq_refl : phys (bus (a + 3)) = _),
    (Hb 4%nat _ ltac:(lia) eq_refl : phys (bus (a + 4)) = _), (Hb 5%nat _ ltac:(lia) eq_refl : phys (bus (a + 5)) = _),
    (Hb 6%nat _ ltac:(lia) eq_refl : phys (bus (a + 6)) = _), (Hb 7%nat _ ltac:(lia) eq_refl : phys (bus (a + 7)) = _).
  rewrite !Z.shiftr_div_pow2 by lia. change (2 ^ 16) with 65536. change (2 ^ 8) with 256. unfold u8, u16. Z.div_mod_to_equations. lia.
Qed.

Lemma page_entry_at phys j v :
  has_tables phys -> table_entries !! j = Some v -> 0 <= v < 4294967296 -> Z.testbit v 0 = true ->
  forall table i, table + 8 * i = PML4_LOCATION + 8 * Z.of_nat j -> page_entry phys table i = Some v.
Proof. intros Ht Hj Hv Hb table i E. unfold page_entry. rewrite E, (rd_entry phys j v) by done. by rewrite Hb. Qed.

(** *** The entries *)

Lemma entry_pml4 : table_entries !! 0%nat = Some (Z.lor PML3_LOCATION 7).
Proof. done. Qed.

Lemma entry_pml3 i : 0 <= i < 64 -> table_entries !! (512 + Z.to_nat i)%nat = Some (pml3_entry i).
Proof.
  intros Hi. unfold table_entries. do 2 (rewrite lookup_app_r by (rewrite ?length_replicate; cbn [length]; lia)).
  rewrite length_replicate. cbn [length]. rewrite lookup_app_l by (rewrite length_fmap, length_seqZ; lia).
  rewrite list_lookup_fmap, lookup_seqZ_lt by lia. cbn. do 2 f_equal. lia.
Qed.

Lemma entry_pml2 i : 0 <= i < 32768 -> table_entries !! (1024 + Z.to_nat i)%nat = Some (pml2_entry i).
Proof.
  intros Hi. unfold table_entries. change (512 * 64) with 32768.
  do 4 (rewrite lookup_app_r by (rewrite ?length_replicate, ?length_fmap, ?length_seqZ; cbn [length]; lia)).
  rewrite !length_replicate, !length_fmap, !length_seqZ. cbn [length].
  rewrite list_lookup_fmap, lookup_seqZ_lt by lia. cbn. do 2 f_equal. lia.
Qed.

Lemma pml3_facts i : 0 <= i < 64 ->
  table_of (pml3_entry i) = PML2_LOCATION + 4096 * i /\ Z.testbit (pml3_entry i) 7 = false /\ Z.testbit (pml3_entry i) 0 = true /\
  0 <= pml3_entry i < 4294967296.
Proof.
  intros Hi.
  assert (((table_of (pml3_entry i) =? PML2_LOCATION + 4096 * i) && negb (Z.testbit (pml3_entry i) 7) && Z.testbit (pml3_entry i) 0 &&
    (0 <=? pml3_entry i) && (pml3_entry i <? 4294967296))%bool = true) as E.
  { by apply (forallb_range (λ i, ((table_of (pml3_entry i) =? PML2_LOCATION + 4096 * i) && negb (Z.testbit (pml3_entry i) 7) && Z.testbit (pml3_entry i) 0 &&
      (0 <=? pml3_entry i) && (pml3_entry i <? 4294967296))%bool) 64). }
  bool_to_prop. auto.
Qed.

Lemma pml2_value k : 0 <= k < 32768 -> pml2_entry k = (k mod 2048) * 2 ^ 21 + 0x87.
Proof.
  intros Hk. unfold pml2_entry. rewrite Z.shiftl_mul_pow2 by lia.
  replace (u32 (k * 2 ^ 21)) with ((k mod 2048) * 2 ^ 21) by (change (2 ^ 21) with 2097152; wrap_lia).
  apply lor_shifted; [lia|]. by vm_compute.
Qed.

Lemma pml2_facts k : 0 <= k < 32768 ->
  Z.land (pml2_entry k) 0xFFFFFFFE00000 = (k mod 2048) * 2 ^ 21 /\ Z.testbit (pml2_entry k) 7 = true /\ Z.testbit (pml2_entry k) 0 = true /\
  0 <= pml2_entry k < 4294967296.
Proof.
  intros Hk. rewrite pml2_value by done. pose proof (Z.mod_pos_bound k 2048 ltac:(lia)) as Hm. set (q := k mod 2048) in *.
  split_and!.
  - rewrite <- (lor_shifted 21) by (lia || by vm_compute). rewrite Z.land_lor_distr_l.
    change (Z.land 0x87 0xFFFFFFFE00000) with 0. rewrite Z.lor_0_r, <- Z.shiftl_mul_pow2 by lia.
    change 0xFFFFFFFE00000 with (Z.shiftl (Z.ones 31) 21). rewrite <- Z.shiftl_land, Z.land_ones by lia. by rewrite Z.mod_small by (change (2 ^ 31) with 2147483648; lia).
  - rewrite <- (lor_shifted 21), Z.lor_spec by (lia || by vm_compute). by rewrite orb_true_r.
  - rewrite <- (lor_shifted 21), Z.lor_spec by (lia || by vm_compute). by rewrite orb_true_r.
  - change (2 ^ 21) with 2097152. lia.
  - change (2 ^ 21) with 2097152. lia.
Qed.

(** Every address of the first 64 GB is mapped, to the address modulo 4 GB. *)
Lemma walk_wraps phys a : has_tables phys -> 0 <= a < 2 ^ 36 -> page_walk phys a = Some (a mod 2 ^ 32).
Proof.
  intros Ht Ha. change (2 ^ 36) with 68719476736 in Ha. unfold page_walk.
  change (2 ^ 47) with 140737488355328. change (2 ^ 39) with 549755813888. change (2 ^ 30) with 1073741824. change (2 ^ 21) with 2097152. change (2 ^ 32) with 4294967296.
  rewrite (proj2 (Z.ltb_lt a _)) by lia. cbn [negb].
  replace (a / 549755813888 mod 512) with 0 by (rewrite Z.div_small, Z.mod_0_l by lia; done).
  rewrite (page_entry_at phys 0 (Z.lor PML3_LOCATION 7)) by done. cbn [mbind option_bind].
  change (table_of (Z.lor PML3_LOCATION 7)) with PML3_LOCATION.
  set (i := a / 1073741824). assert (0 <= i < 64) as Hi by (subst i; Z.div_mod_to_equations; lia). rewrite (Z.mod_small i) by lia.
  destruct (pml3_facts i Hi) as (Et & E7 & E0 & Hr).
  rewrite (page_entry_at phys _ _ Ht (entry_pml3 i Hi) Hr E0) by (unfold PML3_LOCATION; lia). cbn [mbind option_bind].
  rewrite E7, Et.
  set (j := a / 2097152). assert (0 <= j < 32768) as Hj by (subst j; Z.div_mod_to_equations; lia).
  destruct (pml2_facts j Hj) as (Em & F7 & F0 & Hs).
  rewrite (page_entry_at phys _ _ Ht (entry_pml2 j Hj) Hs F0).
  2: { unfold PML2_LOCATION, PML3_LOCATION. subst i j. Z.div_mod_to_equations. lia. }
  cbn [mbind option_bind]. rewrite F7, Em. f_equal. subst j. change (2 ^ 21) with 2097152. Z.div_mod_to_equations. lia.
Qed.

(** Beyond, the entries are 0 and there is nothing. *)
Lemma entry_zero j : (0 < j < 512)%nat \/ (576 <= j < 1024)%nat -> table_entries !! j = Some 0.
Proof.
  intros Hj. unfold table_entries. rewrite lookup_app_r by (cbn [length]; lia). cbn [length]. destruct Hj as [Hj|Hj].
  - rewrite lookup_app_l by (rewrite length_replicate; lia). by rewrite lookup_replicate_2 by lia.
  - rewrite lookup_app_r by (rewrite length_replicate; lia). rewrite length_replicate.
    rewrite lookup_app_r by (rewrite length_fmap, length_seqZ; lia). rewrite length_fmap, length_seqZ.
    rewrite lookup_app_l by (rewrite length_replicate; lia). by rewrite lookup_replicate_2 by lia.
Qed.

Lemma page_entry_none phys j table i :
  has_tables phys -> table_entries !! j = Some 0 -> table + 8 * i = PML4_LOCATION + 8 * Z.of_nat j -> page_entry phys table i = None.
Proof. intros Ht Hj E. unfold page_entry. by rewrite E, (rd_entry phys j 0). Qed.

Lemma walk_faults phys a : has_tables phys -> 2 ^ 36 <= a < 2 ^ 47 -> page_walk phys a = None.
Proof.
  intros Ht Ha. change (2 ^ 36) with 68719476736 in Ha. change (2 ^ 47) with 140737488355328 in Ha. unfold page_walk.
  change (2 ^ 47) with 140737488355328. change (2 ^ 39) with 549755813888. change (2 ^ 30) with 1073741824.
  rewrite (proj2 (Z.ltb_lt a _)) by lia. cbn [negb]. set (i := a / 549755813888).
  assert (0 <= i < 256) as Hi by (subst i; Z.div_mod_to_equations; lia). rewrite (Z.mod_small i) by lia. destruct (decide (i = 0)) as [E|Hne].
  - rewrite E, (page_entry_at phys 0 (Z.lor PML3_LOCATION 7)) by done. cbn [mbind option_bind].
    change (table_of (Z.lor PML3_LOCATION 7)) with PML3_LOCATION. set (j := a / 1073741824).
    assert (64 <= j < 512) as Hj by (subst i j; Z.div_mod_to_equations; lia). rewrite (Z.mod_small j) by lia.
    by rewrite (page_entry_none phys (512 + Z.to_nat j)) by (done || (apply entry_zero; lia) || (unfold PML3_LOCATION; lia)).
  - by rewrite (page_entry_none phys (Z.to_nat i)) by (done || (apply entry_zero; lia) || lia).
Qed.

End Pages.
