(* ===== verification/DebuggerSpec.v ===== *)
(** * What the serial debugger does with a command

    The routines of Debugger and DebugModes on a board whose UART works
    ([BoardOk]) and an image whose variables do not overlap.
    [does m s a s'] is total: from [s], with any number of looks at the UART so
    far, [m] returns [a] in [s']. *)

From S2P Require Import Prelude Machine Memory Vga Text ELib SLib SLibSpec SerialTarget Debugger DebugModes DebugPages.

(** ** Runs *)

Definition does {A} (m : D A) (s : debugger) (a : A) (s' : debugger) : Prop :=
  forall n, exists n', m (set_d_looks n s) = inr (a, set_d_looks n' s').

Section Does.
Context {A B : Type}.

Lemma does_ret (a : A) s : does (mret a) s a s.
Proof. intros n. by exists n. Qed.

Lemma does_bind (m : D A) (k : A -> D B) s a s1 b s2 : does m s a s1 -> does (k a) s1 b s2 -> does (m ≫= k) s b s2.
Proof.
  intros Hm Hk n. destruct (Hm n) as [n1 E1]. destruct (Hk n1) as [n2 E2]. exists n2.
  unfold mbind, SM_bind. by rewrite E1.
Qed.

Lemma does_gets (f : debugger -> A) s : (forall n, f (set_d_looks n s) = f s) -> does (gets f) s (f s) s.
Proof. intros Hf n. exists n. unfold gets. by rewrite Hf. Qed.

Lemma does_modify f s : (forall n, f (set_d_looks n s) = set_d_looks n (f s)) -> does (modify f) s tt (f s).
Proof. intros Hf n. exists n. unfold modify. by rewrite Hf. Qed.

Lemma does_eq (m : D A) s a a' s1 s2 : does m s a s1 -> a = a' -> s1 = s2 -> does m s a' s2.
Proof. by intros H <- <-. Qed.

End Does.

(** One step of a sequence, by the rule given. *)
Tactic Notation "then_by" uconstr(H) := eapply does_bind; [eapply H|].

(** ** Hypotheses *)

(** A variable of [n] bytes in the image, away from the buffer and the port's
    address. *)
Abbreviation placed v n :=
  (0x8000 <= v /\ v + n <= last_byte /\ (v + n <= in_buf \/ in_buf + 256 <= v) /\ (v + n <= comport \/ comport + 2 <= v)).

Class BoardOk `{BD : Board} `{IM : Image} : Prop := {
  bo_bus a : 0 <= a < 65536 -> bus a = a;
  bo_tables a : PML4_LOCATION <= a < FINAL_LOW -> bus a = a;
  bo_uart : 0x200 <= uart < 65000;
  bo_data n : exists i, (i < dbg_fuel)%nat /\ lsr_data (n + i) = true;
  bo_sent n : exists i, (i < dbg_fuel)%nat /\ Z.land (lsr_other (n + i)) 0x60 <> 0;
  bo_fuel : (300 <= dbg_fuel)%nat;
  bo_image : 0x8000 <= in_buf /\ in_buf + 300 <= last_byte <= 65536;
  bo_comport : 0x8000 <= comport /\ comport + 2 < last_byte /\ (comport + 2 <= in_buf \/ in_buf + 256 <= comport);
  bo_inited : placed inited 1 /\ inited + 1 < last_byte;
  bo_far : placed command_exec_far_ptr 4;
  bo_gdt : placed gdt_table 40;
  bo_gdtr : placed gdtr 8 /\ placed gdtr_old 6;
  bo_idtr : placed idtr_realmode 6
}.

Section Spec.
Context `{BD : Board} `{IM : Image} `{BO : !BoardOk}.

(** The image of the debugger, whose cells it changes as it likes. *)
Definition own (a : Z) : Prop := 0x8000 <= a < last_byte.

(** ... and in long mode the page tables, which it does not touch. *)
Definition reserved (m : cpu_mode) (a : Z) : Prop := own a \/ (m = ModeX64 /\ PML4_LOCATION <= a < FINAL_LOW).

(** The debugger finds its UART and, in long mode, its memory. *)
Record wired (s : debugger) : Prop := {
  wi_port : d_phys s comport + 256 * d_phys s (comport + 1) = uart;
  wi_dlab : dlab (d_ports s) = false;
  wi_tables : d_mode s = ModeX64 -> has_tables (d_phys s)
}.

Lemma wired_same s s' :
  wired s -> d_ports s' = d_ports s -> d_mode s' = d_mode s ->
  (forall x, comport <= x < comport + 2 \/ (d_mode s = ModeX64 /\ PML4_LOCATION <= x < FINAL_LOW) -> d_phys s' x = d_phys s x) -> wired s'.
Proof.
  intros [Hp Hd Ht] Eq Em E. split; [rewrite !E by lia; done|by rewrite Eq|]. rewrite Em. intros Hm.
  eapply has_tables_ext; [|by apply Ht]. intros x Hx. symmetry. apply E. by right.
Qed.

Lemma wired_mode m s : m <> ModeX64 -> wired s -> wired (set_d_mode m s).
Proof. by intros Hm []. Qed.

Lemma image_low a : own a -> 0 <= a < 65536.
Proof. unfold own. pose proof bo_image. lia. Qed.

Lemma bus_own a : own a -> bus a = a.
Proof. intros H. apply bo_bus. by apply image_low. Qed.

(** ** The serial port *)

Lemma does_ld8 a s : does (ld8 a) s (d_phys s (bus a)) s.
Proof. exact (does_gets (λ s, d_phys s (bus a)) s (λ _, eq_refl)). Qed.

Lemma does_st8 a v s : does (st8 a v) s tt (set_d_phys (λ x, if x =? bus a then v else d_phys s x) s).
Proof. exact (does_modify (λ s, set_d_phys (λ x, if x =? bus a then v else d_phys s x) s) s (λ _, eq_refl)). Qed.

Lemma does_comport s : wired s -> does (ld16 comport) s uart s.
Proof.
  intros Hw. unfold ld16. pose proof bo_image. pose proof bo_comport.
  then_by does_ld8. then_by does_ld8. rewrite !bus_own by (unfold own; lia). rewrite (wi_port _ Hw). apply does_ret.
Qed.

Lemma status_run n s :
  exists al, in_byte (uart + 5) (set_d_looks n s) = inr (al, set_d_looks (S n) s) /\
    al = Z.lor (Z.land (lsr_other n) 0xFE) (if lsr_data n && match d_rx s with [] => false | _ => true end then 1 else 0).
Proof. unfold in_byte, line_status, gets, modify, mbind, SM_bind, mret, SM_ret. rewrite Z.eqb_refl. by eexists. Qed.

(** A bit that comes within the fuel is seen. *)
Lemma wait_status_does mask s :
  (forall n, exists i, (i < dbg_fuel)%nat /\
     Z.land (Z.lor (Z.land (lsr_other (n + i)) 0xFE)
                   (if lsr_data (n + i) && match d_rx s with [] => false | _ => true end then 1 else 0)) mask <> 0) ->
  does (wait_status dbg_fuel (uart + 5) mask) s tt s.
Proof.
  intros H n. specialize (H n). revert n H. induction dbg_fuel as [|f IH]; intros n (i & Hi & Hb); [lia|].
  cbn [wait_status]. destruct (status_run n s) as (al & E & Hal). unfold mbind, SM_bind. rewrite E. case_bool; bool_to_prop.
  - apply IH. destruct i as [|i]; [by rewrite Nat.add_0_r, <- Hal in Hb|]. exists i. split; [lia|]. by replace (S n + i)%nat with (n + S i)%nat by lia.
  - by exists (S n).
Qed.

Lemma line_port : u16 (uart + 5) = uart + 5.
Proof. pose proof bo_uart. apply u16_small. lia. Qed.

Lemma com_char_in_does s b r : wired s -> d_rx s = b :: r -> does com_char_in s b (set_d_rx r s).
Proof.
  intros Hw Er. unfold com_char_in. then_by does_comport; [done|]. rewrite line_port. pose proof bo_uart.
  then_by wait_status_does.
  - intros n. destruct (bo_data n) as (i & Hi & E). exists i. split; [done|]. rewrite Er, E. cbn [andb].
    rewrite Z.land_lor_distr_l, <- Z.land_assoc. change (Z.land 0xFE 1) with 0. by rewrite Z.land_0_r.
  - unfold in_byte, receive_buffer. then_by does_gets; [done|]. rewrite (proj2 (Z.eqb_neq _ _)) by lia.
    rewrite Z.eqb_refl, (wi_dlab _ Hw). cbn [andb negb]. then_by does_gets; [done|]. rewrite Er.
    then_by does_modify; [done|]. apply does_ret.
Qed.

Lemma com_char_out_does s al : wired s -> does (com_char_out al) s tt (set_d_tx (d_tx s ++ [al]) s).
Proof.
  intros Hw. unfold com_char_out. then_by does_comport; [done|]. rewrite line_port.
  then_by wait_status_does.
  - intros n. destruct (bo_sent n) as (i & Hi & E). exists i. split; [done|].
    rewrite Z.land_lor_distr_l, <- Z.land_assoc. change (Z.land 0xFE 0x60) with 0x60. intros E'. apply Z.lor_eq_0_iff in E' as [E' _]. done.
  - then_by does_comport; [done|]. unfold out_byte. then_by does_gets; [done|].
    rewrite Z.eqb_refl, (wi_dlab _ Hw). cbn [andb negb].
    exact (does_modify (λ s, set_d_tx (d_tx s ++ [al]) s) s (λ _, eq_refl)).
Qed.

Lemma wired_rx r s : wired s -> wired (set_d_rx r s).
Proof. by intros []. Qed.
Lemma wired_tx t s : wired s -> wired (set_d_tx t s).
Proof. by intros []. Qed.

Definition print (out : list Z) (s : debugger) : debugger := set_d_tx (d_tx s ++ out) s.

Lemma print_print a b s : print b (print a s) = print (a ++ b) s.
Proof. unfold print. cbn. by rewrite app_assoc. Qed.

Lemma com_str_out_does l : forall s, wired s -> does (com_str_out l) s tt (print l s).
Proof.
  induction l as [|c l IH]; intros s Hw; cbn [com_str_out].
  - replace (print [] s) with s by (unfold print; rewrite app_nil_r; by destruct s). apply does_ret.
  - then_by com_char_out_does; [done|]. replace (print (c :: l) s) with (print l (print [c] s)) by by rewrite print_print.
    by apply IH, wired_tx.
Qed.

Lemma wired_print l s : wired s -> wired (print l s).
Proof. apply wired_tx. Qed.

(** ** Scanning *)

(** The characters [l] are in memory at [a]. *)
Definition text (s : debugger) (a : Z) (l : list Z) : Prop := peek bus (d_phys s) a (length l) = l.

Lemma text_cons s a c l : text s a (c :: l) <-> d_phys s (bus a) = c /\ text s (a + 1) l.
Proof.
  unfold text, peek. cbn [length seq fmap list_fmap]. rewrite Z.add_0_r, <- fmap_S_seq, <- list_fmap_compose.
  assert ((λ i, d_phys s (bus (a + Z.of_nat i))) ∘ S <$> seq 0 (length l) = (λ i, d_phys s (bus (a + 1 + Z.of_nat i))) <$> seq 0 (length l)) as ->
    by (apply list_fmap_ext; intros i x _; cbn; do 2 f_equal; lia).
  split; [intros E; by injection E|intros [-> ->]; done].
Qed.

Lemma text_app s a l m : text s a (l ++ m) <-> text s a l /\ text s (a + Z.of_nat (length l)) m.
Proof.
  revert a. induction l as [|c l IH]; intros a; cbn [app].
  - rewrite Z.add_0_r. split; [by split|by intros [_ H]].
  - rewrite !text_cons, IH. cbn [length]. replace (a + 1 + Z.of_nat (length l)) with (a + Z.of_nat (S (length l))) by lia. tauto.
Qed.

(** The digit that the comparisons of [strtohex_getdigit] make of a byte. *)
Definition digit_of (al : Z) : option Z :=
  if al <? 48 then None else if al <=? 57 then Some (al - 48) else
  if Z.lor al 0x20 <? 97 then None else if 102 <? Z.lor al 0x20 then None else Some (Z.lor al 0x20 - (97 - 10)).

Lemma digit_of_hex c : 0 <= c < 256 -> digit_of c = if is_hex c then Some (chartohex c) else None.
Proof.
  intros Hc.
  assert (forallb (λ c, bool_decide (digit_of c = if is_hex c then Some (chartohex c) else None)) (seqZ 0 256) = true) as E by done.
  exact (bool_decide_eq_true_1 _ (forallb_range _ 256 E c Hc)).
Qed.

Lemma getdigit_does word si c s :
  d_phys s (bus si) = c -> 0 <= c < 256 ->
  does (strtohex_getdigit word si) s (if is_hex c then Some (chartohex c) else None, (si + 1) mod word) s.
Proof.
  intros E Hc. unfold strtohex_getdigit. then_by does_ld8. rewrite E, <- digit_of_hex by done. unfold digit_of.
  repeat case_bool; apply does_ret.
Qed.

Definition digits (l : list Z) : Prop := Forall (λ c, is_hex c = true) l.

(** A character that ends a number. *)
Definition stopper (c : Z) : Prop := 0 <= c < 256 /\ is_hex c = false.

Lemma hex_byte c : is_hex c = true -> 0 <= c < 256 /\ 0 <= chartohex c < 16.
Proof.
  pose proof (chartohex_range c). unfold is_hex. intros Hc. bool_to_prop. split; [|lia]. revert Hc. unfold chartohex.
  repeat case_bool; bool_to_prop; lia.
Qed.

Lemma hexacc_cons v c l : hexacc v (c :: l) = hexacc (16 * v + chartohex c) l.
Proof. done. Qed.

Lemma nibble_in k v d : 1 <= k -> 0 <= v -> 0 <= d < 16 -> Z.lor (Z.shiftl (v mod 16 ^ k) 4 mod 16 ^ k) d = (16 * v + d) mod 16 ^ k.
Proof.
  intros Hk Hv Hd. rewrite Z.shiftl_mul_pow2 by lia. change (2 ^ 4) with 16.
  assert (16 ^ k = 16 * 16 ^ (k - 1)) as Ek by (rewrite <- Z.pow_succ_r by lia; f_equal; lia).
  assert (0 < 16 ^ (k - 1)) as Hp by (apply Z.pow_pos_nonneg; lia). set (e := 16 ^ (k - 1)) in *.
  rewrite Z.mul_mod_idemp_l by lia. rewrite Ek. replace (v * 16) with (16 * v) by lia. rewrite Z.mul_mod_distr_l by lia.
  rewrite (Z.mul_comm 16 (v mod e)). change 16 with (2 ^ 4) at 1. rewrite lor_shifted by lia. change (2 ^ 4) with 16.
  apply (Z.mod_unique_pos _ _ (v / e)); [pose proof (Z.mod_pos_bound v e); lia|]. pose proof (Z.div_mod v e). nia.
Qed.

Lemma strtohex_loop_does k c s : 1 <= k -> stopper c -> forall ds fuel v si,
  text s si (ds ++ [c]) -> digits ds -> (length ds < fuel)%nat -> 0 <= v -> 0 <= si -> si + Z.of_nat (length ds) + 1 < 16 ^ k ->
  does (strtohex_loop (16 ^ k) fuel (v mod 16 ^ k) si) s (hexacc v ds mod 16 ^ k, si + Z.of_nat (length ds) + 1) s.
Proof.
  intros Hk [Hc Hn]. induction ds as [|d ds IH]; intros [|fuel] v si Ht Hd Hf Hv Hs Hw; cbn [length] in *; try lia;
    cbn [strtohex_loop app] in *; apply text_cons in Ht as [E Ht].
  - then_by getdigit_does; [done|done|]. rewrite Hn, (Z.mod_small (si + 1)) by lia. rewrite Z.add_0_r. apply does_ret.
  - apply Forall_cons in Hd as [Hh Hd']. destruct (hex_byte _ Hh) as [Hb Hx]. then_by getdigit_does; [done|done|].
    rewrite Hh, (Z.mod_small (si + 1)) by lia. rewrite nibble_in by done. rewrite hexacc_cons.
    replace (si + Z.of_nat (S (length ds)) + 1) with (si + 1 + Z.of_nat (length ds) + 1) by lia. apply IH; done || lia.
Qed.

(** A number is read up to and including the character that ends it. *)
Lemma strtohex_does k ds c si s :
  1 <= k -> text s si (ds ++ [c]) -> digits ds -> stopper c -> (length ds < 300)%nat ->
  0 <= si -> si + Z.of_nat (length ds) + 1 < 16 ^ k ->
  does (strtohex (16 ^ k) si) s (hexval ds mod 16 ^ k, si + Z.of_nat (length ds) + 1) s.
Proof.
  intros Hk Ht Hd Hc Hf Hs Hw. pose proof bo_fuel. unfold strtohex.
  pose proof (strtohex_loop_does k c s Hk Hc ds dbg_fuel 0 si Ht Hd ltac:(lia) ltac:(lia) Hs Hw) as E.
  by rewrite Z.mod_0_l in E by (apply Z.pow_nonzero; lia).
Qed.

(** The two 16-bit registers hold the 32-bit number. *)
Lemma dx_ax_step v d : 0 <= v < 4294967296 -> 0 <= d < 16 ->
  let dx := v / 65536 in let ax := v mod 65536 in let w := (16 * v + d) mod 4294967296 in
  Z.lor (u16 (Z.shiftl dx 4)) (Z.shiftr ax 12) = w / 65536 /\ Z.lor (u16 (Z.shiftl ax 4)) d = w mod 65536.
Proof.
  intros Hv Hd dx ax w. assert (0 <= dx < 65536 /\ 0 <= ax < 65536) as [Hdx Hax] by (subst dx ax; Z.div_mod_to_equations; lia).
  rewrite !Z.shiftl_mul_pow2, Z.shiftr_div_pow2 by lia. change (2 ^ 4) with 16. change (2 ^ 12) with 4096.
  replace (u16 (dx * 16)) with ((dx mod 4096) * 2 ^ 4) by (change (2 ^ 4) with 16; wrap_lia).
  replace (u16 (ax * 16)) with ((ax mod 4096) * 2 ^ 4) by (change (2 ^ 4) with 16; wrap_lia).
  rewrite !lor_shifted by (change (2 ^ 4) with 16; Z.div_mod_to_equations; lia). change (2 ^ 4) with 16.
  subst dx ax w. Z.div_mod_to_equations. lia.
Qed.

Lemma strtohex_32_loop_does c s : stopper c -> forall ds fuel v si,
  text s si (ds ++ [c]) -> digits ds -> (length ds < fuel)%nat -> 0 <= v -> 0 <= si -> si + Z.of_nat (length ds) + 1 < 65536 ->
  does (strtohex_32_loop fuel (u32 v / 65536) (u32 v mod 65536) si) s
    (u32 (hexacc v ds) / 65536, u32 (hexacc v ds) mod 65536, si + Z.of_nat (length ds) + 1) s.
Proof.
  intros [Hc Hn]. induction ds as [|d ds IH]; intros [|fuel] v si Ht Hd Hf Hv Hs Hw; cbn [length] in *; try lia;
    cbn [strtohex_32_loop app] in *; apply text_cons in Ht as [E Ht].
  - then_by getdigit_does; [done|done|]. rewrite Hn, (Z.mod_small (si + 1)) by lia. rewrite Z.add_0_r. apply does_ret.
  - apply Forall_cons in Hd as [Hh Hd']. destruct (hex_byte _ Hh) as [Hb Hx]. then_by getdigit_does; [done|done|].
    rewrite Hh, (Z.mod_small (si + 1)) by lia. rewrite hexacc_cons.
    destruct (dx_ax_step (u32 v) (chartohex d) (u32_range v) Hx) as [-> ->].
    replace ((16 * u32 v + chartohex d) mod 4294967296) with (u32 (16 * v + chartohex d)) by wrap_lia.
    replace (si + Z.of_nat (S (length ds)) + 1) with (si + 1 + Z.of_nat (length ds) + 1) by lia. apply IH; done || lia.
Qed.

Lemma strtohex_32_does ds c si s :
  text s si (ds ++ [c]) -> digits ds -> stopper c -> (length ds < 300)%nat -> 0 <= si -> si + Z.of_nat (length ds) + 1 < 65536 ->
  does (strtohex_32 si) s (u32 (hexval ds) / 65536, u32 (hexval ds) mod 65536, si + Z.of_nat (length ds) + 1) s.
Proof.
  intros Ht Hd Hc Hf Hs Hw. pose proof bo_fuel. 
  exact (strtohex_32_loop_does c s Hc ds dbg_fuel 0 si Ht Hd ltac:(lia) ltac:(lia) Hs Hw).
Qed.

Lemma address_32_does ds c si s :
  text s si (ds ++ [c]) -> digits ds -> stopper c -> (length ds < 300)%nat -> 0 <= si -> si + Z.of_nat (length ds) + 1 < 65536 ->
  does (address_32 si) s (u32 (hexval ds), si + Z.of_nat (length ds) + 1) s.
Proof.
  intros. unfold address_32. eapply does_bind; [by apply (strtohex_32_does ds c)|]. cbn. rewrite <- Z.div_mod by lia. apply does_ret.
Qed.

(** Blanks. *)
Lemma skip_does part k c s : c <> 32 -> 65536 <= part -> forall fuel si,
  text s si (replicate k 32 ++ [c]) -> (k < fuel)%nat -> 0 <= si -> si + Z.of_nat k < 65535 ->
  does (skip_loop part fuel si) s (si + Z.of_nat k, c <? 32) s.
Proof.
  intros Hc Hp. induction k as [|k IH]; intros [|fuel] si Ht Hf Hs Hw; try lia; cbn [skip_loop replicate app] in *;
    apply text_cons in Ht as [E Ht]; then_by does_ld8; rewrite (Z.mod_small si part), E by lia.
  - rewrite (proj2 (Z.eqb_neq c 32)), Z.add_0_r by done. apply does_ret.
  - cbn [Z.eqb Pos.eqb]. rewrite (Z.mod_small (si + 1)) by lia. replace (si - si + (si + 1)) with (si + 1) by lia.
    replace (si + Z.of_nat (S k)) with (si + 1 + Z.of_nat k) by lia. apply IH; done || lia.
Qed.

Lemma str_skip_does part c si s :
  65536 <= part -> d_phys s (bus si) = c -> c <> 32 -> 0 <= si < 65535 -> does (str_skip_whitespace part si) s (si, c <? 32) s.
Proof.
  intros Hp E Hc Hs. pose proof bo_fuel. replace si with (si + Z.of_nat 0) at 2 by lia.
  apply skip_does; [done|done| |lia|lia|lia]. cbn. apply text_cons. by split.
Qed.

(** Comparisons. *)
Lemma looking_at_does l : forall si s,
  does (looking_at si l) s (bool_decide (peek bus (d_phys s) si (length l) = l)) s.
Proof.
  induction l as [|c l IH]; intros si s; cbn [looking_at].
  - apply does_ret.
  - then_by does_ld8. pose proof (text_cons s si c l) as Ht. unfold text in Ht. case_bool; bool_to_prop.
    + rewrite (bool_decide_ext _ _ Ht). replace (bool_decide _) with (bool_decide (peek bus (d_phys s) (si + 1) (length l) = l)); [apply IH|].
      apply bool_decide_ext. tauto.
    + rewrite bool_decide_eq_false_2 by (rewrite Ht; tauto). apply does_ret.
Qed.

End Spec.
