(* ===== verification/DebugCommands.v ===== *)
(** * The commands of the serial debugger

    The line editor for any input, and every command in the modes whose way to
    memory satisfies [FlavourLaws]. *)

From S2P Require Import Prelude Machine Memory Vga Text ELib SLib SLibSpec SerialTarget Debugger DebugModes DebuggerSpec.

Definition is_byte (b : Z) : Prop := 0 <= b < 256.

(** ** Lines *)

(** What the bytes of a line leave in a buffer with room for [n], and what comes
    after the line: CR or LF ends it, ESC quotes the next byte, and bytes for
    which there is no room are dropped. *)
Definition keep (n : nat) (b : Z) (t : nat -> option (list Z * list Z)) : option (list Z * list Z) :=
  match n with O => t O | S n => '(l, r) ← t n; Some (b :: l, r) end.

Fixpoint typed (n : nat) (input : list Z) : option (list Z * list Z) :=
  match input with
  | [] => None
  | c :: rest =>
      if (c =? 10) || (c =? 13) then Some ([], rest)
      else if c =? 27 then match rest with [] => None | b :: rest => keep n b (λ n, typed n rest) end
      else keep n c (λ n, typed n rest)
  end.

Definition plain (l : list Z) : Prop := Forall (λ c, c <> 10 /\ c <> 13 /\ c <> 27) l.

Lemma typed_plain l r : forall n, plain l -> (length l <= n)%nat -> typed n (l ++ 10 :: r) = Some (l, r).
Proof.
  induction l as [|c l IH]; intros n Hl Hn; [done|]. apply Forall_cons in Hl as [(H1 & H2 & H3) Hl]. cbn [length] in Hn.
  destruct n as [|n]; [lia|]. cbn [app typed]. rewrite (proj2 (Z.eqb_neq _ _) H1), (proj2 (Z.eqb_neq _ _) H2), (proj2 (Z.eqb_neq _ _) H3).
  cbn [orb keep]. by rewrite IH by (done || lia).
Qed.

Lemma keep_length n b t l r :
  (forall m l r, t m = Some (l, r) -> (length l <= m)%nat) -> keep n b t = Some (l, r) -> (length l <= n)%nat.
Proof.
  intros Ht. destruct n as [|n]; cbn [keep]; [apply Ht|]. destruct (t n) as [[l' r']|] eqn:E; [|done]. intros [= <- <-].
  cbn [length]. specialize (Ht _ _ _ E). lia.
Qed.

(** A line never has more than the buffer holds. *)
Lemma typed_length k : forall input n l r, (length input <= k)%nat -> typed n input = Some (l, r) -> (length l <= n)%nat.
Proof.
  induction k as [|k IH]; intros [|c input] n l r Hk; try done; cbn [length typed] in *; [lia|].
  destruct ((c =? 10) || (c =? 13)); [intros [= <- <-]; cbn; lia|]. destruct (c =? 27).
  - destruct input as [|b input]; [done|]. cbn [length] in Hk. apply keep_length. intros m l' r'. apply IH. lia.
  - apply keep_length. intros m l' r'. apply IH. lia.
Qed.

Lemma poke_app decode l1 : forall l2 a p, poke decode a (l1 ++ l2) p = poke decode (a + Z.of_nat (length l1)) l2 (poke decode a l1 p).
Proof.
  induction l1 as [|b l1 IH]; intros l2 a p; cbn [app poke length]; [by rewrite Z.add_0_r|]. rewrite IH. f_equal. lia.
Qed.

Section Commands.
Context `{BD : Board} `{IM : Image} `{BO : !BoardOk}.

(** Bytes stored one after the other. *)
Definition put (a : Z) (l : list Z) (s : debugger) : debugger := set_d_phys (poke bus a l (d_phys s)) s.

Lemma put_nil a s : put a [] s = s.
Proof. by destruct s. Qed.

Lemma put_app a l m s : put (a + Z.of_nat (length l)) m (put a l s) = put a (l ++ m) s.
Proof. unfold put. by rewrite poke_app. Qed.

Lemma st8_put a v s : does (st8 a v) s tt (put a [v] s).
Proof. apply does_st8. Qed.

(** A store to the image. *)
Lemma put_outside a l s x :
  own a -> a + Z.of_nat (length l) <= last_byte -> (x < a \/ a + Z.of_nat (length l) <= x) -> d_phys (put a l s) x = d_phys s x.
Proof.
  intros Ha Hl Hx. apply poke_outside. intros i Hi. rewrite bus_own by (unfold own in *; lia). lia.
Qed.

Lemma wired_put a l s :
  own a -> a + Z.of_nat (length l) <= comport \/ comport + 2 <= a -> a + Z.of_nat (length l) <= last_byte -> wired s -> wired (put a l s).
Proof.
  intros Ha Hc Hl Hw. pose proof bo_comport. pose proof bo_image. apply (wired_same s); [done|done|done|].
  intros x Hx. apply put_outside; [done|lia|]. unfold PML4_LOCATION in Hx. lia.
Qed.

Lemma own_buf i : 0 <= i < 300 -> own (in_buf + i).
Proof. unfold own. pose proof bo_image. lia. Qed.

Lemma main_loop_read_does fuel : forall si s l r,
  wired s -> typed (Z.to_nat (255 - si)) (d_rx s) = Some (l, r) -> (length (d_rx s) < fuel)%nat -> 0 <= si <= 255 ->
  does (main_loop_read fuel si) s (si + Z.of_nat (length l)) (set_d_rx r (put (in_buf + si) l s)).
Proof.
  induction fuel as [|fuel IH]; intros si s l r Hw Ht Hf Hs; [lia|]. cbn [main_loop_read].
  assert (forall b rest s1, wired s1 -> d_rx s1 = rest -> (length rest < fuel)%nat -> d_phys s1 = d_phys s -> s = set_d_rx (d_rx s) s1 ->
    keep (Z.to_nat (255 - si)) b (λ n, typed n rest) = Some (l, r) ->
    does (if IN_BUF_SIZE - 1 <=? si then main_loop_read fuel si else st8 (in_buf + si) b ;; main_loop_read fuel (si + 1)) s1
      (si + Z.of_nat (length l)) (set_d_rx r (put (in_buf + si) l s))) as Hkeep.
  { intros b rest s1 Hw1 Er Hf1 Ep Es Hk. rewrite Es. change (set_d_rx r (put ?a l (set_d_rx ?x s1))) with (set_d_rx r (put a l s1)).
    change (IN_BUF_SIZE - 1) with 255. case_bool; bool_to_prop.
    - replace (Z.to_nat (255 - si)) with O in Hk by lia. apply IH; [done| |by rewrite Er|lia].
      replace (Z.to_nat (255 - si)) with O by lia. by rewrite Er.
    - replace (Z.to_nat (255 - si)) with (S (Z.to_nat (255 - (si + 1)))) in Hk by lia. cbn [keep] in Hk.
      destruct (typed _ rest) as [[l' r']|] eqn:Et; [|done]. injection Hk as <- <-.
      then_by st8_put. assert (wired (put (in_buf + si) [b] s1)) as Hw2.
      { pose proof bo_image. pose proof bo_comport. apply wired_put; cbn; [apply own_buf| | |done]; lia. }
      eapply does_eq; [apply (IH (si + 1) _ l' r'); [done|by cbn; rewrite Er|cbn; by rewrite Er|lia]|cbn; lia|].
      f_equal. rewrite Z.add_assoc. exact (put_app (in_buf + si) [b] l' s1). }
  destruct (d_rx s) as [|c rest] eqn:Er; [done|]. cbn [typed length] in *. then_by com_char_in_does; [done|done|].
  destruct (c =? 10) eqn:E10; [|destruct (c =? 13) eqn:E13]; cbn [orb] in Ht.
  1, 2: injection Ht as <- <-; rewrite put_nil; cbn; rewrite Z.add_0_r; apply does_ret.
  destruct (c =? 27).
  - destruct rest as [|b rest]; [done|]. cbn [length] in Hf. then_by com_char_in_does; [by apply wired_rx|done|].
    apply (Hkeep b rest); [by apply wired_rx, wired_rx|done|lia|done| |done]. cbn. destruct s; cbn in *; by subst.
  - then_by does_ret. apply (Hkeep c rest); [by apply wired_rx|done|lia|done| |done]. cbn. destruct s; cbn in *; by subst.
Qed.

(** ** Waiting for more *)

(** Whatever the UART has been asked so far, [m] does not come back. *)
Definition stalls {A} (m : D A) (s : debugger) : Prop := forall n, m (set_d_looks n s) = inl NoReturn.

Lemma stalls_bind {A B} (m : D A) (k : A -> D B) s : stalls m s -> stalls (m ≫= k) s.
Proof. intros Hm n. unfold mbind, SM_bind. by rewrite Hm. Qed.

Lemma stalls_after {A B} (m : D A) (k : A -> D B) s a s1 : does m s a s1 -> stalls (k a) s1 -> stalls (m ≫= k) s.
Proof. intros Hm Hk n. unfold mbind, SM_bind. destruct (Hm n) as [n1 ->]. apply Hk. Qed.

(** Without input the status never shows any. *)
Lemma wait_status_stalls s fuel : d_rx s = [] -> stalls (wait_status fuel (uart + 5) 1) s.
Proof.
  intros Er. induction fuel as [|fuel IH]; intros j; [done|]. cbn [wait_status]. unfold mbind, SM_bind.
  destruct (status_run j s) as (al & E & ->). rewrite E, Er, andb_false_r.
  rewrite Z.lor_0_r, <- Z.land_assoc. change (Z.land 0xFE 1) with 0. rewrite Z.land_0_r. cbn [Z.eqb]. apply IH.
Qed.

Lemma com_char_in_stalls s : wired s -> d_rx s = [] -> stalls com_char_in s.
Proof.
  intros Hw Er. eapply stalls_after; [by apply does_comport|]. rewrite line_port. apply stalls_bind. by apply wait_status_stalls.
Qed.

(** The line is not complete. *)
Lemma main_loop_read_stalls fuel : forall si s,
  wired s -> typed (Z.to_nat (255 - si)) (d_rx s) = None -> 0 <= si <= 255 -> stalls (main_loop_read fuel si) s.
Proof.
  induction fuel as [|fuel IH]; intros si s Hw Ht Hs; [done|]. cbn [main_loop_read].
  destruct (d_rx s) as [|c rest] eqn:Er; [apply stalls_bind; by apply com_char_in_stalls|]. cbn [typed] in Ht.
  eapply stalls_after; [by apply com_char_in_does|]. pose proof (wired_rx rest s Hw) as Hw1.
  destruct (c =? 10); [done|]. destruct (c =? 13); [done|]. cbn [orb] in Ht.
  assert (forall b rest' s1, wired s1 -> d_rx s1 = rest' -> keep (Z.to_nat (255 - si)) b (λ n, typed n rest') = None ->
    stalls (if IN_BUF_SIZE - 1 <=? si then main_loop_read fuel si else st8 (in_buf + si) b ;; main_loop_read fuel (si + 1)) s1) as Hkeep.
  { intros b rest' s1 Hw' Er' Hk. change (IN_BUF_SIZE - 1) with 255. case_bool; bool_to_prop.
    - replace (Z.to_nat (255 - si)) with O in Hk by lia. apply IH; [done| |lia]. replace (Z.to_nat (255 - si)) with O by lia. by rewrite Er'.
    - replace (Z.to_nat (255 - si)) with (S (Z.to_nat (255 - (si + 1)))) in Hk by lia. cbn [keep] in Hk.
      destruct (typed _ rest') as [[l' r']|] eqn:Et; [done|]. eapply stalls_after; [apply st8_put|].
      apply IH; [|by cbn; rewrite Er'|lia]. pose proof bo_image. pose proof bo_comport. apply wired_put; cbn; [apply own_buf| | |done]; lia. }
  destruct (c =? 27).
  - destruct rest as [|b rest]; [apply stalls_bind; by apply com_char_in_stalls|]. eapply stalls_after; [by apply com_char_in_does|].
    apply (Hkeep b rest); [by apply wired_rx|done|done].
  - eapply stalls_after; [apply does_ret|]. by apply (Hkeep c rest).
Qed.

Lemma pass_stalls F s : wired s -> typed 255 (d_rx s) = None -> stalls (main_loop_pass F) s.
Proof.
  intros Hw Ht. eapply stalls_after; [by apply does_gets|]. apply stalls_bind. by apply main_loop_read_stalls.
Qed.

Lemma clear_does k : forall n di s, n = S k -> di + Z.of_nat n = in_buf + 256 ->
  does (main_loop_process_clr n di) s tt (put di (replicate n 0) s).
Proof.
  induction k as [|k IH]; intros n di s -> Hd; cbn [main_loop_process_clr]; change IN_BUF_SIZE with 256; then_by st8_put.
  - rewrite (proj2 (Z.ltb_ge _ _)) by lia. apply does_ret.
  - rewrite (proj2 (Z.ltb_lt _ _)) by lia. eapply does_eq; [apply (IH (S k)); [done|lia]|done|].
    exact (put_app di [0] (replicate (S k) 0) s).
Qed.

(** The clearing loop ends with the buffer, whatever is left of its passes. *)
Lemma clear_more k : forall n m di s, n = S k -> di + Z.of_nat n = in_buf + 256 -> (n <= m)%nat ->
  main_loop_process_clr m di s = main_loop_process_clr n di s.
Proof.
  induction k as [|k IH]; intros n [|m] di s -> Hd Hm; try lia; cbn [main_loop_process_clr]; change IN_BUF_SIZE with 256;
    unfold st8, modify, mbind, SM_bind.
  - by rewrite (proj2 (Z.ltb_ge _ _)) by lia.
  - rewrite (proj2 (Z.ltb_lt _ _)) by lia. apply (IH (S k)); done || lia.
Qed.

(** The buffer with the line [l], when [r] is still to come. *)
Definition loaded (l r : list Z) (s : debugger) : debugger := set_d_rx r (put in_buf (l ++ replicate (256 - length l) 0) s).

Lemma loaded_text l r s : (length l <= 255)%nat -> text (loaded l r s) in_buf (l ++ replicate (256 - length l) 0).
Proof.
  intros Hl. unfold text, loaded. cbn. apply peek_poke. intros i j Hi Hj.
  rewrite length_app, length_replicate in Hi, Hj. rewrite !bus_own by (apply own_buf; lia). lia.
Qed.

Lemma loaded_length (l : list Z) : (length l <= 255)%nat -> length (l ++ replicate (256 - length l) 0) = 256%nat.
Proof. intros. rewrite length_app, length_replicate. lia. Qed.

Lemma loaded_phys l r s x : (length l <= 255)%nat -> x < in_buf \/ in_buf + 256 <= x -> d_phys (loaded l r s) x = d_phys s x.
Proof.
  intros Hl Hx. pose proof bo_image. pose proof (own_buf 0). rewrite Z.add_0_r in *.
  apply put_outside; rewrite ?loaded_length by done; [apply H0|..]; lia.
Qed.

Lemma wired_loaded l r s : (length l <= 255)%nat -> wired s -> wired (loaded l r s).
Proof.
  intros Hl Hw. pose proof bo_comport. pose proof bo_image. apply (wired_same s); [done|done|done|].
  intros x Hx. apply loaded_phys; [done|]. unfold PML4_LOCATION in Hx. lia.
Qed.

(** A line is in the buffer, with zeros behind it. *)
Lemma line_does s l r :
  wired s -> typed 255 (d_rx s) = Some (l, r) ->
  does (si ← main_loop_read (S (length (d_rx s))) 0; main_loop_process_clr (Z.to_nat IN_BUF_SIZE) (in_buf + si) ;; mret (in_buf + si)) s
    (in_buf + Z.of_nat (length l)) (loaded l r s).
Proof.
  intros Hw Ht. pose proof (typed_length _ _ _ _ _ (le_n _) Ht) as Hlen.
  then_by main_loop_read_does; [done|exact Ht|lia|lia|]. rewrite !Z.add_0_r, Z.add_0_l. eapply does_bind; [|apply does_ret].
  intros n. destruct (clear_does (255 - length l) (256 - length l) (in_buf + Z.of_nat (length l)) (set_d_rx r (put in_buf l s))
    ltac:(lia) ltac:(lia) n) as [n' E].
  exists n'. rewrite (clear_more (255 - length l) (256 - length l)); [|lia|lia|change (Z.to_nat IN_BUF_SIZE) with 256%nat; lia].
  rewrite E. do 3 f_equal. change (put (in_buf + Z.of_nat (length l)) ?z (set_d_rx r (put in_buf l s))) with
    (set_d_rx r (put (in_buf + Z.of_nat (length l)) z (put in_buf l s))). by rewrite put_app.
Qed.

(** A pass is a line and its command. *)
Lemma pass_line F s di s1 a s2 :
  does (si ← main_loop_read (S (length (d_rx s))) 0; main_loop_process_clr (Z.to_nat IN_BUF_SIZE) (in_buf + si) ;; mret (in_buf + si)) s di s1 ->
  does (if in_buf =? di then skip else
        cf ← main_loop_command F in_buf di; if (cf : bool) then com_str_out err_head ;; com_str_out unknown_command_msg else skip) s1 a s2 ->
  does (main_loop_pass F) s a s2.
Proof.
  intros Hl Hc. unfold main_loop_pass. then_by does_gets; [done|]. intros n. destruct (Hl n) as [n1 E]. destruct (Hc n1) as [n2 E2].
  exists n2. rewrite <- E2. revert E. unfold mbind, SM_bind. destruct (main_loop_read _ 0 _) as [|[si t]]; [done|].
  destruct (main_loop_process_clr _ _ t) as [|[[] u]]; [done|]. by intros [= <- ->].
Qed.

(** A pass of the main loop, up to the command. *)
Lemma pass_does F s l r (cf : bool) s1 :
  wired s -> typed 255 (d_rx s) = Some (l, r) -> l <> [] ->
  does (main_loop_command F in_buf (in_buf + Z.of_nat (length l))) (loaded l r s) cf s1 -> wired s1 ->
  does (main_loop_pass F) s tt (if cf then print (err_head ++ unknown_command_msg) s1 else s1).
Proof.
  intros Hw Ht Hl Hc Hw1. eapply pass_line; [by apply line_does|].
  assert (0 < Z.of_nat (length l)) by (destruct l; [done|cbn; lia]). rewrite (proj2 (Z.eqb_neq _ _)) by lia.
  eapply does_bind; [exact Hc|]. destruct cf; [|apply does_ret].
  then_by com_str_out_does; [done|]. rewrite <- print_print. by apply com_str_out_does, wired_print.
Qed.

(** An empty line does nothing. *)
Lemma pass_empty_does F s r :
  wired s -> typed 255 (d_rx s) = Some ([], r) -> does (main_loop_pass F) s tt (loaded [] r s).
Proof.
  intros Hw Ht. eapply pass_line; [by apply line_does|]. change (Z.of_nat (length (@nil Z))) with 0. rewrite Z.add_0_r, Z.eqb_refl. apply does_ret.
Qed.

(** ** Recognising a command *)

Lemma text_take s a l n : text s a l -> (n <= length l)%nat -> peek bus (d_phys s) a n = take n l.
Proof.
  intros Ht Hn. rewrite <- (take_drop n l) in Ht. apply text_app in Ht as [Ht _]. unfold text in Ht.
  by rewrite length_take, Nat.min_l in Ht by done.
Qed.

Lemma handle_misses F word body si di s l :
  text s si l -> (length word <= length l)%nat -> take (length word) l <> word -> does (handle F word body si di) s None s.
Proof.
  intros Ht Hl Hne. unfold handle. then_by looking_at_does. rewrite (text_take _ _ _ _ Ht Hl), bool_decide_eq_false_2 by done. apply does_ret.
Qed.

Lemma handle_hits F word body si di s l cf s1 :
  text s si (word ++ l) -> 0 <= si -> si + Z.of_nat (length word) < fl_word F ->
  does (body (si + Z.of_nat (length word)) di) s cf s1 -> does (handle F word body si di) s (Some cf) s1.
Proof.
  intros Ht Hs Hw Hb. unfold handle. then_by looking_at_does. apply text_app in Ht as [Ht _]. rewrite bool_decide_eq_true_2 by done.
  rewrite Z.mod_small by lia. eapply does_bind; [exact Hb|apply does_ret].
Qed.

Lemma first_misses h l si di s cf s1 : does (h si di) s None s -> does (first_handler l si di) s cf s1 -> does (first_handler (h :: l) si di) s cf s1.
Proof. intros Hh Hl. cbn [first_handler]. by eapply does_bind; [exact Hh|]. Qed.

Lemma first_hits h l si di s cf s1 : does (h si di) s (Some cf) s1 -> does (first_handler (h :: l) si di) s cf s1.
Proof. intros Hh. cbn [first_handler]. eapply does_bind; [exact Hh|apply does_ret]. Qed.

Lemma response_does msg s : wired s -> does (command_response_output msg) s false (print (ok_head ++ msg ++ crlf) s).
Proof.
  intros Hw. unfold command_response_output. then_by com_str_out_does; [done|]. then_by com_str_out_does; [by apply wired_print|].
  then_by com_str_out_does; [by apply wired_print, wired_print|]. rewrite !print_print. apply does_ret.
Qed.

Lemma response_err_does msg s : wired s -> does (command_response_output_err msg) s false (print (err_head ++ msg ++ crlf) s).
Proof.
  intros Hw. unfold command_response_output_err. then_by com_str_out_does; [done|]. then_by com_str_out_does; [by apply wired_print|].
  then_by com_str_out_does; [by apply wired_print, wired_print|]. rewrite !print_print. apply does_ret.
Qed.

(** ** Reaching memory *)

(** Nothing has changed but variables of the image other than the buffer and the
    port's address. *)
Record kept (s s' : debugger) : Prop := {
  ke_wired : wired s';
  ke_phys : forall x, ~ own x \/ in_buf <= x < in_buf + 256 \/ comport <= x < comport + 2 -> d_phys s' x = d_phys s x;
  ke_rx : d_rx s' = d_rx s;
  ke_tx : d_tx s' = d_tx s;
  ke_ports : d_ports s' = d_ports s;
  ke_mode : d_mode s' = d_mode s
}.

(** The cells of a block as the debugger selects them. *)
Definition cell (a : Z) : Z := bus (u32 a).

(** The number in a command that is an address has 64 bits in long mode and 32 in
    the others. *)
Definition span (m : cpu_mode) : Z := match m with ModeX64 => 18446744073709551616 | _ => 4294967296 end.
Definition addr_of (m : cpu_mode) (ds : list Z) : Z := hexval ds mod span m.

Lemma addr_of_range m ds : 0 <= addr_of m ds < span m.
Proof. apply Z.mod_pos_bound. by destruct m. Qed.

(** Long mode reaches 64 GB. *)
Definition within (m : cpu_mode) (a : Z) (n : nat) : Prop := m = ModeX64 -> a + Z.of_nat n <= 68719476736.

(** A way to memory: the bytes from an address on are the cells of the bus. *)
Class FlavourLaws (F : flavour) (m : cpu_mode) : Prop := {
  fw_word : exists k, fl_word F = 16 ^ k /\ 4 <= k;
  fw_part : 65536 <= fl_part F;
  fw_address ds c si s :
    text s si (ds ++ [c]) -> digits ds -> stopper c -> (length ds < 300)%nat -> 0 <= si -> si + Z.of_nat (length ds) + 1 < 65536 ->
    does (fl_address F si) s (addr_of m ds, si + Z.of_nat (length ds) + 1) s;
  fw_pointer a s :
    wired s -> 0 <= a < span m -> fl_valid F a = true ->
    exists es bx s1, does (fl_pointer F a) s (es, bx) s1 /\ kept s s1 /\ 0 <= bx < fl_word F /\
      forall i t, 0 <= i <= 65520 -> (m = ModeX64 -> a + i < 68719476736) -> wired t -> d_mode t = m ->
        does (fl_cell F es ((bx + i) mod fl_word F)) t (u32 (a + i)) t;
  fw_bump es s : wired s -> exists es' s1, does (fl_bump F es) s es' s1 /\ kept s s1
}.

Section Flavour.
Context (F : flavour) (m : cpu_mode) `{FL : !FlavourLaws F m}.

Lemma word_large : 65536 <= fl_word F.
Proof. destruct fw_word as (k & -> & Hk). change 65536 with (16 ^ 4). apply Z.pow_le_mono_r; lia. Qed.

Lemma number_does ds c si s :
  text s si (ds ++ [c]) -> digits ds -> stopper c -> (length ds < 300)%nat -> 0 <= si -> si + Z.of_nat (length ds) + 1 < 65536 ->
  does (strtohex (fl_word F) si) s (hexval ds mod fl_word F, si + Z.of_nat (length ds) + 1) s.
Proof.
  intros Ht Hd Hc Hl Hs Hw. pose proof word_large. destruct fw_word as (k & Ek & Hk). rewrite Ek in *. by apply (strtohex_does k ds c); try lia.
Qed.

Lemma next_does bx es s : does (next_byte F false es bx) s (es, (bx + 1) mod fl_word F) s.
Proof. apply does_ret. Qed.

(** Offsets from [bx] on reach the cells from [a] on. *)
Definition reaches (es bx a : Z) (n : nat) : Prop :=
  forall i t, 0 <= i < Z.of_nat n -> wired t -> d_mode t = m -> does (fl_cell F es ((bx + i) mod fl_word F)) t (u32 (a + i)) t.

Lemma reaches_S es bx a n : reaches es bx a (S n) -> reaches es ((bx + 1) mod fl_word F) (a + 1) n.
Proof.
  intros H i t Hi Hw Hm. pose proof word_large. rewrite Z.add_mod_idemp_l by lia. rewrite <- !Z.add_assoc. apply H; [lia|done|done].
Qed.

Lemma reaches_0 es bx a n s : reaches es bx a (S n) -> 0 <= bx < fl_word F -> wired s -> d_mode s = m -> does (fl_cell F es bx) s (u32 a) s.
Proof.
  intros H Hb Hw Hm. specialize (H 0 s ltac:(lia) Hw Hm). by rewrite !Z.add_0_r, Z.mod_small in H by done.
Qed.

Lemma peek_S d p a n : peek d p a (S n) = p (d a) :: peek d p (a + 1) n.
Proof.
  unfold peek. cbn [seq fmap list_fmap]. rewrite Z.add_0_r. f_equal. rewrite <- fmap_S_seq, <- list_fmap_compose.
  apply list_fmap_ext. intros i x _. cbn. do 2 f_equal. lia.
Qed.

Lemma read_bytes_loop_does show out n : (forall al s, wired s -> does (show al) s tt (print (out al) s)) ->
  forall es bx a s, wired s -> d_mode s = m -> reaches es bx a n -> 0 <= bx < fl_word F ->
  does (read_bytes_loop F show n es bx) s tt (print (concat (out <$> peek cell (d_phys s) a n)) s).
Proof.
  intros Hshow. induction n as [|n IH]; intros es bx a s Hw Hm Hr Hb; cbn [read_bytes_loop].
  - replace (print _ s) with s by (unfold print; rewrite app_nil_r; by destruct s). apply does_ret.
  - pose proof word_large. then_by reaches_0; [done|done|done|done|]. then_by does_ld8. then_by Hshow; [done|]. then_by next_does.
    rewrite peek_S, fmap_cons. cbn [concat]. rewrite <- print_print.
    eapply does_eq; [apply (IH es _ (a + 1)); [by apply wired_print|done|by apply reaches_S|apply Z.mod_pos_bound; lia]|done|done].
Qed.

(** The mode reaches the block, and it does not touch the debugger. *)
Definition clear_of (a : Z) (n : nat) : Prop := within m a n /\ forall i, 0 <= i < Z.of_nat n -> ~ reserved m (cell (a + i)).

Lemma clear_0 a n : clear_of a (S n) -> ~ reserved m (cell a).
Proof. intros [_ Hc]. specialize (Hc 0 ltac:(lia)). by rewrite Z.add_0_r in Hc. Qed.

Lemma clear_S a n : clear_of a (S n) -> clear_of (a + 1) n.
Proof.
  intros [Hr Hc]. split; [intros Hm; specialize (Hr Hm); lia|]. intros i Hi. rewrite <- Z.add_assoc. apply Hc. lia.
Qed.

Lemma wired_poke a b s : ~ reserved m (cell a) -> d_mode s = m -> wired s -> wired (set_d_phys (λ x, if x =? cell a then b else d_phys s x) s).
Proof.
  intros Ho Hm Hw. pose proof bo_comport. pose proof bo_image. apply (wired_same s); [done|done|done|]. intros x Hx. cbn.
  rewrite (proj2 (Z.eqb_neq _ _)); [done|]. intros E. apply Ho. rewrite <- E, <- Hm. unfold reserved, own. destruct Hx as [Hx|Hx]; [left; lia|by right].
Qed.

Lemma writeb_loop_does buf : forall es bx a r s,
  wired s -> d_mode s = m -> d_rx s = buf ++ r -> reaches es bx a (length buf) -> clear_of a (length buf) -> 0 <= bx < fl_word F ->
  does (writeb_loop F (length buf) es bx) s tt (set_d_rx r (set_d_phys (poke cell a buf (d_phys s)) s)) /\
  wired (set_d_rx r (set_d_phys (poke cell a buf (d_phys s)) s)).
Proof.
  induction buf as [|b buf IH]; intros es bx a r s Hw Hm Er Hr Hc Hb; cbn [writeb_loop length poke].
  - replace (set_d_rx r _) with s by (destruct s; cbn in *; by subst). split; [apply does_ret|done].
  - pose proof word_large. cbn [length] in *.
    pose proof (clear_0 _ _ Hc) as Ho.
    destruct (IH es ((bx + 1) mod fl_word F) (a + 1) r (set_d_phys (λ x, if x =? cell a then b else d_phys s x) (set_d_rx (buf ++ r) s)))
      as [Hd Hw']; [apply (wired_poke a b (set_d_rx (buf ++ r) s)); [done|done|by apply wired_rx]|done|done|by apply reaches_S|by apply clear_S|
      apply Z.mod_pos_bound; lia|].
    split; [|exact Hw']. then_by com_char_in_does; [done|done|]. then_by reaches_0; [done|done|by apply wired_rx|done|]. then_by does_st8. then_by next_does. exact Hd.
Qed.

(** *** Arguments *)

Lemma text_kept s s1 a l : kept s s1 -> in_buf <= a -> a + Z.of_nat (length l) <= in_buf + 256 -> text s a l -> text s1 a l.
Proof.
  intros Hk Ha Hl Ht. unfold text in *. rewrite <- Ht at 2. unfold peek. apply list_fmap_ext. intros i x Hx.
  apply lookup_seq in Hx. rewrite !bus_own by (replace (a + Z.of_nat x) with (in_buf + (a + Z.of_nat x - in_buf)) by lia; apply own_buf; lia).
  apply (ke_phys _ _ Hk). lia.
Qed.

Lemma with_pointer_does si s la c rest body :
  wired s -> text s si (la ++ 32 :: c :: rest) -> digits la -> (length la < 290)%nat -> c <> 32 ->
  0 <= si -> si + Z.of_nat (length la) + 1 < 65500 -> fl_valid F (addr_of m la) = true ->
  exists es bx s1, kept s s1 /\ 0 <= bx < fl_word F /\
    (forall n, Z.of_nat n <= 65520 -> within m (addr_of m la) n -> reaches es bx (addr_of m la) n) /\
    forall cf s2, does (body (si + Z.of_nat (length la) + 1) es bx) s1 cf s2 -> does (with_pointer F si body) s cf s2.
Proof.
  intros Hw Ht Hd Hl Hc Hs Hsi Hv. destruct (fw_pointer (addr_of m la) s Hw (addr_of_range _ _) Hv) as (es & bx & s1 & Hp & Hk & Hb0 & Hr).
  exists es, bx, s1. split; [done|]. split; [done|]. split; [intros n Hn Hin i t Hi Hwt Hmt; apply Hr; [lia|intros Hm; specialize (Hin Hm); lia|done|done]|]. intros cf s2 Hb.
  replace (la ++ 32 :: c :: rest) with ((la ++ [32]) ++ [c] ++ rest) in Ht by by rewrite <- app_assoc.
  apply text_app in Ht as [Ht1 Ht2]. apply text_cons in Ht2 as [Ec _]. rewrite length_app in Ec. cbn [length] in Ec.
  unfold with_pointer. then_by fw_address; [exact Ht1|done|by split|lia|lia|lia|]. cbn beta iota. rewrite Hv. cbn [negb].
  then_by str_skip_does; [apply fw_part| |exact Hc|lia|].
  { rewrite <- Ec. do 2 f_equal. lia. }
  eapply does_bind; [exact Hp|]. exact Hb.
Qed.

Lemma with_pointer_invalid si s la c rest body :
  wired s -> text s si (la ++ 32 :: c :: rest) -> digits la -> (length la < 290)%nat ->
  0 <= si -> si + Z.of_nat (length la) + 1 < 65500 -> fl_valid F (addr_of m la) = false ->
  does (with_pointer F si body) s false (print (err_head ++ address_invalid_msg ++ crlf) s).
Proof.
  intros Hw Ht Hd Hl Hs Hsi Hv. replace (la ++ 32 :: c :: rest) with ((la ++ [32]) ++ [c] ++ rest) in Ht by by rewrite <- app_assoc.
  apply text_app in Ht as [Ht1 _]. unfold with_pointer. then_by fw_address; [exact Ht1|done|by split|lia|lia|lia|].
  cbn beta iota. rewrite Hv. by apply response_err_does.
Qed.

(** *** Whole commands *)

(** A pass has answered [out] and left [r] to be read; the processor is in mode
    [m], and outside the debugger memory is [p]. *)
Record served (s : debugger) (m : cpu_mode) (r out : list Z) (p : Z -> Z) (s' : debugger) : Prop := {
  sv_wired : wired s';
  sv_mode : d_mode s' = m;
  sv_rx : d_rx s' = r;
  sv_tx : d_tx s' = d_tx s ++ out;
  sv_phys : forall x, ~ own x -> d_phys s' x = p x
}.

Lemma not_own_buf x : ~ own x -> x < in_buf \/ in_buf + 256 <= x.
Proof. intros Ho. destruct (decide (x < in_buf \/ in_buf + 256 <= x)) as [|H]; [done|]. exfalso. apply Ho.
  replace x with (in_buf + (x - in_buf)) by lia. apply own_buf. lia. Qed.

Lemma served_print l r s s1 out : (length l <= 255)%nat -> wired s -> kept (loaded l r s) s1 -> served s (d_mode s) r out (d_phys s) (print out s1).
Proof.
  intros Hl Hw Hk. split; cbn.
  - apply wired_print, (ke_wired _ _ Hk).
  - by rewrite (ke_mode _ _ Hk).
  - by rewrite (ke_rx _ _ Hk).
  - by rewrite (ke_tx _ _ Hk).
  - intros x Hx. rewrite (ke_phys _ _ Hk) by by left.
    rewrite loaded_phys; [done|done|by apply not_own_buf].
Qed.

Lemma kept_refl s : wired s -> kept s s.
Proof. by split. Qed.

(** A block outside the debugger reads the same with the line in the buffer. *)
Lemma peek_loaded l r s s1 a n :
  (length l <= 255)%nat -> kept (loaded l r s) s1 -> clear_of a n -> peek cell (d_phys s1) a n = peek cell (d_phys s) a n.
Proof.
  intros Hl Hk Hc. unfold peek. apply list_fmap_ext. intros i x Hx. apply lookup_seq in Hx as [-> Hi].
  assert (~ own (cell (a + Z.of_nat (0 + i)))) as Ho by (intros Ho; apply (proj2 Hc (Z.of_nat (0 + i))); [lia|by left]).
  rewrite (ke_phys _ _ Hk) by by left.
  by rewrite loaded_phys by (done || by apply not_own_buf).
Qed.

Lemma concat_singles (l : list Z) : concat ((λ x, [x]) <$> l) = l.
Proof. induction l as [|x l IH]; [done|]. rewrite fmap_cons. cbn [concat app]. by rewrite IH. Qed.

(** The line as it lies in the buffer, behind the word of the command. *)
Lemma loaded_args word l r s :
  (length (word ++ l) <= 254)%nat -> exists z, text (loaded (word ++ l) r s) in_buf (word ++ l ++ 0 :: 0 :: z).
Proof.
  intros Hl. pose proof (loaded_text (word ++ l) r s ltac:(lia)) as Ht.
  destruct (256 - length (word ++ l))%nat as [|[|k]] eqn:E; [lia|lia|]. rewrite <- app_assoc in Ht. by exists (replicate k 0).
Qed.

(** [READB a n] and [READ a n] answer with the bytes of the block. *)
Lemma read_command_does show out s l r si la lb z :
  (forall al s, wired s -> does (show al) s tt (print (out al) s)) ->
  wired s -> d_mode s = m -> (length l <= 255)%nat -> in_buf <= si -> si + Z.of_nat (length la + length lb + 3) <= in_buf + 256 ->
  text (loaded l r s) si (la ++ [32] ++ lb ++ 0 :: 0 :: z) -> digits la -> digits lb -> fl_valid F (addr_of m la) = true ->
  let n := Z.to_nat (hexval lb mod fl_word F) in
  Z.of_nat n <= 65520 -> clear_of (addr_of m la) n ->
  exists s', does (read_command F show si) (loaded l r s) false s' /\
    served s (d_mode s) r (ok_head ++ concat (out <$> peek cell (d_phys s) (addr_of m la) n) ++ crlf) (d_phys s) s'.
Proof.
  intros Hshow Hw Hm Hl Hsi Hlen Ht Hla Hlb Hv n Hn Hc. pose proof (wired_loaded l r s Hl Hw) as Hwl. pose proof bo_image. pose proof bo_comport.
  assert (exists c rest, lb ++ 0 :: 0 :: z = c :: rest /\ c <> 32) as (c & rest & Ec & Hne).
  { destruct lb as [|c lb]; [by exists 0, (0 :: z)|]. exists c, (lb ++ 0 :: 0 :: z). split; [done|]. apply Forall_cons in Hlb as [Hh _]. by intros ->. }
  destruct (with_pointer_does si (loaded l r s) la c rest (λ si es bx, '(cx, _) ← strtohex (fl_word F) si;
      com_str_out ok_head ;; read_bytes_loop F show (Z.to_nat cx) es bx ;; com_str_out crlf ;; mret false))
    as (es & bx & s1 & Hk & Hb & Hr & Hrun); [done|by cbn [app] in Ht; rewrite Ec in Ht|done|lia|done|lia|lia|done|].
  exists (print (ok_head ++ concat (out <$> peek cell (d_phys s) (addr_of m la) n) ++ crlf) s1). split; [|by eapply served_print].
  apply Hrun. pose proof (ke_wired _ _ Hk) as Hw1.
  assert (text s1 (si + Z.of_nat (length la) + 1) (lb ++ [0])) as Ht1.
  { apply (text_kept _ _ _ _ Hk); [lia|rewrite length_app; cbn; lia|].
    rewrite !text_app in Ht. destruct Ht as (_ & _ & Ht1 & Ht2). apply text_app. split; [exact Ht1|].
    apply text_cons in Ht2 as [E _]. apply text_cons. split; [exact E|done]. }
  then_by number_does; [exact Ht1|done|by split|lia|lia|lia|]. then_by com_str_out_does; [done|].
  fold n. then_by (read_bytes_loop_does show out n Hshow es bx (addr_of m la)); [by apply wired_print|by cbn; rewrite (ke_mode _ _ Hk)|apply Hr; [done|apply Hc]|done|].
  then_by com_str_out_does; [by apply wired_print, wired_print|]. rewrite !print_print.
  change (d_phys (print ok_head s1)) with (d_phys s1). rewrite (peek_loaded l r s s1) by done. rewrite <- ?app_assoc. apply does_ret.
Qed.

Lemma digits_plain l : digits l -> plain l.
Proof. intros H. eapply Forall_impl; [exact H|]. intros c Hc. split_and!; by intros ->. Qed.

Lemma plain_app l l' : plain l -> plain l' -> plain (l ++ l').
Proof. apply Forall_app_2. Qed.

(** A command of a word and two numbers is read as it was sent. *)
Lemma typed_request word la lb r :
  plain word -> digits la -> digits lb -> (length word + length la + length lb < 255)%nat ->
  typed 255 ((word ++ la ++ [32] ++ lb) ++ 10 :: r) = Some (word ++ la ++ [32] ++ lb, r).
Proof.
  intros Hw Ha Hb Hl. apply typed_plain; [|rewrite !length_app; cbn; lia]. repeat apply plain_app; [done|by apply digits_plain|by repeat constructor|by apply digits_plain].
Qed.

End Flavour.
End Commands.

(** A decidable fact about constants. *)
Ltac by_decision := refine (bool_decide_unpack _ _); vm_compute; exact I.

(** A handler of another word does not see its command. *)
Ltac miss Ht := apply first_misses; [eapply handle_misses; [exact Ht|cbn; rewrite ?length_app; cbn; lia|discriminate]|].

Section Requests.
Context `{BD : Board} `{IM : Image} `{BO : !BoardOk} (F : flavour) (m : cpu_mode) `{FL : !FlavourLaws F m}.

(** *** READB and READ *)

Lemma readb_pass s la lb r :
  wired s -> d_mode s = m -> d_rx s = (str "READB " ++ la ++ [32] ++ lb) ++ 10 :: r -> digits la -> digits lb ->
  (length la + length lb <= 240)%nat -> fl_valid F (addr_of m la) = true ->
  let n := Z.to_nat (hexval lb mod fl_word F) in
  Z.of_nat n <= 65520 -> clear_of m (addr_of m la) n ->
  exists s', does (main_loop_pass F) s tt s' /\
    served s (d_mode s) r (ok_head ++ peek cell (d_phys s) (addr_of m la) n ++ crlf) (d_phys s) s'.
Proof.
  intros Hw Hm Er Hla Hlb Hl Hv n Hn Hc. set (l := str "READB " ++ la ++ [32] ++ lb) in *.
  assert (length l = (7 + length la + length lb)%nat) as El by (unfold l; rewrite !length_app; cbn; lia).
  destruct (loaded_args (str "READB ") (la ++ [32] ++ lb) r s ltac:(change (str "READB " ++ la ++ [32] ++ lb) with l; lia)) as [z Ht].
  change (str "READB " ++ la ++ [32] ++ lb) with l in Ht. pose proof bo_image.
  destruct (read_command_does F m com_char_out (λ x, [x]) s l r (in_buf + 6) la lb z) as (s' & Hd & Hs); try done; try lia.
  { intros al s1 Hw1. by apply com_char_out_does. }
  { pose proof Ht as Ht'. apply text_app in Ht' as [_ Ht']. by rewrite <- !app_assoc in Ht'. }
  rewrite concat_singles in Hs. exists s'. split; [|done].
  apply (pass_does F s l r false s'); [done| |done| |by apply Hs].
  - rewrite Er. by apply typed_request; [by_decision| | |cbn; lia].
  - unfold main_loop_command, handlers. cbn [app]. miss Ht. miss Ht. apply first_hits.
    apply (handle_hits F _ _ _ _ _ _ false s' Ht); [lia|change (Z.of_nat (length (str "READB "))) with 6; pose proof (word_large F m); lia|exact Hd].
Qed.

(** *** WRITEB *)

Lemma poke_same d buf : forall a p q x, p x = q x -> poke d a buf p x = poke d a buf q x.
Proof.
  induction buf as [|b buf IH]; intros a p q x E; cbn [poke]; [done|]. apply IH. by rewrite E.
Qed.

Lemma writeb_pass s la lb buf r :
  wired s -> d_mode s = m -> d_rx s = (str "WRITEB " ++ la ++ [32] ++ lb) ++ 10 :: buf ++ r -> digits la -> digits lb ->
  (length la + length lb <= 240)%nat -> fl_valid F (addr_of m la) = true ->
  hexval lb mod fl_word F = Z.of_nat (length buf) -> Z.of_nat (length buf) <= 65520 -> clear_of m (addr_of m la) (length buf) ->
  exists s', does (main_loop_pass F) s tt s' /\
    served s (d_mode s) r (ok_head ++ write_complete_msg ++ crlf) (poke cell (addr_of m la) buf (d_phys s)) s'.
Proof.
  intros Hw Hm Er Hla Hlb Hl Hv En Hn Hc. set (l := str "WRITEB " ++ la ++ [32] ++ lb) in *.
  assert (length l = (8 + length la + length lb)%nat) as El by (unfold l; rewrite !length_app; cbn; lia).
  destruct (loaded_args (str "WRITEB ") (la ++ [32] ++ lb) (buf ++ r) s ltac:(change (str "WRITEB " ++ la ++ [32] ++ lb) with l; lia)) as [z Ht].
  change (str "WRITEB " ++ la ++ [32] ++ lb) with l in Ht. pose proof bo_image. pose proof bo_comport.
  pose proof (wired_loaded l (buf ++ r) s ltac:(lia) Hw) as Hwl.
  assert (text (loaded l (buf ++ r) s) (in_buf + 7) (la ++ [32] ++ lb ++ 0 :: 0 :: z)) as Hta.
  { pose proof Ht as Ht'. apply text_app in Ht' as [_ Ht']. by rewrite <- !app_assoc in Ht'. }
  assert (exists c rest, lb ++ 0 :: 0 :: z = c :: rest /\ c <> 32) as (c & rest & Ec & Hne).
  { destruct lb as [|c lb]; [by exists 0, (0 :: z)|]. exists c, (lb ++ 0 :: 0 :: z). split; [done|]. apply Forall_cons in Hlb as [Hh _]. by intros ->. }
  destruct (with_pointer_does F m (in_buf + 7) (loaded l (buf ++ r) s) la c rest (λ si es bx, '(cx, _) ← strtohex (fl_word F) si;
      writeb_loop F (Z.to_nat cx) es bx ;; command_response_output write_complete_msg))
    as (es & bx & s1 & Hk & Hb & Hr & Hrun); [done|by cbn [app] in Hta; rewrite Ec in Hta|done|lia|done|lia|lia|done|].
  destruct (writeb_loop_does F m buf es bx (addr_of m la) r s1) as [Hd Hw2];
    [apply Hk|by rewrite (ke_mode _ _ Hk)|by rewrite (ke_rx _ _ Hk)|apply Hr; [done|apply Hc]|done|done|].
  set (s2 := set_d_rx r _) in *. exists (print (ok_head ++ write_complete_msg ++ crlf) s2). split.
  - apply (pass_does F s l (buf ++ r) false); [done| |done| |by apply wired_print].
    { rewrite Er. by apply typed_request; [by_decision| | |cbn; lia]. }
    unfold main_loop_command, handlers. cbn [app]. do 4 miss Ht. apply first_hits.
    apply (handle_hits F _ _ _ _ _ _ false _ Ht); [lia|change (Z.of_nat (length (str "WRITEB "))) with 7; pose proof (word_large F m); lia|].
    apply Hrun. eapply does_bind; [apply (number_does F m lb 0); [|done|by split|lia|lia|lia]|].
    { apply (text_kept _ _ _ (lb ++ [0]) Hk); [lia|rewrite length_app; cbn; lia|].
      rewrite !text_app in Hta. destruct Hta as (_ & _ & Ht1 & Ht2). apply text_app. split; [exact Ht1|].
      apply text_cons in Ht2 as [E _]. apply text_cons. split; [exact E|done]. }
    cbn beta iota. rewrite En, Nat2Z.id. eapply does_bind; [exact Hd|]. by apply response_does.
  - split; cbn; [by apply wired_print|by rewrite (ke_mode _ _ Hk)|done|by rewrite (ke_tx _ _ Hk)|].
    intros x Hx. apply poke_same. rewrite (ke_phys _ _ Hk) by by left. rewrite loaded_phys; [done|lia|by apply not_own_buf].
Qed.

(** *** Addresses out of range *)

Lemma invalid_pass s word la lb r :
  word ∈ [str "READB "; str "READ "; str "WRITEB "; str "WRITE "] ->
  wired s -> d_rx s = (word ++ la ++ [32] ++ lb) ++ 10 :: r -> digits la -> digits lb ->
  (length la + length lb <= 240)%nat -> fl_valid F (addr_of m la) = false ->
  exists s', does (main_loop_pass F) s tt s' /\ served s (d_mode s) r (err_head ++ address_invalid_msg ++ crlf) (d_phys s) s'.
Proof.
  intros Hword Hw Er Hla Hlb Hl Hv. set (l := word ++ la ++ [32] ++ lb) in *.
  assert (plain word /\ (length word <= 7)%nat) as [Hp Hlw].
  { revert Hword. rewrite !elem_of_cons, elem_of_nil. intros [->|[->|[->|[->|[]]]]]; (split; [by_decision|cbn; lia]). }
  assert (length l = (length word + 1 + length la + length lb)%nat) as El by (unfold l; rewrite !length_app; cbn; lia).
  destruct (loaded_args word (la ++ [32] ++ lb) r s ltac:(change (word ++ la ++ [32] ++ lb) with l; lia)) as [z Ht].
  change (word ++ la ++ [32] ++ lb) with l in Ht. pose proof bo_image.
  pose proof (wired_loaded l r s ltac:(lia) Hw) as Hwl.
  assert (exists c rest, text (loaded l r s) (in_buf + Z.of_nat (length word)) (la ++ 32 :: c :: rest)) as (c & rest & Hta).
  { pose proof Ht as Ht'. apply text_app in Ht' as [_ Ht']. rewrite <- !app_assoc in Ht'. cbn [app] in Ht'.
    destruct lb as [|c lb]; [by exists 0, (0 :: z)|by exists c, (lb ++ 0 :: 0 :: z)]. }
  assert (forall body, does (with_pointer F (in_buf + Z.of_nat (length word)) body) (loaded l r s) false
      (print (err_head ++ address_invalid_msg ++ crlf) (loaded l r s))) as Hd.
  { intros body. eapply with_pointer_invalid; [done|done|exact Hta|done|lia|lia|lia|done]. }
  exists (print (err_head ++ address_invalid_msg ++ crlf) (loaded l r s)). split.
  - apply (pass_does F s l r false); [done| |intros E; rewrite E in El; cbn in El; lia| |by apply wired_print].
    { rewrite Er. apply typed_request; done || lia. }
    unfold main_loop_command, handlers. cbn [app]. pose proof (word_large F m).
    revert Hword. rewrite !elem_of_cons, elem_of_nil. intros [E|[E|[E|[E|[]]]]]; rewrite E in Ht, Hd.
    + do 2 miss Ht. apply first_hits, (handle_hits F _ _ _ _ _ _ false _ Ht); [lia|cbn; lia|apply Hd].
    + do 1 miss Ht. apply first_hits, (handle_hits F _ _ _ _ _ _ false _ Ht); [lia|cbn; lia|apply Hd].
    + do 4 miss Ht. apply first_hits, (handle_hits F _ _ _ _ _ _ false _ Ht); [lia|cbn; lia|apply Hd].
    + do 3 miss Ht. apply first_hits, (handle_hits F _ _ _ _ _ _ false _ Ht); [lia|cbn; lia|apply Hd].
  - apply (served_print l r); [lia|done|by apply kept_refl].
Qed.

(** *** TEST, and what is no command *)

Lemma word_pass s w r (cf : bool) s1 :
  wired s -> d_rx s = w ++ 10 :: r -> plain w -> (0 < length w <= 20)%nat ->
  (text (loaded w r s) in_buf (w ++ replicate 20 0) ->
     does (main_loop_command F in_buf (in_buf + Z.of_nat (length w))) (loaded w r s) cf s1) ->
  wired s1 -> does (main_loop_pass F) s tt (if cf then print (err_head ++ unknown_command_msg) s1 else s1).
Proof.
  intros Hw Er Hp Hl Hd Hw1. pose proof (loaded_text w r s ltac:(lia)) as Ht. replace (256 - length w)%nat with (20 + (236 - length w))%nat in Ht by lia.
  rewrite replicate_add, app_assoc in Ht. apply text_app in Ht as [Ht _].
  apply (pass_does F s w r cf s1); [done|by rewrite Er; apply typed_plain; [|lia]|by destruct w; [cbn in Hl; lia|]|by apply Hd|done].
Qed.

Lemma test_pass s r :
  wired s -> d_rx s = str "TEST" ++ 10 :: r ->
  exists s', does (main_loop_pass F) s tt s' /\ served s (d_mode s) r (ok_head ++ test_response ++ crlf) (d_phys s) s'.
Proof.
  intros Hw Er. pose proof (wired_loaded (str "TEST") r s ltac:(cbn; lia) Hw) as Hwl. pose proof bo_image. pose proof (word_large F m).
  exists (print (ok_head ++ test_response ++ crlf) (loaded (str "TEST") r s)). split.
  - apply (word_pass s (str "TEST") r false); [done|done|by_decision|cbn; lia| |by apply wired_print].
    intros Ht. unfold main_loop_command, handlers. cbn [app]. apply first_hits.
    apply (handle_hits F (str "TEST" ++ [0]) _ _ _ _ (replicate 19 0)); [exact Ht|lia|cbn; lia|by apply response_does].
  - apply (served_print (str "TEST") r); [cbn; lia|done|by apply kept_refl].
Qed.

(** The words a line is compared with. *)
Definition known_words : list (list Z) :=
  [str "TEST" ++ [0]; str "READ "; str "READB "; str "WRITE "; str "WRITEB "; str "EXEC "; str "LOW" ++ [0]] ++
  ((λ c, fst c ++ [0]) <$> fl_modes F).

(** A line that starts none of the commands. *)
Lemma unknown_pass s w r :
  wired s -> d_rx s = w ++ 10 :: r -> plain w -> (0 < length w <= 20)%nat ->
  (forall word, word ∈ known_words -> (length word <= 10)%nat /\ take (length word) (w ++ replicate 10 0) <> word) ->
  exists s', does (main_loop_pass F) s tt s' /\ served s (d_mode s) r (err_head ++ unknown_command_msg) (d_phys s) s'.
Proof.
  intros Hw Er Hp Hl Hno. pose proof (wired_loaded w r s ltac:(lia) Hw) as Hwl.
  exists (print (err_head ++ unknown_command_msg) (loaded w r s)). split; [|by apply (served_print w r); [lia| |by apply kept_refl]].
  destruct (256 - length w - 10)%nat as [|k] eqn:Ek; [lia|].
  assert (text (loaded w r s) in_buf (w ++ replicate 10 0)) as Ht.
  { pose proof (loaded_text w r s ltac:(lia)) as Ht. replace (256 - length w)%nat with (10 + S k)%nat in Ht by lia.
    rewrite replicate_add, app_assoc in Ht. by apply text_app in Ht as [Ht _]. }
  apply (word_pass s w r true (loaded w r s)); [done|done|done|done| |done]. intros _.
  assert (forall word body, word ∈ known_words -> does (handle F word body in_buf (in_buf + Z.of_nat (length w))) (loaded w r s) None (loaded w r s)) as Hmiss.
  { intros word body Hin. destruct (Hno word Hin) as [Hlen Hne]. apply (handle_misses F _ _ _ _ _ _ Ht); [|done].
    rewrite length_app, length_replicate. lia. }
  unfold main_loop_command, handlers. cbn [app]. do 6 (apply first_misses; [apply Hmiss, elem_of_app; left; apply list_elem_of_In; cbn; tauto|]).
  assert (forall l, (forall c, c ∈ l -> c ∈ fl_modes F) -> does (first_handler ((mode_handler F <$> l) ++ [main_loop_command_low F]) in_buf
      (in_buf + Z.of_nat (length w))) (loaded w r s) true (loaded w r s)) as Hmodes; [|by apply Hmodes].
  induction l as [|c l IH]; intros Hin.
  - apply first_misses; [apply Hmiss, elem_of_app; left; apply list_elem_of_In; cbn; tauto|apply does_ret].
  - rewrite fmap_cons. cbn [app]. apply first_misses; [|apply IH; intros; apply Hin; by right].
    apply Hmiss. apply elem_of_app. right. apply list_elem_of_fmap. exists c. split; [done|]. apply Hin. by left.
Qed.

End Requests.
