(* ===== verification/DebugBench.v ===== *)
(** * A machine for the serial debugger

    A board whose UART sees a byte at every other look and is free to send at the
    others, an image laid out behind 0x8000, and code that copies its first byte
    to 0x500: the hypotheses of the theorems can be met. *)

From S2P Require Import Prelude Machine Memory Vga Text ELib SLib SLibSpec SerialTarget Debugger DebugModes DebugPages DebuggerSpec DebugCommands.

#[export] Instance bench_board : Board := {|
  bus := λ a, a mod 4294967296;
  uart := 0x3F8;
  lsr_data := Nat.even;
  lsr_other := λ n, if Nat.even n then 0 else 0x60;
  other_in := λ _, 255;
  user_code := λ _ entry p x, if x =? 0x500 then p entry else p x;
  dbg_fuel := 300
|}.

#[export] Instance bench_image : Image := {|
  command_exec_far_ptr := 0x8200; inited := 0x83FD; comport := 0x83FE; in_buf := 0x8400; gdtr := 0x8500; gdtr_old := 0x8508;
  idtr_realmode := 0x8510; gdt_table := 0x8518; realmode_286 := 0x8480; last_byte := 0x8700; with_x64 := true
|}.

#[export] Instance bench_board_ok : BoardOk.
Proof.
  split; cbn; try lia.
  - intros a Ha. apply Z.mod_small. lia.
  - intros a Ha. change FINAL_LOW with 0x52000 in Ha. unfold PML4_LOCATION in Ha. apply Z.mod_small. lia.
  - intros n. destruct (Nat.even n) eqn:E; [exists 0%nat; rewrite Nat.add_0_r; split; [lia|done]|exists 1%nat]. split; [lia|].
    rewrite Nat.add_1_r, Nat.even_succ, <- Nat.negb_even, E. done.
  - intros n. destruct (Nat.even n) eqn:E; [exists 1%nat; rewrite Nat.add_1_r, Nat.even_succ, <- Nat.negb_even, E; split; [lia|done]|].
    exists 0%nat. rewrite Nat.add_0_r, E. split; [lia|done].
Qed.

(** The port's address is in its place, an image at 1000:8000 is not initialised,
    and elsewhere every byte is the lowest of its address. *)
Definition bench_memory (a : Z) : Z :=
  if a =? 0x83FE then 0xF8 else if a =? 0x83FF then 3 else if a =? 0x183FD then 0 else a mod 256.
Definition bench_debugger (m : cpu_mode) (rx : list Z) : debugger := mkDbg bench_memory rx [] 0 [] m.

Lemma bench_wired m rx : m <> ModeX64 -> wired (bench_debugger m rx).
Proof. intros Hm. by split. Qed.

(** A block above the image and, in long mode, the tables, or below them. *)
Lemma bench_clear m a n :
  0 <= a -> a + Z.of_nat n <= 0x8000 \/ (0x8700 <= a /\ a + Z.of_nat n <= 4294967296 /\ (m <> ModeX64 \/ 0x52000 <= a)) -> clear_of m a n.
Proof.
  intros Ha Hb. split; [intros _; lia|]. intros i Hi. unfold reserved, own, cell. cbn. rewrite u32_small by lia. rewrite Z.mod_small by lia.
  change FINAL_LOW with 0x52000. unfold PML4_LOCATION. intros [Ho|[Hm Ho]]; [lia|]. destruct Hb as [Hb|(_ & _ & [Hb|Hb])]; [lia|done|lia].
Qed.
