(* ===== verification/DebugModesSpec.v ===== *)
(** * The serial debugger in each mode

    The instances of [FlavourLaws] for the five modes,
    EXEC, and the commands that change the mode. *)

From S2P Require Import Prelude Machine Memory Vga Text ELib SLib SLibSpec SerialTarget Debugger DebugModes DebugPages DebuggerSpec DebugCommands.

Section Modes.
Context `{BD : Board} `{IM : Image} `{BO : !BoardOk}.

(** ** Stores to the debugger's variables *)

Lemma kept_trans s1 s2 s3 : kept s1 s2 -> kept s2 s3 -> kept s1 s3.
Proof. intros [? P1] [? P2]. split; [done| |congruence..]. intros x Hx. by rewrite P2, P1. Qed.

(** Code that only changes such variables. *)
Definition quiet (m : D unit) : Prop := forall s, wired s -> exists s1, does m s tt s1 /\ kept s s1.

Lemma quiet_skip : quiet skip.
Proof. intros s Hw. exists s. split; [apply does_ret|by apply kept_refl]. Qed.

Lemma quiet_seq m1 m2 : quiet m1 -> quiet m2 -> quiet (m1 ;; m2).
Proof.
  intros H1 H2 s Hw. destruct (H1 s Hw) as (s1 & D1 & K1). destruct (H2 s1 (ke_wired _ _ K1)) as (s2 & D2 & K2).
  exists s2. split; [by eapply does_bind|by eapply kept_trans].
Qed.

Lemma kept_put a l s : placed a (Z.of_nat (length l)) -> wired s -> kept s (put a l s).
Proof.
  intros Hv Hw. destruct (decide (l = [])) as [->|Hne]; [rewrite put_nil; by apply kept_refl|].
  assert (0 < Z.of_nat (length l)) by (destruct l; [done|cbn; lia]). pose proof bo_image. pose proof bo_comport.
  assert (own a) by (unfold own; lia). split; try done.
  - apply wired_put; [done|lia|lia|done].
  - intros x Hx. apply put_outside; [done|lia|]. unfold own in Hx. lia.
Qed.

Lemma quiet_st8 a v : placed a 1 -> quiet (st8 a v).
Proof. intros Ha s Hw. exists (put a [v] s). split; [apply st8_put|apply kept_put; cbn; done || lia]. Qed.

Lemma quiet_st16 a v : placed a 2 -> quiet (st16 a v).
Proof. intros. apply quiet_seq; apply quiet_st8; lia. Qed.

Lemma quiet_st32 a v : placed a 4 -> quiet (st32 a v).
Proof. intros. apply quiet_seq; apply quiet_st16; lia. Qed.

Lemma quiet_stosw l : forall di, placed di (2 * Z.of_nat (length l)) -> quiet (stosw di l).
Proof.
  induction l as [|w l IH]; intros di Hv; cbn [stosw length] in *; [apply quiet_skip|].
  apply quiet_seq; [apply quiet_st16; lia|apply IH; lia].
Qed.

Lemma quiet_gen_gdt flags : quiet (gen_gdt flags).
Proof.
  pose proof bo_gdt. pose proof bo_gdtr. apply quiet_seq; apply quiet_stosw; cbn; lia.
Qed.

Lemma quiet_save_gdtr : quiet save_gdtr.
Proof. pose proof bo_gdtr. apply quiet_seq; [apply quiet_st16|apply quiet_st32]; lia. Qed.

(** ** Real mode *)

(** The segment and the offset of an address of 20 bits. *)
Lemma phys_to_real a : 0 <= a < 0x100000 ->
  let '(es, bx) := dx_ax_phys_to_real (high a) (low a) in 16 * es + bx = a /\ 0 <= bx < 16 /\ 0 <= es < 65536.
Proof.
  intros Ha. unfold dx_ax_phys_to_real, high, low. rewrite !Z.shiftr_div_pow2, Z.shiftl_mul_pow2 by lia.
  change (2 ^ 16) with 65536. change (2 ^ 4) with 16. change 15 with (Z.ones 4). rewrite Z.land_ones by lia. change (2 ^ 4) with 16.
  rewrite u16_small by (change (2 ^ 12) with 4096; Z.div_mod_to_equations; lia).
  rewrite lor_shifted by (change (2 ^ 12) with 4096; unfold u16; Z.div_mod_to_equations; lia). change (2 ^ 12) with 4096.
  unfold u16. Z.div_mod_to_equations. lia.
Qed.

#[export] Instance laws_8086 : FlavourLaws file_8086 Mode8086.
Proof.
  split.
  - exists 4. split; [done|lia].
  - done.
  - apply address_32_does.
  - intros a s Hw Ha Hv. cbn [fl_valid file_8086] in Hv. bool_to_prop.
    assert (a < 0x100000) as Ha' by (unfold high in Hv; rewrite Z.shiftr_div_pow2 in Hv by lia; change (2 ^ 16) with 65536 in Hv; Z.div_mod_to_equations; lia).
    pose proof (phys_to_real a ltac:(lia)) as Hp. cbn [fl_pointer fl_cell fl_word file_8086].
    destruct (dx_ax_phys_to_real (high a) (low a)) as [es bx]. destruct Hp as (E & Hb & He). exists es, bx, s.
    split_and!; [apply does_ret|by apply kept_refl|lia|lia|].
    intros i t Hi _ _ _. rewrite Z.mod_small by lia. rewrite u32_small by lia. replace (a + i) with (16 * es + (bx + i)) by lia. apply does_ret.
  - intros es s Hw. exists (u16 (es + 0x1000)), s. split; [apply does_ret|by apply kept_refl].
Qed.

(** ** 386, 32-bit *)

#[export] Instance laws_386_32 : FlavourLaws file_386_32 Mode386_32.
Proof.
  split.
  - exists 8. split; [done|lia].
  - done.
  - intros ds c si s Ht Hd Hc Hl Hs Hw. cbn [fl_address file_386_32]. change 4294967296 with (16 ^ 8).
    eapply does_eq; [apply (strtohex_does 8 ds c); try done; change (16 ^ 8) with 4294967296; lia|done|done].
  - intros a s Hw Ha Hv. cbn [fl_pointer fl_cell fl_word file_386_32]. exists 0, a, s.
    cbn [span] in Ha. split_and!; [apply does_ret|by apply kept_refl|lia|lia|]. intros i t Hi _ _ _. apply does_ret.
  - intros es s Hw. exists es, s. split; [apply does_ret|by apply kept_refl].
Qed.

(** ** 286 and 386, 16-bit: through a descriptor *)

Lemma does_ld16 a s : does (ld16 a) s (d_phys s (bus a) + 256 * d_phys s (bus (a + 1))) s.
Proof. unfold ld16. then_by does_ld8. then_by does_ld8. apply does_ret. Qed.

(** A word stored to the image. *)
Lemma st16_put a v s : does (st16 a v) s tt (put a [u8 v; u8 (Z.shiftr v 8)] s).
Proof. unfold st16. then_by st8_put. eapply does_eq; [apply st8_put|done|]. exact (put_app a [u8 v] [u8 (Z.shiftr v 8)] s). Qed.

Lemma text_put a l s : own a -> a + Z.of_nat (length l) <= last_byte -> text (put a l s) a l.
Proof.
  intros Ha Hl. unfold text, put. cbn. apply peek_poke. intros i j Hi Hj. unfold own in Ha. rewrite !bus_own by (unfold own; lia). lia.
Qed.

Lemma put_byte a l s i c : own a -> a + Z.of_nat (length l) <= last_byte -> l !! i = Some c -> d_phys (put a l s) (a + Z.of_nat i) = c.
Proof.
  intros Ha Hl Hi. pose proof (text_put a l s Ha Hl) as Ht. apply (f_equal (.!! i)) in Ht. rewrite Hi in Ht. unfold peek in Ht.
  pose proof (lookup_lt_Some _ _ _ Hi). rewrite list_lookup_fmap, lookup_seq_lt in Ht by done. cbn in Ht. injection Ht as Ht.
  rewrite bus_own in Ht by (unfold own in *; lia). done.
Qed.

(** The conversion puts the address into the descriptor, and a load of the
    segment register finds it there. *)
Lemma descriptor_does (wide : bool) selector dx ax s :
  wired s -> 0 <= selector <= 32 -> 0 <= ax < 65536 -> 0 <= dx < (if wide then 65536 else 256) ->
  exists s1, does ((if wide then dx_ax_phys_to_386seg else dx_ax_phys_to_286seg) selector dx ax) s tt s1 /\ kept s s1 /\
    does (segment_base wide selector) s1 (65536 * dx + ax) s1.
Proof.
  intros Hw Hs Hax Hdx. pose proof bo_gdt. pose proof bo_image. pose proof bo_comport. set (di := gdt_table + selector).
  set (b := [u8 0xFFFF; u8 (Z.shiftr 0xFFFF 8); u8 ax; u8 (Z.shiftr ax 8); u8 dx]). set (s1 := put di b s).
  assert (own di) as Hdi by (unfold own, di; lia). assert (di + 5 <= last_byte) as Hb by (unfold di; lia).
  assert (does (dx_ax_phys_to_286seg selector dx ax) s tt s1) as Hd.
  { unfold dx_ax_phys_to_286seg. fold di. then_by st16_put. then_by st16_put. eapply does_eq; [apply st8_put|done|].
    rewrite (put_app di [u8 0xFFFF; u8 (Z.shiftr 0xFFFF 8)] [u8 ax; u8 (Z.shiftr ax 8)] s : put (di + 2) _ _ = _).
    exact (put_app di [u8 0xFFFF; u8 (Z.shiftr 0xFFFF 8); u8 ax; u8 (Z.shiftr ax 8)] [u8 dx] s). }
  assert (kept s s1) as Hk by (apply kept_put; [cbn; unfold di; lia|done]).
  assert (forall s2, (forall x, di <= x < di + 5 -> d_phys s2 x = d_phys s1 x) ->
    d_phys s2 (bus (di + 2)) + 256 * d_phys s2 (bus (di + 2 + 1)) = ax /\ d_phys s2 (bus (di + 4)) = u8 dx) as Hbytes.
  { intros s2 E. rewrite !bus_own by (unfold own in *; lia). replace (di + 2 + 1) with (di + 3) by lia. rewrite !E by lia. unfold s1.
    change (di + 2) with (di + Z.of_nat 2). change (di + 3) with (di + Z.of_nat 3). change (di + 4) with (di + Z.of_nat 4).
    rewrite (put_byte di b s 2 (u8 ax)), (put_byte di b s 3 (u8 (Z.shiftr ax 8))), (put_byte di b s 4 (u8 dx)) by done.
    split; [|done]. rewrite Z.shiftr_div_pow2 by lia. change (2 ^ 8) with 256. wrap_lia. }
  destruct wide; cbn [fl_valid].
  - set (s2 := put (di + 7) [Z.shiftr dx 8] s1). exists s2. assert (own (di + 7)) as Hd7 by (unfold own, di in *; lia).
    assert (kept s1 s2) as Hk2 by (apply kept_put; [cbn; unfold di; lia|apply Hk]).
    destruct (Hbytes s2) as [E1 E2]; [intros x Hx; apply put_outside; [done|cbn; unfold di; lia|lia]|].
    split_and!; [|by eapply kept_trans|].
    + unfold dx_ax_phys_to_386seg. eapply does_bind; [exact Hd|]. fold di. apply st8_put.
    + unfold segment_base. fold di. then_by does_ld16. then_by does_ld8. then_by does_ld8. rewrite E1, E2, (bus_own (di + 7)) by done.
      replace (d_phys s2 (di + 7)) with (Z.shiftr dx 8).
      2: { symmetry. rewrite <- (Z.add_0_r (di + 7)). apply (put_byte (di + 7) [Z.shiftr dx 8] s1 0); [done|cbn; unfold di; lia|done]. }
      eapply does_eq; [apply does_ret| |done]. rewrite Z.shiftr_div_pow2 by lia. change (2 ^ 8) with 256. unfold u8. Z.div_mod_to_equations. lia.
  - exists s1. destruct (Hbytes s1) as [E1 E2]; [done|]. split_and!; [done|done|].
    unfold segment_base. fold di. then_by does_ld16. then_by does_ld8. then_by does_ret. rewrite E1, E2, u8_small by lia.
    eapply does_eq; [apply does_ret|lia|done].
Qed.

Lemma high_low a : 65536 * high a + low a = a /\ 0 <= low a < 65536.
Proof.
  unfold high, low. rewrite Z.shiftr_div_pow2 by lia. change (2 ^ 16) with 65536. unfold u16. Z.div_mod_to_equations. lia.
Qed.

Lemma through_does (wide : bool) a s :
  wired s -> 0 <= a < (if wide then 4294967296 else 16777216) ->
  exists s1, does (through wide (if wide then dx_ax_phys_to_386seg else dx_ax_phys_to_286seg) a) s (a, 0) s1 /\ kept s s1.
Proof.
  intros Hw Ha. destruct (high_low a) as [E Hlow].
  destruct (descriptor_does wide ACCESS_SELECTOR (high a) (low a) s) as (s1 & Hd & Hk & Hb); [done|done|done|destruct wide; lia|].
  exists s1. split; [|done]. unfold through. eapply does_bind; [exact Hd|]. eapply does_bind; [exact Hb|]. rewrite E. apply does_ret.
Qed.

(** The same for code that gives a result. *)
Definition settles {A} (m : D A) : Prop := forall s, wired s -> exists a s1, does m s a s1 /\ kept s s1.

Lemma settles_bind {A B} (m : D A) (k : A -> D B) : settles m -> (forall a, settles (k a)) -> settles (m ≫= k).
Proof.
  intros Hm Hk s Hw. destruct (Hm s Hw) as (a & s1 & D1 & K1). destruct (Hk a s1 (ke_wired _ _ K1)) as (b & s2 & D2 & K2).
  exists b, s2. split; [by eapply does_bind|by eapply kept_trans].
Qed.

Lemma settles_quiet m : quiet m -> settles m.
Proof. intros Hm s Hw. destruct (Hm s Hw) as (s1 & Hd & Hk). by exists tt, s1. Qed.

Lemma settles_ret {A} (a : A) : settles (mret a).
Proof. intros s Hw. exists a, s. split; [apply does_ret|by apply kept_refl]. Qed.

Lemma settles_ld8 a : settles (ld8 a).
Proof. intros s Hw. exists (d_phys s (bus a)), s. split; [apply does_ld8|by apply kept_refl]. Qed.

Lemma settles_segment_base wide selector : settles (segment_base wide selector).
Proof.
  repeat (apply settles_bind; [|intros ?]); repeat first [apply settles_ld8 | apply settles_ret | destruct wide | apply settles_bind; [|intros ?]].
Qed.

Lemma settles_bumps : settles acc286_64k_bump /\ settles acc386_64k_bump.
Proof.
  pose proof bo_gdt. unfold acc286_64k_bump, acc386_64k_bump, ACCESS_SELECTOR.
  split; repeat (apply settles_bind; [first [apply settles_ld8 | apply settles_quiet; first [apply quiet_st8 | apply quiet_st16]; lia]|intros ?]);
    apply settles_segment_base.
Qed.

#[export] Instance laws_286 : FlavourLaws file_286 Mode286.
Proof.
  split.
  - exists 4. split; [done|lia].
  - done.
  - apply address_32_does.
  - intros a s Hw Ha Hv. cbn [fl_valid file_286] in Hv. bool_to_prop. destruct (high_low a).
    destruct (through_does false a s Hw ltac:(lia)) as (s1 & Hd & Hk). exists a, 0, s1. split_and!; [exact Hd|done|cbn; lia|cbn; lia|].
    intros i t Hi _ _ _. cbn [fl_cell fl_word file_286]. rewrite Z.mod_small by lia. apply does_ret.
  - intros es. apply settles_bumps.
Qed.

#[export] Instance laws_386_16 : FlavourLaws file_386_16 Mode386_16.
Proof.
  split.
  - exists 4. split; [done|lia].
  - done.
  - apply address_32_does.
  - intros a s Hw Ha _. destruct (through_does true a s Hw Ha) as (s1 & Hd & Hk). exists a, 0, s1.
    split_and!; [exact Hd|done|cbn; lia|cbn; lia|]. intros i t Hi _ _ _. cbn [fl_cell fl_word file_386_16]. rewrite Z.mod_small by lia. apply does_ret.
  - intros es. apply settles_bumps.
Qed.

(** ** Long mode: through the page tables *)

Lemma mapped_does a s : wired s -> d_mode s = ModeX64 -> 0 <= a < 68719476736 -> does (mapped_cell a) s (u32 a) s.
Proof.
  intros Hw Hm Ha. unfold mapped_cell. then_by does_gets; [done|]. rewrite (walk_wraps bo_tables _ _ (wi_tables _ Hw Hm)) by exact Ha. apply does_ret.
Qed.

#[export] Instance laws_x64 : FlavourLaws file_x64 ModeX64.
Proof.
  split.
  - exists 16. split; [done|lia].
  - done.
  - intros ds c si s Ht Hd Hc Hl Hs Hw. cbn [fl_address file_x64]. change 18446744073709551616 with (16 ^ 16).
    eapply does_eq; [apply (strtohex_does 16 ds c); try done; change (16 ^ 16) with 18446744073709551616; lia|done|done].
  - intros a s Hw Ha Hv. cbn [fl_pointer fl_cell fl_word file_x64]. cbn [span] in Ha. exists 0, a, s.
    split_and!; [apply does_ret|by apply kept_refl|lia|lia|]. intros i t Hi Hin Hwt Hmt. specialize (Hin eq_refl).
    rewrite Z.mod_small by lia. apply mapped_does; [done|done|lia].
  - intros es s Hw. exists es, s. split; [apply does_ret|by apply kept_refl].
Qed.

(** ** EXEC *)

(** Code that does not touch the debugger and does not depend on it. *)
Record tame (m : cpu_mode) (entry : Z) : Prop := {
  ta_outside p q : (forall x, ~ own x -> p x = q x) -> forall x, ~ own x -> user_code m entry p x = user_code m entry q x;
  ta_own p x : reserved m x -> user_code m entry p x = p x
}.

Lemma exec_pass F m `{!FlavourLaws F m} s args r entry s1 :
  let l := str "EXEC " ++ args in
  wired s -> d_rx s = l ++ 10 :: r -> plain args -> (length args <= 240)%nat ->
  (forall z, text (loaded l r s) (in_buf + 5) (args ++ 0 :: 0 :: z) -> does (fl_entry F (in_buf + 5)) (loaded l r s) entry s1) ->
  kept (loaded l r s) s1 -> tame (d_mode s) entry ->
  exists s', does (main_loop_pass F) s tt s' /\
    served s (d_mode s) r (ok_head ++ exec_complete_msg ++ crlf) (user_code (d_mode s) entry (d_phys s)) s'.
Proof.
  intros l Hw Er Hp Hl Hd Hk Ht. pose proof bo_image. pose proof bo_comport. pose proof (word_large F m).
  assert (length l = (5 + length args)%nat) as El by done.
  destruct (loaded_args (str "EXEC ") args r s ltac:(fold l; lia)) as [z Hz]. fold l in Hz.
  set (s2 := set_d_phys (user_code (d_mode s) entry (d_phys s1)) s1).
  assert (wired s2) as Hw2.
  { apply (wired_same s1); [apply Hk|done|done|]. intros x Hx. cbn. apply (ta_own _ _ Ht).
    rewrite <- (ke_mode _ _ Hk : _ = d_mode s). unfold reserved, own. destruct Hx as [Hx|Hx]; [left; lia|by right]. }
  exists (print (ok_head ++ exec_complete_msg ++ crlf) s2). split.
  - apply (pass_does F s l r false); [done| |done| |by apply wired_print].
    { rewrite Er. apply typed_plain; [apply plain_app; [by_decision|done]|lia]. }
    unfold main_loop_command, handlers. cbn [app]. do 5 miss Hz. apply first_hits.
    apply (handle_hits F _ _ _ _ _ _ false _ Hz); [lia|change (Z.of_nat (length (str "EXEC "))) with 5; lia|].
    eapply does_bind; [apply (Hd z); by apply text_app in Hz as [_ Hz]|]. then_by does_gets; [done|].
    rewrite (ke_mode _ _ Hk). change (d_mode (loaded l r s)) with (d_mode s).
    eapply does_bind; [exact (does_modify (λ s', set_d_phys (user_code (d_mode s) entry (d_phys s')) s') s1 (λ _, eq_refl))|].
    by apply response_does.
  - split; cbn; [by apply wired_print|by rewrite (ke_mode _ _ Hk)|by rewrite (ke_rx _ _ Hk)|by rewrite (ke_tx _ _ Hk)|].
    intros x Hx. apply (ta_outside _ _ Ht); [|done]. intros y Hy. rewrite (ke_phys _ _ Hk) by by left.
    rewrite loaded_phys; [done|lia|by apply not_own_buf].
Qed.

(** *** The address to call *)

Lemma does_assoc {A} (m n : D unit) (k : D A) s a s1 : does ((m ;; n) ;; k) s a s1 -> does (m ;; n ;; k) s a s1.
Proof.
  intros H i. destruct (H i) as [i' E]. exists i'. rewrite <- E. unfold mbind, SM_bind. by destruct (m _) as [|[[] ?]].
Qed.

(** Two numbers with a blank between them, read by a first scan and by [strtohex]. *)
Lemma two_args s si la lb z :
  text s si ((la ++ [32] ++ lb) ++ 0 :: 0 :: z) -> digits lb ->
  text s si (la ++ [32]) /\
  let si1 := si + Z.of_nat (length la) + 1 in
  text s si1 (lb ++ [0]) /\ exists c, d_phys s (bus si1) = c /\ c <> 32.
Proof.
  intros Ht Hlb. cbn zeta. rewrite !text_app in Ht. destruct Ht as ((H1 & H2 & H3) & H4).
  rewrite !length_app in H4. cbn [length] in H3, H4. change (Z.of_nat 1) with 1 in H3.
  assert (text s (si + Z.of_nat (length la) + 1) (lb ++ [0])) as Hl.
  { apply text_app. split; [exact H3|]. apply text_cons in H4 as [E _]. apply text_cons. split; [|done]. rewrite <- E. do 2 f_equal. lia. }
  split; [by apply text_app|]. split; [done|].
  destruct lb as [|c lb]; apply text_cons in Hl as [E _]; [by exists 0|]. exists c. split; [done|].
  apply Forall_cons in Hlb as [Hh _]. by intros ->.
Qed.

Lemma exec_real_does s si la lb z :
  wired s -> text s si ((la ++ [32] ++ lb) ++ 0 :: 0 :: z) -> digits la -> digits lb -> (length la + length lb <= 240)%nat ->
  0 <= si ->
  in_buf <= si -> si + Z.of_nat (length la + length lb) + 2 <= in_buf + 256 ->
  exists s1, does (exec_real si) s (16 * (hexval la mod 65536) + hexval lb mod 65536) s1 /\ kept s s1.
Proof.
  intros Hw Ht Hla Hlb Hl Hs Hb1 Hb2. pose proof bo_image as Hi. pose proof bo_far as Hf. pose proof bo_comport as Hcp.
  destruct (two_args _ _ _ _ _ Ht Hlb) as (H1 & H2 & c & Ec & Hc).
  destruct (quiet_seq (st16 command_exec_far_ptr (hexval lb mod 65536)) (st16 (command_exec_far_ptr + 2) (hexval la mod 65536))
    ltac:(apply quiet_st16; lia) ltac:(apply quiet_st16; lia) s Hw) as (s1 & Hd & Hk).
  exists s1. split; [|done]. unfold exec_real.
  eapply does_bind; [apply (strtohex_does 4 la 32); try done; try lia; change (16 ^ 4) with 65536; lia|].
  then_by str_skip_does; [done|exact Ec|done|lia|].
  eapply does_bind; [apply (strtohex_does 4 lb 0); try done; try lia; change (16 ^ 4) with 65536; lia|].
  apply does_assoc. eapply does_bind; [exact Hd|]. apply does_ret.
Qed.

Lemma exec_prot16_does (wide : bool) s si la lb z :
  wired s -> text s si ((la ++ [32] ++ lb) ++ 0 :: 0 :: z) -> digits la -> digits lb -> (length la + length lb <= 240)%nat ->
  0 <= si -> in_buf <= si -> si + Z.of_nat (length la + length lb) + 3 <= in_buf + 256 ->
  u32 (hexval la) < (if wide then 4294967296 else 16777216) ->
  exists s1, does (exec_prot16 wide (if wide then dx_ax_phys_to_386seg else dx_ax_phys_to_286seg) si) s
    (u32 (u32 (hexval la) + hexval lb mod 65536)) s1 /\ kept s s1.
Proof.
  intros Hw Ht Hla Hlb Hl Hs Hb1 Hb2 Ha. pose proof bo_image as Hi. pose proof bo_far as Hf. pose proof bo_comport as Hcp. set (a := u32 (hexval la)) in *.
  pose proof (u32_range (hexval la)) as Hr. fold a in Hr.
  destruct (descriptor_does wide USER_CODE_SELECTOR (a / 65536) (a mod 65536) s) as (s0 & Hd0 & Hk0 & Hb);
    [done|done|Z.div_mod_to_equations; lia|destruct wide; Z.div_mod_to_equations; lia|].
  assert (text s0 si ((la ++ [32] ++ lb) ++ [0; 0])) as Ht0.
  { apply (text_kept _ _ _ _ Hk0); [lia|rewrite !length_app; cbn; lia|].
    change (0 :: 0 :: z) with ([0; 0] ++ z) in Ht. rewrite app_assoc in Ht. by apply text_app in Ht as [Ht _]. }
  destruct (two_args _ _ _ _ _ Ht Hlb) as (H1 & _). destruct (two_args _ _ _ _ [] Ht0 Hlb) as (_ & H2 & c & Ec & Hc).
  destruct (quiet_seq (st16 command_exec_far_ptr (hexval lb mod 65536)) (st16 (command_exec_far_ptr + 2) USER_CODE_SELECTOR)
    ltac:(apply quiet_st16; lia) ltac:(apply quiet_st16; lia) s0 (ke_wired _ _ Hk0)) as (s1 & Hd & Hk).
  exists s1. split; [|by eapply kept_trans]. unfold exec_prot16.
  eapply does_bind; [apply (strtohex_32_does la 32); try done; lia|]. fold a. cbn beta iota.
  eapply does_bind; [exact Hd0|]. eapply does_bind; [exact Hb|]. rewrite <- Z.div_mod by lia.
  then_by str_skip_does; [done|exact Ec|done|lia|].
  eapply does_bind; [apply (strtohex_does 4 lb 0); try done; try lia; change (16 ^ 4) with 65536; lia|].
  apply does_assoc. eapply does_bind; [exact Hd|]. apply does_ret.
Qed.

Lemma exec_flat_does k s si la z :
  4 <= k -> text s si (la ++ 0 :: 0 :: z) -> digits la -> (length la <= 240)%nat -> 0 <= si -> si + Z.of_nat (length la) + 1 < 65536 ->
  does (exec_flat (16 ^ k) si) s (hexval la mod 16 ^ k) s.
Proof.
  intros Hk Ht Hla Hl Hs Hw. assert (16 ^ 4 <= 16 ^ k) by (apply Z.pow_le_mono_r; lia). change (16 ^ 4) with 65536 in *.
  unfold exec_flat. eapply does_bind; [apply (strtohex_does k la 0); try done; try lia|apply does_ret].
  change (0 :: 0 :: z) with ([0] ++ 0 :: z) in Ht. rewrite app_assoc in Ht. by apply text_app in Ht as [Ht _].
Qed.

(** ** Changing the mode *)

(** What a jump to another mode leaves: a debugger in mode [m] that has printed
    [out], and memory [p] outside it. *)
Record switched (s : debugger) (m : cpu_mode) (out : list Z) (p : Z -> Z) (s' : debugger) : Prop := {
  sw_wired : wired s';
  sw_mode : d_mode s' = m;
  sw_rx : d_rx s' = d_rx s;
  sw_tx : d_tx s' = d_tx s ++ out;
  sw_phys : forall x, ~ own x -> d_phys s' x = p x
}.

Definition announces (w : list Z) : list Z := ok_head ++ w ++ crlf.

Lemma announce_does w s : wired s -> does (com_str_out ok_head ;; com_str_out w ;; com_str_out crlf) s tt (print (announces w) s).
Proof.
  intros Hw. then_by com_str_out_does; [done|]. then_by com_str_out_does; [by apply wired_print|].
  eapply does_eq; [by apply com_str_out_does, wired_print, wired_print|done|]. by rewrite !print_print.
Qed.

Lemma kept_outside s s' x : kept s s' -> ~ own x -> d_phys s' x = d_phys s x.
Proof. intros Hk Hx. apply (ke_phys _ _ Hk). by left. Qed.

Lemma jmp_8086_does s : wired s -> exists s', does jmp_8086 s tt s' /\ switched s Mode8086 (announces (str "8086")) (d_phys s) s'.
Proof.
  intros Hw. exists (print (announces (str "8086")) (set_d_mode Mode8086 s)).
  assert (wired (set_d_mode Mode8086 s)) as Hw1 by by apply wired_mode. split; [|by split; try done; apply wired_print].
  unfold jmp_8086, set_mode. then_by does_modify; [done|]. by apply announce_does.
Qed.

(** [jmp_286] and [jmp_386_16], with their GDT. *)
Lemma jmp_prot16_does w flags m s : m <> ModeX64 -> wired s -> exists s',
  does (com_str_out ok_head ;; com_str_out w ;; gen_gdt flags ;; save_gdtr ;; set_mode m ;; com_str_out crlf) s tt s' /\
  switched s m (announces w) (d_phys s) s'.
Proof.
  intros Hm Hw. pose proof (wired_print (ok_head ++ w) s Hw) as Hw0.
  destruct (quiet_gen_gdt flags _ Hw0) as (s1 & D1 & K1). destruct (quiet_save_gdtr s1 (ke_wired _ _ K1)) as (s2 & D2 & K2).
  pose proof (kept_trans _ _ _ K1 K2) as K. assert (wired (set_d_mode m s2)) as Hw2 by by apply wired_mode, (ke_wired _ _ K2).
  exists (print crlf (set_d_mode m s2)). split.
  - then_by com_str_out_does; [done|]. then_by com_str_out_does; [by apply wired_print|]. rewrite print_print.
    eapply does_bind; [exact D1|]. eapply does_bind; [exact D2|]. then_by does_modify; [done|]. by apply com_str_out_does.
  - split; [by apply wired_print|done|by cbn; rewrite (ke_rx _ _ K)| |].
    + cbn. rewrite (ke_tx _ _ K). cbn. unfold announces. by rewrite <- !app_assoc.
    + intros x Hx. cbn. by rewrite (kept_outside _ _ _ K Hx).
Qed.

Lemma jmp_386_32_does s : wired s -> exists s', does jmp_386_32 s tt s' /\ switched s Mode386_32 (announces (str "386-32")) (d_phys s) s'.
Proof.
  intros Hw. destruct (quiet_gen_gdt 0xCF _ Hw) as (s1 & D1 & K1). destruct (quiet_save_gdtr s1 (ke_wired _ _ K1)) as (s2 & D2 & K2).
  pose proof (kept_trans _ _ _ K1 K2) as K. assert (wired (set_d_mode Mode386_32 s2)) as Hw2 by by apply wired_mode, (ke_wired _ _ K2).
  exists (print (announces (str "386-32")) (set_d_mode Mode386_32 s2)). split.
  - unfold jmp_386_32. eapply does_bind; [exact D1|]. eapply does_bind; [exact D2|]. then_by does_modify; [done|]. by apply announce_does.
  - split; [by apply wired_print|done|by cbn; rewrite (ke_rx _ _ K)|by cbn; rewrite (ke_tx _ _ K)|].
    intros x Hx. cbn. by rewrite (kept_outside _ _ _ K Hx).
Qed.

Lemma leave_386_32_does s : wired s -> exists s', does leave_386_32 s tt s' /\ switched s Mode8086 (announces (str "8086")) (d_phys s) s'.
Proof.
  intros Hw. pose proof bo_gdt. unfold CODE_SELECTOR, DATA_SELECTOR.
  destruct (quiet_seq (st8 (gdt_table + CODE_SELECTOR + 6) 0x8F) (st8 (gdt_table + DATA_SELECTOR + 6) 0x8F)
    ltac:(apply quiet_st8; unfold CODE_SELECTOR; lia) ltac:(apply quiet_st8; unfold DATA_SELECTOR; lia) s Hw) as (s1 & D1 & K1).
  destruct (jmp_8086_does s1 (ke_wired _ _ K1)) as (s2 & D2 & [W2 M2 R2 T2 P2]). exists s2. split.
  - unfold leave_386_32. apply does_assoc. by eapply does_bind; [exact D1|].
  - split; [done|done|by rewrite R2, (ke_rx _ _ K1)|by rewrite T2, (ke_tx _ _ K1)|].
    intros x Hx. by rewrite P2, (kept_outside _ _ _ K1 Hx).
Qed.

(** A port that is not the UART's. *)
Lemma out_other_does port v s : wired s -> 0 <= port < 0x200 -> exists s', does (out_byte port v) s tt s' /\ wired s' /\
  s' = set_d_ports ((port, v) :: d_ports s) s.
Proof.
  intros [Hp Hd Ht] Ho. pose proof bo_uart. exists (set_d_ports ((port, v) :: d_ports s) s). split; [|split; [|done]].
  - unfold out_byte. then_by does_gets; [done|]. rewrite (proj2 (Z.eqb_neq port uart)) by lia. cbn [andb].
    exact (does_modify (set_d_ports ((port, v) :: d_ports s)) s (λ _, eq_refl)).
  - split; [done| |done]. cbn. unfold dlab in *. cbn [List.find fst]. by rewrite (proj2 (Z.eqb_neq port (uart + 3))) by lia.
Qed.

(** A 286 comes back through a reset: two CMOS bytes and the vector at 40:67. *)
Lemma leave_286_does s : wired s -> exists s', does leave_286 s tt s' /\
  switched s Mode8086 (announces (str "8086")) (poke bus 0x467 [u8 realmode_286; u8 (Z.shiftr realmode_286 8); 0; 0] (d_phys s)) s'.
Proof.
  intros Hw. destruct (out_other_does 0x70 0x0F s Hw ltac:(lia)) as (s1 & D1 & W1 & E1).
  destruct (out_other_does 0x71 5 _ W1 ltac:(lia)) as (s2 & D2 & W2 & E2). set (s3 := put 0x467 [u8 realmode_286; u8 (Z.shiftr realmode_286 8); 0; 0] s2).
  pose proof bo_image. pose proof bo_comport.
  assert (wired s3) as W3.
  { apply (wired_same s2); [done|done|done|]. intros x Hx. apply poke_outside. intros i Hi. cbn [length] in Hi. unfold PML4_LOCATION in Hx.
    rewrite bo_bus; lia. }
  destruct (jmp_8086_does s3 W3) as (s4 & D4 & [W4 M4 R4 T4 P4]). exists s4. split.
  2: { split; [done|done|by rewrite R4; cbn; rewrite E2, E1|by rewrite T4; cbn; rewrite E2, E1|].
       intros x Hx. rewrite P4 by done. cbn. by rewrite E2, E1. }
  unfold leave_286. eapply does_bind; [exact D1|]. eapply does_bind; [exact D2|]. then_by st16_put. then_by st16_put.
  rewrite (put_app 0x467 [_; _] [_; _] s2 : put 0x469 _ _ = _). exact D4.
Qed.

(** *** The commands *)

Lemma served_switched w r s m out p q s1 :
  (length w <= 255)%nat -> switched (loaded w r s) m out p s1 -> (forall x, ~ own x -> p x = q x) -> served s m r out q s1.
Proof. intros Hl [W M R T P] Hpq. split; [done|done|done|done|]. intros x Hx. by rewrite P, Hpq. Qed.

Lemma loaded_outside w r s x : (length w <= 255)%nat -> ~ own x -> d_phys (loaded w r s) x = d_phys s x.
Proof. intros Hl Hx. apply loaded_phys; [done|by apply not_own_buf]. Qed.

Lemma jump_hits F m `{!FlavourLaws F m} w jump l di s s1 z :
  text s in_buf (w ++ 0 :: z) -> (length w <= 20)%nat -> does jump s tt s1 ->
  does (first_handler (mode_handler F (w, jump) :: l) in_buf di) s false s1.
Proof.
  intros Ht Hl Hd. apply first_hits. pose proof bo_image. pose proof (word_large F m).
  apply (handle_hits F (w ++ [0]) _ _ _ _ z); [by rewrite <- app_assoc|lia|rewrite length_app; cbn; lia|]. eapply does_bind; [exact Hd|apply does_ret].
Qed.

End Modes.

(** A mode command that stands at place [n] behind the six other handlers. *)
Tactic Notation "mode_command" constr(w) constr(H) integer(n) :=
  let s1 := fresh "s1" in let Hd := fresh "Hd" in let Hs := fresh "Hs" in let Ht := fresh "Ht" in
  destruct H as (s1 & Hd & Hs); exists s1; split;
  [eapply (word_pass _ _ w _ false s1); [assumption|eassumption|by_decision|cbn; lia| |exact (sw_wired _ _ _ _ _ Hs)];
   intros Ht; unfold main_loop_command, handlers;
   cbn [app fmap list_fmap fl_modes file_8086 file_286 file_386_16 file_386_32 file_x64];
   do 6 miss Ht; do n miss Ht; eapply jump_hits; [exact _|exact Ht|cbn; lia|exact Hd]
  |eapply (served_switched w); [cbn; lia|exact Hs|]; try (intros ? ?; apply loaded_outside; [cbn; lia|assumption])].

Section Switching.
Context `{BD : Board} `{IM : Image} `{BO : !BoardOk}.

(** From real mode to the others: each announces itself and leaves memory alone. *)
Lemma to_mode_pass s w m r :
  (w, m) ∈ [(str "386-32", Mode386_32); (str "386-16", Mode386_16); (str "286", Mode286); (str "8086", Mode8086)] ->
  wired s -> d_rx s = w ++ 10 :: r ->
  exists s', does (main_loop_pass file_8086) s tt s' /\ served s m r (announces w) (d_phys s) s'.
Proof.
  intros Hin Hw Er. pose proof (wired_loaded w r s) as Hwl. rewrite !elem_of_cons, elem_of_nil in Hin.
  destruct Hin as [E|[E|[E|[E|[]]]]]; injection E as -> ->; specialize (Hwl ltac:(cbn; lia) Hw).
  - mode_command (str "386-32") (jmp_386_32_does _ Hwl) 1.
  - mode_command (str "386-16") (jmp_prot16_does (str "386-16") 0x8F Mode386_16 _ ltac:(done) Hwl) 2.
  - mode_command (str "286") (jmp_prot16_does (str "286") 0 Mode286 _ ltac:(done) Hwl) 3.
  - mode_command (str "8086") (jmp_8086_does _ Hwl) 4.
Qed.

(** Back from a protected mode. *)
Lemma to_8086_pass s F r :
  F ∈ [file_386_16; file_386_32; file_x64] -> wired s -> d_rx s = str "8086" ++ 10 :: r ->
  exists s', does (main_loop_pass F) s tt s' /\ served s Mode8086 r (announces (str "8086")) (d_phys s) s'.
Proof.
  intros Hin Hw Er. pose proof (wired_loaded (str "8086") r s ltac:(cbn; lia) Hw) as Hwl. rewrite !elem_of_cons, elem_of_nil in Hin.
  destruct Hin as [E|[E|[E|[]]]]; subst F.
  - mode_command (str "8086") (jmp_8086_does _ Hwl) 0.
  - mode_command (str "8086") (leave_386_32_does _ Hwl) 0.
  - mode_command (str "8086") (leave_386_32_does _ Hwl) 0.
Qed.

Lemma from_286_pass s r :
  wired s -> d_rx s = str "8086" ++ 10 :: r ->
  exists s', does (main_loop_pass file_286) s tt s' /\
    served s Mode8086 r (announces (str "8086")) (poke bus 0x467 [u8 realmode_286; u8 (Z.shiftr realmode_286 8); 0; 0] (d_phys s)) s'.
Proof.
  intros Hw Er. pose proof (wired_loaded (str "8086") r s ltac:(cbn; lia) Hw) as Hwl.
  mode_command (str "8086") (leave_286_does _ Hwl) 0.
  intros x Hx. apply poke_same, loaded_outside; [cbn; lia|done].
Qed.

Lemma laws_of m : FlavourLaws (file_of m) m.
Proof. destruct m; [apply laws_8086|apply laws_286|apply laws_386_16|apply laws_386_32|apply laws_x64]. Qed.

End Switching.
