(* ===== verification/DebugText.v ===== *)
(** * READ and WRITE: memory as text

    The two commands of the serial debugger meant for a person at a terminal.
    READ prints a block as pairs of digits, WRITE stores the numbers of its line;
    what READ prints is an argument of WRITE that puts the block back. *)

From S2P Require Import Prelude Machine Memory Vga Text ELib SLib SLibSpec SerialTarget.
From S2P Require Import Debugger DebugModes DebuggerSpec DebugCommands DebugModesSpec DebugBench.

(** ** Bytes as text *)

Definition hex2 (b : Z) : list Z := [nth (Z.to_nat (b / 16)) hexdigits 0; nth (Z.to_nat (b mod 16)) hexdigits 0].
Definition dump (l : list Z) : list Z := concat ((λ b, hex2 b ++ [32]) <$> l).

(** What the two rotations print. *)
Definition rolled (al : Z) : list Z :=
  let x1 := Z.lor (Z.shiftl al 4 mod 16 ^ 2) (Z.shiftr al (4 * (2 - 1))) in
  let x2 := Z.lor (Z.shiftl x1 4 mod 16 ^ 2) (Z.shiftr x1 (4 * (2 - 1))) in
  [nth (Z.to_nat (Z.land x1 15)) hexdigits 0; nth (Z.to_nat (Z.land x2 15)) hexdigits 0].

Lemma hex2_facts b : is_byte b -> rolled b = hex2 b /\ digits (hex2 b) /\ hexval (hex2 b) = b.
Proof.
  intros Hb.
  assert (forallb (λ b, bool_decide (rolled b = hex2 b /\ Forall (λ c, is_hex c = true) (hex2 b) /\ hexval (hex2 b) = b)) (seqZ 0 256) = true) as E
    by (vm_compute; reflexivity).
  exact (bool_decide_eq_true_1 _ (forallb_range _ 256 E b Hb)).
Qed.

(** ** The numbers of a line *)

(** Numbers, each with a blank behind it. *)
Definition numerals (ts : list (list Z)) : list Z := concat ((λ ds, ds ++ [32]) <$> ts).

(** ... and one more without, or nothing. *)
Definition line_numerals (ts : list (list Z)) (ld : list Z) : list (list Z) := ts ++ match ld with [] => [] | _ => [ld] end.
Definition stored_bytes (ts : list (list Z)) (ld : list Z) : list Z := (λ ds, u8 (hexval ds)) <$> line_numerals ts ld.

Definition numeral (ds : list Z) : Prop := digits ds /\ ds <> [].

Lemma numerals_cons ds ts : numerals (ds :: ts) = ds ++ [32] ++ numerals ts.
Proof. unfold numerals. rewrite fmap_cons. cbn [concat]. by rewrite <- app_assoc. Qed.

Lemma numerals_length ts : (length ts <= length (numerals ts))%nat.
Proof. induction ts as [|t ts IH]; [cbn; lia|]. rewrite numerals_cons, !length_app. cbn [length]. lia. Qed.

Lemma numerals_plain ts : Forall numeral ts -> plain (numerals ts).
Proof.
  induction 1 as [|ds ts [Hd _] _ IH]; [by constructor|]. rewrite numerals_cons.
  apply plain_app; [by apply digits_plain|]. apply plain_app; [by_decision|exact IH].
Qed.

Lemma dump_numerals l : Forall is_byte l -> dump l = numerals (hex2 <$> l) /\ Forall numeral (hex2 <$> l) /\ stored_bytes (hex2 <$> l) [] = l.
Proof.
  intros Hl. split; [unfold dump, numerals; by rewrite <- list_fmap_compose|].
  unfold stored_bytes, line_numerals. rewrite app_nil_r. induction Hl as [|b l Hb Hl [IH1 IH2]]; [done|]. destruct (hex2_facts b Hb) as (_ & Hd & Hv).
  rewrite !fmap_cons. split; [constructor; [by split|done]|]. unfold is_byte in Hb. rewrite IH2, Hv, u8_small by lia. done.
Qed.

(** What follows a number and its blank. *)
Lemma hex_above c : is_hex c = true -> 32 < c.
Proof. unfold is_hex, chartohex. repeat case_bool; intros; bool_to_prop; lia. Qed.

Lemma numerals_next ts ld : Forall numeral ts -> digits ld ->
  exists d rest, numerals ts ++ ld ++ [0; 0] = d :: rest /\ d <> 32 /\ (32 <= d \/ line_numerals ts ld = []).
Proof.
  intros Hts Hld. destruct ts as [|[|d ds] ts].
  - destruct ld as [|d ld]; [exists 0, [0]; split_and!; [done|done|by right]|]. apply Forall_cons in Hld as [Hh _]. apply hex_above in Hh.
    exists d, (ld ++ [0; 0]). split_and!; [done|lia|left; lia].
  - apply Forall_cons in Hts as [[_ H] _]. done.
  - apply Forall_cons in Hts as [[Hd _] _]. apply Forall_cons in Hd as [Hh _]. apply hex_above in Hh.
    exists d, ((ds ++ [32] ++ numerals ts) ++ ld ++ [0; 0]). rewrite numerals_cons. split_and!; [done|lia|left; lia].
Qed.

Section Text.
Context `{BD : Board} `{IM : Image} `{BO : !BoardOk}.

Lemma com_hex8_out_does al s : wired s -> does (com_hex8_out al) s tt (print (rolled al) s).
Proof.
  intros Hw. unfold com_hex8_out. cbn [rol_out]. unfold com_puthex_digit. then_by com_char_out_does; [done|].
  then_by com_char_out_does; [by apply wired_tx|]. eapply does_eq; [apply does_ret|done|]. unfold rolled, print. cbn. by rewrite <- app_assoc.
Qed.

Section Flavour.
Context (F : flavour) (m : cpu_mode) `{FL : !FlavourLaws F m}.

(** ** READ *)

Lemma read_pass s la lb r :
  wired s -> d_mode s = m -> d_rx s = (str "READ " ++ la ++ [32] ++ lb) ++ 10 :: r -> digits la -> digits lb ->
  (length la + length lb <= 240)%nat -> fl_valid F (addr_of m la) = true ->
  let n := Z.to_nat (hexval lb mod fl_word F) in let block := peek cell (d_phys s) (addr_of m la) n in
  Z.of_nat n <= 65520 -> clear_of m (addr_of m la) n -> Forall is_byte block ->
  exists s', does (main_loop_pass F) s tt s' /\ served s (d_mode s) r (ok_head ++ dump block ++ crlf) (d_phys s) s'.
Proof.
  intros Hw Hm Er Hla Hlb Hl Hv n block Hn Hc Hbytes. set (l := str "READ " ++ la ++ [32] ++ lb) in *.
  assert (length l = (6 + length la + length lb)%nat) as El by (unfold l; rewrite !length_app; cbn; lia).
  destruct (loaded_args (str "READ ") (la ++ [32] ++ lb) r s ltac:(change (str "READ " ++ la ++ [32] ++ lb) with l; lia)) as [z Ht].
  change (str "READ " ++ la ++ [32] ++ lb) with l in Ht. pose proof bo_image.
  destruct (read_command_does F m (λ al, com_hex8_out al ;; com_char_out 32) (λ x, rolled x ++ [32]) s l r (in_buf + 5) la lb z)
    as (s' & Hd & Hs); try done; try lia.
  { intros al s1 Hw1. then_by com_hex8_out_does; [done|]. rewrite <- print_print. apply com_char_out_does. by apply wired_print. }
  { pose proof Ht as Ht'. apply text_app in Ht' as [_ Ht']. by rewrite <- !app_assoc in Ht'. }
  replace (concat _) with (dump block) in Hs.
  2: { fold n block. unfold dump. f_equal. clear -Hbytes. induction Hbytes as [|b bl Hb _ IH]; [done|].
       rewrite !fmap_cons, IH. by destruct (hex2_facts b Hb) as [-> _]. }
  exists s'. split; [|done]. apply (pass_does F s l r false s'); [done| |done| |by apply Hs].
  - rewrite Er. by apply typed_request; [by_decision| | |cbn; lia].
  - unfold main_loop_command, handlers. cbn [app]. miss Ht. apply first_hits.
    apply (handle_hits F _ _ _ _ _ _ false s' Ht); [lia|change (Z.of_nat (length (str "READ "))) with 5; pose proof (word_large F m); lia|exact Hd].
Qed.

(** ** WRITE *)

(** A store outside the debugger. *)
Definition stored_at (a v : Z) (s : debugger) : debugger := set_d_phys (λ x, if x =? cell a then v else d_phys s x) s.

Lemma text_stored s a v si l :
  ~ reserved m (cell a) -> in_buf <= si -> si + Z.of_nat (length l) <= in_buf + 300 -> text s si l -> text (stored_at a v s) si l.
Proof.
  intros Ho Ha Hl Ht. unfold text in *. rewrite <- Ht at 2. unfold peek. apply list_fmap_ext. intros i x Hx. apply lookup_seq in Hx as [-> Hi].
  assert (own (si + Z.of_nat (0 + i))) as Hown.
  { replace (si + Z.of_nat (0 + i)) with (in_buf + (si + Z.of_nat (0 + i) - in_buf)) by lia. apply own_buf. lia. }
  rewrite bus_own by done. cbn. rewrite (proj2 (Z.eqb_neq _ _)); [done|]. intros E. apply Ho. left. by rewrite <- E.
Qed.

Lemma write_end f si di es bx s : text s si [0] -> 0 <= si < 65535 -> di <= si -> does (write_text_loop F (S f) si di es bx) s tt s.
Proof.
  intros Ht Hs Hd. apply text_cons in Ht as [E _]. cbn [write_text_loop]. then_by str_skip_does; [apply fw_part|exact E|done|lia|].
  cbn beta iota. rewrite (proj2 (Z.leb_le _ _)) by done. apply does_ret.
Qed.

(** One number: [c] ends it and [d] comes next. *)
Lemma write_step f ds c d si di es bx a n s :
  wired s -> d_mode s = m -> text s si (ds ++ [c; d]) -> numeral ds -> stopper c -> d <> 32 -> (length ds <= 250)%nat ->
  0 <= si -> si + Z.of_nat (length ds) + 2 < 65535 -> si < di -> reaches F m es bx a (S n) -> 0 <= bx < fl_word F -> ~ reserved m (cell a) ->
  exists es' s1, kept (stored_at a (u8 (hexval ds)) s) s1 /\ (32 <= d -> es' = es) /\
    forall s2, does (write_text_loop F f (si + Z.of_nat (length ds) + 1) di es' ((bx + 1) mod fl_word F)) s1 tt s2 ->
      does (write_text_loop F (S f) si di es bx) s tt s2.
Proof.
  intros Hw Hm Ht [Hds Hne] Hc Hd Hl Hs Hsi Hdi Hr Hb Ho. pose proof (word_large F m) as Hword. set (s0 := stored_at a (u8 (hexval ds)) s).
  assert (wired s0) as Hw0 by by apply (wired_poke m).
  assert (exists es' s1, does (next_byte F (d <? 32) es bx) s0 (es', (bx + 1) mod fl_word F) s1 /\ kept s0 s1 /\ (32 <= d -> es' = es))
    as (es' & s1 & Hnext & Hk & He).
  { unfold next_byte. destruct (d <? 32) eqn:E; bool_to_prop.
    - destruct (fw_bump es s0 Hw0) as (es' & s1 & Hd1 & Hk). exists es', s1. split_and!; [|done|lia]. eapply does_bind; [exact Hd1|apply does_ret].
    - exists es, s0. split_and!; [apply does_ret|by apply kept_refl|done]. }
  exists es', s1. split_and!; [done|done|]. intros s2 Hrest.
  destruct ds as [|d0 ds0]; [done|]. set (ds := d0 :: ds0) in *.
  replace (ds ++ [c; d]) with ((ds ++ [c]) ++ [d]) in Ht by by rewrite <- app_assoc. apply text_app in Ht as [Ht1 Ht2].
  rewrite length_app in Ht2. cbn [length] in Ht2. apply text_cons in Ht2 as [Ed _].
  pose proof Ht1 as Hfirst. apply text_cons in Hfirst as [E0 _]. apply Forall_cons in Hds as Hds'. destruct Hds' as [Hh _].
  cbn [write_text_loop]. then_by str_skip_does; [apply fw_part|exact E0|by intros ->|lia|]. cbn beta iota. rewrite (proj2 (Z.leb_gt _ _)) by done.
  then_by (number_does F m ds c); [exact Ht1|done|done|lia|lia|lia|]. cbn beta iota.
  then_by str_skip_does; [apply fw_part| |exact Hd|lia|]. { rewrite <- Ed. do 2 f_equal. lia. }
  cbn beta iota. then_by (reaches_0 F m); [exact Hr|done|done|done|]. then_by does_st8.
  change (set_d_phys _ s) with (stored_at a (u8 (hexval ds mod fl_word F)) s).
  replace (u8 (hexval ds mod fl_word F)) with (u8 (hexval ds)).
  2: { destruct (fw_word (F := F)) as (k & -> & Hk4). unfold u8. replace (16 ^ k) with (256 * 16 ^ (k - 2)) by
         (change 256 with (16 ^ 2); rewrite <- Z.pow_add_r by lia; f_equal; lia).
       rewrite Z.rem_mul_r by (try apply Z.pow_nonzero; try apply Z.pow_pos_nonneg; lia). rewrite Z.mul_comm, Z.mod_add, Z.mod_mod by lia. done. }
  eapply does_bind; [exact Hnext|]. exact Hrest.
Qed.

(** A whole line of them; the carry is set behind the last one only. *)
Lemma write_text_loop_does ld : digits ld -> forall ts fuel es bx a si di s,
  Forall numeral ts -> wired s -> d_mode s = m -> text s si (numerals ts ++ ld ++ [0; 0]) -> di = si + Z.of_nat (length (numerals ts ++ ld)) ->
  (S (length ts) < fuel)%nat -> in_buf <= si -> di <= in_buf + 250 -> 0 <= bx < fl_word F ->
  let buf := stored_bytes ts ld in reaches F m es bx a (length buf) -> clear_of m a (length buf) ->
  exists s', does (write_text_loop F fuel si di es bx) s tt s' /\ switched s (d_mode s) [] (poke cell a buf (d_phys s)) s'.
Proof.
  intros Hld. pose proof bo_image as Hi. pose proof bo_comport as Hcp. pose proof (word_large F m) as Hword.
  induction ts as [|ds ts IH]; intros [|fuel] es bx a si di s Hts Hw Hm Ht Hdi Hf Hsi Hend Hb buf Hr Hc; try (cbn [length] in Hf; lia).
  - cbn [app] in *. destruct ld as [|d0 ld0].
    + exists s. split; [|split; try done; by rewrite app_nil_r]. apply write_end; [by apply (text_app s si [0] [0]) in Ht as [Ht _]|lia|cbn in Hdi; lia].
    + set (ld := d0 :: ld0) in *. change (numerals []) with (@nil Z) in Hdi. cbn [app] in Hdi.
      pose proof (clear_0 m _ _ Hc) as Ho.
      assert (0 < Z.of_nat (length ld)) by (cbn; lia).
      destruct (write_step fuel ld 0 0 si di es bx a 0 s) as (es' & s1 & Hk & _ & Hrun); try done; try lia; try by split.
      exists s1. split.
      * apply Hrun. destruct fuel as [|fuel]; [cbn [length] in Hf; lia|]. apply write_end; [|lia|lia].
        apply (text_kept _ _ _ _ Hk); cbn [length]; [lia|lia|]. apply text_stored; cbn [length]; [done|lia|lia|].
        change (numerals [] ++ ld ++ [0; 0]) with (ld ++ [0; 0]) in Ht. apply text_app in Ht as [_ Ht]. by apply text_cons in Ht as [_ Ht].
      * split; [apply Hk|apply Hk|apply Hk|rewrite app_nil_r; apply Hk|]. intros x Hx. rewrite (kept_outside _ _ _ Hk Hx). done.
  - apply Forall_cons in Hts as [Hds Hts]. rewrite numerals_cons in Ht, Hdi. rewrite <- !app_assoc in Ht. rewrite !length_app in Hdi. cbn [length] in *.
    destruct (numerals_next ts ld Hts Hld) as (d & rest & Ed & Hd & Hlast).
    pose proof (clear_0 m _ _ Hc) as Ho.
    assert (0 < Z.of_nat (length ds)) by (destruct Hds as [_ Hne]; destruct ds; [done|cbn; lia]).
    destruct (write_step fuel ds 32 d si di es bx a (length (stored_bytes ts ld)) s) as (es' & s1 & Hk & He & Hrun); try done; try lia.
    { rewrite Ed in Ht. change (32 :: d :: rest) with ([32; d] ++ rest) in Ht. cbn [app] in Ht.
      replace (ds ++ 32 :: d :: rest) with ((ds ++ [32; d]) ++ rest) in Ht by by rewrite <- app_assoc. by apply text_app in Ht as [Ht _]. }
    destruct (IH fuel es' ((bx + 1) mod fl_word F) (a + 1) (si + Z.of_nat (length ds) + 1) di s1) as (s' & Hd' & [W M R T P]); try done; try lia.
    + apply Hk.
    + by rewrite (ke_mode _ _ Hk).
    + apply (text_kept _ _ _ _ Hk); rewrite ?length_app; cbn [length]; [lia|lia|]. apply text_stored; rewrite ?length_app; cbn [length]; [done|lia|lia|].
      apply text_app in Ht as [_ Ht]. by apply text_cons in Ht as [_ Ht].
    + rewrite length_app. lia.
    + apply Z.mod_pos_bound. lia.
    + destruct Hlast as [Hd32|Hnil]; [rewrite He by done; by apply reaches_S|]. intros i tt' Hi'. exfalso. revert Hi'. unfold stored_bytes. rewrite Hnil. cbn. lia.
    + exact (clear_S m _ _ Hc).
    + exists s'. split; [by apply Hrun|]. split; [done|by rewrite M, (ke_mode _ _ Hk)|by rewrite R, (ke_rx _ _ Hk)|by rewrite T, (ke_tx _ _ Hk)|].
      intros x Hx. rewrite P by done. change buf with (u8 (hexval ds) :: stored_bytes ts ld). cbn [poke]. apply poke_same.
      by rewrite (kept_outside _ _ _ Hk Hx).
Qed.

Lemma write_pass s la ts ld r :
  wired s -> d_mode s = m -> d_rx s = (str "WRITE " ++ la ++ [32] ++ numerals ts ++ ld) ++ 10 :: r -> digits la -> Forall numeral ts -> digits ld ->
  (length la + length (numerals ts) + length ld <= 230)%nat -> fl_valid F (addr_of m la) = true ->
  let buf := stored_bytes ts ld in clear_of m (addr_of m la) (length buf) ->
  exists s', does (main_loop_pass F) s tt s' /\
    served s (d_mode s) r (ok_head ++ write_complete_msg ++ crlf) (poke cell (addr_of m la) buf (d_phys s)) s'.
Proof.
  intros Hw Hm Er Hla Hts Hld Hl Hv buf Hc. set (args := numerals ts ++ ld) in *. set (l := str "WRITE " ++ la ++ [32] ++ args) in *.
  assert (length args = (length (numerals ts) + length ld)%nat) as Ea by apply length_app.
  assert (length l = (7 + length la + length args)%nat) as El by (unfold l; rewrite !length_app; cbn; lia).
  destruct (loaded_args (str "WRITE ") (la ++ [32] ++ args) r s ltac:(change (str "WRITE " ++ la ++ [32] ++ args) with l; lia)) as [z Ht].
  change (str "WRITE " ++ la ++ [32] ++ args) with l in Ht. pose proof bo_image. pose proof bo_comport. pose proof bo_fuel.
  pose proof (wired_loaded l r s ltac:(lia) Hw) as Hwl.
  assert (text (loaded l r s) (in_buf + 6) (la ++ [32] ++ args ++ 0 :: 0 :: z)) as Hta.
  { pose proof Ht as Ht'. apply text_app in Ht' as [_ Ht']. by rewrite <- !app_assoc in Ht'. }
  destruct (numerals_next ts ld Hts Hld) as (c & rest & Ec & Hne & _).
  assert (args ++ 0 :: 0 :: z = c :: rest ++ z) as Ec'.
  { change (c :: rest ++ z) with ((c :: rest) ++ z). rewrite <- Ec. unfold args. by rewrite <- !app_assoc. }
  destruct (with_pointer_does F m (in_buf + 6) (loaded l r s) la c (rest ++ z) (λ si es bx,
      write_text_loop F dbg_fuel si (in_buf + Z.of_nat (length l)) es bx ;; command_response_output write_complete_msg))
    as (es & bx & s1 & Hk & Hb & Hr & Hrun); [done|by cbn [app] in Hta; rewrite Ec' in Hta|done|lia|done|lia|lia|done|].
  destruct (write_text_loop_does ld Hld ts dbg_fuel es bx (addr_of m la) (in_buf + 6 + Z.of_nat (length la) + 1) (in_buf + Z.of_nat (length l)) s1)
    as (s2 & Hd & [W M R T P]); try done; try lia.
  { apply Hk. }
  { by rewrite (ke_mode _ _ Hk). }
  { apply (text_kept _ _ _ _ Hk); rewrite ?length_app; cbn [length]; [lia|lia|]. rewrite app_assoc. fold args.
    rewrite !text_app in Hta. destruct Hta as (_ & _ & Ha1 & Ha2). cbn [length] in Ha1, Ha2. change (Z.of_nat 1) with 1 in *.
    apply text_app. split; [exact Ha1|]. by apply (text_app _ _ [0; 0] z) in Ha2 as [Ha2 _]. }
  { fold args. lia. }
  { pose proof (numerals_length ts). lia. }
  { apply Hr; [|apply Hc]. unfold stored_bytes. rewrite length_fmap. unfold line_numerals. rewrite length_app.
    pose proof (numerals_length ts). destruct ld; cbn [length] in *; lia. }
  exists (print (ok_head ++ write_complete_msg ++ crlf) s2). split.
  - apply (pass_does F s l r false); [done| |done| |by apply wired_print].
    { rewrite Er. apply typed_plain; [|lia]. unfold l, args. repeat apply plain_app; [by_decision|by apply digits_plain|by_decision|by apply numerals_plain|by apply digits_plain]. }
    unfold main_loop_command, handlers. cbn [app]. do 3 miss Ht. apply first_hits.
    apply (handle_hits F _ _ _ _ _ _ false _ Ht); [lia|change (Z.of_nat (length (str "WRITE "))) with 6; pose proof (word_large F m); lia|].
    apply Hrun. eapply does_bind; [exact Hd|]. by apply response_does.
  - split; cbn; [by apply wired_print|by rewrite M, (ke_mode _ _ Hk)|by rewrite R, (ke_rx _ _ Hk)|by rewrite T, (ke_tx _ _ Hk), app_nil_r|].
    intros x Hx. rewrite P by done. apply poke_same. rewrite (kept_outside _ _ _ Hk Hx). apply loaded_outside; [lia|done].
Qed.

End Flavour.
End Text.

(** ** The property *)

(** C35: READ and WRITE are inverse to each other, in all five modes.  READ of a block
    outside the debugger prints every byte as two digits and a blank and changes
    nothing; a WRITE whose arguments are that text stores the block at its address,
    byte by byte, and changes nothing else outside the debugger. *)
Theorem text_roundtrip `{BD : Board} `{IM : Image} `{BO : !BoardOk} s la lb r :
  let m := d_mode s in
  wired s -> d_rx s = (str "READ " ++ la ++ [32] ++ lb) ++ 10 :: r -> digits la -> digits lb ->
  (length la + length lb <= 240)%nat -> fl_valid (file_of m) (addr_of m la) = true ->
  let n := Z.to_nat (hexval lb mod fl_word (file_of m)) in let block := peek cell (d_phys s) (addr_of m la) n in
  Z.of_nat n <= 65520 -> clear_of m (addr_of m la) n -> Forall is_byte block ->
  (exists s', does main_loop s tt s' /\ served s m r (ok_head ++ dump block ++ crlf) (d_phys s) s') /\
  (forall t lw rest, let m' := d_mode t in
     wired t -> d_rx t = (str "WRITE " ++ lw ++ [32] ++ dump block) ++ 10 :: rest -> digits lw ->
     (length lw + length (dump block) <= 230)%nat -> fl_valid (file_of m') (addr_of m' lw) = true -> clear_of m' (addr_of m' lw) n ->
     exists t', does main_loop t tt t' /\
       served t m' rest (ok_head ++ write_complete_msg ++ crlf) (poke cell (addr_of m' lw) block (d_phys t)) t').
Proof.
  intros m Hw Er Hla Hlb Hl Hv n block Hn Hc Hb. pose proof (laws_of m). split.
  - destruct (read_pass (file_of m) m s la lb r) as (s' & Hd & Hs); try done. exists s'. split; [|done].
    unfold main_loop. then_by does_gets; [done|exact Hd].
  - intros t lw rest m' Hwt Ert Hlw Hlt Hvt Hct. pose proof (laws_of m'). destruct (dump_numerals block Hb) as (Ed & Hnum & Es).
    destruct (write_pass (file_of m') m' t lw (hex2 <$> block) [] rest) as (t' & Hd & Ht); rewrite ?app_nil_r; try done.
    + by rewrite <- Ed.
    + by constructor.
    + rewrite <- Ed. cbn [length]. lia.
    + rewrite Es. unfold block. by rewrite length_peek.
    + rewrite Es in Ht. exists t'. split; [|done]. unfold main_loop. then_by does_gets; [done|exact Hd].
Qed.

(** Three bytes at 12345 in the 286's protected mode, stored at 5000 in real mode. *)
Lemma text_roundtrip_witness :
  let block := [0x45; 0x46; 0x47] in
  (exists s', does main_loop (bench_debugger Mode286 (str "READ 12345 3" ++ [10])) tt s' /\ d_tx s' = str "OK 45 46 47 " ++ [13; 10]) /\
  (exists t', does main_loop (bench_debugger Mode8086 (str "WRITE 5000 45 46 47 " ++ [10])) tt t' /\
     served (bench_debugger Mode8086 (str "WRITE 5000 45 46 47 " ++ [10])) Mode8086 [] (str "OK Accepted" ++ [13; 10]) (poke cell 0x5000 block bench_memory) t').
Proof.
  destruct (text_roundtrip (bench_debugger Mode286 (str "READ 12345 3" ++ [10])) (str "12345") (str "3") []) as [(s' & Hd & Hs) Hwrite];
    [apply bench_wired; discriminate|reflexivity|by_decision|by_decision|cbn; lia|reflexivity|vm_compute; discriminate| |by_decision|].
  - apply bench_clear; [vm_compute; discriminate|right; split; [vm_compute; discriminate|split; [vm_compute; discriminate|left; discriminate]]].
  - split; [exists s'; split; [exact Hd|exact (sv_tx _ _ _ _ _ _ Hs)]|].
    apply (Hwrite (bench_debugger Mode8086 (str "WRITE 5000 45 46 47 " ++ [10])) (str "5000") []);
      [apply bench_wired; discriminate|reflexivity|by_decision|apply Nat.leb_le; vm_compute; reflexivity|reflexivity|].
    apply bench_clear; [vm_compute; discriminate|left; vm_compute; discriminate].
Defined.
