(* ===== verification/DebugLong.v ===== *)
(** * Long mode

    The command x64: the bytes that [page_tables] stores, and the state in which the
    main loop of stage2-x64.asm starts. *)

From S2P Require Import Prelude Machine Memory Vga Text ELib SLib SLibSpec SerialTarget.
From S2P Require Import Debugger DebugModes DebugPages DebuggerSpec DebugCommands DebugBench DebugModesSpec.

Section Long.
Context `{BD : Board} `{IM : Image}.

Lemma st_entry_does table i v s : does (st_entry table i v) s tt (put (table + 8 * i) (entry8 v) s).
Proof.
  unfold st_entry, st32. set (a := table + 8 * i).
  assert (forall b w s, does (st16 b w) s tt (put b [u8 w; u8 (Z.shiftr w 8)] s)) as H16.
  { intros b w s1. unfold st16. then_by st8_put. eapply does_eq; [apply st8_put|done|]. exact (put_app b [u8 w] [_] s1). }
  eapply does_bind; [eapply does_bind; [apply H16|apply H16]|]. eapply does_bind; [apply H16|]. eapply does_eq; [apply H16|done|].
  rewrite (put_app a [_; _] [_; _] s : put (a + 2) _ _ = _). cbn [app].
  rewrite (put_app a [_; _; _; _] [_; _] s : put (a + 4) _ _ = _). cbn [app].
  replace (a + 4 + 2) with (a + 6) by lia. exact (put_app a [_; _; _; _; _; _] [_; _] s).
Qed.

Lemma entries_does table f n : forall lo s,
  does (for_range lo n (λ i, st_entry table i (f i))) s tt (put (table + 8 * lo) (concat (entry8 <$> (f <$> seqZ lo (Z.of_nat n)))) s).
Proof.
  induction n as [|n IH]; intros lo s; cbn [for_range].
  - change (seqZ lo (Z.of_nat 0)) with (@nil Z). rewrite put_nil. apply does_ret.
  - then_by st_entry_does. eapply does_eq; [apply IH|done|]. rewrite (seqZ_cons lo (Z.of_nat (S n))) by lia. rewrite !fmap_cons. cbn [concat].
    replace (Z.pred (Z.of_nat (S n))) with (Z.of_nat n) by lia. replace (Z.succ lo) with (lo + 1) by lia.
    rewrite <- put_app. f_equal. cbn [length entry8]. lia.
Qed.

Lemma zero_entries lo n : (λ _ : Z, 0) <$> seqZ lo (Z.of_nat n) = replicate n 0.
Proof.
  rewrite (const_fmap (λ _, 0) (seqZ lo (Z.of_nat n)) 0) by done. by rewrite length_seqZ, Nat2Z.id.
Qed.

(** The code stores the tables. *)
Lemma page_tables_does s : does page_tables s tt (put PML4_LOCATION table_bytes s).
Proof.
  unfold page_tables. then_by st_entry_does. rewrite Z.add_0_r.
  eapply does_bind; [apply (entries_does PML4_LOCATION (λ _, 0) 511 1)|]. eapply does_bind; [apply (entries_does PML3_LOCATION pml3_entry 64 0)|].
  eapply does_bind; [apply (entries_does PML3_LOCATION (λ _, 0) 448 64)|]. eapply does_eq; [apply (entries_does PML2_LOCATION pml2_entry)|done|].
  rewrite !zero_entries, Z2Nat.id by lia. unfold table_bytes, table_entries. rewrite !fmap_app, !concat_app.
  set (e0 := concat (entry8 <$> [_])). set (e1 := concat (entry8 <$> replicate 511 0)).
  set (e2 := concat (entry8 <$> (pml3_entry <$> _))). set (e3 := concat (entry8 <$> replicate 448 0)). set (e4 := concat (entry8 <$> (pml2_entry <$> _))).
  assert (length e0 = 8%nat /\ length e1 = 4088%nat /\ length e2 = 512%nat /\ length e3 = 3584%nat) as (L0 & L1 & L2 & L3).
  { unfold e1, e2, e3. rewrite !concat_entries_length, !length_replicate, length_fmap, length_seqZ. by repeat split. }
  rewrite <- !put_app. rewrite L0, L1, L2, L3. change (entry8 (Z.lor PML3_LOCATION 7)) with e0. done.
Qed.

(** ** What a processor reads back *)

Context `{BO : !BoardOk}.

Lemma tables_stored s : has_tables (d_phys (put PML4_LOCATION table_bytes s)).
Proof.
  intros j v i Hj Hi. pose proof (lookup_lt_Some _ _ _ Hj) as Hl. rewrite table_entries_length in Hl.
  assert (length table_bytes = Z.to_nat 270336) as Lb by (unfold table_bytes; rewrite concat_entries_length, table_entries_length; lia).
  assert (peek bus (d_phys (put PML4_LOCATION table_bytes s)) PML4_LOCATION (length table_bytes) = table_bytes) as E.
  { apply peek_poke. intros a b Ha Hb. rewrite Lb in *. unfold FINAL_LOW, PML2_LOCATION, PML3_LOCATION, PML4_LOCATION in *. rewrite !bo_tables by (unfold FINAL_LOW, PML2_LOCATION, PML3_LOCATION, PML4_LOCATION in *; lia). lia. }
  apply (f_equal (.!! (8 * j + i)%nat)) in E. unfold table_bytes in E at 3. rewrite (concat_entries_lookup _ _ _ _ Hj Hi) in E. rewrite <- E.
  unfold peek. rewrite list_lookup_fmap, lookup_seq_lt by (rewrite Lb; lia). cbn [fmap option_fmap option_map]. f_equal.
  unfold FINAL_LOW, PML2_LOCATION, PML3_LOCATION, PML4_LOCATION in *. rewrite bo_tables by (unfold FINAL_LOW, PML2_LOCATION, PML3_LOCATION, PML4_LOCATION in *; lia). f_equal. lia.
Qed.

(** ** The command *)

Lemma wired_tables s : wired s -> d_mode s <> ModeX64 -> wired (set_d_mode ModeX64 (put PML4_LOCATION table_bytes s)).
Proof.
  intros [Hp Hd _] Hm. split; [|exact Hd|intros _; exact (tables_stored s)]. pose proof bo_image. pose proof bo_comport.
  assert (forall x, 0 <= x < PML4_LOCATION -> d_phys (put PML4_LOCATION table_bytes s) x = d_phys s x) as E.
  { intros x Hx. apply poke_outside. intros i Hi. unfold table_bytes in Hi. rewrite concat_entries_length, table_entries_length in Hi.
    rewrite bo_tables by (unfold FINAL_LOW, PML2_LOCATION, PML3_LOCATION, PML4_LOCATION in *; lia). lia. }
  change (d_phys (set_d_mode ModeX64 ?t)) with (d_phys t). rewrite !E by (unfold PML4_LOCATION; lia). exact Hp.
Qed.

#[local] Opaque table_bytes.

(** The GDT, the saved registers and the two descriptors. *)
Lemma quiet_x64 m : quiet m ->
  quiet (st16 gdtr 0xFFFF ;; st32 (gdtr + 2) gdt_table ;; gen_gdt_32 ;; stosw idtr_realmode [0x3FF; 0; 0] ;; save_gdtr ;;
         st8 (gdt_table + CODE_SELECTOR + 6) 0xAF ;; st8 (gdt_table + DATA_SELECTOR + 6) 0xAF ;; m).
Proof.
  intros Hm. pose proof bo_gdt. pose proof bo_gdtr. pose proof bo_idtr. unfold CODE_SELECTOR, DATA_SELECTOR.
  apply quiet_seq; [apply quiet_st16; lia|]. apply quiet_seq; [apply quiet_st32; lia|].
  apply quiet_seq; [apply quiet_stosw; cbn [length app segment_words]; lia|]. apply quiet_seq; [apply quiet_stosw; cbn [length]; lia|].
  apply quiet_seq; [apply quiet_save_gdtr|]. apply quiet_seq; [apply quiet_st8; lia|]. by apply quiet_seq; [apply quiet_st8; lia|].
Qed.

Lemma jmp_x64_does s : with_x64 = true -> wired s -> d_mode s <> ModeX64 -> exists s',
  does jmp_x64 s tt s' /\ switched s ModeX64 (announces (str "x64")) (poke bus PML4_LOCATION table_bytes (d_phys s)) s'.
Proof.
  intros Hx Hw Hm. destruct (quiet_x64 skip quiet_skip s Hw) as (s1 & D1 & K1).
  destruct (out_other_does 0x92 (Z.land (Z.lor (other_in 0x92) 2) 0xFE) s1 (ke_wired _ _ K1) ltac:(lia)) as (s2 & D2 & W2 & E2).
  assert (wired (set_d_mode ModeX64 (put PML4_LOCATION table_bytes s2))) as W4
    by (apply wired_tables; [done|rewrite E2; cbn; by rewrite (ke_mode _ _ K1)]).
  set (s3 := put PML4_LOCATION table_bytes s2) in *.
  exists (print (announces (str "x64")) (set_d_mode ModeX64 s3)). split; [|split].
  - unfold jmp_x64. rewrite Hx. cbn [negb]. intros n. destruct (D1 n) as [n1 E1].
    assert (does (al ← in_byte 0x92; out_byte 0x92 (Z.land (Z.lor al 2) 0xFE) ;; page_tables ;; set_mode ModeX64 ;;
      com_str_out ok_head ;; com_str_out (str "x64") ;; com_str_out crlf) s1 tt (print (announces (str "x64")) (set_d_mode ModeX64 s3))) as D.
    { eapply does_bind; [unfold in_byte; then_by does_gets; [done|]; pose proof bo_uart; rewrite !(proj2 (Z.eqb_neq _ _)) by lia; apply does_ret|].
      eapply does_bind; [exact D2|]. eapply does_bind; [apply page_tables_does|]. then_by does_modify; [done|]. by apply announce_does. }
    destruct (D n1) as [n2 E]. exists n2. rewrite <- E. clear E D. revert E1.
    unfold mbind, SM_bind. repeat (match goal with |- context [match ?m ?s with _ => _ end] => destruct (m s) as [|[[] ?]]; [done|] end).
    by intros [= ->].
  - by apply wired_print.
  - done.
  - cbn. rewrite E2. cbn. by rewrite (ke_rx _ _ K1).
  - cbn. rewrite E2. cbn. by rewrite (ke_tx _ _ K1).
  - intros x Ho. cbn. apply poke_same. rewrite E2. cbn. by rewrite (kept_outside _ _ _ K1 Ho).
Qed.

Lemma to_x64_pass s r :
  with_x64 = true -> wired s -> d_mode s = Mode8086 -> d_rx s = str "x64" ++ 10 :: r ->
  exists s', does (main_loop_pass file_8086) s tt s' /\
    served s ModeX64 r (announces (str "x64")) (poke bus PML4_LOCATION table_bytes (d_phys s)) s'.
Proof.
  intros Hx Hw Hm Er. pose proof (wired_loaded (str "x64") r s ltac:(cbn; lia) Hw) as Hwl.
  destruct (jmp_x64_does _ Hx Hwl) as (s1 & Hd & Hs); [by cbn; rewrite Hm|]. exists s1. split.
  - eapply (word_pass _ _ (str "x64") _ false s1); [done|exact Er|by_decision|cbn; lia| |exact (sw_wired _ _ _ _ _ Hs)].
    intros Htx. unfold main_loop_command, handlers. cbn [app fmap list_fmap fl_modes file_8086].
    do 6 miss Htx. eapply jump_hits; [exact _|exact Htx|cbn; lia|exact Hd].
  - eapply (served_switched (str "x64")); [cbn; lia|exact Hs|]. intros x Ho. apply poke_same, loaded_outside; [cbn; lia|done].
Qed.

End Long.

(** ** The property *)

(** C36: The command x64 enters long mode with page tables that map every address
    below 64 GB to the address modulo 4 GB: an entry is made in a 32-bit register,
    where the shift by 21 drops the upper bits, so the upper sixty of the 64 GB that
    the tables span are the lowest four again.  Addresses beyond fault, for which there is no
    handler.  Outside the debugger only the 0x42000 bytes of the tables change. *)
Theorem long_mode_wraps `{BD : Board} `{IM : Image} `{BO : !BoardOk} s r :
  with_x64 = true -> wired s -> d_mode s = Mode8086 -> d_rx s = str "x64" ++ 10 :: r ->
  exists s', does main_loop s tt s' /\ wired s' /\ d_mode s' = ModeX64 /\ d_rx s' = r /\ d_tx s' = d_tx s ++ announces (str "x64") /\
    (forall x, ~ own x -> x < PML4_LOCATION \/ FINAL_LOW <= x -> d_phys s' x = d_phys s x) /\
    (forall a, 0 <= a < 2 ^ 36 -> does (mapped_cell a) s' (a mod 2 ^ 32) s') /\
    (forall a, 2 ^ 36 <= a < 2 ^ 47 -> stalls (mapped_cell a) s').
Proof.
  intros Hx Hw Hm Er. destruct (to_x64_pass s r Hx Hw Hm Er) as (s' & Hd & [W M R T P]). exists s'. split_and!; try done.
  - unfold main_loop. then_by does_gets; [done|]. by rewrite Hm.
  - intros x Ho Hx'. rewrite P by done. apply poke_outside. intros i Hi. unfold table_bytes in Hi.
    rewrite concat_entries_length, table_entries_length in Hi.
    rewrite bo_tables by (unfold FINAL_LOW, PML2_LOCATION, PML3_LOCATION, PML4_LOCATION in *; lia).
    unfold FINAL_LOW, PML2_LOCATION, PML3_LOCATION, PML4_LOCATION in *. lia.
  - intros a Ha. by apply mapped_does.
  - intros a Ha. eapply stalls_after; [by apply does_gets|]. by rewrite (walk_faults bo_tables _ _ (wi_tables _ W M) Ha).
Qed.

Lemma long_mode_wraps_witness :
  exists s', does main_loop (bench_debugger Mode8086 (str "x64" ++ [10])) tt s' /\ d_mode s' = ModeX64 /\
    does (mapped_cell 0x100012345) s' 0x12345 s' /\ stalls (mapped_cell 0x1000000000) s'.
Proof.
  destruct (long_mode_wraps (bench_debugger Mode8086 (str "x64" ++ [10])) []) as (s' & Hd & _ & Hm & _ & _ & _ & Hmap & Hfault);
    [reflexivity|apply bench_wired; discriminate|reflexivity|reflexivity|].
  exists s'. split; [exact Hd|]. split; [exact Hm|]. split.
  - apply (Hmap 0x100012345). split; [discriminate|reflexivity].
  - apply (Hfault 0x1000000000). split; [discriminate|reflexivity].
Defined.
