(* ===== verification/DebugLink.v ===== *)
(** * The host library and the serial debugger together

    comm/s_lib.c over a line at whose other end the debugger of stage2-*.asm runs.
    [stream] is what the debugger has sent once it has been sent [w]; the host's
    theorems hold for any line that delivers it ([SerialLine]). *)

From S2P Require Import Prelude Machine Memory Vga Text ELib SLib SLibSpec SerialTarget.
From S2P Require Import Debugger DebugModes DebugPages DebuggerSpec DebugCommands DebugModesSpec DebugLong.

Section Link.
Context `{BD : Board} `{IM : Image} `{BO : !BoardOk}.

(** ** The debugger as a function of its input *)

(** Passes of the main loop, as many as the input allows. *)
Fixpoint run_passes (n : nat) (s : debugger) : debugger :=
  match n with
  | O => s
  | S n => match main_loop s with inr (_, s') => run_passes n s' | inl _ => s end
  end.

(** [n] passes. *)
Inductive chain : nat -> debugger -> debugger -> Prop :=
  | chain_0 s : chain 0 s s
  | chain_S n s s1 s2 : chain n s s1 -> does main_loop s1 tt s2 -> chain (S n) s s2.

Lemma run_passes_add n : forall m s, run_passes (n + m) s = run_passes m (run_passes n s) \/ exists e, main_loop (run_passes n s) = inl e.
Proof.
  induction n as [|n IH]; intros m s; [by left|]. cbn [run_passes Nat.add]. destruct (main_loop s) as [e|[[] s1]] eqn:E; [right; by exists e|apply IH].
Qed.

Lemma chain_runs n s s' : chain n s s' -> forall k, exists k', run_passes n (set_d_looks k s) = set_d_looks k' s'.
Proof.
  induction 1 as [s|n s s1 s2 Hc IH Hd]; intros k; [by exists k|]. destruct (IH k) as [k1 E1]. destruct (Hd k1) as [k2 E2].
  exists k2. replace (S n) with (n + 1)%nat by lia.
  destruct (run_passes_add n 1 (set_d_looks k s)) as [->|[e E]]; rewrite E1 in *; [|congruence]. cbn [run_passes]. by rewrite E2.
Qed.

(** Without input the debugger waits. *)
Lemma blocked s k : wired s -> d_rx s = [] -> main_loop (set_d_looks k s) = inl NoReturn.
Proof.
  intros Hw Er. revert k. apply (stalls_after _ _ s (d_mode s) s); [by apply does_gets|]. apply pass_stalls; [done|by rewrite Er].
Qed.

Lemma run_passes_blocked n s k : wired s -> d_rx s = [] -> run_passes n (set_d_looks k s) = set_d_looks k s.
Proof. intros Hw Er. destruct n as [|n]; [done|]. cbn [run_passes]. by rewrite blocked. Qed.

Context (s0 : debugger).

(** What has come back when [w] has been sent. *)
Definition stream (w : list Z) : list Z := d_tx (run_passes (S (length w)) (set_d_rx w s0)).

(** After [w] the debugger is at its prompt in mode [m], has sent [out], and
    memory outside it is [p], whatever is sent next. *)
Definition at_prompt (w : list Z) (m : cpu_mode) (out : list Z) (p : Z -> Z) : Prop :=
  forall v, exists n s, (n <= length w)%nat /\ chain n (set_d_rx (w ++ v) s0) s /\
    wired s /\ d_mode s = m /\ d_rx s = v /\ d_tx s = out /\ forall x, ~ own x -> d_phys s x = p x.

Lemma looks_same s : set_d_looks (d_looks s) s = s.
Proof. by destruct s. Qed.

Lemma run_passes_stop n : forall s, (exists e, main_loop (run_passes n s) = inl e) -> forall j, run_passes (n + j) s = run_passes n s.
Proof.
  induction n as [|n IH]; intros s [e He] j; cbn [run_passes Nat.add] in *.
  - destruct j; [done|]. cbn [run_passes]. by rewrite He.
  - destruct (main_loop s) as [|[[] s1]]; [done|]. apply IH. by exists e.
Qed.

Lemma prompt_stream w m out p : at_prompt w m out p -> stream w = out.
Proof.
  intros H. destruct (H []) as (n & s & Hn & Hc & Hw & _ & Er & Et & _). rewrite app_nil_r in Hc.
  destruct (chain_runs _ _ _ Hc (d_looks (set_d_rx w s0))) as [k E]. rewrite looks_same in E. unfold stream.
  replace (S (length w)) with (n + (S (length w) - n))%nat by lia. rewrite run_passes_stop; rewrite E; [done|].
  exists NoReturn. by apply blocked.
Qed.

(** One more command. *)
Lemma prompt_step w m out p request m' answer (q : (Z -> Z) -> Z -> Z) :
  at_prompt w m out p -> request <> [] ->
  (forall p1 p2, (forall x, ~ own x -> p1 x = p2 x) -> forall x, ~ own x -> q p1 x = q p2 x) ->
  (forall s r, wired s -> d_mode s = m -> d_rx s = request ++ r -> (forall x, ~ own x -> d_phys s x = p x) ->
     exists s', does (main_loop_pass (file_of m)) s tt s' /\ served s m' r answer (q (d_phys s)) s') ->
  at_prompt (w ++ request) m' (out ++ answer) (q p).
Proof.
  intros H Hne Hq Hstep v. destruct (H (request ++ v)) as (n & s & Hn & Hc & Hw & Hm & Er & Et & Hp). rewrite app_assoc in Hc.
  destruct (Hstep s v Hw Hm Er Hp) as (s' & Hd & [W M R T P]). exists (S n), s'.
  split_and!; [|econstructor; [exact Hc|]|done|done|done|by rewrite T, Et|].
  - rewrite length_app. destruct request; [done|cbn; lia].
  - unfold main_loop. then_by does_gets; [done|]. by rewrite Hm.
  - intros x Hx. rewrite P by done. by apply Hq.
Qed.

(** ** The host's side *)

Context `{SE : SerialEnv} (k : nat) `{Line : !SerialLine stream k}.
Context (Hselect : forall h, ser_select h = 1) (Htakes : forall h b, 0 < ser_write h b) (Hfuel : (passes k 4300 <= ser_fuel)%nat).

(** The host has read all answers, and the debugger waits in mode [m]. *)
Definition linked (h : list sevent) (m : cpu_mode) (p : Z -> Z) : Prop := at_prompt (sent h) m (got h) p.

Lemma linked_coming h m p w m' answer q :
  linked h m p -> at_prompt (sent h ++ w) m' (got h ++ answer) q -> coming stream w h = answer.
Proof. intros _ H. unfold coming. rewrite (prompt_stream _ _ _ _ H). by rewrite drop_app_length. Qed.

(** *** Numbers as the host prints them *)

Lemma number_digits l x : hex_number l x -> digits l /\ hexval l = x.
Proof. intros [Hd _ Hv]. split; [|done]. eapply Forall_impl; [exact Hd|]. by intros c [Hc _]. Qed.

(** The part of the host's address that the debugger sees. *)
Definition seen (m : cpu_mode) (a : Z) : Z := a mod span m.

Lemma u32_u64 a : u32 (u64 a) = u32 a.
Proof.
  unfold u32, u64. replace 18446744073709551616 with (4294967296 * 4294967296) by lia.
  rewrite Z.rem_mul_r by lia. by rewrite Z.mul_comm, Z.mod_add, Z.mod_mod by lia.
Qed.

Lemma address_digits m a : digits (fmt_llX a) /\ addr_of m (fmt_llX a) = seen m a /\ (length (fmt_llX a) <= 16)%nat.
Proof.
  destruct (number_digits _ _ (Reference.llX_number a)) as [Hd Hv]. split_and!; [done| |apply fmt_hex_length].
  unfold addr_of, seen. rewrite Hv. destruct m; try apply u32_u64. cbn [span]. unfold u64. by rewrite Z.mod_mod by lia.
Qed.

Lemma count_digits m n : 0 <= n < 65536 -> digits (fmt_X n) /\ hexval (fmt_X n) mod fl_word (file_of m) = n /\ (length (fmt_X n) <= 8)%nat.
Proof.
  intros Hn. destruct (number_digits _ _ (fmt_X_number n ltac:(lia))) as [Hd Hv]. split_and!; [done| |apply fmt_hex_length].
  rewrite Hv. pose proof (laws_of m). pose proof (word_large (file_of m) m). apply Z.mod_small. lia.
Qed.

Lemma cell_seen m a i : cell (seen m a + i) = cell (a + i).
Proof.
  unfold cell, seen. f_equal. destruct m; try apply u32_add_l. cbn [span]. rewrite <- u32_add_l, <- (u32_add_l a). do 2 f_equal. apply u32_u64.
Qed.

Lemma peek_seen m p a n : peek cell p (seen m a) n = peek cell p a n.
Proof. unfold peek. apply list_fmap_ext. intros i x _. by rewrite cell_seen. Qed.

Lemma poke_seen m buf : forall d a p x, poke cell (seen m a + d) buf p x = poke cell (a + d) buf p x.
Proof.
  induction buf as [|b buf IH]; intros d a p x; cbn [poke]; [done|]. rewrite <- !Z.add_assoc, IH. apply poke_ext. intros y. by rewrite cell_seen.
Qed.

Lemma peek_outside m p q a n : clear_of m a n -> (forall x, ~ own x -> p x = q x) -> peek cell p a n = peek cell q a n.
Proof.
  intros [_ Hc] Hpq. unfold peek. apply list_fmap_ext. intros i x Hx. apply lookup_seq in Hx as [-> Hi]. apply Hpq.
  intros Ho. apply (Hc (Z.of_nat (0 + i))); [lia|by left].
Qed.

(** *** READB *)

Lemma debugger_read h m p addr n :
  linked h m p -> fl_valid (file_of m) (seen m addr) = true -> 0 <= n <= 4096 -> clear_of m (seen m addr) (Z.to_nat n) ->
  wp (remote_rs232_read addr n) (λ r h', r = (1, Some (peek cell p addr (Z.to_nat n))) /\ linked h' m p) h.
Proof.
  intros Hl Hv Hn Hc. pose proof (laws_of m) as HF. set (d := peek cell p addr (Z.to_nat n)).
  destruct (address_digits m addr) as (Hda & Eva & Hla). destruct (count_digits m n ltac:(lia)) as (Hdn & Evn & Hln).
  assert (at_prompt (sent h ++ readb_request addr n ++ [10]) m (got h ++ str "OK " ++ d ++ [13; 10]) p) as Hp.
  { apply (prompt_step (sent h) m (got h) p _ m _ (λ p, p)); [exact Hl|by destruct (readb_request addr n)|auto|].
    intros s r Hw Em Er Hps. rewrite <- app_assoc in Er.
    destruct (readb_pass (file_of m) m s (fmt_llX addr) (fmt_X n) r) as (s' & Hd & Hs); rewrite ?Eva, ?Evn; try done; try lia.
    exists s'. split; [done|]. rewrite Eva, Evn, (peek_outside m _ p), peek_seen, Em in Hs by done. done. }
  eapply wp_mono.
  - apply (rs232_read_spec stream k addr n d []); [done|lia|apply length_peek| |].
    + rewrite app_nil_r. by apply (linked_coming h m p _ m _ p).
    + unfold d. rewrite length_peek. eapply passes_le; [|exact Hfuel]. lia.
  - intros r h' (-> & _ & Es & Eg). split; [done|]. unfold linked. by rewrite Es, Eg.
Qed.

(** *** WRITEB *)

Lemma poke_outside_ext buf a p1 p2 : (forall x, ~ own x -> p1 x = p2 x) -> forall x, ~ own x -> poke cell a buf p1 x = poke cell a buf p2 x.
Proof. intros H x Hx. apply poke_same. by apply H. Qed.

Lemma debugger_write h m p addr buf :
  linked h m p -> fl_valid (file_of m) (seen m addr) = true -> (length buf <= 4096)%nat -> clear_of m (seen m addr) (length buf) ->
  wp (remote_rs232_write addr buf) (λ r h', r = 1 /\ linked h' m (poke cell addr buf p)) h.
Proof.
  intros Hl Hv Hn Hc. pose proof (laws_of m) as HF. set (l := str "OK " ++ write_complete_msg ++ [13]).
  destruct (address_digits m addr) as (Hda & Eva & Hla). destruct (count_digits m (Z.of_nat (length buf)) ltac:(lia)) as (Hdn & Evn & Hln).
  set (request := (writeb_request addr (Z.of_nat (length buf)) ++ [10]) ++ buf).
  assert (at_prompt (sent h ++ request) m (got h ++ l ++ [10]) (poke cell addr buf p)) as Hp.
  { apply (prompt_step (sent h) m (got h) p _ m _ (poke cell addr buf)); [exact Hl|done|apply poke_outside_ext|].
    intros s r Hw Em Er Hps. unfold request in Er. rewrite <- !app_assoc in Er.
    destruct (writeb_pass (file_of m) m s (fmt_llX addr) (fmt_X (Z.of_nat (length buf))) buf r) as (s' & Hd & [W M R T P]);
      rewrite ?Eva, ?Evn; try done; try lia.
    exists s'. split; [done|]. split; [done|by rewrite M|done|done|]. intros x Hx. rewrite P, Eva by done.
    pose proof (poke_seen m buf 0 addr (d_phys s) x) as E. by rewrite !Z.add_0_r in E. }
  eapply wp_mono.
  - apply (rs232_write_spec stream k addr buf l []); [done|lia| |by_decision|].
    + exact (linked_coming h m p _ m (l ++ [10]) _ Hl Hp).
    + eapply passes_le; [|exact Hfuel]. change (length l) with 12%nat. lia.
  - intros r h' (-> & _ & Es & Eg). split; [done|]. unfold linked. by rewrite Es, Eg.
Qed.

(** *** Addresses that the mode does not reach *)

Lemma debugger_read_refused h m p addr n :
  linked h m p -> fl_valid (file_of m) (seen m addr) = false -> 0 <= n <= 4096 ->
  wp (remote_rs232_read addr n) (λ r h', r = (0, None) /\ linked h' m p) h.
Proof.
  intros Hl Hv Hn. pose proof (laws_of m) as HF. set (l := [32] ++ address_invalid_msg ++ [13]).
  destruct (address_digits m addr) as (Hda & Eva & Hla). destruct (count_digits m n ltac:(lia)) as (Hdn & Evn & Hln).
  assert (at_prompt (sent h ++ readb_request addr n ++ [10]) m (got h ++ str "ERR" ++ l ++ [10]) p) as Hp.
  { apply (prompt_step (sent h) m (got h) p _ m _ (λ p, p)); [exact Hl|by destruct (readb_request addr n)|auto|].
    intros s r Hw Em Er Hps. rewrite <- app_assoc in Er. subst m.
    apply (invalid_pass (file_of (d_mode s)) (d_mode s) s (str "READB ") (fmt_llX addr) (fmt_X n) r); rewrite ?Eva; try done; [by left|lia]. }
  eapply wp_mono.
  - apply (rs232_read_other stream k addr n (str "ERR") l []); [done|done|done| |by_decision|].
    + exact (linked_coming h m p _ m _ _ Hl Hp).
    + eapply passes_le; [|exact Hfuel]. change (length l) with 17%nat. lia.
  - intros r h' (-> & _ & Es & Eg). split; [done|]. unfold linked. by rewrite Es, Eg.
Qed.

(** *** Lines with one answer *)

Lemma debugger_line h m p cmd timeout m' (l : list Z) (q : (Z -> Z) -> Z -> Z) :
  linked h m p -> 0 < timeout < 2000000000000 -> (length cmd <= 200)%nat -> 10 ∉ l -> answer_ok l = true -> (length l <= 100)%nat ->
  (forall p1 p2, (forall x, ~ own x -> p1 x = p2 x) -> forall x, ~ own x -> q p1 x = q p2 x) ->
  (forall s r, wired s -> d_mode s = m -> d_rx s = cmd ++ 10 :: r ->
     exists s', does (main_loop_pass (file_of m)) s tt s' /\ served s m' r (l ++ [10]) (q (d_phys s)) s') ->
  forall after Q, (forall h', linked h' m' (q p) -> wp (after (shown 128 l)) Q h') -> wp (rs232_command cmd timeout after) Q h.
Proof.
  intros Hl Ht Hc Hn Hok Hlen Hq Hstep after Q HQ.
  assert (at_prompt (sent h ++ cmd ++ [10]) m' (got h ++ l ++ [10]) (q p)) as Hp.
  { apply (prompt_step (sent h) m (got h) p _ m' _ q); [exact Hl|by destruct cmd|done|]. intros s r Hw Em Er _. rewrite <- app_assoc in Er. by apply Hstep. }
  eapply (command_spec stream k cmd timeout after l []); [done|exact (linked_coming h m p _ m' _ _ Hl Hp)|done|eapply passes_le; [|exact Hfuel]; lia|].
  intros h' _ Es Eg. rewrite Hok. apply HQ. unfold linked. by rewrite Es, Eg.
Qed.

Lemma debugger_test h m p :
  linked h m p -> wp remote_rs232_test (λ r h', r = 1 /\ linked h' m p) h.
Proof.
  intros Hl. pose proof (laws_of m) as HF.
  apply (debugger_line h m p (str "TEST") 1000000 m (str "OK " ++ test_response ++ [13]) (λ p, p)); [done|lia|cbn; lia|by_decision|done|cbn; lia|auto| |].
  - intros s r Hw Em Er. subst m. by apply (test_pass (file_of (d_mode s)) (d_mode s)).
  - intros h' Hl'. change (has_prefix_nocase _ _) with false. cbn iota. by wp_step.
Qed.

(** Every mode command is given from real mode or leads back to it. *)
Lemma debugger_mode h p cmd m m' :
  (m = Mode8086 /\ (cmd, m') ∈ [(str "386-32", Mode386_32); (str "386-16", Mode386_16); (str "286", Mode286); (str "8086", Mode8086)]) \/
  (m ∈ [Mode386_16; Mode386_32; ModeX64] /\ (cmd, m') = (str "8086", Mode8086)) ->
  linked h m p -> wp (rs232_command cmd 1000000 (λ _, mret 1)) (λ r h', r = 1 /\ linked h' m' p) h.
Proof.
  intros Hcmd Hl.
  assert ((length cmd <= 6)%nat /\ (10 ∉ str "OK " ++ cmd ++ [13]) /\ answer_ok (str "OK " ++ cmd ++ [13]) = true) as (Hlen & Hn & Hok).
  { destruct Hcmd as [[_ Hin]|[_ [= -> _]]]; [|split_and!; [cbn; lia|by_decision|done]].
    rewrite !elem_of_cons, elem_of_nil in Hin. destruct Hin as [[= -> _]|[[= -> _]|[[= -> _]|[[= -> _]|[]]]]]; (split_and!; [cbn; lia|by_decision|done]). }
  apply (debugger_line h m p cmd 1000000 m' (str "OK " ++ cmd ++ [13]) (λ p, p)); [done|lia|lia|done|done|rewrite !length_app; cbn; lia|auto| |].
  - intros s r Hw Em Er. replace ((str "OK " ++ cmd ++ [13]) ++ [10]) with (announces cmd) by (unfold announces; by rewrite <- !app_assoc).
    destruct Hcmd as [[-> Hin]|[Hm [= -> ->]]]; [by apply to_mode_pass|]. rewrite !elem_of_cons, elem_of_nil in Hm.
    destruct Hm as [->|[->|[->|[]]]]; apply to_8086_pass; try done; [by left|by right; left|by right; right; left].
  - intros h' Hl'. by wp_step.
Qed.

(** From the 286's mode the way back leaves a vector at 40:67. *)
Lemma debugger_leave_286 h p :
  linked h Mode286 p ->
  wp remote_rs232_8086 (λ r h', r = 1 /\
    linked h' Mode8086 (poke bus 0x467 [u8 realmode_286; u8 (Z.shiftr realmode_286 8); 0; 0] p)) h.
Proof.
  intros Hl. eapply (debugger_line h Mode286 p (str "8086") 1000000 Mode8086 (str "OK " ++ str "8086" ++ [13]) (poke bus 0x467 _));
    [done|lia|cbn; lia|by_decision|done|cbn; lia| | |].
  - intros p1 p2 E x Ho. by apply poke_same, E.
  - intros s r Hw Em Er. by apply from_286_pass.
  - intros h' Hl'. by wp_step.
Qed.

Lemma debugger_x64 h p :
  with_x64 = true -> linked h Mode8086 p ->
  wp remote_rs232_x64 (λ r h', r = 1 /\ linked h' ModeX64 (poke bus PML4_LOCATION table_bytes p)) h.
Proof.
  intros Hx Hl. apply (debugger_line h Mode8086 p (str "x64") 1000000 ModeX64 (str "OK " ++ str "x64" ++ [13]) (poke bus PML4_LOCATION table_bytes));
    [done|lia|cbn; lia|by_decision|done|cbn; lia| | |].
  - intros p1 p2 E x Ho. by apply poke_same, E.
  - intros s r Hw Em Er. by apply to_x64_pass.
  - intros h' Hl'. by wp_step.
Qed.

(** *** EXEC *)

Lemma hex_plain l : digits l -> plain l.
Proof. apply digits_plain. Qed.

Definition exec_answer : list Z := str "OK " ++ exec_complete_msg ++ [13].

Lemma exec_timeout timeout : 0 < timeout <= 4000 -> 0 < u32 (timeout * 1000000) < 2000000000000.
Proof. intros Ht. rewrite u32_small; lia. Qed.

(** The flat modes. *)
Lemma debugger_exec_off h m p offset timeout :
  m ∈ [Mode386_32; ModeX64] -> linked h m p -> tame m (seen m offset) -> 0 < timeout <= 4000 ->
  wp (remote_rs232_exec_off offset timeout) (λ r h', r = 1 /\ linked h' m (user_code m (seen m offset) p)) h.
Proof.
  intros Hm Hl Ht Hto. destruct (address_digits m offset) as (Hda & Eva & Hla). pose proof (exec_request_length 0 offset) as [Hlen _].
  apply (debugger_line h m p (exec_off_request offset) _ m exec_answer (user_code m (seen m offset)));
    [done|by apply exec_timeout|lia|by_decision|done|cbn; lia|apply (ta_outside _ _ Ht)| |].
  - intros s r Hw Em Er. pose proof bo_image. pose proof (wired_loaded (exec_off_request offset) r s ltac:(lia) Hw) as Hwl. pose proof (laws_of m).
    destruct (exec_pass (file_of m) m s (fmt_llX offset) r (seen m offset) (loaded (exec_off_request offset) r s)) as (s' & Hd & Hs); try done.
    + by apply hex_plain.
    + lia.
    + intros z Hz. rewrite <- Eva. rewrite !elem_of_cons, elem_of_nil in Hm.
      destruct Hm as [->|[->|[]]]; [exact (exec_flat_does 8 _ _ _ z ltac:(lia) Hz Hda ltac:(lia) ltac:(lia) ltac:(lia))|
        exact (exec_flat_does 16 _ _ _ z ltac:(lia) Hz Hda ltac:(lia) ltac:(lia) ltac:(lia))].
    + by rewrite Em.
    + rewrite Em in Hs. by exists s'.
  - intros h' Hl'. by wp_step.
Qed.

Lemma debugger_exec_seg h p segment offset timeout :
  0 <= segment < 65536 -> 0 <= offset < 65536 -> linked h Mode8086 p -> tame Mode8086 (16 * segment + offset) -> 0 < timeout <= 4000 ->
  wp (remote_rs232_exec_seg_off segment offset timeout)
    (λ r h', r = 1 /\ linked h' Mode8086 (user_code Mode8086 (16 * segment + offset) p)) h.
Proof.
  intros Hg Ho Hl Ht Hto. pose proof (exec_request_length segment offset) as [_ Hlen].
  destruct (number_digits _ _ (fmt_X_number segment ltac:(lia))) as [Hds Evs].
  destruct (number_digits _ _ (fmt_llX_number offset ltac:(lia))) as [Hdo Evo].
  pose proof (fmt_hex_length 8 (u32 segment) : (length (fmt_X segment) <= 8)%nat).
  pose proof (fmt_hex_length 16 (u64 offset) : (length (fmt_llX offset) <= 16)%nat).
  apply (debugger_line h Mode8086 p (exec_seg_request segment offset) _ Mode8086 exec_answer (user_code Mode8086 (16 * segment + offset)));
    [done|by apply exec_timeout|lia|by_decision|done|cbn; lia|apply (ta_outside _ _ Ht)| |].
  - intros s r Hw Em Er. pose proof bo_image. set (l := exec_seg_request segment offset) in *.
    pose proof (wired_loaded l r s ltac:(lia) Hw) as Hwl.
    destruct (loaded_args (str "EXEC ") (fmt_X segment ++ [32] ++ fmt_llX offset) r s) as [z Hz].
    { change (str "EXEC " ++ fmt_X segment ++ [32] ++ fmt_llX offset) with l. lia. }
    apply text_app in Hz as [_ Hz].
    destruct (exec_real_does (loaded l r s) (in_buf + 5) _ _ z Hwl Hz Hds Hdo ltac:(lia) ltac:(lia) ltac:(lia) ltac:(lia)) as (s1 & Hd1 & Hk1).
    rewrite Evs, Evo, !Z.mod_small in Hd1 by lia.
    destruct (exec_pass file_8086 Mode8086 s (fmt_X segment ++ [32] ++ fmt_llX offset) r (16 * segment + offset) s1) as (s' & Hd & Hs); try done.
    + apply plain_app; [by apply hex_plain|]. apply plain_app; [by_decision|by apply hex_plain].
    + rewrite !length_app. cbn [length]. lia.
    + by rewrite Em.
    + rewrite Em in Hs. by exists s'.
  - intros h' Hl'. by wp_step.
Qed.

End Link.
