(* ===== verification/DebugStart.v ===== *)
(** * The start of the serial debugger

    From the question for the port to the main loop: the key chooses the port, the
    UART is set up, and an image that was loaded elsewhere moves to segment 0. *)

From S2P Require Import Prelude Machine Memory Vga Text ELib SLib SLibSpec SerialTarget.
From S2P Require Import Debugger DebugModes DebugPages DebuggerSpec DebugCommands DebugBench DebugModesSpec.

(** The UART's registers as [setup_comport] leaves them, latest first: no modem
    control, FIFO or interrupts, 8 bits without parity, divisor 3. *)
Definition uart_setup (port : Z) : list (Z * Z) :=
  [(port + 4, 0); (port + 2, 0); (port + 1, 0); (port + 3, 3); (port + 1, 0); (port, 3); (port + 3, 0x80)].

(** A key that is not one of the four. *)
Definition other_key (k : Z) : Prop := 0 <= k < 256 /\ ~ 49 <= k <= 52.

Section Start.
Context `{BD : Board} `{IM : Image} `{BO : !BoardOk}.

Lemma ask_loop_spec ks key rest (Q : Z * list Z -> debugger -> Prop) s :
  Forall other_key ks -> 49 <= key <= 52 -> Q (nth (Z.to_nat (key - 49)) comports 0, rest) s -> wp (ask_loop (ks ++ key :: rest)) Q s.
Proof.
  intros Hks Hkey HQ. assert (forall k, 0 <= k < 256 -> (s8 k <? 49) = (k <? 49) || (128 <=? k)) as Es8.
  { intros k Hk. unfold s8. repeat case_bool; bool_to_prop; try done; wrap_lia. }
  induction Hks as [|k ks [Hk Hno] _ IH]; cbn [app ask_loop].
  - rewrite Es8, u8_small by lia. rewrite (proj2 (Z.ltb_ge _ _)), (proj2 (Z.leb_gt _ _)), (proj2 (Z.ltb_ge _ _)) by lia. by apply wp_ret.
  - rewrite Es8, u8_small by done. destruct ((k <? 49) || (128 <=? k)) eqn:E; [exact IH|]. rewrite (proj2 (Z.ltb_lt _ _)); [exact IH|].
    apply orb_false_iff in E as [E1 E2]. bool_to_prop. lia.
Qed.

(** A port that is not the first of the UART, or one behind the divisor latch. *)
Lemma out_recorded port v (Q : unit -> debugger -> Prop) s :
  port <> uart \/ dlab (d_ports s) = true -> Q tt (set_d_ports ((port, v) :: d_ports s) s) -> wp (out_byte port v) Q s.
Proof.
  intros Hp HQ. unfold out_byte. wp_step. wp_step.
  replace ((port =? uart) && negb (dlab (d_ports s))) with false; [by wp_step|].
  symmetry. apply andb_false_iff. destruct Hp as [Hp|Hp]; [left; by apply Z.eqb_neq|right; by rewrite Hp].
Qed.

Lemma setup_comport_spec cs (Q : unit -> debugger -> Prop) s :
  d_phys s (bus (16 * cs + comport)) + 256 * d_phys s (bus (16 * cs + comport + 1)) = uart ->
  Q tt (set_d_ports (uart_setup uart ++ d_ports s) s) -> wp (setup_comport cs) Q s.
Proof.
  intros Hp HQ. pose proof bo_uart as Hu. unfold setup_comport, ld16, ld8. do 6 wp_step. rewrite Hp, !u16_small by lia.
  change (u8 BAUD_DIVISOR) with 3. change (Z.shiftr BAUD_DIVISOR 8) with 0.
  wp_step. apply out_recorded; [left; lia|]. wp_step. apply out_recorded; [right; cbn; unfold dlab; cbn; by rewrite Z.eqb_refl|].
  do 4 (wp_step; apply out_recorded; [left; lia|]). apply out_recorded; [left; lia|]. exact HQ.
Qed.

Lemma setup_dlab ports : dlab (uart_setup uart ++ ports) = false.
Proof.
  pose proof bo_uart. unfold dlab, uart_setup. cbn [app List.find fst].
  rewrite !(proj2 (Z.eqb_neq _ (uart + 3))), Z.eqb_refl by lia. done.
Qed.

(** *** The move *)

(** Memory in which [n] bytes of the image have moved down from segment [cs]. *)
Definition moved (cs n : Z) (p : Z -> Z) (x : Z) : Z := if (0x8000 <=? x) && (x <? 0x8000 + n) then p (16 * cs + x) else p x.

Context (cs : Z) (Hcs : 0 < cs) (Htop : 16 * cs + last_byte <= 0x100000) (Hbus : forall a, 0 <= a < 0x100000 -> bus a = a).

Lemma move_word i p q s :
  0 <= i -> 0x8000 + 2 * i + 2 <= last_byte -> (forall x, is_byte (p x)) -> d_phys s = q -> (forall x, q x = moved cs (2 * i) p x) ->
  wp (w ← ld16 (16 * cs + 0x8000 + 2 * i); st16 (0x8000 + 2 * i) w)
    (λ _ s', (forall x, d_phys s' x = moved cs (2 * (i + 1)) p x) /\ s' = set_d_phys (d_phys s') s) s.
Proof.
  intros Hi Hl Hp <- Hq. pose proof bo_image. unfold ld16, ld8, st16, st8. do 8 wp_step. split; [|by destruct s]. intros x. cbn.
  rewrite !Hbus by lia. rewrite !Hq. unfold moved. set (a := 0x8000 + 2 * i).
  replace (16 * cs + 0x8000 + 2 * i) with (16 * cs + a) by lia. rewrite !(proj2 (Z.ltb_ge (16 * cs + a) _)), !(proj2 (Z.ltb_ge (16 * cs + a + 1) _)), !andb_false_r by lia.
  set (b0 := p (16 * cs + a)). set (b1 := p (16 * cs + a + 1)). assert (is_byte b0 /\ is_byte b1) as [Hb0 Hb1] by (split; apply Hp).
  unfold is_byte in *. rewrite Z.shiftr_div_pow2 by lia. change (2 ^ 8) with 256.
  replace (u8 (b0 + 256 * b1)) with b0 by wrap_lia. replace (u8 ((b0 + 256 * b1) / 256)) with b1 by wrap_lia.
  destruct (decide (x = a + 1)) as [->|Hx1].
  { rewrite Z.eqb_refl. rewrite (proj2 (Z.leb_le _ _)), (proj2 (Z.ltb_lt _ _)) by lia. cbn [andb]. unfold b1. f_equal. lia. }
  rewrite (proj2 (Z.eqb_neq x (a + 1))) by done. destruct (decide (x = a)) as [->|Hx0].
  { rewrite Z.eqb_refl. rewrite (proj2 (Z.leb_le _ _)), (proj2 (Z.ltb_lt _ _)) by lia. done. }
  rewrite (proj2 (Z.eqb_neq x a)) by done. destruct (decide (x < a)).
  - by rewrite !(proj2 (Z.ltb_lt x _)) by lia.
  - by rewrite !(proj2 (Z.ltb_ge x _)) by lia.
Qed.

Lemma phys_same s : set_d_phys (d_phys s) s = s.
Proof. by destruct s. Qed.

Lemma relocate_spec s :
  (forall x, is_byte (d_phys s x)) ->
  wp (relocate cs) (λ _ s', (forall x, d_phys s' x = moved cs (2 * ((last_byte - 0x8000) / 2)) (d_phys s) x) /\ s' = set_d_phys (d_phys s') s) s.
Proof.
  intros Hb. pose proof bo_image. unfold relocate. rewrite Z.shiftr_div_pow2 by lia. change (2 ^ 1) with 2. set (n := (last_byte - 0x8000) / 2).
  assert (0 <= n /\ 2 * n <= last_byte - 0x8000) as [Hn Hn2] by (subst n; Z.div_mod_to_equations; lia).
  eapply wp_mono; [apply (wp_for_range (λ i s', (forall x, d_phys s' x = moved cs (2 * i) (d_phys s) x) /\ s' = set_d_phys (d_phys s') s))|].
  - split; [|by rewrite phys_same]. intros x. unfold moved. replace ((0x8000 <=? x) && (x <? 0x8000 + 2 * 0)) with false; [done|].
    symmetry; apply andb_false_iff; destruct (decide (0x8000 <= x)); [right; apply Z.ltb_ge; lia|left; apply Z.leb_gt; lia].
  - intros i s1 Hi [Hq Es]. rewrite Z2Nat.id in Hi by done. eapply wp_mono; [apply (move_word i (d_phys s) (d_phys s1)); [lia|lia|done|done|done]|].
    intros _ s2 [Hq2 Es2]. split; [done|]. rewrite Es in Es2. exact Es2.
  - intros [] s1. by rewrite Z2Nat.id, Z.add_0_l by done.
Qed.

End Start.

Section Connect.
Context `{BD : Board} `{IM : Image} `{BO : !BoardOk}.

(** What the start leaves: the UART the key names, found and set up, and the image
    in segment 0, marked as initialised. *)
Record started (cs : Z) (s s' : debugger) : Prop := {
  st_wired : wired s';
  st_inited : d_phys s' inited = 1;
  st_ports : d_ports s' = uart_setup uart ++ d_ports s;
  st_same : d_mode s' = d_mode s /\ d_rx s' = d_rx s /\ d_tx s' = d_tx s;
  st_image x : 0x8000 <= x < last_byte - 1 -> x <> comport -> x <> comport + 1 -> x <> inited -> d_phys s' x = d_phys s (16 * cs + x);
  st_outside x : ~ own x -> x <> 16 * cs + comport -> x <> 16 * cs + comport + 1 -> x <> 16 * cs + inited -> d_phys s' x = d_phys s x
}.

Context (cs : Z) (Hcs : 0 <= cs) (Htop : 16 * cs + last_byte <= 0x100000) (Hbus : forall a, 0 <= a < 0x100000 -> bus a = a).

Lemma first_time_spec ks key rest s :
  d_mode s = Mode8086 -> (forall x, is_byte (d_phys s x)) -> d_phys s (16 * cs + inited) = 0 ->
  Forall other_key ks -> 49 <= key <= 52 -> nth (Z.to_nat (key - 49)) comports 0 = uart ->
  wp (start_first_time cs (ks ++ key :: rest)) (λ _ s', started cs s s') s.
Proof.
  intros Hm Hb Hin0 Hks Hkey Hport. pose proof bo_image. pose proof bo_comport. pose proof bo_inited. pose proof bo_uart.
  unfold start_first_time, ld8. do 2 wp_step. rewrite Hbus, Hin0 by lia. unfold st8 at 1. do 2 wp_step. change (u8 (0 + 1)) with 1.
  wp_step. apply ask_loop_spec; [done|done|]. rewrite Hport. unfold st16, st8. do 4 wp_step.
  set (c := 16 * cs + comport). rewrite !Hbus by lia. rewrite Z.shiftr_div_pow2 by lia. change (2 ^ 8) with 256.
  set (q := λ x, if x =? c + 1 then u8 (uart / 256) else if x =? c then u8 uart else if x =? 16 * cs + inited then 1 else d_phys s x).
  assert (q c + 256 * q (c + 1) = uart) as Eport.
  { unfold q. rewrite !Z.eqb_refl, (proj2 (Z.eqb_neq c (c + 1))) by lia. unfold u8. Z.div_mod_to_equations. lia. }
  assert (q (16 * cs + inited) = 1) as Einit.
  { unfold q. rewrite Z.eqb_refl, !(proj2 (Z.eqb_neq (16 * cs + inited) _)) by (subst c; lia). done. }
  assert (forall x, x <> c -> x <> c + 1 -> x <> 16 * cs + inited -> q x = d_phys s x) as Eq
    by (intros x H1' H2' H3'; unfold q; by rewrite !(proj2 (Z.eqb_neq _ _))).
  wp_step. apply setup_comport_spec; [by cbn; rewrite !Hbus by lia|]. set (s1 := set_d_ports _ _). wp_step.
  destruct (decide (cs = 0)) as [E0|Hne].
  - rewrite E0 at 1. cbn [Z.eqb]. do 2 wp_step. assert (c = comport) as Ec by (subst c; lia).
    split; [split; [rewrite <- Ec; exact Eport|apply setup_dlab|cbn; by rewrite Hm]| |reflexivity|repeat split| |].
    + by replace (16 * cs + inited) with inited in Einit by lia.
    + intros x Hx H1' H2' H3'. replace (16 * cs + x) with x by lia. apply Eq; lia.
    + intros x Hx H1' H2' H3'. apply Eq; lia.
  - rewrite (proj2 (Z.eqb_neq cs 0)) by done. eapply wp_mono; [apply (relocate_spec cs ltac:(lia) Htop Hbus s1)|].
    { intros x. cbn. unfold is_byte. repeat case_bool; try apply u8_range; [lia|]. apply Hb. }
    intros _ s2 [Hp Es]. wp_step. assert (forall x, 0x8000 <= x < last_byte - 1 -> d_phys s2 x = q (16 * cs + x)) as Hin.
    { intros x Hx. rewrite Hp. unfold moved. rewrite (proj2 (Z.leb_le _ _)), (proj2 (Z.ltb_lt _ _)) by (Z.div_mod_to_equations; lia). done. }
    split; [split| |by rewrite Es|by rewrite Es| |].
    + rewrite !Hin by lia. subst c. by rewrite Z.add_assoc.
    + rewrite Es. apply setup_dlab.
    + rewrite Es. cbn. by rewrite Hm.
    + by rewrite Hin by lia.
    + intros x Hx H1' H2' H3'. rewrite Hin by done. apply Eq; subst c; lia.
    + intros x Hx H1' H2' H3'. rewrite Hp. unfold moved. replace ((0x8000 <=? x) && _) with false; [by apply Eq|].
      symmetry. apply andb_false_iff. unfold own in Hx. destruct (decide (0x8000 <= x)); [right; apply Z.ltb_ge; Z.div_mod_to_equations; lia|left; apply Z.leb_gt; lia].
Qed.

(** Two times through the entry are enough. *)
Lemma start_stage2_spec ks key rest s :
  d_mode s = Mode8086 -> (forall x, is_byte (d_phys s x)) -> d_phys s (16 * cs + inited) = 0 ->
  Forall other_key ks -> 49 <= key <= 52 -> nth (Z.to_nat (key - 49)) comports 0 = uart ->
  wp (start_stage2 2 cs (ks ++ key :: rest)) (λ _ s', started cs s s') s.
Proof.
  intros Hm Hb Hin0 Hks Hkey Hport. pose proof bo_image. pose proof bo_inited. cbn [start_stage2]. unfold ld8. do 2 wp_step.
  rewrite Hbus, Hin0 by lia. cbn [Z.eqb negb]. wp_step. eapply wp_mono; [by apply first_time_spec|]. intros keys s1 Hs.
  destruct (decide (cs = 0)) as [->|Hne]; [by cbn [Z.eqb]; wp_step|]. rewrite (proj2 (Z.eqb_neq cs 0)) by done. do 2 wp_step.
  rewrite Hbus by lia. change (16 * 0 + inited) with inited. rewrite (st_inited _ _ _ Hs). cbn [Z.eqb negb]. by wp_step.
Qed.

End Connect.
