(* ===== verification/DebugSystem.v ===== *)
(** * The serial system as a whole

    The line editor for any input, the host's view of the debugger's memory, and a
    session from the start of the debugger to the result of uploaded code. *)

From S2P Require Import Prelude Machine Memory Vga Text ELib SLib SLibSpec SerialTarget.
From S2P Require Import Debugger DebugModes DebugPages DebuggerSpec DebugCommands DebugBench DebugModesSpec DebugLink DebugStart.

(** ** The properties *)

(** C40: The main loop's line editor is safe for every input, in every mode.  When the
    input has no end of line yet the pass waits for more.  Otherwise exactly the
    line goes to [in_buf], where CR or LF ends it, ESC quotes the next byte and the
    bytes for which there is no room are dropped: at most 255 of them, then zeros
    to the end of the buffer, and no other memory changes. *)
Theorem line_editor_bounded `{BD : Board} `{IM : Image} `{BO : !BoardOk} (F : flavour) s :
  wired s ->
  match typed 255 (d_rx s) with
  | None => stalls (main_loop_pass F) s
  | Some (l, r) =>
      exists s', does (si ← main_loop_read (S (length (d_rx s))) 0;
                       main_loop_process_clr (Z.to_nat IN_BUF_SIZE) (in_buf + si) ;; mret (in_buf + si)) s
                   (in_buf + Z.of_nat (length l)) s' /\
        (length l <= 255)%nat /\ text s' in_buf (l ++ replicate (256 - length l) 0) /\ d_rx s' = r /\ d_tx s' = d_tx s /\ d_mode s' = d_mode s /\
        forall x, x < in_buf \/ in_buf + 256 <= x -> d_phys s' x = d_phys s x
  end.
Proof.
  intros Hw. destruct (typed 255 (d_rx s)) as [[l r]|] eqn:Ht; [|by apply pass_stalls].
  pose proof (typed_length _ _ _ _ _ (le_n _) Ht) as Hl. exists (loaded l r s).
  split_and!; [by apply line_does|done|by apply loaded_text|done|done|done|]. intros x Hx. by apply loaded_phys.
Qed.

(** A line of 303 characters, one of them a quoted LF. *)
Lemma line_editor_bounded_witness :
  exists s', does (si ← main_loop_read 308 0; main_loop_process_clr (Z.to_nat IN_BUF_SIZE) (in_buf + si) ;; mret (in_buf + si))
    (bench_debugger Mode286 ([65; 66; 27; 10] ++ replicate 300 67 ++ [13; 88; 89])) (in_buf + 255) s' /\
    text s' in_buf ([65; 66; 10] ++ replicate 252 67 ++ [0]) /\ d_rx s' = [88; 89].
Proof.
  pose proof (line_editor_bounded file_286 (bench_debugger Mode286 ([65; 66; 27; 10] ++ replicate 300 67 ++ [13; 88; 89])) (bench_wired Mode286 _ ltac:(discriminate))) as H.
  vm_compute typed in H. destruct H as (s' & Hd & _ & Ht & Hr & _). exists s'. split; [exact Hd|]. split; [exact Ht|exact Hr].
Defined.


(** ** A session *)

(** Upload code in 32-bit mode, run it, fetch a result and go back to real mode. *)
Definition session `{SE : SerialEnv} (addr : Z) (code : list Z) (result n : Z) : S232 (option (list Z)) :=
  _ ← remote_rs232_386_32;
  _ ← remote_rs232_write addr code;
  _ ← remote_rs232_exec_off addr 10;
  '(_, block) ← remote_rs232_read result n;
  _ ← remote_rs232_8086;
  mret block.

Section Session.
Context `{BD : Board} `{IM : Image} `{BO : !BoardOk} `{SE : SerialEnv} (s0 : debugger) (k : nat) `{Line : !SerialLine (stream s0) k}.
Context (Hsel : forall h, ser_select h = 1) (Htakes : forall h b, 0 < ser_write h b) (Hfuel : (passes k 4300 <= ser_fuel)%nat).

(** A debugger that has been started waits for its first command. *)
Lemma linked_start : wired s0 -> d_tx s0 = [] -> linked s0 [] (d_mode s0) (d_phys s0).
Proof.
  intros Hw Et v. exists 0%nat, (set_d_rx v s0). split_and!; try done; [|by apply wired_rx]. constructor.
Qed.

Lemma session_spec h p addr code result n :
  linked s0 h Mode8086 p -> (length code <= 4096)%nat -> clear_of Mode386_32 (seen Mode386_32 addr) (length code) -> tame Mode386_32 (seen Mode386_32 addr) ->
  0 <= n <= 4096 -> clear_of Mode386_32 (seen Mode386_32 result) (Z.to_nat n) ->
  let q := user_code Mode386_32 (seen Mode386_32 addr) (poke cell addr code p) in
  wp (session addr code result n) (λ r h', r = Some (peek cell q result (Z.to_nat n)) /\ linked s0 h' Mode8086 q) h.
Proof.
  intros Hl Hlen Hc Ht Hn Hcr q. unfold session, remote_rs232_386_32, remote_rs232_8086.
  wp_step. eapply wp_mono; [apply (debugger_mode s0 k Hfuel h p (str "386-32") Mode8086 Mode386_32); [|done]|].
  { left. split; [done|]. apply list_elem_of_In. by left. }
  intros r1 h1 [_ Hl1]. wp_step. eapply wp_mono; [by apply (debugger_write s0 k Htakes Hfuel h1 Mode386_32 p)|].
  intros r2 h2 [_ Hl2]. wp_step. eapply wp_mono; [by apply (debugger_exec_off s0 k Hfuel h2 Mode386_32 (poke cell addr code p)); [apply list_elem_of_In; by left| | |lia]|].
  intros r3 h3 [_ Hl3]. wp_step. eapply wp_mono; [by apply (debugger_read s0 k Hsel Hfuel h3 Mode386_32)|].
  intros r4 h4 [-> Hl4]. wp_step. eapply wp_mono; [apply (debugger_mode s0 k Hfuel h4 q (str "8086") Mode386_32 Mode8086); [|done]|].
  { right. split; [apply list_elem_of_In; cbn; tauto|done]. }
  intros r5 h5 [_ Hl5]. by wp_step.
Qed.

End Session.

(** C27: From the first key to the result: after the debugger has been started, wherever
    it was loaded and whatever other keys were pressed before the port's number, a
    host that enters 32-bit mode, uploads code, runs it and reads a block gets what
    the code left there, and the debugger is back in real mode with that memory. *)
Theorem session_from_start `{BD : Board} `{IM : Image} `{BO : !BoardOk} `{SE : SerialEnv} s s0 cs ks key rest k `{Line : !SerialLine (stream s0) k}
    addr code result n :
  0 <= cs -> 16 * cs + last_byte <= 0x100000 -> (forall a, 0 <= a < 0x100000 -> bus a = a) -> (forall x, is_byte (d_phys s x)) ->
  d_phys s (16 * cs + inited) = 0 ->
  Forall other_key ks -> 49 <= key <= 52 -> nth (Z.to_nat (key - 49)) comports 0 = uart ->
  d_mode s = Mode8086 -> d_tx s = [] -> start_stage2 2 cs (ks ++ key :: rest) s = inr (tt, s0) ->
  (forall h, ser_select h = 1) -> (forall h b, 0 < ser_write h b) -> (passes k 4300 <= ser_fuel)%nat ->
  (length code <= 4096)%nat -> clear_of Mode386_32 (seen Mode386_32 addr) (length code) -> tame Mode386_32 (seen Mode386_32 addr) -> 0 <= n <= 4096 -> clear_of Mode386_32 (seen Mode386_32 result) (Z.to_nat n) ->
  let q := user_code Mode386_32 (seen Mode386_32 addr) (poke cell addr code (d_phys s0)) in
  (forall x, ~ own x -> x <> 16 * cs + comport -> x <> 16 * cs + comport + 1 -> x <> 16 * cs + inited -> d_phys s0 x = d_phys s x) /\
  exists h', session addr code result n [] = inr (Some (peek cell q result (Z.to_nat n)), h') /\ linked s0 h' Mode8086 q.
Proof.
  intros Hcs Htop Hbus Hb Hin0 Hks Hkey Hport Hm Htx Hstart Hsel Htakes Hfuel Hlen Hc Ht Hn Hcr q.
  pose proof (start_stage2_spec cs Hcs Htop Hbus ks key rest s Hm Hb Hin0 Hks Hkey Hport) as (u & s1 & E & [W _ _ (M & _ & T) _ P])%wp_run.
  rewrite Hstart in E. injection E as <- <-. split; [exact P|].
  pose proof (linked_start s0 W ltac:(congruence)) as Hl. rewrite M, Hm in Hl.
  pose proof (session_spec s0 k Hsel Htakes Hfuel [] _ addr code result n Hl Hlen Hc Ht Hn Hcr) as (r & h' & E & -> & Hl')%wp_run. by exists h'.
Qed.

(** ** A line to the bench's debugger *)

(** Two bytes at a time, as long as the debugger has sent more. *)
Definition bench_serial (s0 : debugger) : SerialEnv := {|
  ser_read := λ h sz, match drop (length (got h)) (stream s0 (sent h)) with [] => None | l => Some (take (2 `min` sz) l) end;
  ser_write := λ _ _, 1;
  ser_select := λ _, 1;
  ser_time := λ _, 0;
  ser_tcgetattr := λ _, Some 0;
  ser_raw := λ c, c;
  ser_tcsetattr := λ _ _, true;
  ser_fuel := Z.to_nat 5000
|}.

Lemma bench_line s0 : SerialLine (SE := bench_serial s0) (stream s0) 0.
Proof.
  split.
  - intros h sz Hsz Hlen. right. exists (2 `min` sz)%nat. split; [lia|]. cbn [ser_read bench_serial].
    destruct (drop (length (got h)) (stream s0 (sent h))) eqn:E; [|done]. apply (f_equal length) in E. rewrite length_drop in E. cbn [length] in E. lia.
  - intros h b. by right.
  - intros h h'. cbn. lia.
Qed.

Lemma bench_fuel s0 : (passes 0 4300 <= ser_fuel (SerialEnv := bench_serial s0))%nat.
Proof. cbn [ser_fuel bench_serial]. unfold passes. lia. Qed.


(** Loaded at 1000:8000, started with "x" and "1". *)
Definition bench_started : debugger :=
  match start_stage2 2 0x1000 [120; 49] (bench_debugger Mode8086 []) with inr (_, s0) => s0 | inl _ => bench_debugger Mode8086 [] end.

Lemma bench_bytes x : is_byte (bench_memory x).
Proof. unfold bench_memory, is_byte. repeat case_bool; try lia. apply Z.mod_pos_bound. lia. Qed.

Lemma bench_identity a : 0 <= a < 0x100000 -> bus a = a.
Proof. intros Ha. apply Z.mod_small. lia. Qed.

Lemma bench_starts : start_stage2 2 0x1000 [120; 49] (bench_debugger Mode8086 []) = inr (tt, bench_started).
Proof.
  assert (wp (start_stage2 2 0x1000 [120; 49]) (λ _ s', started 0x1000 (bench_debugger Mode8086 []) s') (bench_debugger Mode8086 [])) as H.
  { assert (16 * 0x1000 + last_byte <= 0x100000) as Htop by (vm_compute; discriminate).
    apply (start_stage2_spec 0x1000 ltac:(lia) Htop bench_identity [120] 49 []);
      [reflexivity|exact bench_bytes|reflexivity|repeat constructor; unfold other_key; lia|lia|reflexivity]. }
  unfold bench_started. revert H. unfold wp. generalize (start_stage2 2 0x1000 [120; 49] (bench_debugger Mode8086 [])).
  intros [e|[[] s1]]; [intros []|reflexivity].
Qed.

Lemma bench_tame m entry : ~ own entry -> tame m entry.
Proof.
  intros Ho. split.
  - intros p q E x Hx. cbn. by case_bool; apply E.
  - intros p x Hx. cbn. unfold reserved, own, PML4_LOCATION in Hx. by rewrite (proj2 (Z.eqb_neq x 0x500)) by lia.
Qed.

(** The code copies its first byte to 500. *)
Lemma session_from_start_witness :
  exists h', session (SE := bench_serial bench_started) 0x100000 [0x5A; 0xC3] 0x500 1 [] = inr (Some [0x5A], h').
Proof.
  destruct (session_from_start (SE := bench_serial bench_started) (bench_debugger Mode8086 []) bench_started 0x1000 [120] 49 [] 0
    (Line := bench_line bench_started) 0x100000 [0x5A; 0xC3] 0x500 1) as [_ (h' & E & _)];
    [lia|cbn; lia|exact bench_identity|exact bench_bytes|reflexivity|repeat constructor; unfold other_key; lia|lia|reflexivity|reflexivity|reflexivity|
     exact bench_starts|reflexivity|reflexivity|exact (bench_fuel bench_started)|cbn; lia|
     apply bench_clear; [vm_compute; discriminate|right; split; [vm_compute; discriminate|split; [vm_compute; discriminate|left; discriminate]]]| |lia|
     apply bench_clear; [vm_compute; discriminate|left; vm_compute; discriminate]|].
  - apply bench_tame. vm_compute. intros [_ H]. discriminate H.
  - exists h'. exact E.
Defined.
