(* ===== verification/CpuTests.v ===== *)
(** * The CPU test driver (comm/tests/cpu_tests.c)

    A host program over the serial library: it uploads small programs, runs
    them, reads their results back and decodes them, then looks for aliases of
    memory regions.  Its files and the terminal are the parameter [TestEnv];
    messages to stderr and pauses are left out. *)

From S2P Require Import Prelude Machine Memory Text ELib SLib.

(** ** Data *)

(** [struct cpuid]; the unions of bit fields are their [raw] words. *)
Record cpuid_info : Type := mkCpuid {
  highest_basic : Z; highest_extended : Z;
  vendor : list Z; ext_vendor : list Z; processor_name : list Z;
  stepping : Z; model : Z; ext_model : Z; family : Z; ext_family : Z; cpu_type : Z;
  brand_id : Z; clflush_size : Z; logical_processors : Z; local_apic_id : Z;
  guest_physical_addr_bits : Z; virtual_addr_bits : Z; physical_addr_bits : Z;
  apic_id_lsbs_core_id : Z; cores : Z;
  cpuid_1_cf : Z; cpuid_1_df : Z; cpuidex_1_cf : Z; cpuidex_1_df : Z; cpuidex_7_epm : Z
}.

(** The regions whose aliases are counted: a field [max_<region>_bits] and a
    field [max_<region>_bits_uw] for each. *)
Inductive region : Type := upper_bios | legacy_bios | legacy_vga | legacy_dosmem | extmem.

#[export] Instance region_eq_dec : EqDecision region.
Proof. solve_decision. Defined.

Record x86_test_results : Type := mkResults {
  has_ud_exception : Z; has_pop_cs : Z; has_cpuid : Z; has_ac_exception : Z;
  std0to4_eflags_revision : Z;
  max_basic_memory_address_bits : Z; max_address_pins : Z;
  max_bits : region -> Z; max_bits_uw : region -> Z;
  cpuid : cpuid_info
}.

Definition zero_cpuid : cpuid_info := mkCpuid 0 0 (replicate 13 0) (replicate 13 0) (replicate 49 0) 0 0 0 0 0 0 0 0 0 0 0 0 0 0 0 0 0 0 0 0.
Definition init_x86_test_results : x86_test_results := mkResults 0 0 0 0 0 0 0 (λ _, 0) (λ _, 0) zero_cpuid.

Section Setters.
Variable r : x86_test_results.
Definition set_ud_pop (ud pop : Z) : x86_test_results :=
  mkResults ud pop (has_cpuid r) (has_ac_exception r) (std0to4_eflags_revision r) (max_basic_memory_address_bits r)
    (max_address_pins r) (max_bits r) (max_bits_uw r) (cpuid r).
Definition set_revision (id rev : Z) : x86_test_results :=
  mkResults (has_ud_exception r) (has_pop_cs r) id (has_ac_exception r) rev (max_basic_memory_address_bits r)
    (max_address_pins r) (max_bits r) (max_bits_uw r) (cpuid r).
Definition set_has_ac_exception (ac : Z) : x86_test_results :=
  mkResults (has_ud_exception r) (has_pop_cs r) (has_cpuid r) ac (std0to4_eflags_revision r) (max_basic_memory_address_bits r)
    (max_address_pins r) (max_bits r) (max_bits_uw r) (cpuid r).
Definition set_address_bits (bits : Z) : x86_test_results :=
  mkResults (has_ud_exception r) (has_pop_cs r) (has_cpuid r) (has_ac_exception r) (std0to4_eflags_revision r) bits
    bits (max_bits r) (max_bits_uw r) (cpuid r).
Definition set_max_bits (g : region) (n : Z) : x86_test_results :=
  mkResults (has_ud_exception r) (has_pop_cs r) (has_cpuid r) (has_ac_exception r) (std0to4_eflags_revision r)
    (max_basic_memory_address_bits r) (max_address_pins r) (λ g', if decide (g' = g) then n else max_bits r g') (max_bits_uw r) (cpuid r).
Definition set_max_bits_uw (g : region) (n : Z) : x86_test_results :=
  mkResults (has_ud_exception r) (has_pop_cs r) (has_cpuid r) (has_ac_exception r) (std0to4_eflags_revision r)
    (max_basic_memory_address_bits r) (max_address_pins r) (max_bits r) (λ g', if decide (g' = g) then n else max_bits_uw r g') (cpuid r).
Definition set_cpuid (c : cpuid_info) : x86_test_results :=
  mkResults (has_ud_exception r) (has_pop_cs r) (has_cpuid r) (has_ac_exception r) (std0to4_eflags_revision r)
    (max_basic_memory_address_bits r) (max_address_pins r) (max_bits r) (max_bits_uw r) c.
End Setters.

(** The program's variables and its history on the serial port. *)
Record tester : Type := mkTester {
  t_hist : list sevent;
  seg_alloc : Z; seg_announce86 : Z; seg_announce86_buffer : Z;
  t_cpu : x86_test_results;
  t_stdout : list Z                    (* what do_dumb_tty has shown *)
}.

Definition set_t_hist (h : list sevent) (t : tester) : tester :=
  mkTester h (seg_alloc t) (seg_announce86 t) (seg_announce86_buffer t) (t_cpu t) (t_stdout t).
Definition set_segments (alloc ann buf : Z) (t : tester) : tester :=
  mkTester (t_hist t) alloc ann buf (t_cpu t) (t_stdout t).
Definition set_t_cpu (c : x86_test_results) (t : tester) : tester :=
  mkTester (t_hist t) (seg_alloc t) (seg_announce86 t) (seg_announce86_buffer t) c (t_stdout t).
Definition set_t_stdout (o : list Z) (t : tester) : tester :=
  mkTester (t_hist t) (seg_alloc t) (seg_announce86 t) (seg_announce86_buffer t) (t_cpu t) o.

(** Files: their contents, and what [read] at an offset returns; what is in a
    buffer that [remote_rs232_read] has not filled; standard input. *)
Class TestEnv : Type := {
  te_file : list Z -> option (list Z);
  te_read : list Z -> nat -> nat -> Z;
  te_scrap : list sevent -> nat -> list Z;
  te_select : list sevent -> Z;
  te_stdin : list sevent -> option Z
}.

Abbreviation T := (SM tester).

Section Driver.
Context `{SE : SerialEnv} `{TE : TestEnv}.

Definition serial {A} (c : S232 A) : T A := λ t,
  match c (t_hist t) with
  | inl e => inl e
  | inr (a, h) => inr (a, set_t_hist h t)
  end.

Definition upd_cpu (f : x86_test_results -> x86_test_results) : T unit := modify (λ t, set_t_cpu (f (t_cpu t)) t).

(** The result of [remote_rs232_read] and the bytes then in the buffer of [count]. *)
Definition rread (addr count : Z) : T (Z * list Z) :=
  '(r, d) ← serial (remote_rs232_read addr count);
  match d with
  | Some b => mret (r, b)
  | None => b ← gets (λ t, resize (Z.to_nat count) 0 (te_scrap (t_hist t) (Z.to_nat count))); mret (r, b)
  end.

(** [if (!c) return 1;], in a part of a function that goes on after [true]. *)
Definition need (c : T Z) (k : T bool) : T bool := r ← c; if r =? 0 then mret false else k.
Definition need_read (addr count : Z) (k : list Z -> T bool) : T bool :=
  '(r, b) ← rread addr count; if r =? 0 then mret false else k b.

(** ** Uploading *)

(** [off] bytes have been uploaded; [retr] and [sz] are then [off] and the
    rest.  [addr] does not change. *)
Fixpoint upload_loop (fuel : nat) (file content : list Z) (off : nat) (addr : Z) : T Z :=
  let sz := (length content - off)%nat in
  match sz, fuel with
  | O, _ => mret (Z.of_nat off)
  | S _, O => halt NoReturn
  | S _, S f =>
      let blksz := (sz `min` 4096)%nat in
      let rd := te_read file off blksz in
      if rd <? Z.of_nat blksz then mret 0 else
      r ← serial (remote_rs232_write addr (take blksz (drop off content)));
      if r =? 0 then mret 0 else upload_loop f file content (off + blksz) addr
  end.

Definition upload_code (file : list Z) (addr : Z) : T Z :=
  match te_file file with
  | None => mret 0
  | Some content => upload_loop (length content) file content 0 addr
  end.

Definition u16_bytes (x : Z) : list Z := [u8 x; u8 (Z.shiftr x 8)].
Definition u32_bytes (x : Z) : list Z := [u8 x; u8 (Z.shiftr x 8); u8 (Z.shiftr x 16); u8 (Z.shiftr x 24)].

(** 1 in every case. *)
Definition announce86_call (str_seg str_ofs : Z) : T Z :=
  seg ← gets seg_announce86;
  r ← serial (remote_rs232_write seg (u16_bytes str_ofs ++ u16_bytes str_seg));
  if r =? 0 then mret 1 else
  r ← serial (remote_rs232_exec_seg_off (Z.shiftr seg 4) 4 10);
  if r =? 0 then mret 1 else mret 1.

Definition announce86_imm (str : list Z) : T Z :=
  let str_len := (length str `min` 255)%nat in
  buf ← gets seg_announce86_buffer;
  r ← serial (remote_rs232_write buf (take str_len str));
  if r =? 0 then mret 0 else
  r ← serial (remote_rs232_write (buf + Z.of_nat str_len) [0]);
  if r =? 0 then mret 0 else
  seg ← gets seg_announce86;
  announce86_call (Z.shiftr seg 4) (u32 (buf - seg)).

(** ** The A20 gate *)

Definition a20_enabled_mem_test : T bool :=
  need_read 0x300 32 (λ buf0,
  need_read (Z.lor 0x300 (Z.shiftl 1 20)) 32 (λ buf1,
  need_read (0x100000 - 32) 64 (λ cross,
  need_read 0 32 (λ zero,
  if bool_decide (zero = take 32 (drop 32 cross)) then mret false else
  if bool_decide (buf0 = buf1) then
    need (serial (remote_rs232_write 0x300 (replicate 32 120)))
   (need_read (Z.lor 0x300 (Z.shiftl 1 20)) 32 (λ buf1,
    need (serial (remote_rs232_write 0x300 buf0))
   (if bool_decide (replicate 32 120 = buf1) then mret false else mret true)))
  else mret true)))).

(** ** run_tests *)

(** [if (!(sz=upload_code(...))) return 1;] *)
Definition need_upload (file : string) (addr : Z) (k : Z -> T bool) : T bool :=
  sz ← upload_code (str file) addr; if sz =? 0 then mret false else k sz.

Definition start_tests : T bool :=
  serial remote_rs232_test ;;
  serial remote_rs232_test ;;
  need (serial remote_rs232_test)
 (need (serial remote_rs232_8086)
 (seg ← gets seg_alloc;
  need_upload "cpu/announce86.bin" seg (λ sz,
  let buf := Z.land (u32 (seg + sz + 0xF)) (u32 (Z.lnot 0xF)) in
  modify (set_segments (u32 (buf + 256)) seg buf) ;;
  seg ← gets seg_alloc;
  need_upload "misc/shutoff_floppy_motor.bin" seg (λ _,
  need (serial (remote_rs232_exec_seg_off (Z.shiftr seg 4) 0 10))
 (need (announce86_imm (str "CPU tests commencing now. Be prepared" ++ [13; 10])) (mret true)))))).

(** Upload at [seg_alloc], run at offset 4, read four bytes. *)
Definition result86 (file : string) (k : list Z -> T bool) : T bool :=
  seg ← gets seg_alloc;
  need_upload file seg (λ _,
  need (serial (remote_rs232_exec_seg_off (Z.shiftr seg 4) 4 10))
 (need_read seg 4 k)).

Definition is_one (b : list Z) (i : nat) : Z := if nth i b 0 =? 1 then 1 else 0.

Definition test_ud86 : T bool :=
  result86 "cpu/ud_exception_86.bin" (λ result,
    upd_cpu (λ c, set_ud_pop c (is_one result 0) (is_one result 1)) ;; mret true).

Definition test_eflags : T bool :=
  result86 "cpu/legacy_cpu_detect.bin" (λ result,
    upd_cpu (λ c, set_revision c (is_one result 1) (nth 0 result 0)) ;; mret true).

Definition basic_address_bits (revision : Z) : Z :=
  if 3 <=? revision then 32 else if 2 <=? revision then 24 else 20.

Definition enter_16bit (revision : Z) : T Z :=
  if 3 <=? revision then serial remote_rs232_386_16 else serial remote_rs232_286.

(** [while (retry-- != 0 && !a20_enabled_mem_test(stty_fd)) ...] *)
Fixpoint a20_retry (retry : nat) : T bool :=
  match retry with
  | O => mret true
  | S n =>
      on ← a20_enabled_mem_test;
      if on : bool then mret true else
      seg ← gets seg_alloc;
      need_upload "misc/a20_enable.bin" seg (λ _,
      need (serial (remote_rs232_exec_off seg 10)) (a20_retry n))
  end.

Definition enable_a20 : T bool :=
  on ← a20_enabled_mem_test;
  ok ← (if on : bool then mret true else
        seg ← gets seg_alloc;
        need_upload "misc/a20_enable_fast.bin" seg (λ _,
        need (serial (remote_rs232_exec_off seg 10)) (mret true)) : T bool);
  if negb ok then mret false else
  ok ← a20_retry 3;
  if negb ok then mret false else
  a20_enabled_mem_test.

(** Upload at 0x40000, run at 0x40000+4, read a word. *)
Definition word_of (b : list Z) : Z := nth 0 b 0 + 256 * nth 1 b 0 + 65536 * nth 2 b 0 + 16777216 * nth 3 b 0.
Definition result32 (file : string) (k : Z -> T bool) : T bool :=
  need_upload file 0x40000 (λ _,
  need (serial (remote_rs232_exec_off (0x40000 + 4) 10))
 (need_read 0x40000 4 (λ b, k (word_of b)))).

Definition test_ud32 : T bool :=
  need (serial remote_rs232_8086)
 (need (serial remote_rs232_386_32)
 (result32 "cpu/ud_verify_386-32.bin" (λ d,
    if d =? 0 then mret false else if negb (d =? 0x12345678) then mret false else mret true))).

Definition test_popad (revision : Z) : T bool :=
  if revision =? 3 then result32 "cpu/386_popad.bin" (λ _, mret true) else mret true.

Definition test_ac : T bool :=
  result32 "cpu/ac_exception_386-32.bin" (λ d,
    if negb (d =? 0) && negb (d =? 0x12345678) then mret false else
    upd_cpu (λ c, set_has_ac_exception c (if d =? 0x12345678 then 1 else 0)) ;; mret true).

(** ** CPUID *)

(** Little-endian words of a block that was read. *)
Definition words (b : list Z) (i : nat) : Z := word_of (drop (4 * i) b).

(** One leaf: [results[0]] goes out, EAX to EDX come back. *)
Definition probe_leaf (x entry size : Z) (k : list Z -> T bool) : T bool :=
  need (serial (remote_rs232_write 0x40000 (u32_bytes x)))
 (need (serial (remote_rs232_exec_off (0x40000 + entry) 10))
 (need_read 0x40000 size k)).

(** [for (y=0;y < n;y++)] over the leaves from [base] on; the words at the
    indices [keep] of each answer are appended to [acc]. *)
Fixpoint probe_leaves (n : nat) (x entry size : Z) (keep : list nat) (acc : list Z) (k : list Z -> T bool) : T bool :=
  match n with
  | O => k acc
  | S n' => probe_leaf (u32 x) entry size (λ b, probe_leaves n' (x + 1) entry size keep (acc ++ (words b <$> keep)) k)
  end.

(** The processor's name in the 48 bytes at [src]: leading blanks are skipped,
    and the copy ends at a NUL or at the end. *)
Fixpoint skip_blanks (l : list Z) : list Z :=
  match l with
  | 32 :: l' => skip_blanks l'
  | _ => l
  end.
Definition cpu_name (src : list Z) : list Z := c_string (skip_blanks src).

Definition field (w shift mask : Z) : Z := Z.land (Z.shiftr w shift) mask.

(** The decoding of the leaves 0 to 3 ([vals]) and 0x80000000 to 0x80000008
    ([extended]). *)
Definition decode_cpuid (vals extended : list Z) (c : cpuid_info) : cpuid_info :=
  let v leaf reg := nth (4 * leaf + reg) vals 0 in
  let e leaf reg := nth (4 * leaf + reg) extended 0 in
  let EAX := 0%nat in let EBX := 1%nat in let ECX := 2%nat in let EDX := 3%nat in
  let high := e 0%nat EAX in
  let ext := 0x80000000 <=? high in
  let ext8 := 0x80000008 <=? high in
  mkCpuid (v 0%nat EAX) high
    (u32_bytes (v 0%nat EBX) ++ u32_bytes (v 0%nat EDX) ++ u32_bytes (v 0%nat ECX) ++ [0])
    (if ext then u32_bytes (e 0%nat EBX) ++ u32_bytes (e 0%nat EDX) ++ u32_bytes (e 0%nat ECX) ++ drop 12 (ext_vendor c)
     else ext_vendor c)
    (if ext then
       let name := cpu_name (concat (u32_bytes <$> take 12 (drop 8 extended))) in
       name ++ [0] ++ drop (length name + 1) (processor_name c)
     else processor_name c)
    (field (v 1%nat EAX) 0 0xF) (field (v 1%nat EAX) 4 0xF) (field (v 1%nat EAX) 16 0xF)
    (field (v 1%nat EAX) 8 0xF) (field (v 1%nat EAX) 20 0xFF) (field (v 1%nat EAX) 12 0x3)
    (field (v 1%nat EBX) 0 0xFF) (field (v 1%nat EBX) 8 0xFF * 8) (field (v 1%nat EBX) 16 0xFF) (u8 (Z.shiftr (v 1%nat EBX) 24))
    (if ext8 then field (e 8%nat EAX) 16 0xFF else guest_physical_addr_bits c)
    (if ext8 then field (e 8%nat EAX) 8 0xFF else virtual_addr_bits c)
    (if ext8 then field (e 8%nat EAX) 0 0xFF else physical_addr_bits c)
    (if ext8 then field (e 8%nat ECX) 12 0xF else apic_id_lsbs_core_id c)
    (if ext8 then field (e 8%nat ECX) 0 0xFF + 1 else cores c)
    (v 1%nat ECX) (v 1%nat EDX)
    (if ext then e 1%nat ECX else cpuidex_1_cf c)
    (if ext then e 1%nat EDX else cpuidex_1_df c)
    (if 0x80000007 <=? high then e 7%nat EDX else cpuidex_7_epm c).

Definition test_cpuid : T bool :=
  need (serial remote_rs232_8086)
 (need (serial remote_rs232_386_32)
 (need_upload "cpu/cpuid_386-32.bin" 0x40000 (λ _,
  probe_leaves 4 0 0x18 0x18 [1; 2; 3; 4]%nat [] (λ vals,
  probe_leaves 9 0x80000000 0x18 0x18 [1; 2; 3; 4]%nat [] (λ extended,
  upd_cpu (λ c, set_cpuid c (decode_cpuid vals extended (cpuid c))) ;; mret true))))).

(** Machine status registers: the values are only shown. *)
Definition test_msrs : T bool :=
  need_upload "cpu/rdmsr_386-32.bin" 0x40000 (λ _,
  probe_leaves 64 0 0x10 0x10 [1; 2; 3]%nat [] (λ vals,
  probe_leaves 64 0x80000000 0x10 0x10 [1; 2; 3]%nat [] (λ ext_vals, mret true))).

(** [cpuid_1_df.f.msr], the sixth bit field of its union. *)
Definition has_msr (c : cpuid_info) : bool := Z.testbit (cpuid_1_df c) 5.

(** [part]: go on after [true], [return 1] after [false]. *)
Definition part (c : T bool) (k : T Z) : T Z := ok ← c; if ok : bool then k else mret 1.

Definition run_tests : T Z :=
  part start_tests
 (part test_ud86
 (part test_eflags
 (rev ← gets (λ t, std0to4_eflags_revision (t_cpu t));
  upd_cpu (λ c, set_address_bits c (basic_address_bits rev)) ;;
  if rev <? 2 then mret 0 else
  part (need (enter_16bit rev) (mret true))
 (part enable_a20
 (if rev <? 3 then mret 0 else
  part test_ud32
 (part (test_popad rev)
 (part test_ac
 (if rev <? 4 then mret 0 else
  id ← gets (λ t, has_cpuid (t_cpu t));
  part (if negb (id =? 0) then test_cpuid else mret true)
 (msr ← gets (λ t, has_msr (cpuid (t_cpu t)));
  part (if msr : bool then test_msrs else mret true) (mret 0)))))))))).

(** ** run_memory_aliasing_tests *)

(** The topmost BIOS, from above: [max] is the last address with [max_bits] lines. *)
Fixpoint top_down (fuel : nat) (basic : Z) (hirom : list Z) (max bits : Z) (k : Z -> T bool) : T bool :=
  match fuel with
  | O => halt NoReturn
  | S f =>
      need_read (max + 1 - 512) 512 (λ compare,
      if negb (bool_decide (compare = hirom)) then k (bits + 1) else
      let max := Z.shiftr max 1 in
      let bits := bits - 1 in
      if bits <=? 20 then k basic else top_down f basic hirom max bits k)
  end.

(** The topmost BIOS, from below. *)
Fixpoint top_up (fuel : nat) (basic : Z) (hirom : list Z) (max bits : Z) (k : Z -> T bool) : T bool :=
  match fuel with
  | O => halt NoReturn
  | S f =>
      need_read (max + 1 - 512) 512 (λ compare,
      if bool_decide (compare = hirom) then k (bits - 1) else
      let max := Z.lor (u64 (Z.shiftl max 1)) 1 in
      let bits := bits + 1 in
      if 32 <=? bits then k basic else top_up f basic hirom max bits k)
  end.

(** The other regions, at [off]: the block is compared with its candidates for
    an alias, from the highest address line down ... *)
Fixpoint scan_down (fuel : nat) (basic : Z) (alias : Z -> Z) (off : Z) (block : list Z) (bits : Z) (k : Z -> T bool) : T bool :=
  match fuel with
  | O => halt NoReturn
  | S f =>
      need_read (u64 (alias bits + off)) 512 (λ compare,
      if negb (bool_decide (compare = block)) then k (bits + 1) else
      let bits := bits - 1 in
      if bits <=? 20 then k basic else scan_down f basic alias off block bits k)
  end.

(** ... or from line 21 up. *)
Fixpoint scan_up (fuel : nat) (basic : Z) (alias : Z -> Z) (off : Z) (block : list Z) (bits : Z) (k : Z -> T bool) : T bool :=
  match fuel with
  | O => halt NoReturn
  | S f =>
      need_read (u64 (alias bits + off)) 512 (λ compare,
      if bool_decide (compare = block) then k bits else
      let bits := bits + 1 in
      if 32 <=? bits then k basic else scan_up f basic alias off block bits k)
  end.

(** [((~0ULL) << bits) & max_basic_mem_address], and [1ULL << bits]. *)
Definition upper_alias (basic bits : Z) : Z := Z.land (u64 (Z.shiftl (u64 (-1)) bits)) (Z.shiftl 1 basic - 1).
Definition lower_alias (bits : Z) : Z := Z.shiftl 1 bits.

(** Both scans of one direction; the second one counts. *)
Definition region_down (basic : Z) (g : region) (off : Z) : T bool :=
  need_read off 512 (λ block,
  scan_down (Z.to_nat basic) basic (upper_alias basic) off block (basic - 1) (λ _,
  scan_down (Z.to_nat basic) basic lower_alias off block (basic - 1) (λ lower,
  upd_cpu (λ c, set_max_bits c g lower) ;; mret true))).
Definition region_up (basic : Z) (g : region) (off : Z) : T bool :=
  need_read off 512 (λ block,
  scan_up 32 basic (upper_alias basic) off block 21 (λ _,
  scan_up 32 basic lower_alias off block 21 (λ lower,
  upd_cpu (λ c, set_max_bits_uw c g lower) ;; mret true))).

Definition top_bios (basic : Z) : T bool :=
  let maxmem := Z.shiftl 1 basic - 1 in
  need_read (maxmem + 1 - 512) 512 (λ hirom,
  top_down (Z.to_nat basic) basic hirom (Z.shiftr maxmem 1) (basic - 1) (λ n,
  upd_cpu (λ c, set_max_bits c upper_bios n) ;;
  need_read (Z.shiftl 1 20 - 512) 512 (λ hirom,
  top_up 32 basic hirom (Z.shiftl 1 21 - 1) 21 (λ n,
  upd_cpu (λ c, set_max_bits_uw c upper_bios n) ;; mret true)))).

Definition both_ways (basic : Z) (g : region) (off : Z) : T bool :=
  ok ← region_down basic g off; if ok : bool then region_up basic g off else mret false.

Definition run_memory_aliasing_tests : T Z :=
  cpu ← gets t_cpu;
  let basic := max_basic_memory_address_bits cpu in
  if std0to4_eflags_revision cpu <? 2 then mret 0 else
  if basic <? 20 then mret 0 else
  part (top_bios basic)
 (part (both_ways basic legacy_bios (0x100000 - 512))
 (part (both_ways basic legacy_vga 0xB8000)
 (part (both_ways basic legacy_dosmem 0)
 (dos ← gets (λ t, max_bits (t_cpu t) legacy_dosmem);
  part (if 20 <? dos then region_down basic extmem 0x100000 else mret true)
 (part (region_up basic extmem 0x100000) (mret 0)))))).

(** ** The command line *)

Record options : Type := mkOptions { stty_dev : option (list Z); dumb_tty : bool }.

Fixpoint strip_dashes (a : list Z) : list Z :=
  match a with
  | 45 :: a' => strip_dashes a'
  | _ => a
  end.

(** [argv[1..]]; [argv[argc]] is NULL.  The result is the return value. *)
Fixpoint parse_argv (argv : list (list Z)) (o : options) : Z * options :=
  match argv with
  | [] => (0, o)
  | a :: rest =>
      match a with
      | 45 :: _ =>
          let a := strip_dashes a in
          if bool_decide (a = str "h") || bool_decide (a = str "help") then (1, o)
          else if bool_decide (a = str "d") then
            match rest with
            | [] => (0, mkOptions None (dumb_tty o))
            | dev :: rest' => parse_argv rest' (mkOptions (Some dev) (dumb_tty o))
            end
          else if bool_decide (a = str "tty") then parse_argv rest (mkOptions (stty_dev o) true)
          else parse_argv rest o
      | _ => parse_argv rest o
      end
  end.

(** One pass of the pass-through; [c] keeps its value when a read fails. *)
Definition tty_pass (c : Z) : T Z :=
  n ← serial sys_select;
  c ← (if n =? 1 then
         b ← serial (sys_read 1);
         let c := match b with Some (x :: _) => x | _ => c end in
         modify (λ t, set_t_stdout (t_stdout t ++ [c]) t) ;; mret c
       else mret c : T Z);
  ready ← gets (λ t, te_select (t_hist t));
  if ready =? 1 then
    c ← gets (λ t, default c (te_stdin (t_hist t)));
    serial (sys_write [c]) ;; mret c
  else mret c.

Fixpoint do_dumb_tty (fuel : nat) (c : Z) : T unit :=
  match fuel with
  | O => halt NoReturn
  | S f => c ← tty_pass c; do_dumb_tty f c
  end.

(** The file's global and automatic variables at the start of [main]; [opens]
    says whether [open(stty_dev,O_RDWR)] succeeds. *)
Definition start_tester : tester := mkTester [] 0x20000 0 0 init_x86_test_results [].
Definition cpu_tests_main (opens : option (list Z) -> bool) (argv : list (list Z)) : T Z :=
  let '(r, o) := parse_argv argv (mkOptions (Some (str "/dev/ttyS0")) false) in
  if negb (r =? 0) then mret 1 else
  if negb (opens (stty_dev o)) then mret 1 else
  serial remote_rs232_configure ;;
  if dumb_tty o then do_dumb_tty ser_fuel 0 ;; mret 0 else
  r ← run_tests;
  if negb (r =? 0) then mret 1 else
  r ← run_memory_aliasing_tests;
  if negb (r =? 0) then mret 1 else mret 0.

End Driver.
