(* ===== verification/CpuTestsSpec.v ===== *)
(** * What the CPU test driver finds out

    The driver of [CpuTests] against a machine that satisfies [SerialTarget]:
    what uploading stores, when the A20 gate is recognised as open, and how many
    address lines the alias scans count. *)

From S2P Require Import Prelude Machine Memory Text ELib SLib SLibSpec Ip SerialTarget CpuTests.

Lemma wp_serial `{SerialEnv} {A} (c : S232 A) (Q : A -> tester -> Prop) t :
  wp c (λ a h, Q a (set_t_hist h t)) (t_hist t) -> wp (serial c) Q t.
Proof. unfold wp, serial. by destruct (c (t_hist t)) as [|[]]. Qed.

Section Spec.
Context `{SE : SerialEnv} `{TE : TestEnv} (stream : list Z -> list Z) (k : nat) `{TG : !SerialTarget stream k}.

(** The machine waits for a command and its memory is [p]. *)
Record at_rest (p : Z -> Z) (t : tester) : Prop := {
  ar_synced : synced stream k (t_hist t);
  ar_cells : forall a, cells stream k (t_hist t) a = p a
}.

(** Only the history on the serial port is different. *)
Definition same_vars (t t' : tester) : Prop := t' = set_t_hist (t_hist t') t.

#[local] Instance same_vars_preorder : PreOrder same_vars.
Proof.
  split; [by intros []|]. unfold same_vars. intros t1 t2 t3 E1 E2. rewrite E2 at 1. rewrite E1. done.
Qed.

Lemma same_vars_hist h t : same_vars t (set_t_hist h t).
Proof. done. Qed.

Lemma rread_spec p addr n t Q :
  at_rest p t -> 0 <= n <= 4096 ->
  (forall t', at_rest p t' -> same_vars t t' -> Q (1, peek tg_decode p addr (Z.to_nat n)) t') -> wp (rread addr n) Q t.
Proof.
  intros [Hs Hc] Hn HQ. unfold rread. wp_step. apply wp_serial.
  eapply wp_mono; [by apply (target_read stream k)|]. intros r h (-> & Hs' & Hc'). wp_step.
  unfold memory. rewrite (peek_ext _ _ p) by done. apply HQ; [split; [done|]|done]. intros a. cbn [t_hist set_t_hist]. by rewrite Hc'.
Qed.

Lemma need_read_spec p addr n (c : list Z -> T bool) t Q :
  at_rest p t -> 0 <= n <= 4096 ->
  (forall t', at_rest p t' -> same_vars t t' -> wp (c (peek tg_decode p addr (Z.to_nat n))) Q t') -> wp (need_read addr n c) Q t.
Proof.
  intros Ht Hn HQ. unfold need_read. wp_step. apply (rread_spec p); [done|done|]. intros t' Ht' Hv. cbn [Z.eqb]. by apply HQ.
Qed.

Lemma write_spec p addr buf t (Q : Z -> tester -> Prop) :
  at_rest p t -> (length buf <= 4096)%nat ->
  (forall t', at_rest (poke tg_decode addr buf p) t' -> same_vars t t' -> Q 1 t') -> wp (serial (remote_rs232_write addr buf)) Q t.
Proof.
  intros [Hs Hc] Hn HQ. apply wp_serial. eapply wp_mono; [by apply (target_write stream k)|]. intros r h (-> & Hs' & Hc').
  apply HQ; [split; [done|]|done]. intros a. cbn [t_hist set_t_hist]. rewrite Hc'. by apply poke_ext.
Qed.

(** ** Uploading *)

(** The blocks of 4096 bytes of the part of a file from [off] on. *)
Fixpoint blocks (fuel : nat) (l : list Z) : list (list Z) :=
  match l, fuel with
  | [], _ | _, O => []
  | _, S f => take 4096 l :: blocks f (drop 4096 l)
  end.

Definition uploaded (addr : Z) (content : list Z) (p : Z -> Z) : Z -> Z :=
  fold_left (λ p b, poke tg_decode addr b p) (blocks (length content) content) p.

Lemma at_rest_ext p q t : at_rest p t -> (forall a, p a = q a) -> at_rest q t.
Proof. intros [Hs Hc] E. split; [done|]. intros a. by rewrite Hc, E. Qed.

Lemma upload_loop_spec file content addr Q : forall fuel off p t,
  (forall off n, Z.of_nat n <= te_read file off n) -> at_rest p t -> (off <= length content)%nat -> (length content - off <= fuel)%nat ->
  (forall t', at_rest (fold_left (λ p b, poke tg_decode addr b p) (blocks fuel (drop off content)) p) t' -> same_vars t t' ->
     Q (Z.of_nat (length content)) t') ->
  wp (upload_loop fuel file content off addr) Q t.
Proof.
  intros fuel. induction fuel as [|fuel IH]; intros off p t Hrd Ht Ho Hf HQ; cbn [upload_loop].
  - replace (length content - off)%nat with 0%nat by lia. wp_step. replace off with (length content) in * by lia. apply HQ; [|done].
    rewrite drop_all. exact Ht.
  - destruct (length content - off)%nat as [|m] eqn:Em.
    + wp_step. replace off with (length content) in * by lia. apply HQ; [|done]. rewrite drop_all. exact Ht.
    + rewrite <- Em. set (n := ((length content - off) `min` 4096)%nat). rewrite (proj2 (Z.ltb_ge _ _)) by apply Hrd. wp_step.
      assert (length (drop off content) = S m) as Ed by (rewrite length_drop; lia).
      assert (take n (drop off content) = take 4096 (drop off content)) as En.
      { subst n. destruct (Nat.le_gt_cases (length content - off) 4096); [rewrite Nat.min_l, !take_ge by (rewrite ?length_drop; lia); done|].
        by rewrite Nat.min_r by lia. }
      rewrite En. apply (write_spec p); [done|rewrite length_take; lia|]. intros t1 Ht1 Hv1. cbn [Z.eqb].
      apply (IH (off + n)%nat (poke tg_decode addr (take 4096 (drop off content)) p)); [done|done|subst n; lia|subst n; lia|].
      intros t2 Ht2 Hv2. apply HQ; [|by etransitivity].
      destruct (drop off content) as [|c l] eqn:El; [done|]. cbn [blocks fold_left]. rewrite <- El in *. rewrite drop_drop.
      subst n. destruct (Nat.le_gt_cases (length content - off) 4096).
      * rewrite (drop_ge content (off + 4096)) by lia. rewrite Nat.min_l, (drop_ge content) in Ht2 by lia.
        by destruct fuel.
      * by rewrite Nat.min_r in Ht2 by lia.
Qed.

Lemma upload_spec file content addr p t Q :
  te_file file = Some content -> (forall off n, Z.of_nat n <= te_read file off n) -> at_rest p t ->
  (forall t', at_rest (uploaded addr content p) t' -> same_vars t t' -> Q (Z.of_nat (length content)) t') ->
  wp (upload_code file addr) Q t.
Proof.
  intros Hf Hrd Ht HQ. unfold upload_code. rewrite Hf. apply (upload_loop_spec file content addr Q (length content) 0 p); [done|done|lia|lia|].
  by rewrite drop_0.
Qed.

(** A file of one block is stored. *)
Lemma uploaded_one addr content p :
  content <> [] -> (length content <= 4096)%nat -> uploaded addr content p = poke tg_decode addr content p.
Proof.
  intros Hne Hl. unfold uploaded. destruct content as [|c l]; [done|]. set (content := c :: l) in *.
  assert (blocks (length content) content = [content]) as ->; [|done].
  change (blocks (length content) content) with (take 4096 content :: blocks (length l) (drop 4096 content)).
  rewrite (take_ge content), (drop_ge content) by done. by destruct (length l).
Qed.

Lemma uploaded_far addr a : forall fuel content p,
  (forall i, 0 <= i < 4096 -> a <> tg_decode (addr + i)) ->
  fold_left (λ p b, poke tg_decode addr b p) (blocks fuel content) p a = p a.
Proof.
  induction fuel as [|fuel IH]; intros content p Ha; destruct content as [|c l]; try done. cbn [blocks fold_left].
  rewrite IH by done. apply poke_outside. intros i Hi. apply Ha. rewrite length_take in Hi. lia.
Qed.

(** ** The alias scans *)

(** What a scan reports, given which candidates look the same. *)
Fixpoint count_down (fuel : nat) (basic : Z) (same : Z -> bool) (bits : Z) : Z :=
  match fuel with
  | O => 0
  | S f => if same bits then if bits - 1 <=? 20 then basic else count_down f basic same (bits - 1) else bits + 1
  end.
Fixpoint count_up (fuel : nat) (basic : Z) (same : Z -> bool) (bits : Z) : Z :=
  match fuel with
  | O => 0
  | S f => if same bits then bits else if 32 <=? bits + 1 then basic else count_up f basic same (bits + 1)
  end.

(** The size of the blocks that are compared. *)
Abbreviation sector := (Z.to_nat 512).

Lemma count_down_S f basic same bits :
  count_down (S f) basic same bits = if same bits then if bits - 1 <=? 20 then basic else count_down f basic same (bits - 1) else bits + 1.
Proof. done. Qed.
Lemma count_up_S f basic same bits :
  count_up (S f) basic same bits = if same bits then bits else if 32 <=? bits + 1 then basic else count_up f basic same (bits + 1).
Proof. done. Qed.

Abbreviation looks p addr block := (bool_decide (peek tg_decode p addr sector = block)).

Lemma scan_down_spec p basic alias off block (c : Z -> T bool) Q fuel : forall bits t,
  at_rest p t -> (0 < fuel)%nat -> bits - 20 <= Z.of_nat fuel ->
  (forall t', at_rest p t' -> same_vars t t' ->
     wp (c (count_down fuel basic (λ j, looks p (u64 (alias j + off)) block) bits)) Q t') ->
  wp (scan_down fuel basic alias off block bits c) Q t.
Proof.
  induction fuel as [|fuel IH]; intros bits t Ht Hpos Hf HQ; [lia|]. cbn [scan_down]. rewrite count_down_S in HQ.
  apply (need_read_spec p); [done|lia|]. intros t1 Ht1 Hv1.
  set (b := looks p (u64 (alias bits + off)) block) in *. clearbody b. destruct b; cbn [negb]; [|by apply HQ].
  destruct (bits - 1 <=? 20) eqn:E; [by apply HQ|]. bool_to_prop. apply IH; [done|lia|lia|].
  intros t2 Ht2 Hv2. apply HQ; [done|by etransitivity].
Qed.

Lemma scan_up_spec p basic alias off block (c : Z -> T bool) Q fuel : forall bits t,
  at_rest p t -> (0 < fuel)%nat -> 32 - bits <= Z.of_nat fuel ->
  (forall t', at_rest p t' -> same_vars t t' ->
     wp (c (count_up fuel basic (λ j, looks p (u64 (alias j + off)) block) bits)) Q t') ->
  wp (scan_up fuel basic alias off block bits c) Q t.
Proof.
  induction fuel as [|fuel IH]; intros bits t Ht Hpos Hf HQ; [lia|]. cbn [scan_up]. rewrite count_up_S in HQ.
  apply (need_read_spec p); [done|lia|]. intros t1 Ht1 Hv1.
  set (b := looks p (u64 (alias bits + off)) block) in *. clearbody b. destruct b; [by apply HQ|].
  destruct (32 <=? bits + 1) eqn:E; [by apply HQ|]. bool_to_prop. apply IH; [done|lia|lia|].
  intros t2 Ht2 Hv2. apply HQ; [done|by etransitivity].
Qed.

Lemma top_down_spec p basic hirom (c : Z -> T bool) Q fuel : forall bits t,
  at_rest p t -> (0 < fuel)%nat -> bits - 20 <= Z.of_nat fuel -> 0 < bits ->
  (forall t', at_rest p t' -> same_vars t t' ->
     wp (c (count_down fuel basic (λ j, looks p (2 ^ j - 512) hirom) bits)) Q t') ->
  wp (top_down fuel basic hirom (2 ^ bits - 1) bits c) Q t.
Proof.
  induction fuel as [|fuel IH]; intros bits t Ht Hpos Hf Hb HQ; [lia|]. cbn [top_down]. rewrite count_down_S in HQ.
  apply (need_read_spec p); [done|lia|]. intros t1 Ht1 Hv1.
  replace (2 ^ bits - 1 + 1 - 512) with (2 ^ bits - 512) by lia.
  set (b := looks p (2 ^ bits - 512) hirom) in *. clearbody b. destruct b; cbn [negb]; [|by apply HQ].
  destruct (bits - 1 <=? 20) eqn:E; [by apply HQ|]. bool_to_prop.
  assert (Z.shiftr (2 ^ bits - 1) 1 = 2 ^ (bits - 1) - 1) as ->.
  { rewrite Z.shiftr_div_pow2 by lia. replace (2 ^ bits) with (2 * 2 ^ (bits - 1)) by (rewrite <- Z.pow_succ_r by lia; f_equal; lia).
    change (2 ^ 1) with 2. Z.div_mod_to_equations. lia. }
  apply IH; [done|lia|lia|lia|]. intros t2 Ht2 Hv2. apply HQ; [done|by etransitivity].
Qed.

(** The upward scan of the topmost BIOS returns; its count is not used here. *)
Lemma top_up_spec p basic hirom (c : Z -> T bool) Q fuel : forall max bits t,
  at_rest p t -> (0 < fuel)%nat -> 32 - bits <= Z.of_nat fuel ->
  (forall n t', at_rest p t' -> same_vars t t' -> wp (c n) Q t') ->
  wp (top_up fuel basic hirom max bits c) Q t.
Proof.
  induction fuel as [|fuel IH]; intros max bits t Ht Hpos Hf HQ; [lia|]. cbn [top_up].
  apply (need_read_spec p); [done|lia|]. intros t1 Ht1 Hv1. destruct (bool_decide _); [by apply HQ|].
  destruct (32 <=? bits + 1) eqn:E; [by apply HQ|]. bool_to_prop. apply IH; [done|lia|lia|].
  intros n t2 Ht2 Hv2. apply HQ; [done|by etransitivity].
Qed.

(** [lines] address lines are decoded: a candidate at line [lines] or above is an
    alias, and the next one below is told apart. *)
Lemma count_down_lines fuel basic same lines : forall bits,
  (forall j, lines <= j -> same j = true) -> (21 < lines -> same (lines - 1) = false) ->
  lines - 1 <= bits -> 20 < bits -> bits - 20 <= Z.of_nat fuel ->
  count_down fuel basic same bits = if lines <? 22 then basic else lines.
Proof.
  induction fuel as [|fuel IH]; intros bits Hs Hd Hl Hb Hf; [lia|]. cbn [count_down].
  destruct (Z.lt_ge_cases bits lines) as [Hlt|Hge].
  - assert (bits = lines - 1) as -> by lia. rewrite Hd by lia. rewrite (proj2 (Z.ltb_ge _ _)) by lia. lia.
  - rewrite Hs by done. destruct (bits - 1 <=? 20) eqn:E; bool_to_prop.
    + destruct (lines <? 22) eqn:El; [done|]. bool_to_prop. lia.
    + apply IH; try done; lia.
Qed.

Lemma count_up_lines fuel basic same lines : forall bits,
  (forall j, lines <= j -> same j = true) -> (forall j, 21 <= j < lines -> same j = false) ->
  21 <= bits < 32 -> bits <= Z.max 21 lines -> lines <= basic -> lines <= 32 -> (lines = 32 -> basic = 32) -> 32 - bits <= Z.of_nat fuel ->
  count_up fuel basic same bits = Z.max 21 lines.
Proof.
  induction fuel as [|fuel IH]; intros bits Hs Hd Hb Hm Hl Hl32 Hb32 Hf; [lia|]. cbn [count_up].
  destruct (Z.lt_ge_cases bits lines) as [Hlt|Hge].
  - rewrite Hd by lia. destruct (32 <=? bits + 1) eqn:E; bool_to_prop; [rewrite Hb32; lia|]. apply IH; try done; lia.
  - rewrite Hs by done. lia.
Qed.

(** ** Machines that decode a number of address lines *)

Section Lines.
Context (lines basic : Z) (p : Z -> Z).
Hypothesis Hdecode : forall a, tg_decode a = a mod 2 ^ lines.
Hypothesis Hlines : 20 <= lines <= basic.
Hypothesis Hbasic : 22 <= basic <= 32.

Lemma peek_lines a b n : (forall i, (a + i) mod 2 ^ lines = (b + i) mod 2 ^ lines) -> peek tg_decode p a n = peek tg_decode p b n.
Proof. intros E. unfold peek. apply list_fmap_ext. intros i x _. by rewrite !Hdecode, E. Qed.

Lemma add_multiple a q i : (q * 2 ^ lines + a + i) mod 2 ^ lines = (a + i) mod 2 ^ lines.
Proof. replace (q * 2 ^ lines + a + i) with (a + i + q * 2 ^ lines) by lia. apply Z.mod_add, Z.pow_nonzero; lia. Qed.

Lemma pow_multiple j : lines <= j -> 2 ^ j = 2 ^ (j - lines) * 2 ^ lines.
Proof. intros Hj. rewrite <- Z.pow_add_r by lia. f_equal. lia. Qed.

(** A block and its candidate at line [j]. *)
Lemma peek_u64_lines a : peek tg_decode p (u64 a) sector = peek tg_decode p a sector.
Proof. apply peek_lines. intros i. apply mod_u64. lia. Qed.

Lemma lower_same off j : lines <= j -> looks p (u64 (lower_alias j + off)) (peek tg_decode p off sector) = true.
Proof.
  intros Hj. unfold lower_alias. apply bool_decide_eq_true_2. rewrite peek_u64_lines. apply peek_lines. intros i.
  rewrite Z.shiftl_1_l, (pow_multiple j) by done. apply add_multiple.
Qed.

(** The block at [off] differs from those at the lines that are decoded. *)
Definition told_apart (off : Z) : Prop :=
  forall j, 21 <= j < lines -> peek tg_decode p (2 ^ j + off) sector <> peek tg_decode p off sector.

Lemma lower_differs off j : told_apart off -> 21 <= j < lines -> looks p (u64 (lower_alias j + off)) (peek tg_decode p off sector) = false.
Proof.
  intros Ht Hj. unfold lower_alias. apply bool_decide_eq_false_2. rewrite peek_u64_lines, Z.shiftl_1_l. by apply Ht.
Qed.

(** The counts the scans should give. *)
Definition counted_down : Z := if lines <? 22 then basic else lines.
Definition counted_up : Z := Z.max 21 lines.

Definition with_cpu (t : tester) (c : x86_test_results) (t' : tester) : Prop := at_rest p t' /\ t_cpu t' = c.

Lemma region_down_spec g off t :
  at_rest p t -> told_apart off ->
  wp (region_down basic g off) (λ ok t', ok = true /\ with_cpu t (set_max_bits (t_cpu t) g counted_down) t') t.
Proof.
  intros Ht Hoff. unfold region_down. apply (need_read_spec p); [done|lia|]. intros t1 Ht1 Hv1.
  apply (scan_down_spec p); [done|lia|lia|]. intros t2 Ht2 Hv2. apply (scan_down_spec p); [done|lia|lia|]. intros t3 Ht3 Hv3.
  rewrite (count_down_lines _ _ _ lines); [|intros; by apply lower_same|intros; apply lower_differs; [done|lia]|lia..].
  unfold upd_cpu. wp_step. wp_step. wp_step. split; [done|]. assert (t_cpu t3 = t_cpu t) as E by (rewrite Hv3, Hv2, Hv1; done).
  split; [destruct Ht3; by split|]. cbn [t_cpu set_t_cpu]. by rewrite E.
Qed.

Lemma region_up_spec g off t :
  at_rest p t -> told_apart off ->
  wp (region_up basic g off) (λ ok t', ok = true /\ with_cpu t (set_max_bits_uw (t_cpu t) g counted_up) t') t.
Proof.
  intros Ht Hoff. unfold region_up. apply (need_read_spec p); [done|lia|]. intros t1 Ht1 Hv1.
  apply (scan_up_spec p); [done|lia|lia|]. intros t2 Ht2 Hv2. apply (scan_up_spec p); [done|lia|lia|]. intros t3 Ht3 Hv3.
  rewrite (count_up_lines _ _ _ lines); [|intros; by apply lower_same|intros; by apply lower_differs|lia..].
  unfold upd_cpu. wp_step. wp_step. wp_step. split; [done|]. assert (t_cpu t3 = t_cpu t) as E by (rewrite Hv3, Hv2, Hv1; done).
  split; [destruct Ht3; by split|]. cbn [t_cpu set_t_cpu]. by rewrite E.
Qed.

Lemma both_ways_spec g off t :
  at_rest p t -> told_apart off ->
  wp (both_ways basic g off)
    (λ ok t', ok = true /\ with_cpu t (set_max_bits_uw (set_max_bits (t_cpu t) g counted_down) g counted_up) t') t.
Proof.
  intros Ht Hoff. unfold both_ways. wp_step. eapply wp_mono; [by apply region_down_spec|]. intros ok t1 (-> & Ht1 & E1).
  eapply wp_mono; [by apply region_up_spec|]. intros ok t2 (-> & Ht2 & E2). split; [done|]. split; [done|]. by rewrite E2, E1.
Qed.

(** The topmost BIOS. *)
Lemma top_same j : lines <= j -> looks p (2 ^ j - 512) (peek tg_decode p (2 ^ basic - 512) sector) = true.
Proof.
  intros Hj. apply bool_decide_eq_true_2. apply peek_lines. intros i.
  replace (2 ^ j - 512) with (2 ^ (j - lines) * 2 ^ lines + (- 512)) by (rewrite (pow_multiple j Hj); lia).
  replace (2 ^ basic - 512) with (2 ^ (basic - lines) * 2 ^ lines + (- 512)) by (rewrite (pow_multiple basic) by lia; lia).
  by rewrite !add_multiple.
Qed.

Definition top_told_apart : Prop :=
  21 < lines -> peek tg_decode p (2 ^ (lines - 1) - 512) sector <> peek tg_decode p (2 ^ basic - 512) sector.

Lemma top_bios_spec t :
  at_rest p t -> top_told_apart ->
  wp (top_bios basic) (λ ok t', ok = true /\ exists n,
    with_cpu t (set_max_bits_uw (set_max_bits (t_cpu t) upper_bios counted_down) upper_bios n) t') t.
Proof.
  intros Ht Htop. unfold top_bios. rewrite !Z.shiftl_1_l. replace (2 ^ basic - 1 + 1 - 512) with (2 ^ basic - 512) by lia.
  apply (need_read_spec p); [done|lia|]. intros t1 Ht1 Hv1.
  assert (Z.shiftr (2 ^ basic - 1) 1 = 2 ^ (basic - 1) - 1) as ->.
  { rewrite Z.shiftr_div_pow2 by lia. replace (2 ^ basic) with (2 * 2 ^ (basic - 1)) by (rewrite <- Z.pow_succ_r by lia; f_equal; lia).
    change (2 ^ 1) with 2. Z.div_mod_to_equations. lia. }
  apply (top_down_spec p); [done|lia|lia|lia|]. intros t2 Ht2 Hv2.
  rewrite (count_down_lines _ _ _ lines); [|intros; by apply top_same|intros; by apply bool_decide_eq_false_2, Htop|lia..].
  unfold upd_cpu. wp_step. wp_step. set (t3 := set_t_cpu _ t2). assert (at_rest p t3) as Ht3 by (destruct Ht2; by split).
  apply (need_read_spec p); [done|lia|]. intros t4 Ht4 Hv4. apply (top_up_spec p); [done|lia|lia|]. intros n t5 Ht5 Hv5.
  wp_step. wp_step. wp_step. split; [done|]. exists n. split; [destruct Ht5; by split|]. cbn [t_cpu set_t_cpu].
  assert (t_cpu t5 = t_cpu t3) as -> by (rewrite Hv5, Hv4; done). subst t3. cbn [t_cpu set_t_cpu].
  by assert (t_cpu t2 = t_cpu t) as -> by (rewrite Hv2, Hv1; done).
Qed.

(** What the scans need of the contents of memory. *)
Record contents_differ : Prop := {
  cd_top : top_told_apart;
  cd_regions : Forall told_apart [0x100000 - 512; 0xB8000; 0; 0x100000]
}.

Lemma aliasing_spec t :
  at_rest p t -> contents_differ -> 2 <= std0to4_eflags_revision (t_cpu t) -> max_basic_memory_address_bits (t_cpu t) = basic ->
  wp run_memory_aliasing_tests (λ r t', r = 0 /\ at_rest p t' /\
    (forall g, max_bits (t_cpu t') g = counted_down) /\
    (forall g, g <> upper_bios -> max_bits_uw (t_cpu t') g = counted_up)) t.
Proof.
  intros Ht [Htop Hreg] Hrev Hb. rewrite !Forall_cons in Hreg. destruct Hreg as (H1 & H2 & H3 & H4 & _).
  unfold run_memory_aliasing_tests, part. do 2 wp_step. cbv zeta. rewrite Hb, (proj2 (Z.ltb_ge _ 2)), (proj2 (Z.ltb_ge _ 20)) by lia.
  wp_step. eapply wp_mono; [by apply top_bios_spec|]. intros ok t1 (-> & n & Ht1 & E1).
  wp_step. eapply wp_mono; [by apply both_ways_spec|]. intros ok t2 (-> & Ht2 & E2).
  wp_step. eapply wp_mono; [by apply both_ways_spec|]. intros ok t3 (-> & Ht3 & E3).
  wp_step. eapply wp_mono; [by apply both_ways_spec|]. intros ok t4 (-> & Ht4 & E4). do 3 wp_step.
  assert (max_bits (t_cpu t4) legacy_dosmem = counted_down) as Ed by (rewrite E4; done).
  assert (20 < counted_down) as Hcd by (unfold counted_down; case_bool; bool_to_prop; lia).
  rewrite Ed, (proj2 (Z.ltb_lt 20 _)) by done.
  eapply wp_mono; [by apply region_down_spec|]. intros ok t5 (-> & Ht5 & E5).
  wp_step. eapply wp_mono; [by apply region_up_spec|]. intros ok t6 (-> & Ht6 & E6). wp_step.
  rewrite E6, E5, E4, E3, E2, E1. split_and!; [done|done| |]; intros []; done.
Qed.

End Lines.

(** ** The A20 gate *)

(** The gate is closed: address line 20 is masked, so that the first megabyte
    shows again behind the first. *)
Definition gate_closed : Prop := forall i, 0 <= i < 32 -> tg_decode (0x100000 + i) = tg_decode i.

(** The gate is open: what is stored at 0x300 does not change 0x100300. *)
Record gate_open (p : Z -> Z) : Prop := {
  go_apart i j : 0 <= i < 32 -> 0 <= j < 32 -> tg_decode (0x100300 + i) <> tg_decode (0x300 + j);
  go_block : separate tg_decode 0x300 32;
  go_zero : peek tg_decode p 0 32 <> peek tg_decode p 0x100000 32;
  go_marked : peek tg_decode p 0x100300 32 <> replicate 32 120
}.

(** The four blocks the test reads first. *)
Lemma a20_start p t Q :
  at_rest p t ->
  (forall t', at_rest p t' -> same_vars t t' ->
    wp (if bool_decide (peek tg_decode p 0 32 = peek tg_decode p 0x100000 32) then mret false else
        if bool_decide (peek tg_decode p 0x300 32 = peek tg_decode p 0x100300 32) then
          need (serial (remote_rs232_write 0x300 (replicate 32 120)))
         (need_read 0x100300 32 (λ buf1,
          need (serial (remote_rs232_write 0x300 (peek tg_decode p 0x300 32)))
         (if bool_decide (replicate 32 120 = buf1) then mret false else mret true)))
        else mret true) Q t') ->
  wp a20_enabled_mem_test Q t.
Proof.
  intros Ht HQ. unfold a20_enabled_mem_test. change (Z.lor 0x300 (Z.shiftl 1 20)) with 0x100300.
  apply (need_read_spec p); [done|lia|]. intros t1 Ht1 Hv1. apply (need_read_spec p); [done|lia|]. intros t2 Ht2 Hv2.
  apply (need_read_spec p); [done|lia|]. intros t3 Ht3 Hv3. apply (need_read_spec p); [done|lia|]. intros t4 Ht4 Hv4.
  change (Z.to_nat 64) with (32 + 32)%nat. rewrite peek_part. apply HQ; [done|].
  etransitivity; [exact Hv1|]. etransitivity; [exact Hv2|]. by etransitivity.
Qed.

Lemma a20_closed_spec p t : at_rest p t -> gate_closed -> wp a20_enabled_mem_test (λ on t', on = false /\ at_rest p t') t.
Proof.
  intros Ht Hg. apply (a20_start p); [done|]. intros t1 Ht1 _. rewrite bool_decide_eq_true_2; [by wp_step|].
  unfold peek. apply list_fmap_ext. intros i x Hx. apply lookup_seq in Hx as [-> Hi]. by rewrite Hg by lia.
Qed.

Lemma a20_open_spec p t :
  at_rest p t -> gate_open p -> wp a20_enabled_mem_test (λ on t', on = true /\ at_rest p t' /\ same_vars t t') t.
Proof.
  intros Ht [Ha Hb Hz Hm]. apply (a20_start p); [done|]. intros t1 Ht1 Hv1. rewrite bool_decide_eq_false_2 by done.
  destruct (bool_decide (peek tg_decode p 0x300 32 = _)); [|by wp_step].
  unfold need. wp_step. apply (write_spec p); [done|rewrite length_replicate; lia|]. intros t2 Ht2 Hv2. cbn [Z.eqb].
  eapply need_read_spec; [exact Ht2|lia|]. intros t3 Ht3 Hv3. wp_step. eapply write_spec; [exact Ht3|rewrite length_peek; lia|].
  intros t4 Ht4 Hv4. cbn [Z.eqb]. rewrite bool_decide_eq_false_2.
  - wp_step. split_and!; [done| |etransitivity; [exact Hv1|]; etransitivity; [exact Hv2|]; by etransitivity].
    eapply at_rest_ext; [exact Ht4|]. intros a. exact (poke_restores tg_decode 0x300 (replicate 32 120) p a Hb).
  - intros E. apply Hm. rewrite E. unfold peek. apply list_fmap_ext. intros i x Hx. apply lookup_seq in Hx as [-> Hi].
    symmetry. apply poke_outside. rewrite length_replicate. intros j Hj. apply Ha; lia.
Qed.

Lemma enable_a20_open p t :
  at_rest p t -> gate_open p -> wp enable_a20 (λ ok t', ok = true /\ at_rest p t' /\ same_vars t t') t.
Proof.
  intros Ht Hg. unfold enable_a20. wp_step. eapply wp_mono; [by apply (a20_open_spec p)|]. intros on t1 (-> & Ht1 & Hv1). wp_step. wp_step.
  cbn [negb]. wp_step. cbn [a20_retry]. wp_step. eapply wp_mono; [by apply (a20_open_spec p)|]. intros on t2 (-> & Ht2 & Hv2). wp_step.
  cbn [negb]. eapply wp_mono; [by apply (a20_open_spec p)|]. intros on t3 (-> & Ht3 & Hv3). split_and!; [done|done|].
  etransitivity; [exact Hv1|]. by etransitivity.
Qed.

End Spec.

#[export] Existing Instance same_vars_preorder.

(** ** Decoding CPUID *)

(** The widths of [struct cpuid]. *)
Record cpuid_ok (c : cpuid_info) : Prop := {
  ck_vendor : length (vendor c) = 13%nat;
  ck_ext_vendor : length (ext_vendor c) = 13%nat;
  ck_name : length (processor_name c) = 49%nat;
  ck_bytes : Forall (λ x, 0 <= x < 256) [stepping c; model c; ext_model c; family c; ext_family c; cpu_type c; brand_id c;
    logical_processors c; local_apic_id c; guest_physical_addr_bits c; virtual_addr_bits c; physical_addr_bits c; apic_id_lsbs_core_id c];
  ck_sizes : 0 <= clflush_size c <= 2040 /\ 0 <= cores c <= 256
}.

Lemma field_div w s n : 0 <= s -> 0 <= n -> field w s (2 ^ n - 1) = (w / 2 ^ s) mod 2 ^ n.
Proof. intros Hs Hn. unfold field. by rewrite Z.shiftr_div_pow2, land_low. Qed.

Lemma field_range w s n : 0 <= n -> 0 <= field w s (2 ^ n - 1) < 2 ^ n.
Proof. intros Hn. unfold field. rewrite land_low by done. apply Z.mod_pos_bound. by apply Z.pow_pos_nonneg. Qed.

Lemma length_u32_bytes x : length (u32_bytes x) = 4%nat.
Proof. done. Qed.

Lemma word_u32_bytes x rest : 0 <= x < 4294967296 -> word_of (u32_bytes x ++ rest) = x.
Proof.
  intros Hx. unfold word_of, u32_bytes, u8. cbn [app nth]. rewrite !Z.shiftr_div_pow2 by lia.
  change (2 ^ 8) with 256. change (2 ^ 16) with 65536. change (2 ^ 24) with 16777216. Z.div_mod_to_equations. lia.
Qed.

(** The name: blanks, the name, and then a NUL or nothing. *)
Lemma cpu_name_spec src : exists n rest,
  src = replicate n 32 ++ cpu_name src ++ rest /\ (0 ∉ cpu_name src) /\ head (cpu_name src) <> Some 32 /\
  (rest = [] \/ head rest = Some 0).
Proof.
  assert (forall l, exists rest, l = c_string l ++ rest /\ (0 ∉ c_string l) /\ (rest = [] \/ head rest = Some 0)) as Hc.
  { induction l as [|c l (rest & E & H0 & Hr)]; cbn [c_string]; [exists []; split_and!; [done|apply not_elem_of_nil|by left]|].
    destruct (Z.eqb_spec c 0) as [->|Hc]; [exists (0 :: l); split_and!; [done|apply not_elem_of_nil|by right]|].
    exists rest. split_and!; [cbn; by f_equal|by apply not_elem_of_cons|done]. }
  assert (forall l, exists n, l = replicate n 32 ++ skip_blanks l /\ head (skip_blanks l) <> Some 32) as Hb.
  { induction l as [|c l (n & E & Hh)]; [by exists 0%nat|]. destruct (Z.eq_dec c 32) as [->|Hne].
    - exists (S n). cbn [skip_blanks replicate app]. split; [by f_equal|done].
    - exists 0%nat. assert (skip_blanks (c :: l) = c :: l) as -> by (cbn; repeat case_match; congruence). split; [done|]. cbn. congruence. }
  unfold cpu_name. destruct (Hb src) as (n & E1 & Hh), (Hc (skip_blanks src)) as (rest & E2 & H0 & Hr). exists n, rest.
  split_and!; [by rewrite <- E2|done| |done]. intros E. apply Hh. rewrite E2. by destruct (c_string (skip_blanks src)).
Qed.

Lemma cpu_name_length src : (length (cpu_name src) <= length src)%nat.
Proof. destruct (cpu_name_spec src) as (n & rest & E & _). apply (f_equal length) in E. rewrite !length_app in E. lia. Qed.

Lemma length_words_bytes l : length (concat (u32_bytes <$> l)) = (4 * length l)%nat.
Proof. induction l as [|x l IH]; [done|]. cbn [fmap list_fmap concat]. rewrite length_app, IH, length_u32_bytes. cbn [length]. lia. Qed.

Lemma decode_cpuid_ok vals extended c : cpuid_ok c -> cpuid_ok (decode_cpuid vals extended c).
Proof.
  intros [Hv He Hn Hb Hs]. rewrite !Forall_cons in Hb. destruct Hb as (_ & _ & _ & _ & _ & _ & _ & _ & _ & Hb1 & Hb2 & Hb3 & Hb4 & _).
  set (name := cpu_name (concat (u32_bytes <$> take 12 (drop 8 extended)))).
  assert (length name <= 48)%nat as Hname.
  { subst name. etransitivity; [apply cpu_name_length|]. rewrite length_words_bytes, length_take. lia. }
  split; cbn -[u32_bytes field u8 Z.shiftr nth].
  - by rewrite !length_app.
  - case_match; [|done]. rewrite !length_app, length_drop. cbn -[u32_bytes]. rewrite !length_u32_bytes. lia.
  - case_match; [|done]. fold name. rewrite length_app. cbn [length]. rewrite length_drop. lia.
  - pose proof (λ w s, field_range w s 4 ltac:(lia)) as F4. pose proof (λ w s, field_range w s 8 ltac:(lia)) as F8.
    pose proof (λ w s, field_range w s 2 ltac:(lia)) as F2. change (2 ^ 4 - 1) with 15 in F4. change (2 ^ 4) with 16 in F4.
    change (2 ^ 8 - 1) with 255 in F8. change (2 ^ 8) with 256 in F8. change (2 ^ 2 - 1) with 3 in F2. change (2 ^ 2) with 4 in F2.
    repeat (apply Forall_cons; split); try apply Forall_nil;
      repeat case_match; first [done | apply F8 | apply u8_range | idtac].
    all: match goal with |- _ <= field ?w ?s _ < _ => pose proof (F4 w s); pose proof (F2 w s); lia end.
  - pose proof (λ w s, field_range w s 8 ltac:(lia)) as F8. change (2 ^ 8 - 1) with 255 in F8. change (2 ^ 8) with 256 in F8.
    split; [match goal with |- _ <= field ?w ?s _ * _ <= _ => pose proof (F8 w s); lia end|].
    case_match; [|lia]. match goal with |- _ <= field ?w ?s _ + _ <= _ => pose proof (F8 w s); lia end.
Qed.

(** A word of CPUID's leaf 1, put together from its fields; bits 14, 15 and 28 to
    31 are reserved. *)
Definition signature (c : cpuid_info) (r1 r2 : Z) : Z :=
  stepping c + 16 * model c + 256 * family c + 4096 * cpu_type c + 16384 * r1 + 65536 * ext_model c + 1048576 * ext_family c + 268435456 * r2.

Lemma decode_signature vals extended c w :
  nth 4 vals 0 = w -> 0 <= w < 4294967296 ->
  exists r1 r2, 0 <= r1 < 4 /\ 0 <= r2 < 16 /\ signature (decode_cpuid vals extended c) r1 r2 = w.
Proof.
  intros <- Hw. set (w := nth 4 vals 0) in *. exists (field w 14 (2 ^ 2 - 1)), (field w 28 (2 ^ 4 - 1)).
  split; [by apply (field_range w 14 2)|]. split; [by apply (field_range w 28 4)|].
  unfold signature. cbn [decode_cpuid stepping model family cpu_type ext_model ext_family Nat.mul Nat.add]. fold w.
  change 15 with (2 ^ 4 - 1). change 255 with (2 ^ 8 - 1). change 3 with (2 ^ 2 - 1). rewrite !field_div by lia.
  change (2 ^ 0) with 1. change (2 ^ 4) with 16. change (2 ^ 8) with 256. change (2 ^ 12) with 4096. change (2 ^ 14) with 16384.
  change (2 ^ 16) with 65536. change (2 ^ 20) with 1048576. change (2 ^ 28) with 268435456. change (2 ^ 2) with 4.
  clearbody w. Z.div_mod_to_equations. lia.
Qed.

Lemma decode_vendor vals extended c :
  Forall (λ x, 0 <= x < 4294967296) vals ->
  words (vendor (decode_cpuid vals extended c)) <$> [0; 1; 2]%nat = (λ i, nth i vals 0) <$> [1; 3; 2]%nat.
Proof.
  intros Hv. assert (forall i, 0 <= nth i vals 0 < 4294967296) as Hn.
  { intros i. destruct (nth_in_or_default i vals 0) as [Hin| ->]; [|lia]. rewrite Forall_forall in Hv. apply Hv, list_elem_of_In, Hin. }
  cbn [decode_cpuid vendor fmap list_fmap Nat.mul Nat.add]. unfold words. repeat f_equal.
  - exact (word_u32_bytes (nth 1 vals 0) _ (Hn 1%nat)).
  - change (drop (4 * 1) _) with (u32_bytes (nth 3 vals 0) ++ u32_bytes (nth 2 vals 0) ++ [0]). apply word_u32_bytes, Hn.
  - change (drop (4 * 2) _) with (u32_bytes (nth 2 vals 0) ++ [0]). apply word_u32_bytes, Hn.
Qed.

(** Decoding CPUID keeps every field within its C type, and loses nothing of the
    family word and of the vendor: the word and the three registers of leaf 0 can
    be put together again from the fields.  The name is what follows the blanks
    in front, up to a NUL. *)
Theorem cpuid_decoded vals extended c :
  cpuid_ok c -> Forall (λ x, 0 <= x < 4294967296) vals ->
  let c' := decode_cpuid vals extended c in
  cpuid_ok c' /\
  (exists r1 r2, 0 <= r1 < 4 /\ 0 <= r2 < 16 /\ signature c' r1 r2 = nth 4 vals 0) /\
  words (vendor c') <$> [0; 1; 2]%nat = (λ i, nth i vals 0) <$> [1; 3; 2]%nat /\
  (0x80000000 <= nth 0 extended 0 -> exists blanks rest,
     concat (u32_bytes <$> take 12 (drop 8 extended)) = replicate blanks 32 ++ c_string (processor_name c') ++ rest /\
     head (c_string (processor_name c')) <> Some 32 /\ (rest = [] \/ head rest = Some 0)).
Proof.
  intros Hc Hv c'. split_and!; [by apply decode_cpuid_ok| |by apply decode_vendor|].
  - apply decode_signature; [done|]. destruct (nth_in_or_default 4 vals 0) as [Hin| ->]; [|lia].
    rewrite Forall_forall in Hv. apply Hv, list_elem_of_In, Hin.
  - intros He. destruct (cpu_name_spec (concat (u32_bytes <$> take 12 (drop 8 extended)))) as (n & rest & E & H0 & Hh & Hr).
    exists n, rest. set (name := cpu_name _) in *.
    assert (c_string (processor_name c') = name) as ->; [|done].
    subst c'. cbn [decode_cpuid processor_name Nat.mul Nat.add]. rewrite (proj2 (Z.leb_le _ _)) by done. fold name.
    generalize (drop (length name + 1) (processor_name c)). clear -H0. intros l. induction name as [|x name IH]; [done|].
    apply not_elem_of_cons in H0 as [Hx H0]. cbn [app c_string]. rewrite (proj2 (Z.eqb_neq x 0)) by done. f_equal. by apply IH.
Qed.

Lemma cpuid_decoded_witness :
  let vals := [1; 0x756E6547; 0x6C65746E; 0x49656E69; 0x543; 0; 0; 0x1BF] in
  let c' := decode_cpuid vals [] zero_cpuid in
  vendor c' = str "GenuineIntel" ++ [0] /\ (family c', model c', stepping c') = (5, 4, 3) /\ cpuid_ok c'.
Proof.
  intros vals c'. split_and!; [by vm_compute|by vm_compute|].
  apply (cpuid_decoded vals [] zero_cpuid).
  - split; [done|done|done| |cbn; lia]. repeat (apply Forall_cons; split); try apply Forall_nil; cbn; lia.
  - repeat (apply Forall_cons; split); try apply Forall_nil; lia.
Defined.

(** ** The claims on the dialogue with the machine *)

(** The last block of a file. *)
Definition last_block (content : list Z) : list Z := drop (4096 * ((length content - 1) / 4096)) content.

Section Claims.
Context `{SE : SerialEnv} `{TE : TestEnv} (stream : list Z -> list Z) (k : nat) `{TG : !SerialTarget stream k}.

Lemma last_block_short content : (length content <= 4096)%nat -> last_block content = content.
Proof.
  intros Hl. unfold last_block. rewrite Nat.div_small, Nat.mul_0_r; [done|]. lia.
Qed.

Lemma blocks_end addr : forall fuel content p,
  content <> [] -> (length content <= fuel)%nat ->
  exists q, fold_left (λ p b, poke tg_decode addr b p) (blocks fuel content) p = poke tg_decode addr (last_block content) q.
Proof.
  induction fuel as [|fuel IH]; intros content p Hne Hf; destruct content as [|c l] eqn:E; try done; [cbn in Hf; lia|].
  cbn [blocks fold_left]. rewrite <- E in *. clear E. destruct (Nat.le_gt_cases (length content) 4096) as [Hl|Hl].
  - exists p. rewrite last_block_short by done. rewrite drop_ge, take_ge by done. by destruct fuel.
  - destruct (IH (drop 4096 content) (poke tg_decode addr (take 4096 content) p)) as [q Eq].
    { intros E0. apply (f_equal length) in E0. rewrite length_drop in E0. change (length (A := Z) []) with 0%nat in E0. lia. }
    { rewrite length_drop. lia. }
    exists q. rewrite Eq. f_equal. unfold last_block. rewrite drop_drop, length_drop. f_equal.
    replace (length content - 1)%nat with (length content - 4096 - 1 + 1 * 4096)%nat by lia. rewrite Nat.div_add by lia. lia.
Qed.

(** upload_code returns the length of the file, and what it leaves at [addr] is
    the file's last block of 4096 bytes, in front of what was there before: a
    file of at most one block arrives, of a longer one every block was stored at
    the same address. *)
Theorem upload_code_stores file content addr p t :
  te_file file = Some content -> (forall off n, Z.of_nat n <= te_read file off n) -> at_rest stream k p t ->
  content <> [] -> separate tg_decode addr (length (last_block content)) ->
  wp (upload_code file addr) (λ r t', r = Z.of_nat (length content) /\ exists q, at_rest stream k q t' /\
    peek tg_decode q addr (length (last_block content)) = last_block content /\
    ((length content <= 4096)%nat -> last_block content = content) /\
    (forall a, (forall i, 0 <= i < 4096 -> a <> tg_decode (addr + i)) -> q a = p a)) t.
Proof.
  intros Hfile Hrd Ht Hne Hs. apply (upload_spec stream k file content addr p); [done|done|done|]. intros t' Ht' _.
  split; [done|]. exists (uploaded stream k addr content p). split_and!; [done| | |].
  - unfold uploaded. destruct (blocks_end addr (length content) content p) as [q ->]; [done|done|]. by apply peek_poke.
  - apply last_block_short.
  - intros a Ha. by apply uploaded_far.
Qed.



End Claims.

(** ** Witnesses: the reference machine *)

Section Witness.

(** A file of 5000 bytes, all of it readable; the two parts differ. *)
Definition sample : list Z := replicate (Z.to_nat 4096) 1 ++ replicate (Z.to_nat 904) 2.
#[local] Instance sample_files : TestEnv := {|
  te_file := λ _, Some sample; te_read := λ _ _ n, Z.of_nat n; te_scrap := λ _ _, []; te_select := λ _, 0; te_stdin := λ _, None
|}.

(** Every byte of memory holds the number of its megabyte. *)
Definition megabyte (a : Z) : Z := a / 1048576.
(** Code does nothing. *)
Definition no_code (addr : Z) (p : Z -> Z) : Z -> Z := p.

Lemma machine_at_rest lines gate (Hl : 0 <= lines <= 64) t :
  t_hist t = [] -> at_rest (SE := Reference.env lines gate megabyte no_code) (TG := Reference.target lines gate megabyte no_code Hl)
    (Reference.stream lines gate megabyte no_code) 0 megabyte t.
Proof. intros E. split; rewrite E; [apply Reference.synced_start|done]. Qed.

Lemma machine_separate lines (Hl : 20 <= lines <= 64) addr n :
  Z.of_nat n <= 2 ^ lines -> separate (Reference.decode lines true) addr n.
Proof.
  intros Hn i j Hi Hj E. unfold Reference.decode in E. cbv zeta in E. assert (0 < 2 ^ lines) by (apply Z.pow_pos_nonneg; lia).
  set (m := 2 ^ lines) in *. pose proof (Z.div_mod (addr + i) m ltac:(lia)). pose proof (Z.div_mod (addr + j) m ltac:(lia)).
  destruct (Z.lt_trichotomy ((addr + i) / m) ((addr + j) / m)) as [|[|]]; nia.
Qed.

Lemma upload_code_stores_witness :
  wp (upload_code (SE := Reference.env 24 true megabyte no_code) (str "cpu/long.bin") 0x40000) (λ r _, r = 5000) start_tester.
Proof.
  eapply wp_mono.
  - apply (upload_code_stores (SE := Reference.env 24 true megabyte no_code) (TG := Reference.target 24 true megabyte no_code ltac:(lia))
      (Reference.stream 24 true megabyte no_code) 0 (str "cpu/long.bin") sample 0x40000 megabyte).
    + reflexivity.
    + intros off n. apply Z.le_refl.
    + apply machine_at_rest. reflexivity.
    + discriminate.
    + apply machine_separate; [lia|]. vm_compute. discriminate.
  - intros r t' [-> _]. vm_compute. reflexivity.
Defined.

(** With 24 lines: the gate is open, or line 20 is masked. *)
Abbreviation pc_env gate := (Reference.env 24 gate megabyte no_code).
Lemma lines_24 : 0 <= 24 <= 64.
Proof. lia. Qed.
Abbreviation pc_target gate := (Reference.target 24 gate megabyte no_code lines_24).
Abbreviation pc_stream gate := (Reference.stream 24 gate megabyte no_code).

Lemma machine_open : gate_open (SE := pc_env true) (TG := pc_target true) (pc_stream true) 0 megabyte.
Proof.
  split; [|apply machine_separate; [lia|vm_compute; discriminate]|vm_compute; discriminate|vm_compute; discriminate].
  intros i j Hi Hj. cbn [tg_decode Reference.target]. unfold Reference.decode. cbv zeta. change (2 ^ 24) with 16777216.
  rewrite !Z.mod_small by lia. lia.
Qed.

Lemma machine_closed : gate_closed (SE := pc_env false) (TG := pc_target false) (pc_stream false) 0.
Proof.
  intros i Hi. cbn [tg_decode Reference.target]. unfold Reference.decode. cbv zeta. change (2 ^ 24) with 16777216.
  rewrite !Z.mod_small by lia. assert (Z.land 0x100000 i = 0) as Hand.
  { apply Z.bits_inj'. intros b Hb. rewrite Z.land_spec, Z.bits_0, (Z.pow2_bits_eqb 20) by lia.
    destruct (Z.eqb_spec 20 b) as [<-|]; [|done]. destruct (Z.eq_dec i 0) as [->|]; [done|].
    rewrite Z.bits_above_log2; [done|lia|]. apply Z.log2_lt_pow2; lia. }
  rewrite Z.add_nocarry_lxor by done. apply Z.bits_inj'. intros b Hb. rewrite !Z.clearbit_eqb, Z.lxor_spec, (Z.pow2_bits_eqb 20) by lia.
  destruct (Z.eqb_spec 20 b) as [<-|]; [by rewrite !andb_false_r|]. by rewrite xorb_false_l.
Qed.



End Witness.
