(* ===== verification/RunTests.v ===== *)
(** * The whole of run_tests

    The CPU test driver against a machine that runs the uploaded programs.  Each
    program is a contract ([program]): what calling it leaves in the words in
    front of its code, and that it changes nothing else but itself and the
    memory of the BIOS and the debugger.  Then the results that [run_tests] records are those of the
    programs. *)

From S2P Require Import Prelude Machine Memory Text ELib SLib SLibSpec SerialTarget CpuTests CpuTestsSpec.

Definition inside (addr : Z) (n : nat) (a : Z) : Prop := addr <= a < addr + Z.of_nat n.

(** What belongs to the BIOS, the debugger and the display: the first megabyte
    without the interrupt vectors and the area for the programs. *)
Definition system_memory (a : Z) : Prop := 0x400 <= a < 0x20000 \/ 0x50000 <= a < 0x100000.

(** Where the driver puts programs, and what they may change besides. *)
Definition test_area (a : Z) : Prop := 0x20000 <= a < 0x50000 \/ system_memory a.
Definition kept_by_tests (p q : Z -> Z) : Prop := forall a, ~ test_area a -> q a = p a.

#[export] Instance kept_by_tests_preorder : PreOrder kept_by_tests.
Proof. split; [done|]. intros p q r Hq Hr a Ha. by rewrite Hr, Hq. Qed.

Section Run.
Context `{SE : SerialEnv} `{TE : TestEnv} (stream : list Z -> list Z) (k : nat).
Context `{TG : !SerialTarget stream k} `{XT : !ExecTarget stream k}.

(** The first two megabytes are memory, and files can be read. *)
Context (Hdecode : forall a, 0 <= a < 0x200000 -> tg_decode a = a).
Context (Hreads : forall file off n, Z.of_nat n <= te_read file off n).

Abbreviation resting := (at_rest stream k).

(** ** Programs *)

(** [file] is loaded at [addr]; calling [addr + entry] leaves [f x] in the first
    [size] bytes, where [x] are the four bytes at [addr] before the call. *)
Record program (file : string) (addr entry : Z) (size : nat) (f : list Z -> list Z) : Type := {
  pg_code : list Z;
  pg_file : te_file (str file) = Some pg_code;
  pg_length : (0 < length pg_code <= 4096)%nat;
  pg_loaded : (Z -> Z) -> Prop;
  pg_upload p : peek tg_decode p addr (length pg_code) = pg_code -> pg_loaded p;
  pg_stable p q : pg_loaded p -> (forall a, inside addr (length pg_code) a -> q a = p a) -> pg_loaded q;
  pg_runs p : pg_loaded p -> let q := tg_exec (addr + entry) p in
    pg_loaded q /\ peek tg_decode q addr size = f (peek tg_decode p addr 4) /\
    forall a, ~ inside addr (length pg_code) a -> ~ system_memory a -> q a = p a
}.
Arguments pg_code {_ _ _ _ _}.
Arguments pg_loaded {_ _ _ _ _}.

(** The four bytes in front are the program's input. *)
Definition takes_input {file addr entry size f} (P : program file addr entry size f) : Prop :=
  (4 <= length (pg_code P))%nat /\ forall p x, length x = 4%nat -> pg_loaded P p -> pg_loaded P (poke tg_decode addr x p).

Lemma direct_separate addr n : 0 <= addr -> addr + Z.of_nat n <= 0x200000 -> separate tg_decode addr n.
Proof. intros Ha Hn i j Hi Hj E. rewrite !Hdecode in E by lia. lia. Qed.

(** Storing changes the block only. *)
Lemma poke_direct addr buf p a :
  0 <= addr -> addr + Z.of_nat (length buf) <= 0x200000 -> ~ inside addr (length buf) a -> poke tg_decode addr buf p a = p a.
Proof. intros Ha Hn Hout. apply poke_outside. intros i Hi E. rewrite Hdecode in E by lia. apply Hout. unfold inside. lia. Qed.

Lemma exec_rest addr p t h :
  resting p t -> synced stream k h -> (forall a, cells stream k h a = tg_exec addr (cells stream k (t_hist t)) a) ->
  resting (tg_exec addr p) (set_t_hist h t).
Proof. intros [_ Hc] Hs Hx. split; [exact Hs|]. intros a. cbn [t_hist set_t_hist]. rewrite Hx. by apply tg_exec_ext. Qed.

Section OneProgram.
Context {file : string} {addr entry : Z} {size : nat} {f : list Z -> list Z} (P : program file addr entry size f).
Context (Haddr : 0 <= addr <= 0x1F0000) (Hentry : 0 <= entry < 4096).

Abbreviation own := (inside addr (length (pg_code P))).

Lemma upload_program p t (c : Z -> T bool) Q :
  resting p t ->
  (forall q t', resting q t' -> same_vars t t' -> pg_loaded P q -> (forall a, ~ own a -> q a = p a) ->
     wp (c (Z.of_nat (length (pg_code P)))) Q t') ->
  wp (need_upload file addr c) Q t.
Proof.
  intros Ht HQ. pose proof (pg_length _ _ _ _ _ P) as Hl. unfold need_upload. wp_step.
  apply (upload_spec stream k (str file) (pg_code P) addr p); [apply pg_file|intros; apply Hreads|done|]. intros t' Ht' Hv.
  rewrite (proj2 (Z.eqb_neq _ _)) by lia.
  rewrite uploaded_one in Ht' by (lia || (intros E; rewrite E in Hl; change (length (A := Z) []) with 0%nat in Hl; lia)).
  apply (HQ _ _ Ht' Hv).
  - apply pg_upload, peek_poke, direct_separate; lia.
  - intros a Ha. apply poke_direct; [lia|lia|done].
Qed.

Lemma exec_program p (c : S232 Z) t (Q : Z -> tester -> Prop) :
  (forall h, synced stream k h ->
     wp c (λ r h', r = 1 /\ synced stream k h' /\ forall a, cells stream k h' a = tg_exec (addr + entry) (cells stream k h) a) h) ->
  resting p t -> pg_loaded P p ->
  (forall q t', resting q t' -> same_vars t t' -> pg_loaded P q -> peek tg_decode q addr size = f (peek tg_decode p addr 4) ->
     (forall a, ~ own a -> ~ system_memory a -> q a = p a) -> Q 1 t') ->
  wp (serial c) Q t.
Proof.
  intros Hc Ht Hp HQ. apply wp_serial. eapply wp_mono; [apply Hc, Ht|]. intros r h (-> & Hs & Hx).
  destruct (pg_runs _ _ _ _ _ P p Hp) as (Hl & Ho & Hf). eapply HQ; [by apply exec_rest|done|done|done|done].
Qed.

Lemma exec_off_program p t (Q : Z -> tester -> Prop) :
  resting p t -> pg_loaded P p ->
  (forall q t', resting q t' -> same_vars t t' -> pg_loaded P q -> peek tg_decode q addr size = f (peek tg_decode p addr 4) ->
     (forall a, ~ own a -> ~ system_memory a -> q a = p a) -> Q 1 t') ->
  wp (serial (remote_rs232_exec_off (addr + entry) 10)) Q t.
Proof. apply exec_program. intros h Hs. apply target_exec_off; [done|lia]. Qed.

Lemma exec_seg_program p t (Q : Z -> tester -> Prop) :
  addr mod 16 = 0 -> resting p t -> pg_loaded P p -> addr < 0x100000 ->
  (forall q t', resting q t' -> same_vars t t' -> pg_loaded P q -> peek tg_decode q addr size = f (peek tg_decode p addr 4) ->
     (forall a, ~ own a -> ~ system_memory a -> q a = p a) -> Q 1 t') ->
  wp (serial (remote_rs232_exec_seg_off (Z.shiftr addr 4) entry 10)) Q t.
Proof.
  intros Hm Ht Hp Hlt HQ. apply (exec_program p); [|done|done|done]. intros h Hs. rewrite Z.shiftr_div_pow2 by lia. change (2 ^ 4) with 16.
  assert (addr + entry = 16 * (addr / 16) + entry) as -> by (Z.div_mod_to_equations; lia).
  apply target_exec_seg; [done|Z.div_mod_to_equations; lia|lia].
Qed.

End OneProgram.

(** ** The parts of run_tests *)

Lemma need_spec (c : T Z) (b : T bool) Q t : wp c (λ r t', r <> 0 /\ wp b Q t') t -> wp (need c b) Q t.
Proof. intros Hc. unfold need. wp_step. eapply wp_mono; [exact Hc|]. intros r t' [Hr Hb]. by rewrite (proj2 (Z.eqb_neq _ _)). Qed.

Lemma mode_spec cmd p t (Q : Z -> tester -> Prop) :
  cmd ∈ mode_lines -> resting p t -> (forall t', resting p t' -> same_vars t t' -> Q 1 t') ->
  wp (serial (rs232_command cmd 1000000 (λ _, mret 1))) Q t.
Proof.
  intros Hc [Hs Hx] HQ. apply wp_serial. eapply wp_mono; [by apply (target_mode stream k)|]. intros r h (-> & Hs' & Hp).
  apply HQ; [split; [done|]|done]. intros a. cbn [t_hist set_t_hist]. by rewrite Hp.
Qed.

Lemma test_spec p t (Q : Z -> tester -> Prop) :
  resting p t -> (forall t', resting p t' -> same_vars t t' -> Q 1 t') -> wp (serial remote_rs232_test) Q t.
Proof.
  intros [Hs Hx] HQ. apply wp_serial. eapply wp_mono; [by apply (target_test stream k)|]. intros r h (-> & Hs' & Hp).
  apply HQ; [split; [done|]|done]. intros a. cbn [t_hist set_t_hist]. by rewrite Hp.
Qed.

(** What a program at [addr] may change is part of the test area. *)
Lemma own_kept addr n p q :
  0x20000 <= addr -> addr + Z.of_nat n <= 0x50000 -> (forall a, ~ inside addr n a -> ~ system_memory a -> q a = p a) -> kept_by_tests p q.
Proof. intros Ha Hn Hf a Hout. unfold test_area, inside, system_memory in *. apply Hf; lia. Qed.

Lemma result86_spec file addr out (P : program file addr 4 4 (λ _, out)) p t (c : list Z -> T bool) Q :
  0x20000 <= addr <= 0x4F000 -> addr mod 16 = 0 -> seg_alloc t = addr -> resting p t ->
  (forall q t', resting q t' -> same_vars t t' -> kept_by_tests p q -> wp (c out) Q t') ->
  wp (result86 file c) Q t.
Proof.
  intros Ha Hm Es Ht HQ. pose proof (pg_length _ _ _ _ _ P) as Hl. unfold result86. wp_step. wp_step. rewrite Es.
  apply (upload_program P ltac:(lia) p); [done|]. intros q1 t1 Ht1 Hv1 Hp1 Hf1. apply need_spec.
  apply (exec_seg_program P ltac:(lia) ltac:(lia) q1); [done|done|done|lia|]. intros q2 t2 Ht2 Hv2 Hp2 Ho Hf2. split; [done|].
  apply (need_read_spec stream k q2); [done|lia|]. intros t3 Ht3 Hv3. change (Z.to_nat 4) with 4%nat. rewrite Ho.
  apply (HQ q2); [done|etransitivity; [exact Hv1|]; etransitivity; [exact Hv2|exact Hv3]|]. apply (own_kept addr (length (pg_code P))); [lia|lia|].
  intros a Hout Hd. by rewrite Hf2, Hf1.
Qed.

Lemma result32_spec file out (P : program file 0x40000 4 4 (λ _, out)) p t (c : Z -> T bool) Q :
  resting p t ->
  (forall q t', resting q t' -> same_vars t t' -> kept_by_tests p q -> wp (c (word_of out)) Q t') ->
  wp (result32 file c) Q t.
Proof.
  intros Ht HQ. pose proof (pg_length _ _ _ _ _ P) as Hl. unfold result32.
  apply (upload_program P ltac:(lia) p); [done|]. intros q1 t1 Ht1 Hv1 Hp1 Hf1. apply need_spec.
  apply (exec_off_program P ltac:(lia) ltac:(lia) q1); [done|done|]. intros q2 t2 Ht2 Hv2 Hp2 Ho Hf2. split; [done|].
  apply (need_read_spec stream k q2); [done|lia|]. intros t3 Ht3 Hv3. change (Z.to_nat 4) with 4%nat. rewrite Ho.
  apply (HQ q2); [done|etransitivity; [exact Hv1|]; etransitivity; [exact Hv2|exact Hv3]|]. apply (own_kept 0x40000 (length (pg_code P))); [lia|lia|].
  intros a Hout Hd. by rewrite Hf2, Hf1.
Qed.

(** *** Programs that are asked again and again *)

Section Leaves.
Context {file : string} {entry : Z} {size : nat} {f : list Z -> list Z} (P : program file 0x40000 entry size f).
Context (Hin : takes_input P) (Hentry : 0 <= entry < 4096) (Hsize : (size <= 4096)%nat).

Lemma probe_leaf_spec x p t (c : list Z -> T bool) Q :
  resting p t -> pg_loaded P p ->
  (forall q t', resting q t' -> same_vars t t' -> pg_loaded P q -> kept_by_tests p q -> wp (c (f (u32_bytes x))) Q t') ->
  wp (probe_leaf x entry (Z.of_nat size) c) Q t.
Proof.
  intros Ht Hp HQ. destruct Hin as [Hl4 Hpoke]. pose proof (pg_length _ _ _ _ _ P) as Hl. unfold probe_leaf. apply need_spec.
  apply (write_spec stream k p); [done|cbn; lia|]. intros t1 Ht1 Hv1. split; [done|]. apply need_spec.
  eapply (exec_off_program P ltac:(lia) ltac:(lia)); [exact Ht1|by apply Hpoke|]. intros q2 t2 Ht2 Hv2 Hp2 Ho Hf2. split; [done|].
  apply (need_read_spec stream k q2); [done|lia|]. intros t3 Ht3 Hv3. rewrite Nat2Z.id, Ho.
  assert (peek tg_decode (poke tg_decode 0x40000 (u32_bytes x) p) 0x40000 4 = u32_bytes x) as ->.
  { apply (peek_poke tg_decode (u32_bytes x)), direct_separate; cbn; lia. }
  apply (HQ q2); [done|etransitivity; [exact Hv1|]; etransitivity; [exact Hv2|exact Hv3]|done|]. apply (own_kept 0x40000 (length (pg_code P))); [lia|lia|].
  intros a Hout Hd. rewrite Hf2 by done. apply poke_direct; [lia|cbn; lia|]. unfold inside in *. cbn [length u32_bytes]. lia.
Qed.

(** The words at [keep] of each answer. *)
Definition leaves (x : Z) (n : nat) (keep : list nat) : list Z :=
  concat ((λ i, words (f (u32_bytes (u32 (x + Z.of_nat i)))) <$> keep) <$> seq 0 n).

Lemma leaves_S x n keep : leaves x (S n) keep = (words (f (u32_bytes (u32 x))) <$> keep) ++ leaves (x + 1) n keep.
Proof.
  unfold leaves. cbn [seq]. rewrite <- fmap_S_seq. cbn [fmap list_fmap concat]. rewrite Z.add_0_r. f_equal. f_equal.
  rewrite <- list_fmap_compose. apply list_fmap_ext. intros i y _. cbn. do 3 f_equal. f_equal. f_equal. lia.
Qed.

Lemma probe_leaves_spec keep (c : list Z -> T bool) Q n : forall x acc p t,
  resting p t -> pg_loaded P p ->
  (forall q t', resting q t' -> same_vars t t' -> pg_loaded P q -> kept_by_tests p q -> wp (c (acc ++ leaves x n keep)) Q t') ->
  wp (probe_leaves n x entry (Z.of_nat size) keep acc c) Q t.
Proof.
  induction n as [|n IH]; intros x acc p t Ht Hp HQ; cbn [probe_leaves].
  - unfold leaves in HQ. cbn in HQ. rewrite app_nil_r in HQ. by apply (HQ p).
  - apply (probe_leaf_spec _ p); [done|done|]. intros q1 t1 Ht1 Hv1 Hp1 K1. apply (IH _ _ q1); [done|done|].
    intros q2 t2 Ht2 Hv2 Hp2 K2. rewrite <- app_assoc, <- leaves_S. apply (HQ q2); [done|by etransitivity|done|by etransitivity].
Qed.

End Leaves.

(** *** Start *)

(** Where the announcement's text goes behind a program of [n] bytes, and where
    the next programs go. *)
Definition text_at (n : nat) : Z := Z.land (u32 (0x20000 + Z.of_nat n + 0xF)) (u32 (Z.lnot 0xF)).
Definition next_at (n : nat) : Z := u32 (text_at n + 256).

Lemma text_at_bounds n : (n <= 4096)%nat -> 0x20000 + Z.of_nat n <= text_at n <= 0x21010 /\ text_at n mod 16 = 0.
Proof.
  intros Hn. unfold text_at. change (Z.lnot 0xF) with (Z.lnot (2 ^ 4 - 1)).
  replace (u32 (Z.lnot (2 ^ 4 - 1))) with (u32 (Z.lnot (u32 (2 ^ 4 - 1)))) by reflexivity.
  rewrite (u32_small (2 ^ 4 - 1)) by lia. rewrite land_lnot_low by (lia || apply u32_range). rewrite u32_small by lia.
  change (2 ^ 4) with 16. Z.div_mod_to_equations. lia.
Qed.

Lemma next_at_bounds n : (n <= 4096)%nat -> next_at n = text_at n + 256 /\ next_at n mod 16 = 0.
Proof.
  intros Hn. destruct (text_at_bounds n Hn) as [Hb Hm]. unfold next_at. rewrite u32_small by lia. split; [done|]. Z.div_mod_to_equations. lia.
Qed.

Definition greeting : list Z := str "CPU tests commencing now. Be prepared" ++ [13; 10].

Section Start.
Context (announce : program "cpu/announce86.bin" 0x20000 4 0 (λ _, [])) (Hannounce : takes_input announce).
Abbreviation n0 := (length (pg_code announce)).
Context (floppy : program "misc/shutoff_floppy_motor.bin" (next_at n0) 0 0 (λ _, [])).

(** The announcement: the text and its pointer are stored, and the program that
    shows it is called. *)
Lemma announce_spec p t :
  resting p t -> pg_loaded announce p -> seg_announce86 t = 0x20000 -> seg_announce86_buffer t = text_at n0 ->
  wp (announce86_imm greeting) (λ r t', r = 1 /\ same_vars t t' /\ exists q, resting q t' /\ kept_by_tests p q) t.
Proof.
  intros Ht Hp Ea Eb. pose proof (pg_length _ _ _ _ _ announce) as Hl. destruct (text_at_bounds n0) as [Hb _]; [lia|].
  unfold announce86_imm. change (length greeting `min` 255)%nat with (length greeting). rewrite take_ge by done. cbv zeta. wp_step. wp_step.
  rewrite Eb. wp_step. apply (write_spec stream k p); [done|cbn; lia|]. intros t1 Ht1 Hv1. cbn [Z.eqb].
  wp_step. eapply write_spec; [exact Ht1|cbn; lia|]. intros t2 Ht2 Hv2. cbn [Z.eqb]. wp_step. wp_step.
  set (p2 := poke _ _ [0] _) in *.
  assert (forall a, ~ (text_at n0 <= a < text_at n0 + 40) -> p2 a = p a) as F2.
  { intros a Ha. unfold p2. rewrite !poke_direct; [done|lia|cbn; lia|unfold inside; cbn; lia|lia|cbn; lia|unfold inside; cbn; lia]. }
  assert (pg_loaded announce p2) as Hp2.
  { eapply pg_stable; [exact Hp|]. unfold inside. intros a Ha. apply F2. lia. }
  assert (seg_announce86 t2 = 0x20000) as Ea2 by (rewrite Hv2, Hv1; done).
  unfold announce86_call. wp_step. wp_step. rewrite Ea2. wp_step.
  eapply write_spec; [exact Ht2|cbn; lia|]. intros t3 Ht3 Hv3. cbn [Z.eqb]. wp_step.
  eapply (exec_seg_program announce ltac:(lia) ltac:(lia)); [done|exact Ht3|by apply Hannounce|lia|]. intros q t4 Ht4 Hv4 _ _ F4.
  cbn [Z.eqb]. wp_step. split_and!; [done|etransitivity; [exact Hv1|]; etransitivity; [exact Hv2|]; by etransitivity|].
  exists q. split; [done|]. apply (own_kept 0x20000 (Z.to_nat 0x2000)); [lia|lia|]. intros a Hout Hd. unfold inside in *.
  rewrite F4 by lia || done. rewrite poke_direct; [|lia|cbn; lia|unfold inside; cbn; lia]. apply F2. lia.
Qed.

Lemma start_spec p t :
  resting p t -> seg_alloc t = 0x20000 ->
  wp start_tests (λ ok t', ok = true /\ seg_alloc t' = next_at n0 /\ t_cpu t' = t_cpu t /\ exists q, resting q t' /\ kept_by_tests p q) t.
Proof.
  intros Ht Es. pose proof (pg_length _ _ _ _ _ announce) as Hl. pose proof (pg_length _ _ _ _ _ floppy) as Hl'.
  destruct (text_at_bounds n0) as [Hb _]; [lia|]. destruct (next_at_bounds n0) as [En Hm]; [lia|].
  unfold start_tests. wp_step. apply (test_spec p); [done|]. intros t1 Ht1 Hv1. wp_step. apply (test_spec p); [done|]. intros t2 Ht2 Hv2.
  apply need_spec. apply (test_spec p); [done|]. intros t3 Ht3 Hv3. split; [done|].
  apply need_spec. apply (mode_spec (str "8086") p); [by left|done|]. intros t4 Ht4 Hv4. split; [done|].
  assert (same_vars t t4) as Hv by (etransitivity; [exact Hv1|]; etransitivity; [exact Hv2|]; by etransitivity).
  assert (seg_alloc t4 = 0x20000) as Es4 by (rewrite Hv; done). wp_step. wp_step. rewrite Es4.
  apply (upload_program announce ltac:(lia) p); [done|]. intros q5 t5 Ht5 Hv5 Hp5 F5. cbv zeta. fold (text_at n0).
  change (u32 (text_at n0 + 256)) with (next_at n0). wp_step. wp_step. set (t6 := set_segments _ _ _ t5).
  assert (resting q5 t6) as Ht6 by (destruct Ht5; by split). wp_step. wp_step. change (seg_alloc t6) with (next_at n0).
  apply (upload_program floppy ltac:(lia) q5); [done|]. intros q7 t7 Ht7 Hv7 Hp7 F7. apply need_spec.
  apply (exec_seg_program floppy ltac:(lia) ltac:(lia) q7); [done|done|done|lia|]. intros q8 t8 Ht8 Hv8 _ _ F8. split; [done|].
  assert (same_vars t6 t8) as Hv68 by (by etransitivity).
  assert (pg_loaded announce q8) as Hp8.
  { eapply pg_stable; [exact Hp5|]. unfold inside, system_memory in *. intros a Ha. rewrite F8, F7 by lia. done. }
  apply need_spec. eapply wp_mono; [apply (announce_spec q8); [done|done|by rewrite Hv68|by rewrite Hv68]|].
  intros r t9 (-> & Hv9 & q9 & Ht9 & K9). split; [done|]. wp_step. split_and!; [done| | |].
  - by rewrite Hv9, Hv68.
  - rewrite Hv9, Hv68. cbn [t_cpu set_t_hist t6 set_segments]. rewrite Hv5. cbn [t_cpu set_t_hist]. by rewrite Hv.
  - exists q9. split; [done|]. etransitivity; [|exact K9]. apply (own_kept 0x20000 (Z.to_nat 0x3000)); [lia|lia|].
    unfold inside, system_memory in *. intros a Hout Hd. rewrite F8, F7, F5 by lia. done.
Qed.

End Start.

(** *** The A20 gate *)

(** The blocks that the test compares differ. *)
Definition gate_visible (p : Z -> Z) : Prop :=
  peek tg_decode p 0 32 <> peek tg_decode p 0x100000 32 /\ peek tg_decode p 0x100300 32 <> replicate 32 120.

Lemma peek_kept p q addr :
  kept_by_tests p q -> 0 <= addr -> addr + 32 <= 0x400 \/ 0x100000 <= addr <= 0x1F0000 ->
  peek tg_decode q addr 32 = peek tg_decode p addr 32.
Proof.
  intros K Ha Hout. unfold peek. apply list_fmap_ext. intros i x Hx. apply lookup_seq in Hx as [-> Hi].
  rewrite Hdecode by lia. apply K. unfold test_area, system_memory. lia.
Qed.

Lemma visible_open p q : gate_visible p -> kept_by_tests p q -> gate_open stream k q.
Proof.
  intros [Hz Hm] K. split.
  - intros i j Hi Hj. rewrite !Hdecode by lia. lia.
  - apply direct_separate; lia.
  - by rewrite !(peek_kept p q) by (done || lia).
  - by rewrite (peek_kept p q) by (done || lia).
Qed.

(** *** CPUID *)

Section Cpuid.
Context (regs : Z -> list Z) (Hregs : forall x, length (regs x) = 5%nat /\ Forall (λ r, 0 <= r < 4294967296) (regs x)).

Definition cpuid_answer (x : list Z) : list Z := x ++ concat (u32_bytes <$> regs (word_of x)).

(** EAX to EDX of [n] leaves from [x] on. *)
Definition registers (x : Z) (n : nat) : list Z := concat ((λ i, take 4 (regs (u32 (x + Z.of_nat i)))) <$> seq 0 n).

Lemma cpuid_words x : 0 <= x < 4294967296 -> words (cpuid_answer (u32_bytes x)) <$> [1; 2; 3; 4]%nat = take 4 (regs x).
Proof.
  intros Hx. unfold cpuid_answer. rewrite <- (app_nil_r (u32_bytes x)) at 2. rewrite word_u32_bytes by done.
  destruct (Hregs x) as [Hl Hr]. destruct (regs x) as [|a [|b [|c [|d [|e [|]]]]]]; try done.
  rewrite !Forall_cons in Hr. destruct Hr as (Ha & Hb & Hc & Hd & _). unfold words.
  change (concat (u32_bytes <$> [a; b; c; d; e])) with (u32_bytes a ++ u32_bytes b ++ u32_bytes c ++ u32_bytes d ++ u32_bytes e).
  cbn [fmap list_fmap take]. repeat f_equal.
  - exact (word_u32_bytes a _ Ha).
  - exact (word_u32_bytes b _ Hb).
  - exact (word_u32_bytes c _ Hc).
  - exact (word_u32_bytes d _ Hd).
Qed.

Lemma cpuid_leaves x n : leaves (f := cpuid_answer) x n [1; 2; 3; 4]%nat = registers x n.
Proof. unfold leaves, registers. f_equal. apply list_fmap_ext. intros i y _. apply cpuid_words, u32_range. Qed.

Context (P : program "cpu/cpuid_386-32.bin" 0x40000 0x18 24 cpuid_answer) (Hin : takes_input P).

(** What [test_cpuid] stores is what the processor says. *)
Lemma test_cpuid_spec p t :
  resting p t ->
  wp test_cpuid (λ ok t', ok = true /\ t_cpu t' = set_cpuid (t_cpu t) (decode_cpuid (registers 0 4) (registers 0x80000000 9) (cpuid (t_cpu t))) /\
    exists q, resting q t' /\ kept_by_tests p q) t.
Proof.
  intros Ht. pose proof (pg_length _ _ _ _ _ P) as Hl. unfold test_cpuid.
  apply need_spec. apply (mode_spec (str "8086") p); [by left|done|]. intros t1 Ht1 Hv1. split; [done|].
  apply need_spec. apply (mode_spec (str "386-32") p); [by do 3 right; left|done|]. intros t2 Ht2 Hv2. split; [done|].
  apply (upload_program P ltac:(lia) p); [done|]. intros q3 t3 Ht3 Hv3 Hp3 F3. change 0x18 with (Z.of_nat 24) at 2 4.
  apply (probe_leaves_spec P Hin ltac:(lia) ltac:(lia) _ _ _ _ _ _ q3); [done|done|]. intros q4 t4 Ht4 Hv4 Hp4 K4.
  apply (probe_leaves_spec P Hin ltac:(lia) ltac:(lia) _ _ _ _ _ _ q4); [done|done|]. intros q5 t5 Ht5 Hv5 Hp5 K5.
  unfold upd_cpu. wp_step. wp_step. wp_step. cbn [app]. rewrite !cpuid_leaves. split; [done|].
  assert (t_cpu t5 = t_cpu t) as -> by (rewrite Hv5, Hv4, Hv3, Hv2, Hv1; done). split; [done|].
  exists q5. split; [destruct Ht5; by split|]. etransitivity; [|exact K5]. etransitivity; [|exact K4].
  apply (own_kept 0x40000 (length (pg_code P))); [lia|lia|]. intros a Ha _. by apply F3.
Qed.

End Cpuid.

Lemma test_msrs_spec f (P : program "cpu/rdmsr_386-32.bin" 0x40000 0x10 16 f) p t :
  takes_input P -> resting p t -> wp test_msrs (λ ok t', ok = true /\ t_cpu t' = t_cpu t /\ exists q, resting q t' /\ kept_by_tests p q) t.
Proof.
  intros Hin Ht. pose proof (pg_length _ _ _ _ _ P) as Hl. unfold test_msrs.
  apply (upload_program P ltac:(lia) p); [done|]. intros q3 t3 Ht3 Hv3 Hp3 F3. change 0x10 with (Z.of_nat 16) at 2 4.
  apply (probe_leaves_spec P Hin ltac:(lia) ltac:(lia) _ _ _ _ _ _ q3); [done|done|]. intros q4 t4 Ht4 Hv4 Hp4 K4.
  apply (probe_leaves_spec P Hin ltac:(lia) ltac:(lia) _ _ _ _ _ _ q4); [done|done|]. intros q5 t5 Ht5 Hv5 Hp5 K5.
  wp_step. split_and!; [done|by rewrite Hv5, Hv4, Hv3|]. exists q5. split; [done|]. etransitivity; [|exact K5]. etransitivity; [|exact K4].
  apply (own_kept 0x40000 (length (pg_code P))); [lia|lia|]. intros a Ha _. by apply F3.
Qed.

(** ** The whole run, on a 486 or later *)

Section All.
Context (ud_result eflags_result ac_result : list Z) (regs : Z -> list Z) (msrs : list Z -> list Z).

(** The programs on the host's disk and what they find out. *)
Record test_disk : Type := {
  td_announce : program "cpu/announce86.bin" 0x20000 4 0 (λ _, []);
  td_announce_input : takes_input td_announce;
  td_segment := next_at (length (pg_code td_announce));
  td_floppy : program "misc/shutoff_floppy_motor.bin" td_segment 0 0 (λ _, []);
  td_ud86 : program "cpu/ud_exception_86.bin" td_segment 4 4 (λ _, ud_result);
  td_eflags : program "cpu/legacy_cpu_detect.bin" td_segment 4 4 (λ _, eflags_result);
  td_ud32 : program "cpu/ud_verify_386-32.bin" 0x40000 4 4 (λ _, u32_bytes 0x12345678);
  td_ac : program "cpu/ac_exception_386-32.bin" 0x40000 4 4 (λ _, ac_result);
  td_cpuid : program "cpu/cpuid_386-32.bin" 0x40000 0x18 24 (cpuid_answer regs);
  td_cpuid_input : takes_input td_cpuid;
  td_msr : program "cpu/rdmsr_386-32.bin" 0x40000 0x10 16 msrs;
  td_msr_input : takes_input td_msr
}.

(** A processor of revision 4 or later with CPUID. *)
Record modern_cpu : Prop := {
  mc_revision : 4 <= nth 0 eflags_result 0;
  mc_cpuid : nth 1 eflags_result 0 = 1;
  mc_ac : word_of ac_result = 0 \/ word_of ac_result = 0x12345678;
  mc_regs x : length (regs x) = 5%nat /\ Forall (λ r, 0 <= r < 4294967296) (regs x)
}.

(** The record that the results should give. *)
Definition found_out (c : x86_test_results) : x86_test_results :=
  let c := set_ud_pop c (is_one ud_result 0) (is_one ud_result 1) in
  let c := set_revision c 1 (nth 0 eflags_result 0) in
  let c := set_address_bits c 32 in
  let c := set_has_ac_exception c (if word_of ac_result =? 0x12345678 then 1 else 0) in
  set_cpuid c (decode_cpuid (registers regs 0 4) (registers regs 0x80000000 9) (cpuid c)).

Context (D : test_disk) (Hcpu : modern_cpu).

Lemma segment_bounds : 0x20000 <= td_segment D <= 0x4F000 /\ td_segment D mod 16 = 0.
Proof.
  pose proof (pg_length _ _ _ _ _ (td_announce D)). unfold td_segment. destruct (next_at_bounds (length (pg_code (td_announce D)))) as [-> Hm]; [lia|].
  destruct (text_at_bounds (length (pg_code (td_announce D)))); lia.
Qed.

Lemma part_spec (c : T bool) (d : T Z) Q t : wp c (λ ok t', ok = true /\ wp d Q t') t -> wp (part c d) Q t.
Proof. intros Hc. unfold part. wp_step. eapply wp_mono; [exact Hc|]. by intros ok t' [-> Hd]. Qed.

(** The state between two parts: the results so far, and memory outside the
    test area as at first. *)
Definition reached (p : Z -> Z) (seg : Z) (c : x86_test_results) (t : tester) : Prop :=
  seg_alloc t = seg /\ t_cpu t = c /\ exists q, resting q t /\ kept_by_tests p q.

Lemma reached_vars p seg c q q' t t' :
  seg_alloc t = seg -> t_cpu t = c -> kept_by_tests p q -> same_vars t t' -> resting q' t' -> kept_by_tests q q' -> reached p seg c t'.
Proof. intros Es Ec K Hv Ht' K'. split_and!; [by rewrite Hv|by rewrite Hv|]. exists q'. split; [done|by etransitivity]. Qed.

Lemma set_reached p seg c c' q t : seg_alloc t = seg -> resting q t -> kept_by_tests p q -> c' = c -> reached p seg c (set_t_cpu c' t).
Proof. intros Es [Hs Hc] K ->. split_and!; [done|done|]. exists q. by split. Qed.

Lemma ud86_spec p c t : reached p (td_segment D) c t ->
  wp test_ud86 (λ ok t', ok = true /\ reached p (td_segment D) (set_ud_pop c (is_one ud_result 0) (is_one ud_result 1)) t') t.
Proof.
  intros (Es & Ec & q & Ht & K). destruct segment_bounds. unfold test_ud86. apply (result86_spec _ _ _ (td_ud86 D) q); [done|done|done|done|].
  intros q' t' Ht' Hv K'. unfold upd_cpu. do 3 wp_step. split; [done|].
  apply (set_reached _ _ _ _ q'); [by rewrite Hv|done|by etransitivity|]. rewrite Hv. cbn [t_cpu set_t_hist]. by rewrite Ec.
Qed.

Lemma eflags_spec p c t : reached p (td_segment D) c t ->
  wp test_eflags (λ ok t', ok = true /\ reached p (td_segment D) (set_revision c 1 (nth 0 eflags_result 0)) t') t.
Proof.
  intros (Es & Ec & q & Ht & K). destruct segment_bounds. unfold test_eflags. apply (result86_spec _ _ _ (td_eflags D) q); [done|done|done|done|].
  intros q' t' Ht' Hv K'. unfold upd_cpu. do 3 wp_step. split; [done|].
  apply (set_reached _ _ _ _ q'); [by rewrite Hv|done|by etransitivity|]. rewrite Hv. cbn [t_cpu set_t_hist]. rewrite Ec. f_equal.
  unfold is_one. by rewrite (mc_cpuid Hcpu).
Qed.

Lemma ud32_spec p seg c t : reached p seg c t -> wp test_ud32 (λ ok t', ok = true /\ reached p seg c t') t.
Proof.
  intros (Es & Ec & q & Ht & K). unfold test_ud32.
  apply need_spec. apply (mode_spec (str "8086") q); [by left|done|]. intros t1 Ht1 Hv1. split; [done|].
  apply need_spec. apply (mode_spec (str "386-32") q); [by do 3 right; left|done|]. intros t2 Ht2 Hv2. split; [done|].
  apply (result32_spec _ _ (td_ud32 D) q); [done|]. intros q' t' Ht' Hv K'. change (word_of (u32_bytes 0x12345678)) with 0x12345678.
  cbn [Z.eqb Pos.eqb negb]. wp_step. split; [done|]. apply (reached_vars p seg c q q' t); [done|done|done| |done|done].
  etransitivity; [exact Hv1|]. by etransitivity.
Qed.

Lemma ac_spec p seg c t : reached p seg c t ->
  wp test_ac (λ ok t', ok = true /\ reached p seg (set_has_ac_exception c (if word_of ac_result =? 0x12345678 then 1 else 0)) t') t.
Proof.
  intros (Es & Ec & q & Ht & K). unfold test_ac. apply (result32_spec _ _ (td_ac D) q); [done|]. intros q' t' Ht' Hv K'.
  assert (negb (word_of ac_result =? 0) && negb (word_of ac_result =? 0x12345678) = false) as -> by (by destruct (mc_ac Hcpu) as [->| ->]).
  unfold upd_cpu. do 3 wp_step. split; [done|].
  apply (set_reached _ _ _ _ q'); [by rewrite Hv|done|by etransitivity|]. rewrite Hv. cbn [t_cpu set_t_hist]. by rewrite Ec.
Qed.

Lemma a20_reached p seg c t : gate_visible p -> reached p seg c t -> wp enable_a20 (λ ok t', ok = true /\ reached p seg c t') t.
Proof.
  intros Hg (Es & Ec & q & Ht & K). eapply wp_mono; [apply (enable_a20_open stream k q); [done|by apply (visible_open p)]|].
  intros ok t' (-> & Ht' & Hv). split; [done|]. by apply (reached_vars p seg c q q t).
Qed.

Lemma run_tests_spec p t :
  resting p t -> seg_alloc t = 0x20000 -> gate_visible p ->
  wp run_tests (λ r t', r = 0 /\ t_cpu t' = found_out (t_cpu t) /\ exists q, resting q t' /\ kept_by_tests p q) t.
Proof.
  intros Ht Es Hg. pose proof (mc_revision Hcpu) as Hrev. unfold run_tests. apply part_spec.
  eapply wp_mono; [apply (start_spec (td_announce D) (td_announce_input D) (td_floppy D) p t Ht Es)|].
  intros ok t1 (-> & Es1 & Ec1 & q1 & Ht1 & K1). split; [done|].
  assert (reached p (td_segment D) (t_cpu t) t1) as R1 by (split_and!; [done|done|by exists q1]). clear Es1 Ec1 Ht1 K1 q1.
  apply part_spec. eapply wp_mono; [exact (ud86_spec _ _ _ R1)|]. intros ok t2 [-> R2]. split; [done|].
  apply part_spec. eapply wp_mono; [exact (eflags_spec _ _ _ R2)|]. intros ok t3 [-> R3]. split; [done|].
  wp_step. wp_step. destruct R3 as (Es3 & Ec3 & q3 & Ht3 & K3). rewrite Ec3. cbn [std0to4_eflags_revision set_revision].
  unfold upd_cpu at 1. wp_step. wp_step. set (rev := nth 0 eflags_result 0) in *. set (t4 := set_t_cpu _ t3).
  assert (basic_address_bits rev = 32) as Eb by (unfold basic_address_bits; by rewrite (proj2 (Z.leb_le _ _)) by lia).
  assert (reached p (td_segment D) (set_address_bits (t_cpu t3) 32) t4) as R4.
  { subst t4. rewrite Eb. by apply (set_reached _ _ _ _ q3). }
  clearbody t4. rewrite Ec3 in R4. clear Ht3 K3 Es3 q3. rewrite (proj2 (Z.ltb_ge rev 2)) by lia.
  apply part_spec. apply need_spec. unfold enter_16bit. rewrite (proj2 (Z.leb_le 3 rev)) by lia.
  destruct R4 as (Es4 & Ec4 & q4 & Ht4 & K4). apply (mode_spec (str "386-16") q4); [by do 2 right; left|done|]. intros t5 Ht5 Hv5.
  split; [done|]. wp_step. split; [done|]. pose proof (reached_vars _ _ _ _ _ _ _ Es4 Ec4 K4 Hv5 Ht5 ltac:(done)) as R5.
  apply part_spec. eapply wp_mono; [exact (a20_reached _ _ _ _ Hg R5)|]. intros ok t6 [-> R6]. split; [done|].
  rewrite (proj2 (Z.ltb_ge rev 3)) by lia. apply part_spec. eapply wp_mono; [exact (ud32_spec _ _ _ _ R6)|]. intros ok t7 [-> R7]. split; [done|].
  apply part_spec. unfold test_popad. rewrite (proj2 (Z.eqb_neq rev 3)) by lia. wp_step. split; [done|].
  apply part_spec. eapply wp_mono; [exact (ac_spec _ _ _ _ R7)|]. intros ok t8 [-> (Es8 & Ec8 & q8 & Ht8 & K8)]. split; [done|].
  rewrite (proj2 (Z.ltb_ge rev 4)) by lia. wp_step. wp_step. rewrite Ec8.
  cbn [has_cpuid set_has_ac_exception set_address_bits set_revision Z.eqb negb].
  apply part_spec. eapply wp_mono; [apply (test_cpuid_spec regs (mc_regs Hcpu) (td_cpuid D) (td_cpuid_input D) q8 t8 Ht8)|].
  intros ok t9 (-> & Ec9 & q9 & Ht9 & K9). split; [done|]. rewrite Ec8 in Ec9. wp_step. wp_step. apply part_spec.
  assert (wp (if has_msr (cpuid (t_cpu t9)) then test_msrs else mret true)
    (λ ok t', ok = true /\ t_cpu t' = t_cpu t9 /\ exists q, resting q t' /\ kept_by_tests q9 q) t9) as Hm.
  { destruct (has_msr _); [exact (test_msrs_spec msrs (td_msr D) q9 t9 (td_msr_input D) Ht9)|]. wp_step. split_and!; [done|done|by exists q9]. }
  eapply wp_mono; [exact Hm|]. intros ok t10 (-> & Ec10 & q10 & Ht10 & K10). split; [done|]. wp_step. split_and!; [done| |].
  - rewrite Ec10, Ec9. done.
  - exists q10. split; [done|]. etransitivity; [exact K8|]. by etransitivity.
Qed.


End All.
End Run.

Arguments pg_code {_ _ _ _ _ _ _ _ _ _ _} _.
Arguments pg_loaded {_ _ _ _ _ _ _ _ _ _ _} _ _.

(** ** A machine with a Pentium *)

Section Pentium.

Definition pentium_regs (x : Z) : list Z :=
  if x =? 0 then [1; 0x756E6547; 0x6C65746E; 0x49656E69; 0] else if x =? 1 then [0x543; 0; 0; 0x1BF; 0] else [0; 0; 0; 0; 0].

Abbreviation decode24 := (Reference.decode 24 true).

(** Only the CPUID program computes anything; the others leave the results that
    their files hold. *)
Definition pentium_code (addr : Z) (p : Z -> Z) : Z -> Z :=
  if addr =? 0x40018 then poke decode24 0x40004 (concat (u32_bytes <$> pentium_regs (word_of (peek decode24 p 0x40000 4)))) p else p.

Definition pentium_disk : list (list Z * list Z) :=
  [(str "cpu/announce86.bin", replicate 32 0x90); (str "misc/shutoff_floppy_motor.bin", [0xCB]);
   (str "cpu/ud_exception_86.bin", [1; 0; 0; 0]); (str "cpu/legacy_cpu_detect.bin", [4; 1; 0; 0]);
   (str "cpu/ud_verify_386-32.bin", u32_bytes 0x12345678); (str "cpu/ac_exception_386-32.bin", u32_bytes 0x12345678);
   (str "cpu/cpuid_386-32.bin", replicate 32 0x90); (str "cpu/rdmsr_386-32.bin", replicate 16 0)].

#[local] Instance pentium_files : TestEnv | 0 := {|
  te_file := λ name, (λ e, e.2.2) <$> list_find (λ e, e.1 = name) pentium_disk;
  te_read := λ _ _ n, Z.of_nat n; te_scrap := λ _ _, []; te_select := λ _, 0; te_stdin := λ _, None
|}.

#[local] Instance pentium_env : SerialEnv | 0 := Reference.env 24 true megabyte pentium_code.

Lemma pentium_code_ext addr p q : (forall a, p a = q a) -> forall a, pentium_code addr p a = pentium_code addr q a.
Proof.
  intros E a. unfold pentium_code. destruct (addr =? 0x40018); [|apply E]. rewrite (peek_ext _ p q) by done. by apply poke_ext.
Qed.

#[local] Instance pentium_target : SerialTarget (Reference.stream 24 true megabyte pentium_code) 0 | 0 :=
  Reference.target 24 true megabyte pentium_code lines_24.
#[local] Instance pentium_exec : ExecTarget (Reference.stream 24 true megabyte pentium_code) 0 | 0 :=
  Reference.exec_target 24 true megabyte pentium_code lines_24 pentium_code_ext.

Abbreviation pentium_program := (program (Reference.stream 24 true megabyte pentium_code) 0).

Lemma pentium_decode a : 0 <= a < 0x200000 -> tg_decode a = a.
Proof. intros Ha. cbn [tg_decode pentium_target Reference.target]. unfold Reference.decode. cbv zeta. apply Z.mod_small. change (2 ^ 24) with 16777216. lia. Qed.

(** A program that holds its result. *)
Definition constant_program (file : string) (addr : Z) (out : list Z) :
  te_file (str file) = Some out -> length out = 4%nat -> 0 <= addr < 0x1F0000 -> (addr + 4 =? 0x40018) = false ->
  pentium_program file addr 4 4 (λ _, out).
Proof.
  intros Hf Hl Ha Hne.
  refine {| pg_code := out; pg_file := Hf; pg_loaded := λ p, peek tg_decode p addr 4 = out |}.
  - lia.
  - intros p E. by rewrite Hl in E.
  - intros p q E Hq. rewrite <- E. unfold peek. apply list_fmap_ext. intros i x Hx. apply lookup_seq in Hx as [-> Hi].
    rewrite pentium_decode by lia. apply Hq. unfold inside. lia.
  - intros p E q. assert (q = p) as -> by (subst q; cbn [tg_exec pentium_exec Reference.exec_target]; unfold pentium_code; by rewrite Hne). done.
Defined.

(** A program without a result. *)
Definition silent_program (file : string) (addr entry : Z) (code : list Z) :
  te_file (str file) = Some code -> (0 < length code <= 4096)%nat -> (addr + entry =? 0x40018) = false ->
  pentium_program file addr entry 0 (λ _, []).
Proof.
  intros Hf Hl Hne. refine {| pg_code := code; pg_file := Hf; pg_length := Hl; pg_loaded := λ _, True |}; [done|done|].
  intros p _ q. assert (q = p) as -> by (subst q; cbn [tg_exec pentium_exec Reference.exec_target]; unfold pentium_code; by rewrite Hne). done.
Defined.

Lemma peek_split (decode : Z -> Z) p addr m n : peek decode p addr (m + n) = peek decode p addr m ++ peek decode p (addr + Z.of_nat m) n.
Proof.
  rewrite <- (take_drop m (peek decode p addr (m + n))). f_equal.
  - unfold peek. rewrite <- fmap_take, take_seq. by replace (m `min` (m + n))%nat with m by lia.
  - rewrite <- peek_part. rewrite take_ge; [done|]. rewrite length_drop, length_peek. lia.
Qed.

Definition cpuid_program : pentium_program "cpu/cpuid_386-32.bin" 0x40000 0x18 24 (cpuid_answer pentium_regs).
Proof.
  assert (te_file (str "cpu/cpuid_386-32.bin") = Some (replicate 32 0x90)) as Hf by (vm_compute; reflexivity).
  refine {| pg_code := replicate 32 0x90; pg_file := Hf; pg_loaded := λ _, True |}; [cbn; lia|done|done|].
  intros p _ q. set (out := concat (u32_bytes <$> pentium_regs (word_of (peek tg_decode p 0x40000 4)))).
  assert (length out = 20%nat) as Hout by (subst out; unfold pentium_regs; by repeat case_match).
  assert (q = poke tg_decode 0x40004 out p) as -> by reflexivity. split; [done|]. split.
  - change 24%nat with (4 + 20)%nat. rewrite peek_split. unfold cpuid_answer. fold out. f_equal.
    + unfold peek. apply list_fmap_ext. intros i x Hx. apply lookup_seq in Hx as [-> Hi]. rewrite pentium_decode by lia.
      apply poke_outside. rewrite Hout. intros j Hj. rewrite pentium_decode by lia. lia.
    + rewrite <- Hout. apply peek_poke. rewrite Hout. intros i j Hi Hj E. rewrite !pentium_decode in E by lia. lia.
  - intros a Ha _. apply poke_outside. rewrite Hout. unfold inside in Ha. cbn [length replicate] in Ha. intros j Hj.
    rewrite pentium_decode by lia. lia.
Defined.

Definition msr_program : pentium_program "cpu/rdmsr_386-32.bin" 0x40000 0x10 16 (λ x, x ++ replicate 12 0).
Proof.
  assert (te_file (str "cpu/rdmsr_386-32.bin") = Some (replicate 16 0)) as Hf by (vm_compute; reflexivity).
  refine {| pg_code := replicate 16 0; pg_file := Hf; pg_loaded := λ p, peek tg_decode p 0x40004 12 = replicate 12 0 |}.
  - cbn. lia.
  - intros p E. apply (f_equal (drop 4)) in E. change (length (replicate 16 0)) with (4 + 12)%nat in E. rewrite peek_split in E.
    rewrite drop_app_length' in E by (by rewrite length_peek). exact E.
  - intros p q E Hq. rewrite <- E. unfold peek. apply list_fmap_ext. intros i x Hx. apply lookup_seq in Hx as [-> Hi].
    rewrite pentium_decode by lia. apply Hq. unfold inside. cbn [length replicate]. lia.
  - intros p E q. assert (q = p) as -> by reflexivity. split; [done|]. split; [|done].
    change 16%nat with (4 + 12)%nat. rewrite peek_split. f_equal. exact E.
Defined.

(** The files are there. *)
Ltac on_disk := vm_compute; reflexivity.

Definition announce_program : pentium_program "cpu/announce86.bin" 0x20000 4 0 (λ _, []) :=
  silent_program "cpu/announce86.bin" 0x20000 4 (replicate 32 0x90) ltac:(on_disk) ltac:(cbn; lia) eq_refl.

Abbreviation pentium_segment := (next_at (length (pg_code announce_program))).

Definition pentium_programs : test_disk (Reference.stream 24 true megabyte pentium_code) 0 [1; 0; 0; 0] [4; 1; 0; 0] (u32_bytes 0x12345678)
  pentium_regs (λ x, x ++ replicate 12 0).
Proof.
  assert (0 <= pentium_segment < 0x1F0000) as Hs by (vm_compute; split; [discriminate|reflexivity]).
  assert (te_file (str "misc/shutoff_floppy_motor.bin") = Some [0xCB]) as Hfloppy by on_disk.
  assert (te_file (str "cpu/ud_exception_86.bin") = Some [1; 0; 0; 0]) as Hud by on_disk.
  assert (te_file (str "cpu/legacy_cpu_detect.bin") = Some [4; 1; 0; 0]) as Hef by on_disk.
  assert (te_file (str "cpu/ud_verify_386-32.bin") = Some (u32_bytes 0x12345678)) as Hud32 by on_disk.
  assert (te_file (str "cpu/ac_exception_386-32.bin") = Some (u32_bytes 0x12345678)) as Hac by on_disk.
  refine {| td_announce := announce_program;
            td_floppy := silent_program "misc/shutoff_floppy_motor.bin" pentium_segment 0 [0xCB] Hfloppy ltac:(cbn; lia) eq_refl;
            td_ud86 := constant_program "cpu/ud_exception_86.bin" pentium_segment [1; 0; 0; 0] Hud eq_refl Hs eq_refl;
            td_eflags := constant_program "cpu/legacy_cpu_detect.bin" pentium_segment [4; 1; 0; 0] Hef eq_refl Hs eq_refl;
            td_ud32 := constant_program "cpu/ud_verify_386-32.bin" 0x40000 (u32_bytes 0x12345678) Hud32 eq_refl ltac:(lia) eq_refl;
            td_ac := constant_program "cpu/ac_exception_386-32.bin" 0x40000 (u32_bytes 0x12345678) Hac eq_refl ltac:(lia) eq_refl;
            td_cpuid := cpuid_program; td_msr := msr_program |}.
  - split; [cbn; lia|done].
  - split; [cbn; lia|done].
  - split; [cbn; lia|]. intros p x Hx E. cbn [pg_loaded msr_program] in *. rewrite <- E. unfold peek. apply list_fmap_ext.
    intros i y Hy. apply lookup_seq in Hy as [-> Hi]. rewrite pentium_decode by lia. apply poke_outside. rewrite Hx. intros j Hj.
    rewrite pentium_decode by lia. lia.
Defined.

Lemma pentium_reads (file : list Z) (off n : nat) : Z.of_nat n <= te_read file off n.
Proof. apply Z.le_refl. Qed.


End Pentium.
