(* ===== verification/Tools.v ===== *)
(** * The two command line tools (comm/e_test.c, comm/s_test.c)

    Both show the text screen of the machine they control, write a line on it,
    and upload and run a program.  [parse_argv] and [do_dumb_tty] of s_test.c are
    the same text as those of cpu_tests.c and are used from [CpuTests].
    Messages to stderr and the pause are left out. *)

From S2P Require Import Prelude Machine Memory Text ELib SLib CpuTests.

(** ** The screen *)

(** One character cell: [char] is signed, and what does not print is a blank. *)
Definition screen_char (b : Z) : Z := let c := s8 b in if (32 <=? c) && (c <? 0x7F) then c else 32.

Definition rule : list Z := [43] ++ replicate 80 45 ++ [43; 10].
Definition row (buf : list Z) (y : nat) : list Z :=
  [124] ++ ((λ x, screen_char (nth ((y * 80 + x) * 2) buf 0)) <$> seq 0 80) ++ [124; 10].
Definition show_screen (buf : list Z) : list Z := rule ++ concat (row buf <$> seq 0 25) ++ rule.

(** A line in yellow: [buf[x*2] = str[x]; buf[x*2+1] = 0x0E]. *)
Definition coloured (message : list Z) : list Z := concat ((λ c, [c; 0x0E]) <$> message).

(** ** e_test.c *)

Record e_tool : Type := mkETool { et_host : host; et_res : resources; et_out : list Z }.

Section ETest.
Context `{HostEnv} `{SocketEnv}.

Definition with_host {A} (c : H A) : SM e_tool A := λ t,
  match c (et_host t) with
  | inl e => inl e
  | inr (a, h) => inr (a, mkETool h (et_res t) (et_out t))
  end.
Definition with_res {A} (c : SM resources A) : SM e_tool A := λ t,
  match c (et_res t) with
  | inl e => inl e
  | inr (a, r) => inr (a, mkETool (et_host t) r (et_out t))
  end.
Definition e_print (l : list Z) : SM e_tool unit := modify (λ t, mkETool (et_host t) (et_res t) (et_out t ++ l)).

(** [file] is what [open("vga_puke_32.bin")] and [read] give: no file, or the
    first 4096 bytes ([] when [read] fails). *)
Definition e_test_main (argv : list (list Z)) (file : option (list Z)) : SM e_tool Z :=
  let addr := match argv with a :: _ => a | [] => str "192.168.250.254" end in
  c ← with_res (remote_eth_socket addr);
  match c with
  | None => mret 1
  | Some c =>
      ok ← with_host remote_eth_test;
      if ok =? 0 then mret 1 else
      r ← with_host (remote_eth_read 0xB8000 4096);
      match r with
      | None => mret 1
      | Some buffer =>
          e_print (show_screen buffer) ;;
          ok ← with_host (remote_eth_write 0xB8000 (coloured (str "I'm in ur ethernets haxin ur cpu")));
          if ok =? 0 then mret 1 else
          match file with
          | None => mret 1
          | Some code =>
              with_host (remote_eth_write 0x80000 (take 4096 code)) ;;
              with_host (remote_eth_exec 0x80000 600) ;;
              with_res (remote_eth_close c) ;;
              mret 0
          end
      end
  end.

End ETest.

(** ** s_test.c *)

Section STest.
Context `{SE : SerialEnv} `{TE : TestEnv}.

Definition s_print (l : list Z) : T unit := modify (λ t, set_t_stdout (t_stdout t ++ l) t).

(** The commands whose failure is only reported. *)
Definition s_modes : T unit :=
  serial remote_rs232_8086 ;;
  serial remote_rs232_8086 ;; serial remote_rs232_286 ;;
  serial remote_rs232_8086 ;; serial remote_rs232_386_16 ;;
  serial remote_rs232_8086 ;; serial remote_rs232_386_32 ;;
  serial remote_rs232_8086 ;; serial remote_rs232_x64 ;;
  serial remote_rs232_8086 ;; skip.

(** The text of these two is that of cpu_tests.c. *)
Definition s_parse_argv : list (list Z) -> options -> Z * options := parse_argv.
Definition s_do_dumb_tty : nat -> Z -> T unit := do_dumb_tty.

Definition s_test_main (opens : option (list Z) -> bool) (argv : list (list Z)) : T Z :=
  let '(r, o) := s_parse_argv argv (mkOptions (Some (str "/dev/ttyS0")) false) in
  if negb (r =? 0) then mret 1 else
  if negb (opens (stty_dev o)) then mret 1 else
  serial remote_rs232_configure ;;
  if dumb_tty o then s_do_dumb_tty ser_fuel 0 ;; mret 0 else
  serial remote_rs232_test ;; serial remote_rs232_test ;; serial remote_rs232_test ;;
  '(_, buf) ← rread 0xB8000 4000;
  s_print (show_screen buf) ;;
  s_modes ;;
  serial (remote_rs232_write 0xB8000 (coloured (str "LOL I PWN3D j00 HAX HAX"))) ;;
  match te_file (str "vga_puke.bin") with
  | None => mret 1
  | Some content =>
      let sz := te_read (str "vga_puke.bin") 0 4000 in
      if sz <=? 0 then halt Aborted else
      serial (remote_rs232_write 0x20000 (take (Z.to_nat sz) (take 4000 content))) ;;
      serial (remote_rs232_exec_seg_off 0x2000 0x0000 600) ;;
      mret 0
  end.

End STest.

(** ** What is printed *)

Lemma screen_char_range b : 32 <= screen_char b < 127.
Proof. unfold screen_char. case_bool; bool_to_prop; lia. Qed.

(** A printing character is shown as it is. *)
Lemma screen_char_same c : 32 <= c < 127 -> screen_char c = c.
Proof.
  intros Hc. unfold screen_char, s8. rewrite Z.mod_small by lia. replace (c + 128 - 128) with c by lia.
  rewrite (proj2 (Z.leb_le _ _)), (proj2 (Z.ltb_lt _ _)) by lia. done.
Qed.

Lemma length_row buf y : length (row buf y) = 83%nat.
Proof. unfold row. rewrite !length_app, length_fmap, length_seq. done. Qed.

Lemma length_rows buf l : length (concat (row buf <$> l)) = (83 * length l)%nat.
Proof. induction l as [|y l IH]; [done|]. rewrite fmap_cons. cbn [concat]. rewrite length_app, length_row, IH. cbn [length]. lia. Qed.

Lemma lookup_rows buf n : forall y i,
  (i < 83 * n)%nat -> concat (row buf <$> seq y n) !! i = row buf (y + i / 83) !! (i mod 83)%nat.
Proof.
  induction n as [|n IH]; intros y i Hi; [lia|]. cbn [seq fmap list_fmap concat]. destruct (Nat.lt_ge_cases i 83) as [Hlt|Hge].
  - rewrite lookup_app_l by (rewrite length_row; lia). rewrite Nat.div_small, Nat.mod_small by lia. by rewrite Nat.add_0_r.
  - rewrite lookup_app_r, length_row by (rewrite length_row; lia). change (fmap (row buf) (seq (S y) n)) with (row buf <$> seq (S y) n).
    rewrite IH by lia. replace i with (i - 83 + 1 * 83)%nat at 3 4 by lia. rewrite Nat.div_add, Nat.Div0.mod_add by lia. f_equal. f_equal. lia.
Qed.

(** The character of the cell in row [y] and column [x] is at that place inside
    the frame. *)
Theorem show_screen_cell buf x y :
  (x < 80)%nat -> (y < 25)%nat ->
  show_screen buf !! (83 * (y + 1) + 1 + x)%nat = Some (screen_char (nth ((y * 80 + x) * 2) buf 0)).
Proof.
  intros Hx Hy. unfold show_screen. rewrite lookup_app_r by (change (length rule) with 83%nat; lia). change (length rule) with 83%nat.
  pose proof (length_rows buf (seq 0 25)) as Hl. rewrite length_seq in Hl.
  rewrite lookup_app_l, lookup_rows by lia.
  replace (83 * (y + 1) + 1 + x - 83)%nat with (1 + x + y * 83)%nat by lia.
  rewrite Nat.div_add, Nat.Div0.mod_add, Nat.div_small, Nat.mod_small by lia. cbn [Nat.add]. unfold row.
  change (([124] ++ ?a ++ ?b) !! S x) with ((a ++ b) !! x). rewrite lookup_app_l by (rewrite length_fmap, length_seq; lia).
  rewrite list_lookup_fmap, lookup_seq_lt by lia. done.
Qed.

Lemma show_screen_cell_witness :
  show_screen (coloured (str "OK") ++ replicate (Z.to_nat 3996) 0) !! (83 * (0 + 1) + 1 + 1)%nat = Some 75.
Proof. rewrite (show_screen_cell _ 1 0); [vm_compute; reflexivity|lia|lia]. Defined.
